(* ===== verification/_CoqProject ===== *)
-Q . S2P
Prelude.v
RStr.v
RateLimit.v
Schema.v
Sys.v
External.v
Users.v
AuditLog.v
Net.v
Settings.v
Token.v
TokenFacts.v
Sessions.v
BrowserRetry.v
Keys.v
SessionDemo.v
Totp.v
Base32.v
TotpFacts.v
Application.v
ApplicationFacts.v
OidcCodes.v
OidcToken.v
Forward.v
ForwardFacts.v
TokenKinds.v
Http.v
LoginFlow.v
LoginFacts.v
LoginDemo.v
PolicyPath.v
ForwardAuth.v
ForwardAuthFacts.v
AppPasswords.v
LdapSchema.v
LdapFilter.v
LdapBer.v
LdapHandler.v
LdapFacts.v
LdapSearch.v
LdapServer.v
LdapConnection.v
Invitations.v
InvitationFacts.v
Accounts.v
AccountFacts.v
BrowserSecurity.v
Frame.v
OAuth.v
OAuthFacts.v
Passkeys.v
PasskeyFacts.v
TotpHandlers.v
AuditExport.v
SettingsHandlers.v
ApplicationHandlers.v
Cli.v
ClientAddress.v
Startup.v
LdapListener.v
SessionSpec.v
Routes.v
Server.v
Writes.v
WriteFacts.v
WellFormed.v
Lifecycle.v
System.v
SystemSpec.v
Access.v
Respond.v
Isolation.v
Main.v
SignIn.v
OAuthRun.v
EndpointDemo.v
SystemDemo.v
Standards.v
UnitTests.v
StoreTests.v
