(* ===== verification/Prelude.v ===== *)
(** * Authere: a verification library for the authentication server

    The repository is an identity server written in Rust (axum, sqlx on SQLite)
    under [src/server/src]: password, passkey and one-time-code login, browser
    sessions and their tokens, an OpenID Connect provider, forward
    authentication for reverse proxies, an LDAP directory, and the endpoints
    that administer all of it.  This development models that code and proves
    what makes it correct.  This file is its root; besides this overview it
    holds the result type, the option and table operations, the reflexive
    transitive closure and the automation every other file uses.

    ** How the program is modelled

    The server is a set of request handlers over one SQLite database and four
    in-memory rate limiters.  [Schema.v] is that database: a record of tables
    (lists of row records, in insertion order), the constraints its
    migrations declare, and the setters.  A handler is a program of the type
    [prog] of [Sys.v]: a sequence of atomic steps on the [World] (database,
    limiters, step counter), one step per SQL statement, limiter call, clock
    reading or random draw.  [run] executes a program; [pool_run] executes
    several, interleaved by a schedule.  A transaction is one step that commits
    or leaves no trace.  [M A] is [prog (result AppError A)], Rust's [async fn]
    with [?]; handlers with other error types use [bindE] and [convert] of
    [Http.v].  Storage faults, the clocks, randomness and the process
    environment are oracles of the class [Env], indexed by the step counter, so
    every statement may fail at any point and theorems hold for all oracles; the
    classes [Calm] (no faults) and [MonotoneClock] are assumed only where a
    theorem says that something succeeds, or needs time to pass.  That every
    step of a program is of some kind, whatever runs between its steps, is
    [respects_from]: what a step read from the clock or drew stays known to be a
    reading or a draw made since the program began, and [during] names the
    moments of a run.

    Libraries that are not part of the repository are parameters: classes of
    operations, with the documented behaviour the code relies on as classes of
    laws.  [External.v] has hashing, argon2, AEAD, HMAC, JWT, JSON, UUIDs and
    regexes, each with an instance cheap enough to evaluate; the witnesses run
    the theorems at those.  webauthn-rs is in [Passkeys.v], rand in
    [AppPasswords.v], the url crate in [External.v], ldap3_proto's types in
    [LdapSchema.v], [LdapHandler.v] and [LdapServer.v].

    Integers are [Z] with the bounds of their Rust type written out where the
    code checks or parses them ([RStr.v]: [parse_i64], [parse_unsigned];
    [RateLimit.v]: the u32 counters); bytes and UTF-8 text are [string], and
    [RStr.v] gives the string operations of Rust's standard library on them,
    [Net.v] its address parsers and printers.

    ** The files, by part of the program

    - Foundations: [Prelude.v], [RStr.v], [Schema.v], [Sys.v], [External.v],
      [Http.v] (headers, cookies, responses; [errors.rs], [auth_middleware.rs],
      [handlers/mod.rs]), [Frame.v] (which operations leave what unchanged, and
      the weakest preconditions used by the handlers' proofs).
    - Sessions: [Token.v], [TokenFacts.v], [Sessions.v], [BrowserRetry.v],
      [Keys.v], [SessionDemo.v], [SessionSpec.v] for [user/auth/token.rs]; [TokenKinds.v]
      compares the five kinds of credentials with each other.
    - Accounts: [Users.v], [Accounts.v], [AccountFacts.v] for [user/mod.rs], [user/auth/mod.rs], [role.rs],
      [handlers/user.rs] and [handlers/role.rs]; [Invitations.v] and
      [InvitationFacts.v] for [invitation.rs] and [handlers/registration.rs];
      [Cli.v] for [cli.rs].
    - Login: [LoginFlow.v], [LoginFacts.v], [LoginDemo.v] for the first part of
      [handlers/auth.rs]; [Totp.v], [Base32.v], [TotpFacts.v] for
      [user/auth/totp.rs], [TotpHandlers.v] for [handlers/totp.rs];
      [Passkeys.v], [PasskeyFacts.v] for [handlers/passkeys.rs]; [RateLimit.v] for [rate_limit.rs].
    - Forward authentication: [Application.v], [ApplicationFacts.v],
      [ApplicationHandlers.v] for [application.rs] and
      [handlers/application.rs]; [PolicyPath.v], [ForwardAuth.v],
      [ForwardAuthFacts.v] for the second part of
      [handlers/auth.rs]; [Forward.v], [ForwardFacts.v] for
      [user/auth/forward.rs].
    - OpenID Connect: [OidcCodes.v], [OidcToken.v] for [oidc/codes.rs] and
      [oidc/token.rs]; [OAuth.v], [OAuthFacts.v] for
      [handlers/oauth.rs] and [oidc/jwks.rs]; [OAuthRun.v] runs a login at a
      client application from its first to its last request.
    - Directory: [AppPasswords.v] for [app_passwords.rs] and its endpoints;
      [LdapSchema.v], [LdapFilter.v], [LdapHandler.v], [LdapBer.v],
      [LdapServer.v], [LdapConnection.v], [LdapListener.v] for the files of
      [ldap/], with [LdapFacts.v] and [LdapSearch.v].
    - Administration: [Settings.v] and [SettingsHandlers.v] for [settings.rs]
      and the settings and invitation endpoints of [handlers/admin.rs];
      [AuditLog.v] for [audit.rs], [AuditExport.v] for the log's endpoints,
      [ClientAddress.v] for the address a request is counted under.
    - The process: [Startup.v] for the state and the background tasks of
      [main.rs], [Main.v] for its command line, exit code and restarts,
      [Routes.v] for the routes of all endpoints, [Respond.v] for
      [static_files.rs], [BrowserSecurity.v] for [browser_security.rs].
    - The server as a whole: [Server.v] sends every decoded request ([Call]) to
      its handler ([serve]); [Respond.v] puts the router, the extractors and the
      browser filter around it ([respond]); [System.v] interleaves requests,
      directory messages, background rounds and the command line as
      [Activity]s.  [Writes.v] lists every statement that changes the database,
      as the constructors of [write], and each with what was
      checked before it and where its values come from: drawn or read from the
      clock since the run ([Run]) began, or validated.  [WriteFacts.v] shows that
      every activity only makes such writes; [WellFormed.v] has the declared
      constraints of the schema, what the handlers see to beyond them
      ([stored_ok]) and the rows of a new database, [Lifecycle.v] the moves a row
      with a life of its own makes, and [lived], what may have become of it.  On these rest
      [SystemSpec.v], [Access.v], [Isolation.v], [SignIn.v] and [OAuthRun.v];
      [SystemDemo.v] runs them at a fresh installation, and [EndpointDemo.v] the
      theorems of the endpoints at databases of their own.
    - The source's own tests: [UnitTests.v] and [StoreTests.v] run 326 of its unit
      tests on the model, at the hashes and encodings the standards prescribe
      ([Standards.v]); a disagreement with the code would show there.

    Operations keep their Rust names where those are free; a method [T::m] is
    [T_m], and a handler whose rate limit or transaction is split off has
    [.._limited] or [.._tx] beside it.

    ** What the theorems show

    - No forged or stale credential: an accepted access token was issued here,
      is unexpired and names a session in force; a revocation is final,
      whatever the whole server does afterwards; refreshing never extends a
      session; credentials of the five kinds are never confused ([Sessions.v],
      [System.v], [TokenKinds.v]).
    - An abstract specification: whatever the server does, every refresh token,
      authorization code, invitation, recovery code, second factor, directory
      handoff and passkey challenge there is in the end was there before and has
      since only made the moves of its kind, or was issued meanwhile on fresh
      randomness; so one used up never becomes usable again, nor one removed
      comes back ([Lifecycle.v], [SystemSpec.v]); between two sweeps the table of refresh
      tokens refines a machine that only ever moves forward ([SessionSpec.v]).
    - Who may do what: a protected endpoint acts only for a valid session, an
      administrator's only for a current administrator, and no other endpoint
      touches what administrators rule ([Access.v]); a user's own endpoints
      leave the rows of all others alone, but for challenges that have expired or
      that the request names ([Isolation.v]); a request another site makes a
      browser send is refused without a trace, or touches only sessions, codes,
      handoffs and the log ([Respond.v]).
    - Invariants of the whole server under every interleaving: the schema's
      unique and foreign keys hold; accounts, passwords, invitations, codes and
      second factors are as the handlers promise; the log only grows, no account loses its
      identity or state ([WellFormed.v], [System.v]), and a restart keeps the
      keys ([Main.v]).
    - Routing: every request that fits a route reaches exactly its handler, and
      pages and handlers do not shadow each other ([Routes.v], [Respond.v]).
    - Single use: of any number of interleaved attempts, at most one succeeds
      with a refresh token, one-time code, authorization code or passkey
      challenge, and at most as many with an invitation as it has uses left.
      All of them are instances of [pool_spends] ([Sys.v]): a program [spends] a
      resource when it cannot win without having removed one unit of it.
    - Logins rest on evidence, judged at moments of the very request: a password
      login on the password and, where enrolled, a second factor that it spends;
      a passkey login on a live challenge and a verified credential of an active
      user, both with exactly one new session; a directory bind on what the password mode asks for; a
      200 of the proxy endpoint on a session with a required role; tokens of
      the OpenID provider on an authenticated client and its own code.
    - Refusals leave no trace: a refused login writes only the audit log and
      does not tell why; failed changes of settings, passwords, second factors,
      applications or the first administrator change nothing.
    - Algorithms against their specification: policy selection refines an
      order-independent specification with ambiguity as an error; base32,
      substring filters and directory searches equal reference definitions;
      the path normaliser is canonical; the CSV export is read back by a parser.
    - Bounds, termination and availability: limiter budgets, the linear walk
      over BER frames of bounded depth, the number of directory connections, the
      forward login that completes within its minute, the sign-in that works
      for the whole life of its token ([SignIn.v]), the login at a client
      application that carries through from the authorization request to the
      user's claims ([OAuthRun.v]).
    - Composition: an open directory connection keeps resting on the current
      settings and discloses nothing before a bind, but for what an empty base
      name opens to anyone; the background sweeps are
      invisible to requests; a client behind proxies cannot choose the address
      it is counted under.

    Properties with hypotheses come with a witness, an execution at a concrete
    database ([*Demo.v], or a module [Demo] at the end of a file).

    ** Fuel and bounds

    Recursion of the code that is not structural has fuel, and enough of it:
    [decode_repeatedly] of the path normaliser (5) and [follow_retry] (16) count
    the rounds of bounded loops in the code; [ber_loop] has [ber_fuel], linear
    in the frame and proved sufficient; [chars_fuel] and [utf8_fuel] have the
    length of their input, of which each step consumes a byte
    ([chars_fuel_enough]); [drain] and [hex_digits] have more than the digits
    their argument can hold.

    ** Not modelled

    Logging ([tracing]); the descriptions and schemas of the OpenAPI attributes
    (their methods, paths and statuses are the routes) and the optional
    documentation pages; the parsing of the command line's arguments; opening
    the database and the statements of the migrations (the rows they insert are
    [migrated_db]); the CORS and tracing layers of [main.rs]; the static text of
    HTML pages (their variable parts are in the response bodies); axum's
    extractors and the rendering of JSON answers, which are the class
    [AxumRouter]; reading and writing of sockets: the directory's messages
    arrive decoded, after the BER guard.  [lib.rs] and [db/mod.rs] hold module
    declarations and a trait without code.  Dummy password checks, which only spend time, are
    left out where they do not change the result, and so is the record that
    [create_user] and [init_admin] print into the text of one internal error,
    which no client sees.  A transaction is atomic as
    SQLite makes it: a write transaction whose snapshot is overtaken is a
    storage fault. *)

From stdpp Require Export prelude strings gmap pretty.
From Stdlib Require Export ZArith Lia.

#[export] Set Default Goal Selector "!".

(** ** Results *)

(** Rust's [Result<A, E>]. *)
Inductive result (E A : Type) : Type :=
| Ok (a : A)
| Err (e : E).
Arguments Ok {E A} a.
Arguments Err {E A} e.

#[export] Instance result_eq_dec {E A} `{EqDecision E, EqDecision A} : EqDecision (result E A).
Proof. solve_decision. Defined.

Definition is_ok {E A} (r : result E A) : bool :=
  match r with Ok _ => true | Err _ => false end.

(** [Result::ok] *)
Definition ok {E A} (r : result E A) : option A :=
  match r with Ok a => Some a | Err _ => None end.

(** [Option::ok_or] *)
Definition ok_or {E A} (o : option A) (e : E) : result E A :=
  match o with Some a => Ok a | None => Err e end.

Lemma ok_or_Ok {E A} (o : option A) (e : E) a : ok_or o e = Ok a -> o = Some a.
Proof. destruct o; simpl; congruence. Qed.

(** ** Options, with Rust's combinators *)

Definition is_some {A} (o : option A) : bool :=
  match o with Some _ => true | None => false end.
Definition is_none {A} (o : option A) : bool := negb (is_some o).
Definition is_some_and {A} (o : option A) (p : A -> bool) : bool :=
  match o with Some a => p a | None => false end.
Definition is_none_or {A} (o : option A) (p : A -> bool) : bool :=
  match o with Some a => p a | None => true end.
Definition unwrap_or {A} (o : option A) (d : A) : A :=
  match o with Some a => a | None => d end.
Definition opt_filter {A} (p : A -> bool) (o : option A) : option A :=
  match o with Some a => if p a then Some a else None | None => None end.

Lemma opt_filter_Some {A} (p : A -> bool) o a :
  opt_filter p o = Some a <-> o = Some a /\ p a = true.
Proof. destruct o as [b|]; simpl; [destruct (p b) eqn:E|]; split; intros H; intuition congruence. Qed.

(** SQL's [x = y], [x IS NULL] and comparisons on nullable columns: a
    comparison with NULL is not true. *)
Definition sql_lt (a : option Z) (b : Z) : bool :=
  match a with Some x => (x <? b)%Z | None => false end.
Definition sql_le (a : option Z) (b : Z) : bool :=
  match a with Some x => (x <=? b)%Z | None => false end.

(** ** Numeric bounds *)

Definition i64_max : Z := 9223372036854775807.
Definition i64_min : Z := -9223372036854775808.
Definition u32_max : Z := 4294967295.

(** [i64::clamp] *)
Definition clamp (x lo hi : Z) : Z := Z.min (Z.max x lo) hi.

Lemma clamp_range x lo hi : (lo <= hi)%Z -> (lo <= clamp x lo hi <= hi)%Z.
Proof. unfold clamp. lia. Qed.

Lemma clamp_id x lo hi : (lo <= x <= hi)%Z -> clamp x lo hi = x.
Proof. unfold clamp. lia. Qed.

(** ** Boolean tests on decidable equality *)

Definition beq {A} `{EqDecision A} (x y : A) : bool := bool_decide (x = y).

Lemma beq_eq {A} `{EqDecision A} (x y : A) : beq x y = true <-> x = y.
Proof. unfold beq. apply bool_decide_eq_true. Qed.

Lemma beq_neq {A} `{EqDecision A} (x y : A) : beq x y = false <-> x <> y.
Proof. unfold beq. apply bool_decide_eq_false. Qed.

Lemma beq_refl {A} `{EqDecision A} (x : A) : beq x x = true.
Proof. by apply beq_eq. Qed.

#[export] Hint Rewrite @beq_refl : authere.

(** Turn boolean hypotheses into propositions. *)
Ltac bool_hyp :=
  repeat match goal with
  | H : _ && _ = true |- _ => apply andb_true_iff in H as [? ?]
  | H : _ || _ = false |- _ => apply orb_false_iff in H as [? ?]
  | H : negb _ = true |- _ => apply negb_true_iff in H
  | H : negb _ = false |- _ => apply negb_false_iff in H
  | H : beq ?x ?y = true |- _ => apply (proj1 (beq_eq x y)) in H
  | H : beq ?x ?y = false |- _ => apply (proj1 (beq_neq x y)) in H
  | H : (_ <=? _)%Z = true |- _ => apply Z.leb_le in H
  | H : (_ <=? _)%Z = false |- _ => apply Z.leb_gt in H
  | H : (_ <? _)%Z = true |- _ => apply Z.ltb_lt in H
  | H : (_ <? _)%Z = false |- _ => apply Z.ltb_ge in H
  | H : (_ <=? _)%nat = true |- _ => apply Nat.leb_le in H
  | H : (_ <=? _)%nat = false |- _ => apply Nat.leb_gt in H
  | H : (_ <? _)%nat = true |- _ => apply Nat.ltb_lt in H
  | H : (_ <? _)%nat = false |- _ => apply Nat.ltb_ge in H
  | H : (_ =? _)%nat = true |- _ => apply Nat.eqb_eq in H
  | H : (_ =? _)%nat = false |- _ => apply Nat.eqb_neq in H
  | H : (_ =? _)%Z = true |- _ => apply Z.eqb_eq in H
  | H : (_ =? _)%Z = false |- _ => apply Z.eqb_neq in H
  end.

(** Case analysis on the scrutinee of a match in a hypothesis. *)
Ltac case_in H :=
  match type of H with
  | context [match ?x with _ => _ end] => destruct x eqn:?
  end.

(** ** Tables

    A table is the list of its rows in insertion (rowid) order.  The
    operations are the SQL statements the server issues: a [SELECT] that
    fetches the first matching row or all of them, an [UPDATE] and a [DELETE]
    that report how many rows they affected. *)
Section Tables.
Context {R : Type}.
Implicit Types (p : R -> bool) (t : list R).

Definition select p t : list R := List.filter p t.
Definition fetch p t : option R := List.find p t.
Definition count p t : nat := length (select p t).
Definition update p (f : R -> R) t : list R :=
  map (fun r => if p r then f r else r) t.
Definition delete p t : list R := List.filter (fun r => negb (p r)) t.

Lemma fetch_Some p t r : fetch p t = Some r -> r ∈ t /\ p r = true.
Proof. intros H. apply List.find_some in H. by rewrite <- list_elem_of_In in H. Qed.

Lemma fetch_None p t : fetch p t = None <-> forall r, r ∈ t -> p r = false.
Proof.
  split.
  - intros H r Hr. apply (List.find_none _ _ H). by apply list_elem_of_In.
  - induction t as [|x t IH]; simpl; intros H; [done|].
    rewrite H by set_solver. apply IH. set_solver.
Qed.

Lemma elem_of_select p t r : r ∈ select p t <-> r ∈ t /\ p r = true.
Proof. unfold select. rewrite !list_elem_of_In. apply List.filter_In. Qed.

Lemma elem_of_delete p t r : r ∈ delete p t <-> r ∈ t /\ p r = false.
Proof.
  unfold delete. rewrite !list_elem_of_In, List.filter_In.
  by rewrite negb_true_iff.
Qed.

Lemma elem_of_update p f t r :
  r ∈ update p f t <-> exists r0, r0 ∈ t /\ r = (if p r0 then f r0 else r0).
Proof.
  unfold update. rewrite list_elem_of_In, List.in_map_iff.
  split; intros (r0 & H1 & H2); exists r0; rewrite ?list_elem_of_In in *; intuition.
Qed.

Lemma count_cons p r t : count p (r :: t) = ((if p r then 1 else 0) + count p t)%nat.
Proof. unfold count, select. simpl. by destruct (p r). Qed.

Lemma count_nil p : count p [] = 0%nat.
Proof. done. Qed.

Lemma count_app p t1 t2 : count p (t1 ++ t2) = (count p t1 + count p t2)%nat.
Proof. unfold count, select. by rewrite List.filter_app, length_app. Qed.

Lemma count_pos p t : (0 < count p t)%nat <-> exists r, r ∈ t /\ p r = true.
Proof.
  unfold count. split.
  - destruct (select p t) as [|r l] eqn:E; simpl; [lia|]. intros _.
    exists r. apply elem_of_select. rewrite E. set_solver.
  - intros (r & H). apply elem_of_select in H.
    destruct (select p t); [set_solver|simpl; lia].
Qed.

Lemma count_zero p t : count p t = 0%nat <-> forall r, r ∈ t -> p r = false.
Proof.
  split.
  - intros H r Hr. destruct (p r) eqn:E; [|done].
    assert (0 < count p t)%nat by (apply count_pos; eauto). lia.
  - intros H. destruct (count p t) eqn:E; [done|].
    assert (0 < count p t)%nat as Hp by lia.
    apply count_pos in Hp as (r & Hr & Hpr). rewrite H in Hpr; done.
Qed.

Lemma update_cons p f r t :
  update p f (r :: t) = (if p r then f r else r) :: update p f t.
Proof. done. Qed.

Lemma delete_cons p r t :
  delete p (r :: t) = (if p r then delete p t else r :: delete p t).
Proof. unfold delete. simpl. by destruct (p r). Qed.

(** An [UPDATE] that makes every row it touches fail [q], and touches only
    rows that satisfy [q], removes exactly the affected rows from the
    count of [q]. *)
Lemma count_update_spend p q f t :
  (forall r, p r = true -> q r = true /\ q (f r) = false) ->
  (count q (update p f t) + count p t = count q t)%nat.
Proof.
  intros H. induction t as [|r t IH]; [done|].
  rewrite update_cons, !count_cons. destruct (p r) eqn:E.
  - destruct (H _ E) as [-> ->]. lia.
  - lia.
Qed.

(** An [UPDATE] that never makes a row satisfy [q]. *)
Lemma count_update_le p q f t :
  (forall r, r ∈ t -> p r = true -> q (f r) = true -> q r = true) ->
  (count q (update p f t) <= count q t)%nat.
Proof.
  induction t as [|r t IH]; intros H; [done|].
  rewrite update_cons, !count_cons.
  assert (IH' : (count q (update p f t) <= count q t)%nat).
  { apply IH. intros r' Hr'. apply H. set_solver. }
  destruct (p r) eqn:E; [|lia].
  destruct (q (f r)) eqn:E1; [|lia].
  rewrite (H r); [lia|set_solver|done|done].
Qed.

Lemma count_delete_le p q t : (count q (delete p t) <= count q t)%nat.
Proof.
  induction t as [|r t IH]; [done|].
  rewrite delete_cons, count_cons. destruct (p r); [|rewrite count_cons]; lia.
Qed.

(** A [DELETE] of rows that all satisfy [q] lowers [count q] by the number
    of rows deleted. *)
Lemma count_delete_spend p q t :
  (forall r, p r = true -> q r = true) ->
  (count q (delete p t) + count p t = count q t)%nat.
Proof.
  intros H. induction t as [|r t IH]; [done|].
  rewrite delete_cons, !count_cons. destruct (p r) eqn:E.
  - rewrite (H _ E). lia.
  - rewrite count_cons. lia.
Qed.

Lemma count_le p q t :
  (forall r, r ∈ t -> p r = true -> q r = true) -> (count p t <= count q t)%nat.
Proof.
  induction t as [|r t IH]; intros H; [done|]. rewrite !count_cons.
  assert (count p t <= count q t)%nat by (apply IH; intros r' ?; apply H; set_solver).
  destruct (p r) eqn:E; [|lia]. rewrite (H r); [lia|set_solver|done].
Qed.

Lemma update_id p f t : (forall r, r ∈ t -> p r = false) -> update p f t = t.
Proof.
  induction t as [|r t IH]; intros H; [done|].
  rewrite update_cons, H by set_solver. f_equal. apply IH. set_solver.
Qed.

Lemma fetch_update_other p q f t :
  (forall r, q (f r) = q r) ->
  fetch q (update p f t) = (fun r => if p r then f r else r) <$> fetch q t.
Proof.
  intros H. induction t as [|r t IH]; [done|].
  simpl. destruct (p r) eqn:Ep.
  - rewrite H. destruct (q r) eqn:E; simpl; [by rewrite Ep|apply IH].
  - destruct (q r) eqn:E; simpl; [by rewrite Ep|apply IH].
Qed.

Lemma select_app p t1 t2 : select p (t1 ++ t2) = select p t1 ++ select p t2.
Proof. apply List.filter_app. Qed.

(** An [UPDATE] that does not move rows in or out of a selection. *)
Lemma select_update p q f t :
  (forall r, q (f r) = q r) -> select q (update p f t) = update p f (select q t).
Proof.
  intros H. induction t as [|r t IH]; [done|]. rewrite update_cons. unfold select in *. simpl.
  destruct (p r) eqn:E; rewrite ?H; destruct (q r); rewrite IH; unfold update; simpl; by rewrite ?E.
Qed.

Lemma select_delete p t : select p (delete p t) = [].
Proof.
  induction t as [|r t IH]; [done|]. rewrite delete_cons. destruct (p r) eqn:E; [done|].
  unfold select in *. simpl. by rewrite E.
Qed.

Lemma select_not_delete p t : select (fun r => negb (p r)) (delete p t) = select (fun r => negb (p r)) t.
Proof.
  induction t as [|r t IH]; [done|]. rewrite delete_cons. unfold select in *. simpl.
  destruct (p r) eqn:E; simpl; [done|]. by rewrite E, IH.
Qed.

Lemma fetch_app q t1 t2 :
  fetch q (t1 ++ t2) = match fetch q t1 with Some r => Some r | None => fetch q t2 end.
Proof. induction t1 as [|r t1 IH]; [done|]. simpl. by destruct (q r). Qed.

Lemma fetch_delete_ne p q t :
  (forall r, q r = true -> p r = false) -> fetch q (delete p t) = fetch q t.
Proof.
  intros H. induction t as [|r t IH]; [done|]. rewrite delete_cons. simpl.
  destruct (q r) eqn:E.
  - rewrite (H _ E). simpl. by rewrite E.
  - destruct (p r); simpl; [|rewrite E]; apply IH.
Qed.
End Tables.

(** *** Tables with a key *)

Lemma fetch_key_unique {R K} `{EqDecision K} (key : R -> K) k p (t : list R) :
  NoDup (map key t) -> (forall r, p r = true -> key r = k) ->
  fetch p t = opt_filter p (fetch (fun r => beq (key r) k) t) /\
  count p t = (if is_some (fetch p t) then 1 else 0)%nat.
Proof.
  intros Hnd Hp. induction t as [|r t IH]; [done|].
  apply NoDup_cons in Hnd as [Hn Hnd]. destruct (IH Hnd) as [IH1 IH2]. rewrite count_cons, IH2.
  unfold fetch in *. simpl. destruct (p r) eqn:Epr.
  - rewrite (proj2 (beq_eq _ _) (Hp r Epr)). simpl. rewrite Epr. split; [done|].
    destruct (List.find p t) as [r'|] eqn:Ef; [|done]. exfalso. apply Hn.
    apply List.find_some in Ef as [Hin Hr']. apply list_elem_of_fmap. exists r'.
    split; [by rewrite (Hp _ Epr), (Hp _ Hr')|by apply list_elem_of_In].
  - destruct (beq (key r) k) eqn:Ek; [|by split]. simpl. rewrite Epr. bool_hyp. subst k.
    destruct (List.find p t) as [r'|] eqn:Ef; [|done]. exfalso. apply Hn.
    apply List.find_some in Ef as [Hin Hr']. apply list_elem_of_fmap. exists r'.
    split; [by rewrite (Hp _ Hr')|by apply list_elem_of_In].
Qed.

Lemma fetch_key_elem {R K} `{EqDecision K} (key : R -> K) (t : list R) r :
  NoDup (map key t) -> r ∈ t -> fetch (fun r' => beq (key r') (key r)) t = Some r.
Proof.
  intros Hnd Hr. induction t as [|x t IH]; [set_solver|].
  apply NoDup_cons in Hnd as [Hn Hnd]. unfold fetch. simpl.
  apply elem_of_cons in Hr as [->|Hr]; [by rewrite beq_refl|].
  destruct (beq (key x) (key r)) eqn:E1; [|by apply IH]. exfalso. bool_hyp. apply Hn.
  apply list_elem_of_fmap. by exists r.
Qed.

Lemma update_ext {R} (p q : R -> bool) f t :
  (forall r, r ∈ t -> p r = q r) -> update p f t = update q f t.
Proof.
  intros Hpq. unfold update. apply map_ext_in. intros r Hr. rewrite Hpq; [done|].
  by apply list_elem_of_In.
Qed.

Lemma existsb_false_elem {A} (p : A -> bool) l x : existsb p l = false -> x ∈ l -> p x = false.
Proof.
  intros H Hx. apply not_true_iff_false. intros Hp. apply not_true_iff_false in H. apply H, existsb_exists.
  exists x. split; [by apply list_elem_of_In|done].
Qed.

Lemma length_delete {A} (p : A -> bool) l : (length (delete p l) + count p l = length l)%nat.
Proof.
  induction l as [|r l IH]; [done|]. rewrite delete_cons, count_cons. destruct (p r); cbn [length]; lia.
Qed.
Lemma delete_sublist {A} (p : A -> bool) l : sublist (delete p l) l.
Proof.
  induction l as [|r l IH]; [constructor|]. rewrite delete_cons. destruct (p r); by constructor.
Qed.

Lemma select_delete_disjoint {A} (p q : A -> bool) l :
  (forall r, p r = true -> q r = false) -> select q (delete p l) = select q l.
Proof.
  intros H. induction l as [|r l IH]; [done|]. rewrite delete_cons. unfold select in *. cbn [List.filter].
  destruct (p r) eqn:Ep; [by rewrite (H _ Ep)|]. cbn [List.filter]. by rewrite IH.
Qed.

#[export] Hint Rewrite @elem_of_select @elem_of_delete : tables.

(** ** Reflexive transitive closure of a step relation *)
Inductive star {A : Type} (R : A -> A -> Prop) : A -> A -> Prop :=
| star_refl a : star R a a
| star_step a b c : R a b -> star R b c -> star R a c.

Lemma star_one {A} (R : A -> A -> Prop) a b : R a b -> star R a b.
Proof. eauto using star. Qed.

Lemma star_trans {A} (R : A -> A -> Prop) a b c : star R a b -> star R b c -> star R a c.
Proof. induction 1; eauto using star. Qed.

(** Rule induction with an invariant. *)
Lemma star_invariant {A} (R : A -> A -> Prop) (I : A -> Prop) a b :
  (forall x y, I x -> R x y -> I y) -> star R a b -> I a -> I b.
Proof. intros H Hs. induction Hs; eauto. Qed.

#[export] Hint Constructors star : authere.
#[export] Hint Resolve star_one : authere.

(** ** [ORDER BY] a text column (binary collation) *)
Section OrderBy.
Context {R : Type} (key : R -> string).

Fixpoint insert_by (r : R) (l : list R) : list R :=
  match l with
  | [] => [r]
  | x :: l' => if String.leb (key r) (key x) then r :: l else x :: insert_by r l'
  end.

Definition order_by (l : list R) : list R := foldr insert_by [] l.

Lemma insert_by_perm r l : insert_by r l ≡ₚ r :: l.
Proof.
  induction l as [|x l IH]; simpl; [done|].
  destruct (String.leb _ _); [done|]. rewrite IH. by constructor.
Qed.

Lemma order_by_perm l : order_by l ≡ₚ l.
Proof. induction l as [|x l IH]; simpl; [done|]. by rewrite insert_by_perm, IH. Qed.
End OrderBy.
