(* ===== verification/RStr.v ===== *)
(** * Rust's [str] operations

    A [&str] is the string of its UTF-8 bytes.  The server's string handling
    is byte oriented ([len], [split], [starts_with], [eq_ignore_ascii_case]);
    the operations that look at characters ([trim], [char::is_whitespace],
    [char::is_control]) are written on the UTF-8 encodings of the characters
    concerned, which is exact on well-formed UTF-8. *)

From S2P Require Import Prelude.
From Stdlib Require Export Ascii.
Local Open Scope string_scope.

#[export] Set Default Goal Selector "!".
#[global] Arguments String.append !_ _ / : simpl nomatch.

(** ** Bytes *)

Definition code (a : ascii) : N := N_of_ascii a.
Definition byte_of (n : N) : ascii := ascii_of_N n.
Definition in_range (lo hi : N) (a : ascii) : bool :=
  ((lo <=? code a)%N && (code a <=? hi)%N)%bool.

Definition is_ascii_digit (a : ascii) : bool := in_range 48 57 a.
Definition is_ascii_upper (a : ascii) : bool := in_range 65 90 a.
Definition is_ascii_lower (a : ascii) : bool := in_range 97 122 a.
Definition is_ascii_alphanumeric (a : ascii) : bool :=
  is_ascii_digit a || is_ascii_upper a || is_ascii_lower a.
Definition is_ascii_hexdigit (a : ascii) : bool :=
  is_ascii_digit a || in_range 65 70 a || in_range 97 102 a.
Definition is_ascii_control (a : ascii) : bool := in_range 0 31 a || beq (code a) 127%N.
Definition is_ascii_whitespace (a : ascii) : bool :=
  in_range 9 10 a || in_range 12 13 a || beq (code a) 32%N.

Definition ascii_lower (a : ascii) : ascii :=
  if is_ascii_upper a then byte_of (code a + 32) else a.
Definition ascii_upper (a : ascii) : ascii :=
  if is_ascii_lower a then byte_of (code a - 32) else a.

(** ** Strings as byte sequences *)

Fixpoint string_map (f : ascii -> ascii) (s : string) : string :=
  match s with "" => "" | String a s' => String (f a) (string_map f s') end.

Fixpoint all_bytes (p : ascii -> bool) (s : string) : bool :=
  match s with "" => true | String a s' => p a && all_bytes p s' end.

Definition any_byte (p : ascii -> bool) (s : string) : bool :=
  negb (all_bytes (fun a => negb (p a)) s).

Fixpoint rev_append_string (s acc : string) : string :=
  match s with "" => acc | String a s' => rev_append_string s' (String a acc) end.
Definition rev_string (s : string) : string := rev_append_string s "".

Definition is_empty (s : string) : bool := match s with "" => true | _ => false end.

Definition contains_byte (c : ascii) (s : string) : bool := any_byte (beq c) s.

Definition to_ascii_lowercase (s : string) : string := string_map ascii_lower s.

(** [str::eq_ignore_ascii_case] *)
Definition eq_ignore_ascii_case (s t : string) : bool :=
  beq (to_ascii_lowercase s) (to_ascii_lowercase t).

(** [str::strip_prefix] and [str::starts_with] *)
Fixpoint strip_prefix (p s : string) : option string :=
  match p, s with
  | "", _ => Some s
  | String a p', String b s' => if beq a b then strip_prefix p' s' else None
  | _, "" => None
  end.
Definition starts_with (p s : string) : bool := is_some (strip_prefix p s).

(** [str::ends_with] *)
Definition ends_with (p s : string) : bool := starts_with (rev_string p) (rev_string s).

(** [str::find] of a substring: the byte offset of the first occurrence. *)
Fixpoint str_find (p s : string) : option nat :=
  if starts_with p s then Some 0%nat
  else match s with "" => None | String _ s' => S <$> str_find p s' end.

(** [&s[n..]] *)
Fixpoint drop_bytes (n : nat) (s : string) : string :=
  match n, s with O, _ => s | S n', String _ s' => drop_bytes n' s' | _, "" => "" end.
(** [&s[..n]] *)
Fixpoint take_bytes (n : nat) (s : string) : string :=
  match n, s with S n', String a s' => String a (take_bytes n' s') | _, _ => "" end.

(** [str::split] on one byte. *)
Fixpoint split_byte (c : ascii) (s : string) : list string :=
  match s with
  | "" => [""]
  | String a s' =>
      if beq a c then "" :: split_byte c s'
      else match split_byte c s' with
           | h :: t => String a h :: t
           | [] => [String a ""]
           end
  end.

(** [str::split_once] on one byte. *)
Fixpoint split_once (c : ascii) (s : string) : option (string * string) :=
  match s with
  | "" => None
  | String a s' =>
      if beq a c then Some ("", s')
      else match split_once c s' with
           | Some (l, r) => Some (String a l, r)
           | None => None
           end
  end.

(** [<[String]>::join] *)
Fixpoint join (sep : string) (l : list string) : string :=
  match l with
  | [] => ""
  | [s] => s
  | s :: l' => s +:+ sep +:+ join sep l'
  end.

(** ** White space

    [char::is_whitespace] is Unicode's White_Space: one-byte characters
    U+0009..U+000D and U+0020, two-byte U+0085 and U+00A0, three-byte U+1680,
    U+2000..U+200A, U+2028, U+2029, U+202F, U+205F and U+3000. *)
Definition ws1 (a : ascii) : bool := in_range 9 13 a || beq (code a) 32%N.
Definition ws2 (a b : ascii) : bool :=
  beq (code a) 194%N && (beq (code b) 133%N || beq (code b) 160%N).
Definition ws3 (a b c : ascii) : bool :=
  (beq (code a) 225%N && beq (code b) 154%N && beq (code c) 128%N)
  || (beq (code a) 226%N && beq (code b) 128%N
      && (in_range 128 138 c || beq (code c) 168%N || beq (code c) 169%N || beq (code c) 175%N))
  || (beq (code a) 226%N && beq (code b) 129%N && beq (code c) 159%N)
  || (beq (code a) 227%N && beq (code b) 128%N && beq (code c) 128%N).

Fixpoint trim_with (w2 : ascii -> ascii -> bool) (w3 : ascii -> ascii -> ascii -> bool)
    (s : string) : string :=
  match s with
  | "" => ""
  | String a s1 =>
      if ws1 a then trim_with w2 w3 s1 else
      match s1 with
      | "" => s
      | String b s2 =>
          if w2 a b then trim_with w2 w3 s2 else
          match s2 with
          | "" => s
          | String c s3 => if w3 a b c then trim_with w2 w3 s3 else s
          end
      end
  end.

(** [str::trim_start], [str::trim_end], [str::trim] *)
Definition trim_start (s : string) : string := trim_with ws2 ws3 s.
Definition trim_end (s : string) : string :=
  rev_string (trim_with (fun a b => ws2 b a) (fun a b c => ws3 c b a) (rev_string s)).
Definition trim (s : string) : string := trim_end (trim_start s).

(** [char::is_control] (general category Cc) occurs in the string: U+0000 to
    U+001F, U+007F, and U+0080 to U+009F, encoded [C2 80] to [C2 9F]. *)
Fixpoint any_control (s : string) : bool :=
  match s with
  | "" => false
  | String a s' =>
      is_ascii_control a
      || (beq (code a) 194%N
          && match s' with String b _ => in_range 128 159 b | "" => false end)
      || any_control s'
  end.

(** [String::replace] of one byte by a string. *)
Fixpoint replace_byte (c : ascii) (by_ s : string) : string :=
  match s with
  | "" => ""
  | String a s' =>
      if beq a c then by_ +:+ replace_byte c by_ s' else String a (replace_byte c by_ s')
  end.

(** ** Lemmas *)

Lemma app_nil_r_s s : s +:+ "" = s.
Proof. induction s as [|a s IH]; simpl; [done|by f_equal]. Qed.

Lemma app_assoc_s s t u : (s +:+ t) +:+ u = s +:+ (t +:+ u).
Proof. induction s as [|a s IH]; simpl; [done|by f_equal]. Qed.

Lemma app_cons_s a s t : String a s +:+ t = String a (s +:+ t).
Proof. done. Qed.

#[export] Hint Rewrite app_nil_r_s app_assoc_s app_cons_s : str.

Lemma length_app_s s t : String.length (s +:+ t) = (String.length s + String.length t)%nat.
Proof. induction s as [|a s IH]; simpl; [done|by rewrite IH]. Qed.

Lemma rev_append_spec s acc : rev_append_string s acc = rev_string s +:+ acc.
Proof.
  unfold rev_string. revert acc. induction s as [|a s IH]; intros acc; [done|].
  simpl. rewrite IH, (IH (String a "")). by autorewrite with str.
Qed.

Lemma rev_string_cons a s : rev_string (String a s) = rev_string s +:+ String a "".
Proof. unfold rev_string at 1. simpl. apply rev_append_spec. Qed.

Lemma rev_string_app s t : rev_string (s +:+ t) = rev_string t +:+ rev_string s.
Proof.
  induction s as [|a s IH].
  - change ("" +:+ t) with t. change (rev_string "") with "". by rewrite app_nil_r_s.
  - rewrite app_cons_s, !rev_string_cons, IH. by autorewrite with str.
Qed.

Lemma rev_string_involutive s : rev_string (rev_string s) = s.
Proof.
  induction s as [|a s IH]; [done|].
  rewrite rev_string_cons, rev_string_app, IH. done.
Qed.

Lemma all_bytes_app p s t : all_bytes p (s +:+ t) = all_bytes p s && all_bytes p t.
Proof. induction s as [|a s IH]; simpl; [done|]. rewrite IH. by rewrite andb_assoc. Qed.

Lemma all_bytes_impl (p q : ascii -> bool) s :
  (forall a, p a = true -> q a = true) -> all_bytes p s = true -> all_bytes q s = true.
Proof.
  intros H. induction s as [|a s IH]; simpl; [done|].
  intros ?; bool_hyp. apply andb_true_iff. auto.
Qed.

Lemma all_bytes_rev p s : all_bytes p (rev_string s) = all_bytes p s.
Proof.
  induction s as [|a s IH]; [done|].
  rewrite rev_string_cons, all_bytes_app, IH. simpl.
  by rewrite andb_true_r, andb_comm.
Qed.

Lemma any_byte_app p s t : any_byte p (s +:+ t) = any_byte p s || any_byte p t.
Proof. unfold any_byte. rewrite all_bytes_app. apply negb_andb. Qed.

Lemma any_byte_cons p a s : any_byte p (String a s) = p a || any_byte p s.
Proof. unfold any_byte. simpl. rewrite negb_andb. by rewrite negb_involutive. Qed.

Lemma any_byte_false p s : any_byte p s = false <-> all_bytes (fun a => negb (p a)) s = true.
Proof. unfold any_byte. apply negb_false_iff. Qed.

Lemma contains_byte_app c s t : contains_byte c (s +:+ t) = contains_byte c s || contains_byte c t.
Proof. apply any_byte_app. Qed.

Lemma strip_prefix_spec p s r : strip_prefix p s = Some r <-> s = p +:+ r.
Proof.
  revert s. induction p as [|a p IH]; intros s; simpl.
  - split; [by intros [= ->]|by intros ->].
  - destruct s as [|b s]; [done|].
    destruct (beq a b) eqn:E; bool_hyp.
    + subst. rewrite IH. split; [by intros ->|by intros [= ->]].
    + split; [done|]. intros [= -> _]. done.
Qed.

Lemma starts_with_spec p s : starts_with p s = true <-> exists r, s = p +:+ r.
Proof.
  unfold starts_with. destruct (strip_prefix p s) as [r|] eqn:E; simpl.
  - apply strip_prefix_spec in E. naive_solver.
  - split; [done|]. intros [r Hr]. apply strip_prefix_spec in Hr. congruence.
Qed.

Lemma ends_with_spec p s : ends_with p s = true <-> exists r, s = r +:+ p.
Proof.
  unfold ends_with. rewrite starts_with_spec. split; intros [r Hr].
  - exists (rev_string r). apply (f_equal rev_string) in Hr.
    by rewrite rev_string_involutive, rev_string_app, rev_string_involutive in Hr.
  - exists (rev_string r). by rewrite Hr, rev_string_app.
Qed.

Lemma split_byte_nonempty c s : split_byte c s <> [].
Proof. destruct s as [|a s]; simpl; [done|]. destruct (beq a c); [done|]. by destruct (split_byte c s). Qed.

Lemma join_cons sep s l : l <> [] -> join sep (s :: l) = s +:+ sep +:+ join sep l.
Proof. by destruct l. Qed.

(** Splitting then joining with the separator is the identity. *)
Lemma join_split_byte c s : join (String c "") (split_byte c s) = s.
Proof.
  induction s as [|a s IH]; [done|]. simpl. destruct (beq a c) eqn:E; bool_hyp.
  - subst. rewrite join_cons by apply split_byte_nonempty. by rewrite IH.
  - destruct (split_byte c s) as [|h t] eqn:Es; [by destruct (split_byte_nonempty c s)|].
    destruct t as [|h' t]; simpl in *; by rewrite <- IH.
Qed.

(** No piece contains the separator. *)
Lemma split_byte_no_sep c s : Forall (fun p => contains_byte c p = false) (split_byte c s).
Proof.
  induction s as [|a s IH]; simpl; [by repeat constructor|].
  destruct (beq a c) eqn:E; [by constructor|].
  assert (Hac : beq c a = false) by (bool_hyp; apply (beq_neq _ _); congruence).
  inversion IH as [Heq|h t Hh Ht Heq]; subst.
  - constructor; [|done]. unfold contains_byte. rewrite any_byte_cons, Hac. done.
  - constructor; [|done]. unfold contains_byte in *. by rewrite any_byte_cons, Hac.
Qed.

(** A piece list without the separator is recovered by splitting its join. *)
Lemma split_byte_app c s t :
  contains_byte c s = false ->
  split_byte c (s +:+ String c t) = s :: split_byte c t.
Proof.
  unfold contains_byte. induction s as [|a s IH]; simpl.
  - intros _. by rewrite beq_refl.
  - rewrite any_byte_cons. intros H; bool_hyp.
    destruct (beq a c) eqn:E; bool_hyp; [congruence|].
    by rewrite IH.
Qed.

Lemma split_byte_app_sep c s t : split_byte c (s +:+ String c t) = (split_byte c s ++ split_byte c t)%list.
Proof.
  induction s as [|a s IH]; simpl; [by rewrite beq_refl|].
  rewrite IH. destruct (beq a c); [done|].
  destruct (split_byte c s) as [|h l] eqn:Es; [by destruct (split_byte_nonempty c s)|done].
Qed.

Lemma split_byte_none c s : contains_byte c s = false -> split_byte c s = [s].
Proof.
  unfold contains_byte. induction s as [|a s IH]; simpl; [done|].
  rewrite any_byte_cons. intros H; bool_hyp.
  destruct (beq a c) eqn:E; bool_hyp; [congruence|]. by rewrite IH.
Qed.

Lemma split_byte_join c l :
  l <> [] -> Forall (fun p => contains_byte c p = false) l ->
  split_byte c (join (String c "") l) = l.
Proof.
  induction l as [|s l IH]; [done|]. intros _ Hl. inversion Hl as [|? ? Hs Hl']; subst.
  destruct l as [|s' l].
  - simpl. by apply split_byte_none.
  - rewrite join_cons by done.
    change (String c "" +:+ ?x) with (String c x).
    rewrite split_byte_app by done. f_equal. by apply IH.
Qed.

Lemma split_once_spec c s l r :
  split_once c s = Some (l, r) <-> s = l +:+ String c r /\ contains_byte c l = false.
Proof.
  unfold contains_byte. revert l. induction s as [|a s IH]; intros l; simpl.
  - split; [done|]. intros [H _]. by destruct l.
  - destruct (beq a c) eqn:E; bool_hyp.
    + subst. split; [intros [= <- <-]; done|]. intros [H Hl].
      destruct l as [|b l]; [by injection H as ->|].
      injection H as -> _. rewrite any_byte_cons, beq_refl in Hl. done.
    + destruct (split_once c s) as [[l' r']|] eqn:Es.
      * split.
        { intros [= <- <-]. destruct (IH l') as [IH1 _].
          destruct (IH1 eq_refl) as [-> Hc]. split; [done|].
          rewrite any_byte_cons. apply orb_false_iff. split; [|done].
          apply (beq_neq _ _). congruence. }
        intros [H Hl]. destruct l as [|b l]; [injection H; congruence|].
        injection H as -> H. rewrite any_byte_cons in Hl. bool_hyp.
        destruct (IH l) as [_ IH2]. by injection (IH2 (conj H H1)) as -> ->.
      * split; [done|]. intros [H Hl]. destruct l as [|b l]; [injection H; congruence|].
        injection H as -> H. rewrite any_byte_cons in Hl. bool_hyp.
        destruct (IH l) as [_ IH2]. discriminate (IH2 (conj H H1)).
Qed.

Lemma take_drop_bytes n s : take_bytes n s +:+ drop_bytes n s = s.
Proof. revert s. induction n as [|n IH]; intros [|a s]; simpl; [done..|]. by rewrite IH. Qed.

Lemma drop_bytes_length_app s t : drop_bytes (String.length s) (s +:+ t) = t.
Proof. by induction s as [|a s IH]. Qed.
Lemma take_bytes_length_app s t : take_bytes (String.length s) (s +:+ t) = s.
Proof. induction s as [|a s IH]; [done|]. cbn. by f_equal. Qed.

Lemma string_map_app f s t : string_map f (s +:+ t) = string_map f s +:+ string_map f t.
Proof. induction s as [|a s IH]; [done|]. cbn. by f_equal. Qed.

Lemma length_string_map f s : String.length (string_map f s) = String.length s.
Proof. induction s as [|a s IH]; [done|]. cbn. by f_equal. Qed.

(** [str::find] finds the first occurrence. *)
Lemma str_find_Some p s n :
  str_find p s = Some n ->
  (n + String.length p <= String.length s)%nat /\ s = take_bytes n s +:+ p +:+ drop_bytes (n + String.length p) s.
Proof.
  revert n. induction s as [|a s IH]; intros n; cbn [str_find].
  - destruct (starts_with p "") eqn:E; [|done]. intros [= <-].
    apply starts_with_spec in E as [r Hr]. by destruct p.
  - destruct (starts_with p (String a s)) eqn:E.
    + intros [= <-]. apply starts_with_spec in E as [r Hr].
      rewrite Hr. cbn [take_bytes Nat.add].
      split; [rewrite length_app_s; lia|].
      cbn. by rewrite drop_bytes_length_app.
    + intros H. destruct (str_find p s) as [m|]; [|done]. injection H as <-.
      destruct (IH m eq_refl) as [Hl Hs]. split; [cbn; lia|].
      cbn. f_equal. exact Hs.
Qed.

Lemma str_find_None p s : str_find p s = None <-> forall l r, s <> l +:+ p +:+ r.
Proof.
  induction s as [|a s IH]; cbn [str_find].
  - destruct (starts_with p "") eqn:E.
    + split; [done|]. intros H. apply starts_with_spec in E as [r Hr]. by destruct (H "" r).
    + split; [|done]. intros _ l r H. destruct l; [|done].
      assert (starts_with p "" = true); [|congruence]. apply starts_with_spec. by exists r.
  - destruct (starts_with p (String a s)) eqn:E.
    + split; [done|]. intros H. apply starts_with_spec in E as [r Hr]. by destruct (H "" r).
    + destruct (str_find p s) as [m|] eqn:F.
      * split; [done|]. intros H. destruct IH as [_ IH].
        discriminate IH. intros l r ->. by destruct (H (String a l) r).
      * split; [|done]. intros _ l r H. destruct l as [|b l].
        { assert (starts_with p (String a s) = true); [|congruence].
          apply starts_with_spec. exists r. exact H. }
        injection H as -> H. destruct IH as [IH _]. by apply (IH eq_refl l r).
Qed.

(** ** Integers as text *)

Fixpoint digits_value (acc : Z) (s : string) : option Z :=
  match s with
  | "" => Some acc
  | String a s' =>
      if is_ascii_digit a then digits_value (acc * 10 + Z.of_N (code a - 48)) s' else None
  end.

Definition parse_digits (s : string) : option Z :=
  if is_empty s then None else digits_value 0 s.

(** [str::parse] at a signed or unsigned integer type. *)
Definition parse_signed (lo hi : Z) (s : string) : option Z :=
  opt_filter (fun z => (lo <=? z) && (z <=? hi))%Z
    match s with
    | String "-" s' => option_map Z.opp (parse_digits s')
    | String "+" s' => parse_digits s'
    | _ => parse_digits s
    end.
Definition parse_unsigned (hi : Z) (s : string) : option Z :=
  opt_filter (fun z => (z <=? hi))%Z
    match s with
    | String "+" s' => parse_digits s'
    | _ => parse_digits s
    end.
Definition parse_i64 : string -> option Z := parse_signed i64_min i64_max.

Example parse_i64_examples :
  (parse_i64 "-12", parse_i64 "+7", parse_i64 "", parse_i64 "-", parse_i64 "9223372036854775808",
   parse_i64 " 1")
  = (Some (-12), Some 7, None, None, None, None)%Z.
Proof. vm_compute. reflexivity. Qed.

Lemma pretty_N_char_digit n :
  (n < 10)%N -> is_ascii_digit (pretty_N_char n) = true /\ (code (pretty_N_char n) - 48)%N = n.
Proof.
  intros H.
  assert (Hall : forallb (fun m => is_ascii_digit (pretty_N_char m)
                                   && (code (pretty_N_char m) - 48 =? m)%N)
                   (map N.of_nat (seq 0 10)) = true) by (vm_compute; reflexivity).
  rewrite List.forallb_forall in Hall. specialize (Hall n).
  assert (Hin : In n (map N.of_nat (seq 0 10))).
  { apply in_map_iff. exists (N.to_nat n). rewrite in_seq. split; lia. }
  apply Hall in Hin. bool_hyp. split; [done|by apply N.eqb_eq].
Qed.

Lemma digits_value_pretty_go x s :
  digits_value 0 (pretty_N_go x s) = digits_value (Z.of_N x) s.
Proof.
  revert s. induction (N.lt_wf_0 x) as [x _ IH]; intros s.
  destruct (decide (x = 0%N)) as [->|Hx]; [by rewrite pretty_N_go_0|].
  rewrite pretty_N_go_step by lia.
  rewrite IH by (apply N.div_lt; lia).
  destruct (pretty_N_char_digit (x mod 10)) as [Hd Hv]; [apply N.mod_lt; lia|].
  cbn [digits_value]. rewrite Hd, Hv. f_equal.
  pose proof (N.div_mod x 10). lia.
Qed.

Lemma parse_digits_pretty (n : N) : parse_digits (pretty n) = Some (Z.of_N n).
Proof.
  unfold parse_digits, pretty, pretty_N. destruct (decide (n = 0%N)) as [->|Hn]; [done|].
  assert (Hne : is_empty (pretty_N_go n "") = false).
  { destruct (pretty_N_go n "") eqn:E; [|done].
    pose proof (digits_value_pretty_go n "") as H. rewrite E in H. simpl in H.
    injection H as H. lia. }
  by rewrite Hne, digits_value_pretty_go.
Qed.

Lemma pretty_N_head (n : N) :
  exists a s, pretty n = String a s /\ is_ascii_digit a = true.
Proof.
  pose proof (parse_digits_pretty n) as H. unfold parse_digits in H.
  destruct (pretty n) as [|a s]; [done|]. exists a, s. split; [done|].
  simpl in H. by destruct (is_ascii_digit a).
Qed.

(** A non-negative number survives its text form. *)
Lemma parse_i64_pretty z : (0 <= z <= i64_max)%Z -> parse_i64 (pretty z) = Some z.
Proof.
  intros Hz. unfold parse_i64, parse_signed.
  assert (Hp : pretty z = pretty (Z.to_N z)) by (destruct z; [done|done|lia]).
  rewrite Hp. destruct (pretty_N_head (Z.to_N z)) as (a & s & Hs & Ha).
  pose proof (parse_digits_pretty (Z.to_N z)) as Hd. rewrite Z2N.id in Hd by lia.
  rewrite Hs in *.
  assert (match String a s with
          | String "-" s' => option_map Z.opp (parse_digits s')
          | String "+" s' => parse_digits s'
          | _ => parse_digits (String a s) end = Some z) as ->.
  { destruct a as [[] [] [] [] [] [] [] []]; done. }
  simpl. unfold i64_min, i64_max in *.
  destruct (_ <=? z)%Z eqn:E1, (z <=? _)%Z eqn:E2; bool_hyp; try done; lia.
Qed.

(** ** Characters *)

(** The characters of a UTF-8 string, each as its bytes: the lead byte says
    how many continuation bytes follow. *)
Definition utf8_width (a : ascii) : nat :=
  if (code a <? 192)%N then 0 else if (code a <? 224)%N then 1
  else if (code a <? 240)%N then 2 else 3.

Fixpoint chars_fuel (fuel : nat) (s : string) : list string :=
  match fuel, s with
  | S fuel', String a s' =>
      String a (take_bytes (utf8_width a) s') :: chars_fuel fuel' (drop_bytes (utf8_width a) s')
  | _, _ => []
  end.
Definition chars (s : string) : list string := chars_fuel (String.length s) s.

(** [char::is_whitespace], the character given by its bytes. *)
Definition is_whitespace (c : string) : bool :=
  match c with
  | String a "" => ws1 a
  | String a (String b "") => ws2 a b
  | String a (String b (String d "")) => ws3 a b d
  | _ => false
  end.

Lemma parse_unsigned_digits hi s :
  all_bytes is_ascii_digit s = true ->
  parse_unsigned hi s = opt_filter (fun z => (z <=? hi)%Z) (parse_digits s).
Proof.
  intros Hd. destruct s as [|a s]; [done|]. unfold parse_unsigned. f_equal.
  simpl in Hd. bool_hyp. destruct a as [[] [] [] [] [] [] [] []]; done.
Qed.

(** [str::split_whitespace]: the maximal runs without white space. *)
Fixpoint split_runs (cur : string) (l : list string) : list string :=
  match l with
  | [] => if is_empty cur then [] else [cur]
  | c :: l' =>
      if is_whitespace c then
        if is_empty cur then split_runs "" l' else cur :: split_runs "" l'
      else split_runs (cur +:+ c) l'
  end.
Definition split_whitespace (s : string) : list string := split_runs "" (chars s).

Example split_whitespace_runs :
  split_whitespace "openid  profile email " = ["openid"; "profile"; "email"].
Proof. reflexivity. Qed.

(** ** Characters of an ASCII prefix *)

Definition is_ascii (a : ascii) : bool := (code a <? 128)%N.

(** The one-byte characters of a string. *)
Fixpoint ascii_chars (s : string) : list string :=
  match s with "" => [] | String a s' => String a "" :: ascii_chars s' end.

Lemma length_drop_bytes n s : String.length (drop_bytes n s) = (String.length s - n)%nat.
Proof. revert s. induction n as [|n IH]; intros [|a s]; simpl; [done..|apply IH]. Qed.

Lemma chars_fuel_enough n m s :
  (String.length s <= n)%nat -> (String.length s <= m)%nat -> chars_fuel n s = chars_fuel m s.
Proof.
  revert m s. induction n as [|n IH]; intros [|m] [|a s]; simpl; try (done || lia).
  intros Hn Hm. f_equal. apply IH; rewrite length_drop_bytes; lia.
Qed.

Lemma chars_ascii_app s t :
  all_bytes is_ascii s = true -> chars (s +:+ t) = (ascii_chars s ++ chars t)%list.
Proof.
  induction s as [|a s IH]; [done|]. cbn [all_bytes]. intros H. bool_hyp.
  rewrite app_cons_s. unfold chars at 1. cbn [chars_fuel String.length ascii_chars app].
  assert (utf8_width a = 0%nat) as ->.
  { unfold is_ascii in *. unfold utf8_width. destruct (code a <? 192)%N eqn:E; [done|].
    apply N.ltb_lt in H. apply N.ltb_ge in E. lia. }
  cbn [take_bytes drop_bytes]. f_equal. by apply IH.
Qed.

(** ** Trimming *)
Section TrimWith.
Variables (w2 : ascii -> ascii -> bool) (w3 : ascii -> ascii -> ascii -> bool).

Lemma trim_with_length s : (String.length (trim_with w2 w3 s) <= String.length s)%nat.
Proof.
  revert s. fix IH 1. intros [|a s1]; [done|]. cbn [trim_with].
  destruct (ws1 a); [specialize (IH s1); simpl; lia|]. destruct s1 as [|b s2]; [done|].
  destruct (w2 a b); [specialize (IH s2); simpl; lia|]. destruct s2 as [|c s3]; [done|].
  destruct (w3 a b c); [specialize (IH s3); simpl; lia|done].
Qed.

(** Trimming a trimmed string that goes on with [t], when no white space
    character spans the two. *)
Lemma trim_with_app a s b t :
  (forall x, w2 x b = false) -> (forall x y, w3 x y b = false) -> (forall x z, w3 x b z = false) ->
  trim_with w2 w3 (String a s) = String a s ->
  trim_with w2 w3 (String a s +:+ String b t) = String a s +:+ String b t.
Proof.
  intros H2 H3 H4. rewrite app_cons_s. cbn [trim_with].
  pose proof (trim_with_length s) as Hl.
  destruct (ws1 a); [intros H; rewrite H in Hl; simpl in Hl; lia|].
  destruct s as [|c s].
  - intros _. cbn [String.append]. rewrite H2. destruct t; [done|]. by rewrite H4.
  - rewrite app_cons_s. destruct (w2 a c).
    { intros H. pose proof (trim_with_length s) as Hl2. rewrite H in Hl2. simpl in Hl2. lia. }
    destruct s as [|d s].
    + intros _. cbn [String.append]. by rewrite H3.
    + rewrite app_cons_s. destruct (w3 a c d); [|done].
      intros H. pose proof (trim_with_length s) as Hl2. rewrite H in Hl2. simpl in Hl2. lia.
Qed.

Lemma trim_with_same_length s :
  String.length (trim_with w2 w3 s) = String.length s -> trim_with w2 w3 s = s.
Proof.
  destruct s as [|a s1]; [done|]. cbn [trim_with].
  destruct (ws1 a); [pose proof (trim_with_length s1); simpl; lia|]. destruct s1 as [|b s2]; [done|].
  destruct (w2 a b); [pose proof (trim_with_length s2); simpl; lia|]. destruct s2 as [|c s3]; [done|].
  destruct (w3 a b c); [pose proof (trim_with_length s3); simpl; lia|done].
Qed.

(** Trimming stops at a byte that no white space ends with. *)
Lemma trim_with_stops s a :
  ws1 a = false -> (forall x, w2 x a = false) -> (forall x y, w3 x y a = false) ->
  exists s', trim_with w2 w3 (s +:+ String a "") = s' +:+ String a "".
Proof.
  intros H1 H2 H3. revert s. fix IH 1. intros [|b s1]; [exists ""; cbn; by rewrite H1|].
  rewrite app_cons_s. cbn [trim_with]. destruct (ws1 b); [apply IH|]. destruct s1 as [|c s2].
  { cbn [String.append]. rewrite H2. by exists (String b ""). }
  rewrite app_cons_s. destruct (w2 b c); [apply IH|]. destruct s2 as [|d s3].
  { cbn [String.append]. rewrite H3. by exists (String b (String c "")). }
  rewrite app_cons_s. destruct (w3 b c d); [apply IH|]. by exists (String b (String c (String d s3))).
Qed.
End TrimWith.

Lemma length_rev_string s : String.length (rev_string s) = String.length s.
Proof.
  induction s as [|a s IH]; [done|]. rewrite rev_string_cons, length_app_s, IH. simpl. lia.
Qed.

Lemma trim_fixed s : trim s = s <-> trim_start s = s /\ trim_end s = s.
Proof.
  unfold trim. split; [|by intros [-> ->]]. intros H.
  assert (Hs : trim_start s = s).
  { apply trim_with_same_length. apply (f_equal String.length) in H.
    unfold trim_end in H. rewrite length_rev_string in H.
    pose proof (trim_with_length ws2 ws3 s) as H1.
    pose proof (trim_with_length (fun a b => ws2 b a) (fun a b c => ws3 c b a)
                  (rev_string (trim_start s))) as H2.
    rewrite length_rev_string in H2. unfold trim_start in *. lia. }
  by rewrite Hs in H.
Qed.

(** A printable ASCII byte is part of no white space. *)
Definition solid (a : ascii) : bool := (is_ascii a && negb (ws1 a))%bool.

Lemma ascii_ws2 a b : is_ascii a = true -> ws2 a b = false.
Proof. destruct a as [[] [] [] [] [] [] [] []]; try done. Qed.
Lemma ascii_ws3 a b c : is_ascii a = true -> ws3 a b c = false.
Proof. destruct a as [[] [] [] [] [] [] [] []]; try done. Qed.
Lemma ascii_ws3_mid a b c : is_ascii b = true -> ws3 a b c = false.
Proof.
  intros H. unfold ws3.
  replace (beq (code b) 154%N) with false by (destruct b as [[] [] [] [] [] [] [] []]; done).
  replace (beq (code b) 128%N) with false by (destruct b as [[] [] [] [] [] [] [] []]; done).
  replace (beq (code b) 129%N) with false by (destruct b as [[] [] [] [] [] [] [] []]; done).
  rewrite !andb_false_r. done.
Qed.

Lemma trim_start_solid a s : solid a = true -> trim_start (String a s) = String a s.
Proof.
  intros H. unfold solid in H. bool_hyp. unfold trim_start. cbn [trim_with]. rewrite H0.
  destruct s as [|b s]; [done|]. rewrite ascii_ws2 by done. destruct s as [|c s]; [done|].
  by rewrite ascii_ws3.
Qed.

Lemma trim_end_solid a s : solid a = true -> trim_end (s +:+ String a "") = s +:+ String a "".
Proof.
  intros H. unfold solid in H. bool_hyp. unfold trim_end. rewrite rev_string_app.
  change (rev_string (String a "")) with (String a ""). cbn [String.append trim_with]. rewrite H0.
  destruct (rev_string s) as [|b r] eqn:Er.
  { assert (s = "") as -> by (rewrite <- (rev_string_involutive s), Er; done). done. }
  assert (ws2 b a = false) as ->.
  { unfold ws2. replace (beq (code a) 133%N) with false
      by (destruct a as [[] [] [] [] [] [] [] []]; done).
    replace (beq (code a) 160%N) with false
      by (destruct a as [[] [] [] [] [] [] [] []]; done). by rewrite andb_false_r. }
  assert (Hback : rev_string (String a (String b r)) = s +:+ String a "").
  { rewrite <- Er, rev_string_cons. by rewrite rev_string_involutive. }
  destruct r as [|c r]; [done|].
  assert (ws3 c b a = false) as ->; [|done].
  unfold ws3.
  replace (beq (code a) 128%N) with false by (destruct a as [[] [] [] [] [] [] [] []]; done).
  replace (in_range 128 138 a) with false by (destruct a as [[] [] [] [] [] [] [] []]; done).
  replace (beq (code a) 168%N) with false by (destruct a as [[] [] [] [] [] [] [] []]; done).
  replace (beq (code a) 169%N) with false by (destruct a as [[] [] [] [] [] [] [] []]; done).
  replace (beq (code a) 175%N) with false by (destruct a as [[] [] [] [] [] [] [] []]; done).
  replace (beq (code a) 159%N) with false by (destruct a as [[] [] [] [] [] [] [] []]; done).
  by rewrite !andb_false_r.
Qed.

(** Trimming keeps a solid first byte. *)
Lemma trim_solid_head a s : solid a = true -> exists s', trim (String a s) = String a s'.
Proof.
  intros H. unfold trim. rewrite trim_start_solid by done. unfold trim_end. rewrite rev_string_cons.
  unfold solid in H. bool_hyp.
  destruct (trim_with_stops (fun a b => ws2 b a) (fun a b c => ws3 c b a) (rev_string s) a) as [s' ->];
    [done|intros x; by apply ascii_ws2|intros x y; by apply ascii_ws3|].
  rewrite rev_string_app. by eexists.
Qed.

(** The last byte of a non-empty string. *)
Lemma string_snoc s : s <> "" -> exists t a, s = t +:+ String a "".
Proof.
  intros H. destruct (rev_string s) as [|a r] eqn:E.
  - destruct H. by rewrite <- (rev_string_involutive s), E.
  - exists (rev_string r), a. by rewrite <- (rev_string_involutive s), E, rev_string_cons.
Qed.

Lemma trim_solid s : all_bytes solid s = true -> trim s = s.
Proof.
  intros H. apply trim_fixed. split.
  - destruct s as [|a s]; [done|]. cbn [all_bytes] in H. bool_hyp. by apply trim_start_solid.
  - destruct (decide (s = "")) as [->|Hne]; [done|].
    destruct (string_snoc s Hne) as (t & a & ->). rewrite all_bytes_app in H. cbn [all_bytes] in H.
    bool_hyp. by apply trim_end_solid.
Qed.

(** A solid prefix in front of a trimmed text. *)
Lemma trim_solid_app a p b t :
  solid a = true -> is_ascii b = true -> t <> "" -> trim t = t ->
  trim (String a (p +:+ String b t)) = String a (p +:+ String b t).
Proof.
  intros Ha Hb Hne Ht. apply trim_fixed. split; [by apply trim_start_solid|].
  apply trim_fixed in Ht as [_ Ht]. unfold trim_end in *.
  apply (f_equal rev_string) in Ht. rewrite rev_string_involutive in Ht.
  assert (Hr : rev_string (String a (p +:+ String b t)) = rev_string t +:+ String b (rev_string (String a p))).
  { rewrite <- app_cons_s, rev_string_app, rev_string_cons. by autorewrite with str. }
  rewrite Hr. destruct (rev_string t) as [|c r] eqn:E.
  { destruct Hne. by rewrite <- (rev_string_involutive t), E. }
  rewrite trim_with_app; [|intros; by apply ascii_ws2|intros; by apply ascii_ws3
                          |intros; by apply ascii_ws3_mid|done].
  rewrite <- Hr. apply rev_string_involutive.
Qed.
