(* ===== verification/RateLimit.v ===== *)
(** * The in-memory rate limiter ([rate_limit.rs])

    One limiter is a map from client address to a fixed-window counter.  Each
    operation takes the write lock for its whole body, so it is one atomic
    step; [now] is the [Instant] read at its start, in nanoseconds on the
    monotonic clock.  [Duration]s are nanoseconds. *)

From S2P Require Import Prelude.
Local Open Scope Z_scope.

(** [std::net::IpAddr] *)
Inductive IpAddr : Type :=
| V4 (addr : N)
| V6 (addr : N).

#[export] Instance IpAddr_eq_dec : EqDecision IpAddr.
Proof. solve_decision. Defined.
#[export] Instance IpAddr_countable : Countable IpAddr.
Proof.
  refine (inj_countable'
    (fun a => match a with V4 n => inl n | V6 n => inr n end)
    (fun s => match s with inl n => V4 n | inr n => V6 n end) _).
  by intros [].
Defined.

Record RateLimitConfig := { max_requests : Z; window : Z }.

Record RateLimitEntry := { entry_count : Z; window_start : Z }.

Record RateLimiter := {
  config : RateLimitConfig;
  entries : gmap IpAddr RateLimitEntry
}.

(** [Duration::from_secs] *)
Definition from_secs (s : Z) : Z := s * 1000000000.
(** [Duration::as_secs] *)
Definition as_secs (d : Z) : Z := d / 1000000000.

(** [RateLimitConfig::default] *)
Definition default_config : RateLimitConfig :=
  {| max_requests := 5; window := from_secs 60 |}.

(** [RateLimiter::new] *)
Definition new_limiter (c : RateLimitConfig) : RateLimiter :=
  {| config := c; entries := ∅ |}.

(** [Instant::duration_since], which saturates at zero. *)
Definition duration_since (now start : Z) : Z := Z.max 0 (now - start).

Definition put_entry (rl : RateLimiter) (ip : IpAddr) (e : RateLimitEntry) : RateLimiter :=
  {| config := config rl; entries := <[ip := e]> (entries rl) |}.

(** [entries.entry(ip).or_insert(..)] followed by the window reset, the prefix
    [check] and [record_failure] share. *)
Definition current_entry (rl : RateLimiter) (ip : IpAddr) (now : Z) : RateLimitEntry :=
  let entry := unwrap_or (entries rl !! ip) {| entry_count := 0; window_start := now |} in
  if window (config rl) <=? duration_since now (window_start entry)
  then {| entry_count := 0; window_start := now |}
  else entry.

(** [RateLimiter::check]: [Ok remaining] or [Err retry_after]. *)
Definition check (rl : RateLimiter) (ip : IpAddr) (now : Z) : result Z Z * RateLimiter :=
  let entry := current_entry rl ip now in
  if max_requests (config rl) <=? entry_count entry then
    (Err (window (config rl) - duration_since now (window_start entry)), put_entry rl ip entry)
  else
    let entry' := {| entry_count := entry_count entry + 1; window_start := window_start entry |} in
    (Ok (max_requests (config rl) - entry_count entry'), put_entry rl ip entry').

(** [RateLimiter::record_failure]; the [u32] counter wraps in a release
    build. *)
Definition record_failure (rl : RateLimiter) (ip : IpAddr) (now : Z) : RateLimiter :=
  let entry := current_entry rl ip now in
  put_entry rl ip
    {| entry_count := (entry_count entry + 1) mod 2 ^ 32; window_start := window_start entry |}.

(** [RateLimiter::cleanup] *)
Definition cleanup (rl : RateLimiter) (now : Z) : RateLimiter :=
  {| config := config rl;
     entries := filter (fun p => duration_since now (window_start p.2) < window (config rl))
                       (entries rl) |}.

(** The status and [Retry-After] header of [RateLimitExceeded]. *)
Definition retry_after_secs (retry_after : Z) : Z := as_secs retry_after.

(** ** Well-formedness *)

(** The counters stay within [u32], and within the limit when only [check]
    is used. *)
Definition wf_config (c : RateLimitConfig) : Prop :=
  0 <= max_requests c <= u32_max /\ 0 <= window c.

Definition wf (rl : RateLimiter) : Prop :=
  wf_config (config rl) /\
  map_Forall (fun _ e => 0 <= entry_count e <= max_requests (config rl)) (entries rl).

Lemma wf_default : wf_config default_config.
Proof. unfold wf_config. cbn. unfold from_secs, u32_max. lia. Qed.

Lemma wf_new c : wf_config c -> wf (new_limiter c).
Proof. intros H. split; [exact H|apply map_Forall_empty]. Qed.

Lemma current_entry_bounds rl ip now :
  wf rl -> 0 <= entry_count (current_entry rl ip now) <= max_requests (config rl).
Proof.
  intros [[Hc _] He]. unfold current_entry. case_match; simpl; [lia|].
  destruct (entries rl !! ip) as [e|] eqn:E; simpl; [|lia].
  apply (He _ _ E).
Qed.

Lemma wf_put rl ip e :
  wf rl -> 0 <= entry_count e <= max_requests (config rl) -> wf (put_entry rl ip e).
Proof.
  intros [Hc He] Hb. split; [done|]. simpl.
  apply map_Forall_insert_2; [done|exact He].
Qed.

Lemma check_config rl ip now : config (check rl ip now).2 = config rl.
Proof. unfold check. by case_match. Qed.

Lemma lookup_put_ne rl ip ip' e :
  ip <> ip' -> entries (put_entry rl ip e) !! ip' = entries rl !! ip'.
Proof. intros H. simpl. by rewrite lookup_insert_ne. Qed.

Lemma check_other rl ip ip' now :
  ip <> ip' -> entries (check rl ip now).2 !! ip' = entries rl !! ip'.
Proof. intros H. unfold check. case_match; by apply lookup_put_ne. Qed.

(** ** A run of requests

    [serve rl reqs] is the limiter's answers to a sequence of requests
    [(ip, now)] in the order the lock is granted. *)
Fixpoint serve (rl : RateLimiter) (reqs : list (IpAddr * Z)) : list (result Z Z) * RateLimiter :=
  match reqs with
  | [] => ([], rl)
  | (ip, now) :: reqs' =>
      let '(r, rl1) := check rl ip now in
      let '(rs, rl2) := serve rl1 reqs' in (r :: rs, rl2)
  end.

(** How many of the requests of [ip] were granted. *)
Fixpoint granted (ip : IpAddr) (reqs : list (IpAddr * Z)) (rs : list (result Z Z)) : Z :=
  match reqs, rs with
  | (ip', _) :: reqs', r :: rs' =>
      (if beq ip' ip && is_ok r then 1 else 0) + granted ip reqs' rs'
  | _, _ => 0
  end.

(** Every request of the run falls in [[t, t + w)]. *)
Definition within (t w : Z) (reqs : list (IpAddr * Z)) : Prop :=
  Forall (fun q => t <= q.2 < t + w) reqs.

Lemma serve_cons rl ip now reqs :
  serve rl ((ip, now) :: reqs)
  = ((check rl ip now).1 :: (serve (check rl ip now).2 reqs).1,
     (serve (check rl ip now).2 reqs).2).
Proof. simpl. destruct (check rl ip now) as [r rl1]. simpl. by destruct (serve rl1 reqs). Qed.

Lemma check_entry rl ip now :
  exists e, entries (check rl ip now).2 !! ip = Some e
    /\ window_start e = window_start (current_entry rl ip now)
    /\ entry_count e
       = entry_count (current_entry rl ip now) + (if is_ok (check rl ip now).1 then 1 else 0)
    /\ (is_ok (check rl ip now).1 = true ->
        entry_count (current_entry rl ip now) < max_requests (config rl)).
Proof.
  unfold check. destruct (_ <=? _) eqn:E; bool_hyp; simpl; rewrite lookup_insert_eq;
    eexists; (split; [done|]); simpl; repeat split; [lia|done|].
  intros _. exact E.
Qed.

Lemma wf_check rl ip now : wf rl -> wf (check rl ip now).2.
Proof.
  intros Hwf. assert (Hb := current_entry_bounds rl ip now Hwf). unfold check.
  destruct (_ <=? _) eqn:E; bool_hyp; simpl; apply wf_put; simpl; try done; lia.
Qed.

(** What [ip] can still be granted by a run inside [[t, t + window)]: the rest
    of a window opened inside the interval, or the rest of an older one and one
    full window more. *)
Definition budget (rl : RateLimiter) (ip : IpAddr) (t : Z) : Z :=
  match entries rl !! ip with
  | None => max_requests (config rl)
  | Some e =>
      max_requests (config rl) - entry_count e
      + (if t <=? window_start e then 0 else max_requests (config rl))
  end.

Lemma budget_other rl ip ip' now t :
  ip' <> ip -> budget (check rl ip' now).2 ip t = budget rl ip t.
Proof. intros H. unfold budget. by rewrite check_other, check_config. Qed.

Lemma budget_own rl ip now t :
  wf rl -> t <= now < t + window (config rl) ->
  (if is_ok (check rl ip now).1 then 1 else 0) + budget (check rl ip now).2 ip t <= budget rl ip t.
Proof.
  intros Hwf Hnow. destruct (check_entry rl ip now) as (e & He & Hs & Hc & Hlt).
  unfold budget at 1. rewrite He, check_config, Hs, Hc.
  destruct Hwf as [[Hm Hw] Hall].
  unfold budget, current_entry, duration_since.
  destruct (entries rl !! ip) as [e0|] eqn:E0; simpl.
  - assert (Hb := Hall _ _ E0). simpl in Hb.
    destruct (window (config rl) <=? Z.max 0 (now - window_start e0)) eqn:Ew; bool_hyp; simpl;
      destruct (t <=? window_start e0) eqn:E2; bool_hyp; try lia;
      destruct (t <=? now) eqn:E3; bool_hyp; lia.
  - destruct (window (config rl) <=? Z.max 0 (now - now)) eqn:Ew; bool_hyp; simpl;
      destruct (t <=? now) eqn:E3; bool_hyp; lia.
Qed.

Lemma budget_nonneg rl ip t : wf rl -> 0 <= budget rl ip t.
Proof.
  intros [[Hm Hw] Hall]. unfold budget. destruct (entries rl !! ip) as [e|] eqn:E; [|lia].
  assert (Hb := Hall _ _ E). simpl in Hb. case_match; lia.
Qed.

Lemma granted_budget rl ip t reqs :
  wf rl -> within t (window (config rl)) reqs ->
  granted ip reqs (serve rl reqs).1 <= budget rl ip t.
Proof.
  revert rl. induction reqs as [|[ip' now] reqs IH]; intros rl Hwf Hin.
  - simpl. by apply budget_nonneg.
  - apply Forall_cons in Hin as [Hnow Hin]. cbn [snd] in Hnow. rewrite serve_cons. cbn [fst granted].
    specialize (IH (check rl ip' now).2 (wf_check _ _ _ Hwf)).
    rewrite check_config in IH. specialize (IH Hin).
    destruct (beq ip' ip) eqn:E; bool_hyp; cbn [andb].
    + subst ip'. assert (H := budget_own rl ip now t Hwf Hnow). lia.
    + rewrite budget_other in IH by done. lia.
Qed.

(** ** Properties *)

(** C28: over any interval as long as the window, whatever the interleaving of
    requests from all addresses, one address is granted at most twice the
    configured maximum, and at most the maximum when it had no open window. *)
Theorem rate_limit_bound rl ip t reqs :
  wf rl -> within t (window (config rl)) reqs ->
  granted ip reqs (serve rl reqs).1 <= 2 * max_requests (config rl)
  /\ (entries rl !! ip = None ->
      granted ip reqs (serve rl reqs).1 <= max_requests (config rl)).
Proof.
  intros Hwf Hin. assert (H := granted_budget rl ip t reqs Hwf Hin).
  unfold budget in H. split.
  - destruct (entries rl !! ip) as [e|] eqn:E.
    + destruct Hwf as [_ Hall]. assert (Hb := Hall _ _ E). simpl in Hb. case_match; lia.
    + destruct Hwf as [[Hm _] _]. lia.
  - intros E. by rewrite E in H.
Qed.

Lemma rate_limit_bound_witness :
  let reqs := [(V4 1, 10); (V4 2, 11); (V4 1, 12); (V4 1, 13); (V4 1, 14); (V4 1, 15); (V4 1, 16)] in
  granted (V4 1) reqs (serve (new_limiter default_config) reqs).1 <= 2 * 5
  /\ (entries (new_limiter default_config) !! V4 1 = None ->
      granted (V4 1) reqs (serve (new_limiter default_config) reqs).1 <= 5).
Proof.
  intros reqs. apply (rate_limit_bound (new_limiter default_config) (V4 1) 10 reqs).
  - apply wf_new, wf_default.
  - repeat (apply Forall_cons; split; [vm_compute; split; [discriminate|reflexivity]|]).
    apply Forall_nil. exact I.
Defined.

(** [check] answers from the current window and no other state: it grants
    exactly when the address has requests left, reports what remains, and a
    refusal leaves the counter as it is and names the rest of the window. *)
Theorem check_spec rl ip now :
  wf rl -> 0 < window (config rl) ->
  let e := current_entry rl ip now in
  match check rl ip now with
  | (Ok remaining, rl') =>
      entry_count e < max_requests (config rl)
      /\ remaining = max_requests (config rl) - (entry_count e + 1)
      /\ 0 <= remaining <= u32_max
      /\ entries rl' !! ip
         = Some {| entry_count := entry_count e + 1; window_start := window_start e |}
  | (Err retry_after, rl') =>
      entry_count e = max_requests (config rl)
      /\ 0 < retry_after <= window (config rl)
      /\ retry_after = window (config rl) - duration_since now (window_start e)
      /\ entries rl' !! ip = Some e
  end.
Proof.
  intros Hwf Hw e. subst e. assert (Hb := current_entry_bounds rl ip now Hwf).
  assert (Hlive : duration_since now (window_start (current_entry rl ip now)) < window (config rl)).
  { unfold current_entry. destruct (_ <=? _) eqn:E; bool_hyp; [|done].
    simpl. unfold duration_since. lia. }
  destruct Hwf as [[Hm _] _]. unfold check.
  destruct (_ <=? _) eqn:E; bool_hyp; simpl; rewrite lookup_insert_eq.
  - unfold duration_since in *. repeat split; lia.
  - repeat split; lia.
Qed.

Lemma check_spec_witness :
  match check (new_limiter default_config) (V4 7) 42 with
  | (Ok remaining, rl') =>
      0 < 5 /\ remaining = 5 - (0 + 1) /\ 0 <= remaining <= u32_max
      /\ entries rl' !! V4 7 = Some {| entry_count := 0 + 1; window_start := 42 |}
  | (Err retry_after, rl') => False
  end.
Proof.
  apply (check_spec (new_limiter default_config) (V4 7) 42).
  - apply wf_new, wf_default.
  - vm_compute. reflexivity.
Defined.

(** Periodic cleanup is invisible: it never changes the answer to a later
    request (the clock being monotonic). *)
Theorem cleanup_transparent rl ip now later :
  0 < window (config rl) -> now <= later ->
  (check (cleanup rl now) ip later).1 = (check rl ip later).1.
Proof.
  intros Hw Hl.
  assert (H : current_entry (cleanup rl now) ip later = current_entry rl ip later).
  { unfold current_entry, cleanup. cbn [config entries].
    destruct (filter _ (entries rl) !! ip) as [e|] eqn:E.
    - apply map_lookup_filter_Some in E as [E _]. by rewrite E.
    - apply map_lookup_filter_None in E as [E|E]; [by rewrite E|].
      destruct (entries rl !! ip) as [e|] eqn:E1; [|done]. simpl.
      specialize (E e eq_refl). simpl in E. unfold duration_since in *.
      destruct (_ <=? Z.max 0 (later - later)) eqn:E2; bool_hyp; [lia|].
      destruct (_ <=? Z.max 0 (later - window_start e)) eqn:E3; bool_hyp; [done|lia]. }
  unfold check. rewrite H. change (config (cleanup rl now)) with (config rl). by case_match.
Qed.

Lemma cleanup_transparent_witness :
  let rl := (check (new_limiter default_config) (V4 1) 10).2 in
  (check (cleanup rl 20) (V4 1) 30).1 = (check rl (V4 1) 30).1.
Proof.
  intros rl. apply (cleanup_transparent rl (V4 1) 20 30); [vm_compute; reflexivity|lia].
Defined.
