(* ===== verification/Schema.v ===== *)
(** * The database schema

    The tables the migrations create and the Rust structs their rows are read
    into.  A [Uuid] is its 128-bit value, an [i64] a [Z], a BLOB or TEXT
    column a string of bytes, a nullable column an [option]. *)

From S2P Require Import Prelude.

Abbreviation Uuid := N (only parsing).

(** [errors.rs]: the payload of [DbError] is [sqlx]'s and never inspected. *)
Inductive AppError : Type :=
| DbError
| UniqueError (msg : string)
| NotFound
| InputError (errs : list string)
| AuthenticationRequired
| Forbidden
| InternalError (msg : string).

#[export] Instance AppError_eq_dec : EqDecision AppError.
Proof. solve_decision. Defined.

(** [user/mod.rs]: [User]. *)
Record User := {
  u_id : Uuid;
  u_username : string;
  u_name : string;
  u_email : option string;
  u_active : bool;
  u_created_at : Z;
  u_updated_at : Z
}.

(** A row of [users]: the struct plus the session generation. *)
Record UserRow := { u_row :> User; u_token_version : Z }.

(** [user/auth/mod.rs] *)
Inductive AuthenticationScheme : Type :=
| Password (hash : string)
| Totp (secret : string).

Record Authenticator := {
  au_id : Uuid;
  au_scheme : AuthenticationScheme;
  au_owner_id : Uuid
}.

(** [refresh_tokens], with the browser retry columns. *)
Record RefreshTokenRecord := {
  rt_id : Uuid;
  rt_user_id : Uuid;
  rt_token_hash : string;
  rt_expires_at : Z;
  rt_created_at : Z;
  rt_revoked_at : option Z;
  rt_browser_retry_until : option Z;
  rt_browser_retry_pair : option string
}.

(** [user_access_revocations] *)
Record AccessRevocation := { ar_user_id : Uuid; ar_revoked_before : Z }.

(** [forward_handoffs] *)
Record HandoffRow := { fh_id : string; fh_user_id : Uuid; fh_expires_at : Z }.

(** [roles] ([role.rs]: [Role]) and [user_roles]. *)
Record Role := { ro_id : Uuid; ro_name : string; ro_description : option string }.
Record UserRoleRow := { ur_user_id : Uuid; ur_role_id : Uuid }.

(** [applications] *)
Record ApplicationRow := {
  ap_id : Uuid;
  ap_name : string;
  ap_slug : string;
  ap_host_pattern : option string;
  ap_path_prefix : option string;
  ap_required_roles : option string;
  ap_enabled : Z;
  ap_created_at : Z;
  ap_updated_at : Z;
  ap_app_type : string;
  ap_oidc_client_id : option string;
  ap_oidc_client_secret_hash : option string;
  ap_oidc_redirect_uris : option string;
  ap_oidc_post_logout_redirect_uris : option string
}.

(** [settings] *)
Record SettingRow := { se_key : string; se_value : string }.

(** [invitations] ([invitation.rs]: [Invitation]) *)
Record Invitation := {
  inv_id : string;
  inv_created_by : Uuid;
  inv_label : option string;
  inv_max_uses : option Z;
  inv_uses : Z;
  inv_expires_at : option Z;
  inv_created_at : Z
}.

(** [app_passwords] *)
Record AppPasswordRow := {
  apw_id : Uuid;
  apw_user_id : Uuid;
  apw_name : string;
  apw_password_hash : string;
  apw_created_at : Z;
  apw_last_used_at : option Z
}.

(** [user_totps] ([totp.rs]: [UserTotp]) and [totp_recovery_codes]. *)
Record UserTotp := {
  ut_user_id : Uuid;
  ut_secret_encrypted : string;
  ut_last_used_step : option Z;
  ut_activated_at : option Z;
  ut_created_at : Z;
  ut_updated_at : Z
}.

Record RecoveryCodeRow := {
  rc_id : Uuid;
  rc_user_id : Uuid;
  rc_code_hash : string;
  rc_used_at : option Z;
  rc_created_at : Z
}.

(** [oidc_authorization_codes] *)
Record AuthCodeRow := {
  ac_code_hash : string;
  ac_application_id : Uuid;
  ac_user_id : Uuid;
  ac_redirect_uri : string;
  ac_scope : string;
  ac_nonce : option string;
  ac_code_challenge : string;
  ac_code_challenge_method : string;
  ac_auth_time : Z;
  ac_expires_at : Z;
  ac_consumed_at : option Z;
  ac_session_version : option Z;
  ac_session_exp : option Z
}.

(** [audit_log] *)
Record AuditRow := {
  al_id : Uuid;
  al_timestamp : Z;
  al_event_type : string;
  al_user_id : option Uuid;
  al_actor_id : option Uuid;
  al_ip_address : option string;
  al_user_agent : option string;
  al_details : option string
}.

(** [keys]: the nonce is NULL on a key stored in the clear. *)
Record KeyRow := {
  k_id : Uuid;
  k_name : string;
  k_public_key : string;
  k_private_key : string;
  k_nonce : option string
}.

(** [passkeys] and [passkey_challenges] *)
Record PasskeyRow := {
  pk_id : Uuid;
  pk_user_id : Uuid;
  pk_credential_id : string;
  pk_name : string;
  pk_credential : string;
  pk_created_at : Z;
  pk_last_used_at : option Z
}.
Record ChallengeRow := {
  pc_id : string;
  pc_kind : string;
  pc_user_id : option Uuid;
  pc_token_version : option Z;
  pc_name : option string;
  pc_state : string;
  pc_expires_at : Z
}.

(** The database. *)
Record Db := {
  users : list UserRow;
  authenticators : list Authenticator;
  refresh_tokens : list RefreshTokenRecord;
  access_revocations : list AccessRevocation;
  handoffs : list HandoffRow;
  roles : list Role;
  user_roles : list UserRoleRow;
  applications : list ApplicationRow;
  settings : list SettingRow;
  invitations : list Invitation;
  app_passwords : list AppPasswordRow;
  user_totps : list UserTotp;
  recovery_codes : list RecoveryCodeRow;
  auth_codes : list AuthCodeRow;
  audit_log : list AuditRow;
  keys : list KeyRow;
  passkeys : list PasskeyRow;
  passkey_challenges : list ChallengeRow
}.

Definition empty_db : Db := {|
  users := []; authenticators := []; refresh_tokens := []; access_revocations := [];
  handoffs := []; roles := []; user_roles := []; applications := []; settings := [];
  invitations := []; app_passwords := []; user_totps := []; recovery_codes := [];
  auth_codes := []; audit_log := []; keys := [];
  passkeys := []; passkey_challenges := [] |}.

(** One setter per table. *)
Definition with_users (f : list UserRow -> list UserRow) (d : Db) : Db := {|
  users := f (users d); authenticators := authenticators d;
  refresh_tokens := refresh_tokens d; access_revocations := access_revocations d;
  handoffs := handoffs d; roles := roles d; user_roles := user_roles d;
  applications := applications d; settings := settings d; invitations := invitations d;
  app_passwords := app_passwords d; user_totps := user_totps d;
  recovery_codes := recovery_codes d; auth_codes := auth_codes d; audit_log := audit_log d;
  keys := keys d;
  passkeys := passkeys d; passkey_challenges := passkey_challenges d |}.
Definition with_authenticators (f : list Authenticator -> list Authenticator) (d : Db) : Db := {|
  users := users d; authenticators := f (authenticators d);
  refresh_tokens := refresh_tokens d; access_revocations := access_revocations d;
  handoffs := handoffs d; roles := roles d; user_roles := user_roles d;
  applications := applications d; settings := settings d; invitations := invitations d;
  app_passwords := app_passwords d; user_totps := user_totps d;
  recovery_codes := recovery_codes d; auth_codes := auth_codes d; audit_log := audit_log d;
  keys := keys d;
  passkeys := passkeys d; passkey_challenges := passkey_challenges d |}.
Definition with_refresh_tokens (f : list RefreshTokenRecord -> list RefreshTokenRecord) (d : Db) : Db := {|
  users := users d; authenticators := authenticators d;
  refresh_tokens := f (refresh_tokens d); access_revocations := access_revocations d;
  handoffs := handoffs d; roles := roles d; user_roles := user_roles d;
  applications := applications d; settings := settings d; invitations := invitations d;
  app_passwords := app_passwords d; user_totps := user_totps d;
  recovery_codes := recovery_codes d; auth_codes := auth_codes d; audit_log := audit_log d;
  keys := keys d;
  passkeys := passkeys d; passkey_challenges := passkey_challenges d |}.
Definition with_access_revocations (f : list AccessRevocation -> list AccessRevocation) (d : Db) : Db := {|
  users := users d; authenticators := authenticators d; refresh_tokens := refresh_tokens d;
  access_revocations := f (access_revocations d); handoffs := handoffs d; roles := roles d;
  user_roles := user_roles d; applications := applications d; settings := settings d;
  invitations := invitations d; app_passwords := app_passwords d; user_totps := user_totps d;
  recovery_codes := recovery_codes d; auth_codes := auth_codes d; audit_log := audit_log d;
  keys := keys d;
  passkeys := passkeys d; passkey_challenges := passkey_challenges d |}.
Definition with_handoffs (f : list HandoffRow -> list HandoffRow) (d : Db) : Db := {|
  users := users d; authenticators := authenticators d; refresh_tokens := refresh_tokens d;
  access_revocations := access_revocations d; handoffs := f (handoffs d); roles := roles d;
  user_roles := user_roles d; applications := applications d; settings := settings d;
  invitations := invitations d; app_passwords := app_passwords d; user_totps := user_totps d;
  recovery_codes := recovery_codes d; auth_codes := auth_codes d; audit_log := audit_log d;
  keys := keys d;
  passkeys := passkeys d; passkey_challenges := passkey_challenges d |}.
Definition with_roles (f : list Role -> list Role) (d : Db) : Db := {|
  users := users d; authenticators := authenticators d; refresh_tokens := refresh_tokens d;
  access_revocations := access_revocations d; handoffs := handoffs d; roles := f (roles d);
  user_roles := user_roles d; applications := applications d; settings := settings d;
  invitations := invitations d; app_passwords := app_passwords d; user_totps := user_totps d;
  recovery_codes := recovery_codes d; auth_codes := auth_codes d; audit_log := audit_log d;
  keys := keys d;
  passkeys := passkeys d; passkey_challenges := passkey_challenges d |}.
Definition with_user_roles (f : list UserRoleRow -> list UserRoleRow) (d : Db) : Db := {|
  users := users d; authenticators := authenticators d; refresh_tokens := refresh_tokens d;
  access_revocations := access_revocations d; handoffs := handoffs d; roles := roles d;
  user_roles := f (user_roles d); applications := applications d; settings := settings d;
  invitations := invitations d; app_passwords := app_passwords d; user_totps := user_totps d;
  recovery_codes := recovery_codes d; auth_codes := auth_codes d; audit_log := audit_log d;
  keys := keys d;
  passkeys := passkeys d; passkey_challenges := passkey_challenges d |}.
Definition with_applications (f : list ApplicationRow -> list ApplicationRow) (d : Db) : Db := {|
  users := users d; authenticators := authenticators d; refresh_tokens := refresh_tokens d;
  access_revocations := access_revocations d; handoffs := handoffs d; roles := roles d;
  user_roles := user_roles d; applications := f (applications d); settings := settings d;
  invitations := invitations d; app_passwords := app_passwords d; user_totps := user_totps d;
  recovery_codes := recovery_codes d; auth_codes := auth_codes d; audit_log := audit_log d;
  keys := keys d;
  passkeys := passkeys d; passkey_challenges := passkey_challenges d |}.
Definition with_settings (f : list SettingRow -> list SettingRow) (d : Db) : Db := {|
  users := users d; authenticators := authenticators d; refresh_tokens := refresh_tokens d;
  access_revocations := access_revocations d; handoffs := handoffs d; roles := roles d;
  user_roles := user_roles d; applications := applications d; settings := f (settings d);
  invitations := invitations d; app_passwords := app_passwords d; user_totps := user_totps d;
  recovery_codes := recovery_codes d; auth_codes := auth_codes d; audit_log := audit_log d;
  keys := keys d;
  passkeys := passkeys d; passkey_challenges := passkey_challenges d |}.
Definition with_invitations (f : list Invitation -> list Invitation) (d : Db) : Db := {|
  users := users d; authenticators := authenticators d; refresh_tokens := refresh_tokens d;
  access_revocations := access_revocations d; handoffs := handoffs d; roles := roles d;
  user_roles := user_roles d; applications := applications d; settings := settings d;
  invitations := f (invitations d); app_passwords := app_passwords d;
  user_totps := user_totps d; recovery_codes := recovery_codes d; auth_codes := auth_codes d;
  audit_log := audit_log d; keys := keys d;
  passkeys := passkeys d; passkey_challenges := passkey_challenges d |}.
Definition with_app_passwords (f : list AppPasswordRow -> list AppPasswordRow) (d : Db) : Db := {|
  users := users d; authenticators := authenticators d; refresh_tokens := refresh_tokens d;
  access_revocations := access_revocations d; handoffs := handoffs d; roles := roles d;
  user_roles := user_roles d; applications := applications d; settings := settings d;
  invitations := invitations d; app_passwords := f (app_passwords d);
  user_totps := user_totps d; recovery_codes := recovery_codes d; auth_codes := auth_codes d;
  audit_log := audit_log d; keys := keys d;
  passkeys := passkeys d; passkey_challenges := passkey_challenges d |}.
Definition with_user_totps (f : list UserTotp -> list UserTotp) (d : Db) : Db := {|
  users := users d; authenticators := authenticators d; refresh_tokens := refresh_tokens d;
  access_revocations := access_revocations d; handoffs := handoffs d; roles := roles d;
  user_roles := user_roles d; applications := applications d; settings := settings d;
  invitations := invitations d; app_passwords := app_passwords d;
  user_totps := f (user_totps d); recovery_codes := recovery_codes d;
  auth_codes := auth_codes d; audit_log := audit_log d; keys := keys d;
  passkeys := passkeys d; passkey_challenges := passkey_challenges d |}.
Definition with_recovery_codes (f : list RecoveryCodeRow -> list RecoveryCodeRow) (d : Db) : Db := {|
  users := users d; authenticators := authenticators d; refresh_tokens := refresh_tokens d;
  access_revocations := access_revocations d; handoffs := handoffs d; roles := roles d;
  user_roles := user_roles d; applications := applications d; settings := settings d;
  invitations := invitations d; app_passwords := app_passwords d; user_totps := user_totps d;
  recovery_codes := f (recovery_codes d); auth_codes := auth_codes d;
  audit_log := audit_log d; keys := keys d;
  passkeys := passkeys d; passkey_challenges := passkey_challenges d |}.
Definition with_auth_codes (f : list AuthCodeRow -> list AuthCodeRow) (d : Db) : Db := {|
  users := users d; authenticators := authenticators d; refresh_tokens := refresh_tokens d;
  access_revocations := access_revocations d; handoffs := handoffs d; roles := roles d;
  user_roles := user_roles d; applications := applications d; settings := settings d;
  invitations := invitations d; app_passwords := app_passwords d; user_totps := user_totps d;
  recovery_codes := recovery_codes d; auth_codes := f (auth_codes d);
  audit_log := audit_log d; keys := keys d;
  passkeys := passkeys d; passkey_challenges := passkey_challenges d |}.
Definition with_audit_log (f : list AuditRow -> list AuditRow) (d : Db) : Db := {|
  users := users d; authenticators := authenticators d; refresh_tokens := refresh_tokens d;
  access_revocations := access_revocations d; handoffs := handoffs d; roles := roles d;
  user_roles := user_roles d; applications := applications d; settings := settings d;
  invitations := invitations d; app_passwords := app_passwords d; user_totps := user_totps d;
  recovery_codes := recovery_codes d; auth_codes := auth_codes d;
  audit_log := f (audit_log d); keys := keys d;
  passkeys := passkeys d; passkey_challenges := passkey_challenges d |}.
Definition with_keys (f : list KeyRow -> list KeyRow) (d : Db) : Db := {|
  users := users d; authenticators := authenticators d; refresh_tokens := refresh_tokens d;
  access_revocations := access_revocations d; handoffs := handoffs d; roles := roles d;
  user_roles := user_roles d; applications := applications d; settings := settings d;
  invitations := invitations d; app_passwords := app_passwords d; user_totps := user_totps d;
  recovery_codes := recovery_codes d; auth_codes := auth_codes d; audit_log := audit_log d;
  keys := f (keys d);
  passkeys := passkeys d; passkey_challenges := passkey_challenges d |}.
Definition with_passkeys (f : list PasskeyRow -> list PasskeyRow) (d : Db) : Db := {|
  users := users d; authenticators := authenticators d; refresh_tokens := refresh_tokens d;
  access_revocations := access_revocations d; handoffs := handoffs d; roles := roles d;
  user_roles := user_roles d; applications := applications d; settings := settings d;
  invitations := invitations d; app_passwords := app_passwords d; user_totps := user_totps d;
  recovery_codes := recovery_codes d; auth_codes := auth_codes d; audit_log := audit_log d;
  keys := keys d;
  passkeys := f (passkeys d); passkey_challenges := passkey_challenges d |}.
Definition with_passkey_challenges
    (f : list ChallengeRow -> list ChallengeRow) (d : Db) : Db := {|
  users := users d; authenticators := authenticators d; refresh_tokens := refresh_tokens d;
  access_revocations := access_revocations d; handoffs := handoffs d; roles := roles d;
  user_roles := user_roles d; applications := applications d; settings := settings d;
  invitations := invitations d; app_passwords := app_passwords d; user_totps := user_totps d;
  recovery_codes := recovery_codes d; auth_codes := auth_codes d; audit_log := audit_log d;
  keys := keys d;
  passkeys := passkeys d; passkey_challenges := f (passkey_challenges d) |}.

(** ** Foreign keys *)

Definition user_exists (uid : Uuid) (d : Db) : bool :=
  existsb (fun u : UserRow => beq (u_id u) uid) (users d).
Definition role_exists (rid : Uuid) (d : Db) : bool :=
  existsb (fun r => beq (ro_id r) rid) (roles d).
Definition application_exists (aid : Uuid) (d : Db) : bool :=
  existsb (fun a => beq (ap_id a) aid) (applications d).

(** The error of a violated uniqueness constraint ([From<sqlx::Error>] in
    [errors.rs]); any other constraint is a [DbError]. *)
Definition unique_violation : AppError := UniqueError "Uniqueness constraint not satisfied".

(** An [INSERT] checked against a uniqueness constraint and a foreign key. *)
Definition insert_checked (duplicate fk_ok : bool) (f : Db -> Db) (d : Db)
    : result AppError (unit * Db) :=
  if duplicate then Err unique_violation
  else if fk_ok then Ok (tt, f d) else Err DbError.

Lemma insert_checked_ok dup fk f d u d' :
  insert_checked dup fk f d = Ok (u, d') <-> dup = false /\ fk = true /\ d' = f d.
Proof. unfold insert_checked. destruct dup, fk, u; naive_solver. Qed.

Lemma existsb_find {A} (p : A -> bool) (l : list A) : existsb p l = is_some (List.find p l).
Proof. induction l as [|x l IH]; simpl; [done|]. by destruct (p x). Qed.
