(* ===== verification/Sys.v ===== *)
(** * Effects: the server as programs over a shared world

    A handler is a tree of atomic steps.  One step is one SQL statement, one
    read of a clock or of the random source, or one critical section of a rate
    limiter; between two steps other requests may run.  [run] executes a
    program alone; [pool_step] interleaves any number of them. *)

From S2P Require Import Prelude RStr RateLimit Schema.
Local Open Scope Z_scope.

(** ** The world *)

Record Limiters := {
  login_rl : RateLimiter;
  register_rl : RateLimiter;
  ldap_bind_rl : RateLimiter;
  oidc_token_rl : RateLimiter
}.

(** [tick] numbers the atomic steps executed so far; it indexes the oracles of
    the environment. *)
Record World := { db : Db; limiters : Limiters; tick : nat }.

(** What the machine provides at step [i]: the wall clock in seconds, the
    monotonic clock in nanoseconds, whether the storage layer fails ([sqlx]
    errors, lock contention), random bytes, fresh UUIDs, and the process
    environment. *)
Class Env := {
  clock : nat -> Z;
  instant : nat -> Z;
  fault : nat -> bool;
  entropy : nat -> nat -> string;
  fresh_uuid : nat -> Uuid;
  env_var : string -> option string
}.

Definition bump (w : World) : World :=
  {| db := db w; limiters := limiters w; tick := S (tick w) |}.
Definition set_db (d : Db) (w : World) : World :=
  {| db := d; limiters := limiters w; tick := tick w |}.

(** ** Programs *)

Inductive prog (A : Type) : Type :=
| Ret (a : A)
| Atom {B : Type} (f : World -> B * World) (k : B -> prog A).
Arguments Ret {A} a.
Arguments Atom {A B} f k.

Fixpoint bind {A B} (p : prog A) (k : A -> prog B) : prog B :=
  match p with
  | Ret a => k a
  | Atom f k' => Atom f (fun x => bind (k' x) k)
  end.

Fixpoint run {A} (p : prog A) (w : World) : A * World :=
  match p with
  | Ret a => (a, w)
  | Atom f k => let '(x, w') := f w in run (k x) w'
  end.

(** Fallible programs: Rust's [Result<A, AppError>] with the [?] operator. *)
Abbreviation M A := (prog (result AppError A)) (only parsing).

Definition bindM {A B} (p : M A) (k : A -> M B) : M B :=
  bind p (fun r => match r with Ok a => k a | Err e => Ret (Err e) end).

Declare Scope prog_scope.
Delimit Scope prog_scope with prog.
(** [x <- p ;; q] is [let x = p?; q]; [x <~ p ;; q] binds the value itself. *)
Notation "x <- p ;; q" := (bindM p (fun x => q))
  (at level 100, p at next level, right associativity) : prog_scope.
Notation "' pat <- p ;; q" := (bindM p (fun x => match x with pat => q end))
  (at level 100, pat pattern, p at next level, right associativity) : prog_scope.
Notation "x <~ p ;; q" := (bind p (fun x => q))
  (at level 100, p at next level, right associativity) : prog_scope.
Notation "p ;;; q" := (bindM p (fun _ => q))
  (at level 100, right associativity) : prog_scope.
Open Scope prog_scope.

Definition ret {A} (a : A) : M A := Ret (Ok a).
Definition throw {A} (e : AppError) : M A := Ret (Err e).
(** [r?] for a pure result. *)
Definition lift {A} (r : result AppError A) : M A := Ret r.
(** [o.ok_or(e)?] *)
Definition require {A} (o : option A) (e : AppError) : M A := Ret (ok_or o e).
(** [if b { return Err(e) }] *)
Definition guard (b : bool) (e : AppError) : M unit := if b then throw e else ret tt.

Section Primitives.
Context {E : Env}.

(** [SystemTime::now()] in seconds, and SQLite's [unixepoch()]. *)
Definition now : prog Z := Atom (fun w => (clock (tick w), bump w)) Ret.

(** [OsRng.fill_bytes] on [n] bytes. *)
Definition random_bytes (n : nat) : prog string :=
  Atom (fun w => (entropy (tick w) n, bump w)) Ret.

(** [Uuid::now_v7()] and [Uuid::new_v4()]. *)
Definition new_uuid : prog Uuid := Atom (fun w => (fresh_uuid (tick w), bump w)) Ret.

(** One SQL statement: it fails as a whole, is refused by a constraint, or
    takes effect. *)
Definition stmt {A} (f : Db -> result AppError (A * Db)) : M A :=
  Atom (fun w =>
    if fault (tick w) then (Err DbError, bump w)
    else match f (db w) with
         | Ok (a, d) => (Ok a, set_db d (bump w))
         | Err e => (Err e, bump w)
         end) Ret.

Definition query {A} (f : Db -> A) : M A := stmt (fun d => Ok (f d, d)).
Definition exec {A} (f : Db -> A * Db) : M A := stmt (fun d => Ok (f d)).

(** [pool.acquire()] *)
Definition acquire : M unit := query (fun _ => tt).

(** One critical section of a rate limiter. *)
Definition rl_check (get : Limiters -> RateLimiter)
    (set : RateLimiter -> Limiters -> Limiters) (ip : IpAddr) : prog (result Z Z) :=
  Atom (fun w =>
    let '(r, rl) := check (get (limiters w)) ip (instant (tick w)) in
    (r, {| db := db w; limiters := set rl (limiters w); tick := S (tick w) |})) Ret.

(** *** Transactions

    SQLite serialises write transactions; one whose snapshot is overtaken
    fails, which is a storage fault here.  So a transaction is one atomic
    step.  Its body says how it ends: [(true, r)] after a commit, [(false,
    r)] when the transaction is dropped and rolled back. *)
Definition commit_with {A} (r : result AppError A) : prog (bool * result AppError A) :=
  c <~ acquire ;;
  match c with
  | Ok _ => Ret (true, r)
  | Err e => Ret (false, Err e)
  end.

Definition run_tx {A} (body : prog (bool * result AppError A)) (w : World)
  : result AppError A * World :=
  let '((committed, r), w') := run body w in
  (r, if committed then w' else set_db (db w) w').

Definition atomic_tx {A} (body : prog (bool * result AppError A)) : M A :=
  acquire ;;; Atom (run_tx body) Ret.

(** [?] inside a transaction's body: an error drops the transaction. *)
Definition tx_bind {A B} (p : M A) (k : A -> prog (bool * result AppError B))
    : prog (bool * result AppError B) :=
  bind p (fun r => match r with Ok a => k a | Err e => Ret (false, Err e) end).

(** [begin]; body with [?] (an error drops the transaction); [commit]. *)
Definition transaction {A} (p : M A) : M A :=
  atomic_tx (r <~ p ;;
             match r with
             | Ok a => commit_with (Ok a)
             | Err e => Ret (false, Err e)
             end).
End Primitives.

Notation "x <-! p ;; q" := (tx_bind p (fun x => q))
  (at level 100, p at next level, right associativity) : prog_scope.

(** ** Running *)

Lemma run_bind {A B} (p : prog A) (k : A -> prog B) w :
  run (bind p k) w = run (k (run p w).1) (run p w).2.
Proof.
  revert w. induction p as [a|C f k' IH]; intros w; [done|].
  simpl. destruct (f w) as [x w']. apply IH.
Qed.

Lemma run_to {A} (p : prog A) w a : (run p w).1 = a -> run p w = (a, (run p w).2).
Proof. intros <-. apply surjective_pairing. Qed.

Lemma run_bindM {A B} (p : M A) (k : A -> M B) w :
  run (bindM p k) w =
  match run p w with
  | (Ok a, w1) => run (k a) w1
  | (Err e, w1) => (Err e, w1)
  end.
Proof. unfold bindM. rewrite run_bind. destruct (run p w) as [[a|e] w1]; done. Qed.

Lemma run_bindM_ok {A B} (p : M A) (k : A -> M B) w b w' :
  run (bindM p k) w = (Ok b, w') <->
  exists a w1, run p w = (Ok a, w1) /\ run (k a) w1 = (Ok b, w').
Proof.
  rewrite run_bindM. split.
  - destruct (run p w) as [[a|e] w1]; [eauto|done].
  - by intros (a & w1 & -> & H).
Qed.

Lemma run_bind_eq {A B} (p : prog A) (k : A -> prog B) w b w' :
  run (bind p k) w = (b, w') <->
  exists a w1, run p w = (a, w1) /\ run (k a) w1 = (b, w').
Proof.
  rewrite run_bind. destruct (run p w) as [a w1]; simpl. naive_solver.
Qed.

Lemma run_ret_ok {A} (a b : A) w w' : run (ret a) w = (Ok b, w') <-> a = b /\ w = w'.
Proof. unfold ret. simpl. naive_solver. Qed.

Lemma run_throw_ok {A} e (b : A) w w' : run (throw e) w = (Ok b, w') <-> False.
Proof. unfold throw. simpl. naive_solver. Qed.

Lemma run_lift_ok {A} (r : result AppError A) (b : A) w w' :
  run (lift r) w = (Ok b, w') <-> r = Ok b /\ w = w'.
Proof. unfold lift. simpl. naive_solver. Qed.

Lemma run_require_ok {A} (o : option A) e (b : A) w w' :
  run (require o e) w = (Ok b, w') <-> o = Some b /\ w = w'.
Proof. unfold require. simpl. destruct o; naive_solver. Qed.

Lemma run_guard_ok b e u w w' :
  run (guard b e) w = (Ok u, w') <-> b = false /\ w = w'.
Proof. unfold guard, throw, ret. destruct b, u; simpl; naive_solver. Qed.

Section RunPrimitives.
Context {E : Env}.

Lemma run_now n w w' : run now w = (n, w') <-> n = clock (tick w) /\ w' = bump w.
Proof. simpl. naive_solver. Qed.

Lemma run_new_uuid n w w' : run new_uuid w = (n, w') <-> n = fresh_uuid (tick w) /\ w' = bump w.
Proof. simpl. naive_solver. Qed.

Lemma run_random k n w w' :
  run (random_bytes k) w = (n, w') <-> n = entropy (tick w) k /\ w' = bump w.
Proof. simpl. naive_solver. Qed.

Lemma run_stmt_ok {A} (f : Db -> result AppError (A * Db)) a w w' :
  run (stmt f) w = (Ok a, w') <->
  fault (tick w) = false /\ exists d, f (db w) = Ok (a, d) /\ w' = set_db d (bump w).
Proof.
  simpl. destruct (fault (tick w)); [naive_solver|].
  destruct (f (db w)) as [[x d]|e]; naive_solver.
Qed.

Lemma run_query_ok {A} (f : Db -> A) a w w' :
  run (query f) w = (Ok a, w') <-> fault (tick w) = false /\ a = f (db w) /\ w' = bump w.
Proof.
  unfold query. rewrite run_stmt_ok. split.
  - intros (Hf & d & [= <- <-] & ->). destruct w; done.
  - intros (Hf & -> & ->). split; [done|]. exists (db w). destruct w; done.
Qed.

Lemma run_exec_ok {A} (f : Db -> A * Db) a w w' :
  run (exec f) w = (Ok a, w') <->
  fault (tick w) = false /\ a = (f (db w)).1 /\ w' = set_db (f (db w)).2 (bump w).
Proof.
  unfold exec. rewrite run_stmt_ok. split.
  - intros (Hf & d & H & ->). destruct (f (db w)) as [x d']. by injection H as -> ->.
  - intros (Hf & -> & ->). split; [done|]. eexists. by rewrite <- surjective_pairing.
Qed.

(** A statement that does not fail in storage. *)
Lemma run_query {A} (f : Db -> A) w :
  fault (tick w) = false -> run (query f) w = (Ok (f (db w)), bump w).
Proof. intros H. by apply run_query_ok. Qed.

Lemma run_exec {A} (f : Db -> A * Db) w :
  fault (tick w) = false -> run (exec f) w = (Ok (f (db w)).1, set_db (f (db w)).2 (bump w)).
Proof. intros H. by apply run_exec_ok. Qed.

(** A read leaves the database as it is, whatever its outcome. *)
Lemma run_query_db {A} (f : Db -> A) w : db (run (query f) w).2 = db w.
Proof. simpl. by destruct (fault (tick w)). Qed.

Lemma run_acquire_ok u w w' :
  run acquire w = (Ok u, w') <-> fault (tick w) = false /\ w' = bump w.
Proof. unfold acquire. rewrite run_query_ok. destruct u. naive_solver. Qed.

Lemma run_atomic_tx_ok {A} (body : prog (bool * result AppError A)) a w w' :
  run (atomic_tx body) w = (Ok a, w') <->
  fault (tick w) = false /\
  exists c w1, run body (bump w) = ((c, Ok a), w1)
    /\ w' = (if c then w1 else set_db (db w) w1).
Proof.
  unfold atomic_tx. rewrite run_bindM_ok. split.
  - intros (u & w1 & H1 & H2). apply run_acquire_ok in H1 as [Hf ->].
    split; [done|]. cbn [run] in H2. unfold run_tx in H2.
    destruct (run body (bump w)) as [[c r] w1]. injection H2 as -> <-. eauto.
  - intros (Hf & c & w1 & Hb & ->). exists tt, (bump w).
    split; [by apply run_acquire_ok|].
    cbn [run]. unfold run_tx. by rewrite Hb.
Qed.

Lemma run_transaction_ok {A} (p : M A) a w w' :
  run (transaction p) w = (Ok a, w') <->
  fault (tick w) = false /\
  exists w1, run p (bump w) = (Ok a, w1) /\ fault (tick w1) = false /\ w' = bump w1.
Proof.
  unfold transaction. rewrite run_atomic_tx_ok. split.
  - intros (Hf & c & w1 & Hb & ->). split; [done|].
    apply run_bind_eq in Hb as (r & w2 & Hp & Hk).
    destruct r as [x|e]; [|done]. unfold commit_with in Hk.
    apply run_bind_eq in Hk as (r2 & w3 & Ha & Hk).
    destruct r2; [|by simplify_eq/=]. apply run_acquire_ok in Ha as [Hf2 ->].
    simpl in Hk. injection Hk as <- <- <-. eauto.
  - intros (Hf & w1 & Hp & Hf1 & ->). split; [done|].
    exists true, (bump w1). split; [|done].
    apply run_bind_eq. exists (Ok a), w1. split; [done|].
    unfold commit_with. apply run_bind_eq. exists (Ok tt), (bump w1).
    split; [by apply run_acquire_ok|done].
Qed.

(** A transaction that fails leaves no trace in the database. *)
Lemma run_transaction_err {A} (p : M A) e w w' :
  run (transaction p) w = (Err e, w') -> db w' = db w.
Proof.
  unfold transaction, atomic_tx. rewrite run_bindM.
  destruct (run acquire w) as [r w0] eqn:Ha.
  assert (Hdb : db w0 = db w) by (change w0 with (r, w0).2; rewrite <- Ha; apply run_query_db).
  destruct r as [u|e']; [|by intros [= _ <-]].
  cbn [run]. unfold run_tx. rewrite run_bind.
  destruct (run p w0) as [[a|e'] w1]; cbn [fst snd].
  - unfold commit_with. rewrite run_bind.
    destruct (run acquire w1) as [[u'|e'] w2]; simpl; [done|]. by intros [= _ <-].
  - simpl. by intros [= _ <-].
Qed.
End RunPrimitives.

(** Invert a successful run in hypothesis [H], one step at a time. *)
Ltac run_inv H :=
  lazymatch type of H with
  | run (bindM _ _) _ = (Ok _, _) =>
      let a := fresh "a" in let w1 := fresh "w" in
      let H1 := fresh "Hr" in let H2 := fresh "Hk" in
      apply run_bindM_ok in H as (a & w1 & H1 & H2); run_inv H1; run_inv H2
  | run (bind _ _) _ = (_, _) =>
      let a := fresh "a" in let w1 := fresh "w" in
      let H1 := fresh "Hr" in let H2 := fresh "Hk" in
      apply run_bind_eq in H as (a & w1 & H1 & H2); run_inv H1; run_inv H2
  | run now _ = (_, _) => apply run_now in H as [-> ->]
  | run new_uuid _ = (_, _) => apply run_new_uuid in H as [-> ->]
  | run (random_bytes _) _ = (_, _) => apply run_random in H as [-> ->]
  | run (ret _) _ = (Ok _, _) => apply run_ret_ok in H as [? ?]; try subst
  | run (Ret _) _ = (_, _) => cbn [run] in H; try (injection H as ? ?; try subst)
  | run (throw _) _ = (Ok _, _) => by apply run_throw_ok in H
  | run (lift _) _ = (Ok _, _) => apply run_lift_ok in H as [? ?]; try subst
  | run (require _ _) _ = (Ok _, _) => apply run_require_ok in H as [? ?]; try subst
  | run (guard _ _) _ = (Ok _, _) => apply run_guard_ok in H as [? ?]; try subst
  | run acquire _ = (Ok _, _) => apply run_acquire_ok in H as [? ->]
  | run (query _) _ = (Ok _, _) => apply run_query_ok in H as (? & -> & ->)
  | run (exec _) _ = (Ok _, _) => apply run_exec_ok in H as (? & -> & ->)
  | run (stmt _) _ = (Ok _, _) => apply run_stmt_ok in H as (? & ? & ? & ->)
  | _ => idtac
  end.

(** ** Step-wise invariants

    [respects_from n R p]: every atomic step that [p] takes, in whatever world
    it is resumed from tick [n] on, is an [R] step, and time does not run
    backwards.  What a step returned is known to the steps after it: a clock
    reading is the clock at some tick from [n] on, a UUID is one drawn then.
    It is what the rest of the system may rely on whatever the interleaving. *)
Fixpoint respects_from (n : nat) {A} (R : World -> World -> Prop) (p : prog A) : Prop :=
  match p with
  | Ret _ => True
  | Atom f k => forall w, (n <= tick w)%nat ->
      R w (f w).2 /\ (n <= tick (f w).2)%nat /\ respects_from n R (k (f w).1)
  end.
Abbreviation respects := (respects_from 0).

Section RespectsFrom.
Context (n : nat) (R : World -> World -> Prop).

Lemma respects_bind {A B} (p : prog A) (k : A -> prog B) :
  respects_from n R p -> (forall a, respects_from n R (k a)) -> respects_from n R (bind p k).
Proof.
  intros Hp Hk. induction p as [a|C f k' IH]; simpl; [auto|]. intros w Hw.
  destruct (Hp w Hw) as (H1 & H2 & H3). auto.
Qed.

Lemma respects_bindM {A B} (p : M A) (k : A -> M B) :
  respects_from n R p -> (forall a, respects_from n R (k a)) -> respects_from n R (bindM p k).
Proof. intros Hp Hk. apply respects_bind; [done|]. by intros []. Qed.

Lemma respects_Ret {A} (a : A) : respects_from n R (Ret a).
Proof. done. Qed.

Lemma respects_from_run `{!PreOrder R} {A} (p : prog A) w :
  (n <= tick w)%nat -> respects_from n R p -> R w (run p w).2 /\ (n <= tick (run p w).2)%nat.
Proof.
  revert w. induction p as [a|C f k IH]; intros w Hw; simpl; [done|].
  intros H. destruct (H w Hw) as (H1 & H2 & H3). destruct (f w) as [x w']. simpl in *.
  destruct (IH x w' H2 H3) as [H4 H5]. split; [|done]. by etrans.
Qed.
End RespectsFrom.

Lemma respects_run {A} (R : World -> World -> Prop) `{!PreOrder R} (p : prog A) w :
  respects R p -> R w (run p w).2.
Proof. intros H. apply (respects_from_run 0 R p w); [lia|done]. Qed.

(** A relation that only looks at the database. *)
Definition on_db (R : Db -> Db -> Prop) (w w' : World) : Prop := R (db w) (db w').

#[export] Instance on_db_preorder R `{!PreOrder R} : PreOrder (on_db R).
Proof. split; unfold on_db; [intros w; reflexivity|intros w1 w2 w3 H1 H2; etrans; eauto]. Qed.

Definition anything (d d' : Db) : Prop := True.
#[export] Instance anything_preorder : PreOrder anything.
Proof. by split. Qed.

Section RespectsPrimitives.
Context {E : Env} (n : nat) (R : Db -> Db -> Prop) `{!PreOrder R}.

Ltac no_write := intros w Hw; unfold on_db; simpl; split; [reflexivity|split; [lia|done]].

Lemma respects_now : respects_from n (on_db R) now.
Proof. no_write. Qed.
Lemma respects_random k : respects_from n (on_db R) (random_bytes k).
Proof. no_write. Qed.
Lemma respects_uuid : respects_from n (on_db R) new_uuid.
Proof. no_write. Qed.
Lemma respects_rl get set ip : respects_from n (on_db R) (rl_check get set ip).
Proof. intros w Hw. unfold on_db. simpl. destruct (check _ _ _). simpl. split; [reflexivity|split; [lia|done]]. Qed.

(** What is read from a clock or drawn is known afterwards. *)
Lemma respects_bind_now {A} (k : Z -> prog A) :
  (forall i, (n <= i)%nat -> respects_from n (on_db R) (k (clock i))) ->
  respects_from n (on_db R) (bind now k).
Proof. intros H w Hw. unfold on_db. simpl. split; [reflexivity|]. split; [lia|auto]. Qed.
Lemma respects_bind_random {A} m (k : string -> prog A) :
  (forall i, (n <= i)%nat -> respects_from n (on_db R) (k (entropy i m))) ->
  respects_from n (on_db R) (bind (random_bytes m) k).
Proof. intros H w Hw. unfold on_db. simpl. split; [reflexivity|]. split; [lia|auto]. Qed.
Lemma respects_bind_uuid {A} (k : Uuid -> prog A) :
  (forall i, (n <= i)%nat -> respects_from n (on_db R) (k (fresh_uuid i))) ->
  respects_from n (on_db R) (bind new_uuid k).
Proof. intros H w Hw. unfold on_db. simpl. split; [reflexivity|]. split; [lia|auto]. Qed.
Lemma respects_bind_lift {A B} (r : result AppError A) (k : A -> M B) :
  (forall a, r = Ok a -> respects_from n (on_db R) (k a)) -> respects_from n (on_db R) (bindM (lift r) k).
Proof. destruct r as [a|e]; [intros H; by apply H|done]. Qed.

Lemma respects_stmt {A} (f : Db -> result AppError (A * Db)) :
  (forall d a d', f d = Ok (a, d') -> R d d') -> respects_from n (on_db R) (stmt f).
Proof.
  intros H w Hw. unfold on_db. simpl. destruct (fault (tick w)); [simpl; split; [reflexivity|split; [lia|done]]|].
  destruct (f (db w)) as [[a d]|e] eqn:E1; simpl; (split; [|split; [lia|done]]); [by eapply H|reflexivity].
Qed.

Lemma respects_query {A} (f : Db -> A) : respects_from n (on_db R) (query f).
Proof. apply respects_stmt. intros d a d' [= _ <-]. reflexivity. Qed.

Lemma respects_exec {A} (f : Db -> A * Db) :
  (forall d, R d (f d).2) -> respects_from n (on_db R) (exec f).
Proof. intros H. apply respects_stmt. intros d a d' [= Hd]. specialize (H d). by rewrite Hd in H. Qed.

Lemma respects_acquire : respects_from n (on_db R) acquire.
Proof. apply respects_query. Qed.

Lemma respects_atomic_tx {A} (body : prog (bool * result AppError A)) :
  respects_from n (on_db R) body -> respects_from n (on_db R) (atomic_tx body).
Proof.
  intros H. apply respects_bindM; [apply respects_acquire|]. intros _ w Hw. unfold run_tx.
  destruct (respects_from_run n (on_db R) body w Hw H) as [H1 H2].
  destruct (run body w) as [[c r] w']. simpl in *. split; [|by destruct c].
  destruct c; [done|]. unfold on_db. simpl. reflexivity.
Qed.

Lemma respects_transaction {A} (p : M A) :
  respects_from n (on_db R) p -> respects_from n (on_db R) (transaction p).
Proof.
  intros H. apply respects_atomic_tx, respects_bind; [done|].
  intros [a|e]; [|done]. apply respects_bind; [apply respects_acquire|]. by intros [].
Qed.

(** A transaction judged by the runs of its body that commit. *)
Lemma respects_transaction_ok {A} (p : M A) :
  respects_from n (on_db anything) p ->
  (forall w a w', run p w = (Ok a, w') -> R (db w) (db w')) ->
  respects_from n (on_db R) (transaction p).
Proof.
  intros Ht Hok. apply respects_bindM; [apply respects_acquire|]. intros _ w Hw. unfold run_tx, commit_with.
  rewrite run_bind. destruct (respects_from_run n _ p w Hw Ht) as [_ Hn]. destruct (run p w) as [[a|e] w1] eqn:Hr; cbn [fst snd] in *.
  - specialize (Hok _ _ _ Hr). rewrite run_bind. unfold acquire. cbn [run query stmt].
    destruct (fault (tick w1)); cbn; unfold on_db; cbn; (split; [|split; [lia|done]]); [reflexivity|done].
  - cbn. unfold on_db. cbn. split; [reflexivity|done].
Qed.
End RespectsPrimitives.

(** Time only passes while a program runs. *)
Lemma run_passes {A} (p : prog A) w a w' :
  (forall n, respects_from n (on_db anything) p) -> run p w = (a, w') -> (tick w <= tick w')%nat.
Proof.
  intros H Hr. destruct (respects_from_run (tick w) (on_db anything) p w (le_n _) (H _)) as [_ Ht].
  by rewrite Hr in Ht.
Qed.

(** A moment of a run: the clock was read at one of its steps. *)
Definition during {E : Env} (w w' : World) (t : Z) : Prop :=
  exists i, (tick w <= i < tick w')%nat /\ t = clock i.
Lemma during_mono {E : Env} w0 w1 w2 w3 t :
  (tick w0 <= tick w1)%nat -> (tick w2 <= tick w3)%nat -> during w1 w2 t -> during w0 w3 t.
Proof. intros H1 H2 (i & Hi & ->). exists i. split; [lia|done]. Qed.

Create HintDb respects.
#[export] Hint Resolve respects_bind respects_bindM respects_Ret respects_now respects_random
  respects_uuid respects_rl respects_query respects_acquire respects_atomic_tx
  respects_transaction : respects.
#[export] Hint Extern 1 (respects_from _ _ (ret _)) => exact I : respects.
#[export] Hint Extern 1 (respects_from _ _ (throw _)) => exact I : respects.
#[export] Hint Extern 1 (respects_from _ _ (lift _)) => exact I : respects.
#[export] Hint Extern 1 (respects_from _ _ (require _ _)) => exact I : respects.
#[export] Hint Extern 1 (respects_from _ _ (guard ?b _)) => destruct b; exact I : respects.
#[export] Hint Extern 3 (respects_from _ _ (match ?x with _ => _ end)) => destruct x : respects.

(** Walk through a program, leaving one goal per statement that writes. *)
Ltac respects_walk :=
  repeat lazymatch goal with
  | |- forall _, _ => intros ?
  | |- respects_from _ _ (bindM _ _) => apply respects_bindM
  | |- respects_from _ _ (tx_bind _ _) => apply respects_bind
  | |- respects_from _ _ (bind _ _) => apply respects_bind
  | |- respects_from _ _ (Ret _) => exact I
  | |- respects_from _ _ (ret _) => exact I
  | |- respects_from _ _ (throw _) => exact I
  | |- respects_from _ _ (lift _) => exact I
  | |- respects_from _ _ (require _ _) => exact I
  | |- respects_from _ _ (match ?x with _ => _ end) => destruct x
  | |- respects_from _ _ (let _ := _ in _) => cbv zeta
  | |- respects_from _ (on_db _) (exec _) => apply respects_exec; [try apply _..| intros ?; cbn [fst snd]]
  | |- respects_from _ (on_db _) (stmt _) =>
      apply respects_stmt;
      [try apply _..
      | let Hs := fresh "Hs" in intros ? ? ? Hs; cbv beta in Hs;
        repeat (lazymatch type of Hs with
                | match ?x with _ => _ end = _ => destruct x
                | insert_checked _ _ _ _ = _ =>
                    apply insert_checked_ok in Hs as (? & ? & ->)
                end);
        try discriminate Hs; try (injection Hs as ? ?; subst)]
  | |- respects_from _ _ (commit_with _) =>
      apply respects_bind; [apply respects_acquire; try apply _ | intros []; exact I]
  | |- respects_from _ _ _ => solve [eauto with respects typeclass_instances]
  end.

(** ** Concurrency *)

(** A pool of requests; a step runs one atomic step of one of them. *)
Inductive pool_step {A} : list (prog A) * World -> list (prog A) * World -> Prop :=
| pool_step_at l1 l2 B (f : World -> B * World) k w :
    pool_step (l1 ++ Atom f k :: l2, w) (l1 ++ k (f w).1 :: l2, (f w).2).

(** The same, executable: the thread to run at each step is given. *)
Definition pool_run1 {A} (i : nat) (s : list (prog A) * World) : list (prog A) * World :=
  match s.1 !! i with
  | Some (Atom f k) => (<[i := k (f s.2).1]> s.1, (f s.2).2)
  | _ => s
  end.

Fixpoint pool_run {A} (schedule : list nat) (s : list (prog A) * World) : list (prog A) * World :=
  match schedule with
  | [] => s
  | i :: sched => pool_run sched (pool_run1 i s)
  end.

Lemma pool_run_star {A} sched (s : list (prog A) * World) : star pool_step s (pool_run sched s).
Proof.
  revert s. induction sched as [|i sched IH]; intros s; simpl; [constructor|].
  unfold pool_run1 at 1. destruct s as [ps w]. simpl.
  destruct (ps !! i) as [[a|B f k]|] eqn:E1; [apply IH| |apply IH].
  eapply star_step; [|apply IH].
  rewrite <- (take_drop_middle ps i _ E1) at 1.
  rewrite insert_take_drop by (by eapply lookup_lt_Some). constructor.
Qed.

(** Every request of the pool respects [R]: so does any interleaving. *)
Lemma pool_respects_from {A} n (R : World -> World -> Prop) `{!PreOrder R} (s s' : list (prog A) * World) :
  star pool_step s s' -> (n <= tick s.2)%nat -> Forall (respects_from n R) s.1 ->
  R s.2 s'.2 /\ (n <= tick s'.2)%nat /\ Forall (respects_from n R) s'.1.
Proof.
  induction 1 as [s|s s1 s2 Hs _ IH]; intros Hn Hf; [done|].
  inversion Hs as [l1 l2 B f k w]; subst. simpl in *.
  apply Forall_app in Hf as [Hf1 Hf2]. apply Forall_cons in Hf2 as [Hf Hf2].
  destruct (Hf w Hn) as (Hr & Hn' & Hk). destruct IH as (IH1 & IH2 & IH3); [done| |].
  { apply Forall_app. split; [done|]. by apply Forall_cons. }
  split; [|done]. by etrans.
Qed.
Lemma pool_respects {A} (R : World -> World -> Prop) `{!PreOrder R} (s s' : list (prog A) * World) :
  star pool_step s s' -> Forall (respects R) s.1 -> R s.2 s'.2 /\ Forall (respects R) s'.1.
Proof. intros Hs Hf. destruct (pool_respects_from 0 R s s' Hs ltac:(lia) Hf) as (H1 & _ & H2). by split. Qed.

(** *** Single-use resources

    [spends phi win n p]: each step of [p] either leaves the amount [phi] of
    some resource at most what it was, or pays for what it takes; [n] is what
    [p] has paid so far, and it may only end in a winning result after having
    paid for it. *)
Fixpoint spends {A} (phi : World -> nat) (win : A -> bool) (n : nat) (p : prog A) : Prop :=
  match p with
  | Ret a => ((if win a then 1 else 0) <= n)%nat
  | Atom f k =>
      forall w, exists m, (phi (f w).2 + m <= phi w)%nat /\ spends phi win (n + m) (k (f w).1)
  end.

Definition wins {A} (win : A -> bool) (ps : list (prog A)) : nat :=
  length (List.filter (fun p => match p with Ret a => win a | _ => false end) ps).

Lemma wins_cons {A} (win : A -> bool) p ps :
  wins win (p :: ps)
  = ((match p with Ret a => if win a then 1 else 0 | _ => 0 end) + wins win ps)%nat.
Proof. unfold wins. simpl. destruct p as [a|]; [by destruct (win a)|done]. Qed.

Definition sum_nat (l : list nat) : nat := fold_right Nat.add 0%nat l.

Lemma sum_nat_app l1 l2 : sum_nat (l1 ++ l2) = (sum_nat l1 + sum_nat l2)%nat.
Proof. induction l1 as [|x l1 IH]; simpl; [done|rewrite IH; lia]. Qed.

Lemma wins_le_credits {A} phi (win : A -> bool) ps ns :
  Forall2 (spends phi win) ns ps -> (wins win ps <= sum_nat ns)%nat.
Proof.
  induction 1 as [|n p ns ps Hp _ IH]; [done|].
  rewrite wins_cons. simpl. destruct p as [a|B f k]; simpl in Hp; [|lia].
  destruct (win a); lia.
Qed.

(** However the requests of a pool interleave, at most as many end in a
    winning result as the resource allowed at the start. *)
Lemma pool_spends {A} phi (win : A -> bool) (s s' : list (prog A) * World) :
  star pool_step s s' -> Forall (spends phi win 0) s.1 ->
  (wins win s'.1 + phi s'.2 <= phi s.2)%nat.
Proof.
  intros Hs Hf.
  enough (Hgen : forall budget, (exists ns, Forall2 (spends phi win) ns s.1 /\
      (sum_nat ns + phi s.2 <= budget)%nat) -> (wins win s'.1 + phi s'.2 <= budget)%nat).
  { apply Hgen. exists (map (fun _ => 0%nat) s.1). split.
    - clear Hs Hgen. induction Hf; simpl; constructor; auto.
    - assert (sum_nat (map (fun _ : prog A => 0%nat) s.1) = 0%nat) as ->; [|lia].
      clear. induction s.1; simpl; auto. }
  clear Hf. intros budget Hc.
  induction Hs as [s|s s1 s2 Hs _ IH].
  - destruct Hc as (ns & Hns & Hb). apply wins_le_credits in Hns. lia.
  - apply IH. clear IH. destruct Hc as (ns & Hns & Hb).
    inversion Hs as [l1 l2 B f k w]; subst. simpl in *.
    apply Forall2_app_inv_r in Hns as (n1 & n2 & H1 & H2 & ->).
    inversion H2 as [|n ? n2' ? Hn Hn2]; subst. simpl in Hn.
    destruct (Hn w) as (m & Hm & Hk).
    exists (n1 ++ (n + m)%nat :: n2'). split.
    + apply Forall2_app; [done|]. by constructor.
    + rewrite sum_nat_app in *. simpl in *. lia.
Qed.

(** *** Spending through sequential composition *)

(** A step that does not add to the resource. *)
Definition fewer (phi : Db -> nat) (d d' : Db) : Prop := (phi d' <= phi d)%nat.
#[export] Instance fewer_preorder phi : PreOrder (fewer phi).
Proof. split; unfold fewer; [intros d; reflexivity|intros d1 d2 d3 H1 H2; lia]. Qed.

Lemma spends_mono {A} phi (win : A -> bool) n n' p :
  (n <= n')%nat -> spends phi win n p -> spends phi win n' p.
Proof.
  revert n n'. induction p as [a|B f k IH]; simpl; intros n n' Hn Hp; [lia|].
  intros w. destruct (Hp w) as (m & Hm & Hk). exists m. split; [done|].
  apply (IH _ (n + m)%nat); [lia|done].
Qed.

Lemma spends_bind {A B} (phi : Db -> nat) (win : B -> bool) n (p : prog A) k :
  respects (on_db (fewer phi)) p ->
  (forall a, spends (fun w => phi (db w)) win n (k a)) ->
  spends (fun w => phi (db w)) win n (bind p k).
Proof.
  intros Hp Hk. induction p as [a|C f k' IH]; simpl; [apply Hk|].
  intros w. exists 0%nat. destruct (Hp w ltac:(lia)) as (H1 & _ & H2).
  unfold on_db, fewer in H1. split; [lia|]. rewrite Nat.add_0_r. by apply IH.
Qed.

Section SpendsM.
Context {A B : Type} (phi : Db -> nat) (win : result AppError B -> bool).
Hypothesis win_err : forall e, win (Err e) = false.

Lemma spends_bindM n (p : M A) k :
  respects (on_db (fewer phi)) p ->
  (forall a, spends (fun w => phi (db w)) win n (k a)) ->
  spends (fun w => phi (db w)) win n (bindM p k).
Proof.
  intros Hp Hk. apply spends_bind; [done|]. intros [a|e]; [apply Hk|].
  simpl. rewrite win_err. lia.
Qed.

(** The statement that takes from the resource. *)
Lemma spends_exec `{Env} n (f : Db -> A * Db) k :
  (forall d, exists m, (phi (f d).2 + m <= phi d)%nat /\
     spends (fun w => phi (db w)) win (n + m) (k (f d).1)) ->
  spends (fun w => phi (db w)) win n (bindM (exec f) k).
Proof.
  intros Hf w. simpl. destruct (fault (tick w)); simpl.
  - exists 0%nat. rewrite win_err. split; lia.
  - destruct (Hf (db w)) as (m & Hm & Hk). exists m.
    destruct (f (db w)) as [a d]. simpl in *. by split.
Qed.

Lemma spends_throw n e : spends (fun w => phi (db w)) win n (throw e).
Proof. simpl. rewrite win_err. lia. Qed.
End SpendsM.

(** A transaction pays with what its committed body takes; one that fails has
    taken nothing. *)
Lemma spends_transaction `{Env} {A} (phi : Db -> nat) (win : result AppError A -> bool) n (p : M A) :
  (forall e, win (Err e) = false) ->
  (forall w a w', run p w = (Ok a, w') ->
     exists m, (phi (db w') + m <= phi (db w))%nat /\ ((if win (Ok a) then 1 else 0) <= n + m)%nat) ->
  spends (fun w => phi (db w)) win n (transaction p).
Proof.
  intros He Hp. unfold transaction, atomic_tx. apply spends_bindM; [done|apply respects_acquire; apply _|].
  intros _ w. unfold run_tx. rewrite run_bind.
  destruct (run p w) as [[a|e] w1] eqn:Er; cbn [fst snd].
  - unfold commit_with. rewrite run_bind. pose proof (run_query_db (fun _ : Db => tt) w1) as Hd.
    fold acquire in Hd. destruct (run acquire w1) as [[u|e] w2]; cbn [run fst snd] in *.
    + destruct (Hp w a w1 Er) as (m & Hm & Hw). exists m. rewrite Hd. by split.
    + exists 0%nat. cbn [spends db set_db]. rewrite He. split; lia.
  - exists 0%nat. cbn [run spends fst snd db set_db]. rewrite He. split; lia.
Qed.

(** A request that never ends in a winning result. *)
Fixpoint never {A} (win : A -> bool) (p : prog A) : Prop :=
  match p with
  | Ret a => win a = false
  | Atom f k => forall x, never win (k x)
  end.

(** A request of the pool that leaves the resource alone. *)
Definition bystander {A} (phi : Db -> nat) (win : A -> bool) (p : prog A) : Prop :=
  respects (on_db (fewer phi)) p /\ never win p.

Lemma spends_bystander {A} phi (win : A -> bool) n p :
  bystander phi win p -> spends (fun w => phi (db w)) win n p.
Proof.
  intros [Hr Hn]. revert n. induction p as [a|B f k IH]; intros n; simpl in *.
  - rewrite Hn. lia.
  - intros w. exists 0%nat. destruct (Hr w ltac:(lia)) as (H1 & _ & H2).
    unfold on_db, fewer in H1. split; [lia|]. by apply IH.
Qed.

(** Any number of requests for one resource, among bystanders, under any
    schedule. *)
Lemma pool_single_use {A} phi (win : A -> bool) (p : prog A) n others sched w :
  spends (fun w => phi (db w)) win 0 p ->
  Forall (bystander phi win) others ->
  let s := pool_run sched ((others ++ repeat p n)%list, w) in
  (wins win s.1 + phi (db s.2) <= phi (db w))%nat.
Proof.
  intros Hp Ho s.
  apply (pool_spends (fun w => phi (db w)) win ((others ++ repeat p n)%list, w) s).
  - apply pool_run_star.
  - apply Forall_app. split.
    + eapply Forall_impl; [exact Ho|]. intros q Hq. by apply spends_bystander.
    + apply Forall_forall. intros q Hq. by apply list_elem_of_In, repeat_spec in Hq as ->.
Qed.

(** ** Executions without storage faults *)

Class Calm (E : Env) : Prop := calm i : fault i = false.
(** The wall clock does not go back. *)
Class MonotoneClock (E : Env) : Prop := clock_mono i j : (i <= j)%nat -> clock i <= clock j.

Lemma run_tx_bind {A B} (p : M A) (k : A -> prog (bool * result AppError B)) w :
  run (tx_bind p k) w =
  match run p w with
  | (Ok a, w1) => run (k a) w1
  | (Err e, w1) => ((false, Err e), w1)
  end.
Proof. unfold tx_bind. rewrite run_bind. by destruct (run p w) as [[a|e] w1]. Qed.

Lemma run_commit_with {E : Env} `{!Calm E} {A} (r : result AppError A) w :
  run (commit_with r) w = ((true, r), bump w).
Proof.
  unfold commit_with, acquire. rewrite run_bind, run_query by apply calm. done.
Qed.

Lemma run_atomic_tx {E : Env} `{!Calm E} {A} (body : prog (bool * result AppError A)) w :
  run (atomic_tx body) w
  = ((run body (bump w)).1.2,
     if (run body (bump w)).1.1 then (run body (bump w)).2 else set_db (db w) (run body (bump w)).2).
Proof.
  unfold atomic_tx, acquire. rewrite run_bindM, run_query by apply calm. cbn [run]. unfold run_tx.
  by destruct (run body (bump w)) as [[[] r] w'].
Qed.

(** Evaluate a goal's program in a calm environment, up to [Hidden] calls. *)
Ltac run_calm :=
  repeat first
    [ rewrite run_bindM | rewrite run_tx_bind | rewrite run_bind
    | rewrite run_commit_with
    | rewrite run_query by apply calm | rewrite run_exec by apply calm
    | progress cbn [run ret throw lift require guard negb fst snd db bump set_db tick ok_or now
                    new_uuid random_bytes] ].

(** ** A concrete environment

    Used where a theorem is applied to a concrete input: a clock that starts
    at [t] and gains a second per step, a storage layer that never fails. *)
Definition calm_env (t : Z) : Env := {|
  clock := fun i => t + Z.of_nat i;
  instant := fun i => (t + Z.of_nat i) * 1000000000;
  fault := fun _ => false;
  entropy := fun _ n => String.concat ""%string (repeat "r"%string n);
  fresh_uuid := fun i => N.of_nat i;
  env_var := fun _ => None |}.

Definition fresh_limiters : Limiters := {|
  login_rl := new_limiter default_config; register_rl := new_limiter default_config;
  ldap_bind_rl := new_limiter default_config; oidc_token_rl := new_limiter default_config |}.

Definition start (d : Db) : World := {| db := d; limiters := fresh_limiters; tick := 0 |}.

#[export] Instance calm_env_calm t : Calm (calm_env t).
Proof. done. Qed.
#[export] Instance calm_env_mono t : MonotoneClock (calm_env t).
Proof. intros i j Hij. simpl. lia. Qed.
