(* ===== verification/External.v ===== *)
(** * Third-party code

    The crates the server calls are parameters: one class per library with
    the functions the server uses, and one class of laws with the documented
    behaviour that some theorems rely on.  Each class has a concrete instance,
    used only to show that the hypotheses of those theorems can hold. *)

From S2P Require Import Prelude RStr Schema.
Local Open Scope Z_scope.

(** A fallible library function returns [Err e], [e] its error's text. *)
Abbreviation fallible A := (result string A) (only parsing).

(** [?] after [map_err] with a message built from the error. *)
Definition map_err {E E' A} (f : E -> E') (r : result E A) : result E' A :=
  match r with Ok a => Ok a | Err e => Err (f e) end.

Lemma map_err_Ok {E E' A} (f : E -> E') (r : result E A) a :
  map_err f r = Ok a <-> r = Ok a.
Proof. destruct r; simpl; naive_solver. Qed.

(** ** [sha2], [hex], [base64] *)
Class Hashing := {
  sha256 : string -> string;
  hex_encode : string -> string;
  hex_decode : string -> option string;
  base64url_encode : string -> string;
  base64url_decode : string -> option string
}.

Class HexLaws `{Hashing} := {
  hex_decode_encode s : hex_decode (hex_encode s) = Some s;
  hex_encode_digits s : all_bytes is_ascii_hexdigit (hex_encode s) = true
}.

(** ** [argon2]: hashing with a salt, and [PasswordHash::new] followed by
    [verify_password] (false also when the stored hash does not parse). *)
Class PasswordHashing := {
  argon2_hash : string -> string -> fallible string;
  argon2_verify : string -> string -> bool
}.

Class PasswordHashingLaws `{PasswordHashing} := {
  argon2_hash_verify salt pw phc : argon2_hash salt pw = Ok phc -> argon2_verify phc pw = true
}.

(** ** [aes_gcm]: authenticated encryption under a key and a 12-byte nonce. *)
Class Aead := {
  aes_encrypt : string -> string -> string -> option string;
  aes_decrypt : string -> string -> string -> option string
}.

Class AeadLaws `{Aead} := {
  aes_decrypt_encrypt key nonce msg ct :
    aes_encrypt key nonce msg = Some ct -> aes_decrypt key nonce ct = Some msg
}.

(** ** [hmac] over SHA-1: a 20-byte tag. *)
Class HmacSha1 := { hmac_sha1 : string -> string -> string }.
Class HmacSha1Laws `{HmacSha1} := {
  hmac_sha1_length key msg : String.length (hmac_sha1 key msg) = 20%nat
}.

(** ** [uuid] *)
Class UuidLib := {
  uuid_to_string : Uuid -> string;
  uuid_parse : string -> option Uuid
}.
Class UuidLaws `{UuidLib} := {
  uuid_parse_to_string u : uuid_parse (uuid_to_string u) = Some u
}.

(** ** [ed25519_dalek]: a signing key is its bytes. *)
Abbreviation SigningKey := string (only parsing).
Class Ed25519 := {
  to_pkcs8_der : SigningKey -> fallible string;
  verifying_key : SigningKey -> string
}.

(** ** [jsonwebtoken] *)
Record Validation := {
  v_leeway : Z;
  v_validate_exp : bool;
  v_validate_aud : bool;
  v_required : list string;
  v_iss : option (list string);
  v_aud : option (list string)
}.

(** [Validation::new(Algorithm::EdDSA)] *)
Definition new_validation : Validation := {|
  v_leeway := 60; v_validate_exp := true; v_validate_aud := true;
  v_required := ["exp"%string]; v_iss := None; v_aud := None |}.

(** [encode] with a key id and a DER key; [decode] with a public key, at a
    time of the library's own clock. *)
Class JwtCodec (T : Type) := {
  jwt_encode : option string -> T -> string -> fallible string;
  jwt_decode : string -> Validation -> Z -> string -> option T
}.

(** The registered claims of a claim type; [reg_present] are the names it
    always serialises. *)
Class Registered (T : Type) := {
  reg_iss : T -> string;
  reg_aud : T -> string;
  reg_exp : T -> Z;
  reg_present : list string
}.

(** What [Validation] accepts. *)
Definition validates {T} `{Registered T} (v : Validation) (n : Z) (c : T) : bool :=
  forallb (fun r => existsb (beq r) reg_present) (v_required v)
  && (if v_validate_exp v then n - v_leeway v <=? reg_exp c else true)
  && match v_iss v with Some l => existsb (beq (reg_iss c)) l | None => true end
  && (if v_validate_aud v
      then match v_aud v with Some l => existsb (beq (reg_aud c)) l | None => false end
      else true).

Class JwtLaws (T : Type) `{Ed25519} `{JwtCodec T} `{Registered T} := {
  jwt_decode_validates key v n t c :
    jwt_decode (verifying_key key) v n t = Some c -> validates v n c = true;
  jwt_decode_encode key der kid v n t c :
    to_pkcs8_der key = Ok der -> jwt_encode kid c der = Ok t ->
    validates v n c = true -> jwt_decode (verifying_key key) v n t = Some c;
  (** Validation does not change what is decoded. *)
  jwt_decode_fun pk v n v' n' t c c' :
    jwt_decode pk v n t = Some c -> jwt_decode pk v' n' t = Some c' -> c = c';
  jwt_decode_encoded key der kid v n t c c' :
    to_pkcs8_der key = Ok der -> jwt_encode kid c der = Ok t ->
    jwt_decode (verifying_key key) v n t = Some c' -> c' = c
}.

(** ** [serde_json]: values, their text, and lists of strings *)
Inductive Json : Type :=
| JNull
| JBool (b : bool)
| JNum (n : Z)
| JStr (s : string)
| JArr (l : list Json)
| JObj (fields : list (string * Json)).

Class JsonLib := {
  json_render : Json -> string;
  json_of_strings : list string -> fallible string;
  json_to_strings : string -> option (list string)
}.
Class JsonLaws `{JsonLib} := {
  json_strings_roundtrip l s : json_of_strings l = Ok s -> json_to_strings s = Some l
}.

(** [serde_json::to_vec] and [from_slice] at a serialisable type. *)
Class SerdeJson (T : Type) := {
  to_vec : T -> fallible string;
  from_slice : string -> option T
}.
Class SerdeJsonLaws (T : Type) `{SerdeJson T} := {
  from_slice_to_vec x s : to_vec x = Ok s -> from_slice s = Some x
}.

(** ** [regex]: a pattern compiled case-insensitively or not under a size
    limit, and the match test. *)
Class RegexLib := {
  regex_build : bool -> Z -> string -> option (string -> bool)
}.

(** ** [url]: the parts of a parsed URL the server reads *)
Record Url := {
  (** [as_str()] *)
  url_text : string;
  url_scheme : string;
  url_host_str : option string;
  url_username : string;
  url_password : option string;
  url_fragment : option string;
  url_path : string;
  (** [[BeforeHost..AfterPort]] and [[BeforePath..]] *)
  url_host_port : string;
  url_from_path : string;
  (** The origin: [None] when opaque, which equals no origin. *)
  url_origin : option (string * string * Z);
  (** [origin().ascii_serialization()] *)
  url_origin_text : string
}.
Class UrlLib := { url_parse : string -> option Url }.

(** ** [urlencoding] *)
Class UrlEncoding := {
  url_encode : string -> string;
  url_decode : string -> option string
}.
(** Percent-decoding leaves a string without a percent sign as it is. *)
Class UrlEncodingLaws `{UrlEncoding} := {
  url_decode_plain s : contains_byte "%"%char s = false -> url_decode s = Some s
}.

(** ** Instances *)

(** A JWT library that knows finitely many tokens: each is the name of a
    (key, claims) pair. *)
Section TableJwt.
Context {T : Type} `{EqDecision T} `{Registered T}.
Variable tokens : list (string * (string * T)).

Definition table_encode (kid : option string) (c : T) (der : string) : fallible string :=
  match List.find (fun e => beq e.2 (der, c)) tokens with
  | Some (name, _) => Ok name
  | None => Err "unknown claims"%string
  end.

Definition table_decode (pk : string) (v : Validation) (n : Z) (t : string) : option T :=
  match List.find (fun e => beq e.1 t) tokens with
  | Some (_, (der, c)) => if beq der pk && validates v n c then Some c else None
  | None => None
  end.

Definition table_jwt : JwtCodec T :=
  {| jwt_encode := table_encode; jwt_decode := table_decode |}.
End TableJwt.

(** The identity key encodings that go with it. *)
Definition plain_ed25519 : Ed25519 :=
  {| to_pkcs8_der := fun k => Ok k; verifying_key := fun k => k |}.

Lemma table_find_name {T} `{EqDecision T} (tokens : list (string * (string * T))) name p :
  NoDup tokens.*1 ->
  List.find (fun e => beq e.2 p) tokens = Some (name, p) ->
  List.find (fun e => beq e.1 name) tokens = Some (name, p).
Proof.
  induction tokens as [|[n q] l IH]; intros Hnd Hf; [done|]. simpl in *.
  apply NoDup_cons in Hnd as [Hn Hnd].
  destruct (beq q p) eqn:E; bool_hyp.
  - injection Hf as ->. subst. by rewrite beq_refl.
  - destruct (beq n name) eqn:E2; bool_hyp; [|by apply IH].
    exfalso. subst n. apply Hn.
    apply List.find_some in Hf as [Hin _]. apply list_elem_of_fmap.
    exists (name, p). split; [done|]. by apply list_elem_of_In.
Qed.

Lemma table_encode_decode {T} `{EqDecision T} `{Registered T}
    (tokens : list (string * (string * T))) kid c der t :
  NoDup tokens.*1 -> table_encode tokens kid c der = Ok t ->
  List.find (fun e => beq e.1 t) tokens = Some (t, (der, c)).
Proof.
  intros Hnd. unfold table_encode.
  destruct (List.find (fun e => beq e.2 (der, c)) tokens) as [[nm p]|] eqn:Ef; [|done].
  intros [= <-].
  assert (p = (der, c)) as ->.
  { apply List.find_some in Ef as [_ Ef]. simpl in Ef. by bool_hyp. }
  exact (table_find_name tokens nm (der, c) Hnd Ef).
Qed.

Lemma table_jwt_laws {T} `{EqDecision T} `{Registered T} (tokens : list (string * (string * T))) :
  NoDup tokens.*1 -> @JwtLaws T plain_ed25519 (table_jwt tokens) _.
Proof.
  intros Hnd. split.
  - intros key v n t c. simpl. unfold table_decode.
    destruct (List.find _ tokens) as [[nm [der c']]|]; [|done].
    destruct (beq der key && validates v n c') eqn:Ev; [|done].
    intros [= <-]. by bool_hyp.
  - intros key der kid v n t c [= <-] He Hv. simpl. unfold table_decode.
    rewrite (table_encode_decode _ _ _ _ _ Hnd He). by rewrite beq_refl, Hv.
  - intros pk v n v' n' t c c'. simpl. unfold table_decode.
    destruct (List.find _ tokens) as [[nm [der c0]]|]; [|done].
    do 2 case_match; congruence.
  - intros key der kid v n t c c' [= <-] He. simpl. unfold table_decode.
    rewrite (table_encode_decode _ _ _ _ _ Hnd He). case_match; congruence.
Qed.

(** A codec that signs everything: a token is the key and the claims in binary. *)
Fixpoint pos_text (p : positive) : string :=
  match p with xH => "" | xO p => String "0" (pos_text p) | xI p => String "1" (pos_text p) end.
Fixpoint text_pos (s : string) : option positive :=
  match s with
  | "" => Some xH
  | String a s' => if beq a "0"%char then option_map xO (text_pos s') else option_map xI (text_pos s')
  end%string.
Lemma text_pos_text p : text_pos (pos_text p) = Some p.
Proof. induction p as [p IH|p IH|]; simpl; [..|done]; by rewrite IH. Qed.

Section SealedJwt.
Context {T : Type} `{Countable T} `{Registered T}.
Definition sealed_content (t : string) : option (string * T) := text_pos t ≫= decode.
Definition sealed_jwt : JwtCodec T := {|
  jwt_encode := fun _ c der => Ok (pos_text (encode (der, c)));
  jwt_decode := fun pk v n t =>
    match sealed_content t with
    | Some (der, c) => if beq der pk && validates v n c then Some c else None
    | None => None
    end |}.
Lemma sealed_jwt_laws : @JwtLaws T plain_ed25519 sealed_jwt _.
Proof.
  assert (Hc : forall der c, sealed_content (pos_text (encode (der, c))) = Some (der, c)).
  { intros der c. unfold sealed_content. rewrite text_pos_text. simpl. apply decode_encode. }
  split.
  - intros key v n t c. simpl. destruct (sealed_content t) as [[der c']|]; [|done].
    destruct (beq der key && validates v n c') eqn:Ev; [|done]. intros [= <-]. by bool_hyp.
  - intros key der kid v n t c [= <-] [= <-] Hv. simpl. by rewrite Hc, beq_refl, Hv.
  - intros pk v n v' n' t c c'. simpl. destruct (sealed_content t) as [[der c0]|]; [|done].
    do 2 case_match; congruence.
  - intros key der kid v n t c c' [= <-] [= <-]. simpl. rewrite Hc. case_match; congruence.
Qed.
End SealedJwt.

(** Instances that are cheap to evaluate: the hash of a string is the string
    with a mark, encryption prefixes the key and the nonce. *)
Definition plain_hashing : Hashing := {|
  sha256 := fun s => ("#" ++ s)%string;
  hex_encode := fun s => s;
  hex_decode := fun s => Some s;
  base64url_encode := fun s => s;
  base64url_decode := fun s => Some s |}.

Definition plain_passwords : PasswordHashing := {|
  argon2_hash := fun _ pw => Ok ("$" ++ pw)%string;
  argon2_verify := fun phc pw => beq phc ("$" ++ pw)%string |}.

Lemma plain_passwords_laws : @PasswordHashingLaws plain_passwords.
Proof. split. intros salt pw phc [= <-]. apply beq_refl. Qed.

Definition plain_aead : Aead := {|
  aes_encrypt := fun key nonce msg => Some (key +:+ nonce +:+ msg);
  aes_decrypt := fun key nonce ct => strip_prefix (key +:+ nonce) ct |}.

Lemma plain_aead_laws : @AeadLaws plain_aead.
Proof.
  split. intros key nonce msg ct [= <-]. simpl. apply strip_prefix_spec.
  by autorewrite with str.
Qed.

Definition plain_hmac : HmacSha1 :=
  {| hmac_sha1 := fun key msg => "ABCDEFGHIJKLMNOPQRST"%string |}.
Lemma plain_hmac_laws : @HmacSha1Laws plain_hmac.
Proof. by split. Qed.

(** UUIDs in decimal. *)
Definition plain_uuid : UuidLib := {|
  uuid_to_string := fun u => pretty u;
  uuid_parse := fun s => option_map Z.to_N (parse_digits s) |}.

Lemma plain_uuid_laws : @UuidLaws plain_uuid.
Proof. split. intros u. simpl. rewrite parse_digits_pretty. simpl. by rewrite N2Z.id. Qed.

(** A serialiser that knows one value. *)
Definition one_serde {T} `{EqDecision T} (name : string) (x : T) : SerdeJson T := {|
  to_vec := fun y => if beq y x then Ok name else Err "unknown value"%string;
  from_slice := fun s => if beq s name then Some x else None |}.

Lemma one_serde_laws {T} `{EqDecision T} name (x : T) : @SerdeJsonLaws T (one_serde name x).
Proof.
  split. intros y s. simpl. destruct (beq y x) eqn:E; [|done]. bool_hyp. subst.
  intros [= <-]. by rewrite beq_refl.
Qed.

(** Hexadecimal, with a stand-in for the hash function. *)
Definition hex_of (n : N) : ascii := byte_of (if (n <? 10)%N then 48 + n else 87 + n)%N.
Fixpoint hex_text (s : string) : string :=
  match s with
  | ""%string => ""%string
  | String a s' => String (hex_of (N.shiftr (code a) 4)) (String (hex_of (N.land (code a) 15)) (hex_text s'))
  end.
Definition hex_value (a : ascii) : option N :=
  if is_ascii_digit a then Some (code a - 48)%N
  else if in_range 97 102 a then Some (code a - 87)%N
  else if in_range 65 70 a then Some (code a - 55)%N else None.
Fixpoint hex_bytes (s : string) : option string :=
  match s with
  | ""%string => Some ""%string
  | String a (String b s') =>
      match hex_value a, hex_value b, hex_bytes s' with
      | Some x, Some y, Some t => Some (String (byte_of (16 * x + y)) t)
      | _, _, _ => None
      end
  | _ => None
  end.
Definition hex_hashing : Hashing := {|
  sha256 := fun s => ("#" ++ s)%string;
  hex_encode := hex_text;
  hex_decode := hex_bytes;
  base64url_encode := fun s => s;
  base64url_decode := fun s => Some s |}.

Lemma hex_hashing_laws : @HexLaws hex_hashing.
Proof.
  split; intros s; (induction s as [|a s IH]; [done|]); cbn [hex_encode hex_decode hex_hashing] in *;
    cbn [hex_text hex_bytes all_bytes]; rewrite IH;
    destruct a as [[] [] [] [] [] [] [] []]; vm_compute; reflexivity.
Qed.

(** Lists of strings, every byte marked and every string closed. *)
Fixpoint marked (s : string) (rest : string) : string :=
  match s with
  | ""%string => String ";"%char rest
  | String a s' => String "'"%char (String a (marked s' rest))
  end.
Fixpoint unmarked (acc : string) (s : string) : option (list string) :=
  match s with
  | ""%string => if is_empty acc then Some [] else None
  | String q s' =>
      if beq q ";"%char then option_map (cons acc) (unmarked "" s')
      else match s' with
           | String a s'' => if beq q "'"%char then unmarked (acc +:+ String a "")%string s'' else None
           | ""%string => None
           end
  end.
Definition plain_json : JsonLib := {|
  json_render := fun _ => "{}"%string;
  json_of_strings := fun l => Ok (foldr marked ""%string l);
  json_to_strings := unmarked ""%string |}.

Lemma plain_json_laws : @JsonLaws plain_json.
Proof.
  split. intros l s [= <-]. simpl. induction l as [|x l IH]; [done|]. simpl.
  assert (Hx : forall acc, unmarked acc (marked x (foldr marked ""%string l))
               = option_map (cons (acc +:+ x)%string) (unmarked ""%string (foldr marked ""%string l))).
  { induction x as [|a x IHx]; intros acc; simpl; [by autorewrite with str|].
    rewrite IHx. by autorewrite with str. }
  rewrite Hx, IH. done.
Qed.
