(* ===== verification/Users.v ===== *)
(** * Roles, users and password authenticators ([role.rs], [user/mod.rs],
    [user/auth/mod.rs]) *)

From S2P Require Import Prelude RStr RateLimit Schema Sys External.
Local Open Scope string_scope.

(** ** Roles and their assignment *)

Definition ROLE_ADMIN : string := "admin".
Definition ROLE_USER : string := "user".

Record CreateRoleInput := { cri_name : string; cri_description : option string }.

Section Role.
Context {E : Env}.
(** [char::is_alphanumeric] of a character that is not ASCII. *)
Variable non_ascii_alphanumeric : string -> bool.

Definition is_alphanumeric (c : string) : bool :=
  match c with
  | String a "" => if (code a <? 128)%N then is_ascii_alphanumeric a else non_ascii_alphanumeric c
  | _ => non_ascii_alphanumeric c
  end.

(** [Role::new] *)
Definition Role_new (name : string) (description : option string) : prog Role :=
  id <~ new_uuid ;; Ret {| ro_id := id; ro_name := name; ro_description := description |}.

(** [Role::list] *)
Definition Role_list : M (list Role) := query (fun d => order_by ro_name (roles d)).

(** [Role::get_by_name] *)
Definition Role_get_by_name (name : string) : M (option Role) :=
  query (fun d => fetch (fun r => beq (ro_name r) name) (roles d)).

(** [Role::get] *)
Definition Role_get (id : Uuid) : M (option Role) :=
  query (fun d => fetch (fun r => beq (ro_id r) id) (roles d)).

(** [Role::save] *)
Definition Role_save (r : Role) : M unit :=
  stmt (fun d =>
    insert_checked
      (existsb (fun r' => beq (ro_id r') (ro_id r) || beq (ro_name r') (ro_name r)) (roles d))
      true (with_roles (fun t => (t ++ [r])%list)) d).

(** [Role::delete]; the row's deletion cascades to [user_roles]. *)
Definition Role_delete (id : Uuid) : M bool :=
  user_count <- query (fun d => count (fun ur => beq (ur_role_id ur) id) (user_roles d)) ;;
  guard (0 <? user_count)%nat
    (InputError ["Cannot delete role: " +:+ pretty (Z.of_nat user_count)
                 +:+ " users have this role assigned"]) ;;;
  role <- Role_get id ;;
  guard (is_some_and role (fun r => beq (ro_name r) ROLE_ADMIN || beq (ro_name r) ROLE_USER))
    (InputError ["Cannot delete built-in roles (admin, user)"]) ;;;
  affected <- exec (fun d =>
    (count (fun r => beq (ro_id r) id) (roles d),
     with_user_roles (delete (fun ur => beq (ur_role_id ur) id))
       (with_roles (delete (fun r => beq (ro_id r) id)) d))) ;;
  ret (0 <? affected)%nat.

(** [Role::validate_input] *)
Definition Role_validate_input (input : CreateRoleInput) : result AppError unit :=
  let errors :=
    ((if (is_empty (cri_name input) || (64 <? String.length (cri_name input))%nat)%bool
      then ["Role name must be between 1 and 64 characters"] else [])
     ++ (if negb (forallb (fun c => is_alphanumeric c || beq c "_" || beq c "-")%bool
                    (chars (cri_name input)))
         then ["Role name must contain only alphanumeric characters, underscores, and hyphens"]
         else [])
     ++ (if is_some_and (cri_description input) (fun desc => (256 <? String.length desc)%nat)
         then ["Role description must be 256 characters or less"] else []))%list in
  match errors with [] => Ok tt | _ => Err (InputError errors) end.

(** [UserRole] *)
Record UserRole := { uro_user_id : Uuid; uro_role_id : Uuid; uro_role_name : string }.

(** The roles of a user: [user_roles] joined with [roles]. *)
Definition roles_of (uid : Uuid) (d : Db) : list Role :=
  flat_map (fun ur => select (fun r => beq (ro_id r) (ur_role_id ur)) (roles d))
    (select (fun ur => beq (ur_user_id ur) uid) (user_roles d)).

(** [UserRole::get_for_user] *)
Definition UserRole_get_for_user (uid : Uuid) : M (list UserRole) :=
  query (fun d => map (fun r => {| uro_user_id := uid; uro_role_id := ro_id r;
                                   uro_role_name := ro_name r |}) (roles_of uid d)).

(** [UserRole::assign] *)
Definition UserRole_assign (user_id role_id : Uuid) : M unit :=
  n <- query (fun d =>
    count (fun ur => beq (ur_user_id ur) user_id && beq (ur_role_id ur) role_id)%bool
          (user_roles d)) ;;
  guard (0 <? n)%nat (UniqueError "Role already assigned to user") ;;;
  stmt (fun d =>
    insert_checked
      (existsb (fun ur => beq (ur_user_id ur) user_id && beq (ur_role_id ur) role_id)%bool
         (user_roles d))
      (user_exists user_id d && role_exists role_id d)
      (with_user_roles (fun t => (t ++ [{| ur_user_id := user_id; ur_role_id := role_id |}])%list)) d).

(** [UserRole::remove] *)
Definition UserRole_remove (user_id role_id : Uuid) : M bool :=
  affected <- exec (fun d =>
    let p := fun ur => (beq (ur_user_id ur) user_id && beq (ur_role_id ur) role_id)%bool in
    (count p (user_roles d), with_user_roles (delete p) d)) ;;
  ret (0 <? affected)%nat.
End Role.

(** A role name is one of the user's roles exactly when some assignment joins
    with a role of that name. *)
Lemma elem_of_roles_of uid d r :
  r ∈ roles_of uid d <->
  r ∈ roles d /\ {| ur_user_id := uid; ur_role_id := ro_id r |} ∈ user_roles d.
Proof.
  unfold roles_of. rewrite list_elem_of_In, in_flat_map. split.
  - intros (ur & Hur & Hr). apply list_elem_of_In in Hur; apply list_elem_of_In in Hr.
    apply elem_of_select in Hur as [Hur Hu], Hr as [Hr Hi]. bool_hyp.
    destruct ur as [u i]. simpl in *. subst. done.
  - intros [Hr Hur]. eexists. rewrite <- !list_elem_of_In, !elem_of_select. simpl.
    split; [split; [exact Hur|apply beq_refl]|]. split; [done|apply beq_refl].
Qed.

(** ** Users *)

Definition MIN_PASSWORD_LEN : nat := 12.
Definition MAX_PASSWORD_LEN : nat := 512.
Definition MIN_USERNAME_LEN : nat := 3.
Definition MAX_USERNAME_LEN : nat := 64.
Definition MIN_NAME_LEN : nat := 3.
Definition MAX_NAME_LEN : nat := 128.
Definition MAX_EMAIL_LEN : nat := 254.

Record CreateUserInput := {
  cui_username : string; cui_name : string; cui_password : string; cui_email : option string
}.
Record LoginInput := {
  li_username : string; li_password : string; li_totp_code : option string
}.

(** The columns a statement writes back into a user row. *)
Definition set_profile (name : string) (email : option string) (username : string) (t : Z)
    (u : UserRow) : UserRow :=
  {| u_row := {| u_id := u_id u; u_username := username; u_name := name; u_email := email;
                 u_active := u_active u; u_created_at := u_created_at u; u_updated_at := t |};
     u_token_version := u_token_version u |}.
Definition set_active_column (active : bool) (t : Z) (u : UserRow) : UserRow :=
  {| u_row := {| u_id := u_id u; u_username := u_username u; u_name := u_name u;
                 u_email := u_email u; u_active := active; u_created_at := u_created_at u;
                 u_updated_at := t |};
     u_token_version := u_token_version u |}.
Definition set_password_hash (hash : string) (a : Authenticator) : Authenticator :=
  {| au_id := au_id a; au_scheme := Password hash; au_owner_id := au_owner_id a |}.

Definition is_password (a : Authenticator) : bool :=
  match au_scheme a with Password _ => true | Totp _ => false end.



Definition between (lo n hi : nat) : bool := ((lo <=? n) && (n <=? hi))%nat.

Section Users.
Context {E : Env} {PH : PasswordHashing}.
(** The compiled [USERNAME_REGEX] and [EMAIL_REGEX]. *)
Variable username_regex email_regex : string -> bool.

(** ** [Authenticator] *)

(** [Authenticator::new_password] *)
Definition new_password (password_cleartext : string) (owner_id : Uuid)
    : prog (fallible Authenticator) :=
  salt <~ random_bytes 16 ;;
  match argon2_hash salt password_cleartext with
  | Err e => Ret (Err e)
  | Ok hash =>
      id <~ new_uuid ;;
      Ret (Ok {| au_id := id; au_scheme := Password hash; au_owner_id := owner_id |})
  end.

(** [Authenticator::verify_password] *)
Definition verify_password (a : Authenticator) (input_cleartext : string) : bool :=
  match au_scheme a with
  | Password hash => argon2_verify hash input_cleartext
  | Totp _ => false
  end.

(** [Authenticator::get_password_for] *)
Definition get_password_for (user : User) : M (option Authenticator) :=
  query (fun d => fetch (fun a => beq (au_owner_id a) (u_id user) && is_password a)
                        (authenticators d)).

(** [Authenticator::try_password_login].  The dummy verification of an
    inactive account has no effect but time. *)
Definition try_password_login (user : User) (password_cleartext : string) : M unit :=
  if negb (u_active user) then throw AuthenticationRequired
  else
    password <- get_password_for user ;;
    match password with
    | Some a =>
        if verify_password a password_cleartext then ret tt else throw AuthenticationRequired
    | None => throw AuthenticationRequired
    end.

(** [Authenticator::validate_password] *)
Definition validate_password (password_cleartext : string) : result string unit :=
  let n := String.length password_cleartext in
  if negb (between MIN_PASSWORD_LEN n MAX_PASSWORD_LEN)
  then Err "Password must be between 12 and 512 characters"
  else Ok tt.

(** [Authenticator::update_password] *)
Definition update_password (user_id : Uuid) (password : string) : M unit :=
  r <~ new_password password user_id ;;
  new_auth <- lift (map_err (fun e => InternalError ("Failed to hash password: " +:+ e)) r) ;;
  match au_scheme new_auth with
  | Totp _ => throw (InternalError "Unexpected scheme")
  | Password hash =>
      exec (fun d =>
        (tt, with_authenticators
               (update (fun a => beq (au_owner_id a) user_id && is_password a)
                       (set_password_hash hash)) d))
  end.

(** [Authenticator::save] *)
Definition Authenticator_save (a : Authenticator) : M unit :=
  stmt (fun d =>
    insert_checked (existsb (fun a' => beq (au_id a') (au_id a)) (authenticators d))
      (user_exists (au_owner_id a) d)
      (with_authenticators (fun t => (t ++ [a])%list)) d).

(** ** [User] *)

(** [User::new] *)
Definition User_new (username name : string) (email : option string) : prog User :=
  n <~ now ;;
  id <~ new_uuid ;;
  Ret {| u_id := id; u_username := username; u_name := name; u_email := email;
         u_active := true; u_created_at := n; u_updated_at := n |}.

(** [User::get] *)
Definition User_get (id : Uuid) : M (option User) :=
  query (fun d => option_map u_row (fetch (fun u : UserRow => beq (u_id u) id) (users d))).

(** [User::get_by_username] *)
Definition User_get_by_username (username : string) : M (option User) :=
  query (fun d => option_map u_row (fetch (fun u : UserRow => beq (u_username u) username) (users d))).

(** [User::get_roles]: the names of the roles the user is assigned. *)
Definition User_get_roles (user : User) : M (list string) :=
  query (fun d => map ro_name (roles_of (u_id user) d)).

(** [User::list] *)
Definition User_list : M (list User) := query (fun d => map u_row (users d)).

(** [User::login] *)
Definition User_login (input : LoginInput) : M User :=
  found <- User_get_by_username (li_username input) ;;
  match found with
  | Some user =>
      r <~ try_password_login user (li_password input) ;;
      match r with Ok _ => ret user | Err _ => throw AuthenticationRequired end
  | None => throw AuthenticationRequired
  end.

(** [User::validate_username] *)
Definition validate_username (username : string) : result string unit :=
  let n := String.length username in
  if negb (between MIN_USERNAME_LEN n MAX_USERNAME_LEN)
  then Err "Username must be between 3 and 64 characters"
  else if negb (username_regex username)
  then Err "Username must consist only of letters, numbers, and allowed symbols"
  else Ok tt.

(** [User::validate_name] *)
Definition validate_name (name : string) : result string unit :=
  if negb (between MIN_NAME_LEN (String.length name) MAX_NAME_LEN)
  then Err "Name must be between 3 and 128 characters"
  else Ok tt.

(** [User::validate_email] *)
Definition validate_email (email : option string) : result string unit :=
  match email with
  | None => Ok tt
  | Some e =>
      if (MAX_EMAIL_LEN <? String.length e)%nat
      then Err "Email must contain no more than 254 characters"
      else if email_regex e then Ok tt else Err "Email is not valid"
  end.

Definition err_list (r : result string unit) : list string :=
  match r with Ok _ => [] | Err e => [e] end.

(** [User::validate_create_input] *)
Definition validate_create_input (input : CreateUserInput) : result AppError unit :=
  let errors :=
    (err_list (validate_username (cui_username input))
     ++ err_list (validate_name (cui_name input))
     ++ err_list (validate_email (cui_email input))
     ++ err_list (validate_password (cui_password input)))%list in
  match errors with [] => Ok tt | _ => Err (InputError errors) end.

Definition input_error (r : result string unit) : M unit :=
  lift (map_err (fun e => InputError [e]) r).

(** [User::update]: returns the struct as the caller then holds it. *)
Definition User_update (self : User) (name : option string) (email : option (option string))
    (username : option string) : M User :=
  (match name with Some n => input_error (validate_name n) | None => ret tt end) ;;;
  (match email with Some e => input_error (validate_email e) | None => ret tt end) ;;;
  (match username with Some u => input_error (validate_username u) | None => ret tt end) ;;;
  t <~ now ;;
  let self' := {| u_id := u_id self;
                  u_username := unwrap_or username (u_username self);
                  u_name := unwrap_or name (u_name self);
                  u_email := unwrap_or email (u_email self);
                  u_active := u_active self;
                  u_created_at := u_created_at self;
                  u_updated_at := t |} in
  stmt (fun d =>
    if existsb (fun u : UserRow =>
         beq (u_username u) (u_username self') && negb (beq (u_id u) (u_id self'))) (users d)
       && user_exists (u_id self') d
    then Err (UniqueError "Username already taken")
    else Ok (tt, with_users
      (update (fun u : UserRow => beq (u_id u) (u_id self'))
         (set_profile (u_name self') (u_email self') (u_username self') t)) d)) ;;;
  ret self'.

(** [User::set_active] *)
Definition User_set_active (self : User) (active : bool) : M (bool * User) :=
  if Bool.eqb (u_active self) active then ret (false, self)
  else
    t <~ now ;;
    exec (fun d =>
      (tt, with_users (update (fun u : UserRow => beq (u_id u) (u_id self))
                              (set_active_column active t)) d)) ;;;
    ret (true, {| u_id := u_id self; u_username := u_username self; u_name := u_name self;
                  u_email := u_email self; u_active := active;
                  u_created_at := u_created_at self; u_updated_at := t |}).

(** [User::save] *)
Definition User_save (self : User) : M unit :=
  stmt (fun d =>
    if existsb (fun u : UserRow =>
         beq (u_id u) (u_id self) || beq (u_username u) (u_username self)) (users d)
    then Err (UniqueError "Username already taken")
    else Ok (tt, with_users
      (fun t => (t ++ [{| u_row := self; u_token_version := 0 |}])%list) d)).

(** [User::delete], with the cascades the schema declares. *)
Definition cascade_user (id : Uuid) (d : Db) : Db :=
  with_users (delete (fun u : UserRow => beq (u_id u) id))
  (with_authenticators (delete (fun a => beq (au_owner_id a) id))
  (with_refresh_tokens (delete (fun r => beq (rt_user_id r) id))
  (with_access_revocations (delete (fun r => beq (ar_user_id r) id))
  (with_handoffs (delete (fun r => beq (fh_user_id r) id))
  (with_user_roles (delete (fun r => beq (ur_user_id r) id))
  (with_invitations (delete (fun r => beq (inv_created_by r) id))
  (with_app_passwords (delete (fun r => beq (apw_user_id r) id))
  (with_user_totps (delete (fun r => beq (ut_user_id r) id))
  (with_recovery_codes (delete (fun r => beq (rc_user_id r) id))
  (with_auth_codes (delete (fun r => beq (ac_user_id r) id))
  (with_passkeys (delete (fun r => beq (pk_user_id r) id))
  (with_passkey_challenges (delete (fun r => beq (pc_user_id r) (Some id)))
  (with_audit_log (map (fun r =>
     {| al_id := al_id r; al_timestamp := al_timestamp r; al_event_type := al_event_type r;
        al_user_id := opt_filter (fun u => negb (beq u id)) (al_user_id r);
        al_actor_id := opt_filter (fun u => negb (beq u id)) (al_actor_id r);
        al_ip_address := al_ip_address r; al_user_agent := al_user_agent r;
        al_details := al_details r |})) d))))))))))))).

Definition User_delete (id : Uuid) : M bool :=
  affected <- exec (fun d =>
    (count (fun u : UserRow => beq (u_id u) id) (users d), cascade_user id d)) ;;
  ret (affected =? 1)%nat.
End Users.

Section Lemmas.
Context {E : Env} {PH : PasswordHashing}.

Lemma run_User_get_ok id o w w' :
  run (User_get id) w = (Ok o, w') <->
  fault (tick w) = false /\
  o = option_map u_row (fetch (fun u : UserRow => beq (u_id u) id) (users (db w))) /\ w' = bump w.
Proof. apply run_query_ok. Qed.

Lemma run_get_roles_ok u rs w w' :
  run (User_get_roles u) w = (Ok rs, w') <->
  fault (tick w) = false /\ rs = map ro_name (roles_of (u_id u) (db w)) /\ w' = bump w.
Proof. apply run_query_ok. Qed.

(** A password login succeeds only for an active user whose stored hash
    accepts the password. *)
Lemma try_password_login_ok u pw t w w' :
  run (try_password_login u pw) w = (Ok t, w') ->
  u_active u = true /\ db w' = db w /\
  exists a, a ∈ authenticators (db w) /\ au_owner_id a = u_id u /\ verify_password a pw = true.
Proof.
  unfold try_password_login. destruct (u_active u); simpl negb; cbv iota; [|done].
  intros H0. apply run_bindM_ok in H0 as (o & w1 & H1 & H2).
  unfold get_password_for in H1. run_inv H1.
  destruct (fetch _ _) as [a|] eqn:Ef; [|done].
  apply fetch_Some in Ef as [Hin Hp]. bool_hyp.
  destruct (verify_password a pw) eqn:Ev; [|done]. run_inv H2.
  split; [done|]. split; [done|]. eauto.
Qed.
End Lemmas.
