(* ===== verification/AuditLog.v ===== *)
(** * The audit log ([audit.rs])

    The event types, the entry builder, the insertion every handler makes, and
    the filtered, paged query. *)

From Stdlib Require Import Sorting.Sorted.
From S2P Require Import Prelude RStr RateLimit Schema Sys External.
Local Open Scope Z_scope.
Local Open Scope string_scope.

Inductive AuditEventType : Type :=
  | LoginSuccess | LoginFailed | Logout | TokenRefresh | UserCreated | UserUpdated |
  UserDeleted | PasswordChanged | RoleAssigned | RoleRemoved | MfaEnabled | MfaDisabled |
  PasskeyCreated | PasskeyDeleted | AdminCreateUser | AdminUpdateUser | AdminDeleteUser |
  AdminPasswordReset | AdminRoleAssigned | AdminRoleRemoved | UserRegistered |
  InvitationCreated | InvitationDeleted | InvitationConsumed | SettingsUpdated |
  SystemRestarted | LdapBindSuccess | LdapBindFailed | LdapBindRejectedMfaRequired |
  LdapBindPasswordRotated | AppPasswordCreated | AppPasswordDeleted |
  AdminAppPasswordDeleted | ApplicationCreated | ApplicationUpdated | ApplicationDeleted |
  OidcAuthorizeSuccess | OidcAuthorizeDenied | OidcTokenIssued | OidcTokenRejected |
  OidcUserinfoAccessed | OidcLogout | RoleCreated | RoleDeleted.

#[export] Instance AuditEventType_eq_dec : EqDecision AuditEventType.
Proof. solve_decision. Defined.

(** [AuditEventType::as_str] *)
Definition as_str (e : AuditEventType) : string :=
  match e with
  | LoginSuccess => "login_success"
  | LoginFailed => "login_failed"
  | Logout => "logout"
  | TokenRefresh => "token_refresh"
  | UserCreated => "user_created"
  | UserUpdated => "user_updated"
  | UserDeleted => "user_deleted"
  | PasswordChanged => "password_changed"
  | RoleAssigned => "role_assigned"
  | RoleRemoved => "role_removed"
  | MfaEnabled => "mfa_enabled"
  | MfaDisabled => "mfa_disabled"
  | PasskeyCreated => "passkey_created"
  | PasskeyDeleted => "passkey_deleted"
  | AdminCreateUser => "admin_create_user"
  | AdminUpdateUser => "admin_update_user"
  | AdminDeleteUser => "admin_delete_user"
  | AdminPasswordReset => "admin_password_reset"
  | AdminRoleAssigned => "admin_role_assigned"
  | AdminRoleRemoved => "admin_role_removed"
  | UserRegistered => "user_registered"
  | InvitationCreated => "invitation_created"
  | InvitationDeleted => "invitation_deleted"
  | InvitationConsumed => "invitation_consumed"
  | SettingsUpdated => "settings_updated"
  | SystemRestarted => "system_restarted"
  | LdapBindSuccess => "ldap_bind_success"
  | LdapBindFailed => "ldap_bind_failed"
  | LdapBindRejectedMfaRequired => "ldap_bind_rejected_mfa_required"
  | LdapBindPasswordRotated => "ldap_bind_password_rotated"
  | AppPasswordCreated => "app_password_created"
  | AppPasswordDeleted => "app_password_deleted"
  | AdminAppPasswordDeleted => "admin_app_password_deleted"
  | ApplicationCreated => "application_created"
  | ApplicationUpdated => "application_updated"
  | ApplicationDeleted => "application_deleted"
  | OidcAuthorizeSuccess => "oidc_authorize_success"
  | OidcAuthorizeDenied => "oidc_authorize_denied"
  | OidcTokenIssued => "oidc_token_issued"
  | OidcTokenRejected => "oidc_token_rejected"
  | OidcUserinfoAccessed => "oidc_userinfo_accessed"
  | OidcLogout => "oidc_logout"
  | RoleCreated => "role_created"
  | RoleDeleted => "role_deleted"
  end.

(** [AuditEventType::ALL] *)
Definition ALL : list AuditEventType :=
  [LoginSuccess; LoginFailed; Logout; TokenRefresh; UserCreated; UserUpdated; UserDeleted;
  PasswordChanged; RoleAssigned; RoleRemoved; MfaEnabled; MfaDisabled; PasskeyCreated;
  PasskeyDeleted; AdminCreateUser; AdminUpdateUser; AdminDeleteUser; AdminPasswordReset;
  AdminRoleAssigned; AdminRoleRemoved; UserRegistered; InvitationCreated;
  InvitationDeleted; InvitationConsumed; SettingsUpdated; SystemRestarted;
  LdapBindSuccess; LdapBindFailed; LdapBindRejectedMfaRequired; LdapBindPasswordRotated;
  AppPasswordCreated; AppPasswordDeleted; AdminAppPasswordDeleted; ApplicationCreated;
  ApplicationUpdated; ApplicationDeleted; OidcAuthorizeSuccess; OidcAuthorizeDenied;
  OidcTokenIssued; OidcTokenRejected; OidcUserinfoAccessed; OidcLogout; RoleCreated;
  RoleDeleted].

(** [AuditEventType::from_str] *)
Definition from_str (s : string) : option AuditEventType :=
  List.find (fun t => beq (as_str t) s) ALL.

(** [AuditContext]: the client's address, as the rate limiters key it and as
    the log records it. *)
Record AuditContext := {
  ctx_ip : IpAddr;
  ctx_ip_address : option string;
  ctx_user_agent : option string
}.

(** [AuditLogEntry] *)
Record AuditLogEntry := {
  en_event_type : AuditEventType;
  en_user_id : option Uuid;
  en_actor_id : option Uuid;
  en_ip_address : option string;
  en_user_agent : option string;
  en_details : option Json
}.

(** [audit], [AuditLogEntry::new] *)
Definition audit (t : AuditEventType) : AuditLogEntry := {|
  en_event_type := t; en_user_id := None; en_actor_id := None;
  en_ip_address := None; en_user_agent := None; en_details := None |}.

(** The builder's methods. *)
Definition by_user (uid : Uuid) (e : AuditLogEntry) : AuditLogEntry := {|
  en_event_type := en_event_type e; en_user_id := Some uid; en_actor_id := en_actor_id e;
  en_ip_address := en_ip_address e; en_user_agent := en_user_agent e;
  en_details := en_details e |}.
Definition by_actor (actor : option Uuid) (e : AuditLogEntry) : AuditLogEntry := {|
  en_event_type := en_event_type e; en_user_id := en_user_id e;
  en_actor_id := match actor with Some a => Some a | None => en_actor_id e end;
  en_ip_address := en_ip_address e; en_user_agent := en_user_agent e;
  en_details := en_details e |}.
Definition in_ctx (ctx : AuditContext) (e : AuditLogEntry) : AuditLogEntry := {|
  en_event_type := en_event_type e; en_user_id := en_user_id e; en_actor_id := en_actor_id e;
  en_ip_address := match ctx_ip_address ctx with Some i => Some i | None => en_ip_address e end;
  en_user_agent := match ctx_user_agent ctx with Some u => Some u | None => en_user_agent e end;
  en_details := en_details e |}.
Definition from_ip (ip : string) (e : AuditLogEntry) : AuditLogEntry := {|
  en_event_type := en_event_type e; en_user_id := en_user_id e; en_actor_id := en_actor_id e;
  en_ip_address := Some ip; en_user_agent := en_user_agent e; en_details := en_details e |}.
Definition with_details (j : Json) (e : AuditLogEntry) : AuditLogEntry := {|
  en_event_type := en_event_type e; en_user_id := en_user_id e; en_actor_id := en_actor_id e;
  en_ip_address := en_ip_address e; en_user_agent := en_user_agent e; en_details := Some j |}.

Section Audit.
Context {E : Env} {JL : JsonLib}.

(** [AuditLogEntry::save] *)
Definition audit_save (e : AuditLogEntry) : M unit :=
  id <~ new_uuid ;;
  timestamp <~ now ;;
  stmt (fun d =>
    insert_checked (existsb (fun r => beq (al_id r) id) (audit_log d))
      (is_none_or (en_user_id e) (fun u => user_exists u d)
       && is_none_or (en_actor_id e) (fun u => user_exists u d))
      (with_audit_log (fun t => (t ++ [{|
         al_id := id; al_timestamp := timestamp; al_event_type := as_str (en_event_type e);
         al_user_id := en_user_id e; al_actor_id := en_actor_id e;
         al_ip_address := en_ip_address e; al_user_agent := en_user_agent e;
         al_details := option_map json_render (en_details e) |}])%list)) d).

(** [let _ = audit(..).save(conn).await;]: the outcome is discarded. *)
Definition audit_try (e : AuditLogEntry) : M unit :=
  _ <~ audit_save e ;; ret tt.

(** [log_login_failed] *)
Definition log_login_failed (username : string) (user_id : option Uuid) (ctx : AuditContext)
    : M unit :=
  let details := if is_some user_id then JObj [("username", JStr username)]
                 else JObj [("username", JStr username); ("user_exists", JBool false)] in
  let entry := with_details details (in_ctx ctx (audit LoginFailed)) in
  audit_save (match user_id with Some uid => by_user uid entry | None => entry end).

(** [log_ldap_bind_success] *)
Definition log_ldap_bind_success (user_id : option Uuid) (dn ip mode credential : string)
    : M unit :=
  let entry := with_details (JObj [("dn", JStr dn); ("mode", JStr mode);
                                   ("credential", JStr credential)])
                 (from_ip ip (audit LdapBindSuccess)) in
  audit_save (match user_id with Some uid => by_user uid entry | None => entry end).

(** [log_ldap_bind_failed] *)
Definition log_ldap_bind_failed (user_id : option Uuid) (dn ip mode reason : string)
    : M unit :=
  let entry := with_details (JObj [("dn", JStr dn); ("mode", JStr mode);
                                   ("reason", JStr reason)])
                 (from_ip ip (audit LdapBindFailed)) in
  audit_save (match user_id with Some uid => by_user uid entry | None => entry end).

(** [log_ldap_bind_rejected_mfa_required] *)
Definition log_ldap_bind_rejected_mfa_required (user_id : Uuid) (dn ip mode : string)
    : M unit :=
  audit_save (with_details (JObj [("dn", JStr dn); ("mode", JStr mode)])
    (from_ip ip (by_user user_id (audit LdapBindRejectedMfaRequired)))).
End Audit.

(** ** The query *)

(** [AuditLogQuery] *)
Record AuditLogQuery := {
  q_user_id : option Uuid;
  q_actor_id : option Uuid;
  q_event_types : option (list AuditEventType);
  q_since : option Z;
  q_until : option Z;
  q_limit : option Z;
  q_offset : option Z
}.

(** [AuditLogRecord] *)
Record AuditLogRecord := {
  rec_row : AuditRow;
  rec_username : option string;
  rec_actor_username : option string
}.

(** [AuditLogQuery::push_filters]: the WHERE clause. *)
Definition push_filters (q : AuditLogQuery) (r : AuditRow) : bool :=
  is_none_or (q_user_id q) (fun uid => beq (al_user_id r) (Some uid))
  && is_none_or (q_actor_id q) (fun aid => beq (al_actor_id r) (Some aid))
  && match q_event_types q with
     | Some (t :: ts) => existsb (fun x => beq (al_event_type r) (as_str x)) (t :: ts)
     | _ => true
     end
  && is_none_or (q_since q) (fun ts => ts <=? al_timestamp r)%Z
  && is_none_or (q_until q) (fun ts => al_timestamp r <=? ts)%Z.

(** [ORDER BY timestamp DESC]; rows with equal timestamps newest first. *)
Fixpoint insert_desc (r : AuditRow) (l : list AuditRow) : list AuditRow :=
  match l with
  | [] => [r]
  | x :: l' => if (al_timestamp x <? al_timestamp r)%Z then r :: l else x :: insert_desc r l'
  end.
Definition order_desc (l : list AuditRow) : list AuditRow := foldr insert_desc [] (rev l).

(** [LIMIT n OFFSET m]: a negative limit is no limit, a negative offset 0. *)
Definition page {A} (limit offset : option Z) (l : list A) : list A :=
  let l' := drop (Z.to_nat (unwrap_or offset 0)) l in
  match limit with
  | Some n => if (n <? 0)%Z then l' else take (Z.to_nat n) l'
  | None => l'
  end.

Section Query.
Context {E : Env}.

Definition username_of (d : Db) (o : option Uuid) : option string :=
  match o with
  | Some uid => option_map (fun u : UserRow => u_username u)
                  (fetch (fun u : UserRow => beq (u_id u) uid) (users d))
  | None => None
  end.

(** [AuditLogQuery::execute]; SQLite rejects an OFFSET without a LIMIT. *)
Definition audit_execute (q : AuditLogQuery) : M (list AuditLogRecord) :=
  if is_none (q_limit q) && is_some (q_offset q) then throw DbError
  else query (fun d =>
    map (fun r => {| rec_row := r; rec_username := username_of d (al_user_id r);
                     rec_actor_username := username_of d (al_actor_id r) |})
      (page (q_limit q) (q_offset q)
         (order_desc (select (push_filters q) (audit_log d))))).

(** [AuditLogQuery::count] *)
Definition audit_count (q : AuditLogQuery) : M nat :=
  query (fun d => count (push_filters q) (audit_log d)).
End Query.

(** ** Lemmas *)

Local Close Scope string_scope.

Lemma as_str_inj e e' : as_str e = as_str e' -> e = e'.
Proof. destruct e, e'; simpl; intros H; first [reflexivity | discriminate H]. Qed.

Lemma ALL_complete e : e ∈ ALL.
Proof. destruct e; unfold ALL; set_solver. Qed.

Lemma insert_desc_perm r l : insert_desc r l ≡ₚ r :: l.
Proof.
  induction l as [|x l IH]; simpl; [done|].
  destruct (_ <? _); [done|]. rewrite IH. by constructor.
Qed.

Lemma order_desc_perm l : order_desc l ≡ₚ l.
Proof.
  unfold order_desc. trans (rev l); [|symmetry; apply Permutation_rev].
  induction (rev l) as [|x l' IH]; simpl; [done|]. by rewrite insert_desc_perm, IH.
Qed.

Lemma insert_desc_sorted r l :
  Sorted (fun x y => al_timestamp y <= al_timestamp x) l ->
  Sorted (fun x y => al_timestamp y <= al_timestamp x) (insert_desc r l).
Proof.
  induction l as [|x l IH]; simpl; intros Hs; [by repeat constructor|].
  destruct (_ <? _) eqn:Ex; bool_hyp.
  - constructor; [done|]. constructor. lia.
  - inversion Hs as [|? ? Hs' Hh]; subst. constructor; [by apply IH|].
    destruct l as [|y l]; simpl; [by constructor|].
    destruct (_ <? _); constructor; [lia|]. by inversion Hh.
Qed.

Lemma order_desc_sorted l : Sorted (fun x y => al_timestamp y <= al_timestamp x) (order_desc l).
Proof. unfold order_desc. induction (rev l); simpl; [constructor|]. by apply insert_desc_sorted. Qed.

(** A user's deletion aside, the log only grows: saving an entry keeps every
    row. *)
Definition log_grows (d d' : Db) : Prop := audit_log d `prefix_of` audit_log d'.
#[export] Instance log_grows_preorder : PreOrder log_grows.
Proof. split; unfold log_grows; [intros ?; reflexivity|intros ? ? ?; apply transitivity]. Qed.

Section SaveLemmas.
Context {E : Env} {JL : JsonLib}.

(** Saving an entry touches no other table. *)
Definition only_log (d d' : Db) : Prop := exists f, d' = with_audit_log f d.

Lemma audit_save_db e w : only_log (db w) (db (run (audit_save e) w).2).
Proof.
  assert (Hid : forall d, only_log d d).
  { intros d. exists (fun t => t). by destruct d. }
  unfold audit_save. cbn. destruct (fault _); [apply Hid|].
  unfold insert_checked. destruct (existsb _ _); [apply Hid|].
  destruct (_ && _); [|apply Hid]. eexists. reflexivity.
Qed.
End SaveLemmas.

(** Every audit event type survives its text form. *)
Theorem audit_event_roundtrip e : from_str (as_str e) = Some e.
Proof. destruct e; vm_compute; reflexivity. Qed.

Definition with_page (q : AuditLogQuery) (n o : Z) : AuditLogQuery := {|
  q_user_id := q_user_id q; q_actor_id := q_actor_id q; q_event_types := q_event_types q;
  q_since := q_since q; q_until := q_until q; q_limit := Some n; q_offset := Some o |}.

Lemma page_tiles {A} n (l : list A) k i :
  0 < n -> (length (drop (i * Z.to_nat n) l) <= k * Z.to_nat n)%nat ->
  drop (i * Z.to_nat n) l
  = mjoin (map (fun i => page (Some n) (Some (Z.of_nat i * n)) l) (seq i k)).
Proof.
  intros Hn. revert i. induction k as [|k IH]; intros i Hk; simpl.
  - destruct (drop _ l); [done|simpl in Hk; lia].
  - rewrite <- (take_drop (Z.to_nat n) (drop _ l)). f_equal.
    + unfold page. simpl. destruct (n <? 0) eqn:En; bool_hyp; [lia|].
      f_equal. f_equal. lia.
    + rewrite <- IH.
      * rewrite drop_drop. f_equal. lia.
      * rewrite length_drop in *. lia.
Qed.

(** The rows of a page, as the caller sees them. *)
Definition page_rows {E : Env} (q : AuditLogQuery) (n : Z) (w : World) (i : nat) : list AuditRow :=
  match (run (audit_execute (with_page q n (Z.of_nat i * n))) w).1 with
  | Ok recs => map rec_row recs
  | Err _ => []
  end.

(** The pages of a query of the audit log, put one after the other, are
    the entries that pass the filter, each exactly once and newest first, and
    [count] reports how many there are. *)
Theorem audit_pages_tile {E : Env} q n w :
  0 < n -> fault (tick w) = false ->
  let rows := mjoin (map (page_rows q n w) (seq 0 (S (length (audit_log (db w)))))) in
  rows ≡ₚ select (push_filters q) (audit_log (db w)) /\
  Sorted (fun x y => al_timestamp y <= al_timestamp x) rows /\
  run (audit_count q) w = (Ok (length rows), bump w).
Proof.
  intros Hn Hf rows.
  assert (Hrows : rows = order_desc (select (push_filters q) (audit_log (db w)))).
  { unfold rows. rewrite <- (drop_0 (order_desc _)).
    rewrite <- (Nat.mul_0_l (Z.to_nat n)).
    rewrite (page_tiles n _ (S (length (audit_log (db w)))) 0%nat Hn).
    - f_equal. apply map_ext. intros i. unfold page_rows, audit_execute. simpl.
      rewrite Hf. simpl. by rewrite map_map, map_id.
    - simpl. rewrite drop_0, order_desc_perm. unfold select.
      pose proof (List.filter_length_le (push_filters q) (audit_log (db w))). nia. }
  rewrite Hrows. split; [apply order_desc_perm|]. split; [apply order_desc_sorted|].
  unfold audit_count. rewrite run_query by done. unfold count. by rewrite order_desc_perm.
Qed.

Definition demo_row (id : Uuid) (t : Z) : AuditRow := {|
  al_id := id; al_timestamp := t; al_event_type := "logout"; al_user_id := None;
  al_actor_id := None; al_ip_address := None; al_user_agent := None; al_details := None |}.
Definition demo_log : Db :=
  with_audit_log (fun _ => [demo_row 1 10; demo_row 2 30; demo_row 3 20]) empty_db.
Definition any_entry : AuditLogQuery := {|
  q_user_id := None; q_actor_id := None; q_event_types := None; q_since := Some 15;
  q_until := None; q_limit := None; q_offset := None |}.

Lemma audit_pages_tile_witness :
  mjoin (map (page_rows (E:=calm_env 0) any_entry 1 (start demo_log)) (seq 0 4))
  ≡ₚ [demo_row 2 30; demo_row 3 20].
Proof. exact (proj1 (audit_pages_tile (E:=calm_env 0) any_entry 1 (start demo_log)
                eq_refl eq_refl)). Defined.
