(* ===== verification/Net.v ===== *)
(** * Addresses as text

    The standard library's [FromStr] and [Display] of [IpAddr] and
    [SocketAddr], which the settings, the client-address resolution and the
    LDAP listener use.  A parser takes a prefix of its input; one that fails
    consumes nothing. *)

From S2P Require Import Prelude RStr RateLimit.
Local Open Scope N_scope.

Abbreviation parser A := (string -> option (A * string)) (only parsing).

Definition given (c : ascii) : parser unit := fun s =>
  match s with
  | String a s' => if beq a c then Some (tt, s') else None
  | "" => None
  end%string.

Definition digit_of (radix : N) (a : ascii) : option N :=
  let n := code a in
  if is_ascii_digit a then Some (n - 48)
  else if (radix =? 16) && in_range 97 102 a then Some (n - 87)
  else if (radix =? 16) && in_range 65 70 a then Some (n - 55)
  else None.

(** [read_number]: [acc] is the value so far, [n] the digits read; [max]
    digits at most when given, the value below [bound]. *)
Fixpoint number_from (radix bound : N) (max : option nat) (acc : N) (n : nat) (s : string)
    : option (N * nat * string) :=
  match s with
  | String a s' =>
      match digit_of radix a with
      | Some d =>
          let acc' := acc * radix + d in
          if bound <=? acc' then None
          else if is_some_and max (fun m => (m <? S n)%nat) then None
          else number_from radix bound max acc' (S n) s'
      | None => Some (acc, n, s)
      end
  | ""%string => Some (acc, n, s)
  end.

Definition read_number (radix bound : N) (max : option nat) (allow_zero_prefix : bool)
    : parser N := fun s =>
  match number_from radix bound max 0 0 s with
  | Some (v, n, s') =>
      if (n =? 0)%nat then None
      else if negb allow_zero_prefix && is_some (strip_prefix "0" s) && (1 <? n)%nat then None
      else Some (v, s')
  | None => None
  end.

(** [read_separator]: the separator comes before every item but the first. *)
Definition separated {A} (sep : ascii) (i : nat) (p : parser A) : parser A := fun s =>
  if (i =? 0)%nat then p s
  else match given sep s with Some (_, s') => p s' | None => None end.

Fixpoint octets (i n : nat) (acc : N) (s : string) : option (N * string) :=
  match n with
  | O => Some (acc, s)
  | S n' =>
      match separated "."%char i (read_number 10 256 (Some 3%nat) false) s with
      | Some (v, s') => octets (S i) n' (acc * 256 + v) s'
      | None => None
      end
  end.
Definition read_ipv4_addr : parser N := octets 0 4 0.

(** [read_groups]: the 16-bit groups read, and whether the last two came from
    an embedded IPv4 address. *)
Fixpoint read_groups (i limit : nat) (s : string) : list N * bool * string :=
  match limit with
  | O => ([], false, s)
  | S limit' =>
      match (if (0 <? limit')%nat then separated ":"%char i read_ipv4_addr s else None) with
      | Some (a, s') => ([a / 65536; a mod 65536], true, s')
      | None =>
          match separated ":"%char i (read_number 16 65536 (Some 4%nat) true) s with
          | Some (g, s') =>
              let '(gs, v4, s'') := read_groups (S i) limit' s' in (g :: gs, v4, s'')
          | None => ([], false, s)
          end
      end
  end.

Definition of_groups (gs : list N) : N := fold_left (fun acc g => acc * 65536 + g) gs 0.

Definition read_ipv6_addr : parser N := fun s =>
  let '(head, head_v4, s1) := read_groups 0 8 s in
  if (length head =? 8)%nat then Some (of_groups head, s1)
  else if head_v4 then None
  else match given ":"%char s1 with
       | None => None
       | Some (_, s2) =>
           match given ":"%char s2 with
           | None => None
           | Some (_, s3) =>
               let '(tail, _, s4) := read_groups 0 (7 - length head) s3 in
               Some (of_groups (head ++ repeat 0 (8 - length head - length tail) ++ tail), s4)
           end
       end.

(** The whole input must be read. *)
Definition parse_with {A} (p : parser A) (s : string) : option A :=
  match p s with Some (a, ""%string) => Some a | _ => None end.

(** [IpAddr::from_str] *)
Definition read_ip_addr : parser IpAddr := fun s =>
  match read_ipv4_addr s with
  | Some (a, s') => Some (V4 a, s')
  | None => match read_ipv6_addr s with Some (a, s') => Some (V6 a, s') | None => None end
  end.
Definition parse_ip_addr : string -> option IpAddr := parse_with read_ip_addr.

Record SocketAddr := { sa_ip : IpAddr; sa_scope : N; sa_port : N }.

Definition read_port : parser N := fun s =>
  match given ":"%char s with
  | Some (_, s') => read_number 10 65536 None true s'
  | None => None
  end.

Definition read_scope_id : parser N := fun s =>
  match given "%"%char s with
  | Some (_, s') =>
      match read_number 10 4294967296 None true s' with
      | Some r => Some r
      | None => Some (0, s)
      end
  | None => Some (0, s)
  end.

Definition read_socket_addr : parser SocketAddr := fun s =>
  match read_ipv4_addr s with
  | Some (a, s1) =>
      match read_port s1 with
      | Some (p, s2) => Some ({| sa_ip := V4 a; sa_scope := 0; sa_port := p |}, s2)
      | None => None
      end
  | None =>
      match given "["%char s with
      | None => None
      | Some (_, s1) =>
          match read_ipv6_addr s1 with
          | None => None
          | Some (a, s2) =>
              match read_scope_id s2 with
              | None => None
              | Some (sc, s3) =>
                  match given "]"%char s3 with
                  | None => None
                  | Some (_, s4) =>
                      match read_port s4 with
                      | Some (p, s5) =>
                          Some ({| sa_ip := V6 a; sa_scope := sc; sa_port := p |}, s5)
                      | None => None
                      end
                  end
              end
          end
      end
  end.
(** [SocketAddr::from_str] *)
Definition parse_socket_addr : string -> option SocketAddr := parse_with read_socket_addr.

(** ** [Display] *)
Definition show_ipv4 (a : N) : string :=
  join "." (map (fun k => pretty (N.land (N.shiftr a k) 255)) [24; 16; 8; 0]).

Definition groups_of (a : N) : list N :=
  map (fun k => N.land (N.shiftr a k) 65535) [112; 96; 80; 64; 48; 32; 16; 0].

Definition hex_char (n : N) : ascii := byte_of (if n <? 10 then 48 + n else 87 + n).
Fixpoint hex_digits (fuel : nat) (n : N) (acc : string) : string :=
  match fuel with
  | O => acc
  | S f => let acc' := String (hex_char (n mod 16)) acc in
           if n <? 16 then acc' else hex_digits f (n / 16) acc'
  end.
Definition show_group (g : N) : string := hex_digits 4 g "".

(** The first longest run of zero groups: (start, length). *)
Fixpoint longest_zeros (i : nat) (cur best : nat * nat) (gs : list N) : nat * nat :=
  match gs with
  | [] => best
  | g :: gs' =>
      if g =? 0 then
        let cur' := (if (cur.2 =? 0)%nat then i else cur.1, S cur.2) in
        longest_zeros (S i) cur' (if (best.2 <? cur'.2)%nat then cur' else best) gs'
      else longest_zeros (S i) (0, 0)%nat best gs'
  end.

Definition show_ipv6 (a : N) : string :=
  if N.shiftr a 32 =? 65535 then ("::ffff:" ++ show_ipv4 (N.land a 4294967295))%string
  else
    let gs := groups_of a in
    let z := longest_zeros 0 (0, 0)%nat (0, 0)%nat gs in
    if (1 <? z.2)%nat then
      (join ":" (map show_group (take z.1 gs)) ++ "::"
       ++ join ":" (map show_group (drop (z.1 + z.2) gs)))%string
    else join ":" (map show_group gs).

Definition show_ip (a : IpAddr) : string :=
  match a with V4 n => show_ipv4 n | V6 n => show_ipv6 n end.

Definition show_socket (s : SocketAddr) : string :=
  match sa_ip s with
  | V4 n => (show_ipv4 n ++ ":" ++ pretty (sa_port s))%string
  | V6 n =>
      ("[" ++ show_ipv6 n
       ++ (if (sa_scope s =? 0)%N then "" else "%" ++ pretty (sa_scope s))
       ++ "]:" ++ pretty (sa_port s))%string
  end.

Example addresses :
  map parse_ip_addr ["10.0.0.1"; "010.0.0.1"; "1.2.3"; "::1"; "fe80::1:0"; "::ffff:1.2.3.4"; "1::2::3";
                     "256.1.1.1"]%string
  = [Some (V4 167772161); None; None; Some (V6 1);
     Some (V6 338288524927261089654018896841347760128); Some (V6 281470698652420); None; None] /\
  option_map show_socket (parse_socket_addr "[fe80:0::1]:0389") = Some "[fe80::1]:389"%string /\
  option_map show_socket (parse_socket_addr "0.0.0.0:3389") = Some "0.0.0.0:3389"%string /\
  parse_socket_addr "localhost:3389" = None.
Proof. vm_compute. repeat split. Qed.
