(* ===== verification/Settings.v ===== *)
(** * The settings key-value store ([settings.rs]) *)

From S2P Require Import Prelude RStr RateLimit Schema Sys External Net.
Local Open Scope Z_scope.
Local Open Scope string_scope.

Definition KEY_OPEN_REGISTRATION : string := "open_registration".
Definition KEY_SESSION_EXPIRY_SECONDS : string := "session_expiry_seconds".
Definition KEY_LDAP_ENABLED : string := "ldap_enabled".
Definition KEY_LDAP_BASE_DN : string := "ldap_base_dn".
Definition KEY_LDAP_BIND_ADDRESS : string := "ldap_bind_address".
Definition KEY_LDAP_SERVICE_PASSWORD_HASH : string := "ldap_service_password_hash".
Definition KEY_LDAP_PASSWORD_MODE : string := "ldap_password_mode".
Definition DEFAULT_LDAP_BASE_DN : string := "dc=authere,dc=local".
Definition DEFAULT_LDAP_BIND_ADDRESS : string := "0.0.0.0:3389".
Definition DEFAULT_SESSION_EXPIRY_SECONDS : Z := 7 * 24 * 60 * 60.
Definition MIN_SESSION_EXPIRY_SECONDS : Z := 5 * 60.
Definition MAX_SESSION_EXPIRY_SECONDS : Z := 365 * 24 * 60 * 60.

Inductive LdapPasswordMode : Type := PrimaryAndApp | AppOnly | PrimaryOnly.

#[export] Instance LdapPasswordMode_eq_dec : EqDecision LdapPasswordMode.
Proof. solve_decision. Defined.

(** [LdapPasswordMode::as_str], [app_passwords_enabled], [from_str] *)
Definition mode_str (m : LdapPasswordMode) : string :=
  match m with
  | PrimaryAndApp => "primary_and_app"
  | AppOnly => "app_only"
  | PrimaryOnly => "primary_only"
  end.
Definition app_passwords_enabled (m : LdapPasswordMode) : bool :=
  match m with PrimaryOnly => false | _ => true end.
Definition mode_from_str (s : string) : result string LdapPasswordMode :=
  if beq s "primary_and_app" then Ok PrimaryAndApp
  else if beq s "app_only" then Ok AppOnly
  else if beq s "primary_only" then Ok PrimaryOnly
  else Err ("Unknown LDAP password mode: " ++ s).

Record LdapConfig := {
  lc_enabled : bool;
  lc_base_dn : string;
  lc_bind_address : SocketAddr;
  lc_service_password_hash : option string;
  lc_password_mode : LdapPasswordMode
}.

Definition service_account_dn (c : LdapConfig) : string := "cn=service," ++ lc_base_dn c.
Definition people_base_dn (c : LdapConfig) : string := "ou=people," ++ lc_base_dn c.
Definition groups_base_dn (c : LdapConfig) : string := "ou=groups," ++ lc_base_dn c.

Record LdapSettings := {
  ls_enabled : bool;
  ls_base_dn : string;
  ls_bind_address : string;
  ls_service_account_dn : string;
  ls_service_password_set : bool;
  ls_password_mode : LdapPasswordMode
}.

(** [to_ldap_settings] *)
Definition to_ldap_settings (c : LdapConfig) : LdapSettings := {|
  ls_enabled := lc_enabled c; ls_base_dn := lc_base_dn c;
  ls_bind_address := show_socket (lc_bind_address c);
  ls_service_account_dn := service_account_dn c;
  ls_service_password_set := is_some (lc_service_password_hash c);
  ls_password_mode := lc_password_mode c |}.

(** The value the table holds for a key. *)
Definition setting (key : string) (d : Db) : option string :=
  option_map se_value (fetch (fun r => beq (se_key r) key) (settings d)).

(** [unwrap_or_else] of a parsed setting, clamped: what
    [session_expiry_seconds] computes from the raw value. *)
Definition session_expiry_of (raw : option string) : Z :=
  clamp (unwrap_or (match raw with Some s => parse_i64 s | None => None end)
                   DEFAULT_SESSION_EXPIRY_SECONDS)
        MIN_SESSION_EXPIRY_SECONDS MAX_SESSION_EXPIRY_SECONDS.

Section Settings.
Context {E : Env}.

(** [get_setting] *)
Definition get_setting (key : string) : M (option string) := query (setting key).

(** [set_setting]: [INSERT OR REPLACE]. *)
Definition set_setting (key value : string) : M unit :=
  exec (fun d => (tt, with_settings (fun t =>
    (delete (fun r => beq (se_key r) key) t ++ [{| se_key := key; se_value := value |}])%list) d)).

(** [open_registration_enabled] *)
Definition open_registration_enabled : M bool :=
  value <- get_setting KEY_OPEN_REGISTRATION ;; ret (beq value (Some "true")).

(** [session_expiry_seconds] *)
Definition session_expiry_seconds : M Z :=
  raw <- get_setting KEY_SESSION_EXPIRY_SECONDS ;; ret (session_expiry_of raw).

(** [validate_session_expiry_seconds] *)
Definition validate_session_expiry_seconds (value : Z) : result string Z :=
  if (value <? MIN_SESSION_EXPIRY_SECONDS)%Z
  then Err ("Session expiry must be at least " ++ pretty MIN_SESSION_EXPIRY_SECONDS ++ " seconds")
  else if (MAX_SESSION_EXPIRY_SECONDS <? value)%Z
  then Err ("Session expiry must be at most " ++ pretty MAX_SESSION_EXPIRY_SECONDS ++ " seconds")
  else Ok value.

(** A blank setting counts as unset. *)
Definition non_blank (o : option string) : option string :=
  opt_filter (fun s => negb (is_empty s)) o.

(** [load_ldap_config] *)
Definition load_ldap_config : M LdapConfig :=
  enabled <- get_setting KEY_LDAP_ENABLED ;;
  base_dn <- get_setting KEY_LDAP_BASE_DN ;;
  bind_address <- get_setting KEY_LDAP_BIND_ADDRESS ;;
  addr <- require (parse_socket_addr (unwrap_or (non_blank bind_address) DEFAULT_LDAP_BIND_ADDRESS))
            (InternalError "invalid ldap_bind_address: invalid socket address syntax") ;;
  hash <- get_setting KEY_LDAP_SERVICE_PASSWORD_HASH ;;
  mode <- get_setting KEY_LDAP_PASSWORD_MODE ;;
  ret {| lc_enabled := beq enabled (Some "true");
         lc_base_dn := unwrap_or (non_blank base_dn) DEFAULT_LDAP_BASE_DN;
         lc_bind_address := addr;
         lc_service_password_hash := non_blank hash;
         lc_password_mode :=
           unwrap_or (match mode with Some s => ok (mode_from_str s) | None => None end)
                     PrimaryAndApp |}.

(** [validate_base_dn] *)
Fixpoint validate_rdns (l : list string) : result string unit :=
  match l with
  | [] => Ok tt
  | rdn :: l' =>
      let rdn := trim rdn in
      if is_empty rdn then Err "Base DN contains an empty component"
      else match split_once "=" rdn with
           | None => Err ("Base DN component '" ++ rdn ++ "' is missing an '=' separator")
           | Some (attr, value) =>
               if is_empty (trim attr) || is_empty (trim value)
               then Err ("Base DN component '" ++ rdn ++ "' has an empty attribute or value")
               else validate_rdns l'
           end
  end.
Definition validate_base_dn (dn : string) : result string unit :=
  let trimmed := trim dn in
  if is_empty trimmed then Err "Base DN cannot be empty"
  else if (512 <? String.length trimmed)%nat then Err "Base DN is too long"
  else validate_rdns (split_byte "," trimmed).

(** [validate_bind_address] *)
Definition validate_bind_address (addr : string) : result string SocketAddr :=
  ok_or (parse_socket_addr addr)
    ("Invalid bind address '" ++ addr ++ "': invalid socket address syntax").
End Settings.

(** ** Lemmas *)

Lemma session_expiry_of_range raw :
  (MIN_SESSION_EXPIRY_SECONDS <= session_expiry_of raw <= MAX_SESSION_EXPIRY_SECONDS)%Z.
Proof. apply clamp_range. unfold MIN_SESSION_EXPIRY_SECONDS, MAX_SESSION_EXPIRY_SECONDS. lia. Qed.

Lemma setting_set key value key' d :
  setting key' ((fun t => with_settings (fun t =>
      (delete (fun r => beq (se_key r) key) t ++ [{| se_key := key; se_value := value |}])%list) t) d)
  = if beq key key' then Some value else setting key' d.
Proof.
  unfold setting. simpl. rewrite fetch_app.
  destruct (beq key key') eqn:Ek; bool_hyp.
  - subst. replace (fetch _ (delete _ _)) with (@None SettingRow).
    + simpl. by rewrite beq_refl.
    + symmetry. apply fetch_None. intros r Hr. by apply elem_of_delete in Hr as [_ Hr].
  - rewrite fetch_delete_ne.
    + simpl. destruct (fetch _ _); [done|]. destruct (beq key key') eqn:E2; bool_hyp; done.
    + intros r Hr. bool_hyp. apply beq_neq. congruence.
Qed.

Section Theorems.
Context {E : Env}.

Lemma run_get_setting_ok key o w w' :
  run (get_setting key) w = (Ok o, w') <->
  fault (tick w) = false /\ o = setting key (db w) /\ w' = bump w.
Proof. apply run_query_ok. Qed.

Lemma run_session_expiry_ok t w w' :
  run session_expiry_seconds w = (Ok t, w') <->
  fault (tick w) = false /\
  t = session_expiry_of (setting KEY_SESSION_EXPIRY_SECONDS (db w)) /\ w' = bump w.
Proof.
  unfold session_expiry_seconds. rewrite run_bindM_ok. split.
  - intros (raw & w1 & H1 & H2). apply run_get_setting_ok in H1 as (Hf & -> & ->).
    by apply run_ret_ok in H2 as [<- <-].
  - intros (Hf & -> & ->). do 2 eexists. split; [by apply run_get_setting_ok|].
    by apply run_ret_ok.
Qed.
End Theorems.
