(* ===== verification/Token.v ===== *)
(** * Access and refresh tokens ([user/auth/token.rs])

    Key storage, token generation, verification against the user's session
    generation, rotation, and revocation. *)

From S2P Require Import Prelude RStr RateLimit Schema Sys External Users Net Settings.
Local Open Scope Z_scope.
Local Open Scope string_scope.

Definition ACCESS_TOKEN_LIFETIME : Z := 15 * 60.
Definition TOKEN_ISSUER : string := "authere".
Definition TOKEN_AUDIENCE : string := "authere".

Record Claims := {
  sub : string;
  iss : string;
  aud : string;
  claim_roles : list string;
  exp : Z;
  iat : Z;
  jti : string;
  typ : string;
  session_exp : option Z;
  session_version : option Z;
  auth_time : option Z
}.

#[export] Instance Claims_eq_dec : EqDecision Claims.
Proof. solve_decision. Defined.

#[export] Instance Claims_registered : Registered Claims := {
  reg_iss := iss; reg_aud := aud; reg_exp := exp;
  reg_present := ["sub"; "iss"; "aud"; "roles"; "exp"; "iat"; "jti"; "typ"] }.

Record TokenPair := {
  access_token : string;
  refresh_token : string;
  expires_in : Z;
  refresh_expires_in : Z;
  token_type : string
}.

#[export] Instance TokenPair_eq_dec : EqDecision TokenPair.
Proof. solve_decision. Defined.

Definition set_claim_roles (roles : list string) (c : Claims) : Claims := {|
  sub := sub c; iss := iss c; aud := aud c; claim_roles := roles; exp := exp c; iat := iat c;
  jti := jti c; typ := typ c; session_exp := session_exp c;
  session_version := session_version c; auth_time := auth_time c |}.
Definition set_session_version (v : option Z) (c : Claims) : Claims := {|
  sub := sub c; iss := iss c; aud := aud c; claim_roles := claim_roles c; exp := exp c;
  iat := iat c; jti := jti c; typ := typ c; session_exp := session_exp c;
  session_version := v; auth_time := auth_time c |}.

(** The validation every session token goes through. *)
Definition token_validation : Validation := {|
  v_leeway := 0; v_validate_exp := true; v_validate_aud := true;
  v_required := ["sub"; "exp"; "iat"; "jti"; "typ"; "iss"; "aud"];
  v_iss := Some [TOKEN_ISSUER]; v_aud := Some [TOKEN_AUDIENCE] |}.

(** The columns an [UPDATE] of a refresh token writes. *)
Definition set_revoked_at (t : Z) (r : RefreshTokenRecord) : RefreshTokenRecord := {|
  rt_id := rt_id r; rt_user_id := rt_user_id r; rt_token_hash := rt_token_hash r;
  rt_expires_at := rt_expires_at r; rt_created_at := rt_created_at r; rt_revoked_at := Some t;
  rt_browser_retry_until := rt_browser_retry_until r;
  rt_browser_retry_pair := rt_browser_retry_pair r |}.
Definition set_retry (until : option Z) (pair : option string) (r : RefreshTokenRecord)
    : RefreshTokenRecord := {|
  rt_id := rt_id r; rt_user_id := rt_user_id r; rt_token_hash := rt_token_hash r;
  rt_expires_at := rt_expires_at r; rt_created_at := rt_created_at r;
  rt_revoked_at := rt_revoked_at r; rt_browser_retry_until := until;
  rt_browser_retry_pair := pair |}.
Definition clear_retry_pair (r : RefreshTokenRecord) : RefreshTokenRecord :=
  set_retry (rt_browser_retry_until r) None r.
Definition bump_version (u : UserRow) : UserRow :=
  {| u_row := u_row u; u_token_version := u_token_version u + 1 |}.
Definition set_key_material (ciphertext : string) (nonce : string) (k : KeyRow) : KeyRow := {|
  k_id := k_id k; k_name := k_name k; k_public_key := k_public_key k;
  k_private_key := ciphertext; k_nonce := Some nonce |}.

Definition is_default_key (k : KeyRow) : bool := beq (k_name k) "default".

(** The token version of an active user. *)
Definition active_version (uid : Uuid) (d : Db) : option Z :=
  option_map u_token_version
    (fetch (fun u : UserRow => beq (u_id u) uid && u_active u) (users d)).

Section Token.
Context {E : Env} {HA : Hashing} {ED : Ed25519} {JC : JwtCodec Claims} {UL : UuidLib} {AE : Aead}
        {SJ : SerdeJson TokenPair}.

(** ** Key encryption *)

Definition byte_array (n : nat) (e : AppError) (s : string) : result AppError string :=
  if beq (String.length s) n then Ok s else Err e.

(** [get_kek] *)
Definition get_kek : result AppError string :=
  match env_var "AUTHERE_KEY_SECRET" with
  | None => Err (InternalError
      "AUTHERE_KEY_SECRET environment variable is required (32 random bytes, hex-encoded)")
  | Some secret =>
      match hex_decode (trim secret) with
      | None => Err (InternalError
          "AUTHERE_KEY_SECRET must be hex-encoded (64 hex characters = 32 bytes)")
      | Some bytes =>
          byte_array 32 (InternalError
            "AUTHERE_KEY_SECRET must be exactly 32 bytes (64 hex characters)") bytes
      end
  end.

(** [encrypt_private_key] *)
Definition encrypt_private_key (key_bytes kek : string) : M (string * string) :=
  nonce <~ random_bytes 12 ;;
  ciphertext <- require (aes_encrypt kek nonce key_bytes)
                  (InternalError "Key encryption failed: aead::Error") ;;
  ret (ciphertext, nonce).

(** [decrypt_private_key] *)
Definition decrypt_private_key (ciphertext nonce kek : string) : result AppError string :=
  match aes_decrypt kek nonce ciphertext with
  | None => Err (InternalError "Key decryption failed — check AUTHERE_KEY_SECRET")
  | Some plaintext =>
      byte_array 32 (InternalError "Decrypted key has invalid length") plaintext
  end.

(** ** Key management *)

(** [generate_key] *)
Definition generate_key : prog SigningKey := random_bytes 32.

(** [initialize] *)
Definition initialize : M unit :=
  key <~ generate_key ;;
  kek <- lift get_kek ;;
  id <~ new_uuid ;;
  ' (ciphertext, nonce) <- encrypt_private_key key kek ;;
  stmt (fun d =>
    insert_checked (existsb (fun k => beq (k_id k) id) (keys d)) true
      (with_keys (fun t => (t ++ [{|
         k_id := id; k_name := "default"; k_public_key := verifying_key key;
         k_private_key := ciphertext; k_nonce := Some nonce |}])%list)) d).

(** [try_initialize] *)
Definition try_initialize : M bool :=
  existing_key <- query (fun d => fetch is_default_key (keys d)) ;;
  match existing_key with
  | Some _ => ret false
  | None => initialize ;;; ret true
  end.

(** [load_signing_key]; [fetch_one] fails when there is no row. *)
Definition load_signing_key : M SigningKey :=
  row <- stmt (fun d => match fetch is_default_key (keys d) with
                        | Some r => Ok (r, d) | None => Err DbError end) ;;
  match k_nonce row with
  | None =>
      kek <- lift get_kek ;;
      private_key <- lift (byte_array 32 (InternalError "Invalid key length") (k_private_key row)) ;;
      ' (ciphertext, nonce) <- encrypt_private_key private_key kek ;;
      exec (fun d => (tt, with_keys (update is_default_key (set_key_material ciphertext nonce)) d)) ;;;
      ret private_key
  | Some nonce_bytes =>
      kek <- lift get_kek ;;
      nonce <- lift (byte_array 12 (InternalError "Invalid nonce length") nonce_bytes) ;;
      private_key <- lift (decrypt_private_key (k_private_key row) nonce kek) ;;
      ret private_key
  end.

(** ** Token generation *)

(** [hash_token] *)
Definition hash_token (token : string) : string := hex_encode (sha256 token).

(** The tail shared by the two generators: encode and sign. *)
Definition sign_claims (claims : Claims) (signing_key : SigningKey) : result AppError string :=
  match map_err (fun e => InternalError ("Failed to encode signing key: " ++ e))
          (to_pkcs8_der signing_key) with
  | Err e => Err e
  | Ok der => map_err (fun e => InternalError ("Failed to encode JWT: " ++ e))
                (jwt_encode None claims der)
  end.

(** The claims of an access token issued at [t]. *)
Definition access_claims (user_id : Uuid) (roles : list string) (session_expires_at : Z)
    (version : option Z) (authenticated_at t : Z) (id : Uuid) : Claims := {|
  sub := uuid_to_string user_id; iss := TOKEN_ISSUER; aud := TOKEN_AUDIENCE;
  claim_roles := roles; exp := Z.min (t + ACCESS_TOKEN_LIFETIME) session_expires_at;
  iat := t; jti := uuid_to_string id; typ := "access";
  session_exp := Some session_expires_at; session_version := version;
  auth_time := Some authenticated_at |}.

(** The claims of a refresh token issued at [t]; it carries no roles. *)
Definition refresh_claims (user_id : Uuid) (expires_at : Z) (version : option Z)
    (authenticated_at t : Z) (id : Uuid) : Claims := {|
  sub := uuid_to_string user_id; iss := TOKEN_ISSUER; aud := TOKEN_AUDIENCE;
  claim_roles := []; exp := expires_at; iat := t; jti := uuid_to_string id;
  typ := "refresh"; session_exp := Some expires_at; session_version := version;
  auth_time := Some authenticated_at |}.

(** [generate_access_token_for_session] *)
Definition generate_access_token_for_session (user_id : Uuid) (roles : list string)
    (session_expires_at : Z) (version : option Z) (authenticated_at : Z)
    (signing_key : SigningKey) : M string :=
  t <~ now ;;
  id <~ new_uuid ;;
  lift (sign_claims
    (access_claims user_id roles session_expires_at version authenticated_at t id) signing_key).

(** [generate_access_token] *)
Definition generate_access_token (user_id : Uuid) (roles : list string)
    (signing_key : SigningKey) : M string :=
  t1 <~ now ;;
  t2 <~ now ;;
  generate_access_token_for_session user_id roles (t1 + ACCESS_TOKEN_LIFETIME) (Some 0) t2
    signing_key.

(** [generate_refresh_token_for_session] *)
Definition generate_refresh_token_for_session (user_id : Uuid) (expires_at : Z)
    (version : option Z) (authenticated_at : Z) (signing_key : SigningKey) : M string :=
  t <~ now ;;
  jid <~ new_uuid ;;
  token <- lift (sign_claims
    (refresh_claims user_id expires_at version authenticated_at t jid) signing_key) ;;
  id <~ new_uuid ;;
  stmt (fun d =>
    insert_checked (existsb (fun r => beq (rt_id r) id) (refresh_tokens d)) (user_exists user_id d)
      (with_refresh_tokens (fun rows => (rows ++ [{|
         rt_id := id; rt_user_id := user_id; rt_token_hash := hash_token token;
         rt_expires_at := expires_at; rt_created_at := t; rt_revoked_at := None;
         rt_browser_retry_until := None; rt_browser_retry_pair := None |}])%list)) d) ;;;
  ret token.

(** [user_session_version] *)
Definition user_session_version (user_id : Uuid) : M Z :=
  v <- query (active_version user_id) ;; require v AuthenticationRequired.

(** [generate_refresh_token] *)
Definition generate_refresh_token (user_id : Uuid) (lifetime_seconds : Z)
    (signing_key : SigningKey) : M string :=
  version <- user_session_version user_id ;;
  t1 <~ now ;;
  t2 <~ now ;;
  generate_refresh_token_for_session user_id (t1 + lifetime_seconds) (Some version) t2 signing_key.

(** [generate_token_pair_for_session] *)
Definition generate_token_pair_for_session (user_id : Uuid) (roles : list string)
    (expires_at : Z) (version : option Z) (authenticated_at : Z) (signing_key : SigningKey)
    : M TokenPair :=
  t <~ now ;;
  let remaining := (expires_at - t)%Z in
  guard (remaining <=? 0)%Z AuthenticationRequired ;;;
  access <- generate_access_token_for_session user_id roles expires_at version
              authenticated_at signing_key ;;
  refresh <- generate_refresh_token_for_session user_id expires_at version
               authenticated_at signing_key ;;
  ret {| access_token := access; refresh_token := refresh;
         expires_in := Z.min ACCESS_TOKEN_LIFETIME remaining;
         refresh_expires_in := remaining; token_type := "Bearer" |}.

(** [generate_token_pair] *)
Definition generate_token_pair (user_id : Uuid) (roles : list string) (signing_key : SigningKey)
    : M TokenPair :=
  t <~ now ;;
  lifetime <- session_expiry_seconds ;;
  version <- user_session_version user_id ;;
  t2 <~ now ;;
  generate_token_pair_for_session user_id roles (t + lifetime) (Some version) t2 signing_key.

(** ** Token verification *)

(** [verify_user_session] *)
Definition verify_user_session (user_id : Uuid) (issued_at : Z) (version : option Z) : M unit :=
  current_version <- user_session_version user_id ;;
  match version with
  | Some v => if (v =? current_version)%Z then ret tt else throw AuthenticationRequired
  | None =>
      guard (negb (current_version =? 0)%Z) AuthenticationRequired ;;;
      revocation <- query (fun d => fetch (fun r => beq (ar_user_id r) user_id)
                                          (access_revocations d)) ;;
      match revocation with
      | Some r => guard (issued_at <=? ar_revoked_before r)%Z AuthenticationRequired
      | None => ret tt
      end
  end.

(** [decode], at the library's own clock. *)
Definition decode_claims (signing_key : SigningKey) (token : string) : M Claims :=
  t <~ now ;;
  require (jwt_decode (verifying_key signing_key) token_validation t token) AuthenticationRequired.

(** [o.is_some_and(|exp| exp <= current_timestamp())] *)
Definition deadline_passed (o : option Z) : prog bool :=
  match o with
  | Some e => t <~ now ;; Ret (e <=? t)%Z
  | None => Ret false
  end.

(** [verify_access_token] *)
Definition verify_access_token (token : string) (signing_key : SigningKey) : M Claims :=
  claims <- decode_claims signing_key token ;;
  guard (negb (beq (typ claims) "access")) AuthenticationRequired ;;;
  t <~ now ;;
  expired <~ (if (exp claims <=? t)%Z then Ret true else deadline_passed (session_exp claims)) ;;
  guard expired AuthenticationRequired ;;;
  user_id <- require (uuid_parse (sub claims)) (InternalError "Invalid user ID in token") ;;
  verify_user_session user_id (iat claims) (session_version claims) ;;;
  found <- User_get user_id ;;
  user <- require found AuthenticationRequired ;;
  roles <- User_get_roles user ;;
  ret (set_claim_roles roles claims).

(** ** Revocation *)

(** [revoke_user_access_tokens] *)
Definition revoke_user_access_tokens (user_id : Uuid) : M unit :=
  t <~ now ;;
  exec (fun d =>
    (tt, with_users (update (fun u : UserRow => beq (u_id u) user_id) bump_version) d)) ;;;
  stmt (fun d =>
    if user_exists user_id d then
      Ok (tt, with_access_revocations (fun rows =>
        if existsb (fun r => beq (ar_user_id r) user_id) rows
        then update (fun r => beq (ar_user_id r) user_id)
               (fun r => {| ar_user_id := ar_user_id r; ar_revoked_before := t |}) rows
        else (rows ++ [{| ar_user_id := user_id; ar_revoked_before := t |}])%list) d)
    else Err DbError).

(** [revoke_all_user_tokens] *)
Definition revoke_all_user_tokens (user_id : Uuid) : M unit :=
  t <~ now ;;
  exec (fun d =>
    (tt, with_refresh_tokens
           (update (fun r => beq (rt_user_id r) user_id && is_none (rt_revoked_at r))
                   (set_revoked_at t)) d)) ;;;
  revoke_user_access_tokens user_id.

(** ** Refresh *)

(** The row the consuming [UPDATE] affects. *)
Definition live_token (hash : string) (t : Z) (r : RefreshTokenRecord) : bool :=
  beq (rt_token_hash r) hash && is_none (rt_revoked_at r) && (t <? rt_expires_at r)%Z.

(** [consume_refresh_token] *)
Definition consume_refresh_token (token : string) (signing_key : SigningKey)
    : M (Uuid * Claims) :=
  claims <- decode_claims signing_key token ;;
  guard (negb (beq (typ claims) "refresh")) AuthenticationRequired ;;;
  user_id <- require (uuid_parse (sub claims)) AuthenticationRequired ;;
  version_before_verification <- user_session_version user_id ;;
  verify_user_session user_id (iat claims) (session_version claims) ;;;
  let claims := if is_none (session_version claims)
                then set_session_version (Some version_before_verification) claims
                else claims in
  let hash := hash_token token in
  t <~ now ;;
  affected <- exec (fun d => (count (live_token hash t) (refresh_tokens d),
    with_refresh_tokens (update (live_token hash t) (set_revoked_at t)) d)) ;;
  if negb (beq affected 1%nat) then
    exists_ <- query (fun d => fetch (fun r => beq (rt_token_hash r) hash) (refresh_tokens d)) ;;
    _ <~ match exists_ with
         | Some row => revoke_all_user_tokens (rt_user_id row)
         | None => ret tt
         end ;;
    throw AuthenticationRequired
  else ret (user_id, claims).

(** [verify_and_revoke_refresh_token] *)
Definition verify_and_revoke_refresh_token (token : string) (signing_key : SigningKey)
    : M Uuid :=
  r <- consume_refresh_token token signing_key ;; ret r.1.

(** [rotate_token_pair] *)
Definition rotate_token_pair (token : string) (signing_key : SigningKey) : M TokenPair :=
  ' (user_id, claims) <- consume_refresh_token token signing_key ;;
  found <- User_get user_id ;;
  user <- require found AuthenticationRequired ;;
  roles <- User_get_roles user ;;
  generate_token_pair_for_session user_id roles
    (Z.min (unwrap_or (session_exp claims) (exp claims)) (exp claims))
    (session_version claims) (unwrap_or (auth_time claims) (iat claims)) signing_key.

(** [browser_retry_cipher]: the key it derives. *)
Definition browser_retry_cipher (signing_key : SigningKey) : string :=
  sha256 ("authere/browser-refresh-retry/v1" ++ String "000"%char signing_key).

(** [encrypt_browser_retry] *)
Definition encrypt_browser_retry (pair : TokenPair) (signing_key : SigningKey) : M string :=
  plaintext <- lift (map_err (fun e => InternalError ("Failed to encode refresh retry: " ++ e))
                       (to_vec pair)) ;;
  nonce <~ random_bytes 12 ;;
  ciphertext <- require (aes_encrypt (browser_retry_cipher signing_key) nonce plaintext)
                  (InternalError "Failed to encrypt refresh retry") ;;
  ret (nonce ++ ciphertext).

(** [decrypt_browser_retry] *)
Definition decrypt_browser_retry (encrypted : string) (signing_key : SigningKey)
    : result AppError TokenPair :=
  if (String.length encrypted <? 12)%nat then Err AuthenticationRequired
  else match aes_decrypt (browser_retry_cipher signing_key) (take_bytes 12 encrypted)
               (drop_bytes 12 encrypted) with
       | None => Err AuthenticationRequired
       | Some plaintext => ok_or (from_slice plaintext) AuthenticationRequired
       end.

(** The [for _ in 0..16] loop of [rotate_browser_token_pair]. *)
Fixpoint follow_retry (fuel : nat) (t : Z) (signing_key : SigningKey) (pair : TokenPair)
    : prog (bool * result AppError TokenPair) :=
  match fuel with
  | O => Ret (false, Err AuthenticationRequired)
  | S fuel' =>
      _ <-! verify_access_token (access_token pair) signing_key ;;
      replacement <-! query (fun d =>
        fetch (fun r => beq (rt_token_hash r) (hash_token (refresh_token pair))
                        && (t <? rt_expires_at r)%Z) (refresh_tokens d)) ;;
      match replacement with
      | None => Ret (false, Err AuthenticationRequired)
      | Some r =>
          match rt_revoked_at r, rt_browser_retry_until r, rt_browser_retry_pair r with
          | None, _, _ => commit_with (Ok pair)
          | Some _, Some until, Some encrypted =>
              if (t <? until)%Z then
                next <-! lift (decrypt_browser_retry encrypted signing_key) ;;
                follow_retry fuel' t signing_key next
              else Ret (false, Err AuthenticationRequired)
          | _, _, _ => Ret (false, Err AuthenticationRequired)
          end
      end
  end.

(** A consumed token's row whose replacement may still be handed out. *)
Definition retry_of (t : Z) (r : option RefreshTokenRecord) : option string :=
  match r with
  | Some row =>
      match rt_browser_retry_until row, rt_browser_retry_pair row with
      | Some until, Some encrypted => if (t <? until)%Z then Some encrypted else None
      | _, _ => None
      end
  | None => None
  end.

(** [rotate_browser_token_pair] *)
Definition rotate_browser_token_pair (token : string) (signing_key : SigningKey)
    : M TokenPair :=
  atomic_tx (
    t <~ now ;;
    let hash := hash_token token in
    retry <-! query (fun d =>
      fetch (fun r => beq (rt_token_hash r) hash && is_some (rt_revoked_at r)
                      && (t <? rt_expires_at r)%Z) (refresh_tokens d)) ;;
    match retry_of t retry with
    | Some encrypted =>
        pair <-! lift (decrypt_browser_retry encrypted signing_key) ;;
        follow_retry 16 t signing_key pair
    | None =>
        r <~ rotate_token_pair token signing_key ;;
        match r with
        | Err AuthenticationRequired => commit_with (Err AuthenticationRequired)
        | Err other => Ret (false, Err other)
        | Ok tokens =>
            encrypted <-! encrypt_browser_retry tokens signing_key ;;
            _ <-! exec (fun d =>
              (tt, with_refresh_tokens (update (fun r => beq (rt_token_hash r) hash)
                     (set_retry (Some (t + 5)) (Some encrypted))) d)) ;;
            _ <-! exec (fun d =>
              (tt, with_refresh_tokens
                     (update (fun r => sql_le (rt_browser_retry_until r) t
                                       && is_some (rt_browser_retry_pair r)) clear_retry_pair) d)) ;;
            commit_with (Ok tokens)
        end
    end).

(** [sweep_expired_sessions] *)
Definition sweep_expired_sessions : M unit :=
  t <~ now ;;
  exec (fun d => (tt, with_refresh_tokens
    (update (fun r => sql_le (rt_browser_retry_until r) t && is_some (rt_browser_retry_pair r))
            clear_retry_pair) d)) ;;;
  exec (fun d => (tt, with_refresh_tokens (delete (fun r => rt_expires_at r <=? t)%Z) d)) ;;;
  exec (fun d => (tt, with_handoffs (delete (fun r => fh_expires_at r <=? t)%Z) d)).
End Token.
