(* ===== verification/TokenFacts.v ===== *)
(** * What token verification, refresh and revocation guarantee *)

From S2P Require Import Prelude RStr RateLimit Schema Sys External Users Net Settings Token.
Local Open Scope Z_scope.

(** ** The abstract contract of a session

    A session is its user, the time its credential was issued and the session
    generation the credential names.  It is valid in a database when the user
    is active and the generation is current; a credential from before
    generations existed must also postdate the user's last revocation. *)
Definition session_valid (uid : Uuid) (issued_at : Z) (version : option Z) (d : Db) : bool :=
  match active_version uid d with
  | None => false
  | Some cv =>
      match version with
      | Some v => v =? cv
      | None =>
          (cv =? 0) && is_none_or (fetch (fun r => beq (ar_user_id r) uid) (access_revocations d))
                                  (fun r => ar_revoked_before r <? issued_at)
      end
  end.

(** ** A user's session generation never goes back *)
Definition versions_grow (uid : Uuid) (d d' : Db) : Prop :=
  forall u' : UserRow, u' ∈ users d' -> u_id u' = uid ->
  exists u : UserRow, u ∈ users d /\ u_id u = uid /\ u_token_version u <= u_token_version u'.

#[export] Instance versions_grow_preorder uid : PreOrder (versions_grow uid).
Proof.
  split.
  - intros d u Hu He. exists u. split; [done|]. split; [done|lia].
  - intros d1 d2 d3 H12 H23 u Hu He.
    destruct (H23 _ Hu He) as (u2 & Hu2 & He2 & Hv2).
    destruct (H12 _ Hu2 He2) as (u1 & Hu1 & He1 & Hv1).
    exists u1. split; [done|]. split; [done|lia].
Qed.

Lemma versions_grow_same uid d d' : users d' = users d -> versions_grow uid d d'.
Proof. intros He u Hu Hi. rewrite He in Hu. exists u. split; [done|]. split; [done|lia]. Qed.

(** An [UPDATE] of user rows that keeps ids and never lowers a generation. *)
Lemma versions_grow_update uid p (f : UserRow -> UserRow) d :
  (forall u : UserRow, u_id (f u) = u_id u /\ u_token_version u <= u_token_version (f u)) ->
  versions_grow uid d (with_users (update p f) d).
Proof.
  intros Hf u Hu Hi. simpl in Hu. apply elem_of_update in Hu as (u0 & Hu0 & ->).
  exists u0. destruct (Hf u0) as [H1 H2]. destruct (p u0); split; try done; split; try congruence; lia.
Qed.

Lemma versions_grow_delete uid p d : versions_grow uid d (with_users (delete p) d).
Proof.
  intros u Hu Hi. simpl in Hu. apply elem_of_delete in Hu as [Hu _].
  exists u. split; [done|]. split; [done|lia].
Qed.

Lemma versions_grow_insert uid (row : UserRow) d :
  u_id row <> uid -> versions_grow uid d (with_users (fun t => t ++ [row])%list d).
Proof.
  intros Hn u Hu Hi. simpl in Hu. apply elem_of_app in Hu as [Hu|Hu].
  - exists u. split; [done|]. split; [done|lia].
  - apply list_elem_of_singleton in Hu as ->. done.
Qed.

Create HintDb grow.
#[export] Hint Resolve versions_grow_same versions_grow_delete versions_grow_insert : grow.
#[export] Hint Extern 2 (versions_grow _ _ (with_users (update _ _) _)) =>
  apply versions_grow_update; intros u; split; simpl; try reflexivity; try lia : grow.

Section Facts.
Context {E : Env} {HA : Hashing} {ED : Ed25519} {JC : JwtCodec Claims} {UL : UuidLib} {AE : Aead}
        {SJ : SerdeJson TokenPair}.

Lemma run_user_session_version_ok uid v w w' :
  run (user_session_version uid) w = (Ok v, w') <->
  fault (tick w) = false /\ active_version uid (db w) = Some v /\ w' = bump w.
Proof.
  unfold user_session_version. rewrite run_bindM_ok. split.
  - intros (o & w1 & H1 & H2). apply run_query_ok in H1 as (Hf & -> & ->).
    by apply run_require_ok in H2 as [-> <-].
  - intros (Hf & Hv & ->). do 2 eexists. split; [by apply run_query_ok|].
    by apply run_require_ok.
Qed.

Lemma verify_user_session_ok uid t v u w w' :
  run (verify_user_session uid t v) w = (Ok u, w') ->
  db w' = db w /\ session_valid uid t v (db w) = true.
Proof.
  intros H0. unfold verify_user_session in H0.
  apply run_bindM_ok in H0 as (cv & w1 & H1 & H2).
  apply run_user_session_version_ok in H1 as (_ & Hv & ->).
  unfold session_valid. rewrite Hv. destruct v as [v|].
  - destruct (v =? cv); [|done]. by run_inv H2.
  - apply run_bindM_ok in H2 as (? & w1 & H1 & H2). run_inv H1. bool_hyp. subst cv.
    run_inv H2. simpl in *. destruct (fetch _ _) as [r|]; simpl.
    + run_inv Hk. bool_hyp. split; [done|]. by apply Z.ltb_lt.
    + by run_inv Hk.
Qed.

Lemma decode_claims_ok key token c w w' :
  run (decode_claims key token) w = (Ok c, w') <->
  jwt_decode (verifying_key key) token_validation (clock (tick w)) token = Some c /\ w' = bump w.
Proof.
  unfold decode_claims. split.
  - intros H0. run_inv H0. done.
  - intros [Hd ->]. cbn. by rewrite Hd.
Qed.

Lemma deadline_passed_ok o w w' :
  run (deadline_passed o) w = (false, w') ->
  db w' = db w /\ forall e, o = Some e -> clock (tick w) < e.
Proof.
  destruct o as [e|]; simpl.
  - intros [= Hb <-]. split; [done|]. intros e' [= <-]. bool_hyp. lia.
  - by intros [= <-].
Qed.

(** *** Every operation keeps the generations growing *)

Ltac grow := unfold User_get, User_get_roles; respects_walk; eauto with grow.

Lemma grow_user_session_version u0 uid :
  respects (on_db (versions_grow u0)) (user_session_version uid).
Proof. unfold user_session_version. grow. Qed.
Hint Resolve grow_user_session_version : respects.

Lemma grow_verify_user_session u0 uid t v :
  respects (on_db (versions_grow u0)) (verify_user_session uid t v).
Proof. unfold verify_user_session. grow. Qed.
Hint Resolve grow_verify_user_session : respects.

Lemma grow_decode_claims u0 key token :
  respects (on_db (versions_grow u0)) (decode_claims key token).
Proof. unfold decode_claims. grow. Qed.
Hint Resolve grow_decode_claims : respects.

Lemma grow_verify_access_token u0 token key :
  respects (on_db (versions_grow u0)) (verify_access_token token key).
Proof. unfold verify_access_token, deadline_passed. grow. Qed.
Hint Resolve grow_verify_access_token : respects.

Lemma grow_generate_token_pair_for_session u0 uid roles t v a key :
  respects (on_db (versions_grow u0)) (generate_token_pair_for_session uid roles t v a key).
Proof.
  unfold generate_token_pair_for_session, generate_access_token_for_session,
    generate_refresh_token_for_session. grow.
Qed.
Hint Resolve grow_generate_token_pair_for_session : respects.

Lemma grow_generate_token_pair u0 uid roles key :
  respects (on_db (versions_grow u0)) (generate_token_pair uid roles key).
Proof. unfold generate_token_pair, session_expiry_seconds, get_setting. grow. Qed.
Hint Resolve grow_generate_token_pair : respects.

Lemma grow_revoke_user_access_tokens u0 uid :
  respects (on_db (versions_grow u0)) (revoke_user_access_tokens uid).
Proof. unfold revoke_user_access_tokens. grow. Qed.
Hint Resolve grow_revoke_user_access_tokens : respects.

Lemma grow_revoke_all_user_tokens u0 uid :
  respects (on_db (versions_grow u0)) (revoke_all_user_tokens uid).
Proof. unfold revoke_all_user_tokens. grow. Qed.
Hint Resolve grow_revoke_all_user_tokens : respects.

Lemma grow_consume_refresh_token u0 token key :
  respects (on_db (versions_grow u0)) (consume_refresh_token token key).
Proof. unfold consume_refresh_token. grow. Qed.
Hint Resolve grow_consume_refresh_token : respects.

Lemma grow_rotate_token_pair u0 token key :
  respects (on_db (versions_grow u0)) (rotate_token_pair token key).
Proof. unfold rotate_token_pair. grow. Qed.
Hint Resolve grow_rotate_token_pair : respects.

Lemma grow_follow_retry u0 fuel t key p :
  respects (on_db (versions_grow u0)) (follow_retry fuel t key p).
Proof. revert p. induction fuel as [|fuel IH]; intros p; cbn [follow_retry]; grow. Qed.
Hint Resolve grow_follow_retry : respects.

Lemma grow_rotate_browser_token_pair u0 token key :
  respects (on_db (versions_grow u0)) (rotate_browser_token_pair token key).
Proof.
  apply respects_atomic_tx; [apply _|]. unfold encrypt_browser_retry. grow.
Qed.

Lemma grow_sweep u0 : respects (on_db (versions_grow u0)) sweep_expired_sessions.
Proof. unfold sweep_expired_sessions. grow. Qed.
End Facts.

#[export] Hint Resolve grow_user_session_version grow_verify_user_session
  grow_verify_access_token grow_generate_token_pair grow_revoke_user_access_tokens
  grow_revoke_all_user_tokens grow_consume_refresh_token grow_rotate_token_pair
  grow_rotate_browser_token_pair grow_sweep : respects.

Section Verification.
Context {E : Env} {HA : Hashing} {ED : Ed25519} {JC : JwtCodec Claims} {UL : UuidLib} {AE : Aead}
        {SJ : SerdeJson TokenPair}.

(** What an accepted access token has been checked for, clock by clock. *)
Lemma verify_access_token_ok token key c w w' :
  run (verify_access_token token key) w = (Ok c, w') ->
  db w' = db w /\
  exists c0 uid,
    jwt_decode (verifying_key key) token_validation (clock (tick w)) token = Some c0 /\
    typ c0 = "access"%string /\
    clock (S (tick w)) < exp c0 /\
    (forall e, session_exp c0 = Some e -> clock (S (S (tick w))) < e) /\
    uuid_parse (sub c0) = Some uid /\
    session_valid uid (iat c0) (session_version c0) (db w) = true /\
    c = set_claim_roles (map ro_name (roles_of uid (db w))) c0.
Proof.
  intros Hrun. unfold verify_access_token in Hrun.
  apply run_bindM_ok in Hrun as (c0 & w1 & Hd & Hrun).
  apply decode_claims_ok in Hd as [Hd ->].
  apply run_bindM_ok in Hrun as (? & w1 & Hr & Hrun). run_inv Hr. bool_hyp.
  apply run_bind_eq in Hrun as (t & w1 & Hr & Hrun). apply run_now in Hr as [-> ->].
  apply run_bind_eq in Hrun as (ex & w1 & Hex & Hrun).
  apply run_bindM_ok in Hrun as (? & w2 & Hr & Hrun). run_inv Hr.
  destruct (exp c0 <=? _) eqn:He; [by injection Hex|]. bool_hyp.
  apply deadline_passed_ok in Hex as [Hdb Hse]. simpl in *.
  apply run_bindM_ok in Hrun as (uid & w3 & Hr & Hrun). run_inv Hr.
  apply run_bindM_ok in Hrun as (? & w4 & Hs & Hrun).
  apply verify_user_session_ok in Hs as [Hdb2 Hs].
  apply run_bindM_ok in Hrun as (o & w5 & Hg & Hrun).
  apply run_User_get_ok in Hg as (_ & -> & ->).
  apply run_bindM_ok in Hrun as (u & w6 & Hr & Hrun).
  apply run_require_ok in Hr as [Hu <-].
  apply run_bindM_ok in Hrun as (rs & w7 & Hr & Hrun).
  apply run_get_roles_ok in Hr as (_ & -> & ->). run_inv Hrun. simpl.
  destruct (fetch _ _) as [row|] eqn:Ef; [|done]. injection Hu as <-.
  apply fetch_Some in Ef as [_ Ef]. bool_hyp.
  assert (Hw : db w4 = db w) by congruence. rewrite Ef, Hw. split; [done|].
  exists c0, uid. rewrite Hdb in Hs. done.
Qed.

Lemma consume_refresh_token_ok token key r w w' :
  run (consume_refresh_token token key) w = (Ok r, w') ->
  exists c0 t,
    jwt_decode (verifying_key key) token_validation (clock (tick w)) token = Some c0 /\
    typ c0 = "refresh"%string /\
    uuid_parse (sub c0) = Some r.1 /\
    session_valid r.1 (iat c0) (session_version c0) (db w) = true /\
    (exists cv, active_version r.1 (db w) = Some cv /\
       r.2 = set_session_version (Some cv) c0) /\
    count (live_token (hash_token token) t) (refresh_tokens (db w)) = 1%nat /\
    db w' = with_refresh_tokens (update (live_token (hash_token token) t) (set_revoked_at t)) (db w).
Proof.
  intros Hrun. unfold consume_refresh_token in Hrun.
  apply run_bindM_ok in Hrun as (c0 & w1 & Hd & Hrun).
  apply decode_claims_ok in Hd as [Hd ->].
  apply run_bindM_ok in Hrun as (? & w1 & Hr & Hrun). run_inv Hr. bool_hyp.
  apply run_bindM_ok in Hrun as (uid & w1 & Hr & Hrun). run_inv Hr.
  apply run_bindM_ok in Hrun as (cv & w1 & Hcv & Hrun).
  apply run_user_session_version_ok in Hcv as (_ & Hcv & ->).
  apply run_bindM_ok in Hrun as (? & w2 & Hs & Hrun).
  apply verify_user_session_ok in Hs as [Hdb Hs]. cbn [db bump] in *.
  apply run_bind_eq in Hrun as (t & w3 & Hr & Hrun). apply run_now in Hr as [-> ->].
  apply run_bindM_ok in Hrun as (n & w3 & Hr & Hrun). run_inv Hr. cbn [db bump fst snd] in *.
  rewrite Hdb in *.
  destruct (beq _ 1%nat) eqn:Hn; cbn [negb] in Hrun.
  - injection Hrun as <- <-. bool_hyp. exists c0, (clock (tick w2)). simpl.
    repeat (split; [done|]). split; [|done].
    exists cv. split; [done|].
    assert (Hv : session_version c0 = None \/ session_version c0 = Some cv).
    { unfold session_valid in Hs. rewrite Hcv in Hs.
      destruct (session_version c0); [|by left]. bool_hyp. right. by f_equal. }
    destruct c0 as [? ? ? ? ? ? ? ? ? sv ?]. simpl in *. destruct Hv as [->| ->]; done.
  - by run_inv Hrun.
Qed.

Lemma sign_claims_ok c key t :
  sign_claims c key = Ok t <->
  exists der, to_pkcs8_der key = Ok der /\ jwt_encode None c der = Ok t.
Proof.
  unfold sign_claims. destruct (to_pkcs8_der key) as [der|e]; simpl; [|naive_solver].
  rewrite map_err_Ok. naive_solver.
Qed.

(** A pair that is issued: both tokens sign the deadline, the generation and
    the authentication time the caller gave; the refresh token's row is
    appended, and nothing else changes. *)
Lemma generate_token_pair_for_session_ok uid roles D v a key p w w' :
  run (generate_token_pair_for_session uid roles D v a key) w = (Ok p, w') ->
  exists t0 t1 t2 j1 j2 id,
    t0 < D /\
    sign_claims (access_claims uid roles D v a t1 j1) key = Ok (access_token p) /\
    sign_claims (refresh_claims uid D v a t2 j2) key = Ok (refresh_token p) /\
    expires_in p = Z.min ACCESS_TOKEN_LIFETIME (D - t0) /\
    refresh_expires_in p = D - t0 /\
    user_exists uid (db w) = true /\
    db w' = with_refresh_tokens (fun rows => (rows ++ [{|
      rt_id := id; rt_user_id := uid; rt_token_hash := hash_token (refresh_token p);
      rt_expires_at := D; rt_created_at := t2; rt_revoked_at := None;
      rt_browser_retry_until := None; rt_browser_retry_pair := None |}])%list) (db w).
Proof.
  intros Hrun. unfold generate_token_pair_for_session in Hrun.
  apply run_bind_eq in Hrun as (t0 & w1 & Hr & Hrun). apply run_now in Hr as [-> ->].
  apply run_bindM_ok in Hrun as (? & w1 & Hr & Hrun). run_inv Hr. bool_hyp.
  apply run_bindM_ok in Hrun as (acc & w1 & Hacc & Hrun).
  unfold generate_access_token_for_session in Hacc. cbn in Hacc.
  injection Hacc as Hacc <-.
  apply run_bindM_ok in Hrun as (ref & w2 & Href & Hrun). run_inv Hrun.
  unfold generate_refresh_token_for_session in Href. run_inv Href.
  match goal with Hx : insert_checked _ _ _ _ = _ |- _ =>
    apply insert_checked_ok in Hx as (? & ? & ->) end.
  do 6 eexists. split; [apply Z.lt_0_sub; eassumption|].
  split; [exact Hacc|]. split; [eassumption|]. done.
Qed.

(** *** Without storage faults, the checks succeed as specified *)

Lemma run_verify_user_session `{!Calm E} uid t v w :
  exists w', run (verify_user_session uid t v) w
    = ((if session_valid uid t v (db w) then Ok tt else Err AuthenticationRequired), w')
    /\ db w' = db w /\ (tick w <= tick w' <= S (S (tick w)))%nat.
Proof.
  unfold verify_user_session, user_session_version, session_valid. run_calm.
  destruct (active_version uid (db w)) as [cv|]; run_calm; [|eexists; split; [done|]; split; [done|simpl; lia]].
  destruct v as [v|].
  - destruct (v =? cv); run_calm; eexists; (split; [done|]; split; [done|simpl; lia]).
  - destruct (cv =? 0); run_calm; [|eexists; split; [done|]; split; [done|simpl; lia]].
    destruct (fetch _ (access_revocations (db w))) as [r|]; run_calm.
    + rewrite Z.leb_antisym. simpl. destruct (_ <? _); simpl; eexists; (split; [done|]; split; [done|simpl; lia]).
    + eexists; (split; [done|]; split; [done|simpl; lia]).
Qed.

Lemma verify_access_token_complete `{!Calm E, !MonotoneClock E} token key c0 uid w T :
  jwt_decode (verifying_key key) token_validation (clock (tick w)) token = Some c0 ->
  typ c0 = "access"%string ->
  clock (S (S (tick w))) <= T -> T < exp c0 ->
  (forall e, session_exp c0 = Some e -> T < e) ->
  uuid_parse (sub c0) = Some uid ->
  session_valid uid (iat c0) (session_version c0) (db w) = true ->
  exists w', run (verify_access_token token key) w
    = (Ok (set_claim_roles (map ro_name (roles_of uid (db w))) c0), w') /\ db w' = db w.
Proof.
  intros Hd Ht HT He Hse Hu Hs.
  unfold verify_access_token, decode_claims. run_calm. rewrite Hd. run_calm. rewrite Ht.
  assert (Hb : beq "access"%string "access"%string = true) by apply beq_refl.
  rewrite Hb. cbn [negb]. run_calm.
  pose proof (clock_mono (S (tick w)) (S (S (tick w))) ltac:(lia)).
  assert ((exp c0 <=? clock (S (tick w))) = false) as -> by (apply Z.leb_gt; lia).
  destruct (run (deadline_passed (session_exp c0)) _) as [b w1] eqn:Ed.
  assert (Hw1 : b = false /\ db w1 = db w).
  { destruct (session_exp c0) as [e|]; simpl in Ed; injection Ed as <- <-; [|done].
    split; [|done]. apply Z.leb_gt. specialize (Hse e eq_refl). simpl. lia. }
  destruct Hw1 as [-> Hdb]. cbn [fst snd]. run_calm. rewrite Hu. run_calm.
  destruct (run_verify_user_session uid (iat c0) (session_version c0) w1) as (w2 & Hr & Hdb2 & _).
  rewrite Hdb, Hs in Hr. rewrite Hr. cbn [fst snd]. unfold User_get, User_get_roles. run_calm.
  rewrite Hdb2, Hdb.
  destruct (fetch (fun u : UserRow => beq (u_id u) uid) (users (db w))) as [row|] eqn:Ef.
  - cbn [option_map]. run_calm. apply fetch_Some in Ef as [_ Ef]. bool_hyp. rewrite Ef.
    eexists. rewrite Hdb2, Hdb. split; [done|]. cbn [db bump]. congruence.
  - exfalso. unfold session_valid, active_version in Hs.
    destruct (fetch _ (users (db w))) as [row|] eqn:Ef2; [|done].
    apply fetch_Some in Ef2 as [Hin Hp]. bool_hyp.
    assert (Hf := proj1 (fetch_None _ _) Ef row Hin). simpl in Hf. bool_hyp. done.
Qed.
End Verification.
