(* ===== verification/Sessions.v ===== *)
(** * The session properties: verification, revocation, refresh *)

From S2P Require Import Prelude RStr RateLimit Schema Sys External Users Net Settings Token TokenFacts.
Local Open Scope Z_scope.

(** A credential of [uid] issued while the database was [d]: it names no
    generation later than the user's current one, or none at all. *)
Definition issued_by (uid : Uuid) (d : Db) (version : option Z) : Prop :=
  forall v, version = Some v -> forall u : UserRow, u ∈ users d -> u_id u = uid -> v <= u_token_version u.

(** Generations start at 0 ([DEFAULT 0]) and only grow. *)
Definition versions_nonneg (d : Db) : Prop :=
  forall u : UserRow, u ∈ users d -> 0 <= u_token_version u.

Section Sessions.
Context {E : Env} {HA : Hashing} {ED : Ed25519} {JC : JwtCodec Claims} {UL : UuidLib} {AE : Aead}
        {SJ : SerdeJson TokenPair}.

Lemma revoke_user_access_tokens_ok uid u w w' :
  run (revoke_user_access_tokens uid) w = (Ok u, w') ->
  users (db w') = update (fun u : UserRow => beq (u_id u) uid) bump_version (users (db w)).
Proof.
  intros Hrun. unfold revoke_user_access_tokens in Hrun. run_inv Hrun.
  match goal with Hx : (if _ then _ else _) = _ |- _ =>
    destruct (user_exists _ _) in Hx; [injection Hx as <- <-|done] end.
  done.
Qed.

Lemma revoke_user_exists uid u w w' :
  run (revoke_user_access_tokens uid) w = (Ok u, w') -> user_exists uid (db w') = true.
Proof.
  intros Hrun. unfold revoke_user_access_tokens in Hrun. run_inv Hrun.
  match goal with Hx : (if ?b then _ else _) = _ |- _ =>
    destruct b eqn:Hu; [injection Hx as <- <-|done] end.
  exact Hu.
Qed.

Lemma stale_session_invalid uid d0 d t v :
  versions_nonneg d0 ->
  versions_grow uid (with_users (update (fun u : UserRow => beq (u_id u) uid) bump_version) d0) d ->
  issued_by uid d0 v -> session_valid uid t v d = false.
Proof.
  intros Hnn Hg Hi. unfold session_valid, active_version.
  destruct (fetch _ (users d)) as [u|] eqn:Ef; simpl; [|done].
  apply fetch_Some in Ef as [Hu Hp]. bool_hyp.
  destruct (Hg u Hu) as (u1 & Hu1 & He1 & Hv1); [done|]. simpl in Hu1.
  apply elem_of_update in Hu1 as (u0 & Hu0 & ->).
  assert (Hid : u_id u0 = uid) by (destruct (beq (u_id u0) uid) eqn:Eb; bool_hyp; done).
  rewrite Hid, beq_refl in Hv1. simpl in Hv1.
  specialize (Hnn u0 Hu0). destruct v as [v|].
  - specialize (Hi v eq_refl u0 Hu0 Hid). apply Z.eqb_neq. lia.
  - apply andb_false_iff. left. apply Z.eqb_neq. lia.
Qed.

(** C1: an access token is accepted only when the JWT library accepts it
    under the server's key, issuer and audience, it is of type "access", the
    clock has reached neither its expiry nor its session's deadline, and the
    session it names is valid in the database: the user is active and the
    generation current.  The roles returned are the user's current roles,
    whatever the token says, and the check leaves the database alone. *)
Theorem verify_access_token_sound `{!JwtLaws Claims} token key c w w' :
  run (verify_access_token token key) w = (Ok c, w') ->
  db w' = db w /\
  typ c = "access"%string /\ iss c = TOKEN_ISSUER /\ aud c = TOKEN_AUDIENCE /\
  clock (S (tick w)) < exp c /\
  (forall e, session_exp c = Some e -> clock (S (S (tick w))) < e) /\
  exists uid c0,
    jwt_decode (verifying_key key) token_validation (clock (tick w)) token = Some c0 /\
    c = set_claim_roles (map ro_name (roles_of uid (db w))) c0 /\
    uuid_parse (sub c) = Some uid /\
    session_valid uid (iat c) (session_version c) (db w) = true.
Proof.
  intros Hrun.
  apply verify_access_token_ok in Hrun as (Hdb & c0 & uid & Hd & Ht & He & Hse & Hu & Hs & ->).
  split; [done|]. pose proof (jwt_decode_validates _ _ _ _ _ Hd) as Hv.
  unfold validates in Hv. simpl in *. bool_hyp.
  split; [done|]. split; [by destruct (beq (iss c0) _) eqn:Eb; bool_hyp|].
  split; [by destruct (beq (aud c0) _) eqn:Eb; bool_hyp|].
  split; [done|]. split; [done|]. by exists uid, c0.
Qed.

(** A revocation, where no later step lowers the user's session generation: no
    credential issued before it is accepted again. *)
Lemma revoked_for_good uid w0 w1 w2 :
  run (revoke_user_access_tokens uid) w0 = (Ok tt, w1) ->
  versions_nonneg (db w0) ->
  versions_grow uid (db w1) (db w2) ->
  (forall t v, issued_by uid (db w0) v -> session_valid uid t v (db w2) = false) /\
  forall token key,
    (forall n c, jwt_decode (verifying_key key) token_validation n token = Some c ->
       uuid_parse (sub c) = Some uid /\ issued_by uid (db w0) (session_version c)) ->
    is_ok (run (verify_access_token token key) w2).1 = false /\
    is_ok (run (consume_refresh_token token key) w2).1 = false.
Proof.
  intros Hr Hnn Hg. apply revoke_user_access_tokens_ok in Hr.
  assert (Hdead : forall t v, issued_by uid (db w0) v -> session_valid uid t v (db w2) = false).
  { intros t v Hi. eapply stale_session_invalid; [done| |done].
    intros u Hu He. destruct (Hg u Hu He) as (u1 & Hu1 & H1).
    simpl in Hu1. rewrite Hr in Hu1. exists u1. by split. }
  split; [done|]. intros token key Htok. split.
  - destruct (run (verify_access_token token key) w2) as [[c|e] w'] eqn:Ev; [|done].
    apply verify_access_token_ok in Ev as (_ & c0 & uid' & Hd & _ & _ & _ & Hu & Hv & _).
    destruct (Htok _ _ Hd) as [Hu' Hi]. rewrite Hu in Hu'. injection Hu' as ->.
    by rewrite Hdead in Hv.
  - destruct (run (consume_refresh_token token key) w2) as [[c|e] w'] eqn:Ev; [|done].
    apply consume_refresh_token_ok in Ev as (c0 & t & Hd & _ & Hu & Hv & _).
    destruct (Htok _ _ Hd) as [Hu' Hi]. rewrite Hu in Hu'. injection Hu' as Hu'.
    rewrite Hu' in *. by rewrite Hdead in Hv.
Qed.

(** *** Refreshing *)

Lemma access_claims_decode `{!JwtLaws Claims} key c t n c' :
  sign_claims c key = Ok t ->
  jwt_decode (verifying_key key) token_validation n t = Some c' -> c' = c.
Proof.
  intros Hs Hd. apply sign_claims_ok in Hs as (der & Hder & Henc).
  exact (jwt_decode_encoded _ _ _ _ _ _ _ _ Hder Henc Hd).
Qed.

(** The absolute deadline a refresh token's session has. *)
Definition deadline (c : Claims) : Z := Z.min (unwrap_or (session_exp c) (exp c)) (exp c).

(** The rows a refresh leaves: the presented token's row revoked at [t], the
    new token's row appended. *)
Definition rotated_rows (hash : string) (t : Z) (id uid : Uuid) (hash' : string) (D t2 : Z)
    (rows : list RefreshTokenRecord) : list RefreshTokenRecord :=
  (update (live_token hash t) (set_revoked_at t) rows ++ [{|
     rt_id := id; rt_user_id := uid; rt_token_hash := hash'; rt_expires_at := D;
     rt_created_at := t2; rt_revoked_at := None; rt_browser_retry_until := None;
     rt_browser_retry_pair := None |}])%list.

Lemma rotate_token_pair_db token key p w w' :
  run (rotate_token_pair token key) w = (Ok p, w') ->
  exists c uid cv t1 t2 j1 j2 t id,
    jwt_decode (verifying_key key) token_validation (clock (tick w)) token = Some c /\
    typ c = "refresh"%string /\ uuid_parse (sub c) = Some uid /\
    session_valid uid (iat c) (session_version c) (db w) = true /\
    active_version uid (db w) = Some cv /\
    sign_claims (access_claims uid (map ro_name (roles_of uid (db w))) (deadline c) (Some cv)
                   (unwrap_or (auth_time c) (iat c)) t1 j1) key = Ok (access_token p) /\
    sign_claims (refresh_claims uid (deadline c) (Some cv)
                   (unwrap_or (auth_time c) (iat c)) t2 j2) key = Ok (refresh_token p) /\
    count (live_token (hash_token token) t) (refresh_tokens (db w)) = 1%nat /\
    refresh_tokens (db w') = rotated_rows (hash_token token) t id uid
      (hash_token (refresh_token p)) (deadline c) t2 (refresh_tokens (db w)) /\
    users (db w') = users (db w).
Proof.
  intros Hrun. unfold rotate_token_pair in Hrun.
  apply run_bindM_ok in Hrun as ([uid claims] & w1 & Hc & Hrun).
  apply consume_refresh_token_ok in Hc
    as (c0 & t & Hd & Ht & Hu & Hs & (cv & Hcv & Hsv) & Hct & Hdb).
  cbn [fst snd] in *. subst claims.
  apply run_bindM_ok in Hrun as (o & w2 & Hg & Hrun).
  apply run_User_get_ok in Hg as (_ & -> & ->).
  apply run_bindM_ok in Hrun as (u & w3 & Hr & Hrun).
  apply run_require_ok in Hr as [Hu' <-].
  apply run_bindM_ok in Hrun as (rs & w4 & Hr & Hrun).
  apply run_get_roles_ok in Hr as (_ & -> & ->).
  destruct (fetch _ _) as [row|] eqn:Ef; [|done]. injection Hu' as <-.
  apply fetch_Some in Ef as [_ Ef]. bool_hyp. cbn [db bump] in *. rewrite Ef, Hdb in Hrun.
  apply generate_token_pair_for_session_ok in Hrun
    as (t0 & t1 & t2 & j1 & j2 & id & _ & Ha & Hr & _ & _ & _ & Hdb').
  exists c0, uid, cv, t1, t2, j1, j2, t, id.
  do 8 (split; [done|]). cbn [db bump] in Hdb'. by rewrite Hdb', Hdb.
Qed.

Lemma rotate_token_pair_ok token key p w w' :
  run (rotate_token_pair token key) w = (Ok p, w') ->
  exists c uid cv t1 t2 j1 j2,
    jwt_decode (verifying_key key) token_validation (clock (tick w)) token = Some c /\
    typ c = "refresh"%string /\ uuid_parse (sub c) = Some uid /\
    session_valid uid (iat c) (session_version c) (db w) = true /\
    active_version uid (db w) = Some cv /\
    sign_claims (access_claims uid (map ro_name (roles_of uid (db w))) (deadline c) (Some cv)
                   (unwrap_or (auth_time c) (iat c)) t1 j1) key = Ok (access_token p) /\
    sign_claims (refresh_claims uid (deadline c) (Some cv)
                   (unwrap_or (auth_time c) (iat c)) t2 j2) key = Ok (refresh_token p).
Proof.
  intros Hrun. apply rotate_token_pair_db in Hrun
    as (c & uid & cv & t1 & t2 & j1 & j2 & t & id & H1 & H2 & H3 & H4 & H5 & H6 & H7 & _).
  exists c, uid, cv, t1, t2, j1, j2. by repeat (split; [done|]).
Qed.

(** Refreshing never extends a session.  The new pair belongs to the same
    user and the current generation; both tokens keep the deadline fixed at
    login and the time of the original authentication, the access token lives
    at most fifteen minutes and never past the deadline, and its roles are
    the user's current ones. *)
Theorem rotation_keeps_session `{!JwtLaws Claims, !UuidLaws} token key p w w' :
  run (rotate_token_pair token key) w = (Ok p, w') ->
  exists c uid cv,
    jwt_decode (verifying_key key) token_validation (clock (tick w)) token = Some c /\
    uuid_parse (sub c) = Some uid /\ active_version uid (db w) = Some cv /\
    (session_version c = None \/ session_version c = Some cv) /\
    (forall n a, jwt_decode (verifying_key key) token_validation n (access_token p) = Some a ->
       uuid_parse (sub a) = Some uid /\ typ a = "access"%string /\
       session_exp a = Some (deadline c) /\
       exp a = Z.min (iat a + ACCESS_TOKEN_LIFETIME) (deadline c) /\
       session_version a = Some cv /\ auth_time a = Some (unwrap_or (auth_time c) (iat c)) /\
       claim_roles a = map ro_name (roles_of uid (db w))) /\
    (forall n r, jwt_decode (verifying_key key) token_validation n (refresh_token p) = Some r ->
       uuid_parse (sub r) = Some uid /\ typ r = "refresh"%string /\
       session_exp r = Some (deadline c) /\ exp r = deadline c /\
       session_version r = Some cv /\ auth_time r = Some (unwrap_or (auth_time c) (iat c))).
Proof.
  intros Hrun. apply rotate_token_pair_ok in Hrun
    as (c & uid & cv & t1 & t2 & j1 & j2 & Hd & _ & Hu & Hs & Hcv & Ha & Hr).
  exists c, uid, cv. split; [done|]. split; [done|]. split; [done|]. split.
  { unfold session_valid in Hs. rewrite Hcv in Hs.
    destruct (session_version c); [|by left]. bool_hyp. right. by f_equal. }
  split; intros n a Hda;
    [rewrite (access_claims_decode _ _ _ _ _ Ha Hda)|rewrite (access_claims_decode _ _ _ _ _ Hr Hda)];
    simpl; by rewrite uuid_parse_to_string.
Qed.

(** One refresh in some world: the refresh token it replaces, the one it
    issues. *)
Definition refreshed_to (key : SigningKey) (t t' : string) : Prop :=
  exists w w' p, run (rotate_token_pair t key) w = (Ok p, w') /\ refresh_token p = t'.

Lemma refreshed_decodes key t t' n c' :
  star (refreshed_to key) t t' ->
  jwt_decode (verifying_key key) token_validation n t' = Some c' ->
  exists m c, jwt_decode (verifying_key key) token_validation m t = Some c.
Proof.
  intros Hs Hd. destruct Hs as [t|t t1 t' (w & w' & p & Hrun & _) _]; [eauto|].
  apply rotate_token_pair_ok in Hrun as (c & ? & ? & ? & ? & ? & ? & Hd' & _). eauto.
Qed.

(** C27: however many times a session is refreshed, in whatever states of the
    server, its last refresh token expires no later than its first, belongs
    to the same user, and reports the same authentication. *)
Theorem session_deadline_is_absolute `{!JwtLaws Claims, !UuidLaws} key t t' n n' c c' :
  star (refreshed_to key) t t' ->
  jwt_decode (verifying_key key) token_validation n t = Some c ->
  jwt_decode (verifying_key key) token_validation n' t' = Some c' ->
  exp c' <= exp c /\ uuid_parse (sub c') = uuid_parse (sub c) /\
  unwrap_or (auth_time c') (iat c') = unwrap_or (auth_time c) (iat c).
Proof.
  intros Hs. revert n c. induction Hs as [t|t t1 t' Hstep Hs IH]; intros n c Hc Hc'.
  { rewrite (jwt_decode_fun _ _ _ _ _ _ _ _ Hc Hc'). done. }
  destruct (refreshed_decodes _ _ _ _ _ Hs Hc') as (m & c1 & Hc1).
  destruct (IH m c1 Hc1 Hc') as (H1 & H2 & H3).
  destruct Hstep as (w & w' & p & Hrun & <-).
  apply rotate_token_pair_ok in Hrun
    as (c2 & uid & cv & t1 & t2 & j1 & j2 & Hd & _ & Hu & _ & _ & _ & Hr).
  assert (c2 = c) as -> by exact (jwt_decode_fun _ _ _ _ _ _ _ _ Hd Hc).
  rewrite (access_claims_decode _ _ _ _ _ Hr Hc1) in *.
  simpl in *. rewrite uuid_parse_to_string in H2. unfold deadline in H1.
  split; [lia|]. split; [by rewrite H2, Hu|done].
Qed.

(** *** A refresh token is good for one refresh *)

Definition unspent (hash : string) (r : RefreshTokenRecord) : bool :=
  beq (rt_token_hash r) hash && is_none (rt_revoked_at r).
Definition unspent_rows (hash : string) (d : Db) : nat :=
  count (unspent hash) (refresh_tokens d).

Lemma fewer_same hash d d' :
  refresh_tokens d' = refresh_tokens d -> fewer (unspent_rows hash) d d'.
Proof. unfold fewer, unspent_rows. intros ->. done. Qed.

Lemma unspent_revoke hash p t d :
  fewer (unspent_rows hash) d (with_refresh_tokens (update p (set_revoked_at t)) d).
Proof.
  unfold fewer, unspent_rows. simpl. apply count_update_le. intros r _ _.
  unfold unspent. simpl. by rewrite andb_false_r.
Qed.

Lemma unspent_consume hash t d :
  (unspent_rows hash (with_refresh_tokens (update (live_token hash t) (set_revoked_at t)) d)
   + count (live_token hash t) (refresh_tokens d) <= unspent_rows hash d)%nat.
Proof.
  unfold unspent_rows. simpl. rewrite count_update_spend; [done|].
  intros r Hr. unfold live_token, unspent in *. simpl. bool_hyp.
  split; [|by rewrite andb_false_r]. subst. by rewrite beq_refl.
Qed.

Ltac fewer_tac := respects_walk; try (apply fewer_same; reflexivity); try apply unspent_revoke.

Lemma consume_spends token key :
  spends (fun w => unspent_rows (hash_token token) (db w)) is_ok 0 (consume_refresh_token token key).
Proof.
  unfold consume_refresh_token.
  apply spends_bindM; [done|unfold decode_claims; fewer_tac|intros c].
  apply spends_bindM; [done|fewer_tac|intros _].
  apply spends_bindM; [done|fewer_tac|intros uid].
  apply spends_bindM; [done|unfold user_session_version; fewer_tac|intros cv].
  apply spends_bindM; [done|unfold verify_user_session, user_session_version; fewer_tac|intros _].
  apply spends_bind; [fewer_tac|intros t].
  apply spends_exec; [done|]. intros d. exists (count (live_token (hash_token token) t) (refresh_tokens d)).
  split; [apply unspent_consume|]. cbn [fst]. destruct (beq _ 1%nat) eqn:Hn; bool_hyp.
  - rewrite Hn. simpl. lia.
  - apply spends_bindM; [done|fewer_tac|intros o].
    apply spends_bind; [|intros _; by apply spends_throw].
    unfold revoke_all_user_tokens, revoke_user_access_tokens. fewer_tac.
Qed.

(** C11: a refresh token is good for one refresh.  However any number of
    concurrent requests to consume the same token interleave, with each other
    and with requests that do not issue that token anew, the number that
    succeed is at most the number of unspent rows the token had: one. *)
Theorem refresh_token_single_use token key n others sched w :
  Forall (bystander (unspent_rows (hash_token token)) is_ok) others ->
  let s := pool_run sched ((others ++ repeat (consume_refresh_token token key) n)%list, w) in
  (wins is_ok s.1 + unspent_rows (hash_token token) (db s.2)
   <= unspent_rows (hash_token token) (db w))%nat.
Proof. apply pool_single_use, consume_spends. Qed.

(** *** A fresh login works *)

Lemma token_validates c n :
  iss c = TOKEN_ISSUER -> aud c = TOKEN_AUDIENCE -> n <= exp c -> validates token_validation n c = true.
Proof.
  intros Hi Ha Hn. unfold validates. cbn [v_required v_leeway v_validate_exp v_validate_aud v_iss
    v_aud token_validation reg_iss reg_aud reg_exp Claims_registered].
  rewrite Hi, Ha. replace (n - 0 <=? exp c) with true by (symmetry; apply Z.leb_le; lia). done.
Qed.

(** A pair issued to a user at a moment that has [passed], in the session
    generation and with the session length that [d] holds, and the row that
    stands for its refresh token. *)
Definition issued_pair (passed : Z -> Prop) (uid : Uuid) (roles : list string) (key : SigningKey) (d : Db)
    (p : TokenPair) (row : RefreshTokenRecord) : Prop :=
  exists cv t a t1 t2 j1 j2 id,
    active_version uid d = Some cv /\ passed t /\ passed a /\ passed t1 /\ passed t2 /\
    let D := t + session_expiry_of (setting KEY_SESSION_EXPIRY_SECONDS d) in
    sign_claims (access_claims uid roles D (Some cv) a t1 j1) key = Ok (access_token p) /\
    sign_claims (refresh_claims uid D (Some cv) a t2 j2) key = Ok (refresh_token p) /\
    row = {| rt_id := id; rt_user_id := uid; rt_token_hash := hash_token (refresh_token p);
             rt_expires_at := D; rt_created_at := t2; rt_revoked_at := None;
             rt_browser_retry_until := None; rt_browser_retry_pair := None |}.

Lemma issued_pair_mono (P Q : Z -> Prop) uid roles key d p row :
  (forall t, P t -> Q t) -> issued_pair P uid roles key d p row -> issued_pair Q uid roles key d p row.
Proof.
  intros HPQ (cv & t & a & t1 & t2 & j1 & j2 & id & Hv & ? & ? & ? & ? & H).
  exists cv, t, a, t1, t2, j1, j2, id. do 5 (split; [by auto|]). exact H.
Qed.

(** What issuing a pair does, step by step. *)
Lemma generate_token_pair_steps uid roles key p w w' :
  run (generate_token_pair uid roles key) w = (Ok p, w') ->
  exists cv a t1 t2 j1 j2 id,
    active_version uid (db w) = Some cv /\
    (during w w' (clock (tick w)) /\ during w w' a /\ during w w' t1 /\ during w w' t2) /\
    (MonotoneClock E -> clock (tick w) <= t1) /\
    let D := clock (tick w) + session_expiry_of (setting KEY_SESSION_EXPIRY_SECONDS (db w)) in
    sign_claims (access_claims uid roles D (Some cv) a t1 j1) key = Ok (access_token p) /\
    sign_claims (refresh_claims uid D (Some cv) a t2 j2) key = Ok (refresh_token p) /\
    db w' = with_refresh_tokens (fun rows => rows ++ [{|
      rt_id := id; rt_user_id := uid; rt_token_hash := hash_token (refresh_token p);
      rt_expires_at := D; rt_created_at := t2; rt_revoked_at := None;
      rt_browser_retry_until := None; rt_browser_retry_pair := None |}])%list (db w).
Proof.
  intros Hrun. unfold generate_token_pair in Hrun.
  apply run_bind_eq in Hrun as (t & w1 & Hr & Hrun). apply run_now in Hr as [-> ->].
  apply run_bindM_ok in Hrun as (l & w1 & Hr & Hrun).
  apply run_session_expiry_ok in Hr as (_ & -> & ->).
  apply run_bindM_ok in Hrun as (cv & w1 & Hr & Hrun).
  apply run_user_session_version_ok in Hr as (_ & Hcv & ->).
  apply run_bind_eq in Hrun as (t & w1 & Hr & Hrun). apply run_now in Hr as [-> ->].
  unfold generate_token_pair_for_session in Hrun.
  apply run_bind_eq in Hrun as (t & w1 & Hr & Hrun). apply run_now in Hr as [-> ->].
  apply run_bindM_ok in Hrun as (? & w1 & Hr & Hrun). run_inv Hr.
  apply run_bindM_ok in Hrun as (acc & w1 & Hacc & Hrun).
  unfold generate_access_token_for_session in Hacc. run_inv Hacc.
  apply run_bindM_ok in Hrun as (ref & w2 & Href & Hrun). run_inv Hrun.
  unfold generate_refresh_token_for_session in Href. run_inv Href.
  match goal with Hx : insert_checked _ _ _ _ = Ok (?u, _) |- _ => destruct u; apply insert_checked_ok in Hx as (_ & _ & ->) end.
  subst. do 7 eexists. split; [exact Hcv|]. split; [|split; [|split; [eassumption|split; [eassumption|reflexivity]]]].
  - unfold during. cbn. repeat split; eexists; (split; [|reflexivity]); lia.
  - intros Hm. apply (clock_mono (MonotoneClock := Hm)). simpl. lia.
Qed.

Lemma generate_token_pair_ok uid roles key p w w' :
  run (generate_token_pair uid roles key) w = (Ok p, w') ->
  exists row, issued_pair (during w w') uid roles key (db w) p row /\
    db w' = with_refresh_tokens (fun rows => rows ++ [row])%list (db w).
Proof.
  intros Hrun. apply generate_token_pair_steps in Hrun
    as (cv & a & t1 & t2 & j1 & j2 & id & Hcv & (? & ? & ? & ?) & _ & Ha & Hr & Hdb).
  eexists. split; [|exact Hdb]. exists cv, (clock (tick w)), a, t1, t2, j1, j2, id. by repeat (split; [done|]).
Qed.

(** The access token a login issues is accepted, with the user's current
    roles, for its whole life: until the fifteen minutes or the configured
    session length are over, as long as the user's sessions are not revoked
    and the user stays active. *)
Theorem issued_token_verifies `{!JwtLaws Claims, !UuidLaws, !Calm E, !MonotoneClock E}
    uid roles key p w w1 w2 :
  run (generate_token_pair uid roles key) w = (Ok p, w1) ->
  active_version uid (db w2) = active_version uid (db w) ->
  clock (S (S (tick w2))) < clock (tick w)
    + Z.min ACCESS_TOKEN_LIFETIME (session_expiry_of (setting KEY_SESSION_EXPIRY_SECONDS (db w))) ->
  exists c w3,
    run (verify_access_token (access_token p) key) w2 = (Ok c, w3) /\ db w3 = db w2 /\
    uuid_parse (sub c) = Some uid /\ claim_roles c = map ro_name (roles_of uid (db w2)) /\
    session_version c = active_version uid (db w) /\
    session_exp c = Some (clock (tick w) + session_expiry_of (setting KEY_SESSION_EXPIRY_SECONDS (db w))).
Proof.
  intros Hrun Hv Ht.
  apply generate_token_pair_steps in Hrun as (cv & a & t1 & t2 & j1 & j2 & id & Hcv & _ & Hm & Ha & _).
  specialize (Hm _). apply sign_claims_ok in Ha as (der & Hder & Henc).
  set (c0 := access_claims _ _ _ _ _ _ _) in Henc.
  assert (He : clock (S (S (tick w2))) < exp c0) by (simpl; lia).
  pose proof (clock_mono (tick w2) (S (S (tick w2))) ltac:(lia)) as Hm2.
  destruct (verify_access_token_complete (access_token p) key c0 uid w2 (clock (S (S (tick w2)))))
    as (w3 & Hr & Hdb); try done.
  - apply (jwt_decode_encode _ _ _ _ _ _ _ Hder Henc). apply token_validates; [done|done|lia].
  - intros e [= <-]. lia.
  - apply uuid_parse_to_string.
  - unfold session_valid. rewrite Hv, Hcv. simpl. apply Z.eqb_refl.
  - do 2 eexists. split; [exact Hr|]. split; [done|]. split; [apply uuid_parse_to_string|]. by rewrite Hcv.
Qed.

(** *** Replay *)

Lemma run_revoke_all `{!Calm E} uid w :
  user_exists uid (db w) = true ->
  exists t w', run (revoke_all_user_tokens uid) w = (Ok tt, w') /\
    refresh_tokens (db w') =
      update (fun r => beq (rt_user_id r) uid && is_none (rt_revoked_at r)) (set_revoked_at t)
             (refresh_tokens (db w)) /\
    users (db w') = update (fun u : UserRow => beq (u_id u) uid) bump_version (users (db w)).
Proof.
  intros Hu. unfold revoke_all_user_tokens, revoke_user_access_tokens. run_calm.
  cbn [stmt run]. rewrite calm. cbn [db bump set_db].
  assert (user_exists uid (with_users (update (fun u : UserRow => beq (u_id u) uid) bump_version)
            (with_refresh_tokens (update (fun r => beq (rt_user_id r) uid && is_none (rt_revoked_at r))
               (set_revoked_at (clock (tick w)))) (db w))) = true) as ->.
  { unfold user_exists in *. simpl. apply existsb_exists in Hu as (u & Hin & Hb). bool_hyp.
    apply existsb_exists. exists (bump_version u). split; [|simpl; by apply beq_eq].
    apply list_elem_of_In, elem_of_update. exists u. split; [by apply list_elem_of_In|].
    by rewrite Hb, beq_refl. }
  do 2 eexists. split; [reflexivity|]. done.
Qed.

(** The outcome of presenting a refresh token that was already spent. *)
Definition replay_detected (uid : Uuid) (d d' : Db) : Prop :=
  (forall r, r ∈ refresh_tokens d' -> rt_user_id r = uid -> is_some (rt_revoked_at r) = true) /\
  users d' = update (fun u : UserRow => beq (u_id u) uid) bump_version (users d).

Lemma consume_replayed `{!Calm E} token key c uid row w :
  jwt_decode (verifying_key key) token_validation (clock (tick w)) token = Some c ->
  typ c = "refresh"%string -> uuid_parse (sub c) = Some uid ->
  session_valid uid (iat c) (session_version c) (db w) = true ->
  unspent_rows (hash_token token) (db w) = 0%nat ->
  fetch (fun r => beq (rt_token_hash r) (hash_token token)) (refresh_tokens (db w)) = Some row ->
  user_exists (rt_user_id row) (db w) = true ->
  exists w', run (consume_refresh_token token key) w = (Err AuthenticationRequired, w') /\
    replay_detected (rt_user_id row) (db w) (db w').
Proof.
  intros Hd Ht Hu Hs Hspent Hrow Hex.
  unfold consume_refresh_token, decode_claims, user_session_version. run_calm. rewrite Hd.
  run_calm. rewrite Ht. change (beq "refresh"%string "refresh"%string) with true. run_calm.
  rewrite Hu. run_calm.
  destruct (active_version uid (db w)) as [cv|] eqn:Hcv;
    [|unfold session_valid in Hs; by rewrite Hcv in Hs].
  run_calm.
  destruct (run_verify_user_session uid (iat c) (session_version c) (bump (bump w)))
    as (w2 & Hr & Hdb & _).
  cbn [db bump] in Hr, Hdb. rewrite Hs in Hr.
  change (set_db (db w) (bump (bump w))) with (bump (bump w)). rewrite Hr. cbn [fst snd]. run_calm.
  rewrite Hdb.
  assert (Hlive : forall r, r ∈ refresh_tokens (db w) ->
            live_token (hash_token token) (clock (tick w2)) r = false).
  { intros r Hr'. pose proof (proj1 (count_zero _ _) Hspent r Hr') as Hz.
    unfold unspent, live_token in *. by rewrite Hz. }
  rewrite (proj2 (count_zero _ _) Hlive). change (beq 0%nat 1%nat) with false. run_calm.
  unfold with_refresh_tokens at 1. cbn [refresh_tokens]. rewrite (update_id _ _ _ Hlive), Hrow.
  match goal with |- context [run (revoke_all_user_tokens _) ?x] => set (w4 := x) end.
  destruct (run_revoke_all (rt_user_id row) w4) as (t & w5 & Hr5 & Hrt & Hus).
  { exact Hex. }
  rewrite Hr5. cbn [fst snd run throw]. eexists. split; [reflexivity|]. split; [|exact Hus].
  rewrite Hrt. intros r Hr' Ho. apply elem_of_update in Hr' as (r0 & _ & ->).
  destruct (beq (rt_user_id r0) _) eqn:Eb, (is_none (rt_revoked_at r0)) eqn:En; simpl in *;
    bool_hyp; try done; unfold is_none in En; by apply negb_false_iff in En.
Qed.

(** C25: presenting a refresh token that was already spent is answered as
    unauthenticated and treated as theft: afterwards none of its owner's
    refresh tokens is usable and the owner's session generation has moved on.
    The browser endpoint, outside its retry window, answers the same way and
    commits that revocation although the refresh failed. *)
Theorem refresh_replay_revokes `{!JwtLaws Claims, !Calm E, !MonotoneClock E} token key c uid row w :
  sign_claims c key = Ok token -> typ c = "refresh"%string ->
  iss c = TOKEN_ISSUER -> aud c = TOKEN_AUDIENCE ->
  clock (tick w + 3) <= exp c -> uuid_parse (sub c) = Some uid ->
  session_valid uid (iat c) (session_version c) (db w) = true ->
  unspent_rows (hash_token token) (db w) = 0%nat ->
  fetch (fun r => beq (rt_token_hash r) (hash_token token)) (refresh_tokens (db w)) = Some row ->
  user_exists (rt_user_id row) (db w) = true ->
  (exists w', run (rotate_token_pair token key) w = (Err AuthenticationRequired, w') /\
     replay_detected (rt_user_id row) (db w) (db w')) /\
  ((forall r until, r ∈ refresh_tokens (db w) -> rt_token_hash r = hash_token token ->
      rt_browser_retry_until r = Some until -> until <= clock (tick w)) ->
   exists w', run (rotate_browser_token_pair token key) w = (Err AuthenticationRequired, w') /\
     replay_detected (rt_user_id row) (db w) (db w')).
Proof.
  intros Hsign Ht Hi Ha Hexp Hu Hs Hsp Hrow Hex.
  assert (Hd : forall i, (i <= tick w + 3)%nat ->
            jwt_decode (verifying_key key) token_validation (clock i) token = Some c).
  { intros i Hle. apply sign_claims_ok in Hsign as (der & Hder & Henc).
    apply (jwt_decode_encode _ _ _ _ _ _ _ Hder Henc). apply token_validates; [done|done|].
    pose proof (clock_mono i (tick w + 3)%nat Hle). lia. }
  split.
  - destruct (consume_replayed token key c uid row w) as (w' & Hr & Hdet); try done.
    { apply Hd. lia. }
    exists w'. split; [|done]. unfold rotate_token_pair. rewrite run_bindM, Hr. done.
  - intros Huntil. unfold rotate_browser_token_pair. rewrite run_atomic_tx. run_calm.
    set (o := fetch _ (refresh_tokens (db w))).
    assert (retry_of (clock (S (tick w))) o = None) as ->.
    { destruct o as [r|] eqn:Eo; [|done]. apply fetch_Some in Eo as [Hin Hp]. bool_hyp.
      unfold retry_of. destruct (rt_browser_retry_until r) as [until|] eqn:Eu; [|done].
      destruct (rt_browser_retry_pair r); [|done].
      specialize (Huntil r until Hin ltac:(done) Eu).
      pose proof (clock_mono (tick w) (S (tick w)) ltac:(lia)).
      destruct (_ <? until) eqn:El; [bool_hyp; lia|done]. }
    run_calm.
    match goal with |- context [run (rotate_token_pair token key) ?x] => set (w2 := x) end.
    assert (Hw2 : db w2 = db w) by done. assert (Ht2 : tick w2 = (tick w + 3)%nat) by (simpl; lia).
    clearbody w2.
    destruct (consume_replayed token key c uid row w2) as (w' & Hr & Hdet);
      rewrite ?Hw2; try done.
    { apply Hd. lia. }
    assert (Hrot : run (rotate_token_pair token key) w2 = (Err AuthenticationRequired, w'))
      by (unfold rotate_token_pair; by rewrite run_bindM, Hr).
    rewrite !Hrot. run_calm. rewrite Hw2 in Hdet. eauto.
Qed.
End Sessions.
