(* ===== verification/BrowserRetry.v ===== *)
(** * Concurrent browser refreshes get the same answer

    [rotate_browser_token_pair] keeps, for five seconds, the encrypted pair it
    answered with, so that a second tab presenting the same cookie is given
    the pair the first one got instead of being taken for a thief. *)

From S2P Require Import Prelude RStr RateLimit Schema Sys External Users Net Settings Token TokenFacts Sessions.
Local Open Scope Z_scope.

(** [fill_bytes] fills its buffer. *)
Class EntropyLength (E : Env) : Prop := entropy_length i n : String.length (entropy i n) = n.

#[export] Instance calm_env_entropy t : EntropyLength (calm_env t).
Proof.
  intros i n. simpl. induction n as [|[|n] IH]; [done|done|].
  change (String.concat "" (repeat "r"%string (S (S n))))
    with (String "r" (String.concat "" (repeat "r"%string (S n)))).
  cbn [String.length]. by rewrite IH.
Qed.

Section Retry.
Context {E : Env} {HA : Hashing} {ED : Ed25519} {JC : JwtCodec Claims} {UL : UuidLib} {AE : Aead}
        {SJ : SerdeJson TokenPair}.

Lemma encrypt_browser_retry_ok `{!AeadLaws, !SerdeJsonLaws TokenPair, !EntropyLength E} p key enc w w' :
  run (encrypt_browser_retry p key) w = (Ok enc, w') ->
  decrypt_browser_retry enc key = Ok p /\ db w' = db w.
Proof.
  intros Hrun. unfold encrypt_browser_retry in Hrun. run_inv Hrun. split; [|done].
  match goal with Hx : map_err _ _ = Ok _ |- _ => apply map_err_Ok in Hx; rename Hx into Hvec end.
  match goal with Hx : aes_encrypt _ _ _ = Some _ |- _ => rename Hx into Henc end.
  set (nonce := entropy _ 12) in *.
  assert (Hn : String.length nonce = 12%nat) by apply entropy_length.
  unfold decrypt_browser_retry. rewrite length_app_s, Hn.
  replace (12 + _ <? 12)%nat with false by (symmetry; apply Nat.ltb_ge; lia).
  rewrite <- Hn at 1 2. rewrite take_bytes_length_app, drop_bytes_length_app.
  erewrite aes_decrypt_encrypt by eassumption. by erewrite from_slice_to_vec by eassumption.
Qed.

(** The rows after a browser refresh at [t]. *)
Definition retry_rows (hash : string) (t : Z) (enc : string) (rows : list RefreshTokenRecord)
    : list RefreshTokenRecord :=
  update (fun r => sql_le (rt_browser_retry_until r) t && is_some (rt_browser_retry_pair r))
    clear_retry_pair
    (update (fun r => beq (rt_token_hash r) hash) (set_retry (Some (t + 5)) (Some enc)) rows).

Lemma retry_rows_elem hash t enc rows r :
  r ∈ retry_rows hash t enc rows ->
  exists r0, r0 ∈ rows /\ rt_token_hash r = rt_token_hash r0 /\
    rt_revoked_at r = rt_revoked_at r0 /\ rt_expires_at r = rt_expires_at r0 /\
    (rt_token_hash r0 = hash ->
     rt_browser_retry_until r = Some (t + 5) /\ rt_browser_retry_pair r = Some enc).
Proof.
  intros Hr. apply elem_of_update in Hr as (r1 & Hr1 & ->).
  apply elem_of_update in Hr1 as (r0 & Hr0 & ->). exists r0. split; [done|].
  destruct (beq (rt_token_hash r0) hash) eqn:Eb; bool_hyp.
  - simpl. replace (t + 5 <=? t) with false by (symmetry; apply Z.leb_gt; lia). done.
  - destruct (_ && _); simpl; by repeat (split; [done|]).
Qed.

Lemma retry_rows_in hash t enc rows r0 :
  r0 ∈ rows -> exists r, r ∈ retry_rows hash t enc rows /\ rt_token_hash r = rt_token_hash r0 /\
    rt_revoked_at r = rt_revoked_at r0 /\ rt_expires_at r = rt_expires_at r0.
Proof.
  intros Hr0. eexists. split.
  - apply elem_of_update. eexists. split; [|reflexivity].
    apply elem_of_update. eexists. split; [exact Hr0|reflexivity].
  - destruct (beq (rt_token_hash r0) hash); destruct (_ && _); done.
Qed.

(** The consumed token's row now answers with the stored pair. *)
Lemma fetch_spent_row hash t t' t2 enc id uid hash' D tc rows :
  count (live_token hash t') rows = 1%nat ->
  (forall r, r ∈ rows -> rt_token_hash r = hash -> t2 < rt_expires_at r) ->
  hash' <> hash -> t2 < t + 5 ->
  retry_of t2 (fetch (fun r => beq (rt_token_hash r) hash && is_some (rt_revoked_at r)
                               && (t2 <? rt_expires_at r))
                 (retry_rows hash t enc (rotated_rows hash t' id uid hash' D tc rows))) = Some enc.
Proof.
  intros Hc Hexp Hne Ht2. destruct (fetch _ _) as [r|] eqn:Ef.
  - apply fetch_Some in Ef as [Hin Hp]. bool_hyp.
    apply retry_rows_elem in Hin as (r0 & _ & Hh & _ & _ & Hret).
    destruct Hret as [Hu Hpair]; [congruence|]. unfold retry_of. rewrite Hu, Hpair.
    replace (t2 <? t + 5) with true by (symmetry; by apply Z.ltb_lt). done.
  - exfalso. assert (Hpos : (0 < count (live_token hash t') rows)%nat) by lia.
    apply count_pos in Hpos as (r0 & Hr0 & Hlive).
    pose proof Hlive as Hl. unfold live_token in Hl. bool_hyp.
    destruct (retry_rows_in hash t enc (rotated_rows hash t' id uid hash' D tc rows)
                (set_revoked_at t' r0)) as (r & Hr & Hh & Hrev & He).
    { apply elem_of_app. left. apply elem_of_update. exists r0. by rewrite Hlive. }
    pose proof (proj1 (fetch_None _ _) Ef r Hr) as Hno. cbv beta in Hno.
    rewrite Hh, Hrev, He in Hno. simpl in Hno.
    assert (Heq : rt_token_hash r0 = hash) by done.
    rewrite Heq, beq_refl in Hno. simpl in Hno. bool_hyp.
    specialize (Hexp r0 Hr0 Heq). lia.
Qed.

(** The replacement's row is found, unspent. *)
Lemma fetch_new_row hash t t' t2 enc id uid hash' D tc rows :
  (forall r, r ∈ rows -> rt_token_hash r <> hash') -> t2 < D ->
  exists r, fetch (fun r => beq (rt_token_hash r) hash' && (t2 <? rt_expires_at r))
    (retry_rows hash t enc (rotated_rows hash t' id uid hash' D tc rows)) = Some r /\
    rt_revoked_at r = None.
Proof.
  intros Hfresh HD. destruct (fetch _ _) as [r|] eqn:Ef.
  - exists r. split; [done|]. apply fetch_Some in Ef as [Hin Hp]. bool_hyp.
    apply retry_rows_elem in Hin as (r0 & Hin & Hh & Hrev & _ & _). rewrite Hrev.
    apply elem_of_app in Hin as [Hin|Hin].
    + exfalso. apply elem_of_update in Hin as (r1 & Hr1 & ->).
      apply (Hfresh r1 Hr1). destruct (live_token _ _ r1); simpl in *; congruence.
    + by apply list_elem_of_singleton in Hin as ->.
  - exfalso. edestruct (retry_rows_in hash t enc (rotated_rows hash t' id uid hash' D tc rows))
      as (r & Hr & Hh & Hrev & He).
    { apply elem_of_app. right. by apply list_elem_of_singleton. }
    pose proof (proj1 (fetch_None _ _) Ef r Hr) as Hno. cbv beta in Hno.
    rewrite Hh, He in Hno. simpl in Hno. rewrite beq_refl in Hno. simpl in Hno. bool_hyp. lia.
Qed.

(** A browser refresh that consumed its token. *)
Lemma rotate_browser_fresh_ok `{!Calm E, !AeadLaws, !SerdeJsonLaws TokenPair, !EntropyLength E}
    token key p w w' :
  run (rotate_browser_token_pair token key) w = (Ok p, w') ->
  (forall r, r ∈ refresh_tokens (db w) -> rt_token_hash r = hash_token token ->
     rt_revoked_at r = None) ->
  exists w1 w2 enc, run (rotate_token_pair token key) w1 = (Ok p, w2) /\ db w1 = db w /\
    decrypt_browser_retry enc key = Ok p /\ users (db w') = users (db w2) /\
    refresh_tokens (db w')
    = retry_rows (hash_token token) (clock (S (tick w))) enc (refresh_tokens (db w2)).
Proof.
  intros Hrun Hlive. unfold rotate_browser_token_pair in Hrun. rewrite run_atomic_tx in Hrun.
  rewrite run_bind, run_tx_bind, run_query in Hrun by apply calm.
  cbn [fst snd run now db bump tick] in Hrun.
  assert (fetch (fun r => beq (rt_token_hash r) (hash_token token) && is_some (rt_revoked_at r)
                   && (clock (S (tick w)) <? rt_expires_at r)) (refresh_tokens (db w)) = None) as Hnone.
  { apply fetch_None. intros r Hr. destruct (beq (rt_token_hash r) (hash_token token)) eqn:Eb; [|done].
    bool_hyp. by rewrite (Hlive r Hr). }
  rewrite Hnone in Hrun. cbn [retry_of] in Hrun. rewrite run_bind in Hrun.
  match type of Hrun with context [run (rotate_token_pair token key) ?x] => set (w1 := x) in * end.
  destruct (run (rotate_token_pair token key) w1) as [[p'|e] w2] eqn:Er; cbn [fst snd] in Hrun;
    [|destruct e; try rewrite run_commit_with in Hrun; done].
  rewrite run_tx_bind in Hrun.
  destruct (run (encrypt_browser_retry p' key) w2) as [[enc|e] w3] eqn:Ee; [|done].
  rewrite !run_tx_bind, !run_exec in Hrun by apply calm. rewrite run_tx_bind, run_exec in Hrun by apply calm.
  rewrite run_commit_with in Hrun. cbn [fst snd db bump set_db] in Hrun.
  injection Hrun as -> <-. apply encrypt_browser_retry_ok in Ee as [Hdec Hdb3].
  exists w1, w2, enc. split; [done|]. split; [done|]. split; [done|]. simpl.
  by rewrite Hdb3.
Qed.

Lemma active_version_users uid d d' : users d' = users d -> active_version uid d' = active_version uid d.
Proof. unfold active_version. by intros ->. Qed.

(** C26: a browser that presents the same refresh cookie again while nothing
    has happened to the sessions receives the identical token pair, and the
    retry writes nothing, so that no session is revoked: this is two tabs
    refreshing at once.  It needs that the retry is over within five seconds of
    the first, that neither the refresh tokens nor the users' session
    generations have changed in between, and that the presented token and the
    access token of the pair have not expired.  After another rotation a retry
    follows the chain to its newest pair instead, and after a logout it is
    refused: neither is claimed here. *)
Theorem browser_retry_identical
    `{!JwtLaws Claims, !UuidLaws, !AeadLaws, !SerdeJsonLaws TokenPair,
      !Calm E, !MonotoneClock E, !EntropyLength E} token key p w w1 w2 :
  run (rotate_browser_token_pair token key) w = (Ok p, w1) ->
  (forall r, r ∈ refresh_tokens (db w) -> rt_token_hash r = hash_token token ->
     rt_revoked_at r = None /\ clock (tick w2 + 10) < rt_expires_at r) ->
  (forall r, r ∈ refresh_tokens (db w) -> rt_token_hash r <> hash_token (refresh_token p)) ->
  refresh_tokens (db w2) = refresh_tokens (db w1) -> users (db w2) = users (db w1) ->
  clock (tick w2 + 10) < clock (S (tick w)) + 5 ->
  (exists a der, to_pkcs8_der key = Ok der /\ jwt_encode None a der = Ok (access_token p) /\
     clock (tick w2 + 10) < exp a) ->
  exists w3, run (rotate_browser_token_pair token key) w2 = (Ok p, w3) /\ db w3 = db w2.
Proof.
  intros Hrun Hold Hfresh Hrt2 Hus3 Hwindow (a & der & Hder & Henc & Hexp).
  apply rotate_browser_fresh_ok in Hrun as (v1 & v2 & enc & Hrot & Hv1 & Hdec & Hus & Hrt);
    [|intros r Hr Hh; by destruct (Hold r Hr Hh)].
  apply rotate_token_pair_db in Hrot
    as (c & uid & cv & t1 & t2 & j1 & j2 & t' & id & _ & _ & _ & _ & Hcv & Ha & _ & Hcount & Hrows & Hus2).
  rewrite Hv1 in *. rewrite Hrows in Hrt.
  (* the access token of the pair is the one [a] encodes *)
  assert (Hdecode : forall i, (i <= tick w2 + 10)%nat ->
            jwt_decode (verifying_key key) token_validation (clock i) (access_token p) = Some a).
  { intros i Hi. pose proof (clock_mono i _ Hi).
    set (c1 := access_claims _ _ _ _ _ _ _) in Ha.
    assert (Hsome : exists a', jwt_decode (verifying_key key) token_validation (exp c1)
                      (access_token p) = Some a').
    { exists c1. apply sign_claims_ok in Ha as (der' & Hder' & Henc').
      apply (jwt_decode_encode _ _ _ _ _ _ _ Hder' Henc'). apply token_validates; [done|done|lia]. }
    destruct Hsome as (a' & Ha').
    assert (a' = a) as -> by exact (jwt_decode_encoded _ _ _ _ _ _ _ _ Hder Henc Ha').
    assert (a = c1) as -> by exact (access_claims_decode _ _ _ _ _ Ha Ha').
    apply (jwt_decode_encode _ _ _ _ _ _ _ Hder Henc). apply token_validates; [done|done|lia]. }
  assert (Haa := access_claims_decode _ _ _ _ _ Ha (Hdecode 0%nat ltac:(lia))).
  (* replay the request *)
  unfold rotate_browser_token_pair. rewrite run_atomic_tx. run_calm.
  assert (Hm : forall i, (i <= tick w2 + 10)%nat -> clock i <= clock (tick w2 + 10))
    by (intros; by apply clock_mono).
  pose proof (Hm (S (tick w2)) ltac:(lia)) as Hnow.
  assert (Hne : hash_token (refresh_token p) <> hash_token token).
  { intros Heq. assert (Hpos : (0 < count (live_token (hash_token token) t') (refresh_tokens (db w)))%nat)
      by lia. apply count_pos in Hpos as (r & Hr & Hl). unfold live_token in Hl. bool_hyp.
    by apply (Hfresh r Hr); rewrite Heq. }
  rewrite Hrt2, Hrt. rewrite (fetch_spent_row _ _ _ _ enc); [|done| |done|lia].
  2:{ intros r Hr Hh. destruct (Hold r Hr Hh). lia. }
  run_calm. rewrite Hdec. run_calm. cbn [follow_retry]. run_calm.
  match goal with |- context [run (verify_access_token _ _) ?x] => set (u1 := x) end.
  assert (Hu1 : db u1 = db w2) by done.
  assert (Ht1 : tick u1 = (tick w2 + 3)%nat) by (simpl; lia). clearbody u1.
  destruct (verify_access_token_complete (access_token p) key a uid u1 (clock (tick w2 + 10)))
    as (u2 & Hver & Hu2).
  - apply Hdecode. lia.
  - by rewrite Haa.
  - apply Hm. lia.
  - done.
  - rewrite Haa. intros e [= <-]. rewrite Haa in Hexp. simpl in Hexp. lia.
  - rewrite Haa. apply uuid_parse_to_string.
  - rewrite Haa, Hu1. unfold session_valid. simpl.
    rewrite (active_version_users uid (db w) (db w2)) by congruence.
    rewrite Hcv. apply Z.eqb_refl.
  - rewrite Hver. cbn [fst snd]. run_calm. rewrite Hu2, Hu1, Hrt2, Hrt.
    destruct (fetch_new_row (hash_token token) (clock (S (tick w))) t' (clock (S (tick w2))) enc id uid
                (hash_token (refresh_token p)) (deadline c) t2 (refresh_tokens (db w)))
      as (r & Hr & Hrev); [done| |].
    { rewrite Haa in Hexp. simpl in Hexp. lia. }
    rewrite Hr. run_calm. rewrite Hrev. run_calm. eexists. split; [reflexivity|].
    cbn [db bump]. congruence.
Qed.
End Retry.
