(* ===== verification/Keys.v ===== *)
(** * The signing key at rest

    The key is generated once, stored encrypted under AUTHERE_KEY_SECRET, and
    read back at every start; a key stored in the clear by an old version is
    encrypted in place the first time it is read. *)

From S2P Require Import Prelude RStr RateLimit Schema Sys External Users Net Settings Token TokenFacts Sessions BrowserRetry.
Local Open Scope Z_scope.

Section Keys.
Context {E : Env} {HA : Hashing} {ED : Ed25519} {AE : Aead}.

Lemma byte_array_ok n e s s' : byte_array n e s = Ok s' <-> s' = s /\ String.length s = n.
Proof. unfold byte_array. destruct (beq _ _) eqn:Eb; bool_hyp; naive_solver. Qed.

Lemma encrypt_private_key_ok `{!AeadLaws, !EntropyLength E} key kek ct nonce w w' :
  run (encrypt_private_key key kek) w = (Ok (ct, nonce), w') ->
  aes_decrypt kek nonce ct = Some key /\ String.length nonce = 12%nat /\ db w' = db w.
Proof.
  intros Hrun. unfold encrypt_private_key in Hrun. run_inv Hrun.
  match goal with Hx : (_, _) = (_, _) |- _ => injection Hx as -> <- end.
  split; [by eapply aes_decrypt_encrypt|]. split; [apply entropy_length|done].
Qed.

(** A default row that decrypts to [key]. *)
Definition holds_key (kek key : string) (r : KeyRow) : Prop :=
  exists nonce, k_nonce r = Some nonce /\ String.length nonce = 12%nat /\
    aes_decrypt kek nonce (k_private_key r) = Some key /\ String.length key = 32%nat.

Lemma load_held_key `{!Calm E} kek key r w :
  get_kek = Ok kek -> fetch is_default_key (keys (db w)) = Some r -> holds_key kek key r ->
  exists w', run load_signing_key w = (Ok key, w') /\ db w' = db w.
Proof.
  intros Hkek Hr (nonce & Hn & Hln & Hdec & Hlk). unfold load_signing_key.
  rewrite run_bindM. cbn [stmt run]. rewrite calm, Hr. cbn [set_db]. rewrite Hn, Hkek.
  run_calm. rewrite (proj2 (byte_array_ok _ _ _ _) (conj eq_refl Hln)).
  cbn [run]. unfold decrypt_private_key. rewrite Hdec.
  rewrite (proj2 (byte_array_ok _ _ _ _) (conj eq_refl Hlk)). cbn [run].
  eexists. split; [reflexivity|]. done.
Qed.

(** What a successful load leaves: a row that decrypts to the key returned. *)
Lemma load_signing_key_held `{!AeadLaws, !EntropyLength E} key w w1 :
  run load_signing_key w = (Ok key, w1) ->
  exists kek row, get_kek = Ok kek /\ fetch is_default_key (keys (db w1)) = Some row /\
    holds_key kek key row.
Proof.
  intros Hrun. unfold load_signing_key in Hrun.
  apply run_bindM_ok in Hrun as (row & w3 & Hr & Hrun). apply run_stmt_ok in Hr as (_ & d & Hr & ->).
  destruct (fetch is_default_key (keys (db w))) as [row'|] eqn:Ef; [|done].
  injection Hr as -> <-. destruct (k_nonce row) as [nonce|] eqn:En.
  - apply run_bindM_ok in Hrun as (kek & w3 & Hr & Hrun). run_inv Hr.
    apply run_bindM_ok in Hrun as (n' & w3 & Hr & Hrun).
    apply run_lift_ok in Hr as [Hr <-]. apply byte_array_ok in Hr as [-> Hln].
    apply run_bindM_ok in Hrun as (pk & w3 & Hr & Hrun). run_inv Hrun. subst.
    apply run_lift_ok in Hr as [Hr <-]. unfold decrypt_private_key in Hr.
    destruct (aes_decrypt _ _ _) as [pt|] eqn:Ed; [|done].
    apply byte_array_ok in Hr as [-> Hlp]. exists kek, row. split; [done|]. split; [done|].
    by exists nonce.
  - apply run_bindM_ok in Hrun as (kek & w3 & Hr & Hrun). run_inv Hr.
    apply run_bindM_ok in Hrun as (pk & w3 & Hr & Hrun).
    apply run_lift_ok in Hr as [Hr <-]. apply byte_array_ok in Hr as [-> Hlk].
    apply run_bindM_ok in Hrun as ([ct nonce] & w3 & Hr & Hrun).
    apply encrypt_private_key_ok in Hr as (Hdec & Hln & Hdb). run_inv Hrun. subst.
    cbn [db bump set_db] in *. exists kek, (set_key_material ct nonce row). split; [done|]. split.
    + rewrite Hdb. simpl. rewrite fetch_update_other by done. rewrite Ef. simpl.
      apply fetch_Some in Ef as [_ Ef]. by rewrite Ef.
    + by exists nonce.
Qed.

(** The signing key survives storage.  Once the server has loaded a key,
    every later load returns the same key and writes nothing, even when the
    first load found it in the clear and encrypted it; and after a first
    initialisation the key that loads is the one whose public half was
    stored, and initialising again does nothing. *)
Theorem signing_key_persistent `{!AeadLaws, !EntropyLength E, !Calm E} w w1 :
  (forall key, run load_signing_key w = (Ok key, w1) ->
     forall w2, db w2 = db w1 ->
     exists w3, run load_signing_key w2 = (Ok key, w3) /\ db w3 = db w2) /\
  (run try_initialize w = (Ok true, w1) ->
   exists key row, fetch is_default_key (keys (db w1)) = Some row /\
     k_public_key row = verifying_key key /\
     forall w2, db w2 = db w1 ->
     (exists w3, run load_signing_key w2 = (Ok key, w3) /\ db w3 = db w2) /\
     (exists w3, run try_initialize w2 = (Ok false, w3) /\ db w3 = db w2)).
Proof.
  split.
  - intros key Hrun w2 Hw2. apply load_signing_key_held in Hrun as (kek & row & Hk & Hf & Hh).
    apply (load_held_key kek key row); [done|by rewrite Hw2|done].
  - intros Hrun. unfold try_initialize in Hrun.
    apply run_bindM_ok in Hrun as (o & w2 & Hr & Hrun). apply run_query_ok in Hr as (_ & -> & ->).
    destruct (fetch is_default_key (keys (db w))) eqn:Ef; [by run_inv Hrun|].
    apply run_bindM_ok in Hrun as (? & w2 & Hini & Hrun). run_inv Hrun. unfold initialize in Hini.
    apply run_bind_eq in Hini as (key & w3 & Hr & Hini). unfold generate_key in Hr. run_inv Hr.
    apply run_bindM_ok in Hini as (kek & w3 & Hr & Hini). run_inv Hr.
    apply run_bind_eq in Hini as (id & w3 & Hr & Hini). run_inv Hr.
    apply run_bindM_ok in Hini as ([ct nonce] & w3 & Hr & Hini).
    apply encrypt_private_key_ok in Hr as (Hdec & Hln & Hdb). run_inv Hini.
    match goal with Hx : insert_checked _ _ _ _ = _ |- _ =>
      apply insert_checked_ok in Hx as (_ & _ & ->) end.
    cbn [db bump set_db] in *. rewrite Hdb in *.
    match goal with |- context [with_keys ?f (db w)] => set (d1 := with_keys f (db w)) in * end.
    match type of Hdec with aes_decrypt _ _ _ = Some ?k => set (key := k) in * end.
    set (row := {| k_id := fresh_uuid (S (S (tick w))); k_name := "default";
                   k_public_key := verifying_key key; k_private_key := ct;
                   k_nonce := Some nonce |}).
    assert (Hf : fetch is_default_key (keys d1) = Some row) by (simpl; by rewrite fetch_app, Ef).
    exists key, row. split; [done|]. split; [done|]. intros w2 Hw2. rewrite <- Hw2 in Hf. split.
    + eapply load_held_key; [done|exact Hf|]. exists nonce. repeat (split; [done|]).
      apply entropy_length.
    + unfold try_initialize. run_calm. rewrite Hf. run_calm. eexists. split; [reflexivity|]. done.
Qed.
End Keys.

(** A hex encoding of itself: 32 bytes that decode to themselves. *)
Definition keyed_env : Env := {|
  clock := fun i => Z.of_nat i; instant := fun _ => 0; fault := fun _ => false;
  entropy := @entropy (calm_env 0); fresh_uuid := fun i => N.of_nat i;
  env_var := fun _ => Some "0123456789abcdef0123456789abcdef"%string |}.

Definition legacy_key : Db := with_keys (fun _ => [{|
  k_id := 1; k_name := "default"; k_public_key := "pub";
  k_private_key := "abcdefghijklmnopqrstuvwxyz012345"; k_nonce := None |}]) empty_db.

Lemma signing_key_persistent_witness :
  let load := load_signing_key (E := keyed_env) (HA := plain_hashing) (AE := plain_aead) in
  let w1 := (run load (start legacy_key)).2 in
  db w1 <> legacy_key /\
  exists w2, run load w1 = (Ok "abcdefghijklmnopqrstuvwxyz012345"%string, w2) /\ db w2 = db w1.
Proof.
  intros load w1.
  assert (Hr : (run load (start legacy_key)).1 = Ok "abcdefghijklmnopqrstuvwxyz012345"%string)
    by (vm_compute; reflexivity).
  split; [vm_compute; discriminate|].
  refine (proj1 (signing_key_persistent (E := keyed_env) (HA := plain_hashing) (ED := plain_ed25519)
                   (AE := plain_aead) (start legacy_key) w1) _ (run_to _ _ _ Hr) w1 eq_refl).
  - exact plain_aead_laws.
  - apply (calm_env_entropy 0).
  - intros i. reflexivity.
Defined.
