(* ===== verification/SessionDemo.v ===== *)
(** * The session theorems at a concrete database

    One user, one administrator role, a signing key, and the tokens a login
    and its refreshes issue: every hypothesis of the session theorems holds
    here. *)

From S2P Require Import Prelude RStr RateLimit Schema Sys External Users Net Settings Token TokenFacts Sessions BrowserRetry.
Local Open Scope Z_scope.
Local Open Scope string_scope.

Definition demo_user : UserRow := {|
  u_row := {| u_id := 7; u_username := "ada"; u_name := "Ada"; u_email := None; u_active := true;
              u_created_at := 0; u_updated_at := 0 |};
  u_token_version := 2 |}.

Definition demo_env : Env := calm_env 1000.

(** The claims as one number, for the codec that signs everything. *)
Definition claims_countable : Countable Claims :=
  inj_countable' (fun c => (((sub c, iss c, aud c), (claim_roles c, exp c, iat c)),
                            ((jti c, typ c), (session_exp c, session_version c, auth_time c))))
    (fun x => let '(((a, b, c), (d, e, f)), ((g, h), (i, j, k))) := x in
       {| sub := a; iss := b; aud := c; claim_roles := d; exp := e; iat := f; jti := g; typ := h;
          session_exp := i; session_version := j; auth_time := k |})
    (fun c => match c with Build_Claims _ _ _ _ _ _ _ _ _ _ _ => eq_refl end).

(** Claims of the refresh token held at the start, of the pairs that
    [rotate_token_pair] and [rotate_browser_token_pair] make of it at time
    1000, and of the pair a login makes. *)
Definition R0 : Claims := refresh_claims (UL := plain_uuid) 7 5000 (Some 2) 900 900 99.
Definition A1 : Claims := access_claims (UL := plain_uuid) 7 ["admin"] 5000 (Some 2) 900 1008 9.
Definition R1 : Claims := refresh_claims (UL := plain_uuid) 7 5000 (Some 2) 900 1010 11.
Definition A2 : Claims := access_claims (UL := plain_uuid) 7 ["admin"] 5000 (Some 2) 900 1011 12.
Definition R2 : Claims := refresh_claims (UL := plain_uuid) 7 5000 (Some 2) 900 1013 14.
Definition A3 : Claims := access_claims (UL := plain_uuid) 7 ["admin"] 605800 (Some 2) 1003 1005 6.
Definition R3 : Claims := refresh_claims (UL := plain_uuid) 7 605800 (Some 2) 1003 1007 8.

(** The same at a clock that stands still. *)
Definition A4 : Claims := access_claims (UL := plain_uuid) 7 ["admin"] 5000 (Some 2) 900 1000 12.
Definition R4 : Claims := refresh_claims (UL := plain_uuid) 7 5000 (Some 2) 900 1000 14.

Definition demo_tokens : list (string * (string * Claims)) :=
  [("R0", ("k", R0)); ("A1", ("k", A1)); ("R1", ("k", R1)); ("A2", ("k", A2)); ("R2", ("k", R2));
   ("A3", ("k", A3)); ("R3", ("k", R3)); ("A4", ("k", A4)); ("R4", ("k", R4))].
Definition demo_jwt : JwtCodec Claims := table_jwt demo_tokens.

Lemma demo_jwt_laws : @JwtLaws Claims plain_ed25519 demo_jwt Claims_registered.
Proof. apply table_jwt_laws. refine (bool_decide_eq_true_1 _ _). vm_compute. reflexivity. Qed.

Definition demo_pair : TokenPair := {|
  access_token := "A2"; refresh_token := "R2"; expires_in := 900; refresh_expires_in := 3990;
  token_type := "Bearer" |}.
Definition demo_serde : SerdeJson TokenPair := one_serde "P" demo_pair.

Definition demo_refresh (revoked : option Z) : RefreshTokenRecord := {|
  rt_id := 50; rt_user_id := 7; rt_token_hash := hash_token (HA := plain_hashing) "R0";
  rt_expires_at := 5000; rt_created_at := 900; rt_revoked_at := revoked;
  rt_browser_retry_until := None; rt_browser_retry_pair := None |}.

Definition demo_db (revoked : option Z) : Db :=
  with_users (fun _ => [demo_user])
  (with_roles (fun _ => [{| ro_id := 1; ro_name := "admin"; ro_description := None |}])
  (with_user_roles (fun _ => [{| ur_user_id := 7; ur_role_id := 1 |}])
  (with_refresh_tokens (fun _ => [demo_refresh revoked]) empty_db))).

#[local] Existing Instances demo_env plain_hashing plain_ed25519 demo_jwt plain_uuid plain_aead
  demo_serde demo_jwt_laws plain_uuid_laws.
#[local] Instance demo_calm : Calm demo_env := calm_env_calm 1000.
#[local] Instance demo_mono : MonotoneClock demo_env := calm_env_mono 1000.

Definition w0 : World := start (demo_db None).

Definition pair1 : TokenPair := {|
  access_token := "A1"; refresh_token := "R1"; expires_in := 900; refresh_expires_in := 3993;
  token_type := "Bearer" |}.
Definition pair3 : TokenPair := {|
  access_token := "A3"; refresh_token := "R3"; expires_in := 900; refresh_expires_in := 604796;
  token_type := "Bearer" |}.

Example demo_runs :
  (run (rotate_token_pair "R0" "k") w0).1 = Ok pair1 /\
  (run (rotate_browser_token_pair "R0" "k") w0).1 = Ok demo_pair /\
  (run (generate_token_pair 7 ["admin"] "k") w0).1 = Ok pair3 /\
  is_ok (run (verify_access_token "A1" "k") w0).1 = true.
Proof. vm_compute. repeat split. Qed.

Ltac runs := apply run_to; vm_compute; reflexivity.

Lemma verify_access_token_sound_witness :
  let w' := (run (verify_access_token "A1" "k") w0).2 in
  db w' = db w0 /\ 1001 < exp A1.
Proof.
  assert (Hr : run (verify_access_token "A1" "k") w0
               = (Ok A1, (run (verify_access_token "A1" "k") w0).2)) by runs.
  destruct (verify_access_token_sound _ _ _ _ _ Hr) as (Hdb & _ & _ & _ & He & _).
  split; [exact Hdb|exact He].
Defined.

Lemma rotation_keeps_session_witness :
  exists uid, uuid_parse (sub A1) = Some uid /\ exp A1 = Z.min (1008 + 900) 5000 /\
    exp R1 = 5000.
Proof.
  assert (Hr : run (rotate_token_pair "R0" "k") w0
               = (Ok pair1, (run (rotate_token_pair "R0" "k") w0).2)) by runs.
  destruct (rotation_keeps_session _ _ _ _ _ Hr) as (c & uid & cv & Hd & _ & _ & _ & Ha & Hrf).
  vm_compute in Hd. injection Hd as <-.
  destruct (Ha 1100 A1) as (Hu & _ & _ & He & _); [vm_compute; reflexivity|].
  destruct (Hrf 1100 R1) as (_ & _ & _ & Hre & _); [vm_compute; reflexivity|].
  exists uid. split; [exact Hu|]. split; [exact He|exact Hre].
Defined.

Lemma session_deadline_is_absolute_witness :
  star (refreshed_to "k") "R0" "R1" /\ exp R1 <= exp R0.
Proof.
  assert (Hs : star (refreshed_to "k") "R0" "R1").
  { apply star_one. exists w0, (run (rotate_token_pair "R0" "k") w0).2, pair1. split; [runs|done]. }
  split; [exact Hs|].
  refine (proj1 (session_deadline_is_absolute "k" "R0" "R1" 1000 1100 R0 R1 Hs _ _));
    vm_compute; reflexivity.
Defined.

Lemma issued_token_verifies_witness :
  exists c w3, run (verify_access_token "A3" "k") w0 = (Ok c, w3) /\ claim_roles c = ["admin"].
Proof.
  destruct (issued_token_verifies 7 ["admin"] "k" pair3 w0
              (run (generate_token_pair 7 ["admin"] "k") w0).2 w0) as (c & w3 & Hr & _ & _ & Hc & _).
  - runs.
  - reflexivity.
  - vm_compute. reflexivity.
  - exists c, w3. split; [exact Hr|exact Hc].
Defined.

(** The same token, already spent. *)
Definition w_spent : World := start (demo_db (Some 950)).

Lemma refresh_replay_revokes_witness :
  exists w', run (rotate_browser_token_pair "R0" "k") w_spent = (Err AuthenticationRequired, w') /\
    replay_detected 7 (db w_spent) (db w').
Proof.
  refine (proj2 (refresh_replay_revokes "R0" "k" R0 7 (demo_refresh (Some 950)) w_spent
                   _ _ _ _ _ _ _ _ _ _) _); try (vm_compute; reflexivity).
  - apply Z.leb_le. vm_compute. reflexivity.
  - intros r until Hr _ Hu. apply list_elem_of_singleton in Hr as ->. done.
Defined.

(** Two tabs refreshing within the same second. *)
Definition still_env : Env := {|
  clock := fun _ => 1000; instant := fun _ => 0; fault := fun _ => false;
  entropy := @entropy demo_env; fresh_uuid := @fresh_uuid demo_env; env_var := fun _ => None |}.
Definition pair4 : TokenPair := {|
  access_token := "A4"; refresh_token := "R4"; expires_in := 900; refresh_expires_in := 4000;
  token_type := "Bearer" |}.
Definition still_serde : SerdeJson TokenPair := one_serde "P" pair4.
Definition still_browser : M TokenPair :=
  rotate_browser_token_pair (E := still_env) (SJ := still_serde) "R0" "k".
Definition w_first : World := (run still_browser w0).2.

Lemma browser_retry_identical_witness :
  (run still_browser w0).1 = Ok pair4 /\
  exists w3, run still_browser w_first = (Ok pair4, w3) /\ db w3 = db w_first.
Proof.
  assert (Hr0 : (run still_browser w0).1 = Ok pair4) by (vm_compute; reflexivity).
  split; [exact Hr0|]. pose proof (run_to still_browser w0 _ Hr0) as Hrun0.
  refine (browser_retry_identical (E := still_env) (SJ := still_serde) "R0" "k" pair4 w0
            w_first w_first Hrun0 _ _ eq_refl eq_refl _ _).
  - exact plain_aead_laws.
  - exact (one_serde_laws _ _).
  - intros i. reflexivity.
  - intros i j Hij. reflexivity.
  - apply (calm_env_entropy 1000).
  - intros r Hr _. apply list_elem_of_singleton in Hr as ->.
    split; [reflexivity|vm_compute; reflexivity].
  - intros r Hr. apply list_elem_of_singleton in Hr as ->. vm_compute. discriminate.
  - vm_compute. reflexivity.
  - exists A4, "k". split; [reflexivity|]. split; [vm_compute; reflexivity|]. done.
Defined.

(** Two requests with the same token, one after the other. *)
Definition race : list (prog (result AppError (Uuid * Claims))) * World :=
  pool_run (repeat 0%nat 30 ++ repeat 1%nat 30) (repeat (consume_refresh_token "R0" "k") 2, w0).

Lemma refresh_token_single_use_witness :
  unspent_rows (hash_token "R0") (db w0) = 1%nat /\ (wins is_ok race.1 <= 1)%nat.
Proof.
  assert (unspent_rows (hash_token "R0") (db w0) = 1%nat) as H1 by (vm_compute; reflexivity).
  split; [exact H1|]. rewrite <- H1. eapply Nat.le_trans; [apply Nat.le_add_r|].
  exact (refresh_token_single_use "R0" "k" 2 [] (repeat 0%nat 30 ++ repeat 1%nat 30) w0
           (List.Forall_nil _)).
Defined.
