(* ===== verification/Totp.v ===== *)
(** * Time-based one-time passwords ([user/auth/totp.rs]) *)

From S2P Require Import Prelude RStr RateLimit Schema Sys External Users Net Settings Token.
Local Open Scope Z_scope.
Local Open Scope string_scope.

Definition TOTP_DIGITS : Z := 6.
Definition TOTP_PERIOD : Z := 30.
Definition SECRET_BYTES : nat := 20.
Definition RECOVERY_CODE_COUNT : nat := 10.
Definition RECOVERY_CODE_LEN : nat := 10.
Definition BASE32_ALPHABET : string := "ABCDEFGHIJKLMNOPQRSTUVWXYZ234567".

(** An index into a byte slice; out of range the code panics. *)
Definition byte_at (s : string) (i : nat) : N :=
  match String.get i s with Some a => code a | None => 0%N end.

(** ** Base32 *)

(** [BASE32_ALPHABET[idx]] *)
Definition base32_char (idx : N) : ascii :=
  match String.get (N.to_nat idx) BASE32_ALPHABET with Some a => a | None => "A"%char end.

(** The [while bits >= 5] loop: the characters it pushes and the bits left. *)
Fixpoint drain (fuel : nat) (buf bits : N) : string * N :=
  match fuel with
  | O => ("", bits)
  | S fuel' =>
      if (5 <=? bits)%N then
        let bits' := (bits - 5)%N in
        let '(out, rest) := drain fuel' buf bits' in
        (String (base32_char (N.land (N.shiftr buf bits') 31)) out, rest)
      else ("", bits)
  end.

(** The loop over the bytes; [buf] is a u32. *)
Fixpoint base32_loop (bytes : string) (buf bits : N) : string :=
  match bytes with
  | "" =>
      if (0 <? bits)%N
      then String (base32_char (N.land (N.shiftl buf (5 - bits)) 31)) ""
      else ""
  | String b bytes' =>
      let buf := N.lor (N.shiftl buf 8 mod 2 ^ 32) (code b) in
      let bits := (bits + 8)%N in
      let '(out, rest) := drain (N.to_nat bits) buf bits in
      out ++ base32_loop bytes' buf rest
  end.

(** [encode_base32] *)
Definition encode_base32 (bytes : string) : string := base32_loop bytes 0 0.

Example base32_rfc4648 :
  map encode_base32 [""; "f"; "fo"; "foo"; "foob"; "fooba"; "foobar"]
  = [""; "MY"; "MZXQ"; "MZXW6"; "MZXW6YQ"; "MZXW6YTB"; "MZXW6YTBOI"].
Proof. vm_compute. reflexivity. Qed.

(** ** HOTP *)

(** [counter.to_be_bytes()] *)
Definition to_be_bytes (n : N) : string :=
  fold_right (fun k s => String (byte_of (N.land (N.shiftr n k) 255)) s) ""
    [56; 48; 40; 32; 24; 16; 8; 0]%N.

Section Totp.
Context {E : Env} {HA : Hashing} {AE : Aead} {MAC : HmacSha1} {UE : UrlEncoding}.
(** [char::to_uppercase] of a character that is not ASCII. *)
Variable non_ascii_uppercase : string -> string.

(** [hotp] *)
Definition hotp (secret : string) (counter : N) : N :=
  let result := hmac_sha1 secret (to_be_bytes counter) in
  let offset := N.to_nat (N.land (byte_at result 19) 15) in
  let c := N.lor (N.lor (N.lor
             (N.shiftl (N.land (byte_at result offset) 127) 24)
             (N.shiftl (byte_at result (offset + 1)) 16))
             (N.shiftl (byte_at result (offset + 2)) 8))
             (byte_at result (offset + 3)) in
  (c mod 10 ^ Z.to_N TOTP_DIGITS)%N.

(** The loop over the drift window of [verify_code]. *)
Fixpoint first_step (secret : string) (value : Z) (last_used_step : option Z) (steps : list Z)
    : option Z :=
  match steps with
  | [] => None
  | step :: steps' =>
      if (step <? 0)%Z then first_step secret value last_used_step steps'
      else if is_some_and last_used_step (fun last => step <=? last)%Z
      then first_step secret value last_used_step steps'
      else if (Z.of_N (hotp secret (Z.to_N step)) =? value)%Z then Some step
      else first_step secret value last_used_step steps'
  end.

(** [verify_code] *)
Definition verify_code (secret code_str : string) (t : Z) (last_used_step : option Z) : option Z :=
  let trimmed := trim code_str in
  if (negb (Z.of_nat (String.length trimmed) =? TOTP_DIGITS)%Z
      || negb (all_bytes is_ascii_digit trimmed))%bool then None
  else match parse_unsigned u32_max trimmed with
       | None => None
       | Some value =>
           if (10 ^ TOTP_DIGITS <=? value)%Z then None
           else if (t <? 0)%Z then None
           else
             let current_step := (t / TOTP_PERIOD)%Z in
             first_step secret value last_used_step
               [current_step + -1; current_step + 0; current_step + 1]%Z
       end.

(** [generate_secret] *)
Definition generate_secret : prog string := random_bytes SECRET_BYTES.

(** [build_otpauth_uri] *)
Definition build_otpauth_uri (issuer account secret : string) : string :=
  "otpauth://totp/" ++ url_encode issuer ++ ":" ++ url_encode account ++ "?secret="
  ++ encode_base32 secret ++ "&issuer=" ++ url_encode issuer ++ "&algorithm=SHA1&digits="
  ++ pretty TOTP_DIGITS ++ "&period=" ++ pretty TOTP_PERIOD.

(** ** Secret encryption *)

(** [get_kek] *)
Definition totp_kek : result AppError string :=
  match env_var "AUTHERE_KEY_SECRET" with
  | None => Err (InternalError "AUTHERE_KEY_SECRET environment variable is required")
  | Some secret =>
      match hex_decode (trim secret) with
      | None => Err (InternalError "AUTHERE_KEY_SECRET must be hex-encoded")
      | Some bytes => byte_array 32 (InternalError "AUTHERE_KEY_SECRET must be 32 bytes") bytes
      end
  end.

(** [encrypt_secret] *)
Definition encrypt_secret (secret : string) : M string :=
  kek <- lift totp_kek ;;
  nonce <~ random_bytes 12 ;;
  ct <- require (aes_encrypt kek nonce secret)
          (InternalError "TOTP secret encryption failed: aead::Error") ;;
  ret (hex_encode nonce ++ ":" ++ hex_encode ct).

(** [decrypt_secret] *)
Definition decrypt_secret (blob : string) : result AppError string :=
  match split_once ":" blob with
  | None => Err (InternalError "TOTP secret malformed")
  | Some (nonce_hex, ct_hex) =>
      match hex_decode nonce_hex with
      | None => Err (InternalError "TOTP secret nonce not hex")
      | Some nonce =>
          match hex_decode ct_hex with
          | None => Err (InternalError "TOTP secret ciphertext not hex")
          | Some ct =>
              if negb (beq (String.length nonce) 12%nat)
              then Err (InternalError "TOTP secret nonce wrong length")
              else match totp_kek with
                   | Err e => Err e
                   | Ok kek => ok_or (aes_decrypt kek nonce ct)
                                 (InternalError "TOTP secret decryption failed")
                   end
          end
      end
  end.

(** ** Recovery codes *)

(** [generate_recovery_codes] *)
Fixpoint generate_codes (n : nat) : prog (list string) :=
  match n with
  | O => Ret []
  | S n' =>
      bytes <~ random_bytes 7 ;;
      let trimmed := take_bytes RECOVERY_CODE_LEN (encode_base32 bytes) in
      rest <~ generate_codes n' ;;
      Ret ((take_bytes 5 trimmed ++ "-" ++ drop_bytes 5 trimmed) :: rest)
  end.
Definition generate_recovery_codes : prog (list string) := generate_codes RECOVERY_CODE_COUNT.

(** [char::to_uppercase] *)
Definition to_uppercase (c : string) : string :=
  match c with
  | String a "" => if (code a <? 128)%N then String (ascii_upper a) "" else non_ascii_uppercase c
  | _ => non_ascii_uppercase c
  end.

(** [canonicalize_recovery_code] *)
Definition canonicalize_recovery_code (code : string) : string :=
  String.concat "" (map to_uppercase
    (List.filter (fun c => negb (is_whitespace c) && negb (beq c "-"))%bool (chars code))).

(** [hash_recovery_code] *)
Definition hash_recovery_code (code : string) : string :=
  hex_encode (sha256 (canonicalize_recovery_code code)).

(** ** Database access *)

Definition is_activated (u : UserTotp) : bool := is_some (ut_activated_at u).

(** [UserTotp::get] *)
Definition UserTotp_get (user_id : Uuid) : M (option UserTotp) :=
  query (fun d => fetch (fun u => beq (ut_user_id u) user_id) (user_totps d)).

(** The columns the statements below write. *)
Definition set_pending (secret : string) (t : Z) (u : UserTotp) : UserTotp := {|
  ut_user_id := ut_user_id u; ut_secret_encrypted := secret; ut_last_used_step := None;
  ut_activated_at := None; ut_created_at := ut_created_at u; ut_updated_at := t |}.
Definition set_activated (t step : Z) (u : UserTotp) : UserTotp := {|
  ut_user_id := ut_user_id u; ut_secret_encrypted := ut_secret_encrypted u;
  ut_last_used_step := Some step; ut_activated_at := Some t; ut_created_at := ut_created_at u;
  ut_updated_at := t |}.
Definition set_step (t step : Z) (u : UserTotp) : UserTotp := {|
  ut_user_id := ut_user_id u; ut_secret_encrypted := ut_secret_encrypted u;
  ut_last_used_step := Some step; ut_activated_at := ut_activated_at u;
  ut_created_at := ut_created_at u; ut_updated_at := t |}.
Definition set_used_at (t : Z) (r : RecoveryCodeRow) : RecoveryCodeRow := {|
  rc_id := rc_id r; rc_user_id := rc_user_id r; rc_code_hash := rc_code_hash r;
  rc_used_at := Some t; rc_created_at := rc_created_at r |}.

(** [INSERT .. ON CONFLICT(user_id) DO UPDATE .. WHERE activated_at IS NULL]:
    the number of rows written. *)
Definition upsert_totp (user_id : Uuid) (secret : string) (t : Z) (d : Db)
    : result AppError (nat * Db) :=
  let mine := fun u => beq (ut_user_id u) user_id in
  let pending := fun u => (mine u && is_none (ut_activated_at u))%bool in
  if existsb mine (user_totps d) then
    Ok (count pending (user_totps d), with_user_totps (update pending (set_pending secret t)) d)
  else if user_exists user_id d then
    Ok (1%nat, with_user_totps (fun rows => (rows ++ [{|
      ut_user_id := user_id; ut_secret_encrypted := secret; ut_last_used_step := None;
      ut_activated_at := None; ut_created_at := t; ut_updated_at := t |}])%list) d)
  else Err DbError.

(** [UserTotp::upsert_pending] *)
Definition upsert_pending (user_id : Uuid) (secret : string) : M unit :=
  t <~ now ;;
  transaction (
    affected <- stmt (upsert_totp user_id secret t) ;;
    guard (negb (beq affected 1%nat))
      (UniqueError "TOTP is already enabled. Disable it first to re-enroll.") ;;;
    exec (fun d => (tt, with_recovery_codes (delete (fun r => beq (rc_user_id r) user_id)) d))).

(** [UserTotp::activate] *)
Definition totp_activate (user_id : Uuid) (secret : string) (step : Z) : M bool :=
  t <~ now ;;
  affected <- exec (fun d =>
    let p := fun u => (beq (ut_user_id u) user_id && beq (ut_secret_encrypted u) secret
                       && is_none (ut_activated_at u))%bool in
    (count p (user_totps d), with_user_totps (update p (set_activated t step)) d)) ;;
  ret (beq affected 1%nat).

(** The rows [record_step] updates. *)
Definition step_unused (user_id : Uuid) (secret : string) (step : Z) (u : UserTotp) : bool :=
  (beq (ut_user_id u) user_id && beq (ut_secret_encrypted u) secret
   && is_some (ut_activated_at u)
   && is_none_or (ut_last_used_step u) (fun last => last <? step))%Z%bool.

(** [UserTotp::record_step] *)
Definition record_step (user_id : Uuid) (secret : string) (step : Z) : M bool :=
  t <~ now ;;
  affected <- exec (fun d =>
    (count (step_unused user_id secret step) (user_totps d),
     with_user_totps (update (step_unused user_id secret step) (set_step t step)) d)) ;;
  ret (beq affected 1%nat).

(** [UserTotp::delete] *)
Definition totp_delete (user_id : Uuid) : M bool :=
  affected <- exec (fun d =>
    let p := fun u => beq (ut_user_id u) user_id in
    (count p (user_totps d), with_user_totps (delete p) d)) ;;
  exec (fun d => (tt, with_recovery_codes (delete (fun r => beq (rc_user_id r) user_id)) d)) ;;;
  ret (0 <? affected)%nat.

(** [UserTotp::is_activated_for] *)
Definition is_activated_for (user_id : Uuid) : M bool :=
  n <- query (fun d => count (fun u => beq (ut_user_id u) user_id && is_some (ut_activated_at u))%bool
                             (user_totps d)) ;;
  ret (0 <? n)%nat.

(** [store_recovery_codes] *)
Fixpoint insert_codes (user_id : Uuid) (t : Z) (codes : list string) : M unit :=
  match codes with
  | [] => ret tt
  | code :: codes' =>
      id <~ new_uuid ;;
      let hash := hash_recovery_code code in
      stmt (fun d =>
        insert_checked
          (existsb (fun r => beq (rc_id r) id || beq (rc_code_hash r) hash)%bool (recovery_codes d))
          (user_exists user_id d)
          (with_recovery_codes (fun rows => (rows ++ [{|
             rc_id := id; rc_user_id := user_id; rc_code_hash := hash; rc_used_at := None;
             rc_created_at := t |}])%list)) d) ;;;
      insert_codes user_id t codes'
  end.
Definition store_recovery_codes (user_id : Uuid) (plaintext_codes : list string) : M unit :=
  exec (fun d => (tt, with_recovery_codes (delete (fun r => beq (rc_user_id r) user_id)) d)) ;;;
  t <~ now ;;
  insert_codes user_id t plaintext_codes.

(** The rows [consume_recovery_code] marks used. *)
Definition unused_code (user_id : Uuid) (hash : string) (r : RecoveryCodeRow) : bool :=
  (beq (rc_user_id r) user_id && beq (rc_code_hash r) hash && is_none (rc_used_at r))%bool.

(** [consume_recovery_code] *)
Definition consume_recovery_code (user_id : Uuid) (code : string) : M bool :=
  let hash := hash_recovery_code code in
  t <~ now ;;
  affected <- exec (fun d =>
    (count (unused_code user_id hash) (recovery_codes d),
     with_recovery_codes (update (unused_code user_id hash) (set_used_at t)) d)) ;;
  ret (0 <? affected)%nat.
End Totp.
