(* ===== verification/Base32.v ===== *)
(** * Base32 against its definition (RFC 4648)

    [encode_base32] works on a 32-bit shift register; the definition cuts the
    bit string into groups of five.  They agree, and decoding inverts both. *)

From S2P Require Import Prelude RStr RateLimit Schema Sys External Users Net Settings Token Totp.
Local Open Scope N_scope.

(** ** The definition *)

(** The low [n] bits of a number, most significant first. *)
Fixpoint low (n : nat) (x : N) : list bool :=
  match n with O => [] | S k => N.testbit x (N.of_nat k) :: low k x end.

Fixpoint bits_of (s : string) : list bool :=
  match s with
  | ""%string => []
  | String b s' => (low 8 (code b) ++ bits_of s')%list
  end.

Definition value (l : list bool) : N :=
  fold_left (fun acc b => 2 * acc + (if b : bool then 1 else 0)) l 0.

(** One character per group of five bits, the last padded with zeros. *)
Fixpoint base32_groups (l : list bool) : string :=
  match l with
  | [] => ""%string
  | a :: b :: c :: d :: e :: l' => String (base32_char (value [a; b; c; d; e])) (base32_groups l')
  | _ => String (base32_char (value (take 5 (l ++ repeat false 5)))) ""
  end.

Definition base32_reference (s : string) : string := base32_groups (bits_of s).

(** ** The register holds the bits not yet written *)

Lemma low_ext n x y :
  (forall i, i < N.of_nat n -> N.testbit x i = N.testbit y i) -> low n x = low n y.
Proof.
  induction n as [|n IH]; intros H; [done|]. simpl. rewrite H by lia. f_equal.
  apply IH. intros i Hi. apply H. lia.
Qed.

Lemma low_split n m x : low (n + m) x = (low n (N.shiftr x (N.of_nat m)) ++ low m x)%list.
Proof.
  induction n as [|n IH]; [done|]. simpl. rewrite IH, N.shiftr_spec' by lia.
  do 2 f_equal. lia.
Qed.

Lemma length_low n x : length (low n x) = n.
Proof. induction n; simpl; congruence. Qed.

Lemma land31 x : N.land x 31 = value (low 5 x).
Proof.
  change 31 with (N.ones 5). rewrite N.land_ones.
  assert (low 5 x = low 5 (x mod 2 ^ 5)) as ->.
  { apply low_ext. intros i Hi. by rewrite N.mod_pow2_bits_low by lia. }
  assert (Hall : forallb (fun m => (m =? value (low 5 m))) (map N.of_nat (seq 0 32)) = true)
    by (vm_compute; reflexivity).
  rewrite List.forallb_forall in Hall. apply N.eqb_eq, Hall.
  apply in_map_iff. exists (N.to_nat (x mod 2 ^ 5)). rewrite in_seq, N2Nat.id.
  assert (Hm : x mod 2 ^ 5 < 32) by (by apply N.mod_lt).
  generalize dependent (x mod 2 ^ 5). intros m Hm. split; [done|lia].
Qed.

Lemma code_bound a : code a < 2 ^ 8.
Proof. unfold code. apply N_ascii_bounded. Qed.

Lemma code_high a i : 8 <= i -> N.testbit (code a) i = false.
Proof.
  intros Hi. destruct (decide (code a = 0)) as [->|Hn]; [apply N.bits_0|].
  apply N.bits_above_log2. apply N.log2_lt_pow2; [lia|].
  eapply N.lt_le_trans; [apply code_bound|]. by apply N.pow_le_mono_r.
Qed.

(** Shifting a byte into the register appends its bits. *)
Definition feed (buf : N) (b : ascii) : N := N.lor (N.shiftl buf 8 mod 2 ^ 32) (code b).

Lemma feed_low buf b i : i < 8 -> N.testbit (feed buf b) i = N.testbit (code b) i.
Proof.
  intros Hi. unfold feed. rewrite N.lor_spec, N.mod_pow2_bits_low by lia.
  by rewrite N.shiftl_spec_low.
Qed.

Lemma feed_high buf b i : 8 <= i < 32 -> N.testbit (feed buf b) i = N.testbit buf (i - 8).
Proof.
  intros Hi. unfold feed. rewrite N.lor_spec, N.mod_pow2_bits_low by lia.
  rewrite N.shiftl_spec_high' by lia. rewrite code_high by lia. apply orb_false_r.
Qed.

Lemma low_feed n buf b :
  (n <= 24)%nat -> low (n + 8) (feed buf b) = (low n buf ++ low 8 (code b))%list.
Proof.
  intros Hn. rewrite low_split. f_equal.
  - apply low_ext. intros i Hi. rewrite N.shiftr_spec' by lia.
    rewrite feed_high by lia. f_equal. lia.
  - apply low_ext. intros i Hi. apply feed_low. lia.
Qed.

Lemma groups_five l l' : length l = 5%nat ->
  base32_groups (l ++ l') = String (base32_char (value l)) (base32_groups l').
Proof.
  destruct l as [|a [|b [|c [|d [|e [|]]]]]]; simpl; intros H; try lia. done.
Qed.

(** The inner loop writes whole groups and keeps the rest. *)
Lemma drain_spec fuel buf (n : nat) out rest l :
  (n <= fuel)%nat -> drain fuel buf (N.of_nat n) = (out, rest) ->
  exists k, rest = N.of_nat k /\ (k < 5)%nat /\ base32_groups (low n buf ++ l) = (out ++ base32_groups (low k buf ++ l))%string.
Proof.
  revert n out rest. induction fuel as [|fuel IH]; intros n out rest Hn Hd; simpl in Hd.
  { injection Hd as <- <-. exists n. split; [done|]. split; [lia|done]. }
  destruct (5 <=? N.of_nat n) eqn:E5.
  - apply N.leb_le in E5. assert (n = 5 + (n - 5))%nat as Hsplit by lia.
    replace (N.of_nat n - 5) with (N.of_nat (n - 5)) in Hd by lia.
    destruct (drain fuel buf (N.of_nat (n - 5))) as [out' rest'] eqn:Ed.
    injection Hd as <- <-. destruct (IH (n - 5)%nat _ _ ltac:(lia) Ed) as (k & -> & Hk & Hg).
    exists k. split; [done|]. split; [done|].
    rewrite Hsplit at 1. rewrite low_split, <- app_assoc, groups_five by apply length_low.
    rewrite Hg, land31. done.
  - apply N.leb_gt in E5. injection Hd as <- <-. exists n. split; [done|]. split; [lia|done].
Qed.

Lemma low_shiftl n m x : low (n + m) (N.shiftl x (N.of_nat m)) = (low n x ++ repeat false m)%list.
Proof.
  rewrite low_split. f_equal.
  - apply low_ext. intros i _. rewrite N.shiftr_spec', N.shiftl_spec_high' by lia. f_equal. lia.
  - induction m as [|m IH]; [done|].
    assert (Hz : forall k, (k <= S m)%nat -> low k (N.shiftl x (N.of_nat (S m))) = repeat false k).
    { induction k as [|k IHk]; intros Hk; [done|]. simpl.
      rewrite N.shiftl_spec_low by lia. f_equal. apply IHk. lia. }
    by apply Hz.
Qed.

(** The flush at the end writes the last, padded group. *)
Lemma flush_spec (k : nat) buf :
  (k < 5)%nat -> base32_loop "" buf (N.of_nat k) = base32_groups (low k buf).
Proof.
  intros Hk. destruct k as [|k]; [done|]. cbn [base32_loop].
  replace (0 <? N.of_nat (S k)) with true by (symmetry; apply N.ltb_lt; lia).
  replace (5 - N.of_nat (S k)) with (N.of_nat (5 - S k)) by lia.
  rewrite land31. replace 5%nat with (S k + (5 - S k))%nat at 1 by lia. rewrite low_shiftl.
  pose proof (length_low (S k) buf) as Hl. remember (low (S k) buf) as l.
  destruct l as [|a [|b [|c [|d [|e l]]]]]; simpl in Hl; try lia; injection Hl as <-; done.
Qed.

Lemma base32_loop_spec s buf (k : nat) :
  (k < 5)%nat -> base32_loop s buf (N.of_nat k) = base32_groups (low k buf ++ bits_of s).
Proof.
  revert buf k. induction s as [|b s IH]; intros buf k Hk.
  { rewrite flush_spec by done. simpl. by rewrite app_nil_r. }
  cbn [base32_loop bits_of]. fold (feed buf b).
  replace (N.of_nat k + 8) with (N.of_nat (k + 8)) by lia.
  destruct (drain _ (feed buf b) _) as [out rest] eqn:Ed.
  rewrite Nat2N.id in Ed.
  destruct (drain_spec _ _ _ _ _ (bits_of s) ltac:(reflexivity) Ed) as (j & -> & Hj & Hg).
  rewrite IH by done. rewrite <- Hg, app_assoc, low_feed by lia. done.
Qed.

(** ** Decoding *)

Fixpoint index_in (c : ascii) (i : N) (s : string) : option N :=
  match s with
  | ""%string => None
  | String a s' => if beq a c then Some i else index_in c (i + 1) s'
  end.

(** The bits a base32 text stands for. *)
Fixpoint decode_bits (s : string) : option (list bool) :=
  match s with
  | ""%string => Some []
  | String c s' =>
      match index_in c 0 BASE32_ALPHABET, decode_bits s' with
      | Some i, Some l => Some (low 5 i ++ l)%list
      | _, _ => None
      end
  end.

(** Whole bytes; an incomplete one is padding. *)
Fixpoint bytes_of (l : list bool) : string :=
  match l with
  | a :: b :: c :: d :: e :: f :: g :: h :: l' =>
      String (byte_of (value [a; b; c; d; e; f; g; h])) (bytes_of l')
  | _ => ""%string
  end.

Definition decode_base32 (s : string) : option string := option_map bytes_of (decode_bits s).

Lemma decode_char (l : list bool) :
  length l = 5%nat -> option_map (low 5) (index_in (base32_char (value l)) 0 BASE32_ALPHABET) = Some l.
Proof.
  destruct l as [|a [|b [|c [|d [|e [|]]]]]]; simpl length; intros H; try lia.
  destruct a, b, c, d, e; vm_compute; reflexivity.
Qed.

Lemma decode_groups l :
  exists z, decode_bits (base32_groups l) = Some (l ++ repeat false z)%list /\ (z < 5)%nat.
Proof.
  induction l as [l IH] using (well_founded_induction (well_founded_ltof _ (@length bool))).
  assert (Hshort : forall k, (length l + k = 5)%nat -> (k < 5)%nat ->
            base32_groups l = String (base32_char (value (l ++ repeat false k))) "" ->
            exists z, decode_bits (base32_groups l) = Some (l ++ repeat false z)%list /\ (z < 5)%nat).
  { intros k Hk Hlt ->. exists k. split; [|done]. cbn [decode_bits].
    pose proof (decode_char (l ++ repeat false k)) as Hd.
    rewrite length_app, repeat_length in Hd. specialize (Hd Hk).
    destruct (index_in _ _ _) as [i|]; [|done]. cbn [option_map] in Hd.
    apply (inj Some) in Hd. rewrite Hd.
    by rewrite app_nil_r. }
  destruct l as [|a [|b [|c [|d [|e l]]]]].
  - exists 0%nat. split; [done|lia].
  - apply (Hshort 4%nat); simpl; [lia|lia|done].
  - apply (Hshort 3%nat); simpl; [lia|lia|done].
  - apply (Hshort 2%nat); simpl; [lia|lia|done].
  - apply (Hshort 1%nat); simpl; [lia|lia|done].
  - destruct (IH l) as (z & Hz & Hlt); [unfold ltof; simpl; lia|]. exists z. split; [|done].
    cbn [base32_groups decode_bits]. rewrite Hz.
    pose proof (decode_char [a; b; c; d; e] eq_refl) as Hd.
    destruct (index_in _ _ _) as [i|]; [|done]. cbn [option_map] in Hd.
    apply (inj Some) in Hd. by rewrite Hd.
Qed.

Lemma byte_value a : byte_of (value (low 8 (code a))) = a.
Proof. destruct a as [[] [] [] [] [] [] [] []]; vm_compute; reflexivity. Qed.

Lemma bytes_of_bits s z : (z < 8)%nat -> bytes_of (bits_of s ++ repeat false z) = s.
Proof.
  intros Hz. induction s as [|a s IH].
  - simpl. do 8 (destruct z as [|z]; [done|]). lia.
  - cbn [bits_of]. pose proof (byte_value a) as Hb.
    pose proof (length_low 8 (code a)) as Hl. remember (low 8 (code a)) as l.
    do 8 (destruct l as [|? l]; [done|]). destruct l; [|done].
    cbn [app bytes_of]. by rewrite Hb, IH.
Qed.

(** The encoder's shift register computes RFC 4648 base32: the bit string
    of its input cut into groups of five, the last padded with zeros, each
    written with the alphabet's character; and decoding recovers the input, so
    no two secrets are shown to the user as the same text. *)
Theorem encode_base32_correct s :
  encode_base32 s = base32_reference s /\ decode_base32 (encode_base32 s) = Some s.
Proof.
  assert (Heq : encode_base32 s = base32_reference s).
  { unfold encode_base32. change 0 with (N.of_nat 0) at 2. by rewrite base32_loop_spec by lia. }
  split; [done|]. rewrite Heq. unfold base32_reference, decode_base32.
  destruct (decode_groups (bits_of s)) as (z & -> & Hz). simpl. f_equal.
  apply bytes_of_bits. lia.
Qed.
