(* ===== verification/TotpFacts.v ===== *)
(** * What the second factor guarantees *)

From S2P Require Import Prelude RStr RateLimit Schema Sys External Users Net Settings Token TokenFacts Totp.
Local Open Scope Z_scope.

Local Ltac Zify.zify_post_hook ::= Z.to_euclidean_division_equations.

(** ** Six decimal digits *)

Definition digit_char (n : N) : ascii := byte_of (48 + n mod 10).

(** A number below 10^6, zero-padded: what an authenticator displays. *)
Definition six_digits (v : N) : string :=
  String (digit_char (v / 100000)) (String (digit_char (v / 10000)) (String (digit_char (v / 1000))
  (String (digit_char (v / 100)) (String (digit_char (v / 10)) (String (digit_char v) "")))))%N.

Lemma code_byte_of n : (n < 256)%N -> code (byte_of n) = n.
Proof. intros H. unfold code, byte_of. by apply N_ascii_embedding. Qed.

Lemma byte_of_code a : byte_of (code a) = a.
Proof. unfold code, byte_of. apply ascii_N_embedding. Qed.

Lemma is_digit_code a : is_ascii_digit a = true <-> (48 <= code a <= 57)%N.
Proof.
  unfold is_ascii_digit, in_range. rewrite andb_true_iff, !N.leb_le. done.
Qed.

Lemma digit_char_code n : code (digit_char n) = (48 + n mod 10)%N.
Proof. unfold digit_char. apply code_byte_of. lia. Qed.

Lemma digit_char_digit n : is_ascii_digit (digit_char n) = true.
Proof. apply is_digit_code. rewrite digit_char_code. lia. Qed.

Lemma parse_digits_cons a s :
  is_ascii_digit a = true -> parse_digits (String a s) = digits_value (Z.of_N (code a - 48)) s.
Proof. intros Ha. unfold parse_digits. simpl. by rewrite Ha. Qed.

Lemma digits_value_cons acc a s :
  is_ascii_digit a = true ->
  digits_value acc (String a s) = digits_value (acc * 10 + Z.of_N (code a - 48)) s.
Proof. intros Ha. simpl. by rewrite Ha. Qed.

(** One more digit: the number cut [k10 = 10 * k] places up, with the next
    digit appended. *)
Lemma append_digit v k10 k :
  k10 = (k * 10)%N ->
  Z.of_N (v / k10) * 10 + Z.of_N (code (digit_char (v / k)) - 48) = Z.of_N (v / k).
Proof.
  intros ->. rewrite digit_char_code, <- N.Div0.div_div.
  generalize (v / k)%N. intros n. lia.
Qed.

Lemma parse_six_digits v : (v < 10 ^ 6)%N -> parse_digits (six_digits v) = Some (Z.of_N v).
Proof.
  intros Hv. assert (Htop : (v / 1000000 = 0)%N) by (by apply N.div_small).
  unfold six_digits. rewrite parse_digits_cons, !digits_value_cons by apply digit_char_digit.
  pose proof (append_digit v 1000000 100000 eq_refl) as H. rewrite Htop in H.
  change (Z.of_N 0 * 10 + ?x) with x in H. rewrite H. clear H.
  rewrite !append_digit by done. pose proof (append_digit v 10 1 eq_refl) as H.
  rewrite N.div_1_r in H. by rewrite H.
Qed.

(** A digit is the last one of the number it ends, and cutting it off leaves
    the number before it. *)
Lemma cut_digit acc a :
  is_ascii_digit a = true ->
  let n := (acc * 10 + (code a - 48))%N in (n / 10)%N = acc /\ digit_char n = a.
Proof.
  intros Ha%is_digit_code n. assert (n / 10 = acc /\ n mod 10 = code a - 48)%N as [Hd Hm] by (unfold n; lia).
  split; [exact Hd|]. unfold digit_char. rewrite Hm.
  replace (48 + (code a - 48))%N with (code a) by lia. apply byte_of_code.
Qed.

Lemma digits_value_cons_N acc a s :
  is_ascii_digit a = true ->
  digits_value (Z.of_N acc) (String a s) = digits_value (Z.of_N (acc * 10 + (code a - 48))) s.
Proof. intros Ha. rewrite digits_value_cons by done. f_equal. lia. Qed.

(** The same cuts as [six_digits] makes, one place at a time. *)
Lemma six_digits_by_tens v :
  six_digits v =
  let cut := fun n => (n / 10)%N in
  String (digit_char (cut (cut (cut (cut (cut v)))))) (String (digit_char (cut (cut (cut (cut v)))))
  (String (digit_char (cut (cut (cut v)))) (String (digit_char (cut (cut v)))
  (String (digit_char (cut v)) (String (digit_char v) ""))))).
Proof. unfold six_digits. cbv zeta. by rewrite !N.Div0.div_div. Qed.

Lemma six_digits_parse s v :
  String.length s = 6%nat -> all_bytes is_ascii_digit s = true -> parse_digits s = Some v ->
  s = six_digits (Z.to_N v) /\ 0 <= v < 1000000.
Proof.
  destruct s as [|a [|b [|c [|d [|e [|f [|]]]]]]]; intros Hl; simpl in Hl; try lia.
  cbn [all_bytes]. intros Hd. bool_hyp.
  rewrite parse_digits_cons, !digits_value_cons_N by done. cbn [digits_value]. intros [= <-].
  rewrite N2Z.id, six_digits_by_tens. cbv zeta. split.
  - repeat match goal with |- context [digit_char (?acc * 10 + (code ?x - 48))] =>
      destruct (cut_digit acc x ltac:(done)) as [-> ->] end.
    f_equal. symmetry. by destruct (cut_digit 0 a ltac:(done)) as [_ Hchar].
  - repeat match goal with Hx : is_ascii_digit _ = true |- _ => apply is_digit_code in Hx end. lia.
Qed.

Section Verify.
Context {MAC : HmacSha1}.

Lemma hotp_bound secret n : (hotp secret n < 10 ^ 6)%N.
Proof. unfold hotp. by apply N.mod_lt. Qed.

(** The steps a code may match: in the drift window, not before the epoch, not
    used before. *)
Definition eligible (t : Z) (last : option Z) (step : Z) : Prop :=
  0 <= step /\ t / TOTP_PERIOD - 1 <= step <= t / TOTP_PERIOD + 1 /\
  forall l, last = Some l -> l < step.

Lemma first_step_spec secret v last steps :
  let ok := fun step => 0 <= step /\ (forall l, last = Some l -> l < step) /\
                        Z.of_N (hotp secret (Z.to_N step)) = v in
  match first_step secret v last steps with
  | Some step => step ∈ steps /\ ok step
  | None => forall step, step ∈ steps -> ~ ok step
  end.
Proof.
  intros ok. induction steps as [|s steps IH]; simpl; [set_solver|].
  assert (Hskip : ~ ok s -> match first_step secret v last steps with
            | Some step => step ∈ s :: steps /\ ok step
            | None => forall step, step ∈ s :: steps -> ~ ok step end).
  { intros Hn. destruct (first_step secret v last steps); [set_solver|].
    intros step Hs. apply elem_of_cons in Hs as [->|Hs]; [done|by apply IH]. }
  destruct (s <? 0) eqn:E1; bool_hyp.
  { apply Hskip. intros [H _]. lia. }
  destruct (is_some_and last _) eqn:E2.
  { apply Hskip. intros (_ & H & _). destruct last as [l|]; [|done]. simpl in E2. bool_hyp.
    specialize (H l eq_refl). lia. }
  destruct (_ =? v) eqn:E3; bool_hyp.
  - split; [set_solver|]. split; [lia|]. split; [|done].
    intros l ->. simpl in E2. bool_hyp. lia.
  - apply Hskip. by intros (_ & _ & H).
Qed.

(** C29: what a one-time code is checked for.  The code is accepted at a step
    exactly when, trimmed, it is the six-digit form of that step's HOTP value,
    the step is within one period of the clock, and it is later than the last
    step used; a rejection means that no such step exists. *)
Theorem verify_code_correct secret code t last :
  0 <= t ->
  match verify_code secret code t last with
  | Some step => eligible t last step /\ trim code = six_digits (hotp secret (Z.to_N step))
  | None => forall step, eligible t last step ->
            trim code <> six_digits (hotp secret (Z.to_N step))
  end.
Proof.
  intros Ht. unfold verify_code. unfold TOTP_DIGITS.
  destruct (negb _ || negb _) eqn:Eshape.
  { intros step _ Heq. rewrite Heq in Eshape. unfold six_digits in Eshape.
    cbn [all_bytes String.length] in Eshape. by rewrite !digit_char_digit in Eshape. }
  bool_hyp. rewrite parse_unsigned_digits by done.
  assert (Hlen : String.length (trim code) = 6%nat) by lia.
  destruct (parse_digits (trim code)) as [v|] eqn:Ev.
  2:{ intros step _ Heq. rewrite Heq, parse_six_digits in Ev by apply hotp_bound. done. }
  destruct (six_digits_parse _ _ Hlen ltac:(done) Ev) as [Heq Hv].
  cbn [opt_filter]. replace (v <=? u32_max) with true by (symmetry; apply Z.leb_le; unfold u32_max; lia).
  replace (10 ^ 6 <=? v) with false by (symmetry; apply Z.leb_gt; lia).
  replace (t <? 0) with false by (symmetry; apply Z.ltb_ge; lia).
  set (cur := t / TOTP_PERIOD).
  pose proof (first_step_spec secret v last [cur + -1; cur + 0; cur + 1]) as Hfs. cbv zeta in Hfs.
  destruct (first_step _ _ _ _) as [step|].
  - destruct Hfs as (Hin & Hge & Hl & Hval). split.
    + split; [done|]. split; [|done]. fold cur.
      repeat (apply elem_of_cons in Hin as [->|Hin]; [lia|]). by apply elem_of_nil in Hin.
    + by rewrite Heq, <- Hval, N2Z.id.
  - intros step (Hge & Hr & Hl) Hcode. fold cur in Hr. apply (Hfs step).
    + assert (step = cur + -1 \/ step = cur + 0 \/ step = cur + 1) as Hc by lia. set_solver.
    + split; [done|]. split; [done|]. rewrite Hcode, parse_six_digits in Ev by apply hotp_bound.
      by injection Ev.
Qed.

(** Truncation never reads outside the MAC and always yields at most six
    digits. *)
Theorem hotp_in_bounds `{!HmacSha1Laws} secret counter :
  let mac := hmac_sha1 secret (to_be_bytes counter) in
  let offset := N.to_nat (N.land (byte_at mac 19) 15) in
  (19 < String.length mac)%nat /\ (offset + 3 < String.length mac)%nat /\
  (hotp secret counter < 10 ^ 6)%N.
Proof.
  intros mac offset. assert (Hlen : String.length mac = 20%nat) by apply hmac_sha1_length.
  assert (Hoff : (offset <= 15)%nat).
  { unfold offset. change 15%N with (N.ones 4). rewrite N.land_ones.
    pose proof (N.mod_lt (byte_at mac 19) (2 ^ 4) ltac:(done)) as Hm.
    change (2 ^ 4)%N with 16%N in *. lia. }
  rewrite Hlen. split; [lia|]. split; [lia|apply hotp_bound].
Qed.
End Verify.

(** ** Replay *)

Section Replay.
Context {E : Env}.

Definition usable_steps (uid : Uuid) (secret : string) (step : Z) (d : Db) : nat :=
  count (step_unused uid secret step) (user_totps d).

Lemma record_step_spends uid secret step :
  spends (fun w => usable_steps uid secret step (db w)) (fun r => beq r (Ok true)) 0
    (record_step uid secret step).
Proof.
  unfold record_step. apply spends_bind; [apply respects_now; apply _|]. intros t.
  apply spends_exec; [done|]. intros d.
  exists (count (step_unused uid secret step) (user_totps d)). cbn [fst snd]. split.
  - unfold usable_steps. cbn [user_totps with_user_totps]. rewrite count_update_spend; [done|].
    intros u Hu. split; [done|]. unfold step_unused. simpl.
    replace (step <? step) with false by (symmetry; apply Z.ltb_irrefl). apply andb_false_r.
  - destruct (beq (count _ _) 1%nat) eqn:En; cbn [spends ret]; bool_hyp.
    + rewrite En. vm_compute. lia.
    + replace (beq (Ok false) (Ok true)) with false by (symmetry; by apply beq_neq). lia.
Qed.

(** C21: a one-time code is good for one login.  However many logins that
    present it interleave, among requests that do not enrol the factor anew, at
    most one of them records its step. *)
Theorem totp_step_single_use uid secret step n others sched w :
  Forall (bystander (usable_steps uid secret step) (fun r => beq r (Ok true))) others ->
  let s := pool_run sched ((others ++ repeat (record_step uid secret step) n)%list, w) in
  (wins (fun r => beq r (Ok true)) s.1 + usable_steps uid secret step (db s.2)
   <= usable_steps uid secret step (db w))%nat.
Proof. apply pool_single_use, record_step_spends. Qed.

(** Logins with other steps are such bystanders. *)
Lemma record_step_bystander uid secret step uid' secret' step' :
  respects (on_db (fewer (usable_steps uid secret step))) (record_step uid' secret' step').
Proof.
  unfold record_step. respects_walk. unfold fewer, usable_steps. simpl.
  apply count_update_le. intros u _ Hp Hq. unfold step_unused in *. simpl in *. bool_hyp.
  destruct (ut_last_used_step u) as [l|]; simpl in *; bool_hyp;
    repeat (apply andb_true_iff; split); try (by apply beq_eq); try done; apply Z.ltb_lt; lia.
Qed.

End Replay.

Section Recovery.
Context {E : Env} {HA : Hashing}.
Variable non_ascii_uppercase : string -> string.

Definition usable_codes (uid : Uuid) (hash : string) (d : Db) : nat :=
  count (unused_code uid hash) (recovery_codes d).

Lemma consume_recovery_spends uid code :
  let hash := hash_recovery_code non_ascii_uppercase code in
  spends (fun w => usable_codes uid hash (db w)) (fun r => beq r (Ok true)) 0
    (consume_recovery_code non_ascii_uppercase uid code).
Proof.
  intros hash. unfold consume_recovery_code. fold hash.
  apply spends_bind; [apply respects_now; apply _|]. intros t.
  apply spends_exec; [done|]. intros d.
  exists (count (unused_code uid hash) (recovery_codes d)). cbn [fst snd]. split.
  - unfold usable_codes. simpl. rewrite count_update_spend; [done|].
    intros u Hu. split; [done|]. unfold unused_code. simpl. apply andb_false_r.
  - destruct (count _ _) as [|k]; cbn [spends ret]; [|destruct (beq _ _); lia].
    vm_compute. lia.
Qed.

(** A recovery code is good for one login, however the requests that
    present it interleave. *)
Theorem recovery_code_single_use uid code n others sched w :
  let hash := hash_recovery_code non_ascii_uppercase code in
  Forall (bystander (usable_codes uid hash) (fun r => beq r (Ok true))) others ->
  let s := pool_run sched
             ((others ++ repeat (consume_recovery_code non_ascii_uppercase uid code) n)%list, w) in
  (wins (fun r => beq r (Ok true)) s.1 + usable_codes uid hash (db s.2)
   <= usable_codes uid hash (db w))%nat.
Proof. intros hash. apply pool_single_use, consume_recovery_spends. Qed.
End Recovery.

(** ** Enrolment *)

Section Enrolment.
Context {E : Env} {HA : Hashing} {AE : Aead}.

Definition mine (uid : Uuid) (u : UserTotp) : bool := beq (ut_user_id u) uid.

Lemma run_upsert_pending `{!Calm E} uid secret w :
  exists w',
    run (upsert_pending uid secret) w =
      (match upsert_totp uid secret (clock (tick w)) (db w) with
       | Ok (1%nat, d) => (Ok tt, w')
       | Ok _ => (Err (UniqueError "TOTP is already enabled. Disable it first to re-enroll."), w')
       | Err e => (Err e, w')
       end) /\
    db w' = match upsert_totp uid secret (clock (tick w)) (db w) with
            | Ok (1%nat, d) => with_recovery_codes (delete (fun r => beq (rc_user_id r) uid)) d
            | _ => db w
            end.
Proof.
  unfold upsert_pending, transaction. run_calm. rewrite run_atomic_tx. run_calm.
  cbn [stmt run]. rewrite calm. cbn [db bump].
  destruct (upsert_totp uid secret (clock (tick w)) (db w)) as [[n d]|e]; cbn [fst snd].
  - destruct (decide (n = 1%nat)) as [->|Hn].
    + change (beq 1%nat 1%nat) with true. run_calm. eexists. split; [reflexivity|]. done.
    + assert (beq n 1%nat = false) as -> by (by apply beq_neq). run_calm.
      destruct n as [|[|n]]; [|done|]; eexists; (split; [reflexivity|]; done).
  - run_calm. eexists. split; [reflexivity|]. done.
Qed.

(** Enrolment never weakens an account.  While a user's factor is active,
    a new enrolment is refused and changes nothing, even when it comes from a
    request that saw the factor before it was active; otherwise it leaves the
    user exactly one, inactive, factor with the new secret and no recovery
    code, and every other user's factor and codes as they were. *)
Theorem enrolment_safe `{!Calm E} uid secret w :
  (count (mine uid) (user_totps (db w)) <= 1)%nat ->
  exists w' r, run (upsert_pending uid secret) w = (r, w') /\
  ((exists u, u ∈ user_totps (db w) /\ ut_user_id u = uid /\ is_activated u = true) ->
     r = Err (UniqueError "TOTP is already enabled. Disable it first to re-enroll.") /\
     db w' = db w) /\
  (r = Ok tt ->
     (exists u, select (mine uid) (user_totps (db w')) = [u] /\ ut_secret_encrypted u = secret /\
        ut_activated_at u = None /\ ut_last_used_step u = None) /\
     select (fun r => beq (rc_user_id r) uid) (recovery_codes (db w')) = [] /\
     select (fun u => negb (mine uid u)) (user_totps (db w'))
     = select (fun u => negb (mine uid u)) (user_totps (db w)) /\
     select (fun r => negb (beq (rc_user_id r) uid)) (recovery_codes (db w'))
     = select (fun r => negb (beq (rc_user_id r) uid)) (recovery_codes (db w))).
Proof.
  intros Huniq. destruct (run_upsert_pending uid secret w) as (w' & Hrun & Hdb).
  set (t := clock (tick w)) in *. exists w', (run (upsert_pending uid secret) w).1.
  split; [rewrite Hrun; by destruct (upsert_totp uid secret t (db w)) as [[[|[|n]] d]|e]|].
  rewrite Hrun.
  set (pending := fun u => mine uid u && is_none (ut_activated_at u)).
  assert (Hup : upsert_totp uid secret t (db w)
    = if existsb (mine uid) (user_totps (db w))
      then Ok (count pending (user_totps (db w)), with_user_totps (update pending (set_pending secret t)) (db w))
      else if user_exists uid (db w) then Ok (1%nat, with_user_totps (fun rows => (rows ++ [{|
        ut_user_id := uid; ut_secret_encrypted := secret; ut_last_used_step := None;
        ut_activated_at := None; ut_created_at := t; ut_updated_at := t |}])%list) (db w))
      else Err DbError) by reflexivity.
  split.
  - intros (u & Hu & Hid & Hact).
    assert (Hm : mine uid u = true) by (unfold mine; by rewrite Hid, beq_refl).
    assert (Hc0 : count pending (user_totps (db w)) = 0%nat).
    { apply count_zero. intros v Hv. destruct (pending v) eqn:Ep; [|done].
      exfalso. unfold pending in Ep. bool_hyp.
      assert (Heq : v = u); [|subst v; unfold is_activated in Hact; unfold is_none in *; by rewrite Hact in *].
      assert (Hvin : v ∈ select (mine uid) (user_totps (db w))) by (apply elem_of_select; done).
      assert (Huin : u ∈ select (mine uid) (user_totps (db w))) by (apply elem_of_select; done).
      unfold count in Huniq. destruct (select _ _) as [|x [|y l]]; simpl in Huniq; [set_solver| |lia].
      apply list_elem_of_singleton in Hvin, Huin. congruence. }
    assert (Hex : existsb (mine uid) (user_totps (db w)) = true).
    { apply existsb_exists. exists u. split; [by apply list_elem_of_In|done]. }
    rewrite Hex, Hc0 in Hup. rewrite Hup in *. done.
  - intros Hr. destruct (existsb (mine uid) (user_totps (db w))) eqn:Hex.
    + rewrite Hup in *. destruct (count pending (user_totps (db w))) as [|[|n]] eqn:Hc; [done| |done].
      rewrite Hdb. cbn [user_totps recovery_codes with_recovery_codes with_user_totps].
      assert (Hsel : exists u, select (mine uid) (user_totps (db w)) = [u] /\ pending u = true).
      { assert (0 < count pending (user_totps (db w)))%nat as Hpos by lia.
        apply count_pos in Hpos as (u & Hu & Hp). exists u. split; [|done].
        assert (Huin : u ∈ select (mine uid) (user_totps (db w))).
        { apply elem_of_select. unfold pending in Hp. by bool_hyp. }
        unfold count in Huniq. destruct (select _ _) as [|x [|y l]]; simpl in Huniq; [set_solver| |lia].
        by apply list_elem_of_singleton in Huin as ->. }
      destruct Hsel as (u & Hsel & Hp). split; [|split; [apply select_delete|split; [|apply select_not_delete]]].
      * exists (set_pending secret t u). rewrite select_update by done. rewrite Hsel.
        unfold update. simpl. by rewrite Hp.
      * rewrite select_update by done. apply update_id. intros v Hv.
        apply elem_of_select in Hv as [_ Hv]. unfold pending. apply negb_true_iff in Hv. by rewrite Hv.
    + rewrite Hup in *. destruct (user_exists uid (db w)); [|done].
      rewrite Hdb. cbn [user_totps recovery_codes with_recovery_codes with_user_totps].
      rewrite !select_app.
      assert (Hnone : select (mine uid) (user_totps (db w)) = []).
      { destruct (select _ _) as [|x l] eqn:Es; [done|]. assert (Hx : x ∈ x :: l) by set_solver.
        rewrite <- Es in Hx. apply elem_of_select in Hx as [Hx Hm].
        assert (Ht : existsb (mine uid) (user_totps (db w)) = true); [|congruence].
        apply existsb_exists. exists x. split; [by apply list_elem_of_In|done]. }
      rewrite Hnone. unfold select at 1 3, mine at 1 3. simpl. rewrite beq_refl. simpl.
      split; [|split; [apply select_delete|split; [apply app_nil_r|apply select_not_delete]]].
      eexists. split; [reflexivity|]. done.
Qed.

(** An encrypted secret decrypts to the secret that was enrolled. *)
Theorem totp_secret_roundtrip `{!AeadLaws, !HexLaws} secret blob w w' :
  run (encrypt_secret secret) w = (Ok blob, w') ->
  (forall i, String.length (entropy i 12) = 12%nat) ->
  decrypt_secret blob = Ok secret.
Proof.
  intros Hrun Hlen. unfold encrypt_secret in Hrun. run_inv Hrun.
  match goal with Hx : aes_encrypt _ _ _ = Some _ |- _ => rename Hx into Henc end.
  set (nonce := entropy _ 12) in *. unfold decrypt_secret.
  assert (split_once ":" (hex_encode nonce ++ ":" ++ hex_encode a0) = Some (hex_encode nonce, hex_encode a0))
    as ->.
  { apply split_once_spec. split; [done|]. unfold contains_byte. apply any_byte_false.
    eapply all_bytes_impl; [|apply hex_encode_digits]. intros c Hc.
    destruct (beq ":"%char c) eqn:Eb; [|done]. bool_hyp. by subst. }
  rewrite !hex_decode_encode. unfold nonce at 1. rewrite Hlen. change (beq 12%nat 12%nat) with true.
  cbn [negb]. match goal with Hx : totp_kek = Ok _ |- _ => rewrite Hx end.
  by erewrite aes_decrypt_encrypt by eassumption.
Qed.
End Enrolment.

(** ** At concrete inputs *)

Definition demo_code : string := six_digits (hotp (MAC := plain_hmac) "s" 2).

Lemma verify_code_correct_witness :
  verify_code (MAC := plain_hmac) "s" demo_code 65 (Some 1) = Some 2 /\ eligible 65 (Some 1) 2.
Proof.
  assert (Hv : verify_code (MAC := plain_hmac) "s" demo_code 65 (Some 1) = Some 2)
    by (vm_compute; reflexivity).
  split; [exact Hv|].
  pose proof (verify_code_correct (MAC := plain_hmac) "s" demo_code 65 (Some 1) ltac:(lia)) as H.
  rewrite Hv in H. exact (proj1 H).
Defined.

Lemma hotp_in_bounds_witness : (hotp (MAC := plain_hmac) "s" 2 < 10 ^ 6)%N.
Proof.
  exact (proj2 (proj2 (hotp_in_bounds (MAC := plain_hmac) (H := plain_hmac_laws) "s" 2))).
Defined.

Definition demo_totp (activated : option Z) : UserTotp := {|
  ut_user_id := 7; ut_secret_encrypted := "s"; ut_last_used_step := Some 3;
  ut_activated_at := activated; ut_created_at := 0; ut_updated_at := 0 |}.
Definition demo_factor (activated : option Z) : Db :=
  with_user_totps (fun _ => [demo_totp activated]) empty_db.

(** Three logins with step 5 and one with step 4, interleaved. *)
Lemma totp_step_single_use_witness :
  let E := calm_env 0 in
  let other := (_ <~ record_step (E := E) 7 "s" 4 ;; ret false) in
  let s := pool_run [1; 0; 2; 3; 1; 0; 3; 2]%nat
             (([other] ++ repeat (record_step (E := E) 7 "s" 5) 3)%list, start (demo_factor (Some 1))) in
  wins (fun r => beq r (Ok true)) s.1 = 1%nat /\
  (wins (fun r => beq r (Ok true)) s.1 + usable_steps 7 "s" 5 (db s.2) <= 1)%nat.
Proof.
  intros E other s. split; [vm_compute; reflexivity|].
  refine (totp_step_single_use (E := E) 7 "s" 5 3 [other] [1; 0; 2; 3; 1; 0; 3; 2]%nat
            (start (demo_factor (Some 1))) _).
  constructor; [|constructor]. split.
  - apply respects_bind; [apply record_step_bystander|]. intros a. exact I.
  - intros x [a|e]; vm_compute; reflexivity.
Defined.

Lemma recovery_code_single_use_witness :
  let E := calm_env 0 in
  let consume := consume_recovery_code (E := E) (HA := plain_hashing) (fun c => c) 7 "ab-cd" in
  let d := with_recovery_codes (fun _ => [{| rc_id := 1; rc_user_id := 7; rc_code_hash := "#ABCD";
             rc_used_at := None; rc_created_at := 0 |}]) empty_db in
  let s := pool_run [0; 1; 0; 1]%nat (([] ++ repeat consume 2)%list, start d) in
  wins (fun r => beq r (Ok true)) s.1 = 1%nat /\
  (wins (fun r => beq r (Ok true)) s.1 + usable_codes 7 "#ABCD" (db s.2) <= 1)%nat.
Proof.
  intros E consume d s. split; [vm_compute; reflexivity|].
  refine (recovery_code_single_use (E := E) (HA := plain_hashing) (fun c => c) 7 "ab-cd" 2 []
            [0; 1; 0; 1]%nat (start d) _).
  constructor.
Defined.

Lemma enrolment_safe_witness :
  exists w', run (upsert_pending (E := calm_env 0) 7 "t") (start (demo_factor (Some 1)))
    = (Err (UniqueError "TOTP is already enabled. Disable it first to re-enroll."), w') /\
  db w' = demo_factor (Some 1).
Proof.
  destruct (enrolment_safe (E := calm_env 0) 7 "t" (start (demo_factor (Some 1))))
    as (w' & r & Hr & Ha & _); [vm_compute; lia|].
  exists w'. rewrite Hr. destruct Ha as [Heq Hdb]; [|split; [by rewrite Heq|exact Hdb]].
  exists (demo_totp (Some 1)). split; [|done]. simpl. apply list_elem_of_singleton. reflexivity.
Defined.

Lemma totp_secret_roundtrip_witness :
  let E := {| clock := fun _ => 0; instant := fun _ => 0; fault := fun _ => false;
              entropy := fun _ n => String.concat "" (repeat "r"%string n); fresh_uuid := fun _ => 0%N;
              env_var := fun _ => Some (hex_text "0123456789abcdef0123456789abcdef") |} in
  exists blob, (run (encrypt_secret (E := E) (HA := hex_hashing) (AE := plain_aead) "secret") (start empty_db)).1
               = Ok blob /\
  decrypt_secret (E := E) (HA := hex_hashing) (AE := plain_aead) blob = Ok "secret"%string.
Proof.
  intros E. eexists. split; [vm_compute; reflexivity|].
  refine (totp_secret_roundtrip (E := E) (HA := hex_hashing) (AE := plain_aead) "secret" _
            (start empty_db) _ _ _).
  - exact plain_aead_laws.
  - exact hex_hashing_laws.
  - apply run_to. vm_compute. reflexivity.
  - intros i. vm_compute. reflexivity.
Defined.
