(* ===== verification/Application.v ===== *)
(** * Applications ([application.rs])

    The two kinds of application, their storage, the selection of the
    forward-auth policy for a request, and the checks of OIDC clients. *)

From S2P Require Import Prelude RStr RateLimit Schema Sys External Users.
Local Open Scope Z_scope.
Local Open Scope string_scope.

Inductive AppType : Type := ForwardAuth | Oidc.

#[export] Instance AppType_eq_dec : EqDecision AppType.
Proof. solve_decision. Defined.

(** [AppType::as_str] and [from_str] *)
Definition app_type_str (t : AppType) : string :=
  match t with ForwardAuth => "forward_auth" | Oidc => "oidc" end.
Definition app_type_from_str (s : string) : option AppType :=
  if beq s "forward_auth" then Some ForwardAuth
  else if beq s "oidc" then Some Oidc else None.

Record Application := {
  a_id : Uuid;
  a_name : string;
  a_slug : string;
  a_app_type : AppType;
  a_host_pattern : option string;
  a_path_prefix : option string;
  a_required_roles : list string;
  a_enabled : bool;
  a_oidc_client_id : option string;
  a_oidc_redirect_uris : list string;
  a_oidc_post_logout_redirect_uris : list string;
  a_oidc_confidential : bool;
  a_created_at : Z;
  a_updated_at : Z;
  a_oidc_client_secret_hash : option string
}.

Record CreateApplicationInput := {
  cai_name : string;
  cai_slug : string;
  cai_app_type : option AppType;
  cai_host_pattern : option string;
  cai_path_prefix : option string;
  cai_required_roles : option (list string);
  cai_enabled : option bool;
  cai_oidc_redirect_uris : option (list string);
  cai_oidc_post_logout_redirect_uris : option (list string);
  cai_oidc_confidential : option bool
}.

Record UpdateApplicationInput := {
  uai_name : option string;
  uai_host_pattern : option string;
  uai_path_prefix : option string;
  uai_required_roles : option (list string);
  uai_enabled : option bool;
  uai_oidc_redirect_uris : option (list string);
  uai_oidc_post_logout_redirect_uris : option (list string)
}.

Section Application.
Context {E : Env} {HA : Hashing} {UL : UuidLib} {JL : JsonLib} {RX : RegexLib} {URL : UrlLib}.
(** [char::is_alphanumeric] of a character that is not ASCII. *)
Variable non_ascii_alphanumeric : string -> bool.

(** A JSON list of strings in a nullable column. *)
Definition json_column (o : option string) : list string :=
  unwrap_or (match o with Some s => json_to_strings s | None => None end) [].

(** [From<ApplicationRow> for Application] *)
Definition of_row (row : ApplicationRow) : Application := {|
  a_id := ap_id row; a_name := ap_name row; a_slug := ap_slug row;
  a_app_type := unwrap_or (app_type_from_str (ap_app_type row)) ForwardAuth;
  a_host_pattern := ap_host_pattern row; a_path_prefix := ap_path_prefix row;
  a_required_roles := json_column (ap_required_roles row);
  a_enabled := negb (ap_enabled row =? 0)%Z;
  a_oidc_client_id := ap_oidc_client_id row;
  a_oidc_redirect_uris := json_column (ap_oidc_redirect_uris row);
  a_oidc_post_logout_redirect_uris := json_column (ap_oidc_post_logout_redirect_uris row);
  a_oidc_confidential := is_some (ap_oidc_client_secret_hash row);
  a_created_at := ap_created_at row; a_updated_at := ap_updated_at row;
  a_oidc_client_secret_hash := ap_oidc_client_secret_hash row |}.

(** [hash_secret] *)
Definition hash_secret (secret : string) : string := hex_encode (sha256 secret).

(** [generate_client_id] *)
Definition generate_client_id : prog string :=
  bytes <~ random_bytes 16 ;; Ret (hex_encode bytes).

(** [generate_client_secret] *)
Definition generate_client_secret : prog (string * string) :=
  bytes <~ random_bytes 32 ;;
  let plaintext := hex_encode bytes in
  Ret (plaintext, hash_secret plaintext).

(** [Application::new] *)
Definition Application_new (input : CreateApplicationInput) : prog Application :=
  t <~ now ;;
  id <~ new_uuid ;;
  Ret {| a_id := id; a_name := cai_name input; a_slug := cai_slug input;
         a_app_type := unwrap_or (cai_app_type input) ForwardAuth;
         a_host_pattern := cai_host_pattern input; a_path_prefix := cai_path_prefix input;
         a_required_roles := unwrap_or (cai_required_roles input) [];
         a_enabled := unwrap_or (cai_enabled input) true;
         a_oidc_client_id := None;
         a_oidc_redirect_uris := unwrap_or (cai_oidc_redirect_uris input) [];
         a_oidc_post_logout_redirect_uris := unwrap_or (cai_oidc_post_logout_redirect_uris input) [];
         a_oidc_confidential := false; a_created_at := t; a_updated_at := t;
         a_oidc_client_secret_hash := None |}.

Definition set_client (client_id : string) (hash : option string) (a : Application) : Application := {|
  a_id := a_id a; a_name := a_name a; a_slug := a_slug a; a_app_type := Oidc;
  a_host_pattern := a_host_pattern a; a_path_prefix := a_path_prefix a;
  a_required_roles := a_required_roles a; a_enabled := a_enabled a;
  a_oidc_client_id := Some client_id; a_oidc_redirect_uris := a_oidc_redirect_uris a;
  a_oidc_post_logout_redirect_uris := a_oidc_post_logout_redirect_uris a;
  a_oidc_confidential := is_some hash; a_created_at := a_created_at a;
  a_updated_at := a_updated_at a; a_oidc_client_secret_hash := hash |}.

(** [Application::new_oidc] *)
Definition Application_new_oidc (input : CreateApplicationInput)
    : prog (Application * option string) :=
  let confidential := unwrap_or (cai_oidc_confidential input) true in
  app <~ Application_new input ;;
  client_id <~ generate_client_id ;;
  if confidential then
    secret <~ generate_client_secret ;;
    Ret (set_client client_id (Some secret.2) app, Some secret.1)
  else Ret (set_client client_id None app, None).

(** [Application::list], [list_enabled], [get], [get_by_slug],
    [get_by_oidc_client_id] *)
Definition Application_list : M (list Application) :=
  query (fun d => map of_row (order_by ap_name (applications d))).
Definition Application_list_enabled : M (list Application) :=
  query (fun d => map of_row (order_by ap_name (select (fun r => ap_enabled r =? 1)%Z (applications d)))).
Definition Application_get (id : Uuid) : M (option Application) :=
  query (fun d => option_map of_row (fetch (fun r => beq (ap_id r) id) (applications d))).
Definition Application_get_by_slug (slug : string) : M (option Application) :=
  query (fun d => option_map of_row (fetch (fun r => beq (ap_slug r) slug) (applications d))).
Definition get_by_oidc_client_id (client_id : string) : M (option Application) :=
  query (fun d => option_map of_row
    (fetch (fun r => beq (ap_oidc_client_id r) (Some client_id) && beq (ap_app_type r) "oidc")%bool
           (applications d))).

(** [literal_host_pattern] *)
Definition literal_host_pattern (pattern : string) : bool :=
  (negb (is_empty pattern)
   && all_bytes (fun b => is_ascii_alphanumeric b || contains_byte b ".-:_") pattern)%bool.

(** [Application::matches] *)
Definition host_matches (pattern host : string) : bool :=
  if literal_host_pattern pattern then eq_ignore_ascii_case pattern host
  else match regex_build true 10000 ("^(?:" ++ pattern ++ ")$") with
       | Some is_match => is_match host
       | None => false
       end.
Definition matches (a : Application) (host path : string) : bool :=
  (is_none_or (a_host_pattern a) (fun pattern => host_matches pattern host)
   && is_none_or (a_path_prefix a) (fun prefix => starts_with prefix path))%bool.

(** How specific a policy is: compared lexicographically. *)
Definition rank (a : Application) : nat * bool :=
  (match a_path_prefix a with Some p => String.length p | None => 0%nat end,
   is_some_and (a_host_pattern a) literal_host_pattern).

Definition rank_lt (x y : nat * bool) : bool :=
  ((x.1 <? y.1)%nat || ((x.1 =? y.1)%nat && (negb x.2 && y.2)))%bool.

(** The loop of [find_matching]: the policy selected so far and its rank, and
    whether another one has the same rank. *)
Fixpoint select_loop (host path : string) (apps : list Application)
    (selected : option Application) (selected_rank : option (nat * bool)) (ambiguous : bool)
    : option Application * bool :=
  match apps with
  | [] => (selected, ambiguous)
  | app :: apps' =>
      if negb (beq (a_app_type app) ForwardAuth) || negb (matches app host path)
      then select_loop host path apps' selected selected_rank ambiguous
      else
        let r := rank app in
        match selected_rank with
        | Some previous =>
            if rank_lt r previous then select_loop host path apps' selected selected_rank ambiguous
            else if beq r previous then select_loop host path apps' selected selected_rank true
            else select_loop host path apps' (Some app) (Some r) false
        | None => select_loop host path apps' (Some app) (Some r) false
        end
  end.

(** [Application::find_matching] *)
Definition find_matching (host path : string) : M (option Application) :=
  apps <- Application_list ;;
  let '(selected, ambiguous) := select_loop host path apps None None false in
  guard ambiguous Forbidden ;;;
  ret (opt_filter a_enabled selected).

(** [Application::check_access] *)
Definition check_access (a : Application) (user_roles : list string) : bool :=
  match a_required_roles a with
  | [] => true
  | required => existsb (fun r => existsb (beq r) user_roles) required
  end.

(** The loop of [check_access_resolved] that resolves role ids to names. *)
Fixpoint resolve_roles (entries : list string) : M (list string) :=
  match entries with
  | [] => ret []
  | entry :: entries' =>
      names <- match uuid_parse entry with
               | Some id =>
                   role <- Role_get id ;;
                   ret (match role with Some r => [ro_name r] | None => [] end)
               | None => ret [entry]
               end ;;
      rest <- resolve_roles entries' ;;
      ret (names ++ rest)%list
  end.

(** [Application::check_access_resolved] *)
Definition check_access_resolved (a : Application) (user_roles : list string) : M bool :=
  match a_required_roles a with
  | [] => ret true
  | required =>
      required_names <- resolve_roles required ;;
      ret (existsb (fun name => existsb (beq name) user_roles) required_names)
  end.

(** [Application::verify_client_secret] *)
Definition verify_client_secret (a : Application) (presented : string) : bool :=
  match a_oidc_client_secret_hash a with
  | None => false
  | Some hash => beq (hash_secret presented) hash
  end.

(** [validate_redirect_uri], [validate_post_logout_redirect_uri] *)
Definition validate_redirect_uri (a : Application) (uri : string) : bool :=
  existsb (fun u => beq u uri) (a_oidc_redirect_uris a).
Definition validate_post_logout_redirect_uri (a : Application) (uri : string) : bool :=
  existsb (fun u => beq u uri) (a_oidc_post_logout_redirect_uris a).

(** The JSON columns, or the error of the first that does not serialise. *)
Definition json_columns (a : Application) : result AppError (string * string * string) :=
  match json_of_strings (a_required_roles a) with
  | Err e => Err (InternalError ("Failed to serialize roles: " ++ e))
  | Ok roles =>
      match json_of_strings (a_oidc_redirect_uris a) with
      | Err e => Err (InternalError ("Failed to serialize redirect URIs: " ++ e))
      | Ok uris =>
          match json_of_strings (a_oidc_post_logout_redirect_uris a) with
          | Err e => Err (InternalError ("Failed to serialize post-logout URIs: " ++ e))
          | Ok logout => Ok (roles, uris, logout)
          end
      end
  end.

(** [Application::update]: the struct as the caller then holds it. *)
Definition updated (a : Application) (input : UpdateApplicationInput) (t : Z) : Application := {|
  a_id := a_id a; a_name := unwrap_or (uai_name input) (a_name a); a_slug := a_slug a;
  a_app_type := a_app_type a;
  a_host_pattern := match uai_host_pattern input with Some p => Some p | None => a_host_pattern a end;
  a_path_prefix := match uai_path_prefix input with Some p => Some p | None => a_path_prefix a end;
  a_required_roles := unwrap_or (uai_required_roles input) (a_required_roles a);
  a_enabled := unwrap_or (uai_enabled input) (a_enabled a);
  a_oidc_client_id := a_oidc_client_id a;
  a_oidc_redirect_uris := unwrap_or (uai_oidc_redirect_uris input) (a_oidc_redirect_uris a);
  a_oidc_post_logout_redirect_uris :=
    unwrap_or (uai_oidc_post_logout_redirect_uris input) (a_oidc_post_logout_redirect_uris a);
  a_oidc_confidential := a_oidc_confidential a; a_created_at := a_created_at a;
  a_updated_at := t; a_oidc_client_secret_hash := a_oidc_client_secret_hash a |}.

Definition write_columns (a : Application) (roles uris logout : string) (r : ApplicationRow)
    : ApplicationRow := {|
  ap_id := ap_id r; ap_name := a_name a; ap_slug := ap_slug r;
  ap_host_pattern := a_host_pattern a; ap_path_prefix := a_path_prefix a;
  ap_required_roles := Some roles; ap_enabled := if a_enabled a then 1 else 0;
  ap_created_at := ap_created_at r; ap_updated_at := a_updated_at a;
  ap_app_type := ap_app_type r; ap_oidc_client_id := ap_oidc_client_id r;
  ap_oidc_client_secret_hash := ap_oidc_client_secret_hash r;
  ap_oidc_redirect_uris := Some uris; ap_oidc_post_logout_redirect_uris := Some logout |}.

Definition Application_update (self : Application) (input : UpdateApplicationInput) : M Application :=
  t <~ now ;;
  let self := updated self input t in
  ' (roles, uris, logout) <- lift (json_columns self) ;;
  exec (fun d => (tt, with_applications
    (update (fun r => beq (ap_id r) (a_id self)) (write_columns self roles uris logout)) d)) ;;;
  ret self.

(** [Application::delete], with the cascade to authorization codes. *)
Definition Application_delete (id : Uuid) : M bool :=
  affected <- exec (fun d =>
    (count (fun r => beq (ap_id r) id) (applications d),
     with_auth_codes (delete (fun r => beq (ac_application_id r) id))
       (with_applications (delete (fun r => beq (ap_id r) id)) d))) ;;
  ret (0 <? affected)%nat.

(** [Application::save] *)
Definition row_of (a : Application) (roles uris logout : string) : ApplicationRow := {|
  ap_id := a_id a; ap_name := a_name a; ap_slug := a_slug a;
  ap_host_pattern := a_host_pattern a; ap_path_prefix := a_path_prefix a;
  ap_required_roles := Some roles; ap_enabled := if a_enabled a then 1 else 0;
  ap_created_at := a_created_at a; ap_updated_at := a_updated_at a;
  ap_app_type := app_type_str (a_app_type a); ap_oidc_client_id := a_oidc_client_id a;
  ap_oidc_client_secret_hash := a_oidc_client_secret_hash a;
  ap_oidc_redirect_uris := Some uris; ap_oidc_post_logout_redirect_uris := Some logout |}.

Definition Application_save (a : Application) : M unit :=
  ' (roles, uris, logout) <- lift (json_columns a) ;;
  stmt (fun d =>
    insert_checked
      (existsb (fun r => beq (ap_id r) (a_id a) || beq (ap_slug r) (a_slug a)
                         || (is_some (a_oidc_client_id a)
                             && beq (ap_oidc_client_id r) (a_oidc_client_id a)))%bool (applications d))
      true (with_applications (fun t => (t ++ [row_of a roles uris logout])%list)) d).

(** [validate_oidc_redirect_uri] *)
Definition validate_oidc_redirect_uri (uri : string) : result string unit :=
  match url_parse uri with
  | None => Err ("redirect_uri is not a valid URL: " ++ uri)
  | Some parsed =>
      if is_some (url_fragment parsed) then Err ("redirect_uri must not contain a fragment: " ++ uri)
      else
        let host := unwrap_or (url_host_str parsed) "" in
        if beq (url_scheme parsed) "https" then Ok tt
        else if beq (url_scheme parsed) "http" then
          if beq host "localhost" || beq host "127.0.0.1" || beq host "[::1]" then Ok tt
          else Err ("http:// redirect_uris are only allowed for localhost: " ++ uri)
        else if negb (is_empty (url_scheme parsed)) then Ok tt
        else Err ("redirect_uri has no scheme: " ++ uri)
  end.

Definition uri_errors (prefix : string) (uris : list string) : list string :=
  flat_map (fun uri => match validate_oidc_redirect_uri uri with
                       | Ok _ => [] | Err e => [prefix ++ e] end) uris.

(** [Application::validate_input] *)
Definition Application_validate_input (input : CreateApplicationInput) : result AppError unit :=
  let errors :=
    ((if (is_empty (cai_name input) || (128 <? String.length (cai_name input))%nat)%bool
      then ["Application name must be between 1 and 128 characters"] else [])
     ++ (if (is_empty (cai_slug input) || (64 <? String.length (cai_slug input))%nat)%bool
         then ["Slug must be between 1 and 64 characters"] else [])
     ++ (if negb (forallb (fun c => is_alphanumeric non_ascii_alphanumeric c || beq c "-" || beq c "_")%bool
                    (chars (cai_slug input)))
         then ["Slug must contain only alphanumeric characters, hyphens, and underscores"] else [])
     ++ match unwrap_or (cai_app_type input) ForwardAuth with
        | ForwardAuth =>
            (if is_empty (unwrap_or (cai_host_pattern input) "")
             then ["Forward-auth apps require a host pattern"] else [])
            ++ match cai_host_pattern input with
               | Some pattern =>
                   if (negb (is_empty pattern)
                       && is_none (regex_build false 10000 ("^(?:" ++ pattern ++ ")$")))%bool
                   then ["Invalid host pattern regex"] else []
               | None => []
               end
        | Oidc =>
            let uris := unwrap_or (cai_oidc_redirect_uris input) [] in
            (match uris with [] => ["OIDC apps require at least one redirect URI"] | _ => [] end)
            ++ uri_errors "" uris
            ++ uri_errors "post-logout: " (unwrap_or (cai_oidc_post_logout_redirect_uris input) [])
        end)%list in
  match errors with [] => Ok tt | _ => Err (InputError errors) end.
End Application.
