(* ===== verification/ApplicationFacts.v ===== *)
(** * What application policies guarantee *)

From S2P Require Import Prelude RStr RateLimit Schema Sys External Users Application.
Local Open Scope Z_scope.

Section Facts.
Context {E : Env} {HA : Hashing} {UL : UuidLib} {JL : JsonLib} {RX : RegexLib}.

(** ** The policy of a request

    The specification of [find_matching]: among the forward-auth applications
    that match, the one that is strictly the most specific, and nothing when
    that one is disabled.  A tie is refused. *)

(** Longer path prefixes first, then literal hosts before patterns. *)
Definition specificity (a : Application) : nat :=
  (2 * (rank a).1 + if (rank a).2 then 1 else 0)%nat.

Definition candidates (host path : string) (apps : list Application) : list Application :=
  List.filter (fun a => beq (a_app_type a) ForwardAuth && matches a host path) apps.

Definition top (l : list Application) : nat := foldr (fun a m => Nat.max (specificity a) m) 0%nat l.

Definition most_specific (l : list Application) : list Application :=
  List.filter (fun a => (specificity a =? top l)%nat) l.

Definition policy (host path : string) (apps : list Application)
    : result AppError (option Application) :=
  match most_specific (candidates host path apps) with
  | [] => Ok None
  | [a] => Ok (if a_enabled a then Some a else None)
  | _ => Err Forbidden
  end.

Lemma rank_lt_spec a b : rank_lt (rank a) (rank b) = (specificity a <? specificity b)%nat.
Proof.
  unfold rank_lt, specificity. destruct (rank a) as [n x], (rank b) as [m y]. simpl fst. simpl snd.
  apply eq_true_iff_eq.
  rewrite orb_true_iff, !andb_true_iff, Nat.ltb_lt, Nat.eqb_eq, Nat.ltb_lt, negb_true_iff.
  destruct x, y; intuition (try lia; try done).
Qed.

Lemma rank_eq_spec a b : beq (rank a) (rank b) = (specificity a =? specificity b)%nat.
Proof.
  unfold specificity. destruct (rank a) as [n x], (rank b) as [m y]. simpl fst. simpl snd.
  apply eq_true_iff_eq. rewrite beq_eq, Nat.eqb_eq.
  destruct x, y; split; intros Heq; try (injection Heq as ->); try lia; try done; f_equal; lia.
Qed.

Lemma top_app l x : top (l ++ [x]) = Nat.max (top l) (specificity x).
Proof. induction l as [|a l IH]; simpl; [lia|]. rewrite IH. lia. Qed.

Lemma top_ge l a : a ∈ l -> (specificity a <= top l)%nat.
Proof.
  induction l as [|x l IH]; intros Ha; [set_solver|]. simpl.
  apply elem_of_cons in Ha as [->|Ha]; [lia|]. specialize (IH Ha). lia.
Qed.

Lemma top_perm l l' : l ≡ₚ l' -> top l = top l'.
Proof. induction 1; simpl; lia. Qed.

Lemma top_attained l : l <> [] -> exists a, a ∈ l /\ specificity a = top l.
Proof.
  induction l as [|x l IH]; [done|]. intros _. simpl.
  destruct l as [|y l]; [exists x; split; [set_solver|simpl; lia]|].
  destruct IH as (a & Ha & Htop); [done|].
  destruct (Nat.max_spec (specificity x) (top (y :: l))) as [[_ ->]|[_ ->]].
  - exists a. split; [set_solver|done].
  - exists x. split; [set_solver|done].
Qed.

(** What the loop has selected after the candidates [l]. *)
Definition selection (l : list Application) (sel : option Application)
    (r : option (nat * bool)) (amb : bool) : Prop :=
  match sel with
  | None => l = [] /\ r = None /\ amb = false
  | Some a => r = Some (rank a) /\ specificity a = top l /\
              exists rest, most_specific l = a :: rest /\ amb = match rest with [] => false | _ => true end
  end.

Lemma selection_step l x a rest :
  specificity a = top l -> most_specific l = a :: rest ->
  most_specific (l ++ [x]) =
    if (specificity x <? specificity a)%nat then a :: rest
    else if (specificity x =? specificity a)%nat then a :: rest ++ [x]
    else [x].
Proof.
  intros Ha Hl. unfold most_specific in *. rewrite top_app, List.filter_app. cbn [List.filter].
  destruct (specificity x <? specificity a)%nat eqn:E1; bool_hyp.
  - rewrite Nat.max_l by lia. rewrite Hl.
    replace (specificity x =? top l)%nat with false by (symmetry; apply Nat.eqb_neq; lia).
    by rewrite app_nil_r.
  - destruct (specificity x =? specificity a)%nat eqn:E2; bool_hyp.
    + rewrite Nat.max_l by lia. rewrite Hl.
      by replace (specificity x =? top l)%nat with true by (symmetry; apply Nat.eqb_eq; lia).
    + rewrite Nat.max_r by lia. rewrite Nat.eqb_refl.
      assert (List.filter (fun b => (specificity b =? specificity x)%nat) l = []) as ->; [|done].
      assert (Hno : forall b, b ∈ l -> (specificity b =? specificity x)%nat = false).
      { intros b Hb. apply top_ge in Hb. apply Nat.eqb_neq. lia. }
      clear -Hno. induction l as [|b l IH]; [done|]. cbn [List.filter].
      rewrite Hno by set_solver. apply IH. intros c Hc. apply Hno. set_solver.
Qed.

Lemma most_specific_singleton x : most_specific [x] = [x].
Proof. unfold most_specific. simpl. by rewrite Nat.max_0_r, Nat.eqb_refl. Qed.

Lemma select_loop_spec host path apps l sel r amb :
  selection l sel r amb ->
  let '(sel', amb') := select_loop host path apps sel r amb in
  exists r', selection (l ++ candidates host path apps) sel' r' amb'.
Proof.
  revert l sel r amb. induction apps as [|x apps IH]; intros l sel r amb Hs.
  { simpl. rewrite app_nil_r. eauto. }
  change (candidates host path (x :: apps))
    with (if beq (a_app_type x) ForwardAuth && matches x host path
          then x :: candidates host path apps else candidates host path apps).
  cbn [select_loop].
  destruct (beq (a_app_type x) ForwardAuth), (matches x host path);
    cbn [negb andb orb]; try (apply IH; exact Hs).
  replace (l ++ x :: candidates host path apps) with ((l ++ [x]) ++ candidates host path apps)
    by (by rewrite <- app_assoc).
  destruct sel as [a|]; simpl in Hs.
  - destruct Hs as (-> & Ha & rest & Hm & ->).
    pose proof (selection_step l x a rest Ha Hm) as Hstep.
    rewrite rank_lt_spec, rank_eq_spec.
    destruct (specificity x <? specificity a)%nat eqn:E1; [|destruct (specificity x =? specificity a)%nat eqn:E2];
      apply IH; simpl; bool_hyp; (split; [done|]); (split; [rewrite top_app; lia|]).
    + eauto.
    + eexists. split; [exact Hstep|]. by destruct rest.
    + eexists. split; [exact Hstep|done].
  - destruct Hs as (-> & -> & ->). apply IH. simpl. split; [done|]. split; [lia|].
    exists []. split; [apply most_specific_singleton|done].
Qed.

Lemma filter_perm {A} (p : A -> bool) l l' : l ≡ₚ l' -> List.filter p l ≡ₚ List.filter p l'.
Proof.
  induction 1 as [|x l l' _ IH|x y l|l1 l2 l3 _ IH1 _ IH2]; simpl; [done| | |by etrans].
  - destruct (p x); by rewrite IH.
  - destruct (p x), (p y); try done. constructor.
Qed.

Lemma policy_perm host path l l' : l ≡ₚ l' -> policy host path l = policy host path l'.
Proof.
  intros Hp. unfold policy.
  assert (Hm : most_specific (candidates host path l) ≡ₚ most_specific (candidates host path l')).
  { unfold most_specific. assert (Hc : candidates host path l ≡ₚ candidates host path l')
      by (by apply filter_perm).
    rewrite (top_perm _ _ Hc). by apply filter_perm. }
  destruct (most_specific (candidates host path l)) as [|a [|b rest]];
    destruct (most_specific (candidates host path l')) as [|a' [|b' rest']];
    try done; try (apply Permutation_length in Hm; done).
  apply Permutation_singleton_r in Hm. by injection Hm as ->.
Qed.

Lemma select_loop_policy host path apps :
  let '(sel, amb) := select_loop host path apps None None false in
  policy host path apps = if amb then Err Forbidden else Ok (opt_filter a_enabled sel).
Proof.
  pose proof (select_loop_spec host path apps [] None None false ltac:(done)) as Hs.
  destruct (select_loop _ _ _ _ _ _) as [sel amb]. destruct Hs as (r & Hs). simpl in Hs.
  unfold policy. destruct sel as [a|]; simpl in Hs.
  - destruct Hs as (_ & _ & rest & -> & ->). by destruct rest.
  - destruct Hs as (-> & _ & ->). done.
Qed.

Lemma run_find_matching host path w :
  fault (tick w) = false ->
  run (find_matching host path) w = (policy host path (map of_row (applications (db w))), bump w).
Proof.
  intros Hf.
  rewrite <- (policy_perm host path (map of_row (order_by ap_name (applications (db w)))))
    by (apply Permutation_map, order_by_perm).
  unfold find_matching, Application_list. rewrite run_bindM, run_query by done.
  pose proof (select_loop_policy host path (map of_row (order_by ap_name (applications (db w))))) as Hs.
  destruct (select_loop _ _ _ _ _ _) as [sel amb]. rewrite Hs. by destruct amb.
Qed.

Lemma run_find_matching_ok host path o w w' :
  run (find_matching host path) w = (Ok o, w') ->
  w' = bump w /\ policy host path (map of_row (applications (db w))) = Ok o.
Proof.
  intros Hrun. destruct (fault (tick w)) eqn:Hf.
  - unfold find_matching, Application_list in Hrun. rewrite run_bindM in Hrun. simpl in Hrun.
    by rewrite Hf in Hrun.
  - rewrite run_find_matching in Hrun by done. by injection Hrun as -> <-.
Qed.

Lemma policy_Some host path apps a :
  policy host path apps = Ok (Some a) ->
  a ∈ apps /\ a_app_type a = ForwardAuth /\ a_enabled a = true /\ matches a host path = true.
Proof.
  unfold policy. destruct (most_specific _) as [|x [|y l]] eqn:Em; try done.
  destruct (a_enabled x) eqn:Ee; [|done]. intros [= ->].
  assert (Hin : In a (most_specific (candidates host path apps))) by (rewrite Em; by left).
  apply List.filter_In in Hin as [Hin _]. apply List.filter_In in Hin as [Hin Hc]. bool_hyp.
  split; [by apply list_elem_of_In|done].
Qed.

(** C30: the policy of a request is well defined.  The server applies the
    forward-auth application that matches the request and is strictly more
    specific than every other match; when that one is disabled it applies
    none, and when two are equally specific it refuses the request.  So a
    broader application never takes over from a disabled one, and neither the
    order of the rows nor their names matter. *)
Theorem find_matching_policy host path w :
  fault (tick w) = false ->
  run (find_matching host path) w = (policy host path (map of_row (applications (db w))), bump w) /\
  forall rows, rows ≡ₚ applications (db w) ->
    policy host path (map of_row rows) = policy host path (map of_row (applications (db w))).
Proof.
  intros Hf. split; [by apply run_find_matching|].
  intros rows Hr; apply policy_perm; by apply Permutation_map.
Qed.

(** A required-role entry stands for a role's name or, when it is a UUID, for
    the name of that role. *)
Definition entry_names (d : Db) (entry name : string) : Prop :=
  match uuid_parse entry with
  | Some id => exists r, fetch (fun r => beq (ro_id r) id) (roles d) = Some r /\ ro_name r = name
  | None => entry = name
  end.

Lemma run_resolve_roles `{!Calm E} entries w :
  exists names w', run (resolve_roles entries) w = (Ok names, w') /\ db w' = db w /\
    forall name, name ∈ names <-> exists entry, entry ∈ entries /\ entry_names (db w) entry name.
Proof.
  revert w. induction entries as [|entry entries IH]; intros w.
  { exists [], w. split; [done|]. split; [done|]. set_solver. }
  cbn [resolve_roles].
  assert (Hone : exists one w1, run (match uuid_parse entry with
               | Some id => role <- Role_get id ;;
                            ret (match role with Some r => [ro_name r] | None => [] end)
               | None => ret [entry] end) w = (Ok one, w1) /\ db w1 = db w /\
             forall name, name ∈ one <-> entry_names (db w) entry name).
  { unfold entry_names. destruct (uuid_parse entry) as [id|].
    - unfold Role_get. run_calm. eexists _, _. split; [reflexivity|]. split; [done|].
      intros name. destruct (fetch _ _) as [r|]; set_solver.
    - eexists _, _. split; [reflexivity|]. split; [done|]. set_solver. }
  destruct Hone as (one & w1 & H1 & Hdb1 & Hin1). rewrite run_bindM, H1.
  destruct (IH w1) as (rest & w2 & H2 & Hdb2 & Hin2). rewrite run_bindM, H2.
  exists (one ++ rest)%list, w2. split; [done|]. split; [congruence|].
  intros name. rewrite elem_of_app, Hin1, Hin2, Hdb1. set_solver.
Qed.

(** The same for any run that succeeds. *)
Lemma resolve_roles_ok entries names w w' :
  run (resolve_roles entries) w = (Ok names, w') ->
  db w' = db w /\
  forall name, name ∈ names <-> exists entry, entry ∈ entries /\ entry_names (db w) entry name.
Proof.
  revert names w. induction entries as [|entry entries IH]; intros names w Hrun.
  { injection Hrun as <- <-. set_solver. }
  cbn [resolve_roles] in Hrun. apply run_bindM_ok in Hrun as (one & w1 & H1 & Hrun).
  apply run_bindM_ok in Hrun as (rest & w2 & H2 & Hrun). run_inv Hrun.
  apply IH in H2 as [Hdb2 Hin2].
  assert (Hone : db w1 = db w /\ forall name, name ∈ one <-> entry_names (db w) entry name).
  { unfold entry_names. destruct (uuid_parse entry) as [id|]; unfold Role_get in H1; run_inv H1.
    - split; [done|]. intros name. destruct (fetch _ _) as [r|]; set_solver.
    - set_solver. }
  destruct Hone as [Hdb1 Hin1]. split; [congruence|].
  intros name. rewrite elem_of_app, Hin1, Hin2, Hdb1. set_solver.
Qed.

Lemma existsb_elem name (l : list string) : existsb (beq name) l = true <-> name ∈ l.
Proof.
  rewrite existsb_exists. split.
  - intros (x & Hx & Hb). bool_hyp. subst. by apply list_elem_of_In.
  - intros Hn. exists name. split; [by apply list_elem_of_In|apply beq_refl].
Qed.

(** Access to an application needs a role: it is granted exactly when the
    application requires none, or the user holds a role that it requires by
    name or by the id of an existing role; the id of a deleted role grants
    nothing. *)
Theorem check_access_resolved_correct `{!Calm E} a user_roles w :
  exists b w', run (check_access_resolved a user_roles) w = (Ok b, w') /\ db w' = db w /\
    (b = true <-> a_required_roles a = [] \/
       exists entry name, entry ∈ a_required_roles a /\ entry_names (db w) entry name /\
         name ∈ user_roles).
Proof.
  unfold check_access_resolved. destruct (a_required_roles a) as [|entry entries] eqn:Er.
  { exists true, w. split; [done|]. split; [done|]. split; [by left|done]. }
  destruct (run_resolve_roles (entry :: entries) w) as (names & w1 & H1 & Hdb & Hin).
  rewrite run_bindM, H1. eexists _, w1. split; [reflexivity|]. split; [done|].
  rewrite existsb_exists. split.
  - intros (name & Hn & Hu). right. apply list_elem_of_In, Hin in Hn as (e & He & Hen).
    apply existsb_elem in Hu. eauto.
  - intros [?|(e & name & He & Hen & Hu)]; [done|]. exists name. split.
    + apply list_elem_of_In, Hin. eauto.
    + by apply existsb_elem.
Qed.

(** The application admits a holder of these roles. *)
Definition admits (d : Db) (a : Application) (user_roles : list string) : Prop :=
  a_required_roles a = [] \/
  exists entry name, entry ∈ a_required_roles a /\ entry_names d entry name /\ name ∈ user_roles.

Lemma check_access_resolved_ok a user_roles b w w' :
  run (check_access_resolved a user_roles) w = (Ok b, w') ->
  db w' = db w /\ (b = true -> admits (db w) a user_roles).
Proof.
  unfold check_access_resolved, admits. destruct (a_required_roles a) as [|e l] eqn:Er.
  - intros Hrun. run_inv Hrun. by auto.
  - intros Hrun. apply run_bindM_ok in Hrun as (names & w1 & H1 & Hrun). run_inv Hrun.
    apply resolve_roles_ok in H1 as [Hdb Hin]. split; [done|]. intros Hb. right.
    apply existsb_exists in Hb as (name & Hn & Hb). apply existsb_elem in Hb.
    apply list_elem_of_In, Hin in Hn as (entry & He & Hen). eauto.
Qed.

(** *** Storage *)

Lemma of_row_of `{!JsonLaws} a roles uris logout :
  json_columns a = Ok (roles, uris, logout) ->
  a_oidc_confidential a = is_some (a_oidc_client_secret_hash a) ->
  of_row (row_of a roles uris logout) = a.
Proof.
  unfold json_columns.
  destruct (json_of_strings (a_required_roles a)) as [r|] eqn:E1; [|done].
  destruct (json_of_strings (a_oidc_redirect_uris a)) as [u|] eqn:E2; [|done].
  destruct (json_of_strings (a_oidc_post_logout_redirect_uris a)) as [l|] eqn:E3; [|done].
  intros [= <- <- <-] Hc. unfold of_row, row_of, json_column. simpl.
  rewrite (json_strings_roundtrip _ _ E1), (json_strings_roundtrip _ _ E2),
    (json_strings_roundtrip _ _ E3), <- Hc.
  destruct a as [? ? ? ty ? ? ? en ? ? ? ? ? ? ?]. simpl. f_equal; [by destruct ty|by destruct en].
Qed.

(** An application that is saved is the application that is loaded: by
    its id, its slug and its client id; and an update that is saved loads as
    the caller's updated copy, the kind and the client credentials
    unchanged. *)
Theorem application_roundtrip `{!JsonLaws, !Calm E} a w u w' :
  run (Application_save a) w = (Ok u, w') ->
  a_oidc_confidential a = is_some (a_oidc_client_secret_hash a) ->
  (exists w'', run (Application_get (a_id a)) w' = (Ok (Some a), w'')) /\
  (exists w'', run (Application_get_by_slug (a_slug a)) w' = (Ok (Some a), w'')) /\
  (forall cid, a_oidc_client_id a = Some cid -> a_app_type a = Oidc ->
     exists w'', run (get_by_oidc_client_id cid) w' = (Ok (Some a), w'')) /\
  forall input a' w2, run (Application_update a input) w' = (Ok a', w2) ->
    (exists w'', run (Application_get (a_id a)) w2 = (Ok (Some a'), w'')) /\
    a_app_type a' = a_app_type a /\ a_oidc_client_id a' = a_oidc_client_id a /\
    a_oidc_client_secret_hash a' = a_oidc_client_secret_hash a.
Proof.
  intros Hrun Hc. unfold Application_save in Hrun.
  apply run_bindM_ok in Hrun as ([[roles uris] logout] & w1 & Hr & Hrun).
  apply run_lift_ok in Hr as [Hj <-]. run_inv Hrun.
  match goal with Hx : insert_checked _ _ _ _ = _ |- _ => apply insert_checked_ok in Hx as (Hdup & _ & ->) end.
  pose proof (of_row_of a roles uris logout Hj Hc) as Hrow.
  assert (Hnew : forall p, (forall r, r ∈ applications (db w) -> p r = false) ->
            p (row_of a roles uris logout) = true ->
            fetch p (applications (db w) ++ [row_of a roles uris logout]) = Some (row_of a roles uris logout)).
  { intros p Hold Hp. rewrite fetch_app, (proj2 (fetch_None _ _) Hold). simpl. by rewrite Hp. }
  assert (Hd : forall r, r ∈ applications (db w) ->
    ap_id r <> a_id a /\ ap_slug r <> a_slug a /\
    (is_some (a_oidc_client_id a) = true -> ap_oidc_client_id r <> a_oidc_client_id a)).
  { intros r Hr. destruct (orb (orb (beq (ap_id r) (a_id a)) (beq (ap_slug r) (a_slug a)))
      (is_some (a_oidc_client_id a) && beq (ap_oidc_client_id r) (a_oidc_client_id a))) eqn:Eb.
    - exfalso. apply not_true_iff_false in Hdup. apply Hdup, existsb_exists.
      exists r. split; [by apply list_elem_of_In|exact Eb].
    - bool_hyp. split; [done|]. split; [done|]. intros Hs.
      match goal with Hx : _ && _ = false |- _ => rewrite Hs in Hx; simpl in Hx end. by bool_hyp. }
  assert (Hid : fetch (fun r => beq (ap_id r) (a_id a)) (applications (db w) ++ [row_of a roles uris logout])
                = Some (row_of a roles uris logout)).
  { apply Hnew; [|apply beq_refl]. intros r Hr. apply beq_neq. by apply Hd. }
  split; [|split; [|split]].
  - unfold Application_get. run_calm. simpl. rewrite Hid. simpl. rewrite Hrow. eauto.
  - unfold Application_get_by_slug. run_calm. simpl. rewrite Hnew; [|intros r Hr; apply beq_neq; by apply Hd|apply beq_refl].
    simpl. rewrite Hrow. eauto.
  - intros cid Hcid Hty. unfold get_by_oidc_client_id. run_calm. simpl. rewrite Hnew.
    + simpl. rewrite Hrow. eauto.
    + intros r Hr. destruct (Hd r Hr) as (_ & _ & Hne). rewrite Hcid in Hne.
      assert (beq (ap_oidc_client_id r) (Some cid) = false) as ->; [by apply beq_neq, Hne|done].
    + simpl. rewrite Hcid, Hty. by rewrite !beq_refl.
  - intros input a' w2 Hup. unfold Application_update in Hup.
    apply run_bind_eq in Hup as (t & w3 & Hr & Hup). apply run_now in Hr as [-> ->].
    apply run_bindM_ok in Hup as ([[roles' uris'] logout'] & w3 & Hr & Hup).
    apply run_lift_ok in Hr as [Hj' <-]. run_inv Hup. split; [|done].
    unfold Application_get. run_calm. cbn [applications with_applications set_db db].
    rewrite fetch_update_other by done. simpl. rewrite Hid. simpl. rewrite beq_refl. simpl.
    eexists. f_equal. f_equal. f_equal.
    match type of Hj' with json_columns ?x = _ => pose proof (of_row_of x roles' uris' logout' Hj' Hc) as Hx end.
    exact Hx.
Qed.
End Facts.

(** ** At a concrete database

    A wiki whose administration pages have their own, disabled, policy. *)
Module Demo.
#[local] Existing Instances plain_hashing plain_uuid plain_json plain_json_laws.
#[local] Instance demo_regex : RegexLib := {| regex_build := fun _ _ _ => None |}.
#[local] Instance demo_env : Env := calm_env 1000.
#[local] Instance demo_calm : Calm demo_env := calm_env_calm 1000.

Definition app (id : Uuid) (slug : string) (prefix : option string) (roles : list string)
    (on : bool) : Application := {|
  a_id := id; a_name := slug; a_slug := slug; a_app_type := ForwardAuth;
  a_host_pattern := Some "wiki.example"%string; a_path_prefix := prefix;
  a_required_roles := roles; a_enabled := on; a_oidc_client_id := None;
  a_oidc_redirect_uris := []; a_oidc_post_logout_redirect_uris := [];
  a_oidc_confidential := false; a_created_at := 5; a_updated_at := 5;
  a_oidc_client_secret_hash := None |}.
Definition wiki := app 1 "wiki" None ["12"%string; "staff"%string] true.
Definition wiki_admin := app 2 "wiki-admin" (Some "/admin"%string) [] false.

Definition demo_row (a : Application) : ApplicationRow :=
  match json_columns a with
  | Ok (roles, uris, logout) => row_of a roles uris logout
  | Err _ => row_of a ""%string ""%string ""%string
  end.
Definition demo_db : Db :=
  with_roles (fun _ => [{| ro_id := 12; ro_name := "admin"; ro_description := None |}])
  (with_applications (fun _ => [demo_row wiki_admin; demo_row wiki]) empty_db).
Definition w0 : World := start demo_db.

Lemma find_matching_policy_witness :
  fault (tick w0) = false /\
  policy "wiki.example" "/admin/users" (map of_row (applications (db w0))) = Ok None /\
  policy "WIKI.example" "/page" (map of_row (applications (db w0))) = Ok (Some wiki) /\
  run (find_matching "wiki.example" "/admin/users") w0 = (Ok None, bump w0).
Proof.
  split; [reflexivity|]. split; [vm_compute; reflexivity|]. split; [vm_compute; reflexivity|].
  assert (Hf : fault (tick w0) = false) by reflexivity.
  rewrite (proj1 (find_matching_policy "wiki.example" "/admin/users" w0 Hf)).
  vm_compute. reflexivity.
Defined.

Lemma check_access_resolved_correct_witness :
  exists b w', run (check_access_resolved wiki ["admin"%string]) w0 = (Ok b, w') /\ b = true.
Proof.
  destruct (check_access_resolved_correct wiki ["admin"%string] w0) as (b & w' & Hrun & _ & Hb).
  exists b, w'. split; [exact Hrun|]. apply Hb. right. exists "12"%string, "admin"%string.
  split; [left|]. split; [|left].
  exists {| ro_id := 12; ro_name := "admin"; ro_description := None |}.
  split; [vm_compute; reflexivity|reflexivity].
Defined.

Definition blog := app 3 "blog" (Some "/blog"%string) ["reader"%string] true.

Lemma application_roundtrip_witness :
  exists w' w'', run (Application_save blog) w0 = (Ok tt, w') /\
    run (Application_get 3) w' = (Ok (Some blog), w'').
Proof.
  exists (run (Application_save blog) w0).2.
  assert (Hs : run (Application_save blog) w0 = (Ok tt, (run (Application_save blog) w0).2))
    by (apply run_to; vm_compute; reflexivity).
  destruct (application_roundtrip blog w0 tt _ Hs eq_refl) as ((w'' & Hg) & _).
  exists w''. split; [exact Hs|exact Hg].
Defined.
End Demo.
