(* ===== verification/OidcCodes.v ===== *)
(** * Authorization codes ([oidc/codes.rs])

    Issue, exchange and sweep of the single-use codes of the authorization
    code flow, and what an exchange guarantees. *)

From S2P Require Import Prelude RStr RateLimit Schema Sys External Users.
Local Open Scope Z_scope.
Local Open Scope string_scope.

(** [AUTHORIZATION_CODE_LIFETIME] of [oidc/token.rs] *)
Definition AUTHORIZATION_CODE_LIFETIME : Z := 10 * 60.

Record ConsumedCode := {
  cc_application_id : Uuid;
  cc_user_id : Uuid;
  cc_redirect_uri : string;
  cc_scope : string;
  cc_nonce : option string;
  cc_code_challenge : string;
  cc_code_challenge_method : string;
  cc_auth_time : Z;
  cc_session_version : option Z;
  cc_session_exp : option Z
}.

Definition set_consumed (t : Z) (r : AuthCodeRow) : AuthCodeRow := {|
  ac_code_hash := ac_code_hash r; ac_application_id := ac_application_id r;
  ac_user_id := ac_user_id r; ac_redirect_uri := ac_redirect_uri r; ac_scope := ac_scope r;
  ac_nonce := ac_nonce r; ac_code_challenge := ac_code_challenge r;
  ac_code_challenge_method := ac_code_challenge_method r; ac_auth_time := ac_auth_time r;
  ac_expires_at := ac_expires_at r; ac_consumed_at := Some t;
  ac_session_version := ac_session_version r; ac_session_exp := ac_session_exp r |}.

Definition consumed_of (row : AuthCodeRow) : ConsumedCode := {|
  cc_application_id := ac_application_id row; cc_user_id := ac_user_id row;
  cc_redirect_uri := ac_redirect_uri row; cc_scope := ac_scope row; cc_nonce := ac_nonce row;
  cc_code_challenge := ac_code_challenge row;
  cc_code_challenge_method := ac_code_challenge_method row; cc_auth_time := ac_auth_time row;
  cc_session_version := ac_session_version row; cc_session_exp := ac_session_exp row |}.

Section Codes.
Context {E : Env} {HA : Hashing}.

(** [hash_code] *)
Definition hash_code (code : string) : string := hex_encode (sha256 code).

(** [generate_plaintext] *)
Definition generate_plaintext : prog string := bytes <~ random_bytes 32 ;; Ret (hex_encode bytes).

Definition application_exists (id : Uuid) (d : Db) : bool :=
  existsb (fun r => beq (ap_id r) id) (applications d).

(** [issue] *)
Definition issue (application_id user_id : Uuid) (redirect_uri scope : string)
    (nonce : option string) (code_challenge code_challenge_method : string) (auth_time : Z)
    (session_version session_exp : option Z) : M string :=
  plaintext <~ generate_plaintext ;;
  let hash := hash_code plaintext in
  t <~ now ;;
  let expires_at := Z.min (unwrap_or session_exp i64_max) (t + AUTHORIZATION_CODE_LIFETIME)%Z in
  stmt (fun d =>
    insert_checked (existsb (fun r => beq (ac_code_hash r) hash) (auth_codes d))
      (application_exists application_id d && user_exists user_id d)
      (with_auth_codes (fun rows => (rows ++ [{|
         ac_code_hash := hash; ac_application_id := application_id; ac_user_id := user_id;
         ac_redirect_uri := redirect_uri; ac_scope := scope; ac_nonce := nonce;
         ac_code_challenge := code_challenge; ac_code_challenge_method := code_challenge_method;
         ac_auth_time := auth_time; ac_expires_at := expires_at; ac_consumed_at := None;
         ac_session_version := session_version; ac_session_exp := session_exp |}])%list)) d) ;;;
  ret plaintext.

(** [verify_pkce_s256] *)
Definition verify_pkce_s256 (code_verifier code_challenge : string) : bool :=
  if ((String.length code_verifier <? 43) || (128 <? String.length code_verifier))%nat then false
  else if negb (all_bytes (fun b => is_ascii_alphanumeric b || contains_byte b "-._~")
                          code_verifier) then false
  else beq (base64url_encode (sha256 code_verifier)) code_challenge.

(** The rows the consuming [UPDATE] affects. *)
Definition unconsumed (hash : string) (t : Z) (r : AuthCodeRow) : bool :=
  beq (ac_code_hash r) hash && is_none (ac_consumed_at r) && (t <? ac_expires_at r)%Z.

(** [consume] *)
Definition consume (code : string) (application_id : Uuid) (redirect_uri code_verifier : string)
    : M (option ConsumedCode) :=
  let hash := hash_code code in
  t <~ now ;;
  found <- query (fun d => fetch (fun r => beq (ac_code_hash r) hash) (auth_codes d)) ;;
  match found with
  | None => ret None
  | Some row =>
      if is_some (ac_consumed_at row)
         || (ac_expires_at row <=? t)%Z
         || negb (beq (ac_application_id row) application_id)
         || negb (beq (ac_redirect_uri row) redirect_uri)
         || negb (beq (ac_code_challenge_method row) "S256")
         || negb (verify_pkce_s256 code_verifier (ac_code_challenge row))
      then ret None
      else
        affected <- exec (fun d => (count (unconsumed hash t) (auth_codes d),
          with_auth_codes (update (unconsumed hash t) (set_consumed t)) d)) ;;
        if negb (beq affected 1%nat) then ret None else ret (Some (consumed_of row))
  end.

(** [sweep_expired] *)
Definition sweep_expired : M nat :=
  t <~ now ;;
  let cutoff := (t - 3600)%Z in
  exec (fun d => let p := fun r => (ac_expires_at r <? cutoff)%Z in
                 (count p (auth_codes d), with_auth_codes (delete p) d)).
End Codes.

(** ** A code is exchanged at most once *)

Section SingleUse.
Context {E : Env} {HA : Hashing}.

Definition exchanged (r : result AppError (option ConsumedCode)) : bool :=
  match r with Ok (Some _) => true | _ => false end.

Definition open_codes (hash : string) (d : Db) : nat :=
  count (fun r => beq (ac_code_hash r) hash && is_none (ac_consumed_at r)) (auth_codes d).

Lemma consume_spends_code code app uri verifier :
  spends (fun w => open_codes (hash_code code) (db w)) exchanged 0 (consume code app uri verifier).
Proof.
  unfold consume. apply spends_bind; [apply respects_now; apply _|]. intros t.
  apply spends_bindM; [done|apply respects_query; apply _|].
  intros [row|]; [|simpl; lia]. case_match; [simpl; lia|].
  apply spends_exec; [done|]. intros d.
  exists (count (unconsumed (hash_code code) t) (auth_codes d)). cbn [fst snd]. split.
  - unfold open_codes. cbn [auth_codes with_auth_codes]. rewrite count_update_spend; [done|].
    intros r Hr. unfold unconsumed in Hr. simpl. split; [|apply andb_false_r].
    apply andb_true_iff in Hr as [Hr _]. exact Hr.
  - destruct (beq (count _ _) 1%nat) eqn:En; cbn [negb spends ret exchanged]; bool_hyp; lia.
Qed.

(** C20: an authorization code is good for one exchange.  However any number
    of token requests that present it interleave, with requests that do not
    issue that code anew, the number that obtain it is at most the number of
    its unconsumed rows. *)
Theorem authorization_code_single_use code app uri verifier n others sched w :
  Forall (bystander (open_codes (hash_code code)) exchanged) others ->
  let s := pool_run sched ((others ++ repeat (consume code app uri verifier) n)%list, w) in
  (wins exchanged s.1 + open_codes (hash_code code) (db s.2)
   <= open_codes (hash_code code) (db w))%nat.
Proof. apply pool_single_use, consume_spends_code. Qed.

(** The sweep is such a bystander. *)
Lemma sweep_bystander hash : respects (on_db (fewer (open_codes hash))) sweep_expired.
Proof. unfold sweep_expired. respects_walk. apply count_delete_le. Qed.
End SingleUse.

(** ** What an exchange checks *)

Section Exchange.
Context {E : Env} {HA : Hashing}.

(** A row that may be exchanged at [t] by a client. *)
Definition exchangeable (code : string) (app : Uuid) (uri verifier : string) (t : Z)
    (r : AuthCodeRow) : bool :=
  unconsumed (hash_code code) t r && beq (ac_application_id r) app
  && beq (ac_redirect_uri r) uri && beq (ac_code_challenge_method r) "S256"
  && verify_pkce_s256 verifier (ac_code_challenge r).

(** [code_hash] is the table's primary key. *)
Definition distinct_codes (d : Db) : Prop := NoDup (map ac_code_hash (auth_codes d)).

Lemma unconsumed_row hash t r :
  unconsumed hash t r = true <->
  ac_code_hash r = hash /\ ac_consumed_at r = None /\ t < ac_expires_at r.
Proof.
  unfold unconsumed. rewrite !andb_true_iff, beq_eq, Z.ltb_lt.
  destruct (ac_consumed_at r); simpl; naive_solver.
Qed.

(** The checks of [consume] on the row it read. *)
Lemma checks_exchangeable code app uri verifier t row :
  ac_code_hash row = hash_code code ->
  is_some (ac_consumed_at row) || (ac_expires_at row <=? t)%Z ||
  negb (beq (ac_application_id row) app) || negb (beq (ac_redirect_uri row) uri) ||
  negb (beq (ac_code_challenge_method row) "S256") ||
  negb (verify_pkce_s256 verifier (ac_code_challenge row))
  = negb (exchangeable code app uri verifier t row).
Proof.
  intros Hh. unfold exchangeable, unconsumed, is_none.
  rewrite Hh, beq_refl, Z.leb_antisym, !negb_andb. simpl. by rewrite !negb_involutive.
Qed.

(** What an exchange checks.  It succeeds exactly for a code that was
    issued to this client and redirect URI, has not been exchanged or expired,
    and whose S256 challenge the verifier answers; it then returns what was
    authorized and marks that code alone.  In every other case it answers
    nothing and changes nothing: a failed attempt does not invalidate another
    client's code. *)
Theorem code_exchange_correct `{!Calm E} code app uri verifier w :
  distinct_codes (db w) ->
  let t := clock (tick w) in
  let hash := hash_code code in
  exists w',
  run (consume code app uri verifier) w =
    (Ok (option_map consumed_of
           (fetch (exchangeable code app uri verifier t) (auth_codes (db w)))), w') /\
  match fetch (exchangeable code app uri verifier t) (auth_codes (db w)) with
  | Some row =>
      db w' = with_auth_codes (update (fun r => beq (ac_code_hash r) hash) (set_consumed t)) (db w)
  | None => db w' = db w
  end.
Proof.
  intros Hd t hash.
  destruct (fetch_key_unique ac_code_hash hash (exchangeable code app uri verifier t) _ Hd) as [Hf _].
  { intros r Hr. unfold exchangeable in Hr. rewrite !andb_true_iff, unconsumed_row in Hr. by destruct Hr as [[[[[? _] _] _] _] _]. }
  destruct (fetch_key_unique ac_code_hash hash (unconsumed hash t) _ Hd) as [Hf' Hc].
  { intros r Hr. by apply unconsumed_row in Hr as [? _]. }
  unfold consume. fold hash. run_calm. fold t. rewrite Hf.
  destruct (fetch (fun r => beq (ac_code_hash r) hash) (auth_codes (db w))) as [row|] eqn:Ef;
    [|by eexists].
  pose proof Ef as Hrow. apply fetch_Some in Hrow as [Hin Hrow]. bool_hyp.
  rewrite (checks_exchangeable code) by done. simpl opt_filter.
  destruct (exchangeable code app uri verifier t row) eqn:Ee; [|by eexists].
  unfold exchangeable in Ee. bool_hyp.
  match goal with Hx : unconsumed _ _ _ = true |- _ => fold hash in Hx; rename Hx into Hu end.
  simpl negb. cbv iota. run_calm. rewrite Hc, Hf'. simpl opt_filter. rewrite Hu.
  simpl. eexists. split; [reflexivity|]. simpl. apply (f_equal (fun t' => with_auth_codes (fun _ => t') (db w))).
  apply update_ext. intros r Hr. destruct (beq (ac_code_hash r) hash) eqn:Er.
  - bool_hyp. pose proof (fetch_key_elem ac_code_hash _ r Hd Hr) as Hf2. rewrite Er in Hf2.
    congruence.
  - unfold unconsumed. by rewrite Er.
Qed.

(** ** From authorization to exchange *)

(** The verifiers of RFC 7636: 43 to 128 unreserved characters. *)
Definition rfc7636_verifier (v : string) : Prop :=
  (43 <= String.length v <= 128)%nat /\
  all_bytes (fun b => is_ascii_alphanumeric b || contains_byte b "-._~") v = true.

Lemma verify_pkce_correct v challenge :
  verify_pkce_s256 v challenge = true <->
  rfc7636_verifier v /\ challenge = base64url_encode (sha256 v).
Proof.
  unfold verify_pkce_s256, rfc7636_verifier.
  destruct ((String.length v <? 43) || (128 <? String.length v))%nat eqn:El.
  - split; [done|]. intros [[Hl _] _]. apply orb_true_iff in El as [El|El]; apply Nat.ltb_lt in El; lia.
  - apply orb_false_iff in El as [El1 El2]. apply Nat.ltb_ge in El1, El2.
    destruct (all_bytes _ v); simpl; [|naive_solver]. rewrite beq_eq. naive_solver.
Qed.

Lemma issue_ok app uid uri scope nonce challenge method at_ sv se w code w1 :
  run (issue app uid uri scope nonce challenge method at_ sv se) w = (Ok code, w1) ->
  existsb (fun r => beq (ac_code_hash r) (hash_code code)) (auth_codes (db w)) = false /\
  db w1 = with_auth_codes (fun rows => rows ++ [{|
     ac_code_hash := hash_code code; ac_application_id := app; ac_user_id := uid;
     ac_redirect_uri := uri; ac_scope := scope; ac_nonce := nonce; ac_code_challenge := challenge;
     ac_code_challenge_method := method; ac_auth_time := at_;
     ac_expires_at := Z.min (unwrap_or se i64_max)
                        (clock (S (tick w)) + AUTHORIZATION_CODE_LIFETIME);
     ac_consumed_at := None; ac_session_version := sv; ac_session_exp := se |}])%list (db w).
Proof.
  intros Hr. unfold issue, generate_plaintext in Hr. run_inv Hr.
  match goal with Hx : insert_checked _ _ _ _ = _ |- _ => apply insert_checked_ok in Hx as (Hd & _ & ->) end.
  by split.
Qed.

Lemma distinct_insert row d :
  existsb (fun r => beq (ac_code_hash r) (ac_code_hash row)) (auth_codes d) = false ->
  distinct_codes d -> distinct_codes (with_auth_codes (fun rows => rows ++ [row])%list d).
Proof.
  intros He Hd. unfold distinct_codes. simpl. rewrite map_app. apply NoDup_app.
  split; [done|]. split; [|apply NoDup_singleton].
  intros h Hh Hs. apply list_elem_of_singleton in Hs as ->.
  apply list_elem_of_fmap in Hh as (r & Hh & Hr). apply not_true_iff_false in He. apply He.
  apply existsb_exists. exists r. split; [by apply list_elem_of_In|]. apply beq_eq. by symmetry.
Qed.

(** A code that is issued can be exchanged, once.  Until ten minutes
    have passed or the session ends, the client it was issued to obtains for
    it, with the verifier of its challenge, the user, scope, nonce and session
    that were authorized; the same request is refused afterwards. *)
Theorem issued_code_exchanges `{!Calm E} app uid uri scope nonce verifier at_ sv se w code w1 w2 :
  run (issue app uid uri scope nonce (base64url_encode (sha256 verifier)) "S256" at_ sv se) w
    = (Ok code, w1) ->
  distinct_codes (db w) -> rfc7636_verifier verifier ->
  auth_codes (db w2) = auth_codes (db w1) ->
  let deadline := Z.min (unwrap_or se i64_max) (clock (S (tick w)) + 600) in
  exists o w3, run (consume code app uri verifier) w2 = (Ok o, w3) /\
    (clock (tick w2) < deadline ->
       exists c w4, o = Some c /\ cc_user_id c = uid /\ cc_scope c = scope /\ cc_nonce c = nonce /\
       cc_auth_time c = at_ /\ cc_session_version c = sv /\ cc_session_exp c = se /\
       run (consume code app uri verifier) w3 = (Ok None, w4)) /\
    (deadline <= clock (tick w2) -> o = None).
Proof.
  intros Hi Hd Hv H2 deadline. apply issue_ok in Hi as [Hnew Hdb]. rewrite Hdb in H2.
  set (row := {| ac_code_hash := _ |}) in *.
  assert (Hd1 : distinct_codes (with_auth_codes (fun rows => rows ++ [row])%list (db w)))
    by by apply distinct_insert.
  assert (Hd2 : distinct_codes (db w2)) by (unfold distinct_codes; by rewrite H2).
  destruct (code_exchange_correct code app uri verifier w2 Hd2) as (w3 & Hc & Hw3).
  set (t := clock (tick w2)) in *.
  assert (Hin : row ∈ auth_codes (db w2)) by (rewrite H2; simpl; set_solver).
  assert (Hf : fetch (exchangeable code app uri verifier t) (auth_codes (db w2))
               = opt_filter (exchangeable code app uri verifier t) (Some row)).
  { rewrite <- (fetch_key_elem ac_code_hash _ row Hd2 Hin). apply fetch_key_unique; [done|].
    intros r Hr. unfold exchangeable in Hr. rewrite !andb_true_iff, unconsumed_row in Hr.
    by destruct Hr as [[[[[? _] _] _] _] _]. }
  assert (He : exchangeable code app uri verifier t row = (t <? deadline)%Z).
  { unfold exchangeable, unconsumed. simpl. rewrite !beq_refl.
    rewrite (proj2 (verify_pkce_correct verifier _)) by done. simpl. by rewrite !andb_true_r. }
  simpl in Hf. rewrite Hf in Hc, Hw3. rewrite He in Hc, Hw3. eexists _, w3. split; [exact Hc|]. split.
  - intros Ht. apply Z.ltb_lt in Ht. rewrite Ht in Hw3 |- *.
    assert (Hd3 : distinct_codes (db w3)).
    { rewrite Hw3. unfold distinct_codes. simpl. unfold update. rewrite map_map.
      rewrite (map_ext _ ac_code_hash); [exact Hd2|]. intros r. by destruct (beq _ _). }
    destruct (code_exchange_correct code app uri verifier w3 Hd3) as (w4 & Hc' & _).
    eexists _, w4. split; [reflexivity|]. do 6 (split; [done|]).
    rewrite Hc'. rewrite (proj2 (fetch_None _ _)); [done|].
    intros r Hr. rewrite Hw3 in Hr. simpl in Hr. apply elem_of_update in Hr as (r0 & Hr0 & ->).
    unfold exchangeable, unconsumed. destruct (beq (ac_code_hash r0) (hash_code code)) eqn:Er; simpl.
    + by rewrite andb_false_r.
    + by rewrite Er.
  - intros Ht. apply Z.ltb_ge in Ht. by rewrite Ht.
Qed.
End Exchange.

(** ** At a concrete database: one user and one client *)
Module Demo.
#[local] Existing Instances plain_hashing.
#[local] Instance demo_env : Env := calm_env 1000.
#[local] Instance demo_calm : Calm demo_env := calm_env_calm 1000.

Definition verifier : string := "dBjftJeZ4CVP-mB92K27uhbUJU1p1r_wW1gFWFOEjXk".
Definition client : ApplicationRow := {|
  ap_id := 5; ap_name := "RP"; ap_slug := "rp"; ap_host_pattern := None; ap_path_prefix := None;
  ap_required_roles := None; ap_enabled := 1; ap_created_at := 0; ap_updated_at := 0;
  ap_app_type := "oidc"; ap_oidc_client_id := Some "c"; ap_oidc_client_secret_hash := None;
  ap_oidc_redirect_uris := None; ap_oidc_post_logout_redirect_uris := None |}.
Definition ada : UserRow := {|
  u_row := {| u_id := 7; u_username := "ada"; u_name := "Ada"; u_email := None; u_active := true;
              u_created_at := 0; u_updated_at := 0 |}; u_token_version := 2 |}.
Definition w0 : World := start (with_users (fun _ => [ada]) (with_applications (fun _ => [client]) empty_db)).
Definition issuing : M string :=
  issue 5 7 "https://rp/cb" "openid" None (base64url_encode (sha256 verifier)) "S256" 900 (Some 2)%Z None.
Definition code : string := match (run issuing w0).1 with Ok c => c | Err _ => "" end.
Definition w1 : World := (run issuing w0).2.

Lemma issued : run issuing w0 = (Ok code, w1).
Proof. apply run_to. vm_compute. reflexivity. Qed.

Lemma no_codes : distinct_codes (db w0).
Proof. constructor. Qed.

Lemma good_verifier : rfc7636_verifier verifier.
Proof. split; [split; apply Nat.leb_le; vm_compute; reflexivity|vm_compute; reflexivity]. Qed.

Lemma issued_code_exchanges_witness :
  exists c w3, run (consume code 5 "https://rp/cb" verifier) w1 = (Ok (Some c), w3) /\
    cc_user_id c = 7%N.
Proof.
  destruct (issued_code_exchanges 5 7 "https://rp/cb" "openid" None verifier 900 (Some 2)%Z None w0
              code w1 w1 issued no_codes good_verifier eq_refl) as (o & w3 & Hr & Ho & _).
  destruct Ho as (c & w4 & -> & Hu & _); [vm_compute; reflexivity|].
  exists c, w3. split; [exact Hr|exact Hu].
Defined.

Lemma one_code : distinct_codes (db w1).
Proof. refine (bool_decide_eq_true_1 _ _). vm_compute. reflexivity. Qed.

(** Another client's attempt leaves the code for its owner. *)
Lemma code_exchange_correct_witness :
  exists w', run (consume code 6 "https://rp/cb" verifier) w1 = (Ok None, w') /\ db w' = db w1.
Proof.
  destruct (code_exchange_correct code 6 "https://rp/cb" verifier w1 one_code) as (w' & Hr & Hdb).
  assert (Hn : fetch (exchangeable code 6 "https://rp/cb" verifier (clock (tick w1)))
                 (auth_codes (db w1)) = None) by (vm_compute; reflexivity).
  exists w'. rewrite Hn in Hr, Hdb. split; [exact Hr|exact Hdb].
Defined.

(** Two token requests race, and the sweep runs between them. *)
Definition sweeping : prog (result AppError (option ConsumedCode)) :=
  r <~ sweep_expired ;; Ret (match r with Ok _ => Ok None | Err e => Err e end).
Definition race : list (prog (result AppError (option ConsumedCode))) * World :=
  pool_run [1; 2; 1; 2; 0; 0; 1; 2]%nat
    (([sweeping] ++ repeat (consume code 5 "https://rp/cb" verifier) 2)%list, w1).

Lemma authorization_code_single_use_witness :
  wins exchanged race.1 = 1%nat /\
  (wins exchanged race.1 + open_codes (hash_code code) (db race.2)
   <= open_codes (hash_code code) (db w1))%nat.
Proof.
  split; [vm_compute; reflexivity|].
  refine (authorization_code_single_use code 5 "https://rp/cb" verifier 2 [sweeping]
            [1; 2; 1; 2; 0; 0; 1; 2]%nat w1 _).
  constructor; [|constructor]. split.
  - apply respects_bind; [apply sweep_bystander|]. intros a. exact I.
  - intros z [n|e]; reflexivity.
Defined.
End Demo.
