(* ===== verification/OidcToken.v ===== *)
(** * OpenID Connect tokens ([oidc/token.rs])

    The claims an ID token and an OIDC access token carry, their issue, and
    the verification of an access token at the userinfo endpoint. *)

From S2P Require Import Prelude RStr RateLimit Schema Sys External Application OidcCodes.
Local Open Scope Z_scope.
Local Open Scope string_scope.

Definition OIDC_ACCESS_TOKEN_LIFETIME : Z := 60 * 60.
Definition ID_TOKEN_LIFETIME : Z := 60 * 60.
Definition SCOPE_OPENID : string := "openid".
Definition SCOPE_PROFILE : string := "profile".
Definition SCOPE_EMAIL : string := "email".
Definition SCOPE_ROLES : string := "roles".

Record IdTokenClaims := {
  id_iss : string;
  id_sub : string;
  id_aud : string;
  id_exp : Z;
  id_iat : Z;
  id_auth_time : Z;
  id_session_version : option Z;
  id_nonce : option string;
  id_name : option string;
  id_preferred_username : option string;
  id_updated_at : option Z;
  id_email : option string;
  id_email_verified : option bool;
  id_roles : option (list string)
}.

Record OidcAccessClaims := {
  oa_iss : string;
  oa_sub : string;
  oa_aud : string;
  oa_exp : Z;
  oa_iat : Z;
  oa_jti : string;
  oa_scope : string;
  oa_typ : string;
  oa_session_version : option Z
}.

#[export] Instance IdTokenClaims_eq_dec : EqDecision IdTokenClaims.
Proof. solve_decision. Defined.
#[export] Instance OidcAccessClaims_eq_dec : EqDecision OidcAccessClaims.
Proof. solve_decision. Defined.

#[export] Instance IdTokenClaims_registered : Registered IdTokenClaims := {
  reg_iss := id_iss; reg_aud := id_aud; reg_exp := id_exp;
  reg_present := ["iss"; "sub"; "aud"; "exp"; "iat"; "auth_time"] }.
#[export] Instance OidcAccessClaims_registered : Registered OidcAccessClaims := {
  reg_iss := oa_iss; reg_aud := oa_aud; reg_exp := oa_exp;
  reg_present := ["iss"; "sub"; "aud"; "exp"; "iat"; "jti"; "scope"; "typ"] }.

Record TokenResponse := {
  tr_access_token : string;
  tr_id_token : string;
  tr_token_type : string;
  tr_expires_in : Z;
  tr_scope : string
}.

(** [parse_scope] *)
Definition add_scope (out : list string) (token : string) : list string :=
  if existsb (beq token) out then out else (out ++ [token])%list.
Definition parse_scope (s : string) : list string := foldl add_scope [] (split_whitespace s).

(** [scope_contains] *)
Definition scope_contains (scope : list string) (needle : string) : bool :=
  existsb (fun s => beq s needle) scope.

Section OidcToken.
Context {E : Env} {ED : Ed25519} {UL : UuidLib} {JI : JwtCodec IdTokenClaims}
        {JO : JwtCodec OidcAccessClaims}.

(** [build_id_token_claims] *)
Definition build_id_token_claims (issuer client_id : string) (user : User)
    (user_roles scope : list string) (nonce : option string) (auth_time now : Z)
    : IdTokenClaims :=
  let profile := scope_contains scope SCOPE_PROFILE in {|
  id_iss := issuer; id_sub := uuid_to_string (u_id user); id_aud := client_id;
  id_exp := now + ID_TOKEN_LIFETIME; id_iat := now; id_auth_time := auth_time;
  id_session_version := None; id_nonce := nonce;
  id_name := if profile then Some (u_name user) else None;
  id_preferred_username := if profile then Some (u_username user) else None;
  id_updated_at := if profile then Some (u_updated_at user) else None;
  id_email := if scope_contains scope SCOPE_EMAIL then u_email user else None;
  id_email_verified := None;
  id_roles := if scope_contains scope SCOPE_ROLES then Some user_roles else None |}%Z.

(** [encoding_key] *)
Definition encoding_key (signing_key : SigningKey) : result AppError string :=
  map_err (fun e => InternalError ("Failed to encode signing key: " ++ e))
          (to_pkcs8_der signing_key).

(** [encode_id_token] *)
Definition encode_id_token (claims : IdTokenClaims) (signing_key : SigningKey) (kid : string)
    : result AppError string :=
  match encoding_key signing_key with
  | Err e => Err e
  | Ok key => map_err (fun e => InternalError ("Failed to encode id_token: " ++ e))
                (jwt_encode (Some kid) claims key)
  end.

(** [generate_oidc_access_token] *)
Definition oidc_access_claims (issuer : string) (user_id : Uuid) (client_id : string)
    (scope : list string) (session_version session_exp : option Z) (now : Z) (jti : Uuid)
    : OidcAccessClaims := {|
  oa_iss := issuer; oa_sub := uuid_to_string user_id; oa_aud := client_id;
  oa_exp := Z.min (now + OIDC_ACCESS_TOKEN_LIFETIME) (unwrap_or session_exp i64_max);
  oa_iat := now; oa_jti := uuid_to_string jti; oa_scope := join " " scope;
  oa_typ := "oidc_access"; oa_session_version := session_version |}%Z.

Definition generate_oidc_access_token (issuer : string) (user_id : Uuid) (client_id : string)
    (scope : list string) (signing_key : SigningKey) (kid : string)
    (session_version session_exp : option Z) : M string :=
  t <~ now ;;
  jti <~ new_uuid ;;
  let claims := oidc_access_claims issuer user_id client_id scope session_version session_exp t jti in
  key <- lift (encoding_key signing_key) ;;
  lift (map_err (fun e => InternalError ("Failed to encode access token: " ++ e))
          (jwt_encode (Some kid) claims key)).

(** [verify_oidc_access_token] *)
Definition oidc_validation (issuer : string) : Validation := {|
  v_leeway := 0; v_validate_exp := true; v_validate_aud := false;
  v_required := ["sub"; "exp"; "iat"; "jti"; "typ"; "iss"];
  v_iss := Some [issuer]; v_aud := None |}.

Definition verify_oidc_access_token (token issuer : string) (signing_key : SigningKey)
    : M OidcAccessClaims :=
  t <~ now ;;
  claims <- require (jwt_decode (verifying_key signing_key) (oidc_validation issuer) t token)
              AuthenticationRequired ;;
  guard (negb (beq (oa_typ claims) "oidc_access")) AuthenticationRequired ;;;
  t' <~ now ;;
  guard (oa_exp claims <=? t')%Z AuthenticationRequired ;;;
  ret claims.

Definition with_session (session_version session_exp : option Z) (c : IdTokenClaims)
    : IdTokenClaims := {|
  id_iss := id_iss c; id_sub := id_sub c; id_aud := id_aud c;
  id_exp := Z.min (id_exp c) (unwrap_or session_exp i64_max); id_iat := id_iat c;
  id_auth_time := id_auth_time c; id_session_version := session_version; id_nonce := id_nonce c;
  id_name := id_name c; id_preferred_username := id_preferred_username c;
  id_updated_at := id_updated_at c; id_email := id_email c;
  id_email_verified := id_email_verified c; id_roles := id_roles c |}.

(** [mint_token_pair] *)
Definition mint_token_pair (issuer : string) (app : Application) (user : User)
    (user_roles scope : list string) (nonce : option string) (auth_time : Z)
    (signing_key : SigningKey) (kid : string) (session_version session_exp : option Z)
    : M TokenResponse :=
  client_id <- require (a_oidc_client_id app) (InternalError "OIDC app has no client_id") ;;
  t <~ now ;;
  let id_claims := with_session session_version session_exp
    (build_id_token_claims issuer client_id user user_roles scope nonce auth_time t) in
  id_token <- lift (encode_id_token id_claims signing_key kid) ;;
  access_token <- generate_oidc_access_token issuer (u_id user) client_id scope signing_key kid
                    session_version session_exp ;;
  ret {| tr_access_token := access_token; tr_id_token := id_token; tr_token_type := "Bearer";
         tr_expires_in := Z.max (id_exp id_claims - t) 0; tr_scope := join " " scope |}%Z.
End OidcToken.

(** ** What a token response holds *)

Section Facts.
Context {E : Env} {ED : Ed25519} {UL : UuidLib} {JI : JwtCodec IdTokenClaims}
        {JO : JwtCodec OidcAccessClaims}.

Lemma encoding_key_ok key k : encoding_key key = Ok k <-> to_pkcs8_der key = Ok k.
Proof. apply map_err_Ok. Qed.

Lemma mint_token_pair_ok issuer app user roles scope nonce at_ key kid sv se r w w' :
  run (mint_token_pair issuer app user roles scope nonce at_ key kid sv se) w = (Ok r, w') ->
  exists client_id der jti,
    let t := clock (tick w) in
    let id_claims := with_session sv se
      (build_id_token_claims issuer client_id user roles scope nonce at_ t) in
    a_oidc_client_id app = Some client_id /\ to_pkcs8_der key = Ok der /\
    jwt_encode (Some kid) id_claims der = Ok (tr_id_token r) /\
    jwt_encode (Some kid) (oidc_access_claims issuer (u_id user) client_id scope sv se
                             (clock (S (tick w))) jti) der = Ok (tr_access_token r) /\
    tr_expires_in r = Z.max (id_exp id_claims - t) 0 /\ tr_scope r = join " " scope /\
    db w' = db w.
Proof.
  intros Hrun. unfold mint_token_pair, generate_oidc_access_token, encode_id_token in Hrun.
  run_inv Hrun. destruct (encoding_key key) as [der|] eqn:Ek; [|done].
  apply encoding_key_ok in Ek. simplify_eq. rewrite !map_err_Ok in *.
  do 3 eexists. cbn zeta. do 6 (split; [eassumption || reflexivity|]). done.
Qed.

Lemma scope_contains_spec scope s : scope_contains scope s = true <-> s ∈ scope.
Proof.
  unfold scope_contains. rewrite existsb_exists, list_elem_of_In. split.
  - intros (x & Hx & Hb). bool_hyp. by subst.
  - intros Hs. exists s. split; [done|apply beq_refl].
Qed.

(** The claims a scope releases. *)
Definition released (scope : list string) (user : User) (roles : list string) (c : IdTokenClaims) : Prop :=
  id_name c = (if scope_contains scope SCOPE_PROFILE then Some (u_name user) else None) /\
  id_preferred_username c
    = (if scope_contains scope SCOPE_PROFILE then Some (u_username user) else None) /\
  id_email c = (if scope_contains scope SCOPE_EMAIL then u_email user else None) /\
  id_roles c = (if scope_contains scope SCOPE_ROLES then Some roles else None) /\
  id_email_verified c = None.

(** What a relying party checks of an ID token (OIDC Core 3.1.3.7). *)
Definition rp_validation (issuer client_id : string) : Validation := {|
  v_leeway := 0; v_validate_exp := true; v_validate_aud := true;
  v_required := ["sub"; "exp"; "iat"; "iss"; "aud"];
  v_iss := Some [issuer]; v_aud := Some [client_id] |}.

Lemma expires_in_max a b D :
  Z.max (Z.min (a + 3600) D - a) 0 = b -> (b = Z.max 0 (Z.min 3600 (D - a)))%Z.
Proof. lia. Qed.

(** What a token response is worth.  The ID token verifies at the client
    it was issued to and tells it the user, the nonce and the time of the
    login, and of the rest exactly what the scope releases; the access token
    verifies at this server as the same user, client and scope.  Neither
    outlives an hour or the session, and the announced lifetime is the time
    left. *)
Theorem minted_tokens_correct `{!JwtLaws IdTokenClaims, !JwtLaws OidcAccessClaims, !Calm E,
    !MonotoneClock E} issuer app user roles scope nonce at_ key kid sv se r w w' :
  run (mint_token_pair issuer app user roles scope nonce at_ key kid sv se) w = (Ok r, w') ->
  let deadline t := Z.min (t + 3600) (unwrap_or se i64_max) in
  let t0 := clock (tick w) in
  exists client_id, a_oidc_client_id app = Some client_id /\
    tr_expires_in r = Z.max 0 (Z.min 3600 (unwrap_or se i64_max - t0)) /\
    (forall n, (n <= deadline t0)%Z ->
       exists c, jwt_decode (verifying_key key) (rp_validation issuer client_id) n (tr_id_token r) = Some c /\
         id_sub c = uuid_to_string (u_id user) /\ id_nonce c = nonce /\ id_auth_time c = at_ /\
         id_session_version c = sv /\ id_exp c = deadline t0 /\ released scope user roles c) /\
    (forall w2, (clock (S (tick w2)) < deadline t0)%Z ->
       exists c, run (verify_oidc_access_token (tr_access_token r) issuer key) w2
                   = (Ok c, bump (bump w2)) /\
         oa_sub c = uuid_to_string (u_id user) /\ oa_aud c = client_id /\
         oa_scope c = join " " scope /\ oa_session_version c = sv) /\
    (forall w2 c w3, run (verify_oidc_access_token (tr_access_token r) issuer key) w2 = (Ok c, w3) ->
       (clock (S (tick w2)) < unwrap_or se i64_max)%Z).
Proof.
  intros Hrun deadline t0. apply mint_token_pair_ok in Hrun
    as (client_id & der & jti & Hc & Hder & Hid & Hacc & Hin & _ & _).
  exists client_id. split; [done|]. split; [simpl in Hin; by apply expires_in_max|].
  pose proof (clock_mono (tick w) (S (tick w)) ltac:(lia)) as Hmono. fold t0 in Hid, Hmono.
  split; [|split].
  - intros n Hn. eexists. split.
    + eapply jwt_decode_encode; [exact Hder|exact Hid|]. unfold validates. simpl.
      rewrite !beq_refl. simpl. rewrite Z.sub_0_r, !andb_true_r. apply Z.leb_le. exact Hn.
    + by repeat split.
  - intros w2 Ht. pose proof (clock_mono (tick w2) (S (tick w2)) ltac:(lia)) as Hm2.
    unfold deadline in Ht. eexists. split.
    + unfold verify_oidc_access_token. run_calm.
      erewrite jwt_decode_encode; [|exact Hder|exact Hacc|].
      2: { unfold validates. simpl. rewrite !beq_refl. simpl. rewrite Z.sub_0_r, !andb_true_r.
           apply Z.leb_le. unfold OIDC_ACCESS_TOKEN_LIFETIME. lia. }
      run_calm. change (beq (oa_typ _) _) with true. run_calm. simpl oa_exp.
      match goal with |- context [guard ?b _] =>
        replace b with false by (symmetry; apply Z.leb_gt; unfold OIDC_ACCESS_TOKEN_LIFETIME; lia) end.
      reflexivity.
    + by repeat split.
  - intros w2 c w3 Hv. unfold verify_oidc_access_token in Hv. run_inv Hv.
    match goal with Hd : jwt_decode _ _ _ _ = Some _ |- _ =>
      pose proof (jwt_decode_encoded _ _ _ _ _ _ _ _ Hder Hacc Hd) as -> end.
    bool_hyp. simpl in *. unfold OIDC_ACCESS_TOKEN_LIFETIME in *. lia.
Qed.
End Facts.

(** ** At a concrete client *)
Module Demo.
#[local] Existing Instances plain_ed25519 plain_uuid.
#[local] Instance demo_env : Env := calm_env 1000.
#[local] Instance demo_calm : Calm demo_env := calm_env_calm 1000.
#[local] Instance demo_mono : MonotoneClock demo_env := calm_env_mono 1000.

Definition client : Application := {|
  a_id := 5; a_name := "RP"; a_slug := "rp"; a_app_type := Oidc; a_host_pattern := None;
  a_path_prefix := None; a_required_roles := []; a_enabled := true; a_oidc_client_id := Some "c";
  a_oidc_redirect_uris := ["https://rp/cb"]; a_oidc_post_logout_redirect_uris := [];
  a_oidc_confidential := false; a_created_at := 0; a_updated_at := 0;
  a_oidc_client_secret_hash := None |}.
Definition ada : User := {|
  u_id := 7; u_username := "ada"; u_name := "Ada"; u_email := Some "ada@example.com";
  u_active := true; u_created_at := 0; u_updated_at := 0 |}.
Definition scope : list string := parse_scope "openid email openid".

Definition id_claims : IdTokenClaims :=
  with_session (Some 2)%Z (Some 2500)%Z
    (build_id_token_claims "https://id" "c" ada ["admin"] scope (Some "n") 900 1000).
Definition access_claims : OidcAccessClaims :=
  oidc_access_claims "https://id" 7 "c" scope (Some 2)%Z (Some 2500)%Z 1001 2.
#[local] Instance demo_id : JwtCodec IdTokenClaims := table_jwt [("I", ("k", id_claims))].
#[local] Instance demo_access : JwtCodec OidcAccessClaims := table_jwt [("O", ("k", access_claims))].

Lemma one_token {A} (name : string) (x : A) : NoDup (fst <$> [(name, x)]).
Proof. apply NoDup_singleton. Qed.
#[local] Instance demo_id_laws : @JwtLaws IdTokenClaims plain_ed25519 demo_id _ :=
  table_jwt_laws _ (one_token _ _).
#[local] Instance demo_access_laws : @JwtLaws OidcAccessClaims plain_ed25519 demo_access _ :=
  table_jwt_laws _ (one_token _ _).

Definition minting : M TokenResponse :=
  mint_token_pair "https://id" client ada ["admin"] scope (Some "n") 900 "k" "kid" (Some 2)%Z (Some 2500)%Z.
Definition response : TokenResponse := {|
  tr_access_token := "O"; tr_id_token := "I"; tr_token_type := "Bearer"; tr_expires_in := 1500;
  tr_scope := "openid email" |}.
Definition w0 : World := start empty_db.

Lemma minted_tokens_correct_witness :
  exists c, run (verify_oidc_access_token "O" "https://id" "k") w0 = (Ok c, bump (bump w0)) /\
    oa_scope c = "openid email".
Proof.
  assert (Hr : run minting w0 = (Ok response, (run minting w0).2))
    by (apply run_to; vm_compute; reflexivity).
  destruct (minted_tokens_correct "https://id" client ada ["admin"] scope (Some "n") 900 "k" "kid"
              (Some 2)%Z (Some 2500)%Z response w0 _ Hr) as (cid & _ & _ & _ & Hv & _).
  destruct (Hv w0) as (c & Hc & _ & _ & Hs & _); [vm_compute; reflexivity|].
  exists c. split; [exact Hc|exact Hs].
Defined.
End Demo.
