(* ===== verification/Forward.v ===== *)
(** * Forward-auth credentials ([user/auth/forward.rs])

    The single-use handoff that carries a login from the server's own origin
    to a protected application's, and the session credential it is redeemed
    for. *)

From S2P Require Import Prelude RStr RateLimit Schema Sys External Users Net Settings Token.
Local Open Scope Z_scope.
Local Open Scope string_scope.

Definition SESSION_COOKIE : string := "__Host-authere_forward".
Definition STATE_COOKIE : string := "__Host-authere_forward_state".
Definition ISSUER : string := "authere-forward".

Record ForwardSession := {
  fs_sub : Uuid;
  fs_application_id : Uuid;
  fs_iss : string;
  fs_aud : string;
  fs_iat : Z;
  fs_exp : Z;
  fs_session_version : option Z;
  fs_typ : string
}.

Record Handoff := {
  h_session : ForwardSession;
  h_state_hash : string;
  h_redirect_path : string;
  h_jti : string;
  h_iss : string;
  h_aud : string;
  h_exp : Z;
  h_typ : string
}.

#[export] Instance ForwardSession_eq_dec : EqDecision ForwardSession.
Proof. solve_decision. Defined.
#[export] Instance Handoff_eq_dec : EqDecision Handoff.
Proof. solve_decision. Defined.

#[export] Instance ForwardSession_registered : Registered ForwardSession := {
  reg_iss := fs_iss; reg_aud := fs_aud; reg_exp := fs_exp;
  reg_present := ["sub"; "application_id"; "iss"; "aud"; "iat"; "exp"; "session_version"; "typ"] }.
#[export] Instance Handoff_registered : Registered Handoff := {
  reg_iss := h_iss; reg_aud := h_aud; reg_exp := h_exp;
  reg_present := ["session"; "state_hash"; "redirect_path"; "jti"; "iss"; "aud"; "exp"; "typ"] }.

(** [valid_state] *)
Definition valid_state (state : string) : bool :=
  beq (String.length state) 64%nat && all_bytes is_ascii_hexdigit state.

(** [session_cookie] and [state_cookie] *)
Definition session_cookie (token : string) (lifetime : Z) : string :=
  SESSION_COOKIE ++ "=" ++ token ++ "; HttpOnly; Secure; SameSite=Lax; Path=/; Max-Age="
  ++ pretty lifetime.
Definition state_cookie (state : string) (lifetime : Z) : string :=
  STATE_COOKIE ++ "=" ++ state ++ "; HttpOnly; Secure; SameSite=Lax; Path=/; Max-Age="
  ++ pretty lifetime.

(** [validation] *)
Definition forward_validation (origin : string) : Validation := {|
  v_leeway := 0; v_validate_exp := true; v_validate_aud := true;
  v_required := ["iss"; "aud"; "exp"]; v_iss := Some [ISSUER]; v_aud := Some [origin] |}.

Section Forward.
Context {E : Env} {HA : Hashing} {ED : Ed25519} {UL : UuidLib} {JF : JwtCodec ForwardSession}
        {JH : JwtCodec Handoff}.

(** [new_state] *)
Definition new_state : prog string := bytes <~ random_bytes 32 ;; Ret (hex_encode bytes).

(** [state_hash] *)
Definition state_hash (state : string) : string := hex_encode (sha256 state).

(** [sign] *)
Definition sign {T} {JC : JwtCodec T} (claims : T) (key : SigningKey) : result AppError string :=
  match map_err (fun e => InternalError ("Failed to encode signing key: " ++ e)) (to_pkcs8_der key) with
  | Err e => Err e
  | Ok der => map_err (fun e => InternalError ("Failed to sign forward credential: " ++ e))
                (jwt_encode None claims der)
  end.

(** The session credential of a login. *)
Definition forward_session (parent : Claims) (user_id application_id : Uuid)
    (target_origin : string) : ForwardSession := {|
  fs_sub := user_id; fs_application_id := application_id; fs_iss := ISSUER;
  fs_aud := target_origin; fs_iat := iat parent;
  fs_exp := unwrap_or (session_exp parent) (exp parent);
  fs_session_version := session_version parent; fs_typ := "forward-session" |}.

(** [issue_handoff] *)
Definition issue_handoff (parent : Claims) (application_id : Uuid)
    (target_origin redirect_path state : string) (key : SigningKey) : M string :=
  guard (negb (valid_state state)) (InputError ["Invalid forward login state"]) ;;;
  user_id <- require (uuid_parse (sub parent)) AuthenticationRequired ;;
  let deadline := unwrap_or (session_exp parent) (exp parent) in
  t <~ now ;;
  guard (deadline <=? t)%Z AuthenticationRequired ;;;
  verify_user_session user_id (iat parent) (session_version parent) ;;;
  jti <~ new_uuid ;;
  t' <~ now ;;
  let handoff := {|
    h_session := forward_session parent user_id application_id target_origin;
    h_state_hash := state_hash state; h_redirect_path := redirect_path;
    h_jti := uuid_to_string jti; h_iss := ISSUER; h_aud := target_origin;
    h_exp := Z.min deadline (t' + 60); h_typ := "forward-handoff" |} in
  token <- lift (sign handoff key) ;;
  t'' <~ now ;;
  exec (fun d => (tt, with_handoffs (delete (fun r => (fh_expires_at r <=? t'')%Z)) d)) ;;;
  stmt (fun d =>
    insert_checked (existsb (fun r => beq (fh_id r) (h_jti handoff)) (handoffs d))
      (user_exists user_id d)
      (with_handoffs (fun rows => (rows ++ [{|
         fh_id := h_jti handoff; fh_user_id := user_id; fh_expires_at := h_exp handoff |}])%list)) d) ;;;
  ret token.

(** The row the redeeming [DELETE] removes. *)
Definition open_handoff (jti : string) (user_id : Uuid) (t : Z) (r : HandoffRow) : bool :=
  beq (fh_id r) jti && beq (fh_user_id r) user_id && (t <? fh_expires_at r)%Z.

(** [redeem_handoff] *)
Definition redeem_handoff (token target_origin state : string) (key : SigningKey)
    : M (string * ForwardSession * string) :=
  t <~ now ;;
  decoded <- require (jwt_decode (verifying_key key) (forward_validation target_origin) t token)
               AuthenticationRequired ;;
  guard (negb (beq (h_typ decoded) "forward-handoff")
         || negb (valid_state state)
         || negb (beq (h_state_hash decoded) (state_hash state))
         || negb (beq (fs_aud (h_session decoded)) target_origin)) AuthenticationRequired ;;;
  t1 <~ now ;;
  guard (fs_exp (h_session decoded) <=? t1)%Z AuthenticationRequired ;;;
  verify_user_session (fs_sub (h_session decoded)) (fs_iat (h_session decoded))
    (fs_session_version (h_session decoded)) ;;;
  t2 <~ now ;;
  let p := open_handoff (h_jti decoded) (fs_sub (h_session decoded)) t2 in
  affected <- exec (fun d => (count p (handoffs d), with_handoffs (delete p) d)) ;;
  guard (negb (beq affected 1%nat)) AuthenticationRequired ;;;
  session_token <- lift (sign (h_session decoded) key) ;;
  ret (session_token, h_session decoded, h_redirect_path decoded).

(** [verify_session] *)
Definition verify_session (token target_origin : string) (key : SigningKey) : M ForwardSession :=
  t <~ now ;;
  claims <- require (jwt_decode (verifying_key key) (forward_validation target_origin) t token)
              AuthenticationRequired ;;
  guard (negb (beq (fs_typ claims) "forward-session")) AuthenticationRequired ;;;
  t1 <~ now ;;
  guard (fs_exp claims <=? t1)%Z AuthenticationRequired ;;;
  verify_user_session (fs_sub claims) (fs_iat claims) (fs_session_version claims) ;;;
  ret claims.
End Forward.

(** ** A handoff is redeemed at most once *)

Section SingleUse.
Context {E : Env} {HA : Hashing} {ED : Ed25519} {UL : UuidLib} {JF : JwtCodec ForwardSession}
        {JH : JwtCodec Handoff}.
Context `{!JwtLaws Handoff}.

Definition handoff_rows (jti : string) (d : Db) : nat :=
  count (fun r => beq (fh_id r) jti) (handoffs d).

(** The claims of a token, whatever origin and time it is decoded for. *)
Definition handoff_of (key : SigningKey) (token : string) (h : Handoff) : Prop :=
  exists v t, jwt_decode (verifying_key key) v t token = Some h.

Lemma redeem_spends key token h origin state :
  handoff_of key token h ->
  spends (fun w => handoff_rows (h_jti h) (db w)) is_ok 0 (redeem_handoff token origin state key).
Proof.
  intros (v & t0 & Hh). unfold redeem_handoff.
  apply spends_bind; [apply respects_now; apply _|]. intros t.
  destruct (jwt_decode (verifying_key key) (forward_validation origin) t token) as [h'|] eqn:Ed;
    [|simpl; lia].
  assert (h' = h) as -> by (eapply jwt_decode_fun; eassumption).
  change (bindM (require (Some h) AuthenticationRequired) ?k) with (k h). cbv beta.
  apply spends_bindM; [done|by respects_walk|intros _].
  apply spends_bind; [apply respects_now; apply _|]. intros t1.
  apply spends_bindM; [done|by respects_walk|intros _].
  apply spends_bindM; [done| |intros _].
  { unfold verify_user_session, user_session_version. respects_walk. }
  apply spends_bind; [apply respects_now; apply _|]. intros t2. cbv zeta.
  set (p := open_handoff _ _ t2). apply spends_exec; [done|]. intros d.
  exists (count p (handoffs d)). cbn [fst snd]. split.
  - unfold handoff_rows. simpl. rewrite count_delete_spend; [done|].
    intros r Hr. unfold p, open_handoff in Hr. by apply andb_true_iff in Hr as [[? _]%andb_true_iff _].
  - destruct (beq (count p (handoffs d)) 1%nat) eqn:En; cbn [negb guard]; bool_hyp.
    + rewrite En. simpl. destruct (sign _ _); simpl; lia.
    + simpl. lia.
Qed.

(** A handoff is good for one session.  However any number of requests
    that redeem the same handoff interleave, whatever origin and state each
    presents, the number that obtain a session is at most the number of its
    rows: one, since its id is the table's key. *)
Theorem handoff_single_use key token h (reqs : list (string * string)) sched w :
  handoff_of key token h ->
  let s := pool_run sched (map (fun r => redeem_handoff token r.1 r.2 key) reqs, w) in
  (wins is_ok s.1 + handoff_rows (h_jti h) (db s.2) <= handoff_rows (h_jti h) (db w))%nat.
Proof.
  intros Hh s.
  apply (pool_spends (fun w => handoff_rows (h_jti h) (db w)) is_ok
           (map (fun r => redeem_handoff token r.1 r.2 key) reqs, w) s).
  - apply pool_run_star.
  - apply Forall_map, Forall_true. intros [o st]. by apply redeem_spends.
Qed.
End SingleUse.
