(* ===== verification/ForwardFacts.v ===== *)
(** * What the forward-auth login guarantees *)

From S2P Require Import Prelude RStr RateLimit Schema Sys External Users Net Settings Token TokenFacts Forward.
Local Open Scope Z_scope.

Section Facts.
Context {E : Env} {HA : Hashing} {ED : Ed25519} {UL : UuidLib} {JF : JwtCodec ForwardSession}
        {JH : JwtCodec Handoff}.

Lemma sign_ok {T} {JC : JwtCodec T} (c : T) key t :
  sign c key = Ok t <-> exists der, to_pkcs8_der key = Ok der /\ jwt_encode None c der = Ok t.
Proof.
  unfold sign. destruct (to_pkcs8_der key) as [der|e]; simpl; [|naive_solver].
  rewrite map_err_Ok. naive_solver.
Qed.

Lemma verify_user_session_tick uid t v u w w' :
  run (verify_user_session uid t v) w = (Ok u, w') -> (tick w <= tick w')%nat.
Proof.
  intros Hr. unfold verify_user_session in Hr.
  apply run_bindM_ok in Hr as (cv & w1 & H1 & H2).
  apply run_user_session_version_ok in H1 as (_ & _ & ->).
  destruct v as [v|]; [destruct (v =? cv); run_inv H2; simpl; lia|].
  apply run_bindM_ok in H2 as (? & ? & Hg & H2). apply run_guard_ok in Hg as [_ <-].
  apply run_bindM_ok in H2 as (o & ? & Hg & H2). apply run_query_ok in Hg as (_ & -> & ->).
  destruct (fetch _ _); run_inv H2; simpl; lia.
Qed.

(** The claims of the handoff that a login issues. *)
Definition handoff_claims (parent : Claims) (uid app : Uuid) (origin path state : string)
    (jti : Uuid) (t : Z) : Handoff := {|
  h_session := forward_session parent uid app origin; h_state_hash := state_hash state;
  h_redirect_path := path; h_jti := uuid_to_string jti; h_iss := ISSUER; h_aud := origin;
  h_exp := Z.min (unwrap_or (session_exp parent) (exp parent)) (t + 60);
  h_typ := "forward-handoff" |}.

Lemma issue_handoff_ok parent app origin path state key token w w1 :
  run (issue_handoff parent app origin path state key) w = (Ok token, w1) ->
  exists uid jti t,
    let h := handoff_claims parent uid app origin path state jti t in
    valid_state state = true /\ uuid_parse (sub parent) = Some uid /\
    clock (tick w) < unwrap_or (session_exp parent) (exp parent) /\
    session_valid uid (iat parent) (session_version parent) (db w) = true /\
    sign h key = Ok token /\
    (MonotoneClock E -> clock (tick w) <= t) /\
    {| fh_id := h_jti h; fh_user_id := uid; fh_expires_at := h_exp h |} ∈ handoffs (db w1) /\
    users (db w1) = users (db w).
Proof.
  intros Hrun. unfold issue_handoff in Hrun.
  apply run_bindM_ok in Hrun as (? & ? & Hr & Hrun). apply run_guard_ok in Hr as [Hst <-]. bool_hyp.
  apply run_bindM_ok in Hrun as (uid & ? & Hr & Hrun). apply run_require_ok in Hr as [Hu <-].
  apply run_bind_eq in Hrun as (t & w2 & Hr & Hrun). apply run_now in Hr as [-> ->].
  apply run_bindM_ok in Hrun as (? & ? & Hr & Hrun). apply run_guard_ok in Hr as [Hdl <-].
  apply run_bindM_ok in Hrun as (? & w3 & Hs & Hrun).
  pose proof Hs as Ht. apply verify_user_session_ok in Hs as [Hdb Hs].
  apply run_bind_eq in Hrun as (jti & w4 & Hr & Hrun). apply run_new_uuid in Hr as [-> ->].
  apply run_bind_eq in Hrun as (t' & w4 & Hr & Hrun). apply run_now in Hr as [-> ->].
  run_inv Hrun.
  match goal with Hx : insert_checked _ _ _ _ = _ |- _ => apply insert_checked_ok in Hx as (_ & _ & ->) end.
  exists uid, (fresh_uuid (tick w3)), (clock (S (tick w3))). cbn zeta. bool_hyp.
  split; [done|]. split; [done|]. split; [lia|]. split; [exact Hs|].
  split; [eassumption|]. split; [|split].
  - intros Hm. apply Hm. apply verify_user_session_tick in Ht. simpl in Ht. lia.
  - simpl. set_solver.
  - simpl. by rewrite Hdb.
Qed.

Lemma redeem_handoff_ok token origin state key st fs path w w' :
  run (redeem_handoff token origin state key) w = (Ok (st, fs, path), w') ->
  exists h, jwt_decode (verifying_key key) (forward_validation origin) (clock (tick w)) token = Some h /\
    h_typ h = "forward-handoff"%string /\ valid_state state = true /\
    h_state_hash h = state_hash state /\ fs = h_session h /\ path = h_redirect_path h /\
    fs_aud fs = origin /\ clock (S (tick w)) < fs_exp fs /\
    session_valid (fs_sub fs) (fs_iat fs) (fs_session_version fs) (db w) = true /\
    sign fs key = Ok st.
Proof.
  intros Hrun. unfold redeem_handoff in Hrun.
  apply run_bind_eq in Hrun as (? & ? & Hr & Hrun). apply run_now in Hr as [-> ->].
  apply run_bindM_ok in Hrun as (h & ? & Hr & Hrun). apply run_require_ok in Hr as [Hd <-].
  apply run_bindM_ok in Hrun as (? & ? & Hr & Hrun). apply run_guard_ok in Hr as [Hg <-]. bool_hyp.
  apply run_bind_eq in Hrun as (? & ? & Hr & Hrun). apply run_now in Hr as [-> ->].
  apply run_bindM_ok in Hrun as (? & ? & Hr & Hrun). apply run_guard_ok in Hr as [He <-]. bool_hyp.
  apply run_bindM_ok in Hrun as (? & w3 & Hs & Hrun). apply verify_user_session_ok in Hs as [_ Hs].
  run_inv Hrun. simplify_eq. exists h. by repeat (split; [done|]).
Qed.

Lemma verify_session_ok token origin key fs w w' :
  run (verify_session token origin key) w = (Ok fs, w') ->
  jwt_decode (verifying_key key) (forward_validation origin) (clock (tick w)) token = Some fs /\
  fs_typ fs = "forward-session"%string /\ clock (S (tick w)) < fs_exp fs /\
  session_valid (fs_sub fs) (fs_iat fs) (fs_session_version fs) (db w) = true /\ db w' = db w.
Proof.
  intros Hrun. unfold verify_session in Hrun.
  apply run_bind_eq in Hrun as (? & ? & Hr & Hrun). apply run_now in Hr as [-> ->].
  apply run_bindM_ok in Hrun as (c & ? & Hr & Hrun). apply run_require_ok in Hr as [Hd <-].
  apply run_bindM_ok in Hrun as (? & ? & Hr & Hrun). apply run_guard_ok in Hr as [Hg <-]. bool_hyp.
  apply run_bind_eq in Hrun as (? & ? & Hr & Hrun). apply run_now in Hr as [-> ->].
  apply run_bindM_ok in Hrun as (? & ? & Hr & Hrun). apply run_guard_ok in Hr as [He <-]. bool_hyp.
  apply run_bindM_ok in Hrun as (? & w3 & Hs & Hrun). apply verify_user_session_ok in Hs as [Hdb Hs].
  run_inv Hrun. done.
Qed.

Lemma forward_validates {T} `{Registered T} origin n (c : T) :
  validates (forward_validation origin) n c = true -> reg_aud c = origin /\ n <= reg_exp c.
Proof.
  unfold validates, forward_validation. simpl. rewrite Z.sub_0_r, !orb_false_r. intros Hv. bool_hyp.
  by split.
Qed.

(** A forward login stays with the browser, the application and the
    session it was made for.  A handoff issued to an origin under a state can
    only be redeemed for that origin, by whoever presents a state with the
    same hash, before the handoff's minute or the login's deadline has passed
    and while the login's session is valid; the credential it yields is
    accepted for that origin only, as that user, until the login's own
    deadline and only while the session stays valid. *)
Theorem forward_login_bound `{!JwtLaws Handoff, !JwtLaws ForwardSession}
    parent app origin path state key token w w1 origin' state' st fs path' w2 w3 :
  run (issue_handoff parent app origin path state key) w = (Ok token, w1) ->
  run (redeem_handoff token origin' state' key) w2 = (Ok (st, fs, path'), w3) ->
  exists uid t, uuid_parse (sub parent) = Some uid /\
    origin' = origin /\ state_hash state' = state_hash state /\ path' = path /\
    clock (tick w2) <= Z.min (unwrap_or (session_exp parent) (exp parent)) (t + 60) /\
    fs = forward_session parent uid app origin /\
    session_valid uid (iat parent) (session_version parent) (db w2) = true /\
    forall origin'' fs' w4 w5, run (verify_session st origin'' key) w4 = (Ok fs', w5) ->
      origin'' = origin /\ fs' = fs /\
      clock (tick w4) <= unwrap_or (session_exp parent) (exp parent) /\
      session_valid uid (iat parent) (session_version parent) (db w4) = true.
Proof.
  intros Hi Hr. apply issue_handoff_ok in Hi as (uid & jti & t & _ & Hu & _ & _ & Hs & _).
  apply sign_ok in Hs as (der & Hder & Henc).
  apply redeem_handoff_ok in Hr as (h & Hd & _ & _ & Hst & -> & -> & Ho & _ & Hval & Hsign).
  pose proof (jwt_decode_validates _ _ _ _ _ Hd) as Hv. apply forward_validates in Hv as [Ha He].
  pose proof (jwt_decode_encoded _ _ _ _ _ _ _ _ Hder Henc Hd) as ->. simpl in *. subst origin'.
  exists uid, t. do 6 (split; [congruence || done|]). split; [done|].
  intros origin'' fs' w4 w5 Hv. apply verify_session_ok in Hv as (Hd' & _ & _ & Hval' & _).
  apply sign_ok in Hsign as (der' & Hder' & Henc').
  pose proof (jwt_decode_validates _ _ _ _ _ Hd') as Hv. apply forward_validates in Hv as [Ha' He'].
  pose proof (jwt_decode_encoded _ _ _ _ _ _ _ _ Hder' Henc' Hd') as ->. simpl in *. by subst.
Qed.

(** A forward session is accepted until its deadline. *)
Lemma verify_session_complete `{!JwtLaws ForwardSession, !Calm E, !MonotoneClock E} st fs key w :
  sign fs key = Ok st -> fs_iss fs = ISSUER -> fs_typ fs = "forward-session"%string ->
  clock (tick w + 1) < fs_exp fs ->
  session_valid (fs_sub fs) (fs_iat fs) (fs_session_version fs) (db w) = true ->
  exists w', run (verify_session st (fs_aud fs) key) w = (Ok fs, w').
Proof.
  intros (der & Hder & Henc)%sign_ok Hiss Htyp Htime Hval. unfold verify_session. run_calm.
  pose proof (clock_mono (tick w) (tick w + 1) ltac:(lia)).
  assert (Hd : jwt_decode (verifying_key key) (forward_validation (fs_aud fs)) (clock (tick w)) st
               = Some fs).
  { eapply jwt_decode_encode; [exact Hder|exact Henc|]. unfold validates. simpl.
    rewrite Hiss, !beq_refl. simpl. rewrite Z.sub_0_r, !andb_true_r. apply Z.leb_le. lia. }
  rewrite Hd. run_calm. rewrite Htyp, beq_refl. run_calm. rewrite Nat.add_1_r in Htime.
  replace (fs_exp fs <=? clock (S (tick w))) with false by (symmetry; apply Z.leb_gt; lia). run_calm.
  destruct (run_verify_user_session (fs_sub fs) (fs_iat fs) (fs_session_version fs) (bump (bump w)))
    as (w' & Hr & _). cbn [db bump] in Hr. rewrite Hval in Hr. rewrite Hr. by eexists.
Qed.

(** C31: a forward login completes.  While the login's session is valid, the
    handoff redeemed within its minute for its origin and state yields a
    credential and the path to return to, and that credential is accepted
    until the login's deadline. *)
Theorem forward_login_completes `{!JwtLaws Handoff, !JwtLaws ForwardSession, !Calm E, !MonotoneClock E}
    parent app origin path state key token st uid w w1 w2 :
  run (issue_handoff parent app origin path state key) w = (Ok token, w1) ->
  uuid_parse (sub parent) = Some uid ->
  let fs := forward_session parent uid app origin in
  sign fs key = Ok st ->
  handoffs (db w2) = handoffs (db w1) -> NoDup (map fh_id (handoffs (db w1))) ->
  session_valid uid (iat parent) (session_version parent) (db w2) = true ->
  clock (tick w2 + 4) < Z.min (fs_exp fs) (clock (tick w) + 60) ->
  (exists w3, run (redeem_handoff token origin state key) w2 = (Ok (st, fs, path), w3)) /\
  forall w4, clock (tick w4 + 1) < fs_exp fs ->
    session_valid uid (iat parent) (session_version parent) (db w4) = true ->
    exists w5, run (verify_session st origin key) w4 = (Ok fs, w5).
Proof.
  intros Hi Hu fs Hst Htab Hnd Hval Htime.
  apply issue_handoff_ok in Hi as (uid' & jti & t & Hstate & Hu' & _ & _ & Hs & Ht & Hrow & _).
  assert (uid' = uid) as -> by congruence. specialize (Ht _). cbn zeta in *.
  set (h := handoff_claims parent uid app origin path state jti t) in *.
  assert (Hexp : h_exp h = Z.min (fs_exp fs) (t + 60)) by done.
  apply sign_ok in Hs as (der & Hder & Henc).
  pose proof Hst as Hst'. apply sign_ok in Hst' as (der' & Hder' & Henc').
  assert (Hlt : forall i, (i <= 4)%nat -> clock (tick w2 + i) < Z.min (fs_exp fs) (t + 60)).
  { intros i Hle. pose proof (clock_mono (tick w2 + i) (tick w2 + 4) ltac:(lia)). lia. }
  split.
  - unfold redeem_handoff. run_calm.
    assert (Hd : jwt_decode (verifying_key key) (forward_validation origin) (clock (tick w2)) token = Some h).
    { eapply jwt_decode_encode; [exact Hder|exact Henc|]. unfold validates. simpl.
      rewrite !beq_refl. simpl. rewrite Z.sub_0_r, !andb_true_r. apply Z.leb_le.
      specialize (Hlt 0%nat ltac:(lia)). rewrite Nat.add_0_r in Hlt. unfold fs in *. simpl in *. lia. }
    rewrite Hd. run_calm. simpl h_typ. rewrite Hstate. simpl h_state_hash. simpl fs_aud.
    rewrite !beq_refl. cbn [negb orb]. run_calm.
    change (fs_exp (h_session h)) with (fs_exp fs).
    replace (fs_exp fs <=? clock (S (tick w2))) with false.
    2: { symmetry. apply Z.leb_gt. specialize (Hlt 1%nat ltac:(lia)). rewrite Nat.add_1_r in Hlt. lia. }
    run_calm. change (fs_sub (h_session h)) with uid. change (fs_iat (h_session h)) with (iat parent).
    change (fs_session_version (h_session h)) with (session_version parent).
    destruct (run_verify_user_session uid (iat parent) (session_version parent) (bump (bump w2)))
      as (w3 & Hr & Hdb & Htk).
    cbn [db bump] in Hr, Hdb. rewrite Hval in Hr. rewrite Hr. run_calm. rewrite Hdb, Htab.
    assert (Ho : open_handoff (h_jti h) uid (clock (tick w3))
               {| fh_id := h_jti h; fh_user_id := uid; fh_expires_at := h_exp h |} = true).
    { unfold open_handoff. rewrite !beq_refl. change (true && true && (clock (tick w3) <? h_exp h) = true). rewrite Hexp. apply Z.ltb_lt.
      cbn [tick bump] in Htk. specialize (Hlt (tick w3 - tick w2)%nat ltac:(lia)).
      by replace (tick w2 + (tick w3 - tick w2))%nat with (tick w3) in Hlt by lia. }
    destruct (fetch_key_unique fh_id (h_jti h) (open_handoff (h_jti h) uid (clock (tick w3))) _ Hnd)
      as [Hf Hc].
    { intros r Hr'. unfold open_handoff in Hr'. by bool_hyp. }
    pose proof (fetch_key_elem fh_id _ _ Hnd Hrow) as Hf2. cbn [fh_id] in Hf2. rewrite Hf2 in Hf.
    cbn [opt_filter] in Hf. rewrite Ho in Hf. rewrite Hc, Hf. run_calm. simpl is_some. cbv iota.
    change (beq 1%nat 1%nat) with true. run_calm. change (h_session h) with fs. rewrite Hst. run_calm.
    eexists. reflexivity.
  - intros w4 Hw4 Hval4. by apply (verify_session_complete st fs key).
Qed.
End Facts.

(** ** At a concrete login *)
Module Demo.
#[local] Existing Instances plain_hashing plain_ed25519 plain_uuid.
#[local] Instance demo_env : Env := calm_env 1000.
#[local] Instance demo_calm : Calm demo_env := calm_env_calm 1000.
#[local] Instance demo_mono : MonotoneClock demo_env := calm_env_mono 1000.

Definition login : Claims := access_claims 7 ["staff"%string] 5000 (Some 2) 900 990 1.
Definition wiki : string := "https://wiki.example".
Definition state : string := "0123456789abcdef0123456789abcdef0123456789abcdef0123456789abcdef".
Definition fs : ForwardSession := forward_session login 7 3 wiki.
Definition h : Handoff := handoff_claims login 7 3 wiki "/page" state 2 1003.
#[local] Instance demo_session : JwtCodec ForwardSession := table_jwt [("S"%string, ("k"%string, fs))].
#[local] Instance demo_handoff : JwtCodec Handoff := table_jwt [("H"%string, ("k"%string, h))].

Lemma one_credential {A} (name : string) (x : A) : NoDup (fst <$> [(name, x)]).
Proof. apply NoDup_singleton. Qed.
#[local] Instance demo_session_laws : @JwtLaws ForwardSession plain_ed25519 demo_session _ :=
  table_jwt_laws _ (one_credential _ _).
#[local] Instance demo_handoff_laws : @JwtLaws Handoff plain_ed25519 demo_handoff _ :=
  table_jwt_laws _ (one_credential _ _).

Definition ada : UserRow := {|
  u_row := {| u_id := 7; u_username := "ada"; u_name := "Ada"; u_email := None; u_active := true;
              u_created_at := 0; u_updated_at := 0 |}; u_token_version := 2 |}.
Definition w0 : World := start (with_users (fun _ => [ada]) empty_db).
Definition issuing : M string := issue_handoff login 3 wiki "/page" state "k".
Definition w1 : World := (run issuing w0).2.

Lemma handoff_issued : run issuing w0 = (Ok "H"%string, w1).
Proof. apply run_to. vm_compute. reflexivity. Qed.

Lemma forward_login_completes_witness :
  exists w3, run (redeem_handoff "H" wiki state "k") w1 = (Ok ("S"%string, fs, "/page"%string), w3).
Proof.
  refine (proj1 (forward_login_completes login 3 wiki "/page" state "k" "H" "S" 7 w0 w1 w1
                   handoff_issued _ _ _ _ _ _)).
  - vm_compute. reflexivity.
  - vm_compute. reflexivity.
  - reflexivity.
  - apply NoDup_singleton.
  - vm_compute. reflexivity.
  - vm_compute. reflexivity.
Defined.

Lemma forward_login_bound_witness :
  exists w3, run (redeem_handoff "H" wiki state "k") w1 = (Ok ("S"%string, fs, "/page"%string), w3) /\
    session_valid 7 (iat login) (session_version login) (db w1) = true.
Proof.
  assert (Hr : run (redeem_handoff "H" wiki state "k") w1
               = (Ok ("S"%string, fs, "/page"%string), (run (redeem_handoff "H" wiki state "k") w1).2))
    by (apply run_to; vm_compute; reflexivity).
  destruct (forward_login_bound login 3 wiki "/page" state "k" "H" w0 w1 wiki state "S" fs "/page"
              w1 _ handoff_issued Hr) as (uid & t & Hu & _ & _ & _ & _ & _ & Hv & _).
  vm_compute in Hu. injection Hu as <-. eexists. split; [exact Hr|exact Hv].
Defined.

(** The right request and one for another origin, interleaved. *)
Definition requests : list (string * string) := [(wiki, state); ("https://evil"%string, state)].
Definition race : list (prog (result AppError (string * ForwardSession * string))) * World :=
  pool_run [0; 1; 0; 1; 0; 1; 0; 1; 0; 1; 0; 1; 0; 1]%nat
    (map (fun r => redeem_handoff "H" r.1 r.2 "k") requests, w1).

Lemma handoff_single_use_witness :
  (wins is_ok race.1 + handoff_rows "2" (db race.2) <= 1)%nat /\ wins is_ok race.1 = 1%nat.
Proof.
  split; [|vm_compute; reflexivity].
  assert (Hh : handoff_of "k" "H" h).
  { exists (forward_validation wiki), 1000. vm_compute. reflexivity. }
  exact (handoff_single_use "k" "H" h requests [0; 1; 0; 1; 0; 1; 0; 1; 0; 1; 0; 1; 0; 1]%nat w1 Hh).
Defined.
End Demo.
