(* ===== verification/TokenKinds.v ===== *)
(** * One credential, one purpose

    The server signs five kinds of credential with one key: access and refresh
    tokens, OIDC access tokens, forward-auth handoffs and forward-auth
    sessions.  None is accepted in another's place. *)

From S2P Require Import Prelude RStr RateLimit Schema Sys External Users Net Settings Token TokenFacts Application OidcCodes OidcToken Forward ForwardFacts SessionDemo.
Local Open Scope Z_scope.

(** Types of claims with a [typ] member. *)
Class Typed (T : Type) := typ_of : T -> string.
#[export] Instance Claims_typed : Typed Claims := typ.
#[export] Instance OidcAccessClaims_typed : Typed OidcAccessClaims := oa_typ.
#[export] Instance ForwardSession_typed : Typed ForwardSession := fs_typ.
#[export] Instance Handoff_typed : Typed Handoff := h_typ.

(** A token has one payload: at whatever type it is decoded, the [typ] member
    is the payload's. *)
Class PayloadTyp := payload_typ : string -> option string.
Class JwtTypLaw (T : Type) `{PayloadTyp} `{JwtCodec T} `{Typed T} : Prop :=
  jwt_decode_typ pk v n t (c : T) : jwt_decode pk v n t = Some c -> payload_typ t = Some (typ_of c).

Inductive Kind : Type := Access | Refresh | OidcAccess | ForwardHandoff | ForwardCredential.

Definition kind_typ (k : Kind) : string :=
  match k with
  | Access => "access" | Refresh => "refresh" | OidcAccess => "oidc_access"
  | ForwardHandoff => "forward-handoff" | ForwardCredential => "forward-session"
  end.

Section Kinds.
Context {E : Env} {HA : Hashing} {ED : Ed25519} {UL : UuidLib} {JC : JwtCodec Claims}
        {JO : JwtCodec OidcAccessClaims} {JF : JwtCodec ForwardSession} {JH : JwtCodec Handoff}
        {PT : PayloadTyp}.

(** The server accepts [token] as a credential of kind [k], in some state and
    for some issuer, origin or login state. *)
Definition accepted (key : SigningKey) (k : Kind) (token : string) : Prop :=
  exists w w',
    match k with
    | Access => exists c, run (verify_access_token token key) w = (Ok c, w')
    | Refresh => exists r, run (consume_refresh_token token key) w = (Ok r, w')
    | OidcAccess => exists issuer c, run (verify_oidc_access_token token issuer key) w = (Ok c, w')
    | ForwardHandoff => exists origin state r, run (redeem_handoff token origin state key) w = (Ok r, w')
    | ForwardCredential => exists origin c, run (verify_session token origin key) w = (Ok c, w')
    end.

Lemma accepted_typ `{!JwtTypLaw Claims, !JwtTypLaw OidcAccessClaims, !JwtTypLaw ForwardSession,
    !JwtTypLaw Handoff} key k token :
  accepted key k token -> payload_typ token = Some (kind_typ k).
Proof.
  intros (w & w' & Ha). destruct k.
  - destruct Ha as (c & Hr). apply verify_access_token_ok in Hr as (_ & c0 & uid & Hd & Ht & _).
    rewrite (jwt_decode_typ _ _ _ _ _ Hd). unfold typ_of, Claims_typed. by rewrite Ht.
  - destruct Ha as (r & Hr). apply consume_refresh_token_ok in Hr as (c0 & t & Hd & Ht & _).
    rewrite (jwt_decode_typ _ _ _ _ _ Hd). unfold typ_of, Claims_typed. by rewrite Ht.
  - destruct Ha as (iss_ & c & Hr). unfold verify_oidc_access_token in Hr. run_inv Hr. bool_hyp.
    match goal with Hd : jwt_decode _ _ _ _ = Some _ |- _ => rewrite (jwt_decode_typ _ _ _ _ _ Hd) end.
    unfold typ_of, OidcAccessClaims_typed. by f_equal.
  - destruct Ha as (o & st & [[s fs] p] & Hr). apply redeem_handoff_ok in Hr as (h & Hd & Ht & _).
    rewrite (jwt_decode_typ _ _ _ _ _ Hd). unfold typ_of, Handoff_typed. by rewrite Ht.
  - destruct Ha as (o & c & Hr). apply verify_session_ok in Hr as (Hd & Ht & _).
    rewrite (jwt_decode_typ _ _ _ _ _ Hd). unfold typ_of, ForwardSession_typed. by rewrite Ht.
Qed.

(** C19: a credential of one kind is never accepted as another.  In
    particular what a protected application receives (a forward-auth session)
    and what a relying party receives (an OIDC access token) does not
    authorize requests to the server itself, and a refresh token is not an
    access token. *)
Theorem token_kinds_disjoint `{!JwtTypLaw Claims, !JwtTypLaw OidcAccessClaims,
    !JwtTypLaw ForwardSession, !JwtTypLaw Handoff} key k1 k2 token :
  accepted key k1 token -> accepted key k2 token -> k1 = k2.
Proof.
  intros H1%accepted_typ H2%accepted_typ. rewrite H1 in H2. injection H2.
  by destruct k1, k2.
Qed.
End Kinds.

(** ** At the demonstration database *)
Module Demo.
#[local] Existing Instances demo_env plain_hashing plain_ed25519 demo_jwt plain_uuid.
#[local] Instance no_oidc : JwtCodec OidcAccessClaims := table_jwt [].
#[local] Instance no_forward : JwtCodec ForwardSession := table_jwt [].
#[local] Instance no_handoff : JwtCodec Handoff := table_jwt [].
#[local] Instance demo_payload : PayloadTyp := fun t =>
  option_map (fun e => typ e.2.2) (List.find (fun e => beq e.1 t) demo_tokens).

Lemma demo_typ : @JwtTypLaw Claims demo_payload demo_jwt Claims_typed.
Proof.
  intros pk v n t c. unfold payload_typ, demo_payload, jwt_decode, demo_jwt, table_jwt, table_decode.
  destruct (List.find _ demo_tokens) as [[nm [der c']]|]; [|done]. simpl.
  destruct (beq der pk && validates v n c')%bool; [|done]. by intros [= <-].
Qed.

Lemma token_kinds_disjoint_witness :
  accepted "k" Access "A1" /\ ~ accepted "k" Refresh "A1" /\ ~ accepted "k" ForwardCredential "A1".
Proof.
  assert (Ha : accepted "k" Access "A1").
  { exists w0, (run (verify_access_token "A1" "k") w0).2, A1.
    apply run_to. vm_compute. reflexivity. }
  pose proof demo_typ as Ht.
  assert (Hx : forall k, accepted "k" k "A1" -> Access = k).
  { intros k Hk. refine (token_kinds_disjoint "k" Access k "A1" Ha Hk);
      first [exact Ht | intros pk v n t c Hd; cbn in Hd; discriminate Hd]. }
  split; [exact Ha|]. split; intros Hk; discriminate (Hx _ Hk).
Defined.
End Demo.
