(* ===== verification/Http.v ===== *)
(** * Requests and responses ([handlers/mod.rs], [errors.rs], [auth_middleware.rs])

    Header maps, cookies, the responses errors turn into, and the extraction
    of the authenticated user from a request. *)

From S2P Require Import Prelude RStr RateLimit Schema Sys External Users Net Settings Token.
Local Open Scope Z_scope.
Local Open Scope string_scope.

(** ** [http]: which byte strings a header value may hold ([from_str]) and
    which can be read as text ([to_str]). *)
Class HttpLib := {
  header_valid : string -> bool;
  header_visible : string -> bool
}.

(** A header map: the values of a name in order; names are lower case. *)
Abbreviation HeaderMap := (list (string * string)) (only parsing).

Definition get_all (h : HeaderMap) (name : string) : list string :=
  map snd (List.filter (fun e => beq e.1 name) h).
Definition contains_key (h : HeaderMap) (name : string) : bool :=
  existsb (fun e => beq e.1 name) h.
(** [insert] replaces every value of the name; [append] adds one. *)
Definition h_insert (name v : string) (h : HeaderMap) : HeaderMap :=
  (List.filter (fun e => negb (beq e.1 name)) h ++ [(name, v)])%list.
Definition h_append (name v : string) (h : HeaderMap) : HeaderMap := (h ++ [(name, v)])%list.

(** The pages shown on a refused forward-auth request, before and after a
    logout, by their variable parts: links, form inputs and details; the static
    HTML around them is left out. *)
Inductive Body : Type :=
| Empty
| Text (s : string)
| JsonBody (j : Json)
| DeniedPage (switch_user_url details : string)
| LogoutConfirmation (inputs : string)
| SignedOut (sign_in_url details lede : string).

Record Response := { rs_status : Z; rs_headers : HeaderMap; rs_body : Body }.
Definition response (status : Z) (headers : HeaderMap) (body : Body) : Response :=
  {| rs_status := status; rs_headers := headers; rs_body := body |}.
Definition map_headers (f : HeaderMap -> HeaderMap) (r : Response) : Response :=
  {| rs_status := rs_status r; rs_headers := f (rs_headers r); rs_body := rs_body r |}.

(** [From<AppError> for StatusCode] *)
Definition status_of (e : AppError) : Z :=
  match e with
  | DbError => 500 | UniqueError _ => 409 | NotFound => 404 | InputError _ => 400
  | AuthenticationRequired => 401 | Forbidden => 403 | InternalError _ => 500
  end.

(** [AppError::into_response] *)
Definition error_response (e : AppError) : Response :=
  match e with
  | DbError => response 500 [] (Text "Internal server error")
  | InternalError _ => response 500 [] (Text "Internal server error")
  | NotFound => response 404 [] (Text "Resource not found")
  | UniqueError err => response 409 [] (Text err)
  | AuthenticationRequired => response 401 [] (Text "Authentication required")
  | Forbidden => response 403 [] (Text "Access denied")
  | InputError errs => response 400 [] (Text (join ", " errs))
  end.

Lemma error_response_status e : rs_status (error_response e) = status_of e.
Proof. by destruct e. Qed.

(** ** [handlers/mod.rs] *)

Definition AUTH_COOKIE_NAME : string := "__Host-authere_token".
Definition REFRESH_COOKIE_NAME : string := "__Host-authere_refresh".

(** [is_local_redirect] *)
Definition is_local_redirect (path : string) : bool :=
  (starts_with "/" path && negb (starts_with "//" path)
   && negb (contains_byte "\" path) && negb (any_control path))%bool.

Definition set_cookie (name value : string) (max_age_secs : Z) : string :=
  name ++ "=" ++ value ++ "; HttpOnly; Secure; SameSite=Lax; Path=/; Max-Age=" ++ pretty max_age_secs.
(** [build_auth_cookie], [build_refresh_cookie], [clear_auth_cookies] *)
Definition build_auth_cookie (token : string) (max_age_secs : Z) : string :=
  set_cookie AUTH_COOKIE_NAME token max_age_secs.
Definition build_refresh_cookie (token : string) (max_age_secs : Z) : string :=
  set_cookie REFRESH_COOKIE_NAME token max_age_secs.
Definition clear_auth_cookies : list string :=
  [set_cookie AUTH_COOKIE_NAME "" 0; set_cookie REFRESH_COOKIE_NAME "" 0].

(** [LoginError] and [RegisterError]: a rate-limited request carries the
    duration after which to retry. *)
Inductive LoginError : Type :=
| App (e : AppError)
| RateLimit (retry_after : Z)
| MfaRequired
| MfaInvalid.

#[export] Instance LoginError_eq_dec : EqDecision LoginError.
Proof. solve_decision. Defined.

(** [RateLimitExceeded::into_response] *)
Definition rate_limit_response (retry_after : Z) : Response :=
  response 429 [("retry-after", pretty (retry_after_secs retry_after))]
    (Text ("Rate limit exceeded. Retry after " ++ pretty (retry_after_secs retry_after) ++ " seconds.")).

(** [LoginError::into_response] *)
Definition login_error_response (e : LoginError) : Response :=
  match e with
  | App e => error_response e
  | RateLimit r => rate_limit_response r
  | MfaRequired => response 401 [("content-type", "application/json")]
                     (JsonBody (JObj [("error", JStr "mfa_required")]))
  | MfaInvalid => response 401 [("content-type", "application/json")]
                    (JsonBody (JObj [("error", JStr "invalid_totp")]))
  end.

(** ** Programs with other error types

    [x <-? p ;; q] is [?] at any error type; [p ?? f] converts the error. *)
Definition bindE {X A B} (p : prog (result X A)) (k : A -> prog (result X B)) : prog (result X B) :=
  bind p (fun r => match r with Ok a => k a | Err e => Ret (Err e) end).
Notation "x <-? p ;; q" := (bindE p (fun x => q))
  (at level 100, p at next level, right associativity) : prog_scope.
Definition convert {X Y A} (f : X -> Y) (p : prog (result X A)) : prog (result Y A) :=
  bind p (fun r => Ret (map_err f r)).

Lemma run_bindE {X A B} (p : prog (result X A)) (k : A -> prog (result X B)) w :
  run (bindE p k) w =
  match run p w with (Ok a, w1) => run (k a) w1 | (Err e, w1) => (Err e, w1) end.
Proof. unfold bindE. rewrite run_bind. by destruct (run p w) as [[a|e] w1]. Qed.

Lemma run_convert {X Y A} (f : X -> Y) (p : prog (result X A)) w :
  run (convert f p) w = (map_err f (run p w).1, (run p w).2).
Proof. unfold convert. by rewrite run_bind. Qed.

(** Evaluate a goal's program in a calm environment, at any error type. *)
Ltac run_calmE :=
  repeat first [ rewrite run_bindE | rewrite run_convert | progress run_calm | progress cbn [map_err] ].

Lemma run_bindE_ok {X A B} (p : prog (result X A)) (k : A -> prog (result X B)) w b w' :
  run (bindE p k) w = (Ok b, w') <->
  exists a w1, run p w = (Ok a, w1) /\ run (k a) w1 = (Ok b, w').
Proof.
  unfold bindE. rewrite run_bind. split.
  - destruct (run p w) as [[a|e] w1]; [eauto|done].
  - by intros (a & w1 & -> & H).
Qed.

Lemma run_convert_ok {X Y A} (f : X -> Y) (p : prog (result X A)) w a w' :
  run (convert f p) w = (Ok a, w') <-> run p w = (Ok a, w').
Proof.
  unfold convert. rewrite run_bind. destruct (run p w) as [[x|e] w1]; simpl; naive_solver.
Qed.

(** ** [AppState] *)
Record AppState := { st_signing_key : SigningKey; st_signing_kid : string; st_origin : string }.

Section Extract.
Context {E : Env} {HA : Hashing} {ED : Ed25519} {JC : JwtCodec Claims} {UL : UuidLib} {HL : HttpLib}.

Definition to_str (v : string) : option string := if header_visible v then Some v else None.
Definition from_str (v : string) : option string := if header_valid v then Some v else None.

(** [headers.get(name).and_then(|v| v.to_str().ok())] *)
Definition get_text (h : HeaderMap) (name : string) : option string :=
  match get_all h name with v :: _ => to_str v | [] => None end.

(** The first [name=] cookie of the first [Cookie] header:
    [split(';')], [trim], [find] and [strip_prefix]. *)
Definition first_cookie (h : HeaderMap) (name : string) : option string :=
  match get_text h "cookie" with
  | Some cookies =>
      match List.find (starts_with (name ++ "=")) (map trim (split_byte ";" cookies)) with
      | Some c => strip_prefix (name ++ "=") c
      | None => None
      end
  | None => None
  end.

(** [auth_middleware.rs]: [extract_token] *)
Definition extract_token (h : HeaderMap) : option string :=
  match (match get_text h "authorization" with
         | Some v => strip_prefix "Bearer " v
         | None => None
         end) with
  | Some bearer => Some bearer
  | None => first_cookie h "__Host-authere_token"
  end.

Record AuthUser := { au_user_id : Uuid; au_roles : list string }.

(** [AuthUser::has_role], [is_admin] *)
Definition has_role (u : AuthUser) (role : string) : bool := existsb (fun r => beq r role) (au_roles u).
Definition is_admin (u : AuthUser) : bool := has_role u ROLE_ADMIN.

(** [AuthUser::from_request_parts] *)
Definition auth_user (st : AppState) (h : HeaderMap) : M AuthUser :=
  token <- require (extract_token h) AuthenticationRequired ;;
  acquire ;;;
  claims <- verify_access_token token (st_signing_key st) ;;
  user_id <- require (uuid_parse (sub claims)) (InternalError "Invalid user ID in token") ;;
  ret {| au_user_id := user_id; au_roles := claim_roles claims |}.

(** [AdminUser::from_request_parts] *)
Definition admin_user (st : AppState) (h : HeaderMap) : M AuthUser :=
  u <- auth_user st h ;;
  guard (negb (is_admin u)) Forbidden ;;;
  ret u.
End Extract.
