(* ===== verification/LoginFlow.v ===== *)
(** * Login, refresh and logout ([handlers/auth.rs], first half)

    The password login with its second factor, the JSON endpoints and their
    cookie-setting browser counterparts. *)

From S2P Require Import Prelude RStr RateLimit Schema Sys External Users AuditLog Net Settings Token Totp Http.
Local Open Scope Z_scope.
Local Open Scope string_scope.

Definition set_login_rl (rl : RateLimiter) (l : Limiters) : Limiters := {|
  login_rl := rl; register_rl := register_rl l; ldap_bind_rl := ldap_bind_rl l;
  oidc_token_rl := oidc_token_rl l |}.

(** [headers.get_all(COOKIE)], every [;]-separated [key=value] with the key:
    [cookie_value] *)
Definition cookies_named `{HttpLib} (h : list (string * string)) (name : string) : list string :=
  flat_map (fun value =>
    match to_str value with
    | Some text =>
        flat_map (fun cookie =>
          match split_once "=" (trim cookie) with
          | Some (key, v) => if beq key name then [v] else []
          | None => []
          end) (split_byte ";" text)
    | None => []
    end) (get_all h "cookie").
Definition cookie_value `{HttpLib} (h : list (string * string)) (name : string) : option string :=
  match cookies_named h name with [v] => Some v | _ => None end.

Section LoginFlow.
Context {E : Env} {HA : Hashing} {ED : Ed25519} {JC : JwtCodec Claims} {UL : UuidLib} {AE : Aead}
        {SJ : SerdeJson TokenPair} {PH : PasswordHashing} {JL : JsonLib} {MAC : HmacSha1}
        {HL : HttpLib}.
Variable non_ascii_uppercase : string -> string.
Variable username_regex : string -> bool.

(** [enforce_mfa] *)
Definition enforce_mfa (user_id : Uuid) (totp_code : option string) : prog (result LoginError unit) :=
  found <-? convert App (UserTotp_get user_id) ;;
  match found with
  | None => Ret (Ok tt)
  | Some totp_row =>
      if negb (is_activated totp_row) then Ret (Ok tt)
      else
        match opt_filter (fun c => negb (is_empty c)) (option_map trim totp_code) with
        | None => Ret (Err MfaRequired)
        | Some code =>
            secret <-? Ret (map_err App (decrypt_secret (ut_secret_encrypted totp_row))) ;;
            t <~ now ;;
            match verify_code secret code t (ut_last_used_step totp_row) with
            | Some step =>
                recorded <-? convert App (record_step user_id (ut_secret_encrypted totp_row) step) ;;
                Ret (if recorded : bool then Ok tt else Err MfaInvalid)
            | None =>
                used <-? convert App (consume_recovery_code non_ascii_uppercase user_id code) ;;
                Ret (if used : bool then Ok tt else Err MfaInvalid)
            end
        end
  end.

Definition input_error (r : result string unit) : result LoginError unit :=
  map_err (fun msg => App (InputError [msg])) r.

(** What [login] and [browser_login] do up to their response. *)
Definition password_login (st : AppState) (ctx : AuditContext) (input : LoginInput)
    : prog (result LoginError TokenPair) :=
  _ <-? convert RateLimit (rl_check login_rl set_login_rl (ctx_ip ctx)) ;;
  _ <-? convert App acquire ;;
  _ <-? Ret (input_error (validate_username username_regex (li_username input))) ;;
  _ <-? Ret (input_error (validate_password (li_password input))) ;;
  r <~ User_login input ;;
  match r with
  | Err e =>
      o <~ User_get_by_username (li_username input) ;;
      let failed_user_id := match o with Ok (Some u) => Some (u_id u) | _ => None end in
      _ <~ log_login_failed (li_username input) failed_user_id ctx ;;
      Ret (Err (App e))
  | Ok user =>
      m <~ enforce_mfa (u_id user) (li_totp_code input) ;;
      match m with
      | Err MfaRequired => Ret (Err MfaRequired)
      | Err e =>
          _ <~ log_login_failed (li_username input) (Some (u_id user)) ctx ;;
          Ret (Err e)
      | Ok _ =>
          roles <-? convert App (User_get_roles user) ;;
          token_pair <-? convert App (generate_token_pair (u_id user) roles (st_signing_key st)) ;;
          _ <~ audit_save (in_ctx ctx (by_user (u_id user) (audit LoginSuccess))) ;;
          Ret (Ok token_pair)
      end
  end.

(** [login] *)
Definition login : AppState -> AuditContext -> LoginInput -> prog (result LoginError TokenPair) :=
  password_login.

(** [refresh_token] *)
Definition refresh (st : AppState) (ctx : AuditContext) (token : string) : M TokenPair :=
  acquire ;;;
  token_pair <- rotate_token_pair token (st_signing_key st) ;;
  claims <- verify_access_token (access_token token_pair) (st_signing_key st) ;;
  user_id <- require (uuid_parse (sub claims)) AuthenticationRequired ;;
  audit_try (in_ctx ctx (by_user user_id (audit TokenRefresh))) ;;;
  ret token_pair.

(** [logout] *)
Definition logout (st : AppState) (ctx : AuditContext) (token : string) : M Z :=
  acquire ;;;
  user_id <- verify_and_revoke_refresh_token token (st_signing_key st) ;;
  revoke_user_access_tokens user_id ;;;
  audit_try (in_ctx ctx (by_user user_id (audit Logout))) ;;;
  ret 204.

(** ** Browser endpoints *)

Definition auth_cookies (pair : TokenPair) : list (string * string) :=
  [("set-cookie", build_auth_cookie (access_token pair) (expires_in pair));
   ("set-cookie", build_refresh_cookie (refresh_token pair) (refresh_expires_in pair))].

(** A redirect to a local path, or else the JSON answer. *)
Definition redirect_or (headers : list (string * string)) (redirect_uri : option string) (body : Json)
    : result AppError Response :=
  match opt_filter is_local_redirect redirect_uri with
  | Some uri =>
      match from_str uri with
      | Some v => Ok (response 303 (h_insert "location" v headers) Empty)
      | None => Err (InputError ["Invalid redirect_uri"])
      end
  | None => Ok (response 200 headers (JsonBody body))
  end.

(** [browser_login_response] *)
Definition browser_login_response (token_pair : TokenPair) (redirect_uri : option string)
    : result AppError Response :=
  redirect_or (auth_cookies token_pair) redirect_uri
    (JObj [("success", JBool true); ("redirect_uri", JNull)]).

(** [browser_login] *)
Definition browser_login (st : AppState) (ctx : AuditContext) (redirect_uri : option string)
    (input : LoginInput) : prog (result LoginError Response) :=
  token_pair <-? password_login st ctx input ;;
  Ret (map_err App (browser_login_response token_pair redirect_uri)).

(** [Err(AuthenticationRequired)] is not an error here. *)
Definition unless_unauthenticated {A} (p : M A) : M (option A) :=
  r <~ p ;;
  match r with
  | Ok a => ret (Some a)
  | Err AuthenticationRequired => ret None
  | Err other => throw other
  end.

(** [browser_logout] *)
Definition logout_user (st : AppState) (headers : list (string * string)) : M (option Uuid) :=
  logged <- match first_cookie headers REFRESH_COOKIE_NAME with
            | Some token => unless_unauthenticated
                              (verify_and_revoke_refresh_token token (st_signing_key st))
            | None => ret None
            end ;;
  match logged with
  | Some user_id => ret (Some user_id)
  | None =>
      match cookie_value headers AUTH_COOKIE_NAME with
      | Some access =>
          o <- unless_unauthenticated (verify_access_token access (st_signing_key st)) ;;
          ret (match o with Some claims => uuid_parse (sub claims) | None => None end)
      | None => ret None
      end
  end.

Definition browser_logout (st : AppState) (ctx : AuditContext) (headers : list (string * string))
    (redirect_uri : option string) : M Response :=
  acquire ;;;
  user <- logout_user st headers ;;
  match user with
  | Some user_id =>
      revoke_all_user_tokens user_id ;;;
      audit_try (in_ctx ctx (by_user user_id (audit Logout)))
  | None => ret tt
  end ;;;
  lift (redirect_or (map (fun c => ("set-cookie", c)) clear_auth_cookies) redirect_uri
          (JObj [("success", JBool true)])).

(** [browser_refresh] *)
Definition browser_refresh (st : AppState) (ctx : AuditContext) (headers : list (string * string))
    : M Response :=
  acquire ;;;
  refresh_token_str <- require (first_cookie headers REFRESH_COOKIE_NAME) AuthenticationRequired ;;
  token_pair <- rotate_browser_token_pair refresh_token_str (st_signing_key st) ;;
  claims <- verify_access_token (access_token token_pair) (st_signing_key st) ;;
  user_id <- require (uuid_parse (sub claims)) AuthenticationRequired ;;
  audit_try (in_ctx ctx (by_user user_id (audit TokenRefresh))) ;;;
  ret (response 200 (auth_cookies token_pair) (JsonBody (JObj [("ok", JBool true)]))).
End LoginFlow.
