(* ===== verification/LoginFacts.v ===== *)
(** * What the login and logout endpoints guarantee *)

From S2P Require Import Prelude RStr RateLimit Schema Sys External Users AuditLog Net Settings Token TokenFacts Sessions Totp Http LoginFlow.
Local Open Scope Z_scope.

Section Facts.
Context {E : Env} {HA : Hashing} {ED : Ed25519} {JC : JwtCodec Claims} {UL : UuidLib} {AE : Aead}
        {SJ : SerdeJson TokenPair} {PH : PasswordHashing} {JL : JsonLib} {MAC : HmacSha1}
        {HL : HttpLib}.
Variable non_ascii_uppercase : string -> string.
Variable username_regex : string -> bool.
Let enforce := enforce_mfa non_ascii_uppercase.
Let plogin := password_login non_ascii_uppercase username_regex.

(** ** The second factor

    What a presented code does to the database when it is accepted at a moment
    that has [passed]: without an active factor nothing; a one-time code needs
    a step that the factor has not spent, and spends it; a recovery code needs
    a row that has not been used, and uses it. *)
Inductive second_factor (passed : Z -> Prop) (uid : Uuid) (code : option string) (d : Db) : Db -> Prop :=
| not_enrolled :
    (forall row, fetch (fun u => beq (ut_user_id u) uid) (user_totps d) = Some row -> ut_activated_at row = None) ->
    second_factor passed uid code d d
| by_code row c secret t0 t step :
    fetch (fun u => beq (ut_user_id u) uid) (user_totps d) = Some row -> ut_activated_at row <> None ->
    code = Some c -> trim c <> ""%string -> decrypt_secret (ut_secret_encrypted row) = Ok secret ->
    verify_code secret (trim c) t0 (ut_last_used_step row) = Some step ->
    (exists u, u ∈ user_totps d /\ ut_user_id u = uid /\ ut_secret_encrypted u = ut_secret_encrypted row /\
       ut_activated_at u <> None /\ forall last, ut_last_used_step u = Some last -> last < step) ->
    count (step_unused uid (ut_secret_encrypted row) step) (user_totps d) = 1%nat ->
    (forall u, ut_last_used_step (set_step t step u) = Some step) ->
    passed t0 -> passed t ->
    second_factor passed uid code d
      (with_user_totps (update (step_unused uid (ut_secret_encrypted row) step) (set_step t step)) d)
| by_recovery_code row c t :
    fetch (fun u => beq (ut_user_id u) uid) (user_totps d) = Some row -> ut_activated_at row <> None ->
    code = Some c -> trim c <> ""%string ->
    let hash := hash_recovery_code non_ascii_uppercase (trim c) in
    (exists r, r ∈ recovery_codes d /\ rc_user_id r = uid /\ rc_code_hash r = hash /\ rc_used_at r = None) ->
    (forall r, rc_used_at (set_used_at t r) = Some t) ->
    passed t ->
    second_factor passed uid code d
      (with_recovery_codes (update (unused_code uid hash) (set_used_at t)) d).

Lemma second_factor_mono (P Q : Z -> Prop) uid code d d' :
  (forall t, P t -> Q t) -> second_factor P uid code d d' -> second_factor Q uid code d d'.
Proof.
  intros HPQ [H|row c secret t0 t step|row c t]; [by apply not_enrolled|eapply by_code; eauto|].
  eapply by_recovery_code; eauto.
Qed.

Lemma presented_code_ok (code : option string) c :
  opt_filter (fun c => negb (is_empty c)) (option_map trim code) = Some c ->
  exists c0, code = Some c0 /\ c = trim c0 /\ trim c0 <> ""%string.
Proof.
  intros Hc. apply opt_filter_Some in Hc as [Hm He]. destruct code as [c0|]; [|done].
  simpl in Hm. injection Hm as <-. exists c0. split; [done|]. split; [done|].
  intros Ht. by rewrite Ht in He.
Qed.

Lemma enforce_mfa_ok uid code u w w' :
  run (enforce uid code) w = (Ok u, w') -> second_factor (during w w') uid code (db w) (db w') /\
  (tick w <= tick w')%nat.
Proof.
  intros Hrun. unfold enforce, enforce_mfa in Hrun.
  apply run_bindE_ok in Hrun as (found & w1 & Hf & Hrun). apply run_convert_ok in Hf.
  unfold UserTotp_get in Hf. apply run_query_ok in Hf as (_ & -> & ->).
  destruct (fetch _ _) as [row|] eqn:Ef.
  2: { injection Hrun as _ <-. split; [|cbn; lia]. cbn [db bump]. apply not_enrolled. by rewrite Ef. }
  destruct (is_activated row) eqn:Ea; cbn [negb] in Hrun.
  2: { injection Hrun as _ <-. split; [|cbn; lia]. cbn [db bump]. apply not_enrolled. rewrite Ef.
       intros r [= <-]. unfold is_activated in Ea. by destruct (ut_activated_at row). }
  assert (Hact : ut_activated_at row <> None) by (unfold is_activated in Ea; by destruct (ut_activated_at row)).
  destruct (opt_filter _ _) as [c|] eqn:Ec; [|done].
  apply presented_code_ok in Ec as (c0 & -> & -> & Hne).
  apply run_bindE_ok in Hrun as (secret & w1 & Hd & Hrun). simpl in Hd.
  injection Hd as Hd <-. apply map_err_Ok in Hd.
  apply run_bind_eq in Hrun as (t & w1 & Ht & Hrun). apply run_now in Ht as [-> ->].
  destruct (verify_code _ _ _ _) as [step|] eqn:Ev.
  - apply run_bindE_ok in Hrun as (rec & w1 & Hr & Hrun). apply run_convert_ok in Hr.
    unfold record_step in Hr. run_inv Hr. cbn [fst snd db bump] in *.
    destruct (beq (count _ _) 1%nat) eqn:En; [|done]. injection Hrun as _ <-. bool_hyp.
    split; [|cbn; lia]. eapply by_code; try eassumption; try done;
      [|eexists; (split; [|reflexivity]); cbn; lia..].
    assert (Hpos : (0 < count (step_unused uid (ut_secret_encrypted row) step) (user_totps (db w)))%nat) by lia.
    apply count_pos in Hpos as (u0 & Hu0 & Hs).
    exists u0. split; [done|]. unfold step_unused in Hs. bool_hyp. split; [done|]. split; [done|].
    split; [by destruct (ut_activated_at u0)|]. intros last Hl. rewrite Hl in *. cbn in *. by bool_hyp.
  - apply run_bindE_ok in Hrun as (used & w1 & Hr & Hrun). apply run_convert_ok in Hr.
    unfold consume_recovery_code in Hr. run_inv Hr. cbn [fst snd db bump] in *.
    destruct (0 <? count _ _)%nat eqn:En; [|done]. injection Hrun as _ <-. apply Nat.ltb_lt in En.
    split; [|cbn; lia]. eapply by_recovery_code; try eassumption; try done;
      [|eexists; split; [|reflexivity]; cbn; lia].
    apply count_pos in En as (r & Hin & Hu). exists r. unfold unused_code in Hu. bool_hyp.
    repeat (split; [done|]). by destruct (rc_used_at r).
Qed.

(** ** A successful login *)

Definition password_accepted (username password : string) (d : Db) (user : User) : Prop :=
  exists row : UserRow, fetch (fun u : UserRow => beq (u_username u) username) (users d) = Some row /\
    u_row row = user /\ u_active user = true /\
    exists a hash, a ∈ authenticators d /\ au_owner_id a = u_id user /\ au_scheme a = Password hash /\
      argon2_verify hash password = true.

Lemma User_login_ok input user w w' :
  run (User_login input) w = (Ok user, w') ->
  db w' = db w /\ password_accepted (li_username input) (li_password input) (db w) user.
Proof.
  intros Hrun. unfold User_login in Hrun.
  apply run_bindM_ok in Hrun as (o & w1 & Hr & Hrun).
  unfold User_get_by_username in Hr. apply run_query_ok in Hr as (_ & -> & ->).
  destruct (fetch _ _) as [row|] eqn:Ef; [|done]. cbn [option_map] in Hrun.
  apply run_bind_eq in Hrun as (r & w2 & Hr & Hrun).
  destruct r as [t|e]; [|done]. apply try_password_login_ok in Hr as (Ha & Hdb & Hau).
  run_inv Hrun. split; [done|]. exists row. split; [done|]. split; [done|]. split; [exact Ha|].
  destruct Hau as (a & Hin & Ho & Hv). unfold verify_password in Hv.
  destruct (au_scheme a) as [hash|] eqn:Es; [|done]. by exists a, hash.
Qed.

Lemma rl_check_db get set ip w : db (run (rl_check get set ip) w).2 = db w.
Proof. simpl. by destruct (check _ _ _). Qed.

(** Nothing but the audit log differs. *)
Definition only_audit (d d' : Db) : Prop := with_audit_log (fun _ => audit_log d) d' = d.

Lemma only_audit_refl d : only_audit d d.
Proof. by destruct d. Qed.

Lemma only_audit_save e w : only_audit (db w) (db (run (audit_save e) w).2).
Proof. destruct (audit_save_db e w) as [f ->]. unfold only_audit. by destruct (db w). Qed.

Lemma passes_User_login input n : respects_from n (on_db anything) (User_login input).
Proof. unfold User_login, try_password_login, get_password_for, User_get_by_username. respects_walk. Qed.
Lemma passes_generate_token_pair uid roles key n :
  respects_from n (on_db anything) (generate_token_pair uid roles key).
Proof.
  unfold generate_token_pair, session_expiry_seconds, get_setting, user_session_version,
    generate_token_pair_for_session, generate_access_token_for_session,
    generate_refresh_token_for_session. respects_walk; exact I.
Qed.
Lemma passes_audit_save e n : respects_from n (on_db anything) (audit_save e).
Proof. unfold audit_save. respects_walk; exact I. Qed.

(** C5: a login needs everything it asks for.  Tokens are issued only to a
    client within the login rate limit, for an active user whose stored
    password hash accepts the password and, when the user has an active second
    factor, only against a one-time code that its secret shows at a moment of
    this very login, at an unused step, or an unused recovery code.  The
    database afterwards is the one before with that step or code spent, one new
    session of the user and the log; the pair carries the user's current
    session generation and roles, and its session ends the configured time
    after the login. *)
Theorem login_requires_credentials st ctx input p w w' :
  run (plogin st ctx input) w = (Ok p, w') ->
  (exists n, (check (login_rl (limiters w)) (ctx_ip ctx) (instant (tick w))).1 = Ok n) /\
  exists user d1 row,
    password_accepted (li_username input) (li_password input) (db w) user /\
    second_factor (during w w') (u_id user) (li_totp_code input) (db w) d1 /\
    issued_pair (during w w') (u_id user) (map ro_name (roles_of (u_id user) (db w))) (st_signing_key st)
      (db w) p row /\
    only_audit (with_refresh_tokens (fun rows => rows ++ [row])%list d1) (db w').
Proof.
  intros Hrun. unfold plogin, password_login in Hrun.
  apply run_bindE_ok in Hrun as (n & w1 & Hl & Hrun). apply run_convert_ok in Hl.
  pose proof (rl_check_db login_rl set_login_rl (ctx_ip ctx) w) as Hdb. rewrite Hl in Hdb. simpl in Hdb.
  assert (Ht1 : tick w1 = S (tick w)).
  { simpl in Hl. destruct (check _ _ _) as [r rl]. by injection Hl as _ <-. }
  split. { simpl in Hl. destruct (check _ _ _) as [r rl]. exists n. by injection Hl as -> _. }
  apply run_bindE_ok in Hrun as (? & w2 & Hr & Hrun). apply run_convert_ok, run_acquire_ok in Hr as [_ ->].
  apply run_bindE_ok in Hrun as (? & w2 & Hr & Hrun). simpl in Hr. injection Hr as _ <-.
  apply run_bindE_ok in Hrun as (? & w2 & Hr & Hrun). simpl in Hr. injection Hr as _ <-.
  apply run_bind_eq in Hrun as (r & w2 & Hr & Hrun). destruct r as [user|e].
  2: { apply run_bind_eq in Hrun as (? & ? & _ & Hrun). by apply run_bind_eq in Hrun as (? & ? & _ & Hrun). }
  pose proof (run_passes _ _ _ _ (passes_User_login input) Hr) as T2.
  apply User_login_ok in Hr as [Hdb2 Hpw]. cbn [db bump tick] in *. rewrite Hdb in *.
  apply run_bind_eq in Hrun as (m & w3 & Hm & Hrun). destruct m as [[]|e].
  2: { destruct e; try done; by apply run_bind_eq in Hrun as (? & ? & _ & Hrun). }
  apply enforce_mfa_ok in Hm as [Hm T3]. rewrite Hdb2 in Hm.
  apply run_bindE_ok in Hrun as (roles & w4 & Hr & Hrun).
  apply run_convert_ok, run_get_roles_ok in Hr as (_ & -> & ->).
  apply run_bindE_ok in Hrun as (pair & w5 & Hp & Hrun). apply run_convert_ok in Hp.
  pose proof (run_passes _ _ _ _ (passes_generate_token_pair _ _ _) Hp) as T4. cbn [tick bump] in T4.
  apply run_bind_eq in Hrun as (r & w6 & Hs & Hrun). injection Hrun as -> ->.
  pose proof (run_passes _ _ _ _ (passes_audit_save _) Hs) as T5.
  pose proof (only_audit_save (in_ctx ctx (by_user (u_id user) (audit LoginSuccess))) w5) as Ho.
  rewrite Hs in Ho. cbn [snd] in Ho.
  apply generate_token_pair_ok in Hp as (row & Hp & Hd5). cbn [db bump] in *. rewrite Hd5 in Ho.
  assert (Hsame : users (db w3) = users (db w) /\ roles_of (u_id user) (db w3) = roles_of (u_id user) (db w) /\
                  settings (db w3) = settings (db w)) by by destruct Hm.
  destruct Hsame as (Hus & Hro & Hse).
  exists user, (db w3), row. split; [exact Hpw|]. split; [|split; [|exact Ho]].
  - eapply second_factor_mono; [|exact Hm]. intros t. apply during_mono; lia.
  - destruct Hp as (cv & t & a & t1 & t2 & j1 & j2 & id & Hcv & Pt & Pa & P1 & P2 & Hacc & Href & Hrow).
    unfold active_version, setting in *. rewrite Hus, ?Hro, ?Hse in *.
    apply (issued_pair_mono (during (bump w3) w5)); [intros t0; apply during_mono; cbn; lia|].
    exists cv, t, a, t1, t2, j1, j2, id. by repeat (split; [done|]).
Qed.

(** ** A refused login *)

Lemma log_login_failed_db username uid ctx w :
  only_audit (db w) (db (run (log_login_failed username uid ctx) w).2).
Proof.
  unfold log_login_failed, audit_save. rewrite run_bind. cbn [run new_uuid fst snd]. rewrite run_bind.
  cbn [run now fst snd stmt bump db tick]. destruct (fault _); [apply only_audit_refl|].
  unfold insert_checked. destruct (existsb _ _); [apply only_audit_refl|].
  destruct (_ && _); [|apply only_audit_refl]. simpl. by destruct (db w).
Qed.

Lemma run_User_login_refused `{!Calm E} input w :
  (forall user, ~ password_accepted (li_username input) (li_password input) (db w) user) ->
  exists w', run (User_login input) w = (Err AuthenticationRequired, w') /\ db w' = db w.
Proof.
  intros Hno. destruct (run (User_login input) w) as [[user|e] w'] eqn:Hr.
  - apply User_login_ok in Hr as [_ Hpw]. by apply Hno in Hpw.
  - exists w'. revert Hr. unfold User_login, User_get_by_username. run_calm.
    destruct (option_map u_row _) as [user|]; [|by intros [= <- <-]].
    unfold try_password_login, get_password_for. rewrite run_bind.
    destruct (u_active user); run_calm; [|by intros [= <- <-]].
    destruct (fetch _ (authenticators _)) as [a|]; run_calm; [|by intros [= <- <-]].
    destruct (verify_password a _); run_calm; by intros [= <- <-].
Qed.

(** A login does not tell why it was refused.  For an unknown user name,
    an inactive user, a user without password and a wrong password the answer
    is the same, no token is issued and nothing but the audit log changes; a
    client over its rate limit is turned away before any of it is looked at. *)
Theorem login_refused_uniformly `{!Calm E} st ctx input w :
  (forall r, (check (login_rl (limiters w)) (ctx_ip ctx) (instant (tick w))).1 = Err r ->
     (run (plogin st ctx input) w).1 = Err (RateLimit r) /\ db (run (plogin st ctx input) w).2 = db w) /\
  (forall n, (check (login_rl (limiters w)) (ctx_ip ctx) (instant (tick w))).1 = Ok n ->
     is_ok (validate_username username_regex (li_username input)) = true ->
     is_ok (validate_password (li_password input)) = true ->
     (forall user, ~ password_accepted (li_username input) (li_password input) (db w) user) ->
     (run (plogin st ctx input) w).1 = Err (App AuthenticationRequired) /\
     only_audit (db w) (db (run (plogin st ctx input) w).2)).
Proof.
  set (x := run (plogin st ctx input) w).
  unfold plogin, password_login in x. split.
  - intros r Hr. subst x. rewrite run_bindE, run_convert. cbn [run rl_check].
    destruct (check _ _ _) as [x rl]. simpl in Hr. by subst x.
  - intros n Hn Hu Hp Hno. subst x. rewrite run_bindE, run_convert. cbn [run rl_check].
    destruct (check _ _ _) as [x rl]. simpl in Hn. subst x. cbn [fst snd map_err].
    destruct (validate_username _ _) as [[]|]; [|done]. destruct (validate_password _) as [[]|]; [|done].
    unfold acquire. run_calmE. cbn [input_error map_err]. run_calmE.
    set (w1 := bump _). change (db w) with (db w1).
    destruct (run_User_login_refused input w1) as (w2 & Hr & Hdb); [done|].
    rewrite Hr. cbn [fst snd]. unfold User_get_by_username. run_calmE. split; [done|].
    rewrite <- Hdb. exact (log_login_failed_db _ _ _ (bump w2)).
Qed.

(** The password alone does not get past an active second factor.  A
    login that presents no code is asked for one, and a login whose code is
    neither a one-time code at a fresh step nor an unused recovery code is
    refused; either way no token is issued and no code is spent. *)
Theorem second_factor_enforced `{!Calm E} uid code row w :
  fetch (fun u => beq (ut_user_id u) uid) (user_totps (db w)) = Some row -> is_activated row = true ->
  ((forall c, code = Some c -> trim c = ""%string) ->
     exists w', run (enforce uid code) w = (Err MfaRequired, w') /\ db w' = db w) /\
  (forall c secret, code = Some c -> trim c <> ""%string ->
     decrypt_secret (ut_secret_encrypted row) = Ok secret ->
     verify_code secret (trim c) (clock (S (tick w))) (ut_last_used_step row) = None ->
     count (unused_code uid (hash_recovery_code non_ascii_uppercase (trim c))) (recovery_codes (db w)) = 0%nat ->
     exists w', run (enforce uid code) w = (Err MfaInvalid, w') /\ db w' = db w).
Proof.
  intros Hf Ha. unfold enforce, enforce_mfa, UserTotp_get. split.
  - intros Hc. run_calmE. rewrite Hf, Ha. cbn [negb].
    destruct (opt_filter _ _) as [c|] eqn:Ec; [|by eexists].
    apply presented_code_ok in Ec as (c0 & -> & _ & Hne). by specialize (Hc c0 eq_refl).
  - intros c secret -> Hne Hd Hv Hn. run_calmE. rewrite Hf, Ha. cbn [negb option_map opt_filter].
    destruct (is_empty (trim c)) eqn:Et; [by destruct (trim c)|]. cbn [negb].
    rewrite Hd. run_calmE. rewrite Hv. unfold consume_recovery_code. run_calmE. rewrite Hn. run_calmE.
    eexists. split; [reflexivity|]. cbn. unfold with_recovery_codes. rewrite update_id.
    + by destruct (db w).
    + by apply count_zero.
Qed.

(** ** Logout *)

Lemma issued_by_grow uid d d' v : versions_grow uid d d' -> issued_by uid d v -> issued_by uid d' v.
Proof.
  intros Hg Hi x Hx u' Hu' He. destruct (Hg u' Hu' He) as (u & Hu & He' & Hv).
  specialize (Hi x Hx u Hu He'). lia.
Qed.

Lemma nonneg_grow d d' : (forall uid, versions_grow uid d d') -> versions_nonneg d -> versions_nonneg d'.
Proof.
  intros Hg Hn u' Hu'. destruct (Hg (u_id u') u' Hu' eq_refl) as (u & Hu & _ & Hv).
  specialize (Hn u Hu). lia.
Qed.

Lemma grow_logout_user u0 st h : respects (on_db (versions_grow u0)) (logout_user st h).
Proof.
  unfold logout_user, unless_unauthenticated, verify_and_revoke_refresh_token.
  pose proof grow_consume_refresh_token. pose proof grow_verify_access_token. respects_walk.
Qed.

Lemma audit_try_users e w : users (db (run (audit_try e) w).2) = users (db w).
Proof.
  unfold audit_try, audit_save. rewrite run_bind. cbn [run ret snd]. rewrite run_bind.
  cbn [run new_uuid fst snd]. rewrite run_bind. cbn [run now fst snd stmt bump db tick].
  destruct (fault _); [done|]. unfold insert_checked.
  destruct (existsb _ _); [done|]. by destruct (_ && _).
Qed.

Lemma revoke_all_user_tokens_ok uid u w w' :
  run (revoke_all_user_tokens uid) w = (Ok u, w') ->
  users (db w') = update (fun u : UserRow => beq (u_id u) uid) bump_version (users (db w)).
Proof.
  intros Hrun. unfold revoke_all_user_tokens in Hrun.
  apply run_bind_eq in Hrun as (t & ? & Hr & Hrun). apply run_now in Hr as [-> ->].
  apply run_bindM_ok in Hrun as (? & w1 & Hr & Hrun). run_inv Hr.
  by apply revoke_user_access_tokens_ok in Hrun.
Qed.

Lemma h_insert_keeps name name' v c (h : list (string * string)) :
  name' <> name -> In (name', c) h -> In (name', c) (h_insert name v h).
Proof.
  intros Hn Hin. apply in_or_app. left. apply List.filter_In. split; [done|].
  by apply negb_true_iff, beq_neq.
Qed.

(** A browser logout ends the sessions of whoever the request's cookies
    identify: no access token, refresh token, forward-auth session or other
    credential issued to that user before is valid in the resulting state, and
    the response clears both cookies. *)
Theorem browser_logout_ends_sessions st ctx h redirect_uri r uid w w1 w' :
  run (acquire ;;; logout_user st h) w = (Ok (Some uid), w1) ->
  run (browser_logout st ctx h redirect_uri) w = (Ok r, w') ->
  versions_nonneg (db w) ->
  (forall t v, issued_by uid (db w) v -> session_valid uid t v (db w') = false) /\
  Forall (fun c => In ("set-cookie"%string, c) (rs_headers r)) clear_auth_cookies.
Proof.
  intros Hid Hrun Hnn.
  apply run_bindM_ok in Hid as (? & w0 & Ha & Hid).
  unfold browser_logout in Hrun. apply run_bindM_ok in Hrun as (? & w0' & Ha' & Hrun).
  assert (w0' = w0) as -> by congruence.
  apply run_bindM_ok in Hrun as (o & w2 & Hl & Hrun). rewrite Hid in Hl. injection Hl as <- <-.
  apply run_bindM_ok in Hrun as (? & w3 & Hr & Hrun).
  apply run_bindM_ok in Hr as (? & w4 & Hrev & Hau).
  apply revoke_all_user_tokens_ok in Hrev. apply run_acquire_ok in Ha as [_ ->].
  pose proof (audit_try_users (in_ctx ctx (by_user uid (audit Logout))) w4) as Hus. rewrite Hau in Hus.
  apply run_lift_ok in Hrun as [Hresp <-]. split.
  - intros t v Hi.
    assert (Hg : forall u0, versions_grow u0 (db w) (db w1)).
    { intros u0. pose proof (respects_run (on_db (versions_grow u0)) _ (bump w) (grow_logout_user u0 st h)) as Hg.
      rewrite Hid in Hg. exact Hg. }
    eapply (stale_session_invalid uid (db w1)); [exact (nonneg_grow _ _ Hg Hnn)| |exact (issued_by_grow _ _ _ _ (Hg uid) Hi)].
    apply versions_grow_same. cbn [snd] in Hus. simpl. rewrite Hus, Hrev. done.
  - assert (Hall : Forall (fun c => In ("set-cookie"%string, c)
               (map (fun c => ("set-cookie"%string, c)) clear_auth_cookies)) clear_auth_cookies)
      by (repeat constructor; simpl; auto).
    unfold redirect_or in Hresp. destruct (opt_filter _ _) as [uri|]; [|by injection Hresp as <-].
    unfold from_str in Hresp. destruct (header_valid uri); [|done]. injection Hresp as <-.
    eapply Forall_impl; [exact Hall|]. intros c Hc. by apply h_insert_keeps.
Qed.

(** ** Redirects after login and logout *)

(** A path of this server: not [//host], which browsers take for another
    server, nor one written with backslashes. *)
Definition local_path (s : string) : Prop :=
  exists rest, s = String "/" rest /\ starts_with "/" rest = false /\
    contains_byte "\" rest = false /\ any_control s = false.

Lemma is_local_redirect_path s : is_local_redirect s = true -> local_path s.
Proof.
  unfold is_local_redirect. rewrite !andb_true_iff, !negb_true_iff.
  intros [[[Hs Hss] Hb] Hc]. apply starts_with_spec in Hs as [rest ->].
  unfold contains_byte in Hb. cbn [String.append] in *. rewrite any_byte_cons in Hb.
  apply orb_false_iff in Hb as [_ Hb]. exists rest. by repeat split.
Qed.

(** No open redirect.  Wherever the caller asks to go after a browser
    login or logout, the browser is only ever sent to a path of this server. *)
Theorem browser_redirects_local st ctx h redirect_uri input r w w' :
  run (browser_login non_ascii_uppercase username_regex st ctx redirect_uri input) w = (Ok r, w') \/
  run (browser_logout st ctx h redirect_uri) w = (Ok r, w') ->
  forall v, In ("location"%string, v) (rs_headers r) -> redirect_uri = Some v /\ local_path v.
Proof.
  intros Hrun.
  assert (Hr : exists cookies body, redirect_or cookies redirect_uri body = Ok r /\
            Forall (fun e => e.1 = "set-cookie"%string) cookies).
  { destruct Hrun as [Hrun|Hrun].
    - unfold browser_login in Hrun. apply run_bindE_ok in Hrun as (p & w1 & _ & Hrun).
      simpl in Hrun. injection Hrun as Hrun _. apply map_err_Ok in Hrun.
      do 2 eexists. split; [exact Hrun|]. by repeat constructor.
    - unfold browser_logout in Hrun. apply run_bindM_ok in Hrun as (? & ? & _ & Hrun).
      apply run_bindM_ok in Hrun as (? & ? & _ & Hrun). apply run_bindM_ok in Hrun as (? & ? & _ & Hrun).
      apply run_lift_ok in Hrun as [Hrun _].
      do 2 eexists. split; [exact Hrun|]. by repeat constructor. }
  destruct Hr as (cookies & body & Hr & Hc). intros v Hv.
  assert (Hnot : ~ In ("location"%string, v) cookies).
  { intros Hin. apply list_elem_of_In in Hin. by apply (proj1 (Forall_forall _ _) Hc) in Hin. }
  unfold redirect_or in Hr. destruct (opt_filter _ _) as [uri|] eqn:Eo.
  - apply opt_filter_Some in Eo as [-> Hl]. unfold from_str in Hr.
    destruct (header_valid uri); [|done]. injection Hr as <-. simpl in Hv. unfold h_insert in Hv.
    apply in_app_or in Hv as [Hv|[Hv|[]]].
    + apply List.filter_In in Hv as [Hv _]. done.
    + injection Hv as <-. split; [done|]. by apply is_local_redirect_path.
  - injection Hr as <-. done.
Qed.

(** Who a request acts for: the access token it carries is valid at that
    moment, and the roles are the ones the user holds in the database. *)
Definition authenticated (st : AppState) (h : HeaderMap) (w : World) (u : AuthUser) : Prop :=
  exists token c, extract_token h = Some token /\
    jwt_decode (verifying_key (st_signing_key st)) token_validation (clock (S (tick w))) token = Some c /\
    typ c = "access"%string /\ clock (S (S (tick w))) < exp c /\ uuid_parse (sub c) = Some (au_user_id u) /\
    session_valid (au_user_id u) (iat c) (session_version c) (db w) = true /\
    au_roles u = map ro_name (roles_of (au_user_id u) (db w)).

Lemma auth_user_ok st h u w w' :
  run (auth_user st h) w = (Ok u, w') -> db w' = db w /\ authenticated st h w u.
Proof.
  intros Hr. unfold auth_user in Hr.
  apply run_bindM_ok in Hr as (token & ? & Ht & Hr). apply run_require_ok in Ht as [Ht <-].
  apply run_bindM_ok in Hr as (? & ? & Ha & Hr). apply run_acquire_ok in Ha as [_ ->].
  apply run_bindM_ok in Hr as (c & w2 & Hv & Hr).
  apply verify_access_token_ok in Hv as (Hdb & c0 & uid & Hd & Hty & Hexp & _ & Hu & Hs & ->).
  apply run_bindM_ok in Hr as (uid' & ? & Hr1 & Hr). apply run_require_ok in Hr1 as [Hu' <-].
  cbn in Hu'. rewrite Hu in Hu'. injection Hu' as <-. run_inv Hr.
  split; [done|]. exists token, c0. by repeat (split; [eassumption || done|]).
Qed.

Lemma admin_user_ok st h u w w' :
  run (admin_user st h) w = (Ok u, w') ->
  db w' = db w /\ authenticated st h w u /\
  ROLE_ADMIN ∈ map ro_name (roles_of (au_user_id u) (db w)).
Proof.
  intros Hr. unfold admin_user in Hr.
  apply run_bindM_ok in Hr as (a & w1 & Hr & Hg). apply auth_user_ok in Hr as [Hdb Ha].
  apply run_bindM_ok in Hg as (? & ? & Hg & Hr). apply run_guard_ok in Hg as [Hg <-].
  run_inv Hr. bool_hyp. split; [done|]. split; [done|].
  destruct Ha as (token & c & _ & _ & _ & _ & _ & _ & <-).
  unfold is_admin, has_role in Hg. apply existsb_exists in Hg as (nm & Hx & Hb). bool_hyp. subst nm.
  by apply list_elem_of_In.
Qed.
End Facts.
