(* ===== verification/LoginDemo.v ===== *)
(** * The login theorems at the demonstration database

    The user of [SessionDemo] with a password, logging in and out. *)

From S2P Require Import Prelude RStr RateLimit Schema Sys External Users AuditLog Net Settings Token TokenFacts Sessions SessionDemo Totp Http LoginFlow LoginFacts.
Local Open Scope Z_scope.
Local Open Scope string_scope.

Definition LA : Claims := access_claims (UL := plain_uuid) 7 ["admin"] 605806 (Some 2) 1009 1011 12.
Definition LR : Claims := refresh_claims (UL := plain_uuid) 7 605806 (Some 2) 1009 1013 14.
Definition login_tokens : list (string * (string * Claims)) := [("LA", ("k", LA)); ("LR", ("k", LR))].
Definition login_jwt : JwtCodec Claims := table_jwt login_tokens.
Lemma login_jwt_laws : @JwtLaws Claims plain_ed25519 login_jwt Claims_registered.
Proof. apply table_jwt_laws. refine (bool_decide_eq_true_1 _ _). vm_compute. reflexivity. Qed.

Definition plain_http : HttpLib := {| header_valid := fun _ => true; header_visible := fun _ => true |}.

#[local] Existing Instances demo_env demo_calm plain_hashing plain_ed25519 login_jwt login_jwt_laws
  plain_uuid plain_aead demo_serde plain_passwords plain_json plain_hmac plain_http.

Definition password : string := "correct horse".
Definition ada_password : Authenticator :=
  {| au_id := 60; au_scheme := Password ("$" ++ password); au_owner_id := 7 |}.
Definition login_db : Db := with_authenticators (fun _ => [ada_password]) (demo_db None).
Definition w0 : World := start login_db.
Definition st : AppState := {| st_signing_key := "k"; st_signing_kid := "kid"; st_origin := "https://id" |}.
Definition ctx : AuditContext :=
  {| ctx_ip := V4 0; ctx_ip_address := None; ctx_user_agent := None |}.
Definition ada_login (pw : string) : LoginInput :=
  {| li_username := "ada"; li_password := pw; li_totp_code := None |}.
Definition any_name (s : string) : bool := true.
Definition upper (s : string) : string := s.
Definition pair : TokenPair := {|
  access_token := "LA"; refresh_token := "LR"; expires_in := 900; refresh_expires_in := 604796;
  token_type := "Bearer" |}.

Lemma login_requires_credentials_witness :
  exists user, password_accepted "ada" password (db w0) user /\ u_id user = 7%N.
Proof.
  assert (Hr : run (password_login upper any_name st ctx (ada_login password)) w0
               = (Ok pair, (run (password_login upper any_name st ctx (ada_login password)) w0).2))
    by (apply run_to; vm_compute; reflexivity).
  destruct (login_requires_credentials upper any_name st ctx (ada_login password) pair w0 _ Hr)
    as (_ & user & d1 & row0 & Hpw & _).
  exists user. split; [exact Hpw|]. destruct Hpw as (row & Hf & <- & _).
  vm_compute in Hf. injection Hf as <-. reflexivity.
Defined.

Lemma login_refused_uniformly_witness :
  (run (password_login upper any_name st ctx (ada_login "wrong horse!")) w0).1
  = Err (App AuthenticationRequired).
Proof.
  refine (proj1 (proj2 (login_refused_uniformly upper any_name st ctx (ada_login "wrong horse!") w0)
                   4 _ _ _ _)).
  - vm_compute. reflexivity.
  - vm_compute. reflexivity.
  - vm_compute. reflexivity.
  - intros user (row & _ & _ & _ & a & hash & Ha & _ & Hs & Hv).
    apply list_elem_of_singleton in Ha as ->. injection Hs as <-. vm_compute in Hv. discriminate Hv.
Defined.

Definition enrolled : UserTotp := {|
  ut_user_id := 7; ut_secret_encrypted := "blob"; ut_activated_at := Some 900;
  ut_last_used_step := None; ut_created_at := 800; ut_updated_at := 900 |}.
Definition w_enrolled : World := start (with_user_totps (fun _ => [enrolled]) login_db).

Lemma second_factor_enforced_witness :
  exists w', run (enforce_mfa upper 7 None) w_enrolled = (Err MfaRequired, w').
Proof.
  assert (Hf : fetch (fun u => beq (ut_user_id u) 7%N) (user_totps (db w_enrolled)) = Some enrolled)
    by (vm_compute; reflexivity).
  destruct (proj1 (second_factor_enforced upper 7 None enrolled w_enrolled Hf eq_refl)) as (w' & Hr & _).
  - intros c Hc. discriminate Hc.
  - exists w'. exact Hr.
Defined.

(** The browser logs out with the access cookie of that login. *)
Definition w_in : World := (run (password_login upper any_name st ctx (ada_login password)) w0).2.
Definition cookies : list (string * string) := [("cookie", "theme=dark; __Host-authere_token=LA")].

Lemma browser_logout_ends_sessions_witness :
  session_valid 7 1011 (Some 2) (db w_in) = true /\
  session_valid 7 1011 (Some 2) (db (run (browser_logout st ctx cookies None) w_in).2) = false.
Proof.
  split; [vm_compute; reflexivity|].
  assert (Hr : exists r, run (browser_logout st ctx cookies None) w_in
               = (Ok r, (run (browser_logout st ctx cookies None) w_in).2)).
  { eexists. apply run_to. vm_compute. reflexivity. }
  destruct Hr as [r Hr].
  assert (Hid : run (acquire ;;; logout_user st cookies) w_in
                = (Ok (Some 7%N), (run (acquire ;;; logout_user st cookies) w_in).2))
    by (apply run_to; vm_compute; reflexivity).
  refine (proj1 (browser_logout_ends_sessions st ctx cookies None r 7 w_in _ _ Hid Hr _) 1011 (Some 2) _).
  - intros u Hu. apply list_elem_of_singleton in Hu as ->. done.
  - intros v [= <-] u Hu _. apply list_elem_of_singleton in Hu as ->. done.
Defined.

Definition app_login : prog (result LoginError Response) :=
  browser_login upper any_name st ctx (Some "/app?x=1") (ada_login password).
Definition app_response : Response := response 303 (h_insert "location" "/app?x=1" (auth_cookies pair)) Empty.

Lemma browser_redirects_local_witness : local_path "/app?x=1".
Proof.
  assert (Hr : run app_login w0 = (Ok app_response, (run app_login w0).2))
    by (apply run_to; vm_compute; reflexivity).
  assert (Hin : In ("location", "/app?x=1") (rs_headers app_response))
    by (vm_compute; right; right; left; reflexivity).
  exact (proj2 (browser_redirects_local upper any_name st ctx [] (Some "/app?x=1") (ada_login password)
                  app_response w0 _ (or_introl Hr) _ Hin)).
Defined.

