(* ===== verification/PolicyPath.v ===== *)
(** * The canonical path of a request ([handlers/auth.rs]: [normalize_policy_path])

    Access policies are matched against a canonical form of the request's
    path; this file defines it and shows that it is canonical. *)

From S2P Require Import Prelude RStr RateLimit Schema Sys External.
Local Open Scope string_scope.

(** [safe_local_path] *)
Definition safe_local_path (path : string) : bool :=
  (starts_with "/" path && negb (starts_with "//" path)
   && negb (any_byte (fun b => beq b "\"%char || is_ascii_control b) path))%bool.

Definition contains_str (p s : string) : bool := is_some (str_find p s).

(** The loop over the path's segments: "." and empty segments are dropped,
    ".." drops the segment before it. *)
Definition push_segment (segments : list string) (segment : string) : list string :=
  if beq segment "" || beq segment "." then segments
  else if beq segment ".." then removelast segments
  else (segments ++ [segment])%list.

Section PolicyPath.
Context {UE : UrlEncoding}.

(** [for _ in 0..5]: decode until nothing changes. *)
Fixpoint decode_repeatedly (n : nat) (decoded : string) : result AppError string :=
  match n with
  | O => Ok decoded
  | S n' =>
      match url_decode decoded with
      | None => Err (InputError ["Invalid URL path"])
      | Some next => if beq next decoded then Ok decoded else decode_repeatedly n' next
      end
  end.

(** [normalize_policy_path] *)
Definition normalize_policy_path (path : string) : result AppError string :=
  match decode_repeatedly 5 path with
  | Err e => Err e
  | Ok decoded =>
      if negb (safe_local_path decoded) || contains_byte "%" decoded || contains_str "//" decoded
      then Err (InputError ["Ambiguous URL path"])
      else
        let segments := foldl push_segment [] (split_byte "/" decoded) in
        let normalized := "/" ++ join "/" segments in
        Ok (if ends_with "/" decoded && negb (beq normalized "/") then normalized ++ "/" else normalized)
  end.
End PolicyPath.

(** ** Lemmas on splitting *)

Lemma all_bytes_split p c s :
  all_bytes p s = true -> Forall (fun x => all_bytes p x = true) (split_byte c s).
Proof.
  induction s as [|a s IH]; simpl; [by repeat constructor|]. intros H. bool_hyp.
  specialize (IH ltac:(done)). destruct (beq a c); [by constructor|].
  destruct (split_byte c s) as [|h l]; [by repeat constructor; simpl; rewrite H|].
  apply Forall_cons in IH as [Hh Hl]. constructor; [|done]. simpl. by rewrite H.
Qed.

Lemma all_bytes_join p sep l :
  all_bytes p sep = true -> Forall (fun x => all_bytes p x = true) l -> all_bytes p (join sep l) = true.
Proof.
  intros Hs Hl. induction Hl as [|x l Hx Hl IH]; [done|]. destruct l as [|y l]; [done|].
  rewrite join_cons, !all_bytes_app by done. by rewrite Hx, Hs, IH.
Qed.

(** The bytes a canonical path is made of. *)
Definition plain_byte (a : ascii) : bool :=
  negb (beq a "%"%char) && negb (beq a "\"%char) && negb (is_ascii_control a).

(** A segment of a canonical path. *)
Definition proper_segment (s : string) : Prop :=
  s <> "" /\ s <> "." /\ s <> ".." /\ contains_byte "/" s = false /\ all_bytes plain_byte s = true.

(** A canonical path: a slash and proper segments, optionally closed by a
    slash. *)
Definition mid (segs : list string) (trailing : bool) : list string :=
  match segs with [] => [""] | _ => if trailing then (segs ++ [""])%list else segs end.
Definition canonical_path (q : string) : Prop :=
  exists segs trailing, Forall proper_segment segs /\ q = join "/" ("" :: mid segs trailing).

Lemma mid_nonempty segs tr : mid segs tr <> [].
Proof. destruct segs, tr; simpl; done. Qed.

Lemma removelast_forall {A} (P : A -> Prop) l : Forall P l -> Forall P (removelast l).
Proof. induction 1 as [|x l Hx Hl IH]; [done|]. simpl. destruct l; [done|by constructor]. Qed.

Lemma push_segments_proper pieces acc :
  Forall proper_segment acc ->
  Forall (fun s => contains_byte "/" s = false /\ all_bytes plain_byte s = true) pieces ->
  Forall proper_segment (foldl push_segment acc pieces).
Proof.
  revert acc. induction pieces as [|s pieces IH]; intros acc Ha Hp; [done|]. simpl.
  apply Forall_cons in Hp as [[Hc Hb] Hp]. apply IH; [|done]. unfold push_segment.
  destruct (beq s "" || beq s ".") eqn:E1; [done|]. bool_hyp.
  destruct (beq s "..") eqn:E2; [by apply removelast_forall|]. bool_hyp.
  apply Forall_app. split; [done|]. constructor; [|done]. by repeat split.
Qed.

(** Pushing proper segments keeps them all. *)
Lemma push_proper segs acc : Forall proper_segment segs -> foldl push_segment acc segs = (acc ++ segs)%list.
Proof.
  intros Hs. revert acc. induction Hs as [|s segs (H1 & H2 & H3 & _) _ IH]; intros acc; simpl.
  - by rewrite app_nil_r.
  - rewrite IH. unfold push_segment.
    rewrite (proj2 (beq_neq s "") H1), (proj2 (beq_neq s ".") H2), (proj2 (beq_neq s "..") H3). simpl.
    by rewrite <- app_assoc.
Qed.

Lemma push_mid segs tr : Forall proper_segment segs -> foldl push_segment [] ("" :: mid segs tr) = segs.
Proof.
  intros Hs. change (foldl push_segment [] (mid segs tr) = segs).
  destruct segs as [|s segs]; [done|]. unfold mid. destruct tr.
  - by rewrite foldl_app, (push_proper (s :: segs) [] Hs).
  - by rewrite push_proper.
Qed.

Lemma split_canonical segs tr :
  Forall proper_segment segs ->
  split_byte "/" (join "/" ("" :: mid segs tr)) = "" :: mid segs tr.
Proof.
  intros Hs. apply (split_byte_join "/"); [done|]. constructor; [done|].
  assert (Hf : Forall (fun p => contains_byte "/" p = false) segs).
  { eapply Forall_impl; [exact Hs|]. by intros s (_ & _ & _ & Hc & _). }
  destruct segs as [|s segs]; [by repeat constructor|]. unfold mid. destruct tr; [|done].
  apply Forall_app. split; [done|by repeat constructor].
Qed.

(** Only the last piece of a canonical path can be empty. *)
Lemma empty_in_mid segs tr l1 l2 :
  Forall proper_segment segs -> mid segs tr = (l1 ++ "" :: l2)%list -> l2 = [].
Proof.
  intros Hs Heq.
  assert (Hno : ~ In "" segs).
  { intros Hin%list_elem_of_In. by apply (proj1 (Forall_forall _ _) Hs) in Hin as [? _]. }
  destruct segs as [|s segs].
  - destruct l1 as [|x [|y l1]]; simpl in Heq; [by injection Heq|discriminate Heq|discriminate Heq].
  - unfold mid in Heq. destruct tr.
    + destruct (decide (l2 = [])) as [|Hl2]; [done|exfalso]. apply Hno.
      rewrite (app_removelast_last "" Hl2), app_comm_cons, app_assoc in Heq.
      apply app_inj_tail in Heq as [-> _]. apply in_or_app. right. by left.
    + exfalso. apply Hno. rewrite Heq. apply in_or_app. right. by left.
Qed.

Section Canonical.
Context {UE : UrlEncoding}.

Lemma join_snoc_empty l : l <> [] -> join "/" (l ++ [""]) = join "/" l ++ "/".
Proof.
  intros Hne. induction l as [|x l IH]; [done|]. destruct l as [|y l].
  - simpl. by autorewrite with str.
  - change ((x :: y :: l) ++ [""])%list with (x :: ((y :: l) ++ [""]))%list.
    rewrite !join_cons by done. rewrite IH by done. by autorewrite with str.
Qed.

Lemma ends_with_split s : ends_with "/" s = true <-> exists l, split_byte "/" s = (l ++ [""])%list /\ l <> [].
Proof.
  rewrite ends_with_spec. split.
  - intros [r ->]. exists (split_byte "/" r). split; [|apply split_byte_nonempty].
    by rewrite (split_byte_app_sep "/" r "").
  - intros (l & Hl & Hne). exists (join "/" l). rewrite <- (join_split_byte "/" s), Hl.
    by apply join_snoc_empty.
Qed.

Lemma canonical_no_double q : canonical_path q -> contains_str "//" q = false.
Proof.
  intros (segs & tr & Hs & ->). unfold contains_str.
  destruct (str_find "//" _) as [n|] eqn:Ef; [|done]. exfalso.
  apply str_find_Some in Ef as [_ Ef]. set (q := join _ _) in *.
  set (l := take_bytes n q) in *. set (r := drop_bytes _ q) in *.
  assert (Hq : split_byte "/" q = (split_byte "/" l ++ "" :: split_byte "/" r)%list).
  { rewrite Ef. change ("//" +:+ r) with (String "/" (String "/" r)).
    by rewrite (split_byte_app_sep "/" l). }
  unfold q in Hq. rewrite split_canonical in Hq by done.
  destruct (split_byte "/" l) as [|x l'] eqn:El; [by destruct (split_byte_nonempty "/" l)|].
  injection Hq as <- Hq. apply empty_in_mid in Hq; [|done]. by destruct (split_byte_nonempty "/" r).
Qed.

Lemma canonical_bytes q : canonical_path q -> all_bytes plain_byte q = true.
Proof.
  intros (segs & tr & Hs & ->). apply all_bytes_join; [reflexivity|]. constructor; [done|].
  assert (Hf : Forall (fun x => all_bytes plain_byte x = true) segs).
  { eapply Forall_impl; [exact Hs|]. by intros s (_ & _ & _ & _ & Hb). }
  destruct segs as [|s segs]; [by repeat constructor|]. unfold mid. destruct tr; [|done].
  apply Forall_app. split; [done|by repeat constructor].
Qed.

(** The pieces of the result. *)
Lemma normalized_pieces (segs : list string) :
  Forall proper_segment segs ->
  "/" ++ join "/" segs = join "/" ("" :: mid segs false) /\
  (segs <> [] -> ("/" ++ join "/" segs) ++ "/" = join "/" ("" :: mid segs true)).
Proof.
  intros Hs. rewrite !join_cons by apply mid_nonempty. destruct segs as [|s segs]; [done|].
  split; [done|]. intros _. unfold mid. rewrite join_snoc_empty by done. by autorewrite with str.
Qed.

(** One more round of decoding changes nothing once no percent sign is left. *)
Lemma decode_more `{!UrlEncodingLaws} n s d :
  decode_repeatedly n s = Ok d -> contains_byte "%" d = false -> decode_repeatedly (S n) s = Ok d.
Proof.
  intros Hd Hp. revert s Hd. induction n as [|n IH]; intros s Hd.
  - injection Hd as ->. simpl. by rewrite (url_decode_plain d Hp), beq_refl.
  - simpl in Hd. destruct (url_decode s) as [next|] eqn:E1; [|done].
    cbn [decode_repeatedly]. rewrite E1. destruct (beq next s); [done|]. by apply IH.
Qed.

Lemma decode_plain `{!UrlEncodingLaws} s : contains_byte "%" s = false -> decode_repeatedly 5 s = Ok s.
Proof. intros Hs. simpl. by rewrite (url_decode_plain s Hs), beq_refl. Qed.

Lemma plain_bytes_spec s :
  all_bytes plain_byte s = true <->
  contains_byte "%" s = false /\ any_byte (fun b => beq b "\"%char || is_ascii_control b) s = false.
Proof.
  unfold contains_byte. induction s as [|a s IH]; simpl; [done|].
  rewrite !any_byte_cons, andb_true_iff, IH. unfold plain_byte.
  rewrite !orb_false_iff, !andb_true_iff, !negb_true_iff.
  assert (beq a "%"%char = false <-> beq "%"%char a = false) as ->; [|naive_solver].
  rewrite !beq_neq. naive_solver.
Qed.

Lemma canonical_safe q : canonical_path q -> safe_local_path q = true.
Proof.
  intros Hq. pose proof (canonical_no_double q Hq) as Hd. pose proof (canonical_bytes q Hq) as Hb.
  apply plain_bytes_spec in Hb as [_ Hb]. unfold safe_local_path. rewrite Hb, andb_true_r.
  apply andb_true_iff. split.
  - destruct Hq as (segs & tr & _ & ->). rewrite join_cons by apply mid_nonempty.
    apply starts_with_spec. eexists. reflexivity.
  - apply negb_true_iff. destruct (starts_with "//" q) eqn:Es; [|done].
    unfold contains_str in Hd. destruct q; simpl in Hd; [done|]. by rewrite Es in Hd.
Qed.

Lemma normalize_canonical_id `{!UrlEncodingLaws} q : canonical_path q -> normalize_policy_path q = Ok q.
Proof.
  intros Hq. unfold normalize_policy_path.
  pose proof (canonical_safe q Hq) as Hsafe. pose proof (canonical_no_double q Hq) as Hd.
  pose proof (canonical_bytes q Hq) as Hb. apply plain_bytes_spec in Hb as [Hb _].
  rewrite decode_plain, Hsafe, Hb, Hd by done. simpl negb. cbv iota.
  destruct Hq as (segs & tr & Hs & ->). rewrite split_canonical, push_mid by done. f_equal.
  destruct (normalized_pieces segs Hs) as [H1 H2]. cbv zeta.
  destruct segs as [|s segs]; [by destruct tr|].
  assert (Hne : beq ("/" ++ join "/" (s :: segs)) "/" = false).
  { apply beq_neq. intros Heq. rewrite H1 in Heq. apply (f_equal (split_byte "/")) in Heq.
    rewrite split_canonical in Heq by done. injection Heq as -> _.
    apply Forall_cons in Hs as [[Hs _] _]. done. }
  change (String "/" (join "/" (s :: segs))) with ("/" ++ join "/" (s :: segs)).
  rewrite Hne, andb_true_r. destruct tr.
  - rewrite <- H2 by done. destruct (ends_with "/" _) eqn:Ee; [done|]. exfalso.
    apply not_true_iff_false in Ee. apply Ee, ends_with_spec. by eexists.
  - destruct (ends_with "/" _) eqn:Ee; [|done]. exfalso.
    apply ends_with_split in Ee as (l & Hl & _). rewrite split_canonical in Hl by done.
    destruct l as [|x l]; [done|]. injection Hl as _ Hl. unfold mid in Hl.
    assert (Hin : "" ∈ (s :: segs)) by (rewrite Hl; set_solver).
    apply (proj1 (Forall_forall _ _) Hs) in Hin as [? _]. done.
Qed.

(** C32: access policies see one form of a path.  Whatever path a request
    spells, its normal form is a slash followed by proper segments: no "." or
    ".." segment, no empty one, no percent sign, backslash or control
    character; normalising it again changes nothing; and percent-encoding the
    request's path, any number of times that is still accepted, does not
    change the normal form. *)
Theorem normalize_policy_path_canonical `{!UrlEncodingLaws} p q :
  normalize_policy_path p = Ok q ->
  canonical_path q /\ normalize_policy_path q = Ok q /\
  forall p', url_decode p = Some p' -> normalize_policy_path p' = Ok q.
Proof.
  intros Hn. assert (Hc : canonical_path q).
  { revert Hn. unfold normalize_policy_path. destruct (decode_repeatedly 5 p) as [d|]; [|done].
    destruct (_ || _) eqn:Eg; [done|]. rewrite !orb_false_iff, negb_false_iff in Eg.
    destruct Eg as [[Hsafe Hp] _]. intros [= <-].
    assert (Hs : Forall proper_segment (foldl push_segment [] (split_byte "/" d))).
    { apply push_segments_proper; [done|]. unfold safe_local_path in Hsafe.
      rewrite !andb_true_iff, !negb_true_iff in Hsafe. destruct Hsafe as [_ Hb].
      apply Forall_and. split; [apply split_byte_no_sep|]. apply all_bytes_split, plain_bytes_spec. done. }
    destruct (normalized_pieces _ Hs) as [H1 H2].
    destruct (ends_with "/" d && _) eqn:Ee;
      exists (foldl push_segment [] (split_byte "/" d)); [exists true|exists false; by split].
    split; [done|]. apply H2.
    intros Hnil. rewrite Hnil in Ee. apply andb_true_iff in Ee as [_ Ee]. by vm_compute in Ee. }
  split; [done|]. split; [by apply normalize_canonical_id|].
  intros p' Hp'. revert Hn. unfold normalize_policy_path.
  assert (Hd : decode_repeatedly 5 p = if beq p' p then Ok p else decode_repeatedly 4 p')
    by (simpl; by rewrite Hp').
  rewrite Hd. destruct (beq p' p) eqn:Epp.
  - bool_hyp. subst p'. by rewrite Hd.
  - destruct (decode_repeatedly 4 p') as [d|] eqn:Ed; [|done].
    destruct (contains_byte "%" d) eqn:Eb; [by rewrite orb_true_r|].
    by rewrite (decode_more 4 p' d Ed Eb), Eb.
Qed.
End Canonical.

(** ** With percent-decoding of ["%2e"] *)
Module Demo.
#[local] Instance dot_encoding : UrlEncoding := {|
  url_encode := fun s => s;
  url_decode := fun s => if beq s "/a/%2e%2e/b/" then Some "/a/../b/" else Some s |}.
#[local] Instance dot_laws : UrlEncodingLaws.
Proof.
  split. intros s Hs. simpl. destruct (beq s _) eqn:E; [|done]. bool_hyp. subst. by vm_compute in Hs.
Qed.

Lemma normalize_policy_path_canonical_witness :
  normalize_policy_path "/a/%2e%2e/b/" = Ok "/b/" /\ normalize_policy_path "/a/../b/" = Ok "/b/".
Proof.
  assert (Hn : normalize_policy_path "/a/%2e%2e/b/" = Ok "/b/") by (vm_compute; reflexivity).
  split; [exact Hn|].
  refine (proj2 (proj2 (normalize_policy_path_canonical _ _ Hn)) _ _). vm_compute. reflexivity.
Defined.
End Demo.
