(* ===== verification/ForwardAuth.v ===== *)
(** * The forward-auth endpoints ([handlers/auth.rs], second half)

    The request's target as the reverse proxy reports it, the verification
    endpoint the proxy asks, and the redirects of the login that crosses from
    the server's origin to the application's. *)

From S2P Require Import Prelude RStr RateLimit Schema Sys External Users Net Settings Token Application Http LoginFlow Forward PolicyPath.
Local Open Scope Z_scope.
Local Open Scope string_scope.

Definition quote_byte : ascii := byte_of 34.

(** [html_escape] *)
Definition html_escape (s : string) : string :=
  replace_byte "'" "&#39;" (replace_byte quote_byte "&quot;" (replace_byte ">" "&gt;"
    (replace_byte "<" "&lt;" (replace_byte "&" "&amp;" s)))).

(** [split(['/', '?', '#']).next()] *)
Fixpoint before_path (s : string) : string :=
  match s with
  | "" => ""
  | String a s' => if contains_byte a "/?#" then "" else String a (before_path s')
  end.

(** [trim_end_matches('/')] *)
Fixpoint drop_slashes (s : string) : string :=
  match s with String a s' => if beq a "/"%char then drop_slashes s' else s | "" => "" end.
Definition trim_end_slashes (s : string) : string := rev_string (drop_slashes (rev_string s)).

Record ForwardTarget := { ft_url : Url; ft_host : string; ft_policy_path : string }.

Section ForwardAuth.
Context {E : Env} {HA : Hashing} {ED : Ed25519} {UL : UuidLib} {JC : JwtCodec Claims}
        {JF : JwtCodec ForwardSession} {JH : JwtCodec Handoff} {AE : Aead} {SJ : SerdeJson TokenPair}
        {JL : JsonLib} {RX : RegexLib} {URL : UrlLib} {UE : UrlEncoding} {HL : HttpLib}.

(** [single_header] *)
Definition single_header (h : list (string * string)) (name : string) : option string :=
  match get_all h name with [v] => to_str v | _ => None end.

(** ** [ForwardTarget] *)

(** [ForwardTarget::parse] *)
Definition has_userinfo (input : string) : bool :=
  match str_find "://" input with
  | Some n =>
      let rest := drop_bytes (n + 3) input in
      let s := match str_find "://" rest with Some m => take_bytes m rest | None => rest end in
      contains_byte "@" (before_path s)
  | None => false
  end.

Definition target_parse (input : string) : result AppError ForwardTarget :=
  let invalid := InputError ["Invalid HTTPS forward-auth target"] in
  if any_byte (fun b => is_ascii_control b || is_ascii_whitespace b || beq b "\"%char)%bool input
  then Err invalid
  else match url_parse input with
       | None => Err invalid
       | Some parsed =>
           if (negb (beq (url_scheme parsed) "https") || is_none (url_host_str parsed)
               || negb (is_empty (url_username parsed)) || is_some (url_password parsed)
               || is_some (url_fragment parsed) || has_userinfo input)%bool
           then Err invalid
           else match normalize_policy_path (url_path parsed) with
                | Err e => Err e
                | Ok policy_path => Ok {| ft_url := parsed; ft_host := url_host_port parsed;
                                          ft_policy_path := policy_path |}
                end
       end.

Definition bad_host (host : string) : bool := any_byte (fun b => contains_byte b ",/?#@") host.

(** [ForwardTarget::from_proxy] *)
Definition from_proxy (h : list (string * string)) : result AppError ForwardTarget :=
  match single_header h "x-forwarded-host" with
  | None => Err (InputError ["Missing forwarded host"])
  | Some host =>
      let proto := unwrap_or (single_header h "x-forwarded-proto") "https" in
      match single_header h "x-forwarded-uri" with
      | None => Err (InputError ["Missing forwarded URI"])
      | Some path =>
          if (negb (safe_local_path path) || bad_host host)%bool
          then Err (InputError ["Invalid forward-auth request metadata"])
          else target_parse (proto ++ "://" ++ host ++ path)
      end
  end.

(** [ForwardTarget::from_callback] *)
Definition from_callback (h : list (string * string)) (path : string) : result AppError ForwardTarget :=
  let host_header := if contains_key h "x-authere-target-host" then "x-authere-target-host" else "host" in
  match single_header h host_header with
  | None => Err (InputError ["Missing target host"])
  | Some host =>
      if (negb (safe_local_path path) || bad_host host)%bool
      then Err (InputError ["Invalid forward-auth target"])
      else target_parse ("https://" ++ host ++ path)
  end.

(** [origin], [local_path], [start_url] *)
Definition ft_origin (t : ForwardTarget) : string := url_origin_text (ft_url t).
Definition ft_local_path (t : ForwardTarget) : string := url_from_path (ft_url t).
Definition start_url (t : ForwardTarget) : string :=
  ft_origin t ++ "/.authere/start?redirect_uri=" ++ url_encode (ft_local_path t).

(** [ensure_protected_origin] *)
Definition same_origin (a b : Url) : bool :=
  match url_origin a, url_origin b with Some x, Some y => beq x y | _, _ => false end.
Definition ensure_protected_origin (t : ForwardTarget) (auth_origin : string) : result AppError unit :=
  if is_some_and (url_parse auth_origin) (fun auth => same_origin auth (ft_url t))
  then Err Forbidden else Ok tt.

(** ** Responses *)

Definition header_or_empty (v : string) : string := if header_valid v then v else "".

(** [build_auth_headers] *)
Definition build_auth_headers (user : User) (roles : list string) (email : option string)
    : list (string * string) :=
  h_insert "x-auth-email" (match email with Some e => header_or_empty e | None => "" end)
  (h_insert "x-auth-roles" (header_or_empty (join "," roles))
  (h_insert "x-auth-username" (header_or_empty (u_username user))
  (h_insert "x-auth-user" (header_or_empty (uuid_to_string (u_id user))) []))).

Definition see_other (headers : list (string * string)) : Response := response 303 headers Empty.

(** [build_forward_auth_redirect] *)
Definition build_forward_auth_redirect (h : list (string * string)) : Response :=
  match from_proxy h with
  | Ok target => see_other [("location", start_url target); ("cache-control", "no-store")]
  | Err error => error_response error
  end.

(** [build_forward_auth_denied_html]: its link and details *)
Definition quote : string := String quote_byte "".
Definition span (class text : string) : string :=
  "<span class=" ++ quote ++ class ++ quote ++ ">" ++ text ++ "</span>".
Definition row (content : string) : string := "<div class=" ++ quote ++ "row" ++ quote ++ ">" ++ content ++ "</div>".
Definition app_block (app_name : option string) : string :=
  match app_name with
  | Some name => if is_empty name then "" else row (span "label" "Application" ++ span "value" (html_escape name))
  | None => ""
  end.
Definition roles_block (required_roles : list string) : string :=
  match required_roles with
  | [] => ""
  | _ => row (span "label" "Required roles"
              ++ span "value chips" (join "" (map (fun r => span "chip" (html_escape r)) required_roles)))
  end.
Definition denied_details (app_name : option string) (required_roles : list string) : string :=
  let a := app_block app_name in
  let r := roles_block required_roles in
  if (is_empty a && is_empty r)%bool then ""
  else "<div class=" ++ quote ++ "details" ++ quote ++ ">" ++ a ++ r ++ "</div>".
Definition build_forward_auth_denied_html (origin : string) (h : list (string * string))
    (app_name : option string) (required_roles : list string) : Response :=
  let switch_user_url := match from_proxy h with
                         | Ok target => start_url target ++ "&login=true"
                         | Err _ => origin ++ "/login"
                         end in
  response 403 [("content-type", "text/html; charset=utf-8"); ("cache-control", "no-store")]
    (DeniedPage (html_escape switch_user_url) (denied_details app_name required_roles)).

(** ** [verify_auth] *)

Definition presented_token (h : list (string * string)) : option string :=
  match cookie_value h SESSION_COOKIE with
  | Some t => Some t
  | None => match single_header h "authorization" with
            | Some v => strip_prefix "Bearer " v
            | None => None
            end
  end.

Definition verify_auth (st : AppState) (h : list (string * string)) : prog (result Response Response) :=
  _ <-? convert error_response acquire ;;
  target <-? Ret (map_err error_response (from_proxy h)) ;;
  _ <-? Ret (map_err error_response (ensure_protected_origin target (st_origin st))) ;;
  matched <-? convert error_response (find_matching (ft_host target) (ft_policy_path target)) ;;
  app <-? Ret (ok_or matched (error_response Forbidden)) ;;
  token <-? Ret (ok_or (presented_token h) (build_forward_auth_redirect h)) ;;
  claims <-? convert (fun error => match error with
                                   | AuthenticationRequired => build_forward_auth_redirect h
                                   | other => error_response other
                                   end)
               (verify_session token (ft_origin target) (st_signing_key st)) ;;
  found <-? convert error_response (User_get (fs_sub claims)) ;;
  user <-? Ret (ok_or found (error_response AuthenticationRequired)) ;;
  roles <-? convert error_response (User_get_roles user) ;;
  allowed <-? convert error_response (check_access_resolved app roles) ;;
  if negb allowed then
    Ret (Err (build_forward_auth_denied_html (st_origin st) h (Some (a_name app)) (a_required_roles app)))
  else if negb (beq (fs_application_id claims) (a_id app)) then
    Ret (Err (build_forward_auth_redirect h))
  else
    Ret (Ok (response 200 (h_insert "cache-control" "no-store"
                             (build_auth_headers user roles (u_email user))) Empty)).

(** ** The redirects *)

(** [forward_auth_start] *)
Definition forward_auth_start (st : AppState) (h : list (string * string))
    (redirect_uri : option string) (login : bool) : M Response :=
  target <- lift (from_callback h (unwrap_or redirect_uri "/")) ;;
  lift (ensure_protected_origin target (st_origin st)) ;;;
  acquire ;;;
  matched <- find_matching (ft_host target) (ft_policy_path target) ;;
  require matched Forbidden ;;;
  nonce <~ new_state ;;
  let continue_path := "/api/auth/forward-redirect?redirect_uri=" ++ url_encode (url_text (ft_url target))
                       ++ "&state=" ++ nonce in
  let location := if login
                  then trim_end_slashes (st_origin st) ++ "/login?redirect_uri=" ++ url_encode continue_path
                  else trim_end_slashes (st_origin st) ++ continue_path in
  ret (see_other [("location", location); ("set-cookie", state_cookie nonce 600);
                  ("cache-control", "no-store"); ("referrer-policy", "no-referrer")]).

(** [with_origin_cookies] *)
Definition with_origin_cookies (r : Response) (tokens : option TokenPair) : Response :=
  map_headers (fun h =>
    (h_insert "referrer-policy" "no-referrer" (h_insert "cache-control" "no-store" h)
     ++ match tokens with Some p => auth_cookies p | None => [] end)%list) r.

(** The session of [forward_redirect]'s request: the access cookie's, or the
    one its refresh cookie renews. *)
Definition request_session (st : AppState) (h : list (string * string))
    : M (option (Claims * option TokenPair)) :=
  claims <- match cookie_value h AUTH_COOKIE_NAME with
            | Some token => unless_unauthenticated (verify_access_token token (st_signing_key st))
            | None => ret None
            end ;;
  match claims with
  | Some c => ret (Some (c, None))
  | None =>
      match cookie_value h REFRESH_COOKIE_NAME with
      | Some refresh =>
          rotated <- unless_unauthenticated (rotate_browser_token_pair refresh (st_signing_key st)) ;;
          match rotated with
          | Some renewed =>
              c <- verify_access_token (access_token renewed) (st_signing_key st) ;;
              ret (Some (c, Some renewed))
          | None => ret None
          end
      | None => ret None
      end
  end.

(** [forward_redirect] *)
Definition forward_redirect (st : AppState) (h : list (string * string))
    (redirect_uri state : string) : M Response :=
  target <- lift (target_parse redirect_uri) ;;
  lift (ensure_protected_origin target (st_origin st)) ;;;
  guard (negb (valid_state state)) (InputError ["Invalid forward login state"]) ;;;
  acquire ;;;
  matched <- find_matching (ft_host target) (ft_policy_path target) ;;
  app <- require matched Forbidden ;;
  session <- request_session st h ;;
  match session with
  | None =>
      let continue_url := "/api/auth/forward-redirect?redirect_uri=" ++ url_encode (url_text (ft_url target))
                          ++ "&state=" ++ state in
      ret (with_origin_cookies
             (see_other [("location", "/login?redirect_uri=" ++ url_encode continue_url)]) None)
  | Some (claims, renewed) =>
      user_id <- require (uuid_parse (sub claims)) AuthenticationRequired ;;
      found <- User_get user_id ;;
      user <- require found AuthenticationRequired ;;
      roles <- User_get_roles user ;;
      allowed <- check_access_resolved app roles ;;
      if negb allowed then
        host <- require (from_str (ft_host target)) (InputError ["Invalid target host"]) ;;
        path <- require (from_str (ft_local_path target)) (InputError ["Invalid target path"]) ;;
        ret (with_origin_cookies
               (build_forward_auth_denied_html (st_origin st)
                  (h_insert "x-forwarded-uri" path (h_insert "x-forwarded-host" host []))
                  (Some (a_name app)) (a_required_roles app)) renewed)
      else
        handoff <- issue_handoff claims (a_id app) (ft_origin target) (ft_local_path target) state
                     (st_signing_key st) ;;
        ret (with_origin_cookies
               (see_other [("location", ft_origin target ++ "/.authere/callback?token=" ++ url_encode handoff)])
               renewed)
  end.

(** [forward_auth_callback] *)
Definition legacy_cookies : list string :=
  ["authere_token=; HttpOnly; Secure; SameSite=Lax; Path=/; Max-Age=0";
   "authere_refresh=; HttpOnly; Secure; SameSite=Strict; Path=/api/auth; Max-Age=0";
   "authere_refresh=; HttpOnly; Secure; SameSite=Strict; Path=/auth; Max-Age=0"].

Definition forward_auth_callback (st : AppState) (h : list (string * string)) (token : string)
    : M Response :=
  origin_target <- lift (from_callback h "/") ;;
  lift (ensure_protected_origin origin_target (st_origin st)) ;;;
  nonce <- require (cookie_value h STATE_COOKIE) AuthenticationRequired ;;
  acquire ;;;
  ' (session_token, claims, redirect_path) <-
    redeem_handoff token (ft_origin origin_target) nonce (st_signing_key st) ;;
  target <- lift (from_callback h redirect_path) ;;
  matched <- find_matching (ft_host target) (ft_policy_path target) ;;
  app <- require matched Forbidden ;;
  guard (negb (beq (fs_application_id claims) (a_id app))) Forbidden ;;;
  found <- User_get (fs_sub claims) ;;
  user <- require found AuthenticationRequired ;;
  roles <- User_get_roles user ;;
  allowed <- check_access_resolved app roles ;;
  guard (negb allowed) Forbidden ;;;
  t <~ now ;;
  ret (see_other
    ([("location", redirect_path); ("cache-control", "no-store"); ("referrer-policy", "no-referrer");
      ("set-cookie", session_cookie session_token (fs_exp claims - t)%Z);
      ("set-cookie", state_cookie "" 0)]
     ++ map (fun c => ("set-cookie", c)) (clear_auth_cookies ++ legacy_cookies))%list).

(** [lookup_forward_app] *)
Definition lookup_forward_app (st : AppState) (redirect_uri : string) : M string :=
  target <- lift (target_parse redirect_uri) ;;
  lift (ensure_protected_origin target (st_origin st)) ;;;
  acquire ;;;
  matched <- find_matching (ft_host target) (ft_policy_path target) ;;
  match matched with Some app => ret (a_name app) | None => throw NotFound end.
End ForwardAuth.
