(* ===== verification/ForwardAuthFacts.v ===== *)
(** * What the forward-auth endpoints guarantee *)

From S2P Require Import Prelude RStr RateLimit Schema Sys External Users Net Settings Token TokenFacts Application ApplicationFacts Http LoginFlow Forward ForwardFacts PolicyPath ForwardAuth.
Local Open Scope Z_scope.
Local Open Scope string_scope.

Section Facts.
Context {E : Env} {HA : Hashing} {ED : Ed25519} {UL : UuidLib} {JC : JwtCodec Claims}
        {JF : JwtCodec ForwardSession} {JH : JwtCodec Handoff} {AE : Aead} {SJ : SerdeJson TokenPair}
        {JL : JsonLib} {RX : RegexLib} {URL : UrlLib} {UE : UrlEncoding} {HL : HttpLib}.

Lemma redirect_not_ok h : rs_status (build_forward_auth_redirect h) <> 200.
Proof.
  unfold build_forward_auth_redirect. destruct (from_proxy h) as [t|e]; [done|].
  rewrite error_response_status. by destruct e.
Qed.

Lemma error_not_ok e : rs_status (error_response e) <> 200.
Proof. rewrite error_response_status. by destruct e. Qed.

(** Every way out of a chain of fallible steps is one of the errors given. *)
Lemma bindE_err {X A B} (P : X -> Prop) (p : prog (result X A)) (k : A -> prog (result X B)) w e w' :
  (forall e1 w1, run p w = (Err e1, w1) -> P e1) ->
  (forall a w1, run p w = (Ok a, w1) -> run (k a) w1 = (Err e, w') -> P e) ->
  run (bindE p k) w = (Err e, w') -> P e.
Proof.
  intros H1 H2. rewrite run_bindE. destruct (run p w) as [[a|e1] w1] eqn:Hr; [by apply H2|].
  intros [= <- <-]. by eapply H1.
Qed.

Lemma convert_err {X Y A} (f : X -> Y) (p : prog (result X A)) w e w' :
  run (convert f p) w = (Err e, w') -> exists x, e = f x.
Proof. rewrite run_convert. destruct (run p w).1; simpl; [done|]. intros [= <- _]. eauto. Qed.

Lemma ret_map_err {X Y A} (f : X -> Y) (r : result X A) w e w' :
  run (Ret (map_err f r)) w = (Err e, w') -> exists x, e = f x.
Proof. destruct r; simpl; [done|]. intros [= <- _]. eauto. Qed.

Lemma ret_ok_or {X A} (o : option A) (x : X) w e w' :
  run (Ret (ok_or o x)) w = (Err e, w') -> e = x.
Proof. destruct o; simpl; [done|]. by intros [= <- _]. Qed.

Ltac refused :=
  let He := fresh in intros ? ? He;
  first [ apply convert_err in He as [[] ->] | apply ret_map_err in He as [? ->] | apply ret_ok_or in He as -> ];
  first [ apply error_not_ok | apply redirect_not_ok ].

(** A refused request is never answered with 200. *)
Lemma verify_auth_refusal st h r w w' : run (verify_auth st h) w = (Err r, w') -> rs_status r <> 200.
Proof.
  unfold verify_auth.
  repeat (apply (bindE_err (fun r => rs_status r <> 200)); [refused|intros ? ? _]).
  destruct (negb _); [by intros [= <- _]|]. destruct (negb _); [|done].
  intros [= <- _]. apply redirect_not_ok.
Qed.

Lemma get_all_h_insert h n v m :
  get_all (h_insert n v h) m = if beq n m then [v] else get_all h m.
Proof.
  unfold get_all, h_insert. rewrite List.filter_app, map_app. simpl.
  destruct (beq n m) eqn:E1; simpl.
  - bool_hyp. subst m.
    assert (List.filter (fun e => beq e.1 n) (List.filter (fun e => negb (beq e.1 n)) h) = []) as ->; [|done].
    clear. induction h as [|[a b] h IH]; [done|]. simpl. destruct (beq a n) eqn:E2; simpl; [done|]. by rewrite E2.
  - rewrite app_nil_r. f_equal. induction h as [|[a b] h IH]; [done|]. simpl.
    destruct (beq a n) eqn:E2; simpl; bool_hyp.
    + subst a. rewrite (proj2 (beq_neq n m)) by done. done.
    + by rewrite IH.
Qed.

(** The identity the proxy passes on: exactly one value of each header, empty
    when it cannot be written in one. *)
Definition identity_headers (user : User) (roles : list string) (h : list (string * string)) : Prop :=
  get_all h "x-auth-user" = [header_or_empty (uuid_to_string (u_id user))] /\
  get_all h "x-auth-username" = [header_or_empty (u_username user)] /\
  get_all h "x-auth-roles" = [header_or_empty (join "," roles)] /\
  get_all h "x-auth-email" = [match u_email user with Some e => header_or_empty e | None => "" end].

Lemma build_auth_headers_identity user roles :
  identity_headers user roles (h_insert "cache-control" "no-store" (build_auth_headers user roles (u_email user))).
Proof. unfold identity_headers, build_auth_headers. rewrite !get_all_h_insert. by repeat split. Qed.

(** C14: the answer 200 of the verification endpoint is worth relying on.  It
    is given only when the proxied request names one unambiguous HTTPS target
    outside the server's own origin; the policy of that host and canonical path
    is an enabled application; the token the request carries decodes, under the
    server's key, to a forward-auth session for that very origin and
    application, at that moment before its deadline and valid in the database;
    and the user, whose current roles the application admits,
    is the one named in the identity headers, which replace whatever the client
    sent.  Every other outcome has another status, and nothing is written. *)
Theorem verify_auth_sound `{!JwtLaws ForwardSession} st h res w w' :
  run (verify_auth st h) w = (res, w') ->
  match res with
  | Err r => rs_status r <> 200
  | Ok r => rs_status r = 200 /\ db w' = db w /\
      exists target app token fs row,
        from_proxy h = Ok target /\ ensure_protected_origin target (st_origin st) = Ok tt /\
        policy (ft_host target) (ft_policy_path target) (map of_row (applications (db w))) = Ok (Some app) /\
        a_app_type app = ForwardAuth /\ a_enabled app = true /\
        matches app (ft_host target) (ft_policy_path target) = true /\
        presented_token h = Some token /\
        fs_aud fs = ft_origin target /\ fs_application_id fs = a_id app /\
        jwt_decode (verifying_key (st_signing_key st)) (forward_validation (ft_origin target))
          (clock (S (S (tick w)))) token = Some fs /\
        fs_typ fs = "forward-session" /\ clock (S (S (S (tick w)))) < fs_exp fs /\
        session_valid (fs_sub fs) (fs_iat fs) (fs_session_version fs) (db w) = true /\
        fetch (fun u : UserRow => beq (u_id u) (fs_sub fs)) (users (db w)) = Some row /\
        admits (db w) app (map ro_name (roles_of (u_id row) (db w))) /\
        identity_headers (u_row row) (map ro_name (roles_of (u_id row) (db w))) (rs_headers r)
  end.
Proof.
  intros Hrun. destruct res as [r|r]; [|by eapply verify_auth_refusal].
  unfold verify_auth in Hrun.
  apply run_bindE_ok in Hrun as (? & ? & Hr & Hrun). apply run_convert_ok, run_acquire_ok in Hr as [_ ->].
  apply run_bindE_ok in Hrun as (target & ? & Hr & Hrun). injection Hr as Ht <-. apply map_err_Ok in Ht.
  apply run_bindE_ok in Hrun as ([] & ? & Hr & Hrun). injection Hr as Hp <-. apply map_err_Ok in Hp.
  apply run_bindE_ok in Hrun as (matched & w1 & Hr & Hrun).
  apply run_convert_ok, run_find_matching_ok in Hr as [-> Hpol]. cbn [db bump] in *.
  apply run_bindE_ok in Hrun as (app & ? & Hr & Hrun). injection Hr as Ha <-. apply ok_or_Ok in Ha as ->.
  apply run_bindE_ok in Hrun as (token & ? & Hr & Hrun). injection Hr as Htok <-. apply ok_or_Ok in Htok.
  apply run_bindE_ok in Hrun as (fs & w2 & Hr & Hrun). apply run_convert_ok in Hr.
  pose proof (verify_session_ok _ _ _ _ _ _ Hr) as (Hd & Hty & Hexp & Hval & Hdb2).
  pose proof (jwt_decode_validates _ _ _ _ _ Hd) as Haud. apply forward_validates in Haud as [Haud _].
  apply run_bindE_ok in Hrun as (found & ? & Hu & Hrun). apply run_convert_ok, run_User_get_ok in Hu as (_ & -> & ->).
  apply run_bindE_ok in Hrun as (user & ? & Hu & Hrun). injection Hu as Hu <-. apply ok_or_Ok in Hu.
  apply run_bindE_ok in Hrun as (roles & ? & Hro & Hrun). apply run_convert_ok, run_get_roles_ok in Hro as (_ & -> & ->).
  apply run_bindE_ok in Hrun as (allowed & w3 & Hc & Hrun).
  apply run_convert_ok, check_access_resolved_ok in Hc as [Hdb3 Hc]. cbn [db bump] in *.
  destruct allowed; [|done]. cbn [negb] in Hrun.
  destruct (beq (fs_application_id fs) (a_id app)) eqn:Eapp; [|done]. bool_hyp.
  injection Hrun as <- <-. split; [done|]. split; [congruence|].
  apply policy_Some in Hpol as Hpol'. destruct Hpol' as (_ & Hft & Hen & Hm).
  destruct (fetch _ (users (db w2))) as [row|] eqn:Ef; [|done]. injection Hu as <-.
  rewrite Hdb2 in *.
  exists target, app, token, fs, row. do 14 (split; [done|]).
  split; [by apply Hc|]. apply build_auth_headers_identity.
Qed.
End Facts.
