(* ===== verification/AppPasswords.v ===== *)
(** * App passwords ([app_passwords.rs], [handlers/app_passwords.rs])

    Passwords the server generates for directory clients, stored as argon2
    hashes, and the endpoints that manage them. *)

From S2P Require Import Prelude RStr RateLimit Schema Sys External Users AuditLog Net Settings Token Http.
Local Open Scope Z_scope.
Local Open Scope string_scope.

Definition MIN_NAME_LEN : nat := 1.
Definition MAX_NAME_LEN : nat := 64.
Definition PASSWORD_LEN : nat := 24.
Definition CHARSET : string := "ABCDEFGHJKLMNPQRSTUVWXYZabcdefghijkmnpqrstuvwxyz23456789".

(** ** [rand]: the [i]-th draw from [0..n]. *)
Class RandLib := { gen_range_at : nat -> nat -> nat }.
Class RandLaws `{RandLib} := {
  gen_range_lt i n : (0 < n)%nat -> (gen_range_at i n < n)%nat
}.

Record AppPassword := {
  app_id : Uuid; app_user_id : Uuid; app_name : string; app_created_at : Z;
  app_last_used_at : option Z
}.

(** The columns the metadata queries select. *)
Definition app_password_of_row (r : AppPasswordRow) : AppPassword := {|
  app_id := apw_id r; app_user_id := apw_user_id r; app_name := apw_name r;
  app_created_at := apw_created_at r; app_last_used_at := apw_last_used_at r |}.

Definition set_last_used (t : Z) (r : AppPasswordRow) : AppPasswordRow := {|
  apw_id := apw_id r; apw_user_id := apw_user_id r; apw_name := apw_name r;
  apw_password_hash := apw_password_hash r; apw_created_at := apw_created_at r;
  apw_last_used_at := Some t |}.

(** [AppPassword::validate_name] *)
Definition validate_name (name : string) : result string unit :=
  let trimmed := trim name in
  if (String.length trimmed <? MIN_NAME_LEN)%nat then Err "Name cannot be empty"
  else if (MAX_NAME_LEN <? String.length trimmed)%nat
  then Err ("Name must be " ++ pretty (Z.of_nat MAX_NAME_LEN) ++ " characters or fewer")
  else Ok tt.

(** [ORDER BY created_at DESC]; rows of the same second in insertion order. *)
Fixpoint insert_recent (r : AppPasswordRow) (l : list AppPasswordRow) : list AppPasswordRow :=
  match l with
  | [] => [r]
  | x :: l' => if (apw_created_at x <=? apw_created_at r)%Z then r :: l else x :: insert_recent r l'
  end.
Definition most_recent_first (l : list AppPasswordRow) : list AppPasswordRow :=
  foldr insert_recent [] l.

Section AppPasswords.
Context {E : Env} {RL : RandLib} {PH : PasswordHashing}.

Definition gen_range (n : nat) : prog nat :=
  Atom (fun w => (gen_range_at (tick w) n, bump w)) Ret.

(** [generate_password]; [None] is the panic of an index out of range. *)
Fixpoint generate_chars (n : nat) : prog (option string) :=
  match n with
  | O => Ret (Some "")
  | S n' =>
      i <~ gen_range (String.length CHARSET) ;;
      match String.get i CHARSET with
      | Some c => rest <~ generate_chars n' ;; Ret (option_map (String c) rest)
      | None => Ret None
      end
  end.
Definition generate_password : prog (option string) := generate_chars PASSWORD_LEN.

(** [AppPassword::create]; the outer [option] is [None] on a panic. *)
Definition create (user_id : Uuid) (name : string)
    : prog (option (result AppError (AppPassword * string))) :=
  match validate_name name with
  | Err e => Ret (Some (Err (InputError [e])))
  | Ok _ =>
      generated <~ generate_password ;;
      match generated with
      | None => Ret None
      | Some cleartext =>
          r <~ (salt <~ random_bytes 16 ;;
                hash <- lift (map_err (fun e => InternalError ("Failed to hash password: " ++ e))
                                (argon2_hash salt cleartext)) ;;
                n <~ now ;;
                id <~ new_uuid ;;
                let record := {| app_id := id; app_user_id := user_id; app_name := trim name;
                                 app_created_at := n; app_last_used_at := None |} in
                stmt (fun d =>
                  insert_checked (existsb (fun r => beq (apw_id r) id) (app_passwords d))
                    (user_exists user_id d)
                    (with_app_passwords (fun t => (t ++ [{|
                       apw_id := id; apw_user_id := user_id; apw_name := trim name;
                       apw_password_hash := hash; apw_created_at := n;
                       apw_last_used_at := None |}])%list)) d) ;;;
                ret (record, cleartext)) ;;
          Ret (Some r)
      end
  end.

(** [AppPassword::list_for_user] *)
Definition list_for_user (user_id : Uuid) : M (list AppPassword) :=
  query (fun d => map app_password_of_row
    (most_recent_first (select (fun r => beq (apw_user_id r) user_id) (app_passwords d)))).

(** [AppPassword::delete_for_user] *)
Definition delete_for_user (id user_id : Uuid) : M bool :=
  affected <- exec (fun d =>
    let p := fun r => (beq (apw_id r) id && beq (apw_user_id r) user_id)%bool in
    (count p (app_passwords d), with_app_passwords (delete p) d)) ;;
  ret (0 <? affected)%nat.

(** [AppPassword::verify_for_user]: the first row of the user whose hash
    accepts the password; the outcome of the [last_used_at] update is
    discarded. *)
Definition verify_for_user (user_id : Uuid) (cleartext : string) : M (option Uuid) :=
  rows <- query (fun d => select (fun r => beq (apw_user_id r) user_id) (app_passwords d)) ;;
  match List.find (fun r => argon2_verify (apw_password_hash r) cleartext) rows with
  | Some row =>
      n <~ now ;;
      _ <~ exec (fun d => (tt, with_app_passwords
             (update (fun r => beq (apw_id r) (apw_id row)) (set_last_used n)) d)) ;;
      ret (Some (apw_id row))
  | None => ret None
  end.

(** ** Endpoints *)
Section Endpoints.
Context {HA : Hashing} {ED : Ed25519} {JC : JwtCodec Claims} {UL : UuidLib} {HL : HttpLib}
        {JL : JsonLib}.

(** [list_my_app_passwords] *)
Definition list_my_app_passwords (st : AppState) (h : list (string * string)) : M (list AppPassword) :=
  auth <- auth_user st h ;;
  acquire ;;;
  list_for_user (au_user_id auth).

Definition app_password_details (id : Uuid) (rest : list (string * Json)) : Json :=
  JObj (("app_password_id", JStr (uuid_to_string id)) :: rest).

(** [create_my_app_password]; [None] on a panic. *)
Definition create_my_app_password (st : AppState) (ctx : AuditContext) (h : list (string * string))
    (name : string) : prog (option (result AppError (AppPassword * string))) :=
  r <~ (auth <- auth_user st h ;;
        acquire ;;;
        ldap_cfg <- load_ldap_config ;;
        guard (negb (app_passwords_enabled (lc_password_mode ldap_cfg)))
          (UniqueError "App passwords are disabled in the current LDAP password mode") ;;;
        ret (au_user_id auth)) ;;
  match r with
  | Err e => Ret (Some (Err e))
  | Ok uid =>
      created <~ create uid name ;;
      match created with
      | Some (Ok (record, cleartext)) =>
          _ <~ audit_save (with_details
                 (app_password_details (app_id record) [("name", JStr (app_name record))])
                 (in_ctx ctx (by_user uid (audit AppPasswordCreated)))) ;;
          Ret (Some (Ok (record, cleartext)))
      | other => Ret other
      end
  end.

(** [delete_my_app_password] *)
Definition delete_my_app_password (st : AppState) (ctx : AuditContext) (h : list (string * string))
    (id : Uuid) : M unit :=
  auth <- auth_user st h ;;
  acquire ;;;
  deleted <- delete_for_user id (au_user_id auth) ;;
  guard (negb deleted) NotFound ;;;
  audit_try (with_details (app_password_details id [])
    (in_ctx ctx (by_user (au_user_id auth) (audit AppPasswordDeleted)))).

(** [admin_list_app_passwords] *)
Definition admin_list_app_passwords (st : AppState) (h : list (string * string)) (user_id : Uuid)
    : M (list AppPassword) :=
  admin_user st h ;;;
  acquire ;;;
  list_for_user user_id.

(** [admin_delete_app_password] *)
Definition admin_delete_app_password (st : AppState) (ctx : AuditContext)
    (h : list (string * string)) (user_id id : Uuid) : M unit :=
  admin <- admin_user st h ;;
  acquire ;;;
  deleted <- delete_for_user id user_id ;;
  guard (negb deleted) NotFound ;;;
  audit_try (with_details (app_password_details id [])
    (in_ctx ctx (by_actor (Some (au_user_id admin)) (by_user user_id (audit AdminAppPasswordDeleted))))).
End Endpoints.
End AppPasswords.

(** ** Lemmas *)

Section Lemmas.
Context {E : Env} {RL : RandLib} {PH : PasswordHashing}.

(** A password that verifies is one of the user's rows; the rest of the
    database is unchanged. *)
Lemma verify_for_user_ok uid pw o w w' :
  run (verify_for_user uid pw) w = (Ok o, w') ->
  (exists f, db w' = with_app_passwords f (db w)) /\
  match o with
  | Some id => exists r, r ∈ app_passwords (db w) /\ apw_id r = id /\ apw_user_id r = uid /\
                         argon2_verify (apw_password_hash r) pw = true
  | None => forall r, r ∈ app_passwords (db w) -> apw_user_id r = uid ->
                      argon2_verify (apw_password_hash r) pw = false
  end.
Proof.
  unfold verify_for_user. intros H. apply run_bindM_ok in H as (rows & w1 & H1 & H).
  run_inv H1. destruct (List.find _ _) as [row|] eqn:Ef.
  - apply List.find_some in Ef as [Hin Hv]. rewrite <- list_elem_of_In, elem_of_select in Hin.
    destruct Hin as [Hin Hu]. bool_hyp. rewrite !run_bind in H. cbn [run fst snd now exec stmt] in H.
    match type of H with context [fault ?i] => destruct (fault i) end;
      injection H as <- <-; (split; [|by exists row]).
    + exists (fun t => t). by destruct w as [[] ? ?].
    + by eexists.
  - run_inv H. split; [exists (fun t => t); by destruct w as [[] ? ?]|]. intros r Hr Hu.
    apply (List.find_none _ _ Ef). apply list_elem_of_In, elem_of_select.
    split; [done|]. subst. apply beq_refl.
Qed.

Lemma generate_chars_ok `{!RandLaws} n w :
  exists s w', run (generate_chars n) w = (Some s, w') /\ String.length s = n /\
    all_bytes (fun c => contains_byte c CHARSET) s = true /\ db w' = db w.
Proof.
  revert w. induction n as [|n IH]; intros w; [by exists "", w|].
  cbn [generate_chars]. rewrite run_bind. unfold gen_range. cbn [run fst snd].
  assert (Hi : (gen_range_at (tick w) (String.length CHARSET) < String.length CHARSET)%nat)
    by (apply gen_range_lt; vm_compute; lia).
  destruct (String.get _ CHARSET) as [c|] eqn:Eg.
  - destruct (IH (bump w)) as (s & w' & Hr & Hl & Hc & Hd). exists (String c s), w'.
    rewrite run_bind, Hr. cbn [run fst snd option_map]. split; [done|].
    cbn [String.length all_bytes]. rewrite Hc, andb_true_r. split; [by f_equal|]. split; [|done].
    clear -Eg. revert Eg. generalize (gen_range_at (tick w) (String.length CHARSET)).
    generalize CHARSET. intros t. induction t as [|a t IHt]; intros [|i]; cbn [String.get]; try done.
    + intros [= ->]. unfold contains_byte. by rewrite any_byte_cons, beq_refl.
    + intros Hi. unfold contains_byte. rewrite any_byte_cons. apply orb_true_iff. right. by eapply IHt.
  - exfalso. revert Hi Eg. generalize (gen_range_at (tick w) (String.length CHARSET)).
    generalize CHARSET. intros t. induction t as [|a t IHt]; intros [|i]; cbn [String.get String.length];
      intros Hi Eg; try done; [lia|lia|]. by apply (IHt i); [lia|].
Qed.
End Lemmas.
