(* ===== verification/LdapSchema.v ===== *)
(** * The directory's names and entries ([ldap/schema.rs])

    Distinguished names, the parser for the names clients send, and the
    projection of users and roles into directory entries. *)

From S2P Require Import Prelude RStr RateLimit Schema Sys External Users Net Settings.
Local Open Scope string_scope.

(** ** [ldap3_proto]: the result codes and the entry type the server uses *)
Inductive LdapResultCode : Type :=
| Success | OperationsError | NoSuchObject | InvalidDNSyntax | InsufficentAccessRights
| UnwillingToPerform.

#[export] Instance LdapResultCode_eq_dec : EqDecision LdapResultCode.
Proof. solve_decision. Defined.

Record LdapPartialAttribute := { atype : string; vals : list string }.
Record LdapSearchResultEntry := { sr_dn : string; sr_attributes : list LdapPartialAttribute }.

(** ** [Dn]: attribute and value of every component, leaf first *)
Record Dn := { rdns : list (string * string) }.

#[export] Instance Dn_eq_dec : EqDecision Dn.
Proof. solve_decision. Defined.

Definition rdn_eq (a b : string * string) : bool :=
  eq_ignore_ascii_case a.1 b.1 && eq_ignore_ascii_case a.2 b.2.

(** [a.iter().zip(b).all(..)]: stops at the end of the shorter list. *)
Fixpoint zip_all (a b : list (string * string)) : bool :=
  match a, b with
  | x :: a', y :: b' => rdn_eq x y && zip_all a' b'
  | _, _ => true
  end.

(** [Dn::equals] *)
Definition equals (self other : Dn) : bool :=
  if negb (length (rdns self) =? length (rdns other))%nat then false
  else zip_all (rdns self) (rdns other).

(** [Dn::is_under] *)
Definition is_under (self suffix : Dn) : bool :=
  if (length (rdns self) <? length (rdns suffix))%nat then false
  else
    let offset := (length (rdns self) - length (rdns suffix))%nat in
    zip_all (drop offset (rdns self)) (rdns suffix).

(** [Dn::depth_under] *)
Definition depth_under (self suffix : Dn) : option nat :=
  if is_under self suffix then Some (length (rdns self) - length (rdns suffix))%nat else None.

(** [Dn::leaf] *)
Definition leaf (self : Dn) : option (string * string) := head (rdns self).

(** [split_rdn] *)
Definition split_rdn (raw : string) : result LdapResultCode (string * string) :=
  match split_once "=" raw with
  | None => Err InvalidDNSyntax
  | Some (attr, value) =>
      let attr := trim attr in
      let value := trim value in
      if is_empty attr || is_empty value then Err InvalidDNSyntax
      else Ok (to_ascii_lowercase attr, value)
  end.

(** The loop of [parse_dn] over the characters: the current component and the
    components so far. *)
Fixpoint dn_loop (cs : list string) (current : string) (acc : list (string * string))
    : result LdapResultCode Dn :=
  match cs with
  | [] =>
      if is_empty current then Ok {| rdns := acc |}
      else match split_rdn current with
           | Ok r => Ok {| rdns := acc ++ [r] |}
           | Err e => Err e
           end
  | c :: cs' =>
      if beq c "\" then
        match cs' with
        | next :: cs'' => dn_loop cs'' (current +:+ next) acc
        | [] => dn_loop cs' current acc
        end
      else if beq c "," then
        match split_rdn current with
        | Ok r => dn_loop cs' "" (acc ++ [r])
        | Err e => Err e
        end
      else dn_loop cs' (current +:+ c) acc
  end.

(** [parse_dn] *)
Definition parse_dn (input : string) : result LdapResultCode Dn :=
  let trimmed := trim input in
  if is_empty trimmed then Ok {| rdns := [] |}
  else dn_loop (chars trimmed) "" [].

(** [user_dn], [group_dn] *)
Definition user_dn (username : string) (cfg : LdapConfig) : string :=
  "uid=" ++ username ++ "," ++ people_base_dn cfg.
Definition group_dn (role_name : string) (cfg : LdapConfig) : string :=
  "cn=" ++ role_name ++ "," ++ groups_base_dn cfg.

(** ** Entries *)
Record Entry := { dn : string; attrs : list (string * list string) }.

(** [Entry::attr_values], [has_attr] *)
Definition attr_values (e : Entry) (name : string) : option (list string) :=
  option_map snd (List.find (fun a => eq_ignore_ascii_case a.1 name) (attrs e)).
Definition has_attr (e : Entry) (name : string) : bool := is_some (attr_values e name).

(** [Entry::to_ldap] *)
Definition to_ldap (e : Entry) (requested : list string) : LdapSearchResultEntry :=
  let include_all := (match requested with [] => true | _ => false end)
    || existsb (fun a => beq a "*" || eq_ignore_ascii_case a "all") requested in
  {| sr_dn := dn e;
     sr_attributes :=
       map (fun a => {| atype := a.1; vals := a.2 |})
         (List.filter (fun a => include_all
                                || existsb (fun req => eq_ignore_ascii_case req a.1) requested)
            (attrs e)) |}.

Section Build.
Context {UL : UuidLib}.
(** [CARGO_PKG_VERSION] of the build. *)
Variable pkg_version : string.

(** [build_user_entry] *)
Definition build_user_entry (user : User) (role_names : list string) (cfg : LdapConfig) : Entry := {|
  dn := user_dn (u_username user) cfg;
  attrs :=
    ([("objectClass", ["top"; "person"; "inetOrgPerson"]);
      ("uid", [u_username user]);
      ("cn", [u_name user]);
      ("sn", [u_name user]);
      ("displayName", [u_name user]);
      ("entryUUID", [uuid_to_string (u_id user)])]
     ++ match u_email user with Some email => [("mail", [email])] | None => [] end
     ++ match role_names with
        | [] => []
        | _ => [("memberOf", map (fun r => group_dn r cfg) role_names)]
        end)%list |}.

(** [build_group_entry] *)
Definition build_group_entry (role : Role) (member_usernames : list string) (cfg : LdapConfig)
    : Entry := {|
  dn := group_dn (ro_name role) cfg;
  attrs :=
    ([("objectClass", ["top"; "groupOfNames"]); ("cn", [ro_name role])]
     ++ match ro_description role with Some desc => [("description", [desc])] | None => [] end
     ++ [("member",
          match member_usernames with
          | [] => ["cn=placeholder," +:+ lc_base_dn cfg]
          | _ => map (fun u => user_dn u cfg) member_usernames
          end)])%list |}.

(** [build_root_dse] *)
Definition build_root_dse (cfg : LdapConfig) : Entry := {|
  dn := "";
  attrs := [("objectClass", ["top"]); ("namingContexts", [lc_base_dn cfg]);
            ("supportedLDAPVersion", ["3"]); ("vendorName", ["Authere"]);
            ("vendorVersion", [pkg_version])] |}.
End Build.

Example parse_dn_forms :
  map parse_dn [" uid = Alice , OU = people,dc=local "; "cn=Last\, First,dc=local"; "  "; "noequals";
                "=x"; "attr="; "dc=\"]
  = [Ok {| rdns := [("uid", "Alice"); ("ou", "people"); ("dc", "local")] |};
     Ok {| rdns := [("cn", "Last, First"); ("dc", "local")] |};
     Ok {| rdns := [] |}; Err InvalidDNSyntax; Err InvalidDNSyntax; Err InvalidDNSyntax;
     Err InvalidDNSyntax].
Proof. vm_compute. reflexivity. Qed.

(** ** Comparing names

    [rdn_eq] is equality of the lower-cased components, so [equals] is an
    equivalence and [is_under] a preorder on names up to case. *)
Definition fold_case (p : string * string) : string * string :=
  (to_ascii_lowercase p.1, to_ascii_lowercase p.2).
Definition folded (d : Dn) : list (string * string) := map fold_case (rdns d).

Lemma rdn_eq_spec a b : rdn_eq a b = true <-> fold_case a = fold_case b.
Proof.
  unfold rdn_eq, eq_ignore_ascii_case, fold_case. rewrite andb_true_iff, !beq_eq.
  split; [by intros [-> ->]|by intros [= -> ->]].
Qed.

Lemma zip_all_spec a b :
  length a = length b -> zip_all a b = true <-> map fold_case a = map fold_case b.
Proof.
  revert b. induction a as [|x a IH]; intros [|y b]; simpl; try done. intros [= H].
  rewrite andb_true_iff, rdn_eq_spec, IH by done.
  split; [by intros [-> ->]|by intros [? ?]%(inj2 cons)].
Qed.

Lemma length_folded d : length (folded d) = length (rdns d).
Proof. apply length_map. Qed.

Lemma equals_spec a b : equals a b = true <-> folded a = folded b.
Proof.
  unfold equals. destruct (_ =? _)%nat eqn:E; bool_hyp; simpl.
  - by apply zip_all_spec.
  - split; [done|]. intros H. apply (f_equal length) in H. by rewrite !length_folded in H.
Qed.

Lemma is_under_spec a s : is_under a s = true <-> exists p, folded a = (p ++ folded s)%list.
Proof.
  unfold is_under. destruct (_ <? _)%nat eqn:E; bool_hyp.
  - split; [done|]. intros [p H]. apply (f_equal length) in H.
    rewrite length_app, !length_folded in H. lia.
  - rewrite zip_all_spec by (rewrite length_drop; lia).
    rewrite <- skipn_map. split.
    + intros H. exists (take (length (rdns a) - length (rdns s)) (folded a)).
      unfold folded at 3. rewrite <- H. symmetry. apply firstn_skipn.
    + intros [p H]. fold (folded a). rewrite H.
      assert (length p = length (rdns a) - length (rdns s))%nat as <-.
      { apply (f_equal length) in H. rewrite length_app, !length_folded in H. lia. }
      by rewrite drop_app_length.
Qed.

Lemma depth_under_spec a s n :
  depth_under a s = Some n <-> exists p, folded a = (p ++ folded s)%list /\ length p = n.
Proof.
  unfold depth_under. destruct (is_under a s) eqn:E.
  - pose proof (proj1 (is_under_spec _ _) E) as [p Hp].
    assert (Hl := f_equal length Hp). rewrite length_app, !length_folded in Hl. split.
    + intros [= <-]. exists p. split; [done|lia].
    + intros (q & Hq & <-). f_equal. apply (f_equal length) in Hq.
      rewrite length_app, !length_folded in Hq. lia.
  - split; [done|]. intros (p & Hp & _). exfalso. apply Bool.not_true_iff_false in E. apply E.
    apply is_under_spec. eauto.
Qed.

(** ** Names the server builds *)

(** What [validate_username] admits: letters, digits and [._-]. *)
Definition name_byte (a : ascii) : bool :=
  is_ascii_alphanumeric a || beq a "."%char || beq a "_"%char || beq a "-"%char.
Definition safe_name (s : string) : bool := negb (is_empty s) && all_bytes name_byte s.

(** A byte that stands for itself in a name. *)
Definition plain_byte (a : ascii) : bool :=
  is_ascii a && negb (beq a "\"%char) && negb (beq a ","%char).

Lemma name_byte_plain a : name_byte a = true -> plain_byte a = true.
Proof. destruct a as [[] [] [] [] [] [] [] []]; (done || (intros H; vm_compute in H; done)). Qed.
Lemma name_byte_solid a : name_byte a = true -> solid a = true.
Proof. destruct a as [[] [] [] [] [] [] [] []]; (done || (intros H; vm_compute in H; done)). Qed.
Lemma plain_byte_ascii a : plain_byte a = true -> is_ascii a = true.
Proof. unfold plain_byte. intros H. by bool_hyp. Qed.

Lemma dn_loop_plain s cs cur acc :
  all_bytes plain_byte s = true -> dn_loop (ascii_chars s ++ cs) cur acc = dn_loop cs (cur +:+ s) acc.
Proof.
  revert cur. induction s as [|a s IH]; intros cur H; [by rewrite app_nil_r_s|].
  cbn [all_bytes] in H. bool_hyp. cbn [ascii_chars app dn_loop].
  assert (Ha : beq (String a "") "\" = false /\ beq (String a "") "," = false).
  { unfold plain_byte in H. bool_hyp. split; apply beq_neq; intros [= ->]; done. }
  destruct Ha as [-> ->]. rewrite IH by done. by autorewrite with str.
Qed.

Lemma dn_loop_comma cs cur acc :
  dn_loop ("," :: cs) cur acc
  = match split_rdn cur with Ok r => dn_loop cs "" (acc ++ [r]) | Err e => Err e end.
Proof. done. Qed.

Lemma dn_loop_acc cs cur acc :
  dn_loop cs cur acc
  = match dn_loop cs cur [] with Ok d => Ok {| rdns := acc ++ rdns d |} | Err e => Err e end.
Proof.
  assert (Hnil : forall cur acc, dn_loop [] cur acc
    = match dn_loop [] cur [] with Ok d => Ok {| rdns := acc ++ rdns d |} | Err e => Err e end).
  { intros cur' acc'. simpl. destruct (is_empty cur'); [by rewrite app_nil_r|].
    by destruct (split_rdn cur'). }
  revert cs cur acc. fix IH 1. intros [|c cs] cur acc; [apply Hnil|]. cbn [dn_loop].
  destruct (beq c "\").
  - destruct cs as [|n cs]; [apply Hnil|apply IH].
  - destruct (beq c ","); [|apply IH]. destruct (split_rdn cur) as [r|e]; [|done].
    rewrite (IH _ _ (acc ++ [r])%list), (IH _ _ ([] ++ [r])%list).
    destruct (dn_loop cs "" []); [|done]. simpl. by rewrite <- app_assoc.
Qed.

Lemma split_rdn_safe attr v :
  safe_name attr = true -> safe_name v = true ->
  split_rdn (attr +:+ "=" +:+ v) = Ok (to_ascii_lowercase attr, v).
Proof.
  unfold safe_name. intros Ha Hv. bool_hyp. unfold split_rdn.
  rewrite (proj2 (split_once_spec "=" _ attr v)).
  - rewrite !trim_solid by (eapply all_bytes_impl; [apply name_byte_solid|done]).
    by rewrite H, H1.
  - split; [done|]. unfold contains_byte. apply any_byte_false.
    eapply all_bytes_impl; [|exact H2]. intros a. destruct (beq "="%char a) eqn:E; [|done].
    bool_hyp. by subst.
Qed.

Lemma plain_rdn attr v :
  safe_name attr = true -> safe_name v = true -> all_bytes plain_byte (attr +:+ "=" +:+ v) = true.
Proof.
  unfold safe_name. intros Ha Hv. bool_hyp. rewrite !all_bytes_app. cbn [all_bytes].
  rewrite !(all_bytes_impl name_byte plain_byte); auto using name_byte_plain.
Qed.

Lemma trim_cons_base attr v base :
  safe_name attr = true -> base <> "" -> trim base = base ->
  trim (attr +:+ "=" +:+ v +:+ "," +:+ base) = attr +:+ "=" +:+ v +:+ "," +:+ base.
Proof.
  intros Ha Hne Ht. destruct attr as [|a p]; [done|]. rewrite app_cons_s.
  replace (p +:+ "=" +:+ v +:+ "," +:+ base) with ((p +:+ "=" +:+ v) +:+ String "," base)
    by (by autorewrite with str).
  apply trim_solid_app; try done. unfold safe_name in Ha. cbn [all_bytes] in Ha. bool_hyp.
  by apply name_byte_solid.
Qed.

(** Putting a component in front of a name. *)
Lemma parse_dn_cons attr v base d :
  safe_name attr = true -> safe_name v = true -> base <> "" -> trim base = base ->
  parse_dn base = Ok d ->
  parse_dn (attr +:+ "=" +:+ v +:+ "," +:+ base)
  = Ok {| rdns := (to_ascii_lowercase attr, v) :: rdns d |}.
Proof.
  intros Ha Hv Hne Ht Hp. unfold parse_dn in *. rewrite Ht in Hp.
  rewrite (trim_cons_base attr v base Ha Hne Ht). destruct (is_empty base) eqn:Eb; [by destruct base|].
  assert (is_empty (attr +:+ "=" +:+ v +:+ "," +:+ base) = false) as -> by (by destruct attr).
  replace (attr +:+ "=" +:+ v +:+ "," +:+ base) with ((attr +:+ "=" +:+ v) +:+ "," +:+ base)
    by (by autorewrite with str).
  assert (Hpl := plain_rdn attr v Ha Hv).
  rewrite chars_ascii_app
    by (eapply all_bytes_impl; [apply plain_byte_ascii|done]).
  rewrite dn_loop_plain by done. rewrite chars_ascii_app by done. cbn [ascii_chars app].
  rewrite dn_loop_comma. change ("" +:+ ?x) with x. rewrite split_rdn_safe by done.
  rewrite dn_loop_acc, Hp. done.
Qed.

(** The name of a unit is not the empty name, whatever it is a unit of. *)
Lemma dn_loop_nonempty cs cur acc d :
  dn_loop cs cur acc = Ok d -> is_empty cur = false \/ acc <> [] -> rdns d <> [].
Proof.
  assert (Happ : forall cur c, is_empty cur = false -> is_empty (cur +:+ c) = false) by (by intros []).
  assert (Hend : forall cur acc, dn_loop [] cur acc = Ok d -> is_empty cur = false \/ acc <> [] -> rdns d <> []).
  { intros cur' acc'. cbn [dn_loop]. destruct (is_empty cur'); [by intros [= <-] [|]|].
    destruct (split_rdn cur'); [|done]. intros [= <-] _. by destruct acc'. }
  revert cs cur acc. fix IH 1. intros [|c cs] cur acc; cbn [dn_loop]; [apply Hend|].
  destruct (beq c "\") eqn:E1.
  - destruct cs as [|next cs]; [apply Hend|].
      intros H Hn. apply (IH cs _ _ H). destruct Hn as [Hn|Hn]; [left; by apply Happ|by right].
  - destruct (beq c ",") eqn:E2.
    + destruct (split_rdn cur); [|done]. intros H _. apply (IH cs _ _ H). right. by destruct acc.
    + intros H Hn. apply (IH cs _ _ H). destruct Hn as [Hn|Hn]; [left; by apply Happ|by right].
Qed.
Lemma parse_unit_nonempty ou base d : parse_dn ("ou=" +:+ ou +:+ "," +:+ base) = Ok d -> rdns d <> [].
Proof.
  unfold parse_dn. change ("ou=" +:+ ?x) with (String "o" ("u=" +:+ x)).
  destruct (trim_solid_head "o" ("u=" +:+ ou +:+ "," +:+ base) eq_refl) as [s ->].
  cbn [is_empty]. change (String "o" s) with (String "o" "" +:+ s). rewrite chars_ascii_app by done.
  cbn [ascii_chars app dn_loop]. change (beq "o" "\") with false. change (beq "o" ",") with false.
  intros H. apply (dn_loop_nonempty _ _ _ _ H). by left.
Qed.

(** The configuration the settings endpoint admits and a search can use: a
    trimmed base name that parses. *)
Definition usable_base (cfg : LdapConfig) (d : Dn) : Prop :=
  lc_base_dn cfg <> "" /\ trim (lc_base_dn cfg) = lc_base_dn cfg /\ parse_dn (lc_base_dn cfg) = Ok d.

(** The organisational units and the entries below them. *)
Lemma parse_unit_dn ou cfg d :
  safe_name ou = true -> usable_base cfg d ->
  parse_dn ("ou=" +:+ ou +:+ "," +:+ lc_base_dn cfg) = Ok {| rdns := ("ou", ou) :: rdns d |}.
Proof. intros Ho (Hne & Ht & Hp). exact (parse_dn_cons "ou" ou _ d eq_refl Ho Hne Ht Hp). Qed.

Lemma parse_entry_dn attr v ou cfg d :
  safe_name attr = true -> safe_name v = true -> safe_name ou = true -> usable_base cfg d ->
  parse_dn (attr +:+ "=" +:+ v +:+ "," +:+ "ou=" +:+ ou +:+ "," +:+ lc_base_dn cfg)
  = Ok {| rdns := (to_ascii_lowercase attr, v) :: ("ou", ou) :: rdns d |}.
Proof.
  intros Ha Hv Ho Hb. apply (parse_dn_cons attr v _ {| rdns := ("ou", ou) :: rdns d |}); try done.
  - destruct Hb as (Hne & Ht & _). exact (trim_cons_base "ou" ou _ eq_refl Hne Ht).
  - by apply parse_unit_dn.
Qed.

Lemma parse_user_dn u cfg d :
  safe_name u = true -> usable_base cfg d ->
  parse_dn (user_dn u cfg) = Ok {| rdns := ("uid", u) :: ("ou", "people") :: rdns d |}.
Proof. intros Hu Hb. exact (parse_entry_dn "uid" u "people" cfg d eq_refl Hu eq_refl Hb). Qed.

Lemma parse_group_dn r cfg d :
  safe_name r = true -> usable_base cfg d ->
  parse_dn (group_dn r cfg) = Ok {| rdns := ("cn", r) :: ("ou", "groups") :: rdns d |}.
Proof. intros Hr Hb. exact (parse_entry_dn "cn" r "groups" cfg d eq_refl Hr eq_refl Hb). Qed.
