(* ===== verification/LdapFilter.v ===== *)
(** * Search filters ([ldap/filter.rs]) *)

From S2P Require Import Prelude RStr RateLimit Schema Sys External Users Net Settings LdapSchema.
Local Open Scope string_scope.

(** ** [ldap3_proto]: filters *)
Record LdapSubstringFilter := {
  initial : option string; any : list string; final_ : option string
}.

Inductive LdapFilter : Type :=
| And (children : list LdapFilter)
| Or (children : list LdapFilter)
| Not (inner : LdapFilter)
| Equality (attr value : string)
| Substring (attr : string) (sub : LdapSubstringFilter)
| GreaterOrEqual (attr value : string)
| LessOrEqual (attr value : string)
| Present (attr : string)
| Approx (attr value : string)
| Extensible (attr value : string).

(** [equality] *)
Definition equality (e : Entry) (attr value : string) : bool :=
  match attr_values e attr with
  | Some vs => existsb (fun v => eq_ignore_ascii_case v value) vs
  | None => false
  end.

(** The loop over the middle parts: each is looked for after the previous
    one; the result is the cursor behind the last. *)
Fixpoint match_any (lower : string) (cursor : nat) (parts : list string) : option nat :=
  match parts with
  | [] => Some cursor
  | part :: parts' =>
      let needle := to_ascii_lowercase part in
      match str_find needle (drop_bytes cursor lower) with
      | Some found => match_any lower (cursor + (found + String.length needle)) parts'
      | None => None
      end
  end.

(** [substring_matches] *)
Definition substring_matches (value : string) (sub : LdapSubstringFilter) : bool :=
  let lower := to_ascii_lowercase value in
  match (match initial sub with
         | Some i =>
             let needle := to_ascii_lowercase i in
             if starts_with needle lower then Some (String.length needle) else None
         | None => Some 0%nat
         end) with
  | None => false
  | Some cursor =>
      match match_any lower cursor (any sub) with
      | None => false
      | Some cursor =>
          match final_ sub with
          | Some f => ends_with (to_ascii_lowercase f) (drop_bytes cursor lower)
          | None => true
          end
      end
  end.

(** [substring] *)
Definition substring (e : Entry) (attr : string) (sub : LdapSubstringFilter) : bool :=
  match attr_values e attr with
  | Some vs => existsb (fun v => substring_matches v sub) vs
  | None => false
  end.

(** [matches] *)
Fixpoint matches (e : Entry) (f : LdapFilter) : bool :=
  match f with
  | And children => forallb (matches e) children
  | Or children => existsb (matches e) children
  | Not inner => negb (matches e inner)
  | Present attr => has_attr e attr
  | Equality attr value => equality e attr value
  | Approx attr value => equality e attr value
  | Substring attr sub => substring e attr sub
  | GreaterOrEqual _ _ | LessOrEqual _ _ | Extensible _ _ => false
  end.

(** ** What a substring filter means

    The value is the initial part, then gaps and the middle parts in order,
    and what remains ends with the final part. *)
Fixpoint parts_in (parts : list string) (final : string) (s : string) : Prop :=
  match parts with
  | [] => exists gap, s = gap +:+ final
  | p :: parts' => exists gap rest, s = gap +:+ p +:+ rest /\ parts_in parts' final rest
  end.

Definition pattern_of (sub : LdapSubstringFilter) (s : string) : Prop :=
  exists rest, s = to_ascii_lowercase (unwrap_or (initial sub) "") +:+ rest /\
    parts_in (map to_ascii_lowercase (any sub)) (to_ascii_lowercase (unwrap_or (final_ sub) "")) rest.

(** Matching is not spoilt by more text in front. *)
Lemma parts_in_app parts final g s : parts_in parts final s -> parts_in parts final (g +:+ s).
Proof.
  destruct parts as [|p parts]; simpl.
  - intros [gap ->]. exists (g +:+ gap). by autorewrite with str.
  - intros (gap & rest & -> & Hr). exists (g +:+ gap), rest. by autorewrite with str.
Qed.

(** The first occurrence leaves the longest rest. *)
Lemma str_find_first p s gap rest :
  s = gap +:+ p +:+ rest ->
  exists n g, str_find p s = Some n /\ drop_bytes (n + String.length p) s = g +:+ rest.
Proof.
  revert gap. induction s as [|a s IH]; intros gap Hs; cbn [str_find].
  - assert (p = "") as -> by (destruct gap, p; done).
    exists 0%nat, "". split; [done|]. destruct gap, rest; done.
  - destruct (starts_with p (String a s)) eqn:E.
    + apply starts_with_spec in E as [r Hr]. exists 0%nat. rewrite Hr. cbn [Nat.add]. rewrite drop_bytes_length_app.
      assert (Hl : (String.length rest <= String.length r)%nat).
      { rewrite Hs in Hr. apply (f_equal String.length) in Hr. rewrite !length_app_s in Hr. lia. }
      exists (take_bytes (String.length r - String.length rest) r). split; [done|].
      rewrite <- (take_drop_bytes (String.length r - String.length rest) r) at 1. f_equal.
      assert (H : drop_bytes (String.length (String a s) - String.length rest) (String a s) = rest).
      { rewrite Hs, <- app_assoc_s, length_app_s.
        replace (_ + _ - _)%nat with (String.length (gap +:+ p)) by lia. apply drop_bytes_length_app. }
      rewrite Hr, length_app_s in H.
      replace (String.length p + String.length r - String.length rest)%nat
        with (String.length p + (String.length r - String.length rest))%nat in H by lia.
      rewrite <- H at 2. clear. generalize (String.length r - String.length rest)%nat. intros k.
      induction p as [|b p IHp]; [done|exact IHp].
    + destruct gap as [|b gap].
      { exfalso. assert (starts_with p (String a s) = true); [|congruence].
        apply starts_with_spec. exists rest. exact Hs. }
      injection Hs as -> Hs. destruct (IH gap Hs) as (n & g & -> & Hd).
      exists (S n), g. split; [done|exact Hd].
Qed.

Lemma drop_bytes_add n m s : drop_bytes (n + m) s = drop_bytes m (drop_bytes n s).
Proof. revert s. induction n as [|n IH]; intros s; [done|]. destruct s; simpl; [by destruct m|apply IH]. Qed.

(** The greedy search with the final test is exactly the existence of a
    decomposition. *)
Lemma match_any_spec lower cursor parts final :
  (exists c, match_any lower cursor parts = Some c /\
             ends_with (to_ascii_lowercase final) (drop_bytes c lower) = true) <->
  parts_in (map to_ascii_lowercase parts) (to_ascii_lowercase final) (drop_bytes cursor lower).
Proof.
  revert cursor. induction parts as [|p parts IH]; intros cursor; cbn [match_any map parts_in].
  - rewrite <- ends_with_spec. split; [by intros (c & [= <-] & H)|]. intros H. by exists cursor.
  - destruct (str_find _ _) as [n|] eqn:Ef.
    + rewrite IH, drop_bytes_add. split.
      * intros H. apply str_find_Some in Ef as [_ Hs].
        exists (take_bytes n (drop_bytes cursor lower)). eexists. split; [exact Hs|done].
      * intros (gap & rest & Hs & Hr).
        destruct (str_find_first _ _ _ _ Hs) as (m & g & Hm & Hd). rewrite Hm in Ef.
        injection Ef as ->. rewrite Hd. by apply parts_in_app.
    + split; [by intros (c & ? & _)|]. intros (gap & rest & Hs & _).
      by apply (proj1 (str_find_None _ _) Ef) in Hs.
Qed.

Lemma ends_with_empty s : ends_with "" s = true.
Proof. apply ends_with_spec. exists s. by rewrite app_nil_r_s. Qed.

(** C33: the greedy left-to-right scan of [substring_matches] accepts a value
    exactly when, ignoring ASCII case, the value is the initial part followed
    by the middle parts in order, with arbitrary gaps, and ends with the final
    part, the parts not overlapping. *)
Theorem substring_matches_correct value sub :
  substring_matches value sub = true <-> pattern_of sub (to_ascii_lowercase value).
Proof.
  unfold substring_matches, pattern_of.
  assert (Hrest : forall c,
    match match_any (to_ascii_lowercase value) c (any sub) with
    | None => false
    | Some cursor =>
        match final_ sub with
        | Some f => ends_with (to_ascii_lowercase f) (drop_bytes cursor (to_ascii_lowercase value))
        | None => true
        end
    end = true <->
    parts_in (map to_ascii_lowercase (any sub)) (to_ascii_lowercase (unwrap_or (final_ sub) ""))
      (drop_bytes c (to_ascii_lowercase value))).
  { intros c. rewrite <- match_any_spec. destruct (match_any _ c _) as [k|].
    - destruct (final_ sub); simpl; [naive_solver|]. split; [|done].
      intros _. exists k. split; [done|apply ends_with_empty].
    - naive_solver. }
  destruct (initial sub) as [i|]; simpl.
  - destruct (starts_with _ _) eqn:E.
    + rewrite Hrest. apply starts_with_spec in E as [r Hr]. rewrite Hr, drop_bytes_length_app. split.
      * intros H. by exists r.
      * intros (r' & H & Hp). apply (f_equal (drop_bytes (String.length (to_ascii_lowercase i)))) in H.
        rewrite !drop_bytes_length_app in H. by subst.
    + split; [done|]. intros (r & Hr & _). exfalso.
      assert (starts_with (to_ascii_lowercase i) (to_ascii_lowercase value) = true); [|congruence].
      apply starts_with_spec. by exists r.
  - rewrite Hrest. simpl. naive_solver.
Qed.

Example substring_demo :
  substring_matches "info-tech-Test" {| initial := Some "INFO"; any := ["tech"]; final_ := Some "test" |}
  = true /\
  substring_matches "abab" {| initial := Some "aba"; any := []; final_ := Some "bab" |} = false.
Proof. vm_compute. done. Qed.
