(* ===== verification/LdapBer.v ===== *)
(** * The guard in front of the LDAP parser ([ldap/server.rs])

    [ber_header] reads a definite-length header, [validate_ber_structure]
    walks a frame with an explicit stack of container ends, and the codec
    hands a frame to the protocol parser only after both.  A [usize] is an
    [N] below 2^64; frames are byte strings. *)

From S2P Require Import Prelude RStr.
Local Open Scope N_scope.

Definition MAX_BER_DEPTH : nat := 32.
Definition usize_max : N := 18446744073709551615.
Definition size_of_usize : N := 8.

(** [invalid_frame()] *)
Inductive io_error : Type := InvalidData.
#[export] Instance io_error_eq_dec : EqDecision io_error.
Proof. solve_decision. Defined.

Definition checked (n : N) : result io_error N := if n <=? usize_max then Ok n else Err InvalidData.
Definition and_then {X A B} (r : result X A) (k : A -> result X B) : result X B :=
  match r with Ok a => k a | Err e => Err e end.

(** [buf.len()], [frame.get(a..b)] *)
Definition len (s : string) : N := N.of_nat (String.length s).
Definition slice (s : string) (a b : N) : string :=
  take_bytes (N.to_nat (b - a)) (drop_bytes (N.to_nat a) s).
Definition get_range (s : string) (a b : N) : option string :=
  if (a <=? b) && (b <=? len s) then Some (slice s a b) else None.

(** The loop over the length octets. *)
Fixpoint read_length (bytes : string) (length : N) : result io_error N :=
  match bytes with
  | EmptyString => Ok length
  | String byte rest =>
      and_then (checked (length * 256)) (fun n =>
      and_then (checked (n + code byte)) (fun n => read_length rest n))
  end.

(** [ber_header] *)
Definition ber_header (buf : string) : result io_error (option (N * N)) :=
  match buf with
  | String _ (String length_byte rest) =>
      if N.land (code length_byte) 128 =? 0 then Ok (Some (2, code length_byte))
      else
        let octets := N.land (code length_byte) 127 in
        if (octets =? 0) || (size_of_usize <? octets) then Err InvalidData
        else if len buf <? 2 + octets then Ok None
        else and_then (read_length (take_bytes (N.to_nat octets) rest) 0)
               (fun length => Ok (Some (2 + octets, length)))
  | _ => Ok None
  end.

Definition constructed (s : string) : bool :=
  match s with String tag _ => negb (N.land (code tag) 32 =? 0) | EmptyString => false end.

(** One iteration of the loop of [validate_ber_structure] on the stack of
    ends, innermost first, and the position; [None] when the stack is empty. *)
Definition ber_step (frame : string) (ends : list N) (position : N)
    : option (result io_error (list N * N)) :=
  match ends with
  | [] => None
  | parent_end :: ends' => Some (
      if position =? parent_end then Ok (ends', position)
      else
        and_then (ok_or (get_range frame position parent_end) InvalidData) (fun remaining =>
        and_then (ber_header remaining) (fun parsed =>
        and_then (ok_or parsed InvalidData) (fun '(header, body) =>
        and_then (checked (position + header)) (fun body_start =>
        and_then (checked (body_start + body)) (fun body_end =>
        if parent_end <? body_end then Err InvalidData
        else if constructed remaining then
          if (MAX_BER_DEPTH <=? length ends)%nat then Err InvalidData
          else Ok (body_end :: ends, body_start)
        else Ok (ends, body_end)))))))
  end.

(** The loop with fuel: [None] when the fuel runs out. *)
Fixpoint ber_loop (fuel : nat) (frame : string) (ends : list N) (position : N)
    : option (result io_error unit) :=
  match fuel with
  | O => None
  | S fuel' =>
      match ber_step frame ends position with
      | None => Some (Ok tt)
      | Some (Err e) => Some (Err e)
      | Some (Ok (ends', position')) => ber_loop fuel' frame ends' position'
      end
  end.

(** Enough fuel for any frame. *)
Definition ber_fuel (frame : string) : nat := 2 * String.length frame + 3.

(** [validate_ber_structure] *)
Definition validate_ber_structure (frame : string) : option (result io_error unit) :=
  ber_loop (ber_fuel frame) frame [len frame] 0.

(** [BoundedLdapCodec::decode], over the size bound and the codec of
    [ldap3_proto]; the buffer left to the codec is its own business. *)
Section Decode.
Context {Msg : Type}.
Variable max_ber_size : N.
Variable inner : string -> result io_error (option Msg).

Definition decode (buf : string) : option (result io_error (option Msg)) :=
  match ber_header buf with
  | Err e => Some (Err e)
  | Ok None => Some (Ok None)
  | Ok (Some (header_len, body_len)) =>
      match checked (body_len + header_len) with
      | Err e => Some (Err e)
      | Ok frame_len =>
          if max_ber_size <? frame_len then Some (Err InvalidData)
          else if len buf <? frame_len then Some (Ok None)
          else match validate_ber_structure (slice buf 0 frame_len) with
               | Some (Ok _) => Some (inner buf)
               | Some (Err e) => Some (Err e)
               | None => None
               end
      end
  end.
End Decode.

Definition frame_of (l : list N) : string := fold_right (fun n s => String (byte_of n) s) EmptyString l.

(** The cases of the source's tests. *)
Example ber_frames :
  map (fun l => validate_ber_structure (frame_of l))
    [[0x30; 6; 4; 1; 0xff; 4; 1; 0xff]; [0x30; 3; 4; 4; 0xff]; [0x30; 2; 0x30; 0x80]; []]
  = [Some (Ok tt); Some (Err InvalidData); Some (Err InvalidData); Some (Ok tt)] /\
  map (fun l => ber_header (frame_of l))
    [[0x30; 0x84; 0x7f; 0xff; 0xff; 0xff]; [0x30; 0x80]; [0x30; 0xff]; [0x30; 0x10; 2]; [0x30];
     [4; 0x82; 1; 0]]
  = [Ok (Some (6, 2147483647)); Err InvalidData; Err InvalidData; Ok (Some (2, 16)); Ok None;
     Ok (Some (4, 256))].
Proof. vm_compute. done. Qed.

(** ** Well-nested frames

    [forest d s]: [s] is a sequence of values, each inside [s]; a container's
    body is a forest one level deeper, and no container opens at level
    [MAX_BER_DEPTH]. *)
Inductive forest : nat -> string -> Prop :=
| forest_nil d : forest d EmptyString
| forest_primitive d s header body :
    ber_header s = Ok (Some (header, body)) -> header + body <= len s ->
    constructed s = false ->
    forest d (slice s (header + body) (len s)) -> forest d s
| forest_container d s header body :
    ber_header s = Ok (Some (header, body)) -> header + body <= len s ->
    constructed s = true -> (d < MAX_BER_DEPTH)%nat ->
    forest (S d) (slice s header (header + body)) ->
    forest d (slice s (header + body) (len s)) -> forest d s.

(** ** Slices *)

Lemma length_take_bytes n s : String.length (take_bytes n s) = Nat.min n (String.length s).
Proof. revert s. induction n as [|n IH]; intros [|a s]; simpl; auto. Qed.

Lemma drop_take_bytes n m s : drop_bytes n (take_bytes m s) = take_bytes (m - n) (drop_bytes n s).
Proof.
  revert m s. induction n as [|n IH]; intros [|m] [|a s]; simpl; try done.
  all: solve [by destruct (m - n)%nat|apply IH].
Qed.

Lemma take_take_bytes n m s : take_bytes n (take_bytes m s) = take_bytes (Nat.min n m) s.
Proof. revert m s. induction n as [|n IH]; intros [|m] [|a s]; simpl; try done. by rewrite IH. Qed.

Lemma drop_drop_bytes n m s : drop_bytes n (drop_bytes m s) = drop_bytes (m + n) s.
Proof. revert s. induction m as [|m IH]; intros [|a s]; simpl; [done..|by destruct n|apply IH]. Qed.

Lemma len_slice s a b : a <= b -> b <= len s -> len (slice s a b) = b - a.
Proof.
  unfold len, slice. intros H1 H2. rewrite length_take_bytes, length_drop_bytes. lia.
Qed.

Lemma slice_slice s a b c d :
  a <= b -> c <= d -> d <= b - a -> slice (slice s a b) c d = slice s (a + c) (a + d).
Proof.
  intros H1 H2 H3. unfold slice.
  rewrite drop_take_bytes, take_take_bytes, drop_drop_bytes. f_equal; [|f_equal]; lia.
Qed.

Lemma slice_nil s a : slice s a a = EmptyString.
Proof. unfold slice. by rewrite N.sub_diag. Qed.

Lemma slice_all s : slice s 0 (len s) = s.
Proof.
  unfold slice, len. rewrite N.sub_0_r, Nat2N.id. simpl.
  rewrite <- (app_nil_r_s s) at 2. apply take_bytes_length_app.
Qed.

(** ** The header *)

Lemma ber_header_Some s h b : ber_header s = Ok (Some (h, b)) -> 2 <= h /\ h <= len s.
Proof.
  unfold ber_header. destruct s as [|t [|l rest]]; try done.
  destruct (_ =? 0); [intros [= <- <-]; unfold len; simpl; lia|].
  destruct (_ || _) eqn:E; [done|]. bool_hyp.
  destruct (len _ <? _) eqn:El; [done|]. apply N.ltb_ge in El.
  unfold and_then. destruct (read_length _ _); [|done]. intros [= <- <-]. lia.
Qed.

(** At most eight octets never overflow: the checks of the loop are never
    what rejects a header. *)
Lemma read_length_total bytes acc n :
  acc < 256 ^ n -> n + len bytes <= size_of_usize -> exists v, read_length bytes acc = Ok v.
Proof.
  revert acc n. induction bytes as [|a bytes IH]; intros acc n Ha Hl; cbn [read_length]; [by eexists|].
  assert (Hc : code a < 256) by (unfold code; apply N_ascii_bounded).
  assert (Hp : 256 ^ (n + 1) <= 256 ^ 8).
  { apply N.pow_le_mono_r; [done|]. unfold len, size_of_usize in *. simpl String.length in Hl. lia. }
  rewrite N.pow_add_r, N.pow_1_r in Hp.
  assert (Hu : usize_max = 256 ^ 8 - 1) by done.
  assert (256 ^ 8 = 18446744073709551616) as E8 by done.
  unfold checked at 1. destruct (N.leb_spec (acc * 256) usize_max); [|nia]. cbn [and_then].
  unfold checked at 1. destruct (N.leb_spec (acc * 256 + code a) usize_max); [|nia]. cbn [and_then].
  apply (IH _ (n + 1)).
  - rewrite N.pow_add_r, N.pow_1_r. nia.
  - unfold len in *. simpl String.length in Hl. lia.
Qed.

(** ** The loop *)

(** What remains to be accepted: the innermost container up to its end, then
    the ones around it. *)
Fixpoint pending (frame : string) (ends : list N) (position : N) : Prop :=
  match ends with
  | [] => True
  | e :: ends' =>
      position <= e /\ e <= len frame /\ forest (length ends) (slice frame position e)
      /\ pending frame ends' e
  end.

Definition variant (frame : string) (ends : list N) (position : N) : nat :=
  2 * N.to_nat (len frame - position) + length ends.

Lemma forest_inv d s :
  forest d s <->
  s = EmptyString \/
  exists h b, ber_header s = Ok (Some (h, b)) /\ h + b <= len s /\
    (if constructed s then (d < MAX_BER_DEPTH)%nat /\ forest (S d) (slice s h (h + b)) else True) /\
    forest d (slice s (h + b) (len s)).
Proof.
  split.
  - destruct 1 as [d|d s h b H1 H2 H3 H4|d s h b H1 H2 H3 H4 H5 H6]; [by left|right..];
      exists h, b; by rewrite H3.
  - intros [->|(h & b & H1 & H2 & H3 & H4)]; [constructor|].
    destruct (constructed s) eqn:E; [destruct H3; by eapply forest_container|by eapply forest_primitive].
Qed.

Definition in_frame (frame : string) (ends : list N) : Prop := Forall (fun e => e <= len frame) ends.

(** A step lowers the variant, keeps what is pending, and an error means that
    something pending cannot be accepted. *)
Definition step_sound (frame : string) (ends : list N) (position : N) : Prop :=
  match ber_step frame ends position with
  | None => ends = []
  | Some (Err _) => ~ pending frame ends position
  | Some (Ok (ends', position')) =>
      in_frame frame ends' /\ (pending frame ends position <-> pending frame ends' position') /\
      (variant frame ends' position' < variant frame ends position)%nat
  end.

Lemma ber_step_pop frame ends e :
  in_frame frame (e :: ends) -> step_sound frame (e :: ends) e.
Proof.
  intros Hin. apply Forall_cons in Hin as [He Hin]. unfold step_sound. cbn [ber_step].
  rewrite N.eqb_refl. split; [done|]. split; [|unfold variant; simpl; lia].
  cbn [pending]. rewrite slice_nil. split; [by intros (_ & _ & _ & H)|]. intros H.
  split; [lia|]. split; [done|]. split; [constructor|done].
Qed.

(** The header at the position, when it stays inside the innermost
    container. *)
Lemma pending_header frame ends e position h b :
  position <= e -> e <= len frame -> position <> e ->
  ber_header (slice frame position e) = Ok (Some (h, b)) ->
  (pending frame (e :: ends) position <->
   position + h + b <= e /\
   (if constructed (slice frame position e)
    then (length (e :: ends) < MAX_BER_DEPTH)%nat /\
         pending frame (position + h + b :: e :: ends) (position + h)
    else pending frame (e :: ends) (position + h + b))).
Proof.
  intros Hpe Hel Hne Hh. cbn [pending]. rewrite forest_inv, len_slice by done.
  split.
  - intros (_ & _ & [Hf|(h' & b' & Hh' & Hl & Hc & Hr)] & Hp).
    { exfalso. apply (f_equal len) in Hf. rewrite len_slice in Hf by done. unfold len in Hf at 1.
      simpl in Hf. lia. }
    rewrite Hh in Hh'. injection Hh' as <- <-. split; [lia|].
    rewrite slice_slice in Hr by lia. rewrite slice_slice in Hc by lia.
    replace (position + (h + b)) with (position + h + b) in * by lia.
    replace (position + (e - position)) with e in * by lia.
    destruct (constructed _).
    + destruct Hc as [Hd Hc]. split; [done|]. repeat (split; [lia || done|]). done.
    + repeat (split; [lia || done|]). done.
  - intros [Hl Hc]. split; [done|]. split; [done|].
    assert (Hgoal : forest (length (e :: ends)) (slice frame (position + h + b) e)
              /\ pending frame ends e /\
              (if constructed (slice frame position e)
               then (length (e :: ends) < MAX_BER_DEPTH)%nat /\
                    forest (S (length (e :: ends))) (slice frame (position + h) (position + h + b))
               else True)).
    { destruct (constructed _); [destruct Hc as [Hd Hc]|]; cbn [pending] in Hc; naive_solver. }
    destruct Hgoal as (H1 & H2 & H3). split; [|done]. right. exists h, b. split; [done|].
    split; [lia|]. rewrite !slice_slice by lia.
    replace (position + (h + b)) with (position + h + b) by lia.
    replace (position + (e - position)) with e by lia. done.
Qed.

Lemma checked_le n : n <= usize_max -> checked n = Ok n.
Proof. intros H. unfold checked. by rewrite (proj2 (N.leb_le _ _) H). Qed.

Lemma ber_step_spec frame ends position :
  len frame <= usize_max -> in_frame frame ends -> step_sound frame ends position.
Proof.
  intros Hmax Hin. destruct ends as [|e ends]; [done|].
  destruct (decide (position = e)) as [->|Hne]; [by apply ber_step_pop|].
  pose proof Hin as Hin'. apply Forall_cons in Hin' as [He _].
  unfold step_sound. cbn [ber_step]. rewrite (proj2 (N.eqb_neq _ _) Hne).
  unfold get_range. destruct (N.leb_spec position e) as [Hpe|Hpe]; cbn [andb];
    [|cbn [pending ok_or and_then]; lia].
  rewrite (proj2 (N.leb_le _ _) He). cbn [ok_or and_then].
  destruct (ber_header _) as [[[h b]|]|err] eqn:Eh; cbn [ok_or and_then]; cycle 1.
  { intros (_ & _ & Hf & _). apply forest_inv in Hf as [Hf|(h & b & Hh & _)]; [|congruence].
    apply (f_equal len) in Hf. rewrite len_slice in Hf by done. unfold len in Hf at 1. simpl in Hf. lia. }
  { intros (_ & _ & Hf & _). apply forest_inv in Hf as [Hf|(h & b & Hh & _)]; [|congruence].
    by rewrite Hf in Eh. }
  pose proof (ber_header_Some _ _ _ Eh) as [Hh2 Hhl]. rewrite len_slice in Hhl by done.
  rewrite checked_le by lia. cbn [and_then].
  pose proof (pending_header frame ends e position h b Hpe He Hne Eh) as Hiff.
  unfold checked. destruct (N.leb_spec (position + h + b) usize_max); cbn [and_then]; [|rewrite Hiff; lia].
  destruct (N.ltb_spec e (position + h + b)); [rewrite Hiff; lia|].
  destruct (constructed _) eqn:Ec.
  - destruct (MAX_BER_DEPTH <=? length (e :: ends))%nat eqn:Ed; bool_hyp; [rewrite Hiff; lia|].
    split; [apply Forall_cons; split; [lia|done]|]. split; [rewrite Hiff; naive_solver|].
    unfold variant. simpl length. lia.
  - split; [done|]. split; [rewrite Hiff; naive_solver|]. unfold variant. simpl length. lia.
Qed.

Lemma ber_loop_spec fuel frame ends position :
  len frame <= usize_max -> in_frame frame ends -> (variant frame ends position < fuel)%nat ->
  exists r, ber_loop fuel frame ends position = Some r /\ (r = Ok tt <-> pending frame ends position).
Proof.
  intros Hmax. revert ends position. induction fuel as [|fuel IH]; intros ends position Hin Hv; [lia|].
  cbn [ber_loop]. pose proof (ber_step_spec frame ends position Hmax Hin) as Hs. unfold step_sound in Hs.
  destruct (ber_step frame ends position) as [[[ends' position']|[]]|].
  - destruct Hs as (Hin' & Hiff & Hlt). destruct (IH ends' position' Hin') as (r & Hr & Hri); [lia|].
    exists r. split; [done|]. by rewrite Hiff.
  - eexists. split; [done|]. split; [done|]. by intros H%Hs.
  - eexists. split; [done|]. by subst.
Qed.

(** C35: [validate_ber_structure] ends on every frame that fits in memory,
    after at most two iterations per byte and three more, and it accepts
    exactly the well-nested frames: sequences of definite-length values each
    inside its parent, with fewer than [MAX_BER_DEPTH] open containers. *)
Theorem validate_ber_structure_correct frame :
  len frame <= usize_max ->
  exists r, validate_ber_structure frame = Some r /\ (r = Ok tt <-> forest 1 frame).
Proof.
  intros Hmax. unfold validate_ber_structure.
  destruct (ber_loop_spec (ber_fuel frame) frame [len frame] 0 Hmax) as (r & Hr & Hiff).
  - apply Forall_singleton. lia.
  - unfold variant, ber_fuel, len. simpl length. lia.
  - exists r. split; [done|]. rewrite Hiff. cbn [pending length]. rewrite slice_all. intuition lia.
Qed.

(** The protocol parser is consulted only when the buffer starts with a
    complete frame of at most the maximal size that is well nested: on any
    other buffer the codec's answer does not depend on the parser. *)
Theorem upstream_parser_guarded {Msg} max (inner inner' : string -> result io_error (option Msg)) buf :
  max <= usize_max -> decode max inner buf <> decode max inner' buf ->
  exists n, n <= max /\ n <= len buf /\ forest 1 (slice buf 0 n).
Proof.
  intros Hmax. unfold decode. destruct (ber_header buf) as [[[h b]|]|]; [|done..].
  unfold checked. destruct (N.leb_spec (b + h) usize_max); [|done].
  destruct (N.ltb_spec max (b + h)); [done|]. destruct (N.ltb_spec (len buf) (b + h)); [done|].
  intros Hd. exists (b + h). split; [done|]. split; [done|].
  assert (Hlen : len (slice buf 0 (b + h)) <= usize_max) by (rewrite len_slice; lia).
  pose proof (ber_loop_spec (ber_fuel (slice buf 0 (b + h))) (slice buf 0 (b + h))
                [len (slice buf 0 (b + h))] 0 Hlen) as (r & Hr & Hiff).
  - apply Forall_singleton. lia.
  - unfold variant, ber_fuel, len. simpl length. lia.
  - unfold validate_ber_structure in Hd. rewrite Hr in Hd. destruct r as [[]|]; [|done].
    destruct (proj1 Hiff eq_refl) as (_ & _ & Hf & _). by rewrite slice_all in Hf.
Qed.

Definition demo_frame : string := frame_of [0x30; 6; 4; 1; 0xff; 4; 1; 0xff].

Lemma validate_ber_structure_correct_witness :
  exists r, validate_ber_structure demo_frame = Some r /\ (r = Ok tt <-> forest 1 demo_frame).
Proof. apply (validate_ber_structure_correct demo_frame). vm_compute. discriminate. Defined.

Lemma upstream_parser_guarded_witness :
  exists n, n <= 1024 /\ n <= len demo_frame /\ forest 1 (slice demo_frame 0 n).
Proof.
  apply (upstream_parser_guarded (Msg := nat) 1024 (fun _ => Ok (Some 1%nat)) (fun _ => Ok None) demo_frame).
  - vm_compute. discriminate.
  - vm_compute. discriminate.
Defined.
