(* ===== verification/LdapHandler.v ===== *)
(** * Bind and search ([ldap/handler.rs])

    The operations answer with the reply to send and, for a bind, the new
    state of the connection.  Dummy password checks take time and nothing
    else, so they are left out. *)

From S2P Require Import Prelude RStr RateLimit Schema Sys External Users AuditLog Net Settings AppPasswords LdapSchema LdapFilter.
Local Open Scope string_scope.

(** [BindState] *)
Inductive BindState : Type := Anonymous | Service | BoundUser (id : Uuid).
#[export] Instance BindState_eq_dec : EqDecision BindState.
Proof. solve_decision. Defined.

(** ** [ldap3_proto::simple]: the requests, and the replies by the function
    that generates them *)
Record SimpleBindRequest := { sb_dn : string; sb_pw : string }.
Inductive BindReply : Type :=
| gen_success
| gen_invalid_cred
| gen_operror (msg : string).

Inductive LdapSearchScope : Type := Base | OneLevel | Subtree | Children.
#[export] Instance LdapSearchScope_eq_dec : EqDecision LdapSearchScope.
Proof. solve_decision. Defined.

Record SearchRequest := {
  rq_base : string; rq_scope : LdapSearchScope; rq_filter : LdapFilter; rq_attrs : list string
}.
Inductive SearchReply : Type :=
| gen_result_entry (e : LdapSearchResultEntry)
| search_success
| done_with (code : LdapResultCode) (msg : string).

(** The task of a connection dies on a panic. *)
Inductive panic : Type := Panicked (msg : string).

Definition set_ldap_rl (rl : RateLimiter) (l : Limiters) : Limiters := {|
  login_rl := login_rl l; register_rl := register_rl l; ldap_bind_rl := rl;
  oidc_token_rl := oidc_token_rl l |}.

(** [service_dn] *)
Definition service_dn (cfg : LdapConfig) : result panic Dn :=
  map_err (fun _ => Panicked "service DN must parse") (parse_dn (service_account_dn cfg)).

(** [entry_in_scope] *)
Definition entry_in_scope (entry base : Dn) (scope : LdapSearchScope) : bool :=
  match scope with
  | Base => equals entry base
  | OneLevel => beq (depth_under entry base) (Some 1%nat)
  | Subtree => is_under entry base
  | Children => is_under entry base && negb (equals entry base)
  end.

(** Whether a search has to look at the entries below a unit: [include_users]
    and [include_groups]. *)
Definition include (base unit_ : Dn) (scope : LdapSearchScope) : bool :=
  match scope with
  | Base => equals base unit_ || beq (depth_under base unit_) (Some 1%nat)
  | OneLevel => equals base unit_
  | Subtree | Children => is_under base unit_ || is_under unit_ base
  end.

(** [finalize], [done] *)
Definition finalize (req : SearchRequest) (entries : list Entry) : list SearchReply :=
  (map (fun e => gen_result_entry (to_ldap e (rq_attrs req))) entries ++ [search_success])%list.

Section Handler.
Context {E : Env} {PH : PasswordHashing} {JL : JsonLib} {UL : UuidLib}.
Variable pkg_version : string.

(** ** Bind *)

(** [verify_argon2] *)
Definition verify_argon2 (hash cleartext : string) : bool := argon2_verify hash cleartext.

(** [bind_failed_with_conn], [bind_failed] *)
Definition bind_failed_with_conn (ip mode reason : string) (user_id : option Uuid) (dn : string)
    : prog (BindReply * BindState) :=
  _ <~ log_ldap_bind_failed user_id dn ip mode reason ;;
  Ret (gen_invalid_cred, Anonymous).
Definition bind_failed (ip mode reason : string) (user_id : option Uuid) (dn : string)
    : prog (BindReply * BindState) :=
  c <~ acquire ;;
  match c with
  | Ok _ => _ <~ log_ldap_bind_failed user_id dn ip mode reason ;; Ret (gen_invalid_cred, Anonymous)
  | Err _ => Ret (gen_invalid_cred, Anonymous)
  end.

(** [handle_service_bind] *)
Definition handle_service_bind (req : SimpleBindRequest) (cfg : LdapConfig) (ip mode : string)
    : prog (BindReply * BindState) :=
  match lc_service_password_hash cfg with
  | None => bind_failed ip mode "service_password_unset" None (sb_dn req)
  | Some hash =>
      if verify_argon2 hash (sb_pw req) then
        c <~ acquire ;;
        match c with
        | Err _ => Ret (gen_operror "internal error", Anonymous)
        | Ok _ =>
            _ <~ log_ldap_bind_success None (sb_dn req) ip mode "service" ;;
            Ret (gen_success, Service)
        end
      else bind_failed ip mode "invalid_credentials" None (sb_dn req)
  end.

(** [user_has_totp] *)
Definition user_has_totp (user_id : Uuid) : M bool :=
  n <- query (fun d => count (fun t => beq (ut_user_id t) user_id && is_some (ut_activated_at t))%bool
                             (user_totps d)) ;;
  ret (0 <? n)%nat.

(** [try_primary] *)
Definition try_primary (req : SimpleBindRequest) (user : User) (ip mode : string)
    : prog (BindReply * BindState) :=
  r <~ try_password_login user (sb_pw req) ;;
  match r with
  | Ok _ =>
      _ <~ log_ldap_bind_success (Some (u_id user)) (sb_dn req) ip mode "primary" ;;
      Ret (gen_success, BoundUser (u_id user))
  | Err _ => bind_failed_with_conn ip mode "invalid_credentials" (Some (u_id user)) (sb_dn req)
  end.

(** [try_app_password] *)
Definition try_app_password (req : SimpleBindRequest) (user : User) (ip mode : string)
    : prog (BindReply * BindState) :=
  r <~ verify_for_user (u_id user) (sb_pw req) ;;
  match r with
  | Ok (Some _) =>
      _ <~ log_ldap_bind_success (Some (u_id user)) (sb_dn req) ip mode "app_password" ;;
      Ret (gen_success, BoundUser (u_id user))
  | Ok None => bind_failed_with_conn ip mode "invalid_credentials" (Some (u_id user)) (sb_dn req)
  | Err _ => Ret (gen_operror "internal error", Anonymous)
  end.

(** [handle_user_bind] *)
Definition handle_user_bind (req : SimpleBindRequest) (cfg : LdapConfig) (ip mode username : string)
    : prog (BindReply * BindState) :=
  let internal := Ret (gen_operror "internal error", Anonymous) in
  c <~ acquire ;;
  match c with
  | Err _ => internal
  | Ok _ =>
      found <~ User_get_by_username username ;;
      match found with
      | Err _ => internal
      | Ok None => bind_failed_with_conn ip mode "unknown_user" None (sb_dn req)
      | Ok (Some user) =>
          if negb (u_active user) then
            bind_failed_with_conn ip mode "user_inactive" (Some (u_id user)) (sb_dn req)
          else
            has_totp <~ user_has_totp (u_id user) ;;
            match has_totp with
            | Err _ => internal
            | Ok totp =>
                match lc_password_mode cfg with
                | PrimaryOnly =>
                    if totp : bool then
                      _ <~ log_ldap_bind_rejected_mfa_required (u_id user) (sb_dn req) ip mode ;;
                      Ret (gen_invalid_cred, Anonymous)
                    else try_primary req user ip mode
                | AppOnly => try_app_password req user ip mode
                | PrimaryAndApp =>
                    r <~ verify_for_user (u_id user) (sb_pw req) ;;
                    match r with
                    | Ok (Some _) =>
                        _ <~ log_ldap_bind_success (Some (u_id user)) (sb_dn req) ip mode
                               "app_password" ;;
                        Ret (gen_success, BoundUser (u_id user))
                    | Ok None =>
                        if totp : bool then
                          _ <~ log_ldap_bind_failed (Some (u_id user)) (sb_dn req) ip mode
                                 "invalid_credentials" ;;
                          Ret (gen_invalid_cred, Anonymous)
                        else try_primary req user ip mode
                    | Err _ => internal
                    end
                end
            end
      end
  end.

(** What [handle_bind] does with a name that parses. *)
Definition bind_dn (req : SimpleBindRequest) (cfg : LdapConfig) (ip mode : string) (d : Dn)
    : prog (result panic (BindReply * BindState)) :=
  let answer (p : prog (BindReply * BindState)) := r <~ p ;; Ret (Ok r) in
  match service_dn cfg with
  | Err e => Ret (Err e)
  | Ok service =>
      if equals d service then answer (handle_service_bind req cfg ip mode)
      else
        match parse_dn (people_base_dn cfg) with
        | Err _ => answer (bind_failed ip mode "bad_config" None (sb_dn req))
        | Ok people_suffix =>
            match (if beq (depth_under d people_suffix) (Some 1%nat) then leaf d else None) with
            | Some (attr, value) =>
                if beq attr "uid" then answer (handle_user_bind req cfg ip mode value)
                else answer (bind_failed ip mode "unknown_dn" None (sb_dn req))
            | None => answer (bind_failed ip mode "unknown_dn" None (sb_dn req))
            end
        end
  end.

(** [handle_bind] *)
Definition handle_bind (req : SimpleBindRequest) (cfg : LdapConfig) (peer_ip : IpAddr)
    : prog (result panic (BindReply * BindState)) :=
  let ip_str := show_ip peer_ip in
  let mode := mode_str (lc_password_mode cfg) in
  if is_empty (sb_dn req) && is_empty (sb_pw req) then Ret (Ok (gen_success, Anonymous))
  else
    limited <~ rl_check ldap_bind_rl set_ldap_rl peer_ip ;;
    match limited with
    | Err _ => Ret (Ok (gen_invalid_cred, Anonymous))
    | Ok _ =>
        match parse_dn (sb_dn req) with
        | Err _ => r <~ bind_failed ip_str mode "invalid_dn" None (sb_dn req) ;; Ret (Ok r)
        | Ok d => bind_dn req cfg ip_str mode d
        end
    end.

(** ** Search *)

(** The test on an entry: its name is in scope and the filter matches. *)
Definition selected (req : SearchRequest) (base : Dn) (e : Entry) : bool :=
  match parse_dn (dn e) with
  | Err _ => false
  | Ok entry_dn => entry_in_scope entry_dn base (rq_scope req) && matches e (rq_filter req)
  end.
Definition keep (req : SearchRequest) (base : Dn) (e : Entry) : list Entry :=
  if selected req base e then [e] else [].

(** The loop over the users. *)
Fixpoint user_entries (req : SearchRequest) (cfg : LdapConfig) (base : Dn) (l : list User)
    : prog (list Entry) :=
  match l with
  | [] => Ret []
  | user :: l' =>
      r <~ User_get_roles user ;;
      let role_names := match r with Ok names => names | Err _ => [] end in
      rest <~ user_entries req cfg base l' ;;
      Ret (keep req base (build_user_entry user role_names cfg) ++ rest)%list
  end.

(** The members of a role, and the loop over the roles. *)
Fixpoint member_usernames (role : Role) (l : list User) : prog (list string) :=
  match l with
  | [] => Ret []
  | user :: l' =>
      r <~ UserRole_get_for_user (u_id user) ;;
      let user_roles := match r with Ok rs => rs | Err _ => [] end in
      rest <~ member_usernames role l' ;;
      Ret (if existsb (fun ur => beq (uro_role_name ur) (ro_name role)) user_roles
           then u_username user :: rest else rest)
  end.
Fixpoint group_entries (req : SearchRequest) (cfg : LdapConfig) (base : Dn) (us : list User)
    (l : list Role) : prog (list Entry) :=
  match l with
  | [] => Ret []
  | role :: l' =>
      members <~ member_usernames role us ;;
      rest <~ group_entries req cfg base us l' ;;
      Ret (keep req base (build_group_entry role members cfg) ++ rest)%list
  end.

(** The part of [handle_search] that reads the database: the roles, after the
    entries found among the users; the users; the session.  An error is the
    reply that ends the search. *)
Definition internal_error : list SearchReply := [done_with OperationsError "internal error"].

Definition search_groups (req : SearchRequest) (cfg : LdapConfig) (base : Dn) (include_groups : bool)
    (found : list Entry) : prog (list SearchReply) :=
  if include_groups then
    rs <~ Role_list ;;
    match rs with
    | Err _ => Ret internal_error
    | Ok roles =>
        us <~ User_list ;;
        match us with
        | Err _ => Ret internal_error
        | Ok users =>
            gs <~ group_entries req cfg base users roles ;;
            Ret (finalize req (found ++ gs))
        end
    end
  else Ret (finalize req found).

Definition search_units (req : SearchRequest) (cfg : LdapConfig) (base : Dn)
    (include_users include_groups : bool) : prog (list SearchReply) :=
  if include_users then
    us <~ User_list ;;
    match us with
    | Err _ => Ret internal_error
    | Ok users =>
        found <~ user_entries req cfg base users ;;
        search_groups req cfg base include_groups found
    end
  else search_groups req cfg base include_groups [].

Definition search_db (req : SearchRequest) (cfg : LdapConfig) (bind_state : BindState) (base : Dn)
    (include_users include_groups : bool) : prog (list SearchReply) :=
  c <~ acquire ;;
  match c with
  | Err _ => Ret internal_error
  | Ok _ =>
      match bind_state with
      | BoundUser user_id =>
          u <~ User_get user_id ;;
          match u with
          | Ok (Some user) =>
              if u_active user then search_units req cfg base include_users include_groups
              else Ret [done_with InsufficentAccessRights "bind required"]
          | Ok None => Ret [done_with InsufficentAccessRights "bind required"]
          | Err _ => Ret internal_error
          end
      | _ => search_units req cfg base include_users include_groups
      end
  end.

(** [handle_search] *)
Definition handle_search (req : SearchRequest) (cfg : LdapConfig) (bind_state : BindState)
    : prog (list SearchReply) :=
  if negb (lc_enabled cfg) then Ret [done_with UnwillingToPerform "LDAP disabled"]
  else if beq bind_state Anonymous && negb (is_empty (rq_base req))
  then Ret [done_with InsufficentAccessRights "bind required"]
  else if is_empty (rq_base req) && beq (rq_scope req) Base
  then Ret (finalize req [build_root_dse pkg_version cfg])
  else
    match parse_dn (rq_base req) with
    | Err _ => Ret [done_with InvalidDNSyntax "bad base DN"]
    | Ok base =>
        match parse_dn (people_base_dn cfg), parse_dn (groups_base_dn cfg), parse_dn (lc_base_dn cfg) with
        | Ok people, Ok groups, Ok root =>
            let include_users := include base people (rq_scope req) in
            let include_groups := include base groups (rq_scope req) in
            if negb include_users && negb include_groups then
              if negb (equals base root) && negb (is_under base root)
              then Ret [done_with NoSuchObject ""]
              else Ret [done_with Success ""]
            else search_db req cfg bind_state base include_users include_groups
        | _, _, _ => Ret [done_with OperationsError "bad config"]
        end
    end.
End Handler.
