(* ===== verification/LdapFacts.v ===== *)
(** * What the directory guarantees

    Who can bind, and that a search is the filtering of the directory. *)

From S2P Require Import Prelude RStr RateLimit Schema Sys External Users AuditLog Net Settings AppPasswords LdapSchema LdapFilter LdapHandler.
Local Open Scope string_scope.

(** ** Binding *)

(** The credentials that bind as a user under a configuration: an app
    password, unless the mode excludes it, or the primary password, unless the
    mode excludes it or the user has an activated second factor. *)
Section Credentials.
Context {PH : PasswordHashing}.

Definition accepts_app_password (d : Db) (uid : Uuid) (pw : string) : Prop :=
  exists r, r ∈ app_passwords d /\ apw_user_id r = uid /\ argon2_verify (apw_password_hash r) pw = true.
Definition accepts_primary (d : Db) (uid : Uuid) (pw : string) : Prop :=
  exists a, a ∈ authenticators d /\ au_owner_id a = uid /\ verify_password a pw = true.
Definition second_factor_active (d : Db) (uid : Uuid) : Prop :=
  exists t, t ∈ user_totps d /\ ut_user_id t = uid /\ is_some (ut_activated_at t) = true.

Definition may_bind (d : Db) (mode : LdapPasswordMode) (user : User) (pw : string) : Prop :=
  (exists row, row ∈ users d /\ u_row row = user) /\ u_active user = true /\
  ((mode <> PrimaryOnly /\ accepts_app_password d (u_id user) pw) \/
   (mode <> AppOnly /\ accepts_primary d (u_id user) pw /\ ~ second_factor_active d (u_id user))).
End Credentials.

Section Bind.
Context {E : Env} {PH : PasswordHashing} {JL : JsonLib} {UL : UuidLib}.

(** A step whose outcome is discarded does not change the answer. *)
Lemma run_then {A B} (p : prog A) (x : B) w r w' :
  run (_ <~ p ;; Ret x) w = (r, w') -> r = x.
Proof. rewrite run_bind. simpl. by intros [= <- _]. Qed.

Lemma run_answer {A} (p : prog A) (x : A) w w' :
  run (r <~ p ;; Ret (@Ok panic _ r)) w = (Ok x, w') -> run p w = (x, w').
Proof. rewrite run_bind. destruct (run p w). simpl. by intros [= -> ->]. Qed.

Lemma bind_failed_anonymous ip mode reason uid dn w r w' :
  run (bind_failed ip mode reason uid dn) w = (r, w') -> r = (gen_invalid_cred, Anonymous).
Proof.
  unfold bind_failed. intros H. apply run_bind_eq in H as ([c|e] & w1 & _ & H).
  - by apply run_then in H.
  - by injection H as <- _.
Qed.

Lemma bind_failed_conn_anonymous ip mode reason uid dn w r w' :
  run (bind_failed_with_conn ip mode reason uid dn) w = (r, w') -> r = (gen_invalid_cred, Anonymous).
Proof. apply run_then. Qed.

Lemma try_primary_ok req user ip mode w reply uid w' :
  run (try_primary req user ip mode) w = ((reply, BoundUser uid), w') ->
  reply = gen_success /\ uid = u_id user /\ u_active user = true /\
  accepts_primary (db w) (u_id user) (sb_pw req).
Proof.
  unfold try_primary. intros H. apply run_bind_eq in H as ([t|e] & w1 & H1 & H).
  - apply run_then in H as [= -> ->]. apply try_password_login_ok in H1 as (Ha & _ & Hp). done.
  - by apply bind_failed_conn_anonymous in H.
Qed.

Lemma try_app_password_ok req user ip mode w reply uid w' :
  run (try_app_password req user ip mode) w = ((reply, BoundUser uid), w') ->
  reply = gen_success /\ uid = u_id user /\ accepts_app_password (db w) (u_id user) (sb_pw req).
Proof.
  unfold try_app_password. intros H. apply run_bind_eq in H as ([[id|]|e] & w1 & H1 & H).
  - apply run_then in H as [= -> ->]. apply verify_for_user_ok in H1 as [_ (r & Hr & _ & Hu & Hv)].
    split; [done|]. split; [done|]. by exists r.
  - by apply bind_failed_conn_anonymous in H.
  - by simplify_eq/=.
Qed.

Lemma user_has_totp_ok uid b w w' :
  run (user_has_totp uid) w = (Ok b, w') -> db w' = db w /\ (b = false -> ~ second_factor_active (db w) uid).
Proof.
  unfold user_has_totp. intros H. run_inv H. split; [done|]. intros Hb (t & Ht & Hu & Ha).
  bool_hyp. set (p := fun t => _) in Hb. assert (Hc : (0 < count p (user_totps (db w)))%nat).
  { apply count_pos. exists t. unfold p. split; [done|]. rewrite Ha, (proj2 (beq_eq _ _) Hu). done. }
  lia.
Qed.

(** The branches on the password mode, after the account and its second
    factor are known. *)
Lemma handle_user_bind_ok req cfg ip mode username w reply uid w' :
  run (handle_user_bind req cfg ip mode username) w = ((reply, BoundUser uid), w') ->
  reply = gen_success /\
  exists user, u_id user = uid /\ u_username user = username /\
    may_bind (db w) (lc_password_mode cfg) user (sb_pw req).
Proof.
  unfold handle_user_bind. intros H. apply run_bind_eq in H as ([c|e] & w1 & H1 & H); [|by simplify_eq/=].
  apply run_acquire_ok in H1 as [_ ->]. apply run_bind_eq in H as ([[user|]|e] & w2 & H2 & H); cycle 1.
  { by apply bind_failed_conn_anonymous in H. } { by simplify_eq/=. }
  apply run_query_ok in H2 as (_ & Hfound & ->).
  destruct (fetch _ _) as [row|] eqn:Ef; [|done]. cbn [option_map] in Hfound.
  injection Hfound as ->. apply fetch_Some in Ef as [Hrow Hn]. bool_hyp. subst username.
  destruct (u_active row) eqn:Ea; simpl negb in H; cbv iota in H;
    [|by apply bind_failed_conn_anonymous in H].
  apply run_bind_eq in H as ([b|e] & w3 & H3 & H); [|by simplify_eq/=].
  apply user_has_totp_ok in H3 as [Hd Hb].
  assert (Hwho : (exists r, r ∈ users (db w) /\ u_row r = row) /\ u_active row = true) by eauto.
  assert (Hprim : forall w0 w4, run (try_primary req row ip mode) w0 = ((reply, BoundUser uid), w4) ->
            b = false -> authenticators (db w0) = authenticators (db w) ->
            lc_password_mode cfg <> AppOnly ->
            reply = gen_success /\ exists user, u_id user = uid /\ u_username user = u_username row /\
              may_bind (db w) (lc_password_mode cfg) user (sb_pw req)).
  { intros w0 w4 Hp Hf Hau Hm. apply try_primary_ok in Hp as (-> & -> & _ & Hp).
    split; [done|]. exists row. split; [done|]. split; [done|]. destruct Hwho as [H1 H2].
    split; [done|]. split; [done|]. right. split; [done|]. split; [|by apply Hb].
    unfold accepts_primary in *. by rewrite <- Hau. }
  destruct (lc_password_mode cfg) eqn:Em.
  - apply run_bind_eq in H as ([[id|]|e] & w4 & H4 & H); [| |by simplify_eq/=].
    + apply run_then in H as [= -> ->].
      apply verify_for_user_ok in H4 as [_ (r & Hr & _ & Hu & Hv)]. rewrite Hd in Hr. simpl in Hr.
      split; [done|]. exists row. split; [done|]. split; [done|]. destruct Hwho as [H1 H2].
      split; [done|]. split; [done|]. left. split; [done|]. by exists r.
    + destruct b; [by apply run_then in H|]. apply verify_for_user_ok in H4 as [[f Hf] _].
      eapply Hprim; [exact H|done| |done]. by rewrite Hf, Hd.
  - apply try_app_password_ok in H as (-> & -> & Hp). split; [done|]. exists row.
    split; [done|]. split; [done|]. destruct Hwho as [H1 H2]. split; [done|]. split; [done|].
    left. split; [done|]. unfold accepts_app_password in *. by rewrite Hd in Hp.
  - destruct b; [by apply run_then in H|]. eapply Hprim; [exact H|done|by rewrite Hd|done].
Qed.

Lemma handle_service_bind_ok req cfg ip mode w reply st w' :
  run (handle_service_bind req cfg ip mode) w = ((reply, st), w') ->
  st = Anonymous \/
  (st = Service /\ reply = gen_success /\
   exists hash, lc_service_password_hash cfg = Some hash /\ argon2_verify hash (sb_pw req) = true).
Proof.
  unfold handle_service_bind. destruct (lc_service_password_hash cfg) as [hash|].
  - destruct (verify_argon2 _ _) eqn:Ev.
    + intros H. apply run_bind_eq in H as ([c|e] & w1 & _ & H).
      * apply run_then in H as [= -> ->]. right. eauto.
      * simplify_eq/=. by left.
    + intros H. apply bind_failed_anonymous in H as [= -> ->]. by left.
  - intros H. apply bind_failed_anonymous in H as [= -> ->]. by left.
Qed.

Lemma handle_user_bind_state req cfg ip mode username w reply st w' :
  run (handle_user_bind req cfg ip mode username) w = ((reply, st), w') -> st <> Service.
Proof.
  assert (Htp : forall user w0 r0 s0 w1, run (try_primary req user ip mode) w0 = ((r0, s0), w1) -> s0 <> Service).
  { intros user w0 r0 s0 w1 H. unfold try_primary in H. apply run_bind_eq in H as ([t|e] & w2 & _ & H);
      apply run_then in H; by simplify_eq. }
  unfold handle_user_bind. intros H.
  apply run_bind_eq in H as ([c|e] & w1 & _ & H); [|by simplify_eq/=].
  apply run_bind_eq in H as ([[user|]|e] & w2 & _ & H); [|by apply run_then in H; simplify_eq|by simplify_eq/=].
  destruct (negb _); [by apply run_then in H; simplify_eq|].
  apply run_bind_eq in H as ([b|e] & w3 & _ & H); [|by simplify_eq/=].
  destruct (lc_password_mode cfg).
  - apply run_bind_eq in H as ([[id|]|e] & w4 & _ & H); [by apply run_then in H; simplify_eq| |by simplify_eq/=].
    destruct b; [by apply run_then in H; simplify_eq|by eapply Htp].
  - unfold try_app_password in H. apply run_bind_eq in H as ([[id|]|e] & w4 & _ & H);
      [by apply run_then in H; simplify_eq..|by simplify_eq/=].
  - destruct b; [by apply run_then in H; simplify_eq|by eapply Htp].
Qed.

(** What a connection that is bound rests on, at the time of the bind. *)
Definition bind_evidence (d : Db) (cfg : LdapConfig) (req : SimpleBindRequest) (st : BindState) : Prop :=
  match st with
  | Anonymous => True
  | Service =>
      exists hash name service,
        lc_service_password_hash cfg = Some hash /\ argon2_verify hash (sb_pw req) = true /\
        parse_dn (sb_dn req) = Ok name /\ service_dn cfg = Ok service /\ equals name service = true
  | BoundUser uid =>
      exists user name people,
        u_id user = uid /\ may_bind d (lc_password_mode cfg) user (sb_pw req) /\
        parse_dn (sb_dn req) = Ok name /\ parse_dn (people_base_dn cfg) = Ok people /\
        depth_under name people = Some 1%nat /\ leaf name = Some ("uid", u_username user)
  end.

Lemma bind_dn_ok req cfg ip mode name w reply st w' :
  parse_dn (sb_dn req) = Ok name ->
  run (bind_dn req cfg ip mode name) w = (Ok (reply, st), w') ->
  st = Anonymous \/ (reply = gen_success /\ bind_evidence (db w) cfg req st).
Proof.
  intros Hn. unfold bind_dn. destruct (service_dn cfg) as [service|e] eqn:Es; [|done].
  assert (Hfail : forall reason w0 w1,
    run (r <~ bind_failed ip mode reason None (sb_dn req) ;; Ret (@Ok panic _ r)) w0 = (Ok (reply, st), w1) ->
    st = Anonymous \/ (reply = gen_success /\ bind_evidence (db w) cfg req st)).
  { intros reason w0 w1 H%run_answer. apply bind_failed_anonymous in H as [= -> ->]. by left. }
  destruct (equals name service) eqn:Eq.
  - intros H%run_answer. apply handle_service_bind_ok in H as [->|(-> & -> & hash & Hh & Hv)]; [by left|]. right.
    split; [done|]. exists hash, name, service. done.
  - destruct (parse_dn (people_base_dn cfg)) as [people|e] eqn:Ep; [|apply Hfail].
    destruct (beq (depth_under name people) (Some 1%nat)) eqn:Ed; [|apply Hfail]. bool_hyp.
    destruct (leaf name) as [[attr value]|] eqn:El; [|apply Hfail].
    destruct (beq attr "uid") eqn:Eu; [|apply Hfail]. bool_hyp. subst.
    intros H%run_answer. destruct st as [| |uid]; [by left|by apply handle_user_bind_state in H|]. right.
    apply handle_user_bind_ok in H as (-> & user & <- & <- & Hm). split; [done|].
    exists user, name, people. done.
Qed.

Lemma handle_bind_ok req cfg ip w reply st w' :
  run (handle_bind req cfg ip) w = (Ok (reply, st), w') -> st <> Anonymous ->
  reply = gen_success /\ bind_evidence (db w) cfg req st /\
  exists remaining, (check (ldap_bind_rl (limiters w)) ip (instant (tick w))).1 = Ok remaining.
Proof.
  unfold handle_bind. intros H Hst. destruct (_ && _); [by simplify_eq/=|].
  apply run_bind_eq in H as (r & w1 & H1 & H). unfold rl_check in H1. cbn [run] in H1.
  destruct (check _ _ _) as [r0 rl] eqn:Ec. simpl in H1. injection H1 as -> <-.
  destruct r as [remaining|retry]; [|by simplify_eq/=].
  destruct (parse_dn (sb_dn req)) as [name|e] eqn:En.
  - destruct (bind_dn_ok _ _ _ _ _ _ _ _ _ En H) as [->|[-> Hev]]; [done|].
    split; [done|]. split; [exact Hev|]. by exists remaining.
  - apply run_answer in H. by apply bind_failed_anonymous in H as [= -> ->].
Qed.

Lemma ldap_bind_evidence req cfg ip w reply st w' :
  run (handle_bind req cfg ip) w = (Ok (reply, st), w') -> st <> Anonymous ->
  bind_evidence (db w) cfg req st.
Proof. intros H Hst. by apply (handle_bind_ok _ _ _ _ _ _ _ H) in Hst as (_ & Hev & _). Qed.

(** C16: a connection becomes bound only on the evidence its configuration
    asks for, and only when the rate limiter admits the attempt from that
    address: as the service account by the service name and a password the
    configured hash accepts; as a user by the name [uid=<username>] directly
    below the people unit, for an active account, with one of the user's app
    passwords (unless the mode is primary only), or the primary password
    unless the mode excludes it or the user has an activated second factor. *)
Theorem ldap_bind_sound req cfg ip w reply st w' :
  run (handle_bind req cfg ip) w = (Ok (reply, st), w') -> st <> Anonymous ->
  reply = gen_success /\ bind_evidence (db w) cfg req st /\
  exists remaining, (check (ldap_bind_rl (limiters w)) ip (instant (tick w))).1 = Ok remaining.
Proof. apply handle_bind_ok. Qed.
End Bind.
