(* ===== verification/LdapSearch.v ===== *)
(** * A search is the filtering of the directory

    [handle_search] decides from the base and the scope which units it has to
    load.  Against a storage layer that answers, its entries are those of the
    whole directory that are in scope and match. *)

From S2P Require Import Prelude RStr RateLimit Schema Sys External Users AuditLog Net Settings AppPasswords LdapSchema LdapFilter LdapHandler.
Local Open Scope string_scope.

(** ** The directory *)
Section Directory.
Context {UL : UuidLib}.

Definition user_entry (cfg : LdapConfig) (d : Db) (u : User) : Entry :=
  build_user_entry u (map ro_name (roles_of (u_id u) d)) cfg.
Definition has_role_named (d : Db) (name : string) (u : User) : bool :=
  existsb (fun r => beq (ro_name r) name) (roles_of (u_id u) d).
Definition role_members (d : Db) (role : Role) : list string :=
  map u_username (List.filter (has_role_named d (ro_name role)) (map u_row (users d))).
Definition group_entry (cfg : LdapConfig) (d : Db) (role : Role) : Entry :=
  build_group_entry role (role_members d role) cfg.

Definition directory (cfg : LdapConfig) (d : Db) : list Entry :=
  (map (user_entry cfg d) (map u_row (users d))
   ++ map (group_entry cfg d) (order_by ro_name (roles d)))%list.

(** Names that [validate_username] and, for ASCII, [Role::validate_input]
    admit. *)
Definition safe_names (d : Db) : Prop :=
  (forall u : UserRow, u ∈ users d -> safe_name (u_username u) = true) /\
  (forall r, r ∈ roles d -> safe_name (ro_name r) = true).
End Directory.

(** ** Which units a search needs *)

Lemma cons_suffix {A} (x : A) l p s :
  x :: l = (p ++ s)%list -> s = x :: l \/ exists p', p = x :: p' /\ l = (p' ++ s)%list.
Proof. destruct p as [|y p]; simpl; [by left|]. intros [= <- ->]. right. eauto. Qed.

(** An entry directly below a unit is in scope only of searches that look at
    the unit. *)
Lemma in_scope_included e unit_ base scope x :
  folded e = x :: folded unit_ -> entry_in_scope e base scope = true ->
  include base unit_ scope = true.
Proof.
  intros He. destruct scope; simpl.
  - rewrite equals_spec, orb_true_iff. intros Hb. right. apply beq_eq, depth_under_spec.
    exists [x]. by rewrite <- Hb, He.
  - rewrite beq_eq, depth_under_spec. intros (p & Hp & Hl).
    apply equals_spec. destruct p as [|y [|]]; try done. rewrite He in Hp. by injection Hp as -> ->.
  - rewrite is_under_spec, orb_true_iff, !is_under_spec. intros [p Hp]. rewrite He in Hp.
    apply cons_suffix in Hp as [Hb|(p' & -> & Hp)]; [left; by exists [x]|right; eauto].
  - rewrite andb_true_iff, is_under_spec, orb_true_iff, !is_under_spec. intros [[p Hp] _].
    rewrite He in Hp. apply cons_suffix in Hp as [Hb|(p' & -> & Hp)]; [left; by exists [x]|right; eauto].
Qed.

Lemma folded_cons a v l : folded {| rdns := (a, v) :: l |} = fold_case (a, v) :: folded {| rdns := l |}.
Proof. done. Qed.

Section Search.
Context {E : Env} {UL : UuidLib}.
Variable pkg_version : string.

Lemma keep_filter req base l :
  flat_map (keep req base) l = List.filter (selected req base) l.
Proof.
  induction l as [|e l IH]; [done|]. simpl. rewrite IH. unfold keep.
  by destruct (selected req base e).
Qed.

(** *** The loops in a calm environment *)
Section CalmLoops.
Context `{!Calm E}.

Lemma run_user_entries req cfg base l w :
  exists w', run (user_entries req cfg base l) w
    = (List.filter (selected req base) (map (user_entry cfg (db w)) l), w') /\ db w' = db w.
Proof.
  revert w. induction l as [|u l IH]; intros w; [by exists w|].
  cbn [user_entries]. unfold User_get_roles. run_calm.
  destruct (IH (bump w)) as (w' & Hr & Hd). rewrite Hr. cbn [run fst snd].
  exists w'. split; [|by rewrite Hd]. f_equal. rewrite <- !keep_filter. done.
Qed.

Lemma run_member_usernames role l w :
  exists w', run (member_usernames role l) w
    = (map u_username (List.filter (has_role_named (db w) (ro_name role)) l), w') /\ db w' = db w.
Proof.
  revert w. induction l as [|u l IH]; intros w; [by exists w|].
  cbn [member_usernames]. unfold UserRole_get_for_user. run_calm.
  destruct (IH (bump w)) as (w' & Hr & Hd). rewrite Hr. cbn [run fst snd].
  exists w'. split; [|by rewrite Hd]. f_equal. simpl.
  assert (existsb (fun ur => beq (uro_role_name ur) (ro_name role))
            (map (fun r => {| uro_user_id := u_id u; uro_role_id := ro_id r; uro_role_name := ro_name r |})
               (roles_of (u_id u) (db w))) = has_role_named (db w) (ro_name role) u) as ->.
  { unfold has_role_named. induction (roles_of (u_id u) (db w)) as [|r rs IHr]; [done|]. simpl.
    by rewrite IHr. }
  by destruct (has_role_named _ _ u).
Qed.

Lemma run_group_entries req cfg base l w :
  exists w', run (group_entries req cfg base (map u_row (users (db w))) l) w
    = (List.filter (selected req base) (map (group_entry cfg (db w)) l), w') /\ db w' = db w.
Proof.
  enough (H : forall d w, db w = d ->
    exists w', run (group_entries req cfg base (map u_row (users d)) l) w
      = (List.filter (selected req base) (map (group_entry cfg d) l), w') /\ db w' = d) by (by apply H).
  intros d. induction l as [|r l IH]; intros w0 Hd; [by exists w0|].
  cbn [group_entries]. rewrite run_bind.
  destruct (run_member_usernames r (map u_row (users d)) w0) as (w1 & Hm & Hd1). rewrite Hm.
  cbn [fst snd]. rewrite run_bind. destruct (IH w1) as (w2 & Hr & Hd2); [by rewrite Hd1|].
  rewrite Hr. cbn [run fst snd]. exists w2. split; [|done]. f_equal. rewrite <- !keep_filter, Hd. done.
Qed.

(** What the database part answers when the session is still in force. *)
Definition session_in_force (st : BindState) (d : Db) : Prop :=
  match st with
  | BoundUser uid => exists u, fetch (fun u : UserRow => beq (u_id u) uid) (users d) = Some u /\ u_active u = true
  | _ => True
  end.

Lemma run_search_groups req cfg base ig found w :
  (run (search_groups req cfg base ig found) w).1
  = finalize req (found ++ (if ig then List.filter (selected req base)
                              (map (group_entry cfg (db w)) (order_by ro_name (roles (db w)))) else [])).
Proof.
  unfold search_groups. destruct ig; [|by rewrite app_nil_r].
  unfold Role_list, User_list. run_calm. cbn [db bump].
  destruct (run_group_entries req cfg base (order_by ro_name (roles (db w))) (bump (bump w)))
    as (w' & Hr & _). cbn [db bump] in Hr. by rewrite Hr.
Qed.

Lemma run_search_units req cfg base iu ig w :
  (run (search_units req cfg base iu ig) w).1
  = finalize req
      ((if iu then List.filter (selected req base)
                     (map (user_entry cfg (db w)) (map u_row (users (db w)))) else [])
       ++ (if ig then List.filter (selected req base)
                        (map (group_entry cfg (db w)) (order_by ro_name (roles (db w)))) else [])).
Proof.
  unfold search_units. destruct iu; [|by rewrite run_search_groups].
  unfold User_list. run_calm.
  destruct (run_user_entries req cfg base (map u_row (users (db w))) (bump w)) as (w' & Hr & Hd).
  rewrite Hr. cbn [fst snd]. rewrite run_search_groups, Hd. done.
Qed.

Lemma run_search_db req cfg st base iu ig w :
  session_in_force st (db w) ->
  exists w', db w' = db w /\
    (run (search_db req cfg st base iu ig) w).1 = (run (search_units req cfg base iu ig) w').1.
Proof.
  intros Hs. unfold search_db, acquire. run_calm. destruct st as [| |uid]; [by exists (bump w)..|].
  destruct Hs as (u & Hu & Ha). unfold User_get. run_calm. rewrite Hu. cbn [option_map]. rewrite Ha.
  by exists (bump (bump w)).
Qed.
End CalmLoops.

(** A unit a search does not look at has no entry in its scope. *)
Lemma unit_excluded {A} req base unit_ (name : A -> Entry) (l : list A) :
  include base unit_ (rq_scope req) = false ->
  (forall a, a ∈ l -> exists d x, parse_dn (dn (name a)) = Ok d /\ folded d = x :: folded unit_) ->
  List.filter (selected req base) (map name l) = [].
Proof.
  intros Hi Hl. induction l as [|a l IH]; [done|]. simpl.
  rewrite IH by (intros b Hb; apply Hl; set_solver).
  destruct (Hl a) as (d & x & Hp & Hf); [set_solver|]. unfold selected at 1. rewrite Hp.
  destruct (entry_in_scope d base (rq_scope req)) eqn:Es; [|done].
  by rewrite (in_scope_included _ _ _ _ _ Hf Es) in Hi.
Qed.

(** The replies that end a search that found nothing to object to. *)
Definition completes (r : SearchReply) : Prop :=
  r = search_success \/ r = done_with Success "" \/ r = done_with NoSuchObject "".

(** C34: with the storage layer answering, a search under an enabled and
    usable configuration, by a session in force, returns exactly the entries
    of the whole directory (every user, then every role) whose name is in
    scope and that match the filter, then one final reply: skipping a unit
    because of the base and the scope never loses an entry. *)
Theorem ldap_search_correct `{!Calm E} req cfg st root base w :
  lc_enabled cfg = true -> usable_base cfg root -> safe_names (db w) ->
  (st = Anonymous -> rq_base req = "") -> session_in_force st (db w) ->
  parse_dn (rq_base req) = Ok base -> (rq_base req = "" -> rq_scope req <> Base) ->
  exists final, completes final /\
    (run (handle_search pkg_version req cfg st) w).1
    = (map (fun e => gen_result_entry (to_ldap e (rq_attrs req)))
         (List.filter (selected req base) (directory cfg (db w))) ++ [final])%list.
Proof.
  intros Hen Hroot [Hus Hrs] Hanon Hst Hb Hscope. unfold handle_search. rewrite Hen. cbn [negb].
  assert (beq st Anonymous && negb (is_empty (rq_base req)) = false) as ->.
  { destruct (beq st Anonymous) eqn:Es; [|done]. bool_hyp. by rewrite Hanon. }
  assert (is_empty (rq_base req) && beq (rq_scope req) Base = false) as ->.
  { destruct (rq_base req); [|done]. simpl. apply beq_neq. by apply Hscope. }
  rewrite Hb. unfold people_base_dn, groups_base_dn.
  rewrite (parse_unit_dn "people" cfg root eq_refl Hroot : parse_dn ("ou=people," ++ lc_base_dn cfg) = _).
  rewrite (parse_unit_dn "groups" cfg root eq_refl Hroot : parse_dn ("ou=groups," ++ lc_base_dn cfg) = _).
  pose proof Hroot as (_ & _ & ->).
  set (people := {| rdns := ("ou", "people") :: rdns root |}).
  set (groups := {| rdns := ("ou", "groups") :: rdns root |}).
  assert (Hu : include base people (rq_scope req) = false ->
    List.filter (selected req base) (map (user_entry cfg (db w)) (map u_row (users (db w)))) = []).
  { intros Hi. apply (unit_excluded req base people); [done|]. intros u Hu.
    apply list_elem_of_fmap in Hu as (row & -> & Hrow). eexists _, ("uid", to_ascii_lowercase (u_username row)).
    split; [apply parse_user_dn; [by apply Hus|done]|done]. }
  assert (Hg : include base groups (rq_scope req) = false ->
    List.filter (selected req base) (map (group_entry cfg (db w)) (order_by ro_name (roles (db w)))) = []).
  { intros Hi. apply (unit_excluded req base groups); [done|]. intros r Hr.
    rewrite order_by_perm in Hr. eexists _, ("cn", to_ascii_lowercase (ro_name r)).
    split; [apply parse_group_dn; [by apply Hrs|done]|done]. }
  unfold directory. rewrite List.filter_app.
  destruct (include base people _) eqn:Iu, (include base groups _) eqn:Ig; cbn [negb andb];
    rewrite ?Hu, ?Hg by done;
    try match goal with |- context [search_db _ _ _ _ ?iu ?ig] =>
      destruct (run_search_db req cfg st base iu ig w Hst) as (w' & Hd & ->);
        rewrite run_search_units, Hd; exists search_success; split; [by left|done]
    end.
  destruct (_ && _); eexists; (split; [|reflexivity]); unfold completes; auto.
Qed.

(** The users and groups a search returned. *)
Definition entry_of (r : SearchReply) : list LdapSearchResultEntry :=
  match r with gen_result_entry e => [e] | _ => [] end.
Definition entries_of (l : list SearchReply) : list LdapSearchResultEntry := flat_map entry_of l.

(** Whatever the storage layer does, an entry is returned only while the
    listener is enabled, and only to the service account, to a user whose
    account is active at the time of the search, or for an empty base. *)
Theorem ldap_search_gated req cfg st w :
  entries_of (run (handle_search pkg_version req cfg st) w).1 <> [] ->
  lc_enabled cfg = true /\
  (rq_base req = "" \/ st = Service \/
   exists uid (u : UserRow), st = BoundUser uid /\ u ∈ users (db w) /\ u_id u = uid /\ u_active u = true).
Proof.
  unfold handle_search. destruct (lc_enabled cfg); [|done]. cbn [negb]. intros H. split; [done|].
  destruct (decide (rq_base req = "")) as [|Hne]; [by left|]. right.
  assert (is_empty (rq_base req) = false) as He by (by destruct (rq_base req)).
  rewrite He in H. destruct st as [| |uid]; [done|by left|]. right.
  change (beq (BoundUser uid) Anonymous) with false in H. cbn [andb negb] in H.
  destruct (parse_dn (rq_base req)) as [base|]; [|done].
  destruct (parse_dn (people_base_dn cfg)) as [people|]; [|done].
  destruct (parse_dn (groups_base_dn cfg)) as [groups|]; [|done].
  destruct (parse_dn (lc_base_dn cfg)) as [root|]; [|done].
  destruct (negb _ && negb _); [by destruct (_ && _)|].
  unfold search_db in H. rewrite run_bind in H. unfold acquire in H.
  destruct (fault (tick w)) eqn:Ef.
  { simpl in H. rewrite Ef in H. done. }
  rewrite run_query in H by done. cbn [fst snd] in H. rewrite run_bind in H. unfold User_get in H.
  destruct (fault (tick (bump w))) eqn:Ef2.
  { simpl in H. simpl in Ef2. rewrite Ef2 in H. done. }
  rewrite run_query in H by done. cbn [fst snd db bump] in H.
  destruct (fetch _ _) as [u|] eqn:Eu; [|done]. cbn [option_map] in H.
  destruct (u_active u) eqn:Ea; [|done]. apply fetch_Some in Eu as [Hin Hid]. bool_hyp. eauto 6.
Qed.

(** What anyone may ask for without a bind: an empty base name.  Searched alone
    it is the description of the server; a search of one level below it finds
    nothing; the whole tree lies below it. *)
Definition empty_base (req : SearchRequest) (e : LdapSearchResultEntry) : Prop :=
  rq_base req = "" /\
  match rq_scope req with
  | Base => exists cfg, e = to_ldap (build_root_dse pkg_version cfg) (rq_attrs req)
  | OneLevel => False
  | Subtree | Children => True
  end.

Lemma empty_base_answer req cfg st w e :
  rq_base req = "" -> e ∈ entries_of (run (handle_search pkg_version req cfg st) w).1 -> empty_base req e.
Proof.
  intros Hb. unfold handle_search. destruct (lc_enabled cfg); cbn [negb]; [|by intros ?%not_elem_of_nil].
  rewrite Hb. cbn [is_empty negb andb]. rewrite andb_false_r. unfold empty_base.
  destruct (rq_scope req) eqn:Es; [| |by split..]; intros He; (split; [done|]).
  - exists cfg. change (beq Base Base) with true in He. cbn in He. by apply list_elem_of_singleton in He.
  - change (beq OneLevel Base) with false in He. cbn iota in He.
    change (parse_dn "") with (Ok {| rdns := [] |} : result LdapResultCode Dn) in He. cbn iota in He.
    destruct (parse_dn (people_base_dn cfg)) as [people|] eqn:Ep; [|by apply not_elem_of_nil in He].
    destruct (parse_dn (groups_base_dn cfg)) as [groups|] eqn:Eg; [|by apply not_elem_of_nil in He].
    apply (parse_unit_nonempty "people") in Ep. apply (parse_unit_nonempty "groups") in Eg.
    destruct (parse_dn (lc_base_dn cfg)); [|by apply not_elem_of_nil in He].
    unfold include, equals in He. cbv zeta in He. destruct (rdns people), (rdns groups); try done.
    cbn [rdns length Nat.eqb negb andb] in He.
    destruct (_ && _)%bool; by apply not_elem_of_nil in He.
Qed.
End Search.
