(* ===== verification/LdapServer.v ===== *)
(** * One directory connection ([ldap/server.rs])

    The loop of [handle_connection]: every message reloads the configuration,
    forgets the session when the settings it rests on have changed, and
    dispatches the operation.  Between two messages the rest of the server
    runs.  What the peer sends and takes is in [LdapConnection]. *)

From S2P Require Import Prelude RStr RateLimit Schema Sys External Users AuditLog Net Settings AppPasswords LdapSchema LdapFilter LdapHandler LdapFacts.
Local Open Scope string_scope.

(** ** [ldap3_proto]: the operations the server answers, and the kinds it does
    not *)
Inductive LdapOpKind : Type :=
| AddRequest | ModifyRequest | DelRequest | ModifyDNRequest | ExtendedRequest | OtherOp.

Inductive ServerOps : Type :=
| SimpleBind (req : SimpleBindRequest)
| Search (req : SearchRequest)
| Unbind
| Whoami
| Compare
| Unsupported (op : LdapOpKind).

Inductive Reply : Type :=
| RBind (r : BindReply)
| RSearch (r : SearchReply)
| RWhoami (authzid : string)
| RCompareFalse
| RUnwilling (op : LdapOpKind) (message : string).

(** [unsupported_response] *)
Definition unsupported_response (op : LdapOpKind) : option Reply :=
  match op with
  | AddRequest | ModifyRequest | DelRequest | ModifyDNRequest =>
      Some (RUnwilling op "operation not supported")
  | ExtendedRequest | OtherOp => None
  end.

(** How a connection ends: the loop's [break], an I/O error, or a panic. *)
Inductive stop : Type := Break | Failed (msg : string) | Died (p : panic).

(** The variables of the loop. *)
Record Conn := { cn_cfg : LdapConfig; cn_bind : BindState }.

Definition same_settings (a b : LdapConfig) : bool :=
  (beq (lc_service_password_hash a) (lc_service_password_hash b)
   && beq (lc_password_mode a) (lc_password_mode b)
   && beq (lc_base_dn a) (lc_base_dn b))%bool.

Section Server.
Context {E : Env} {PH : PasswordHashing} {JL : JsonLib} {UL : UuidLib}.
Variable pkg_version : string.

(** Before the loop. *)
Definition open_connection : prog (result stop Conn) :=
  r <~ (acquire ;;; load_ldap_config) ;;
  Ret (match r with
       | Ok cfg => Ok {| cn_cfg := cfg; cn_bind := Anonymous |}
       | Err _ => Err (Failed "load ldap config")
       end).

(** The dispatch on the operation, under the current configuration. *)
Definition dispatch (peer_ip : IpAddr) (op : ServerOps) (c : Conn)
    : prog (result stop (list Reply * Conn)) :=
  match op with
  | SimpleBind req =>
      r <~ handle_bind req (cn_cfg c) peer_ip ;;
      Ret (match r with
           | Ok (resp, new_state) => Ok ([RBind resp], {| cn_cfg := cn_cfg c; cn_bind := new_state |})
           | Err p => Err (Died p)
           end)
  | Search req =>
      resps <~ handle_search pkg_version req (cn_cfg c) (cn_bind c) ;;
      Ret (Ok (map RSearch resps, c))
  | Unbind => Ret (Err Break)
  | Whoami =>
      let authzid := match cn_bind c with
                     | Anonymous => ""
                     | Service => "dn:" ++ service_account_dn (cn_cfg c)
                     | BoundUser _ => "dn:"
                     end in
      Ret (Ok ([RWhoami authzid], c))
  | Compare => Ret (Ok ([RCompareFalse], c))
  | Unsupported k =>
      Ret (Ok (match unsupported_response k with Some r => [r] | None => [] end, c))
  end.

(** One iteration of [handle_connection] on a decoded message. *)
Definition on_message (peer_ip : IpAddr) (op : ServerOps) (c : Conn)
    : prog (result stop (list Reply * Conn)) :=
  r <~ (acquire ;;; load_ldap_config) ;;
  match r with
  | Err _ => Ret (Err (Failed "load ldap config"))
  | Ok current_cfg =>
      if negb (lc_enabled current_cfg) then Ret (Err Break)
      else
        dispatch peer_ip op
          {| cn_cfg := current_cfg;
             cn_bind := if same_settings current_cfg (cn_cfg c) then cn_bind c else Anonymous |}
  end.

(** The life of a connection: messages, and anything else the server does in
    between.  [past] are the worlds it has seen. *)
Record Life := { conn : Conn; world : World; past : list World }.

Inductive life_step (peer_ip : IpAddr) : Life -> Life -> Prop :=
| life_message op l replies c' w' :
    run (on_message peer_ip op (conn l)) (world l) = (Ok (replies, c'), w') ->
    life_step peer_ip l {| conn := c'; world := w'; past := world l :: past l |}
| life_other l w' :
    life_step peer_ip l {| conn := conn l; world := w'; past := world l :: past l |}.

(** ** The session rests on the current settings *)

Lemma bind_evidence_settings d cfg cfg' req st :
  same_settings cfg cfg' = true -> bind_evidence d cfg' req st -> bind_evidence d cfg req st.
Proof.
  unfold same_settings. intros H. bool_hyp.
  destruct st as [| |uid]; simpl; unfold service_dn, service_account_dn, people_base_dn; [done|..];
    rewrite ?H, ?H0, ?H1; naive_solver.
Qed.

(** Loading the configuration writes nothing. *)
Lemma get_setting_db key w : db (run (get_setting key) w).2 = db w.
Proof. apply run_query_db. Qed.

Lemma load_ldap_config_db w r w' : run load_ldap_config w = (r, w') -> db w' = db w.
Proof.
  assert (Hq : forall {A} key (k : option string -> M A) w0 r0 w1,
    run (bindM (get_setting key) k) w0 = (r0, w1) -> 
    (forall v w2, db w2 = db w0 -> run (k v) w2 = (r0, w1) -> db w1 = db w0) -> db w1 = db w0).
  { intros A key k w0 r0 w1 H Hk. rewrite run_bindM in H. pose proof (get_setting_db key w0) as Hd.
    destruct (run (get_setting key) w0) as [[v|e] w2]; simpl in Hd; [by apply (Hk v w2)|].
    injection H as _ <-. done. }
  unfold load_ldap_config. intros H.
  apply Hq in H; [done|]. intros v1 w1 Hd1 H1. rewrite <- Hd1.
  apply Hq in H1; [done|]. intros v2 w2 Hd2 H2. rewrite <- Hd2.
  apply Hq in H2; [done|]. intros v3 w3 Hd3 H3. rewrite <- Hd3.
  rewrite run_bindM in H3. unfold require in H3. cbn [run] in H3.
  destruct (ok_or _ _) as [addr|e]; [|by injection H3 as _ <-].
  apply Hq in H3; [done|]. intros v4 w4 Hd4 H4. rewrite <- Hd4.
  apply Hq in H4; [done|]. intros v5 w5 Hd5 H5. rewrite <- Hd5.
  cbn [run ret] in H5. by injection H5 as _ <-.
Qed.

Lemma on_message_bound ip op c w replies c' w' :
  run (on_message ip op c) w = (Ok (replies, c'), w') -> cn_bind c' <> Anonymous ->
  (cn_bind c' = cn_bind c /\ same_settings (cn_cfg c') (cn_cfg c) = true) \/
  (exists req, bind_evidence (db w) (cn_cfg c') req (cn_bind c')).
Proof.
  unfold on_message. intros H Hb. apply run_bind_eq in H as ([cfg|e] & w1 & H1 & H); [|by simplify_eq/=].
  assert (Hd : db w1 = db w).
  { rewrite run_bindM in H1. destruct (run acquire w) as [[u|e] w0] eqn:Ha; [|done].
    apply run_acquire_ok in Ha as [_ ->]. by apply load_ldap_config_db in H1. }
  destruct (lc_enabled cfg); [|done]. cbn [negb] in H.
  assert (Hkeep : forall c0, c0 = {| cn_cfg := cfg;
      cn_bind := if same_settings cfg (cn_cfg c) then cn_bind c else Anonymous |} -> c' = c0 ->
    cn_bind c' = cn_bind c /\ same_settings (cn_cfg c') (cn_cfg c) = true).
  { intros c0 -> ->. simpl in *. destruct (same_settings _ _); [done|by destruct Hb]. }
  destruct op as [req|req| | | |k]; cbn [dispatch] in H.
  - apply run_bind_eq in H as ([[resp st]|p] & w2 & H2 & H); [|done].
    cbn [run] in H. injection H as <- <- <-. right. exists req. cbn [cn_cfg cn_bind] in *.
    apply ldap_bind_evidence in H2; [|done]. by rewrite Hd in H2.
  - apply run_bind_eq in H as (resps & w2 & H2 & H). cbn [run] in H. injection H as <- <- <-.
    left. by eapply Hkeep.
  - done.
  - cbn [run] in H. injection H as <- <- <-. left. by eapply Hkeep.
  - cbn [run] in H. injection H as <- <- <-. left. by eapply Hkeep.
  - cbn [run] in H. injection H as <- <- <-. left. by eapply Hkeep.
Qed.

(** The bind a bound connection rests on. *)
Definition grounded (l : Life) : Prop :=
  cn_bind (conn l) = Anonymous \/
  exists w req, w ∈ past l /\ bind_evidence (db w) (cn_cfg (conn l)) req (cn_bind (conn l)).

Lemma life_step_grounded ip l l' : grounded l -> life_step ip l l' -> grounded l'.
Proof.
  intros Hg Hs. destruct Hs as [op l replies c' w' Hr|l w'].
  - destruct (decide (cn_bind c' = Anonymous)) as [|Hb]; [by left|]. right. simpl.
    apply on_message_bound in Hr as [[Heq Hset]|[req Hev]]; [| |done].
    + destruct Hg as [Ha|(w & req & Hw & Hev)]; [congruence|]. exists w, req.
      split; [set_solver|]. rewrite Heq. by eapply bind_evidence_settings.
    + exists (world l), req. split; [set_solver|done].
  - destruct Hg as [Ha|(w & req & Hw & Hev)]; [by left|]. right. exists w, req. split; [set_solver|done].
Qed.

(** At every point of a connection's life, however its messages and the
    rest of the server interleave, a bound session rests on a bind request of
    this connection whose evidence was valid in a world of the past under the
    service password, the password mode and the base name that are current:
    changing any of these settings ends the session at the next message. *)
Theorem ldap_session_grounded ip c w l :
  cn_bind c = Anonymous ->
  star (life_step ip) {| conn := c; world := w; past := [] |} l ->
  cn_bind (conn l) = Anonymous \/
  exists w0 req, w0 ∈ past l /\ bind_evidence (db w0) (cn_cfg (conn l)) req (cn_bind (conn l)).
Proof.
  intros Hc Hs. apply (star_invariant (life_step ip) grounded) in Hs; [done| |by left].
  intros x y. apply life_step_grounded.
Qed.
End Server.
