(* ===== verification/LdapConnection.v ===== *)
(** * A directory connection from its first byte to its last
    ([ldap/server.rs])

    [handle_connection] with what its peer does: the messages it sends, the
    bytes that are none, its silence, and the answers it does not take; what
    goes out over it before a bind and after. *)

From S2P Require Import Prelude RStr RateLimit Schema Sys External Users AuditLog Net Settings AppPasswords LdapSchema LdapFilter LdapHandler LdapFacts LdapSearch LdapServer.
Local Open Scope string_scope.

(** What [framed.next()] yields; a connection that is closed or silent for a
    minute yields nothing more. *)
Inductive Input : Type := Message (op : ServerOps) | Undecodable.

(** How the task of a connection ends: with the farewell notice, without it,
    with an I/O error, or by a panic. *)
Inductive Ending : Type := Farewell | NoFarewell | IoError (msg : string) | TaskDied (p : panic).
Definition ending_of (s : stop) : Ending :=
  match s with Break => Farewell | Failed msg => IoError msg | Died p => TaskDied p end.

(** A message with the answers to it that were sent. *)
Definition Exchange : Type := ServerOps * list Reply.

Section Connection.
Context {E : Env} {PH : PasswordHashing} {JL : JsonLib} {UL : UuidLib}.
Variable pkg_version : string.
(** Whether the peer takes the [n]-th answer within a minute. *)
Variable delivered : nat -> bool.

(** The answers of one message, until one of them is not taken. *)
Fixpoint send_all (n : nat) (replies : list Reply) : list Reply * bool :=
  match replies with
  | [] => ([], true)
  | r :: replies' =>
      if delivered n then let '(sent, all) := send_all (S n) replies' in (r :: sent, all)
      else ([], false)
  end.

(** A search whose answer is not taken returns from the function; any other
    operation leaves the loop. *)
Definition cut_off (op : ServerOps) : Ending := match op with Search _ => NoFarewell | _ => Farewell end.

Fixpoint conversation (peer_ip : IpAddr) (inputs : list Input) (n : nat) (c : Conn)
    : prog (list Exchange * Ending) :=
  match inputs with
  | [] => Ret ([], Farewell)
  | Undecodable :: _ => Ret ([], Farewell)
  | Message op :: inputs' =>
      r <~ on_message pkg_version peer_ip op c ;;
      match r with
      | Err s => Ret ([], ending_of s)
      | Ok (replies, c') =>
          let '(sent, all) := send_all n replies in
          if all : bool then
            rest <~ conversation peer_ip inputs' (n + length sent) c' ;;
            Ret ((op, sent) :: rest.1, rest.2)
          else Ret ([(op, sent)], cut_off op)
      end
  end.

(** [handle_connection] *)
Definition handle_connection (peer_ip : IpAddr) (inputs : list Input) : prog (list Exchange * Ending) :=
  r <~ open_connection ;;
  match r with
  | Ok c => conversation peer_ip inputs 0 c
  | Err s => Ret ([], ending_of s)
  end.

Lemma send_all_prefix n replies sent all :
  send_all n replies = (sent, all) -> exists rest, replies = (sent ++ rest)%list /\ (all = true -> rest = []).
Proof.
  revert n sent all. induction replies as [|r replies IH]; intros n sent all; cbn [send_all].
  { intros [= <- <-]. by exists []. }
  destruct (delivered n); [|intros [= <- <-]; by exists (r :: replies)].
  destruct (send_all (S n) replies) as [s a] eqn:Es. intros [= <- <-].
  apply IH in Es as (rest & -> & Hr). by exists rest.
Qed.

(** What an exchange with the directory rests on: a bind the connection has
    been granted. *)
Definition granted (log : list Exchange) (st : BindState) : Prop :=
  exists req w cfg, (SimpleBind req, [RBind gen_success]) ∈ log /\ bind_evidence (db w) cfg req st.
Definition rests (log : list Exchange) (st : BindState) : Prop := st = Anonymous \/ granted log st.
(** What allows an entry to go out after the exchanges so far. *)
Definition justified (log : list Exchange) (req : SearchRequest) (e : LdapSearchResultEntry) : Prop :=
  (exists st, st <> Anonymous /\ granted log st) \/ empty_base pkg_version req e.

Lemma granted_mono log log' st : granted log st -> granted (log ++ log')%list st.
Proof. intros (req & w & cfg & Hin & Hev). exists req, w, cfg. split; [set_solver|done]. Qed.

Lemma entries_elem e replies : RSearch (gen_result_entry e) ∈ map RSearch replies -> e ∈ entries_of replies.
Proof.
  intros H. apply list_elem_of_fmap in H as (r & [= <-] & Hr). unfold entries_of.
  apply list_elem_of_In, in_flat_map. exists (gen_result_entry e). split; [by apply list_elem_of_In|by left].
Qed.

(** One message: what it discloses rests on the past, and so does the session
    it leaves. *)
Lemma on_message_rests ip op c w replies c' w' log :
  run (on_message pkg_version ip op c) w = (Ok (replies, c'), w') -> rests log (cn_bind c) ->
  rests (log ++ [(op, replies)])%list (cn_bind c') /\
  (forall req e, op = Search req -> RSearch (gen_result_entry e) ∈ replies -> justified log req e).
Proof.
  unfold on_message. intros H Hc. apply run_bind_eq in H as ([cfg|e] & w1 & H1 & H); [|done].
  destruct (lc_enabled cfg); [|done]. cbn [negb] in H.
  assert (Hkeep : rests log (if same_settings cfg (cn_cfg c) then cn_bind c else Anonymous)).
  { destruct (same_settings _ _); [done|by left]. }
  assert (Hgrow : forall st x, rests log st -> rests (log ++ [x])%list st).
  { intros st x [Ha|Hg]; [by left|right; by apply granted_mono]. }
  destruct op as [req|req| | | |k]; cbn [dispatch] in H; try (cbn [run] in H; injection H as <- <- <-);
    try (split; [by apply Hgrow|done]); try done.
  - apply run_bind_eq in H as ([[resp st]|p] & w2 & H2 & H); [|done].
    cbn [run] in H. injection H as <- <- <-. split; [|done]. cbn [cn_bind cn_cfg] in *.
    destruct (decide (st = Anonymous)) as [|Hst]; [by left|].
    apply handle_bind_ok in H2 as (-> & Hev & _); [|done]. right. exists req, w1, cfg.
    split; [set_solver|done].
  - apply run_bind_eq in H as (resps & w2 & H2 & H). cbn [run] in H. injection H as <- <- <-.
    cbn [cn_bind cn_cfg] in *. split; [by apply Hgrow|]. intros q e [= <-] He.
    apply entries_elem in He. replace resps with (run (handle_search pkg_version req cfg
      (if same_settings cfg (cn_cfg c) then cn_bind c else Anonymous)) w1).1 in He by by rewrite H2.
    set (st := if same_settings _ _ then _ else _) in *.
    destruct (decide (rq_base req = "")) as [Hb|Hb]; [right; by eapply empty_base_answer|left].
    assert (Hs : entries_of (run (handle_search pkg_version req cfg st) w1).1 <> [])
      by (intros Hn; rewrite Hn in He; by apply not_elem_of_nil in He).
    apply ldap_search_gated in Hs as [_ Hs].
    assert (Hst : st <> Anonymous) by (destruct Hs as [|[->|(uid & u & -> & _)]]; done).
    exists st. split; [done|]. by destruct Hkeep.
Qed.

Lemma conversation_rests ip inputs n c w log ending w' past :
  run (conversation ip inputs n c) w = ((log, ending), w') -> rests past (cn_bind c) ->
  forall before req sent after e, log = (before ++ (Search req, sent) :: after)%list ->
    RSearch (gen_result_entry e) ∈ sent -> justified (past ++ before)%list req e.
Proof.
  revert n c w log ending w' past.
  induction inputs as [|[op|] inputs IH]; intros n c w log ending w' past; cbn [conversation];
    try (intros [= <- _ _] _ before req sent after e Hl; by destruct before).
  intros H Hc. apply run_bind_eq in H as ([[replies c']|s] & w1 & H1 & H).
  2: { cbn [run] in H. injection H as <- _ _. intros before req sent after e Hl. by destruct before. }
  apply (on_message_rests _ _ _ _ _ _ _ past) in H1 as [Hc' Hd]; [|done].
  destruct (send_all n replies) as [sent all] eqn:Es. apply send_all_prefix in Es as (rest & -> & Hall).
  assert (Hfirst : forall req e, op = Search req -> RSearch (gen_result_entry e) ∈ sent -> justified past req e).
  { intros req e Hop Hin. apply (Hd req e Hop). set_solver. }
  destruct all.
  - apply run_bind_eq in H as ([log' e'] & w2 & H2 & H). cbn [run fst snd] in H. injection H as <- _ _.
    rewrite (Hall eq_refl), app_nil_r in Hc'. intros before req sent' after e Hl He.
    destruct before as [|y before].
    + injection Hl as -> -> _. rewrite app_nil_r. by apply Hfirst.
    + injection Hl as <- Hl. rewrite cons_middle, app_assoc. by eapply (IH _ _ _ _ _ _ _ H2 Hc').
  - cbn [run] in H. injection H as <- _ _. intros before req sent' after e Hl He. destruct before as [|y before].
    + injection Hl as -> -> _. rewrite app_nil_r. by apply Hfirst.
    + injection Hl as _ Hl. by destruct before.
Qed.

(** C17: what the directory discloses to connections that are not bound.
    Whatever a peer sends, takes or leaves, an entry goes out over its
    connection only after a bind request of this very connection has been
    answered with success, and that bind was for the service account or an
    active user on valid credentials; or else the search named the empty base,
    and then the entry is the description of the server when the base alone was
    asked for, no entry is sent for one level, and for the subtree it may be any
    entry, bound or not, as the server now is. *)
Theorem directory_needs_bind ip inputs w log ending w' before req sent after e :
  run (handle_connection ip inputs) w = ((log, ending), w') ->
  log = (before ++ (Search req, sent) :: after)%list -> RSearch (gen_result_entry e) ∈ sent ->
  (exists b w1 cfg st, (SimpleBind b, [RBind gen_success]) ∈ before /\
     st <> Anonymous /\ bind_evidence (db w1) cfg b st) \/
  empty_base pkg_version req e.
Proof.
  intros H Hl He. unfold handle_connection in H.
  apply run_bind_eq in H as ([c|s] & w1 & H1 & H).
  2: { cbn [run] in H. injection H as <- _ _. by destruct before. }
  assert (Hc : cn_bind c = Anonymous).
  { unfold open_connection in H1. apply run_bind_eq in H1 as ([cfg|x] & w0 & _ & H1); [|done].
    cbn [run] in H1. by injection H1 as <- _. }
  destruct (conversation_rests _ _ _ _ _ _ _ _ [] H (or_introl Hc) before _ _ after e Hl He)
    as [(st & Hst & b & w2 & cfg & Hin & Hev)|Hb]; [left|by right].
  by exists b, w2, cfg, st.
Qed.
End Connection.
