(* ===== verification/Invitations.v ===== *)
(** * Invitations and registration ([invitation.rs], [handlers/registration.rs])

    An invitation admits a bounded number of registrations until a deadline;
    registration consumes one use in the transaction that creates the
    account. *)

From S2P Require Import Prelude RStr RateLimit Schema Sys External Users AuditLog Net Settings Token Http LoginFlow.
Local Open Scope Z_scope.
Local Open Scope string_scope.

Record CreateInvitationInput := {
  cii_label : option string; cii_max_uses : option Z; cii_expires_at : option Z
}.
Record InvitationWithStatus := {
  is_invitation : Invitation; is_created_by_username : option string; is_status : string
}.

Definition not_expired (i : Invitation) (t : Z) : bool := is_none_or (inv_expires_at i) (fun e => t <? e)%Z.
Definition not_exhausted (i : Invitation) : bool :=
  is_none_or (inv_max_uses i) (fun max => inv_uses i <? max)%Z.

(** The condition and the effect of the consuming update. *)
Definition consumable (id : string) (t : Z) (i : Invitation) : bool :=
  (beq (inv_id i) id && not_exhausted i && not_expired i t)%bool.
Definition used_once (i : Invitation) : Invitation := {|
  inv_id := inv_id i; inv_created_by := inv_created_by i; inv_label := inv_label i;
  inv_max_uses := inv_max_uses i; inv_uses := inv_uses i + 1; inv_expires_at := inv_expires_at i;
  inv_created_at := inv_created_at i |}.

(** [ORDER BY i.created_at DESC] *)
Fixpoint insert_newest (r : Invitation) (l : list Invitation) : list Invitation :=
  match l with
  | [] => [r]
  | x :: l' => if (inv_created_at x <=? inv_created_at r)%Z then r :: l else x :: insert_newest r l'
  end.

Section Invitation.
Context {E : Env} {HA : Hashing}.

(** [generate_id] *)
Definition generate_id : prog string := bytes <~ random_bytes 32 ;; Ret (hex_encode bytes).

(** [Invitation::new] *)
Definition Invitation_new (input : CreateInvitationInput) (created_by : Uuid) : prog Invitation :=
  id <~ generate_id ;;
  t <~ now ;;
  Ret {| inv_id := id; inv_created_by := created_by; inv_label := cii_label input;
         inv_max_uses := cii_max_uses input; inv_uses := 0; inv_expires_at := cii_expires_at input;
         inv_created_at := t |}.

(** [Invitation::is_valid] *)
Definition is_valid (i : Invitation) : prog bool :=
  t <~ now ;; Ret (not_expired i t && not_exhausted i)%bool.

(** [Invitation::save] *)
Definition Invitation_save (i : Invitation) : M unit :=
  stmt (fun d =>
    insert_checked (existsb (fun i' => beq (inv_id i') (inv_id i)) (invitations d))
      (user_exists (inv_created_by i) d)
      (with_invitations (fun t => (t ++ [i])%list)) d).

(** [Invitation::list] *)
Definition status_of_invitation (t : Z) (i : Invitation) : string :=
  if negb (not_expired i t) then "expired"
  else if negb (not_exhausted i) then "exhausted" else "active".
Definition Invitation_list : M (list InvitationWithStatus) :=
  rows <- query (fun d => map (fun i => (i, username_of d (Some (inv_created_by i))))
                            (foldr insert_newest [] (invitations d))) ;;
  t <~ now ;;
  ret (map (fun r => {| is_invitation := r.1; is_created_by_username := r.2;
                        is_status := status_of_invitation t r.1 |}) rows).

(** [Invitation::get] *)
Definition Invitation_get (id : string) : M (option Invitation) :=
  query (fun d => fetch (fun i => beq (inv_id i) id) (invitations d)).

(** [Invitation::delete] *)
Definition Invitation_delete (id : string) : M bool :=
  affected <- exec (fun d =>
    (count (fun i => beq (inv_id i) id) (invitations d),
     with_invitations (delete (fun i => beq (inv_id i) id)) d)) ;;
  ret (0 <? affected)%nat.

(** [Invitation::consume]: the row as the update leaves it. *)
Definition Invitation_consume (id : string) : M (option Invitation) :=
  t <~ now ;;
  exec (fun d => (option_map used_once (fetch (consumable id t) (invitations d)),
                  with_invitations (update (consumable id t) used_once) d)).

(** [Invitation::validate_input] *)
Definition Invitation_validate_input (input : CreateInvitationInput) : M unit :=
  let e1 := match cii_max_uses input with
            | Some m => if (m <? 1)%Z then ["max_uses must be at least 1"] else []
            | None => []
            end in
  e2 <~ (match cii_expires_at input with
         | Some e => t <~ now ;; Ret (if (e <=? t)%Z then ["expires_at must be in the future"] else [])
         | None => Ret []
         end) ;;
  let e3 := match cii_label input with
            | Some l => if (128 <? String.length l)%nat
                        then ["label must be 128 characters or fewer"] else []
            | None => []
            end in
  match (e1 ++ e2 ++ e3)%list with [] => ret tt | errors => throw (InputError errors) end.
End Invitation.

(** ** Registration *)

Record RegisterInput := {
  ri_username : string; ri_name : string; ri_email : option string;
  ri_password : string; ri_confirm_password : string; ri_invite_code : option string
}.

Inductive RegisterError : Type := RegApp (e : AppError) | RegRateLimit (retry_after : Z).

(** [RegisterError::into_response] *)
Definition register_error_response (e : RegisterError) : Response :=
  match e with RegApp e => error_response e | RegRateLimit r => rate_limit_response r end.

Definition set_register_rl (rl : RateLimiter) (l : Limiters) : Limiters := {|
  login_rl := login_rl l; register_rl := rl; ldap_bind_rl := ldap_bind_rl l;
  oidc_token_rl := oidc_token_rl l |}.

Section Registration.
Context {E : Env} {HA : Hashing} {ED : Ed25519} {JC : JwtCodec Claims} {UL : UuidLib}
        {PH : PasswordHashing} {JL : JsonLib} {HL : HttpLib}.
Variable username_regex email_regex : string -> bool.

Definition invalid_invitation : AppError := InputError ["Invitation is invalid or expired"].

(** The invitation a closed registration needs, checked before anything else
    is done. *)
Definition precheck_invitation (invite_code : option string) : M unit :=
  code <- require invite_code (InputError ["Registration is by invitation only"]) ;;
  found <- Invitation_get code ;;
  invite <- require found invalid_invitation ;;
  valid <~ is_valid invite ;;
  guard (negb valid) invalid_invitation.

(** The body of the transaction. *)
Definition register_tx (open : bool) (invite_code : option string) (user : User)
    (authenticator : Authenticator) : M (option Invitation) :=
  consumed <- (if open then ret None
               else
                 c <- Invitation_consume (unwrap_or invite_code "") ;;
                 i <- require c invalid_invitation ;;
                 ret (Some i)) ;;
  User_save user ;;;
  Authenticator_save authenticator ;;;
  role <- Role_get_by_name ROLE_USER ;;
  (match role with
   | Some user_role => UserRole_assign (u_id user) (ro_id user_role)
   | None => ret tt
   end) ;;;
  ret consumed.

(** [register] up to the commit: the account, and the invitation it used. *)
Definition create_account (input : RegisterInput) : M (User * option Invitation) :=
  guard (negb (beq (ri_password input) (ri_confirm_password input)))
    (InputError ["Passwords do not match"]) ;;;
  lift (validate_create_input username_regex email_regex {|
    cui_username := ri_username input; cui_name := ri_name input;
    cui_password := ri_password input; cui_email := ri_email input |}) ;;;
  acquire ;;;
  open <- open_registration_enabled ;;
  (if open then ret tt else precheck_invitation (ri_invite_code input)) ;;;
  user <~ User_new (ri_username input) (ri_name input) (ri_email input) ;;
  r <~ new_password (ri_password input) (u_id user) ;;
  authenticator <- lift (map_err (fun e => InternalError ("Failed to create authenticator (" ++ e ++ ")")) r) ;;
  consumed <- transaction (register_tx open (ri_invite_code input) user authenticator) ;;
  ret (user, consumed).

(** The audit records, the session and the answer. *)
Definition finish_registration (st : AppState) (ctx : AuditContext) (user : User)
    (consumed_invite : option Invitation) : M Response :=
  acquire ;;;
  let details := match consumed_invite with
                 | Some i => JObj [("invite_used", JBool true); ("invite_id", JStr (inv_id i))]
                 | None => JObj [("invite_used", JBool false)]
                 end in
  audit_try (with_details details (in_ctx ctx (by_user (u_id user) (audit UserRegistered)))) ;;;
  (match consumed_invite with
   | Some i => audit_try (with_details (JObj [("invite_id", JStr (inv_id i))])
                 (in_ctx ctx (by_user (u_id user) (audit InvitationConsumed))))
   | None => ret tt
   end) ;;;
  token_pair <- generate_token_pair (u_id user) [ROLE_USER] (st_signing_key st) ;;
  ret (response 200 (auth_cookies token_pair)
         (JsonBody (JObj [("success", JBool true); ("redirect_uri", JStr "/account")]))).

(** [register] *)
Definition register (st : AppState) (ctx : AuditContext) (input : RegisterInput)
    : prog (result RegisterError Response) :=
  limited <~ rl_check register_rl set_register_rl (ctx_ip ctx) ;;
  match limited with
  | Err retry_after => Ret (Err (RegRateLimit retry_after))
  | Ok _ =>
      convert RegApp
        ('(user, consumed) <- create_account input ;; finish_registration st ctx user consumed)
  end.

(** [validate_invite] *)
Definition validate_invite (code : string) : M bool :=
  acquire ;;;
  found <- Invitation_get code ;;
  match found with Some invite => v <~ is_valid invite ;; ret v | None => ret false end.
End Registration.
