(* ===== verification/InvitationFacts.v ===== *)
(** * What invitations and registration guarantee *)

From S2P Require Import Prelude RStr RateLimit Schema Sys External Users AuditLog Net Settings Token Http LoginFlow Invitations.
Local Open Scope Z_scope.
Local Open Scope string_scope.

(** The uses an invitation has left, over the rows with a limit. *)
Definition uses_left (id : string) (d : Db) : nat :=
  sum_nat (map (fun i => match inv_max_uses i with
                         | Some m => if beq (inv_id i) id then Z.to_nat (m - inv_uses i) else 0%nat
                         | None => 0%nat
                         end) (invitations d)).

(** A registration that went through on an invitation with a limit. *)
Definition admitted (r : result AppError (option Invitation)) : bool :=
  match r with Ok (Some i) => is_some (inv_max_uses i) | _ => false end.

Lemma uses_left_update id t (l : list Invitation) :
  let left l := sum_nat (map (fun i => match inv_max_uses i with
                         | Some m => if beq (inv_id i) id then Z.to_nat (m - inv_uses i) else 0%nat
                         | None => 0%nat
                         end) l) in
  (left (update (consumable id t) used_once l)
   + match fetch (consumable id t) l with Some i => if is_some (inv_max_uses i) then 1 else 0 | None => 0 end
   <= left l)%nat.
Proof.
  intros left. induction l as [|i l IH]; [done|].
  rewrite update_cons. unfold fetch in *. simpl. unfold left in *.
  destruct (consumable id t i) eqn:Ec.
  - assert (Hl : (sum_nat (map (fun i => match inv_max_uses i with
                         | Some m => if beq (inv_id i) id then Z.to_nat (m - inv_uses i) else 0%nat
                         | None => 0%nat
                         end) (update (consumable id t) used_once l))
       <= sum_nat (map (fun i => match inv_max_uses i with
                         | Some m => if beq (inv_id i) id then Z.to_nat (m - inv_uses i) else 0%nat
                         | None => 0%nat
                         end) l))%nat) by lia.
    clear IH. unfold consumable, not_exhausted in Ec. bool_hyp. cbn [map sum_nat fold_right used_once
      inv_max_uses inv_id inv_uses]. rewrite H, beq_refl.
    destruct (inv_max_uses i) as [m|]; cbn [is_some is_none_or] in *; bool_hyp; unfold sum_nat in *; lia.
  - unfold sum_nat in *. cbn [map fold_right]. lia.
Qed.

Section Facts.
Context {E : Env} {HA : Hashing} {ED : Ed25519} {JC : JwtCodec Claims} {UL : UuidLib}
        {PH : PasswordHashing} {JL : JsonLib} {HL : HttpLib}.
Variable username_regex email_regex : string -> bool.

(** ** The transaction *)

Definition new_row (user : User) : UserRow := {| u_row := user; u_token_version := 0 |}.

(** What a committed registration did to the database: one use of the
    invitation when registration is closed, the account with its
    authenticator, and at most the plain user role. *)
Definition registered (open : bool) (code : option string) (user : User) (a : Authenticator)
    (consumed : option Invitation) (t : Z) (d d' : Db) : Prop :=
  (if open then consumed = None /\ invitations d' = invitations d
   else exists i, fetch (consumable (unwrap_or code "") t) (invitations d) = Some i /\
          consumed = Some (used_once i) /\
          invitations d' = update (consumable (unwrap_or code "") t) used_once (invitations d)) /\
  (forall u : UserRow, u ∈ users d -> u_id u <> u_id user /\ u_username u <> u_username user) /\
  users d' = (users d ++ [new_row user])%list /\
  authenticators d' = (authenticators d ++ [a])%list /\
  exists granted, user_roles d' = (user_roles d ++ map (fun r => {| ur_user_id := u_id user; ur_role_id := ro_id r |}) granted)%list /\
    forall r, r ∈ granted -> r ∈ roles d /\ ro_name r = ROLE_USER.

Lemma User_save_ok user u w w' :
  run (User_save user) w = (Ok u, w') ->
  (forall r : UserRow, r ∈ users (db w) -> u_id r <> u_id user /\ u_username r <> u_username user) /\
  db w' = with_users (fun t => t ++ [new_row user])%list (db w).
Proof.
  unfold User_save. intros H. apply run_stmt_ok in H as (_ & d & H & ->).
  destruct (existsb _ _) eqn:Ex; [done|]. injection H as _ <-. split; [|done].
  intros r Hr. rewrite existsb_find in Ex.
  destruct (List.find _ _) eqn:Ef; [done|]. pose proof (List.find_none _ _ Ef r) as Hn.
  rewrite <- list_elem_of_In in Hn. specialize (Hn Hr). simpl in Hn. by bool_hyp.
Qed.

Lemma UserRole_assign_ok uid rid u w w' :
  run (UserRole_assign uid rid) w = (Ok u, w') ->
  db w' = with_user_roles (fun t => t ++ [{| ur_user_id := uid; ur_role_id := rid |}])%list (db w).
Proof.
  unfold UserRole_assign. intros H. run_inv H.
  match goal with Hs : insert_checked _ _ _ _ = _ |- _ => apply insert_checked_ok in Hs as (_ & _ & ->) end.
  done.
Qed.

Lemma register_tx_ok open code user a c w w' :
  run (register_tx open code user a) w = (Ok c, w') ->
  exists t, registered open code user a c t (db w) (db w').
Proof.
  unfold register_tx. intros H.
  apply run_bindM_ok in H as (consumed & w1 & H1 & H).
  apply run_bindM_ok in H as (u1 & w2 & H2 & H). apply User_save_ok in H2 as [Hfresh Hd2].
  apply run_bindM_ok in H as (u2 & w3 & H3 & H).
  unfold Authenticator_save in H3. apply run_stmt_ok in H3 as (_ & d3 & H3 & ->).
  apply insert_checked_ok in H3 as (_ & _ & ->).
  apply run_bindM_ok in H as (role & w4 & H4 & H).
  unfold Role_get_by_name in H4. apply run_query_ok in H4 as (_ & Hrole & ->).
  apply run_bindM_ok in H as (u3 & w5 & H5 & H). apply run_ret_ok in H as [<- <-].
  assert (Hinv : exists t, (if open then consumed = None /\ invitations (db w1) = invitations (db w)
     else exists i, fetch (consumable (unwrap_or code "") t) (invitations (db w)) = Some i /\
          consumed = Some (used_once i) /\
          invitations (db w1) = update (consumable (unwrap_or code "") t) used_once (invitations (db w)))
     /\ users (db w1) = users (db w) /\ authenticators (db w1) = authenticators (db w)
     /\ user_roles (db w1) = user_roles (db w) /\ roles (db w1) = roles (db w)).
  { destruct open; [run_inv H1; by exists 0|].
    unfold Invitation_consume in H1. run_inv H1. cbn [fst snd db set_db bump] in *.
    exists (clock (tick w)). split; [|done].
    destruct (fetch _ _) as [i|] eqn:Ef; [|done]. exists i. cbn [option_map] in *.
    match goal with Hs : Some _ = Some _ |- _ => injection Hs as -> end. done. }
  destruct Hinv as (t & Hc & Hu & Ha & Hur & Hr). exists t.
  assert (Hfinal : users (db w5) = users (db w2) /\ invitations (db w5) = invitations (db w2)
    /\ authenticators (db w5) = (authenticators (db w2) ++ [a])%list
    /\ exists granted, user_roles (db w5) = (user_roles (db w2) ++ map (fun r => {| ur_user_id := u_id user; ur_role_id := ro_id r |}) granted)%list
       /\ forall r, r ∈ granted -> r ∈ roles (db w2) /\ ro_name r = ROLE_USER).
  { destruct role as [r|].
    - apply UserRole_assign_ok in H5. rewrite H5. do 3 (split; [done|]). exists [r]. split; [done|].
      intros r' Hr'. apply list_elem_of_singleton in Hr' as ->. symmetry in Hrole.
      apply fetch_Some in Hrole as [Hin Hn]. by bool_hyp.
    - apply run_ret_ok in H5 as [_ <-]. do 3 (split; [done|]). exists [].
      split; [simpl; by rewrite app_nil_r|]. intros r Hr'. by apply elem_of_nil in Hr'. }
  destruct Hfinal as (F1 & F2 & F3 & granted & F4 & F5).
  rewrite Hd2 in F1, F2, F3, F4, F5. cbn in F1, F2, F3, F4, F5. rewrite Hu in Hfresh, F1.
  unfold registered. rewrite F1, F2, F3, F4, Ha, Hur. split; [exact Hc|]. split; [exact Hfresh|].
  split; [done|]. split; [done|]. exists granted. split; [done|]. intros r Hr'. rewrite <- Hr. by apply F5.
Qed.

Lemma registration_spends code user a :
  spends (fun w => uses_left code (db w)) admitted 0
    (transaction (register_tx false (Some code) user a)).
Proof.
  apply spends_transaction; [done|]. intros w c w' H.
  apply register_tx_ok in H as (t & (i & Hf & -> & Hi) & _). cbn [unwrap_or] in *.
  pose proof (uses_left_update code t (invitations (db w))) as Hl. cbv zeta in Hl. rewrite Hf in Hl.
  unfold uses_left. rewrite Hi. eexists. split; [exact Hl|]. cbn [admitted used_once inv_max_uses]. lia.
Qed.

(** C22: however registrations on one invitation interleave with one another
    and with the rest of the server, no more of them commit than the
    invitation had uses left, as long as the others do not give it new uses;
    a registration that fails gives its use back. *)
Theorem invitation_uses_bounded code accounts others sched w :
  Forall (bystander (uses_left code) admitted) others ->
  let s := pool_run sched
    ((others ++ map (fun p => transaction (register_tx false (Some code) p.1 p.2)) accounts)%list, w) in
  (wins admitted s.1 + uses_left code (db s.2) <= uses_left code (db w))%nat.
Proof.
  intros Ho s. set (s0 := ((others ++ _)%list, w)) in s.
  apply (pool_spends (fun w => uses_left code (db w)) admitted s0 s); [apply pool_run_star|].
  apply Forall_app. split.
  - eapply Forall_impl; [exact Ho|]. intros q Hq. by apply spends_bystander.
  - apply Forall_forall. intros q Hq. apply list_elem_of_fmap in Hq as (p & -> & _).
    apply registration_spends.
Qed.

(** An account comes into being only with matching passwords, valid
    fields and a user name nobody has; when registration is closed, only by
    consuming one use of the unexpired, unexhausted invitation whose code was
    given.  The new account is active, holds the password's argon2 hash, and
    is granted at most the plain user role. *)
Theorem create_account_correct input user consumed w w' :
  run (create_account username_regex email_regex input) w = (Ok (user, consumed), w') ->
  ri_password input = ri_confirm_password input /\
  validate_create_input username_regex email_regex {|
    cui_username := ri_username input; cui_name := ri_name input;
    cui_password := ri_password input; cui_email := ri_email input |} = Ok tt /\
  u_username user = ri_username input /\ u_active user = true /\
  exists a salt hash t,
    argon2_hash salt (ri_password input) = Ok hash /\
    au_scheme a = Password hash /\ au_owner_id a = u_id user /\
    registered (beq (setting KEY_OPEN_REGISTRATION (db w)) (Some "true")) (ri_invite_code input)
      user a consumed t (db w) (db w').
Proof.
  unfold create_account. intros H.
  apply run_bindM_ok in H as (u1 & w1 & H1 & H). apply run_guard_ok in H1 as [Hp <-]. bool_hyp.
  apply run_bindM_ok in H as (u2 & w2 & H2 & H). apply run_lift_ok in H2 as [Hv <-]. destruct u2.
  apply run_bindM_ok in H as (u3 & w3 & H3 & H). apply run_acquire_ok in H3 as [_ ->].
  apply run_bindM_ok in H as (open & w4 & H4 & H).
  unfold open_registration_enabled, get_setting in H4. run_inv H4. cbn [db bump] in *.
  set (open := beq _ _) in *.
  apply run_bindM_ok in H as (u5 & w5 & H5 & H).
  assert (Hd5 : db w5 = db w).
  { destruct open; [by run_inv H5|]. unfold precheck_invitation, Invitation_get, is_valid in H5.
    run_inv H5. done. }
  apply run_bind_eq in H as (usr & w6 & H6 & H). unfold User_new in H6. run_inv H6.
  apply run_bind_eq in H as (r & w7 & H7 & H). unfold new_password in H7.
  apply run_bind_eq in H7 as (salt & w8 & H8 & H7). apply run_random in H8 as [-> ->].
  apply run_bindM_ok in H as (a & w9 & H9 & H). apply run_lift_ok in H9 as [Ha <-].
  destruct (argon2_hash _ _) as [hash|e] eqn:Eh.
  2: { cbn [run] in H7. injection H7 as <- _. done. }
  run_inv H7. cbn [map_err] in Ha. injection Ha as <-.
  apply run_bindM_ok in H as (c & w10 & H10 & H). apply run_ret_ok in H as [Hc <-]. injection Hc as <- <-.
  apply run_transaction_ok in H10 as (_ & w11 & H11 & _ & ->).
  apply register_tx_ok in H11 as (t & Hreg). cbn [db bump] in *. rewrite Hd5 in Hreg.
  split; [done|]. split; [done|]. split; [done|]. split; [done|].
  eexists _, _, hash, t. split; [exact Eh|]. split; [|split; [|exact Hreg]]; done.
Qed.
End Facts.

(** ** Two registrations on an invitation for one *)
Module Demo.
#[local] Existing Instances plain_hashing plain_uuid plain_passwords.
#[local] Instance reg_env : Env := calm_env 1000.

Definition host : User := {|
  u_id := 1; u_username := "root"; u_name := "Root"; u_email := None; u_active := true;
  u_created_at := 0; u_updated_at := 0 |}.
Definition invite : Invitation := {|
  inv_id := "CODE"; inv_created_by := 1; inv_label := None; inv_max_uses := Some 3; inv_uses := 2;
  inv_expires_at := Some 5000; inv_created_at := 0 |}.
Definition reg_db : Db :=
  with_users (fun _ => [new_row host])
  (with_roles (fun _ => [{| ro_id := 2; ro_name := "user"; ro_description := None |}])
  (with_invitations (fun _ => [invite]) empty_db)).
Definition w0 : World := start reg_db.

Definition guest (id : Uuid) (name : string) : User * Authenticator :=
  ({| u_id := id; u_username := name; u_name := name; u_email := None; u_active := true;
      u_created_at := 0; u_updated_at := 0 |},
   {| au_id := id + 100; au_scheme := Password "$x"; au_owner_id := id |}).
Definition guests : list (User * Authenticator) := [guest 7 "ada"; guest 8 "bob"].
Definition final : list (prog (result AppError (option Invitation))) * World :=
  pool_run [0; 1; 0; 1]%nat
    (([] ++ map (fun p => transaction (register_tx false (Some "CODE") p.1 p.2)) guests)%list, w0).

Lemma invitation_uses_bounded_witness :
  (wins admitted final.1 + uses_left "CODE" (db final.2) <= 1)%nat.
Proof. exact (invitation_uses_bounded "CODE" guests [] [0; 1; 0; 1]%nat w0 (List.Forall_nil _)). Defined.

Example one_guest_admitted :
  wins admitted final.1 = 1%nat /\ map (fun u : UserRow => u_username u) (users (db final.2)) = ["root"; "ada"].
Proof. vm_compute. done. Qed.

Definition any_text (s : string) : bool := true.
Definition form : RegisterInput := {|
  ri_username := "carol"; ri_name := "Carol"; ri_email := None; ri_password := "correct horse";
  ri_confirm_password := "correct horse"; ri_invite_code := Some "CODE" |}.

Definition created : option (User * option Invitation) :=
  Eval vm_compute in ok (run (create_account any_text any_text form) w0).1.

Lemma create_account_correct_witness :
  exists user consumed, created = Some (user, consumed) /\ u_username user = "carol" /\
    option_map inv_uses consumed = Some 3.
Proof.
  destruct created as [[user consumed]|] eqn:Ec; [|discriminate Ec].
  assert (Hr : run (create_account any_text any_text form) w0
    = (Ok (user, consumed), (run (create_account any_text any_text form) w0).2)).
  { apply run_to. vm_compute in Ec. injection Ec as <- <-. vm_compute. reflexivity. }
  destruct (create_account_correct any_text any_text form user consumed w0 _ Hr)
    as (_ & _ & Hn & _). exists user, consumed. split; [reflexivity|]. split; [exact Hn|].
  vm_compute in Ec. injection Ec as <- <-. reflexivity.
Defined.
End Demo.
