(* ===== verification/Accounts.v ===== *)
(** * Account administration ([handlers/user.rs], [handlers/role.rs])

    The endpoints with which users manage their profile and password, and
    administrators the accounts and their roles. *)

From S2P Require Import Prelude RStr RateLimit Schema Sys External Users AuditLog Net Settings Token Http.
Local Open Scope Z_scope.
Local Open Scope string_scope.

Record UpdateUserInput := {
  uui_name : option string; uui_email : option (option string); uui_username : option string
}.
Record ChangePasswordInput := { cp_current_password : string; cp_new_password : string }.
Record MeResponse := {
  me_user_id : string; me_username : string; me_name : string; me_email : option string;
  me_roles : list string
}.

(** [update_user_changes] *)
Definition update_user_changes (input : UpdateUserInput) : Json :=
  JObj (match uui_name input with Some n => [("name", JStr n)] | None => [] end
        ++ match uui_email input with
           | Some (Some e) => [("email", JStr e)]
           | Some None => [("email", JNull)]
           | None => []
           end
        ++ match uui_username input with Some u => [("username", JStr u)] | None => [] end)%list.

(** [ensure_not_self_role_removal] *)
Definition ensure_not_self_role_removal (actor_id target_id : Uuid) : result AppError unit :=
  if beq actor_id target_id
  then Err (InputError ["You cannot remove roles from your own account. Ask another admin."])
  else Ok tt.

(** The number of assignments of a role named [admin]. *)
Definition admin_count (d : Db) : nat :=
  length (flat_map (fun ur => select (fun r => beq (ro_id r) (ur_role_id ur) && beq (ro_name r) ROLE_ADMIN)%bool
                                (roles d)) (user_roles d)).

Section Accounts.
Context {E : Env} {HA : Hashing} {ED : Ed25519} {JC : JwtCodec Claims} {UL : UuidLib}
        {PH : PasswordHashing} {JL : JsonLib} {HL : HttpLib}.
Variable username_regex email_regex : string -> bool.
Variable non_ascii_alphanumeric : string -> bool.
Variable st : AppState.
(** Of the request: the audit context and the headers. *)
Variable ctx : AuditContext.
Variable h : list (string * string).

Definition role_details (id : Uuid) (name : Json) : Json :=
  JObj [("role_id", JStr (uuid_to_string id)); ("role_name", name)].
Definition opt_json (o : option string) : Json := match o with Some s => JStr s | None => JNull end.

(** ** Roles *)

(** [list_roles] *)
Definition list_roles : M (list Role) := admin_user st h ;;; acquire ;;; Role_list.

(** [create_role] *)
Definition create_role (input : CreateRoleInput) : M Role :=
  admin <- admin_user st h ;;
  lift (Role_validate_input non_ascii_alphanumeric input) ;;;
  role <~ Role_new (cri_name input) (cri_description input) ;;
  acquire ;;;
  Role_save role ;;;
  audit_try (with_details (role_details (ro_id role) (JStr (ro_name role)))
    (in_ctx ctx (by_actor (Some (au_user_id admin)) (audit RoleCreated)))) ;;;
  ret role.

(** [delete_role] *)
Definition delete_role (id : Uuid) : M unit :=
  admin <- admin_user st h ;;
  acquire ;;;
  role <- Role_get id ;;
  deleted <- Role_delete id ;;
  guard (negb deleted) NotFound ;;;
  audit_try (with_details (role_details id (opt_json (option_map ro_name role)))
    (in_ctx ctx (by_actor (Some (au_user_id admin)) (audit RoleDeleted)))).

(** [get_user_roles] *)
Definition get_user_roles (user_id : Uuid) : M (list UserRole) :=
  admin_user st h ;;;
  acquire ;;;
  user <- User_get user_id ;;
  guard (is_none user) NotFound ;;;
  UserRole_get_for_user user_id.

(** [assign_role] *)
Definition assign_role (user_id role_id : Uuid) : M unit :=
  admin <- admin_user st h ;;
  acquire ;;;
  user <- User_get user_id ;;
  guard (is_none user) NotFound ;;;
  found <- Role_get role_id ;;
  role <- require found NotFound ;;
  UserRole_assign user_id role_id ;;;
  _ <~ revoke_user_access_tokens user_id ;;
  audit_try (with_details (role_details role_id (JStr (ro_name role)))
    (in_ctx ctx (by_actor (Some (au_user_id admin)) (by_user user_id (audit AdminRoleAssigned))))).

(** [remove_role], after the administrator is known. *)
Definition remove_role_as (admin user_id role_id : Uuid) : M unit :=
  lift (ensure_not_self_role_removal admin user_id) ;;;
  acquire ;;;
  role <- Role_get role_id ;;
  (if is_some_and role (fun r => beq (ro_name r) ROLE_ADMIN) then
     n <- query admin_count ;;
     guard (n <=? 1)%nat (InputError ["Cannot remove the last admin role"])
   else ret tt) ;;;
  removed <- UserRole_remove user_id role_id ;;
  guard (negb removed) NotFound ;;;
  _ <~ revoke_user_access_tokens user_id ;;
  audit_try (with_details (JObj [("role_id", JStr (uuid_to_string role_id))])
    (in_ctx ctx (by_actor (Some admin) (by_user user_id (audit AdminRoleRemoved))))).

Definition remove_role (user_id role_id : Uuid) : M unit :=
  admin <- admin_user st h ;;
  remove_role_as (au_user_id admin) user_id role_id.

(** ** Users *)

(** [create_user] *)
Definition create_user (input : CreateUserInput) : M User :=
  admin <- admin_user st h ;;
  lift (validate_create_input username_regex email_regex input) ;;;
  user <~ User_new (cui_username input) (cui_name input) (cui_email input) ;;
  r <~ new_password (cui_password input) (u_id user) ;;
  authenticator <- lift (map_err (fun e => InternalError ("Failed to create Authenticator (" ++ e ++ ")")) r) ;;
  transaction (
    User_save user ;;;
    Authenticator_save authenticator ;;;
    role <- Role_get_by_name ROLE_USER ;;
    match role with
    | Some user_role => UserRole_assign (u_id user) (ro_id user_role)
    | None => ret tt
    end) ;;;
  acquire ;;;
  audit_try (with_details (JObj [("username", JStr (u_username user))])
    (in_ctx ctx (by_actor (Some (au_user_id admin)) (by_user (u_id user) (audit AdminCreateUser))))) ;;;
  ret user.

(** [get_users], [get_user] *)
Definition get_users : M (list User) := admin_user st h ;;; acquire ;;; User_list.
Definition get_user (id : Uuid) : M User :=
  admin_user st h ;;;
  acquire ;;;
  user <- User_get id ;;
  require user NotFound.

(** The transaction of [update_user] and [update_me]. *)
Definition update_profile (id : Uuid) (input : UpdateUserInput) : M User :=
  transaction (
    found <- User_get id ;;
    user <- require found NotFound ;;
    User_update username_regex email_regex user (uui_name input) (uui_email input) (uui_username input)).

(** [update_user] *)
Definition update_user (id : Uuid) (input : UpdateUserInput) : M User :=
  admin <- admin_user st h ;;
  user <- update_profile id input ;;
  acquire ;;;
  audit_try (with_details (update_user_changes input)
    (in_ctx ctx (by_actor (Some (au_user_id admin)) (by_user id (audit AdminUpdateUser))))) ;;;
  ret user.

(** [get_me] *)
Definition get_me : M MeResponse :=
  auth <- auth_user st h ;;
  acquire ;;;
  found <- User_get (au_user_id auth) ;;
  user <- require found NotFound ;;
  ret {| me_user_id := uuid_to_string (au_user_id auth); me_username := u_username user;
         me_name := u_name user; me_email := u_email user; me_roles := au_roles auth |}.

(** [update_me] *)
Definition update_me (input : UpdateUserInput) : M User :=
  auth <- auth_user st h ;;
  user <- update_profile (au_user_id auth) input ;;
  acquire ;;;
  audit_try (with_details (update_user_changes input)
    (in_ctx ctx (by_user (au_user_id auth) (audit UserUpdated)))) ;;;
  ret user.

(** The transaction of [change_my_password]. *)
Definition change_password_tx (user_id : Uuid) (input : ChangePasswordInput) : M unit :=
  found <- User_get user_id ;;
  user <- require found NotFound ;;
  try_password_login user (cp_current_password input) ;;;
  update_password user_id (cp_new_password input) ;;;
  revoke_all_user_tokens user_id.

(** [change_my_password] *)
Definition change_my_password (input : ChangePasswordInput) : M unit :=
  auth <- auth_user st h ;;
  lift (map_err (fun e => InputError [e]) (validate_password (cp_new_password input))) ;;;
  transaction (change_password_tx (au_user_id auth) input) ;;;
  acquire ;;;
  audit_try (in_ctx ctx (by_user (au_user_id auth) (audit PasswordChanged))).

(** [admin_change_user_password] *)
Definition admin_change_user_password (id : Uuid) (new_password : string) : M unit :=
  admin <- admin_user st h ;;
  lift (map_err (fun e => InputError [e]) (validate_password new_password)) ;;;
  transaction (
    found <- User_get id ;;
    require found NotFound ;;;
    update_password id new_password ;;;
    revoke_all_user_tokens id) ;;;
  acquire ;;;
  audit_try (in_ctx ctx (by_actor (Some (au_user_id admin)) (by_user id (audit AdminPasswordReset)))).
End Accounts.
