(* ===== verification/AccountFacts.v ===== *)
(** * What account administration guarantees *)

From S2P Require Import Prelude RStr RateLimit Schema Sys External Users AuditLog Net Settings Token TokenFacts Sessions Totp Http LoginFlow LoginFacts Accounts.
Local Open Scope Z_scope.
Local Open Scope string_scope.

(** ** The last administrator *)

(** The primary key of [user_roles]. *)
Definition assignment (ur : UserRoleRow) : Uuid * Uuid := (ur_user_id ur, ur_role_id ur).

(** The administrator roles an assignment joins with. *)
Definition admin_roles (d : Db) (ur : UserRoleRow) : list Role :=
  select (fun r => beq (ro_id r) (ur_role_id ur) && beq (ro_name r) ROLE_ADMIN)%bool (roles d).

Lemma select_key_le {R K} `{EqDecision K} (key : R -> K) k p (t : list R) :
  NoDup (map key t) -> (length (select (fun r => beq (key r) k && p r)%bool t) <= 1)%nat.
Proof.
  intros Hnd. change (length _) with (count (fun r => beq (key r) k && p r)%bool t).
  assert (Hk : forall r, (beq (key r) k && p r)%bool = true -> key r = k).
  { intros r Hr. by bool_hyp. }
  rewrite (proj2 (fetch_key_unique key k _ t Hnd Hk)). destruct (is_some _); lia.
Qed.

Lemma flat_map_cons {A B} (f : A -> list B) x l : flat_map f (x :: l) = (f x ++ flat_map f l)%list.
Proof. done. Qed.

(** Removing one assignment lowers the number of administrators by at most
    the roles it joined with. *)
Lemma admin_count_delete d p :
  (forall ur, ur ∈ user_roles d -> p ur = true -> (length (admin_roles d ur) <= 1)%nat) ->
  (admin_count d
   <= admin_count (with_user_roles (delete p) d)
      + count (fun ur => p ur && negb (bool_decide (admin_roles d ur = [])))%bool (user_roles d))%nat.
Proof.
  unfold admin_count. cbn [user_roles with_user_roles roles].
  intros H. change (fun ur => select _ (roles d)) with (admin_roles d).
  induction (user_roles d) as [|ur l IH]; [simpl; lia|].
  rewrite delete_cons, count_cons, flat_map_cons, length_app.
  specialize (IH ltac:(intros x Hx; apply H; set_solver)).
  specialize (H ur ltac:(set_solver)). destruct (p ur); cbn [andb].
  - specialize (H eq_refl). destruct (bool_decide _) eqn:Eb; cbn [negb].
    + apply bool_decide_eq_true in Eb. rewrite Eb. simpl. lia.
    + lia.
  - rewrite flat_map_cons, length_app. lia.
Qed.

Section Facts.
Context {E : Env} {HA : Hashing} {ED : Ed25519} {JC : JwtCodec Claims} {UL : UuidLib}
        {PH : PasswordHashing} {JL : JsonLib} {HL : HttpLib}.

(** Steps that leave roles and their assignment alone. *)
Definition same_roles (d d' : Db) : Prop := user_roles d' = user_roles d /\ roles d' = roles d.
#[local] Instance same_roles_preorder : PreOrder same_roles.
Proof. split; [by intros d|]. intros d1 d2 d3 [H1 H2] [H3 H4]. split; congruence. Qed.

Lemma same_roles_count d d' : same_roles d d' -> admin_count d' = admin_count d.
Proof. intros [H1 H2]. unfold admin_count. by rewrite H1, H2. Qed.

Lemma audit_try_roles e : respects (on_db same_roles) (audit_try e).
Proof. unfold audit_try, audit_save. respects_walk. done. Qed.

Lemma revoke_access_roles uid : respects (on_db same_roles) (revoke_user_access_tokens uid).
Proof. unfold revoke_user_access_tokens. respects_walk; done. Qed.

(** After the removal nothing touches roles. *)
Lemma remove_tail_roles uid e :
  respects (on_db same_roles) (_ <~ revoke_user_access_tokens uid ;; audit_try e).
Proof. apply respects_bind; [apply revoke_access_roles|]. intros _. apply audit_try_roles. Qed.

Lemma run_guard_db b e w : db (run (guard b e) w).2 = db w.
Proof. by destruct b. Qed.

(** The removal itself, on a table without duplicate assignments. *)
Lemma remove_count uid rid w r w' :
  NoDup (map assignment (user_roles (db w))) -> NoDup (map ro_id (roles (db w))) ->
  run (UserRole_remove uid rid) w = (r, w') ->
  (forall ro, fetch (fun x => beq (ro_id x) rid) (roles (db w)) = Some ro ->
     ro_name ro = ROLE_ADMIN -> (1 < admin_count (db w))%nat) ->
  (0 < admin_count (db w))%nat -> (0 < admin_count (db w'))%nat.
Proof.
  intros Hnd Hids Hr Hlast Hpos. unfold UserRole_remove in Hr. rewrite run_bindM in Hr.
  unfold exec, stmt in Hr. cbn [run] in Hr. destruct (fault (tick w)).
  { injection Hr as _ <-. done. }
  cbn [run ret] in Hr. injection Hr as _ <-. cbn [db set_db bump].
  set (p := fun ur => (beq (ur_user_id ur) uid && beq (ur_role_id ur) rid)%bool).
  assert (Hone : forall ur, ur ∈ user_roles (db w) -> p ur = true -> (length (admin_roles (db w) ur) <= 1)%nat).
  { intros ur _ _. unfold admin_roles. by apply (select_key_le ro_id). }
  pose proof (admin_count_delete (db w) p Hone) as Hd.
  set (q := fun ur => (p ur && negb (bool_decide (admin_roles (db w) ur = [])))%bool) in *.
  assert (Hq : (count q (user_roles (db w)) <= 1)%nat).
  { assert (Hk : forall ur, q ur = true -> assignment ur = (uid, rid)).
    { intros [a b] Hx. unfold q, p in Hx. bool_hyp. simpl in *. by subst. }
    rewrite (proj2 (fetch_key_unique assignment (uid, rid) q _ Hnd Hk)). destruct (is_some _); lia. }
  destruct (decide (count q (user_roles (db w)) = 0%nat)) as [Hz|Hz]; [lia|].
  assert (Hpos' : (0 < count q (user_roles (db w)))%nat) by lia.
  apply count_pos in Hpos' as ([a b] & Hin & Hx). unfold q, p in Hx. bool_hyp.
  cbn [ur_user_id ur_role_id] in *. subst a b.
  match goal with H : bool_decide _ = false |- _ => apply bool_decide_eq_false in H as Hne end.
  unfold admin_roles in Hne. cbn [ur_role_id] in Hne.
  destruct (select _ (roles (db w))) as [|ro l] eqn:Es; [done|].
  assert (Hro : ro ∈ ro :: l) by set_solver. rewrite <- Es, elem_of_select in Hro.
  destruct Hro as [Hro Hp]. bool_hyp. subst rid.
  assert (1 < admin_count (db w))%nat; [|lia].
  apply (Hlast ro); [by apply fetch_key_elem|done].
Qed.

(** One removal of a role at a time never removes the last
    administrator, whatever the storage layer does: if some administrator is
    assigned before, some is after.  (Two removals that interleave can, see
    [EndpointDemo].) *)
Theorem remove_role_keeps_admin ctx admin uid rid w r w' :
  NoDup (map assignment (user_roles (db w))) -> NoDup (map ro_id (roles (db w))) ->
  run (remove_role_as ctx admin uid rid) w = (r, w') ->
  (0 < admin_count (db w))%nat -> (0 < admin_count (db w'))%nat.
Proof.
  intros Hnd Hids Hrun Hpos. unfold remove_role_as in Hrun. rewrite run_bindM in Hrun.
  unfold lift in Hrun. cbn [run] in Hrun.
  destruct (ensure_not_self_role_removal admin uid); [|by injection Hrun as _ <-].
  rewrite run_bindM in Hrun. pose proof (run_query_db (fun _ : Db => tt) w) as D1. fold acquire in D1.
  destruct (run acquire w) as [[u1|e] w1]; cbn [snd] in D1; [|injection Hrun as _ <-; by rewrite D1].
  rewrite run_bindM in Hrun.
  destruct (run (Role_get rid) w1) as [[role|e] w2] eqn:Er; cycle 1.
  { pose proof (run_query_db (fun d => fetch (fun r => beq (ro_id r) rid) (roles d)) w1) as D2.
    unfold Role_get in Er. rewrite Er in D2. injection Hrun as _ <-. cbn [snd] in D2. by rewrite D2, D1. }
  unfold Role_get in Er. apply run_query_ok in Er as (_ & -> & ->).
  rewrite run_bindM in Hrun.
  set (checked := if is_some_and _ _ then _ else _) in Hrun.
  assert (Hchk : db (run checked (bump w1)).2 = db w /\
    (forall u, (run checked (bump w1)).1 = Ok u -> forall ro,
       fetch (fun x => beq (ro_id x) rid) (roles (db w)) = Some ro -> ro_name ro = ROLE_ADMIN ->
       (1 < admin_count (db w))%nat)).
  { unfold checked. rewrite D1. destruct (fetch _ (roles (db w))) as [ro|] eqn:Ef; cbn [is_some_and].
    - destruct (beq (ro_name ro) ROLE_ADMIN) eqn:En; bool_hyp.
      + rewrite run_bindM. destruct (run (query admin_count) (bump w1)) as [[n|e] w3] eqn:Eq.
        * apply run_query_ok in Eq as (_ & -> & ->). rewrite run_guard_db. cbn [db bump]. rewrite D1.
          split; [done|]. intros u Hu ro' [= <-] _. unfold guard in Hu.
          destruct (_ <=? 1)%nat eqn:El; [done|]. by bool_hyp.
        * pose proof (run_query_db admin_count (bump w1)) as D3. rewrite Eq in D3. cbn [snd db bump] in *.
          split; [by rewrite D3, D1|done].
      + split; [done|]. intros u _ ro' [= <-]. done.
    - split; [done|]. intros u _ ro' [=]. }
  destruct (run checked (bump w1)) as [[u3|e] w3]; cbn [fst snd] in Hchk; destruct Hchk as [D3 Hlast];
    [|injection Hrun as _ <-; by rewrite D3].
  specialize (Hlast u3 eq_refl). rewrite run_bindM in Hrun.
  destruct (run (UserRole_remove uid rid) w3) as [rr w4] eqn:Em.
  assert (H4 : (0 < admin_count (db w4))%nat).
  { rewrite <- D3 in Hnd, Hids, Hlast, Hpos. by apply (remove_count _ _ _ _ _ Hnd Hids Em). }
  destruct rr as [removed|e]; [|by injection Hrun as _ <-]. rewrite run_bindM in Hrun.
  pose proof (run_guard_db (negb removed) NotFound w4) as D5.
  destruct (run (guard _ _) w4) as [[u5|e] w5]; cbn [snd] in D5; [|injection Hrun as _ <-; by rewrite D5].
  match type of Hrun with run ?p _ = _ =>
    pose proof (respects_run (on_db same_roles) p w5 (remove_tail_roles uid _)) as Hs end.
  rewrite Hrun in Hs. cbn [snd] in Hs. rewrite (same_roles_count _ _ Hs). by rewrite D5.
Qed.

(** ** Changing a password *)

Lemma auth_user_db st h a w w' : run (auth_user st h) w = (Ok a, w') -> db w' = db w.
Proof.
  unfold auth_user. intros H. apply run_bindM_ok in H as (t & w1 & H1 & H).
  apply run_require_ok in H1 as [_ <-]. apply run_bindM_ok in H as (u & w2 & H2 & H).
  apply run_acquire_ok in H2 as [_ ->]. apply run_bindM_ok in H as (c & w3 & H3 & H).
  apply verify_access_token_ok in H3 as [Hd _]. run_inv H. by rewrite Hd.
Qed.

Lemma update_password_ok uid pw u w w' :
  run (update_password uid pw) w = (Ok u, w') ->
  users (db w') = users (db w) /\
  exists salt hash, argon2_hash salt pw = Ok hash /\
    forall a, a ∈ authenticators (db w') -> au_owner_id a = uid -> is_password a = true ->
      au_scheme a = Password hash.
Proof.
  unfold update_password. intros H. apply run_bind_eq in H as (r & w1 & H1 & H).
  unfold new_password in H1. apply run_bind_eq in H1 as (salt & w2 & H2 & H1).
  apply run_random in H2 as [-> ->].
  destruct (argon2_hash _ _) as [hash|e] eqn:Eh; [|by cbn [run] in H1; injection H1 as <- <-].
  run_inv H1. apply run_bindM_ok in H as (a & w3 & H3 & H). apply run_lift_ok in H3 as [Ha <-].
  cbn [map_err] in Ha. injection Ha as <-. cbn [au_scheme] in H. run_inv H.
  split; [done|]. eexists _, hash. split; [exact Eh|]. intros a Ha Ho Hp.
  cbn [snd db set_db authenticators with_authenticators] in Ha. apply elem_of_update in Ha as (a0 & _ & ->).
  destruct (beq (au_owner_id a0) uid && is_password a0) eqn:Ec; [done|].
  rewrite Ho, beq_refl in Ec. by rewrite Hp in Ec.
Qed.

(** Steps that leave the authenticators alone. *)
Definition same_authenticators (d d' : Db) : Prop := authenticators d' = authenticators d.
#[local] Instance same_authenticators_preorder : PreOrder same_authenticators.
Proof. split; [by intros d|]. unfold same_authenticators. intros d1 d2 d3. congruence. Qed.

Lemma audit_try_authenticators e : respects (on_db same_authenticators) (audit_try e).
Proof. unfold audit_try, audit_save. respects_walk. done. Qed.

Lemma revoke_all_authenticators uid : respects (on_db same_authenticators) (revoke_all_user_tokens uid).
Proof. unfold revoke_all_user_tokens, revoke_user_access_tokens. respects_walk; done. Qed.

(** C36: changing one's password takes the current password of the active
    account the request is authenticated as; afterwards every stored password
    of the account is the argon2 hash of the new one, which has an admissible
    length, and no session, token or other credential issued before is valid
    any more. *)
Theorem password_change_correct st ctx h input w w' :
  run (change_my_password st ctx h input) w = (Ok tt, w') -> versions_nonneg (db w) ->
  exists auth w1 user salt hash,
    run (auth_user st h) w = (Ok auth, w1) /\
    between MIN_PASSWORD_LEN (String.length (cp_new_password input)) MAX_PASSWORD_LEN = true /\
    u_id user = au_user_id auth /\ u_active user = true /\
    (exists a, a ∈ authenticators (db w) /\ au_owner_id a = au_user_id auth /\
       verify_password a (cp_current_password input) = true) /\
    argon2_hash salt (cp_new_password input) = Ok hash /\
    (forall a, a ∈ authenticators (db w') -> au_owner_id a = au_user_id auth -> is_password a = true ->
       au_scheme a = Password hash) /\
    (forall t v, issued_by (au_user_id auth) (db w) v ->
       session_valid (au_user_id auth) t v (db w') = false).
Proof.
  intros Hrun Hnn. unfold change_my_password in Hrun.
  apply run_bindM_ok in Hrun as (auth & w1 & Hauth & Hrun). pose proof (auth_user_db _ _ _ _ _ Hauth) as D1.
  apply run_bindM_ok in Hrun as (u2 & w2 & H2 & Hrun). apply run_lift_ok in H2 as [Hlen <-].
  apply map_err_Ok in Hlen. unfold validate_password in Hlen.
  destruct (between _ _ _) eqn:Eb; [|done]. clear Hlen.
  apply run_bindM_ok in Hrun as (u3 & w3 & H3 & Hrun).
  apply run_transaction_ok in H3 as (_ & w4 & H4 & _ & ->).
  apply run_bindM_ok in Hrun as (u5 & w5 & H5 & Hrun). apply run_acquire_ok in H5 as [_ ->].
  unfold change_password_tx in H4. apply run_bindM_ok in H4 as (found & w6 & H6 & H4).
  apply run_User_get_ok in H6 as (_ & Hfound & ->).
  apply run_bindM_ok in H4 as (user & w7 & H7 & H4). apply run_require_ok in H7 as [-> <-].
  apply run_bindM_ok in H4 as (u8 & w8 & H8 & H4). apply try_password_login_ok in H8 as (Hact & D8 & Hpw).
  apply run_bindM_ok in H4 as (u9 & w9 & H9 & H4). apply update_password_ok in H9 as (Hus9 & salt & hash & Hh & Hall).
  pose proof (respects_run (on_db same_authenticators) _ w9 (revoke_all_authenticators (au_user_id auth))) as Hsame.
  rewrite H4 in Hsame. cbn [snd] in Hsame. apply revoke_all_user_tokens_ok in H4.
  cbn [db bump] in *. rewrite D8 in Hus9. rewrite D1 in *.
  destruct (fetch _ (users (db w))) as [row|] eqn:Ef; [|done]. cbn [option_map] in Hfound.
  injection Hfound as ->. apply fetch_Some in Ef as [_ Hid]. bool_hyp.
  pose proof (audit_try_users (in_ctx ctx (by_user (au_user_id auth) (audit PasswordChanged))) (bump (bump w4))) as Hus.
  pose proof (respects_run (on_db same_authenticators) _ (bump (bump w4))
    (audit_try_authenticators (in_ctx ctx (by_user (au_user_id auth) (audit PasswordChanged))))) as Hau.
  rewrite Hrun in Hus, Hau. cbn [snd] in Hus, Hau.
  exists auth, w1, row, salt, hash. split; [done|]. split; [done|]. split; [done|]. split; [done|].
  split; [by rewrite <- Hid|]. split; [done|]. split.
  - intros a Ha. rewrite Hau in Ha. cbn [db bump] in Ha. rewrite Hsame in Ha. by apply Hall.
  - intros t v Hi. eapply (stale_session_invalid _ (db w)); [done| |done].
    apply versions_grow_same. rewrite Hus. cbn [db bump users with_users]. by rewrite H4, Hus9.
Qed.
End Facts.
