(* ===== verification/BrowserSecurity.v ===== *)
(** * The browser request filter ([browser_security.rs])

    The layer every request passes: a state-changing request that a browser
    sends on behalf of another origin never reaches its handler, and every
    answer but that refusal carries the protective headers. *)

From S2P Require Import Prelude RStr RateLimit Schema Sys External Users Net Settings Token Http.
Local Open Scope Z_scope.
Local Open Scope string_scope.

(** ** [http]: methods, and the part of a request the layer reads *)
Inductive Method : Type := GET | HEAD | OPTIONS | POST | PUT | PATCH | DELETE | OtherMethod (name : string).
#[export] Instance Method_eq_dec : EqDecision Method.
Proof. solve_decision. Defined.

Record Request := { rq_method : Method; rq_path : string; rq_headers : list (string * string) }.

(** [BrowserSecurity] *)
Record BrowserSecurity := { allowed_origins : list string }.

Section Filter.
Context {HL : HttpLib}.
Variable config : BrowserSecurity.

Definition is_safe (request : Request) : bool :=
  match rq_method request with GET | HEAD | OPTIONS => true | _ => false end.
Definition oidc_logout (request : Request) : bool :=
  (beq (rq_method request) POST && beq (rq_path request) "/oauth/end_session")%bool.

(** [headers.get(name)] *)
Definition header_get (h : list (string * string)) (name : string) : option string := head (get_all h name).

(** The test on [Origin] and, in its absence, on fetch metadata. *)
Definition origin_allowed (headers : list (string * string)) : bool :=
  match header_get headers "origin" with
  | Some origin =>
      is_some_and (to_str origin) (fun origin =>
        negb (beq origin "null") && existsb (fun allowed => beq allowed origin) (allowed_origins config))%bool
  | None =>
      is_none_or (header_get headers "sec-fetch-site") (fun v => beq v "same-origin" || beq v "none")%bool
  end.

Definition sensitive (request : Request) : bool :=
  (starts_with "/api/" (rq_path request) || starts_with "/oauth/" (rq_path request)
   || starts_with "/.authere/" (rq_path request))%bool.

(** The headers put on every answer. *)
Definition harden (request : Request) (h : list (string * string)) : list (string * string) :=
  let h := h_insert "referrer-policy" "no-referrer"
             (h_insert "x-frame-options" "DENY" (h_insert "x-content-type-options" "nosniff" h)) in
  if sensitive request then h_insert "pragma" "no-cache" (h_insert "cache-control" "no-store" h) else h.

(** [protect_browser_requests], around the handler [next]; there is no answer
    when the handler has panicked. *)
Definition protect_browser_requests (next : Request -> prog (option Response)) (request : Request)
    : prog (option Response) :=
  if negb (is_safe request) && negb (oidc_logout request) && negb (origin_allowed (rq_headers request))
  then Ret (Some (response 403 [] (Text "Untrusted request origin")))
  else
    response <~ next request ;;
    Ret (option_map (map_headers (harden request)) response).

(** A request that a browser sends for another origin: it names its origin, or
    tells that it is not the origin itself. *)
Definition cross_origin (request : Request) : Prop :=
  (exists o, header_get (rq_headers request) "origin" = Some o /\ o ∉ allowed_origins config) \/
  (header_get (rq_headers request) "origin" = None /\
   exists site, header_get (rq_headers request) "sec-fetch-site" = Some site /\
     (site = "cross-site" \/ site = "same-site")).

Lemma cross_origin_refused request : cross_origin request -> origin_allowed (rq_headers request) = false.
Proof.
  unfold origin_allowed. intros [(o & -> & Ho)|(-> & site & -> & Hs)].
  - unfold to_str. destruct (header_visible o); [|done]. cbn [is_some_and].
    apply andb_false_iff. right. destruct (existsb _ _) eqn:Ex; [|done].
    apply existsb_exists in Ex as (a & Ha & Hb). bool_hyp. subst. by apply list_elem_of_In in Ha.
  - by destruct Hs as [-> | ->].
Qed.

Lemma h_insert_in n v h : In (n, v) (h_insert n v h).
Proof. apply in_or_app. right. by left. Qed.

Lemma h_insert_other n n' v v' (h : list (string * string)) :
  n' <> n -> In (n', v') h -> In (n', v') (h_insert n v h).
Proof.
  intros Hn Hin. apply in_or_app. left. apply List.filter_In. split; [done|].
  by apply negb_true_iff, beq_neq.
Qed.

(** A request that can change state, and a relying party's logout. *)
Definition state_changing (request : Request) : Prop :=
  rq_method request <> GET /\ rq_method request <> HEAD /\ rq_method request <> OPTIONS.
Definition logout_request (request : Request) : Prop :=
  rq_method request = POST /\ rq_path request = "/oauth/end_session".
Lemma is_safe_spec request : is_safe request = false <-> state_changing request.
Proof. unfold is_safe, state_changing. destruct (rq_method request); naive_solver. Qed.
Lemma oidc_logout_spec request : oidc_logout request = false <-> ~ logout_request request.
Proof.
  unfold oidc_logout, logout_request. rewrite <- not_true_iff_false, andb_true_iff, !beq_eq. done.
Qed.

(** The answer to a request the layer refuses. *)
Definition untrusted : Response := response 403 [] (Text "Untrusted request origin").
(** An answer no browser may sniff, frame or, under the paths of the API, the
    provider and forward authentication, store. *)
Definition hardened (request : Request) (r : Response) : Prop :=
  In ("x-content-type-options", "nosniff") (rs_headers r) /\
  In ("x-frame-options", "DENY") (rs_headers r) /\
  In ("referrer-policy", "no-referrer") (rs_headers r) /\
  forall prefix, prefix = "/api/" \/ prefix = "/oauth/" \/ prefix = "/.authere/" ->
    starts_with prefix (rq_path request) = true -> In ("cache-control", "no-store") (rs_headers r).

Lemma harden_hardened request r : hardened request (map_headers (harden request) r).
Proof.
  unfold hardened. cbn [map_headers rs_headers]. unfold harden. destruct (sensitive request) eqn:Es.
  - repeat split; intros; repeat first [apply h_insert_in | apply h_insert_other; [done|]].
  - repeat split; intros; repeat first [apply h_insert_in | apply h_insert_other; [done|]].
    exfalso. unfold sensitive in Es. rewrite !orb_false_iff in Es. destruct Es as [[H1 H2] H3].
    destruct H as [-> |[-> | ->]]; congruence.
Qed.

(** A request that changes state and that a browser sends for another
    origin, the relying-party logout apart, is refused without a step of its
    handler: no state changes, whatever the handler would do.  Every answer
    but such a refusal is hardened, a handler's own 403 included. *)
Lemma browser_filter_correct next request w r w' :
  run (protect_browser_requests next request) w = (r, w') ->
  (state_changing request -> ~ logout_request request -> cross_origin request ->
   r = Some untrusted /\ w' = w) /\
  forall answer, r = Some answer ->
    hardened request answer \/
    (answer = untrusted /\ w' = w /\ state_changing request /\ ~ logout_request request /\
     origin_allowed (rq_headers request) = false).
Proof.
  unfold protect_browser_requests. intros Hr. split.
  - intros Hs%is_safe_spec Hl%oidc_logout_spec Hc. rewrite Hs, Hl, (cross_origin_refused _ Hc) in Hr. by injection Hr as <- <-.
  - intros answer ->. destruct (_ && _)%bool eqn:Hb.
    + right. injection Hr as <- <-. rewrite <- is_safe_spec, <- oidc_logout_spec.
      rewrite !andb_true_iff, !negb_true_iff in Hb. tauto.
    + left. apply run_bind_eq in Hr as ([r0|] & w1 & _ & Hr); [|done].
      cbn [run option_map] in Hr. injection Hr as <- _. apply harden_hardened.
Qed.
End Filter.

Module Demo.
#[local] Instance demo_http : HttpLib := {| header_valid := fun _ => true; header_visible := fun _ => true |}.
Definition config : BrowserSecurity := {| allowed_origins := ["https://auth.example.com"] |}.
Definition forged : Request := {|
  rq_method := POST; rq_path := "/api/user"; rq_headers := [("origin", "https://weak.example.com")] |}.
Definition handler (r : Request) : prog (option Response) := Ret (Some (response 204 [] Empty)).

Lemma browser_filter_correct_witness :
  run (protect_browser_requests config handler forged) (start empty_db) = (Some untrusted, start empty_db).
Proof.
  destruct (run (protect_browser_requests config handler forged) (start empty_db)) as [r w'] eqn:Hr.
  destruct (proj1 (browser_filter_correct config handler forged (start empty_db) r w' Hr)) as [-> ->];
    [by apply is_safe_spec|by apply oidc_logout_spec| |reflexivity].
  left. eexists. split; [reflexivity|]. intros H. apply list_elem_of_singleton in H. discriminate H.
Defined.

Example own_origin_passes :
  option_map rs_status (run (protect_browser_requests config handler
    {| rq_method := POST; rq_path := "/api/user"; rq_headers := [("origin", "https://auth.example.com")] |})
    (start empty_db)).1 = Some 204.
Proof. reflexivity. Qed.
End Demo.
