(* ===== verification/Frame.v ===== *)
(** * Frames, and handlers that answer early

    Which parts of the database the session operations leave alone; how a
    program pays for a single-use resource through its composition; and the
    weakest preconditions of handlers that may answer before their end. *)

From S2P Require Import Prelude RStr RateLimit Schema Sys External Users AuditLog Net Settings Token TokenFacts Application Http LoginFlow.
Local Open Scope Z_scope.
Local Open Scope string_scope.

Lemma ok_Some {E A} (r : result E A) a : ok r = Some a -> r = Ok a.
Proof. destruct r; naive_solver. Qed.

(** ** Operations that only read *)
Definition unchanged (d d' : Db) : Prop := d' = d.
#[export] Instance unchanged_preorder : PreOrder unchanged.
Proof. split; unfold unchanged; [by intros d|intros d1 d2 d3; congruence]. Qed.
Lemma unchanged_run {A} (p : prog A) w r w' :
  respects (on_db unchanged) p -> run p w = (r, w') -> db w' = db w.
Proof. intros H Hr. pose proof (respects_run _ _ w H) as Hd. by rewrite Hr in Hd. Qed.

Lemma respects_mono {A} (R R' : World -> World -> Prop) (p : prog A) :
  (forall w w', R w w' -> R' w w') -> respects R p -> respects R' p.
Proof.
  intros HR. induction p as [a|B f k IH]; [done|]. intros H w Hw. destruct (H w Hw) as (H1 & H2 & H3). auto.
Qed.

(** ** What the session operations do not touch
    [same f]: the part [f] of the database is as it was; [SessionBlind f]:
    users, tokens, revocations and the audit log are no part of [f]. *)
Definition same {A} (f : Db -> A) (d d' : Db) : Prop := f d' = f d.
#[export] Instance same_preorder {A} (f : Db -> A) : PreOrder (same f).
Proof. split; unfold same; [by intros d|intros d1 d2 d3; congruence]. Qed.

Class SessionBlind {A} (f : Db -> A) : Prop := {
  blind_users g d : f (with_users g d) = f d;
  blind_tokens g d : f (with_refresh_tokens g d) = f d;
  blind_revocations g d : f (with_access_revocations g d) = f d;
  blind_audit g d : f (with_audit_log g d) = f d
}.

Lemma same_run {A B} (f : Db -> A) (p : prog B) w r w' :
  respects (on_db (same f)) p -> run p w = (r, w') -> f (db w') = f (db w).
Proof. intros H Hr. pose proof (respects_run _ _ w H) as Hd. by rewrite Hr in Hd. Qed.

Section Same.
Context {E : Env} {HA : Hashing} {ED : Ed25519} {JC : JwtCodec Claims} {UL : UuidLib} {AE : Aead}
        {SJ : SerdeJson TokenPair} {HL : HttpLib} {JL : JsonLib}.
Context {A : Type} (f : Db -> A) {SB : SessionBlind f}.

Ltac untouched :=
  unfold User_get, User_get_roles, audit_save; respects_walk;
  try (unfold same; first [apply blind_users | apply blind_tokens | apply blind_revocations | apply blind_audit]);
  auto with respects.

Lemma same_verify_user_session uid t v : respects (on_db (same f)) (verify_user_session uid t v).
Proof. unfold verify_user_session, user_session_version. untouched. Qed.
Hint Resolve same_verify_user_session : respects.
Lemma same_verify_access_token token key : respects (on_db (same f)) (verify_access_token token key).
Proof. unfold verify_access_token, decode_claims, deadline_passed. untouched. Qed.
Hint Resolve same_verify_access_token : respects.
Lemma same_revoke_all_user_tokens uid : respects (on_db (same f)) (revoke_all_user_tokens uid).
Proof. unfold revoke_all_user_tokens, revoke_user_access_tokens. untouched. Qed.
Hint Resolve same_revoke_all_user_tokens : respects.
Lemma same_generate_token_pair uid roles key :
  respects (on_db (same f)) (generate_token_pair uid roles key).
Proof.
  unfold generate_token_pair, session_expiry_seconds, get_setting, user_session_version,
    generate_token_pair_for_session, generate_access_token_for_session,
    generate_refresh_token_for_session. untouched.
Qed.
Hint Resolve same_generate_token_pair : respects.
Lemma same_rotate_token_pair token key : respects (on_db (same f)) (rotate_token_pair token key).
Proof.
  unfold rotate_token_pair, consume_refresh_token, revoke_user_access_tokens, decode_claims,
    generate_token_pair_for_session, generate_access_token_for_session,
    generate_refresh_token_for_session. untouched.
Qed.
Hint Resolve same_rotate_token_pair : respects.
Lemma same_follow_retry fuel t key p : respects (on_db (same f)) (follow_retry fuel t key p).
Proof. revert p. induction fuel as [|fuel IH]; intros p; cbn [follow_retry]; untouched. Qed.
Hint Resolve same_follow_retry : respects.
Lemma same_rotate_browser_token_pair token key :
  respects (on_db (same f)) (rotate_browser_token_pair token key).
Proof. apply respects_atomic_tx; [apply _|]. unfold encrypt_browser_retry. untouched. Qed.
Lemma same_audit_save e : respects (on_db (same f)) (audit_save e).
Proof. untouched. Qed.
End Same.
#[export] Hint Resolve same_verify_user_session same_verify_access_token same_revoke_all_user_tokens
  same_generate_token_pair same_rotate_token_pair same_rotate_browser_token_pair same_audit_save : respects.

(** ** Reads *)
Section Reads.
Context {E : Env} {HA : Hashing} {ED : Ed25519} {JC : JwtCodec Claims} {UL : UuidLib} {JL : JsonLib}.

Lemma verify_user_session_db uid t v w r w' :
  run (verify_user_session uid t v) w = (r, w') -> db w' = db w.
Proof. apply unchanged_run. unfold verify_user_session, user_session_version. respects_walk. Qed.

Lemma verify_access_token_db token key w r w' :
  run (verify_access_token token key) w = (r, w') -> db w' = db w.
Proof.
  apply unchanged_run. unfold verify_access_token, decode_claims, deadline_passed, verify_user_session,
    user_session_version, User_get, User_get_roles. respects_walk.
Qed.

Lemma auth_user_reads {HL : HttpLib} st h w r w' : run (auth_user st h) w = (r, w') -> db w' = db w.
Proof.
  apply unchanged_run. unfold auth_user, verify_access_token, decode_claims, deadline_passed,
    verify_user_session, user_session_version, User_get, User_get_roles. respects_walk.
Qed.

Lemma admin_user_reads {HL : HttpLib} st h w r w' : run (admin_user st h) w = (r, w') -> db w' = db w.
Proof.
  unfold admin_user. rewrite run_bindM. pose proof (auth_user_reads st h w) as Hu.
  destruct (run (auth_user st h) w) as [[u|e] w1]; specialize (Hu _ _ eq_refl); [|by intros [= _ <-]].
  intros H. unfold guard in H. destruct (negb _); cbn in H; by injection H as _ <-.
Qed.

Lemma check_access_db app roles w r w' : run (check_access_resolved app roles) w = (r, w') -> db w' = db w.
Proof.
  apply unchanged_run.
  assert (Hr : forall l, respects (on_db unchanged) (resolve_roles l)).
  { induction l as [|e l IH]; cbn [resolve_roles]; [done|]. unfold Role_get. respects_walk. }
  unfold check_access_resolved. respects_walk.
Qed.

Lemma run_stmt_err {A} (f : Db -> result AppError (A * Db)) e w w' :
  run (stmt f) w = (Err e, w') -> db w' = db w.
Proof.
  cbn [run stmt]. destruct (fault (tick w)); [by intros [= _ <-]|].
  destruct (f (db w)) as [[a d]|e']; [done|by intros [= _ <-]].
Qed.

Lemma audit_save_only e w r w' :
  run (audit_save e) w = (r, w') -> exists f, db w' = with_audit_log f (db w).
Proof. intros Hr. pose proof (audit_save_db e w) as [f Hf]. rewrite Hr in Hf. by exists f. Qed.

Lemma audit_save_users e w r w' : run (audit_save e) w = (r, w') -> users (db w') = users (db w).
Proof. intros Hr. by apply audit_save_only in Hr as [f ->]. Qed.
End Reads.

(** ** Paying through composition *)
Section Spending.
Context {A B C : Type} (phi : Db -> nat).

Lemma spends_bindM_assoc (win : result AppError C -> bool) n (p : M A) (g : A -> M B) (k : B -> M C) :
  spends (fun w => phi (db w)) win n (bindM p (fun a => bindM (g a) k)) ->
  spends (fun w => phi (db w)) win n (bindM (bindM p g) k).
Proof.
  revert n. induction p as [[a|e]|D f k' IH]; intros n; [done|done|]. simpl. intros H w.
  destruct (H w) as (m & Hm & Hs). exists m. split; [done|]. by apply IH.
Qed.

Lemma spends_bind_assoc (win : result AppError C -> bool) n (p : prog A) (g : A -> M B) (k : B -> M C) :
  spends (fun w => phi (db w)) win n (bind p (fun a => bindM (g a) k)) ->
  spends (fun w => phi (db w)) win n (bindM (bind p g) k).
Proof.
  revert n. induction p as [a|D f k' IH]; intros n; [done|]. simpl. intros H w.
  destruct (H w) as (m & Hm & Hs). exists m. split; [done|]. by apply IH.
Qed.

Lemma spends_convert {X Y} (f : X -> Y) (win : result Y A -> bool) n (p : prog (result X A)) :
  spends (fun w => phi (db w)) (fun r => win (map_err f r)) n p ->
  spends (fun w => phi (db w)) win n (convert f p).
Proof.
  revert n. induction p as [r|D g k IH]; intros n; [done|]. simpl. intros H w.
  destruct (H w) as (m & Hm & Hs). exists m. split; [done|]. by apply IH.
Qed.

(** Whoever has paid may win. *)
Lemma spends_paid (win : A -> bool) n (p : prog A) :
  (1 <= n)%nat -> respects (on_db (fewer phi)) p -> spends (fun w => phi (db w)) win n p.
Proof.
  revert n. induction p as [a|D f k IH]; intros n Hn; simpl; [intros _; destruct (win a); lia|].
  intros Hr w. exists 0%nat. destruct (Hr w ltac:(lia)) as (H1 & _ & H2). unfold on_db, fewer in H1.
  split; [lia|]. apply IH; [lia|done].
Qed.
End Spending.

(** ** Weakest preconditions of programs with early answers *)
Definition wp {X A} (p : prog (result X A)) (w : World) (Q : A -> World -> Prop)
    (R : X -> World -> Prop) : Prop :=
  match run p w with (Ok a, w') => Q a w' | (Err r, w') => R r w' end.

Section Wp.
Context {E : Env}.

Lemma wp_run {X A} (p : prog (result X A)) w Q R res w' :
  wp p w Q R -> run p w = (res, w') -> match res with Ok a => Q a w' | Err r => R r w' end.
Proof. unfold wp. intros H Hr. rewrite Hr in H. by destruct res. Qed.

Lemma wp_intro {X A} (P : result X A -> World -> Prop) (p : prog (result X A)) w res w' :
  wp p w (fun a => P (Ok a)) (fun r => P (Err r)) -> run p w = (res, w') -> P res w'.
Proof. unfold wp. intros H Hr. rewrite Hr in H. by destruct res. Qed.

Lemma wp_bindE {X A B} (p : prog (result X A)) (k : A -> prog (result X B)) w Q R :
  wp p w (fun a w1 => wp (k a) w1 Q R) R -> wp (bindE p k) w Q R.
Proof. unfold wp. rewrite run_bindE. by destruct (run p w) as [[a|r] w1]. Qed.

Lemma wp_bind {X A B} (p : prog B) (k : B -> prog (result X A)) w Q R :
  (forall b w1, run p w = (b, w1) -> wp (k b) w1 Q R) -> wp (bind p k) w Q R.
Proof. unfold wp. rewrite run_bind. intros H. apply H, surjective_pairing. Qed.

Lemma wp_convert {X Y A} (f : X -> Y) (p : prog (result X A)) w (Q : A -> World -> Prop) R :
  (forall a w1, run p w = (Ok a, w1) -> Q a w1) ->
  (forall e w1, run p w = (Err e, w1) -> R (f e) w1) -> wp (convert f p) w Q R.
Proof. unfold wp. rewrite run_convert. destruct (run p w) as [[a|e] w1]; simpl; auto. Qed.

Lemma wp_query {X A} (f : Db -> A) (g : AppError -> X) w (Q : A -> World -> Prop) R :
  Q (f (db w)) (bump w) -> (forall e w1, db w1 = db w -> R (g e) w1) -> wp (convert g (query f)) w Q R.
Proof.
  intros HQ HR. apply wp_convert; intros ? ? Hr.
  - by apply run_query_ok in Hr as (_ & -> & ->).
  - apply HR. pose proof (run_query_db f w) as Hdb. by rewrite Hr in Hdb.
Qed.

Lemma wp_Ok {X A} (a : A) w (Q : A -> World -> Prop) (R : X -> World -> Prop) :
  Q a w -> wp (Ret (Ok a)) w Q R.
Proof. done. Qed.
Lemma wp_Err {X A} (r : X) w (Q : A -> World -> Prop) (R : X -> World -> Prop) :
  R r w -> wp (Ret (Err r)) w Q R.
Proof. done. Qed.

Lemma wp_mono {X A} (p : prog (result X A)) w (Q Q' : A -> World -> Prop) (R R' : X -> World -> Prop) :
  wp p w Q R -> (forall a w1, Q a w1 -> Q' a w1) -> (forall r w1, R r w1 -> R' r w1) -> wp p w Q' R'.
Proof. unfold wp. destruct (run p w) as [[a|r] w1]; auto. Qed.

(** The steps of a [Result] program. *)
Lemma wp_bindM {A B} (p : M A) (k : A -> M B) w Q R :
  wp p w (fun a w1 => wp (k a) w1 Q R) R -> wp (bindM p k) w Q R.
Proof. apply wp_bindE. Qed.
Lemma wp_require {A} (o : option A) (e : AppError) w (Q : A -> World -> Prop) (R : AppError -> World -> Prop) :
  (forall a, o = Some a -> Q a w) -> (o = None -> R e w) -> wp (require o e) w Q R.
Proof. unfold wp. destruct o; simpl; auto. Qed.
Lemma wp_lift {A} (r : result AppError A) w (Q : A -> World -> Prop) (R : AppError -> World -> Prop) :
  (forall a, r = Ok a -> Q a w) -> (forall e, r = Err e -> R e w) -> wp (lift r) w Q R.
Proof. unfold wp. destruct r; simpl; auto. Qed.
Lemma wp_guard b e w (Q : unit -> World -> Prop) (R : AppError -> World -> Prop) :
  (b = false -> Q tt w) -> (b = true -> R e w) -> wp (guard b e) w Q R.
Proof. unfold wp. destruct b; simpl; auto. Qed.
Lemma wp_reads {A} (f : Db -> A) w (Q : A -> World -> Prop) (R : AppError -> World -> Prop) :
  Q (f (db w)) (bump w) -> (forall w1, db w1 = db w -> R DbError w1) -> wp (query f) w Q R.
Proof. unfold wp. intros HQ HR. simpl. destruct (fault (tick w)); [by apply HR|]. by destruct w. Qed.
Lemma wp_exec {A} (f : Db -> A * Db) w (Q : A -> World -> Prop) (R : AppError -> World -> Prop) :
  Q (f (db w)).1 (set_db (f (db w)).2 (bump w)) -> (forall w1, db w1 = db w -> R DbError w1) ->
  wp (exec f) w Q R.
Proof. unfold wp. intros HQ HR. simpl. destruct (fault (tick w)); [by apply HR|]. by destruct (f (db w)). Qed.
Lemma wp_now {X A} (k : Z -> prog (result X A)) w Q R :
  wp (k (clock (tick w))) (bump w) Q R -> wp (bind now k) w Q R.
Proof. done. Qed.
(** Any other call, by what its outcomes are known to be. *)
Lemma wp_call {X A} (p : prog (result X A)) w (Q : A -> World -> Prop) (R : X -> World -> Prop) :
  (forall a w1, run p w = (Ok a, w1) -> Q a w1) -> (forall e w1, run p w = (Err e, w1) -> R e w1) ->
  wp p w Q R.
Proof. unfold wp. destruct (run p w) as [[a|e] w1]; auto. Qed.
(** A transaction commits or leaves no trace. *)
Lemma wp_transaction {A} (p : M A) w (Q : A -> World -> Prop) (R : AppError -> World -> Prop) :
  wp p (bump w) (fun a w1 => forall w2, db w2 = db w1 -> Q a w2) (fun _ _ => True) ->
  (forall e w1, db w1 = db w -> R e w1) -> wp (transaction p) w Q R.
Proof.
  intros Hp HR. apply wp_call; intros a w1 Hr.
  - apply run_transaction_ok in Hr as (_ & w2 & Hr & _ & ->).
    pose proof (wp_run _ _ _ _ _ _ Hp Hr) as H. by apply H.
  - apply HR. by eapply run_transaction_err.
Qed.
End Wp.

(** ** Inside a transaction
    [wp_tx body w Q R]: a commit with a result satisfies [Q], a commit with an
    error [R]; anything else is rolled back. *)
Definition wp_tx {A} (body : prog (bool * result AppError A)) (w : World) (Q : A -> World -> Prop)
    (R : AppError -> World -> Prop) : Prop :=
  match run body w with
  | ((true, Ok a), w1) => Q a w1
  | ((true, Err e), w1) => R e w1
  | ((false, Ok _), _) => False
  | ((false, Err _), _) => True
  end.

Section WpTx.
Context {E : Env}.

Lemma wp_tx_bind {A B} (p : M A) (k : A -> prog (bool * result AppError B)) w Q R :
  wp p w (fun a w1 => wp_tx (k a) w1 Q R) (fun _ _ => True) -> wp_tx (tx_bind p k) w Q R.
Proof. unfold wp, wp_tx. rewrite run_tx_bind. by destruct (run p w) as [[a|e] w1]. Qed.
Lemma wp_tx_now {A} (k : Z -> prog (bool * result AppError A)) w Q R :
  wp_tx (k (clock (tick w))) (bump w) Q R -> wp_tx (bind now k) w Q R.
Proof. done. Qed.
Lemma wp_tx_abort {A} e w (Q : A -> World -> Prop) R : wp_tx (Ret (false, Err e)) w Q R.
Proof. done. Qed.
Lemma wp_tx_commit {A} (r : result AppError A) w (Q : A -> World -> Prop) R :
  (forall w1, db w1 = db w -> (tick w <= tick w1)%nat ->
     match r with Ok a => Q a w1 | Err e => R e w1 end) ->
  wp_tx (commit_with r) w Q R.
Proof.
  intros H. unfold wp_tx, commit_with. rewrite run_bind.
  pose proof (run_query_db (fun _ : Db => tt) w) as Hdb. fold acquire in Hdb.
  destruct (run acquire w) as [[u|e] w1] eqn:Ha; cbn [run fst snd] in *; [|done].
  apply run_acquire_ok in Ha as [_ ->]. destruct r; apply H; (done || cbn; lia).
Qed.
Lemma wp_atomic_tx {A} (body : prog (bool * result AppError A)) w (Q : A -> World -> Prop) R :
  wp_tx body (bump w) Q R -> (forall e w1, db w1 = db w -> R e w1) -> wp (atomic_tx body) w Q R.
Proof.
  intros Hb HR. unfold atomic_tx. apply wp_bindE. unfold acquire, wp.
  simpl. destruct (fault (tick w)); [by apply HR|]. unfold wp_tx in Hb. cbn [run]. unfold run_tx.
  change {| db := db w; limiters := limiters w; tick := S (tick w) |} with (bump w).
  destruct w as [d l t]. cbn [set_db bump db limiters tick] in *.
  destruct (run body _) as [[[] [a|e]] w1]; try done. by apply HR.
Qed.
End WpTx.

(** Show a property of the outcome of the run [H]. *)
Ltac wp_start H :=
  lazymatch type of H with
  | run _ _ = (?res, ?w') => pattern res, w'; eapply wp_intro; [cbv beta iota|exact H]
  end.

(** One step of a [Result] program: the goals left are the continuation and
    the error. *)
Ltac wpm :=
  lazymatch goal with
  | |- wp (bindM _ _) _ _ _ => apply wp_bindM; wpm
  | |- wp (bind now _) _ _ _ => apply wp_now
  | |- wp (bind _ _) _ _ _ => apply wp_bind; intros ? ? ?
  | |- wp (require _ _) _ _ _ => apply wp_require; [intros ? ?|intros ?]
  | |- wp (lift _) _ _ _ => apply wp_lift; [intros ? ?|intros ? ?]
  | |- wp (guard _ _) _ _ _ => apply wp_guard; [intros ?|intros ?]
  | |- wp (query _) _ _ _ => apply wp_reads; [|intros ? ?]
  | |- wp (exec _) _ _ _ => apply wp_exec; [|intros ? ?]; cbn [fst snd]
  | |- wp (ret _) _ _ _ => apply wp_Ok
  | |- wp (throw _) _ _ _ => apply wp_Err
  | |- wp_tx (tx_bind _ _) _ _ _ => apply wp_tx_bind; wpm
  | |- wp_tx (bind now _) _ _ _ => apply wp_tx_now
  | |- wp_tx (Ret (false, Err _)) _ _ _ => apply wp_tx_abort
  | |- wp_tx (commit_with _) _ _ _ => apply wp_tx_commit; intros ? ? ?
  | |- wp (transaction _) _ _ _ => apply wp_transaction; [|intros ? ? ?]
  | |- wp _ _ _ _ => apply wp_call; [intros ? ? ?|intros ? ? ?]
  end.
