(* ===== verification/OAuth.v ===== *)
(** * The OpenID Connect provider ([handlers/oauth.rs], [oidc/jwks.rs])

    Discovery and keys, the authorization endpoint of the code flow with PKCE,
    the token and userinfo endpoints, and the logout a relying party starts.
    Content types that the HTTP library derives from a body are left out. *)

From S2P Require Import Prelude RStr RateLimit Schema Sys External Users AuditLog Net Settings Token Application OidcCodes OidcToken Http LoginFlow ForwardAuth.
Local Open Scope Z_scope.
Local Open Scope string_scope.

(** ** Errors *)
Inductive OAuthError : Type :=
| InvalidRequest (m : string)
| InvalidClient
| InvalidGrant (m : string)
| UnauthorizedClient
| UnsupportedResponseType
| UnsupportedGrantType
| InvalidScope
| AccessDenied
| LoginRequired
| ServerError.

(** [OAuthError::code], [description], [token_endpoint_status] *)
Definition error_code (e : OAuthError) : string :=
  match e with
  | InvalidRequest _ => "invalid_request"
  | InvalidClient => "invalid_client"
  | InvalidGrant _ => "invalid_grant"
  | UnauthorizedClient => "unauthorized_client"
  | UnsupportedResponseType => "unsupported_response_type"
  | UnsupportedGrantType => "unsupported_grant_type"
  | InvalidScope => "invalid_scope"
  | AccessDenied => "access_denied"
  | LoginRequired => "login_required"
  | ServerError => "server_error"
  end.
Definition description (e : OAuthError) : option string :=
  match e with InvalidRequest m | InvalidGrant m => Some m | _ => None end.
Definition token_endpoint_status (e : OAuthError) : Z :=
  match e with InvalidClient => 401 | ServerError => 500 | _ => 400 end.

(** [OAuthError::into_response] *)
Definition oauth_error_response (e : OAuthError) : Response :=
  let body := JObj (("error", JStr (error_code e))
                    :: match description e with
                       | Some desc => [("error_description", JStr desc)] | None => [] end) in
  let headers := h_insert "cache-control" "no-store" [] in
  response (token_endpoint_status e)
    (match e with
     | InvalidClient => h_insert "www-authenticate" ("Basic realm=" ++ quote ++ "oidc" ++ quote) headers
     | _ => headers
     end) (JsonBody body).

(** ** Discovery and keys *)
Record DiscoveryDocument := {
  issuer : string;
  authorization_endpoint : string;
  token_endpoint : string;
  userinfo_endpoint : string;
  end_session_endpoint : string;
  jwks_uri : string;
  response_types_supported : list string;
  subject_types_supported : list string;
  id_token_signing_alg_values_supported : list string;
  scopes_supported : list string;
  token_endpoint_auth_methods_supported : list string;
  grant_types_supported : list string;
  code_challenge_methods_supported : list string;
  claims_supported : list string
}.

Definition build_discovery (origin : string) : DiscoveryDocument := {|
  issuer := origin;
  authorization_endpoint := origin ++ "/oauth/authorize";
  token_endpoint := origin ++ "/oauth/token";
  userinfo_endpoint := origin ++ "/oauth/userinfo";
  end_session_endpoint := origin ++ "/oauth/end_session";
  jwks_uri := origin ++ "/.well-known/jwks.json";
  response_types_supported := ["code"];
  subject_types_supported := ["public"];
  id_token_signing_alg_values_supported := ["EdDSA"];
  scopes_supported := ["openid"; "profile"; "email"; "roles"];
  token_endpoint_auth_methods_supported := ["client_secret_basic"; "client_secret_post"; "none"];
  grant_types_supported := ["authorization_code"];
  code_challenge_methods_supported := ["S256"];
  claims_supported := ["sub"; "iss"; "aud"; "exp"; "iat"; "auth_time"; "nonce"; "name";
                       "preferred_username"; "updated_at"; "email"; "roles"] |}.
Definition discovery (st : AppState) : DiscoveryDocument := build_discovery (st_origin st).

Record Jwk := {
  jwk_kty : string; jwk_crv : string; jwk_alg : string; jwk_use : string; jwk_kid : string;
  jwk_x : string
}.

(** [build_jwks]; [jwks] *)
Definition build_jwks `{Hashing} `{Ed25519} (signing_key : SigningKey) (key_id : string) : list Jwk :=
  let public := verifying_key signing_key in
  [{| jwk_kty := "OKP"; jwk_crv := "Ed25519"; jwk_alg := "EdDSA"; jwk_use := "sig"; jwk_kid := key_id;
      jwk_x := base64url_encode public |}].
Definition jwks `{Hashing} `{Ed25519} (st : AppState) : Json :=
  JObj [("keys", JArr (map (fun k =>
    JObj [("kty", JStr (jwk_kty k)); ("crv", JStr (jwk_crv k)); ("alg", JStr (jwk_alg k));
          ("use", JStr (jwk_use k)); ("kid", JStr (jwk_kid k)); ("x", JStr (jwk_x k))])
    (build_jwks (st_signing_key st) (st_signing_kid st))))].

(** [load_signing_kid] *)
Definition load_signing_kid `{Env} `{UuidLib} : M string :=
  stmt (fun d => match fetch is_default_key (keys d) with
                 | Some row => Ok (uuid_to_string (k_id row), d) | None => Err DbError end).

(** ** Requests *)
Record AuthorizeQuery := {
  aq_response_type : option string;
  aq_client_id : option string;
  aq_redirect_uri : option string;
  aq_scope : option string;
  aq_state : option string;
  aq_nonce : option string;
  aq_code_challenge : option string;
  aq_code_challenge_method : option string;
  aq_prompt : option string;
  aq_max_age : option string
}.
Record TokenForm := {
  tf_grant_type : option string;
  tf_code : option string;
  tf_redirect_uri : option string;
  tf_client_id : option string;
  tf_client_secret : option string;
  tf_code_verifier : option string
}.
Record EndSessionQuery := {
  eq_id_token_hint : option string;
  eq_client_id : option string;
  eq_post_logout_redirect_uri : option string;
  eq_state : option string
}.

(** A parameter that is present and not empty. *)
Definition non_empty (o : option string) : option string := opt_filter (fun s => negb (is_empty s)) o.

Definition set_oidc_token_rl (rl : RateLimiter) (l : Limiters) : Limiters := {|
  login_rl := login_rl l; register_rl := register_rl l; ldap_bind_rl := ldap_bind_rl l;
  oidc_token_rl := rl |}.

(** [base64]'s standard alphabet. *)
Class Base64Std := { base64_decode : string -> option string }.
(** [axum]: the answer when a header of a response given as a tuple does not
    parse, by the status the tuple has: a text that says so. *)
Class AxumParts := { parts_error : Z -> Response }.
Class AxumPartsLaws `{AxumParts} := {
  parts_error_headers s name :
    name <> "content-type" -> get_all (rs_headers (parts_error s)) name = []
}.

(** [std::str::from_utf8]: the well-formed byte sequences. *)
Definition continuation (a : ascii) : bool := in_range 128 191 a.
Fixpoint utf8_fuel (fuel : nat) (s : string) : bool :=
  match fuel, s with
  | _, "" => true
  | S n, String a s1 =>
      if (code a <? 128)%N then utf8_fuel n s1
      else match s1 with
           | String b s2 =>
               if in_range 194 223 a then continuation b && utf8_fuel n s2
               else match s2 with
                    | String c s3 =>
                        if in_range 224 239 a
                        then ((if (code a =? 224)%N then in_range 160 191 b
                               else if (code a =? 237)%N then in_range 128 159 b else continuation b)
                              && continuation c && utf8_fuel n s3)%bool
                        else match s3 with
                             | String d s4 =>
                                 if in_range 240 244 a
                                 then ((if (code a =? 240)%N then in_range 144 191 b
                                        else if (code a =? 244)%N then in_range 128 143 b else continuation b)
                                       && continuation c && continuation d && utf8_fuel n s4)%bool
                                 else false
                             | "" => false
                             end
                    | "" => false
                    end
           | "" => false
           end
  | O, _ => false
  end.
Definition from_utf8 (s : string) : option string :=
  if utf8_fuel (String.length s) s then Some s else None.

(** [append_query] *)
Definition append_query `{UrlEncoding} (base : string) (params : list (string * string)) : string :=
  (fold_left (fun acc kv =>
     (acc.1 ++ acc.2 ++ url_encode kv.1 ++ "=" ++ url_encode kv.2, "&"))
     params (base, if contains_byte "?" base then "&" else "?")).1.

Section OAuth.
Context {E : Env} {HA : Hashing} {ED : Ed25519} {UL : UuidLib} {JC : JwtCodec Claims}
        {JI : JwtCodec IdTokenClaims} {JO : JwtCodec OidcAccessClaims} {AE : Aead}
        {SJ : SerdeJson TokenPair} {JL : JsonLib} {UE : UrlEncoding} {URL : UrlLib} {B64 : Base64Std}
        {HL : HttpLib} {AX : AxumParts}.

(** A response given as a tuple of a status, headers and a body. *)
Definition parts_response (status : Z) (headers : list (string * string)) (body : Body) : Response :=
  if forallb (fun e => header_valid e.2) headers then response status headers body
  else parts_error status.

(** [redirect], [authorize_error_redirect], [login_redirect] *)
Definition redirect (status : Z) (location : string) : Response :=
  parts_response status
    [("location", location); ("cache-control", "no-store"); ("referrer-policy", "no-referrer")] Empty.
Definition with_state (state_param : option string) (params : list (string * string))
    : list (string * string) :=
  (params ++ match state_param with Some st => [("state", st)] | None => [] end)%list.
Definition error_params (e : OAuthError) : list (string * string) :=
  ("error", error_code e)
  :: match description e with Some desc => [("error_description", desc)] | None => [] end.
Definition authorize_error_redirect (redirect_uri : string) (state_param : option string)
    (e : OAuthError) : Response :=
  redirect 302 (append_query redirect_uri (with_state state_param (error_params e))).
Definition login_redirect (path_and_query : option string) : Response :=
  redirect 302 ("/login?redirect_uri=" ++ url_encode (unwrap_or path_and_query "/oauth/authorize")).

(** [append_session_cookies] *)
Definition append_session_cookies (r : Response) (tokens : TokenPair) : Response :=
  map_headers (fun h => (h ++ auth_cookies tokens)%list) r.

(** [resolve_browser_session]: the claims, and the pair that was renewed for
    them. *)
Definition resolve_browser_session (st : AppState) (h : list (string * string))
    : M (option (Claims * option TokenPair)) :=
  current <- match cookie_value h AUTH_COOKIE_NAME with
             | Some access => unless_unauthenticated (verify_access_token access (st_signing_key st))
             | None => ret None
             end ;;
  match current with
  | Some claims => ret (Some (claims, None))
  | None =>
      match cookie_value h REFRESH_COOKIE_NAME with
      | Some refresh =>
          rotated <- unless_unauthenticated (rotate_browser_token_pair refresh (st_signing_key st)) ;;
          match rotated with
          | Some tokens =>
              claims <- verify_access_token (access_token tokens) (st_signing_key st) ;;
              ret (Some (claims, Some tokens))
          | None => ret None
          end
      | None => ret None
      end
  end.

(** ** The authorization endpoint
    A program that ends in [Err r] has answered [r] early. *)
Definition oauth_err {X A} (f : OAuthError -> Response) (e : OAuthError) (p : prog (result X A))
    : prog (result Response A) := convert (fun _ => f e) p.
Definition fail_if (b : bool) (r : Response) : prog (result Response unit) :=
  if b then Ret (Err r) else Ret (Ok tt).
Definition need {A} (o : option A) (r : Response) : prog (result Response A) := Ret (ok_or o r).

(** Step 1 of [authorize_impl]: the client and its redirect URI. *)
Definition authorize_client (q : AuthorizeQuery) : prog (result Response (Application * string * string)) :=
  let err := oauth_error_response in
  _ <-? oauth_err err ServerError acquire ;;
  client_id <-? need (non_empty (aq_client_id q)) (err (InvalidRequest "missing client_id")) ;;
  presented <-? need (non_empty (aq_redirect_uri q)) (err (InvalidRequest "missing redirect_uri")) ;;
  found <-? oauth_err err ServerError (get_by_oidc_client_id client_id) ;;
  app <-? need found (err InvalidClient) ;;
  _ <-? fail_if (negb (a_enabled app) || negb (beq (a_app_type app) Oidc)) (err UnauthorizedClient) ;;
  _ <-? fail_if (negb (validate_redirect_uri app presented))
          (err (InvalidRequest "redirect_uri not registered")) ;;
  Ret (Ok (app, client_id, presented)).

(** The checks whose errors go back to the client: the scope and challenge to
    grant. *)
Definition prompt_none (q : AuthorizeQuery) : bool :=
  is_some_and (aq_prompt q) (fun prompt => beq (split_whitespace prompt) ["none"]).
Definition known_scope (s : string) : bool := existsb (beq s) ["openid"; "profile"; "email"; "roles"].
Definition challenge_well_formed (challenge : string) : bool :=
  (beq (String.length challenge) 43%nat
   && all_bytes (fun b => is_ascii_alphanumeric b || contains_byte b "-_") challenge
   && is_some (base64url_decode challenge))%bool.
Definition authorize_params (presented : string) (q : AuthorizeQuery)
    : result Response (list string * string * string) :=
  let bounce e := authorize_error_redirect presented (aq_state q) e in
  if negb (beq (aq_response_type q) (Some "code")) then Err (bounce UnsupportedResponseType)
  else if (is_some (aq_max_age q)
           || is_some_and (aq_prompt q) (fun prompt => negb (is_empty prompt) && negb (prompt_none q)))%bool
  then Err (bounce (InvalidRequest "requested reauthentication or consent is not supported"))
  else
    let scope := parse_scope (unwrap_or (aq_scope q) "") in
    if (negb (scope_contains scope SCOPE_OPENID) || existsb (fun s => negb (known_scope s)) scope)%bool
    then Err (bounce InvalidScope)
    else match non_empty (aq_code_challenge q) with
         | None => Err (bounce (InvalidRequest "missing code_challenge (PKCE required)"))
         | Some challenge =>
             let method := unwrap_or (aq_code_challenge_method q) "plain" in
             if negb (beq method "S256")
             then Err (bounce (InvalidRequest "code_challenge_method must be S256"))
             else if negb (challenge_well_formed challenge)
             then Err (bounce (InvalidRequest "invalid S256 code_challenge"))
             else Ok (scope, challenge, method)
         end.

(** Steps 3 and 4, for the session of the request. *)
Definition authorize_session (ctx : AuditContext) (q : AuthorizeQuery) (app : Application)
    (client_id presented : string) (scope : list string) (challenge method : string)
    (needs_login : Response) (claims : Claims) : prog (result Response Response) :=
  let bounce e := authorize_error_redirect presented (aq_state q) e in
  let err := oauth_error_response in
  user_id <-? need (uuid_parse (sub claims)) (bounce ServerError) ;;
  found <-? oauth_err err ServerError (User_get user_id) ;;
  user <-? need (opt_filter u_active found) needs_login ;;
  roles <-? oauth_err err ServerError (User_get_roles user) ;;
  allowed <-? oauth_err bounce ServerError (check_access_resolved app roles) ;;
  if negb allowed then
    _ <~ audit_save (with_details
           (JObj [("client_id", JStr client_id); ("reason", JStr "insufficient_roles")])
           (in_ctx ctx (by_user user_id (audit OidcAuthorizeDenied)))) ;;
    Ret (Err (bounce AccessDenied))
  else
    code <-? oauth_err bounce ServerError
               (issue (a_id app) user_id presented (join " " scope) (aq_nonce q) challenge method
                  (unwrap_or (auth_time claims) (iat claims)) (session_version claims)
                  (Some (unwrap_or (session_exp claims) (exp claims)))) ;;
    _ <~ audit_save (with_details
           (JObj [("client_id", JStr client_id); ("scope", JStr (join " " scope))])
           (in_ctx ctx (by_user user_id (audit OidcAuthorizeSuccess)))) ;;
    Ret (Ok (redirect 302 (append_query presented (with_state (aq_state q) [("code", code)])))).

(** [authorize_impl]: the answer, [Ok] when a code was issued, and the session
    that was renewed. *)
Definition authorize_impl (st : AppState) (ctx : AuditContext) (h : list (string * string))
    (path_and_query : option string) (q : AuthorizeQuery)
    : prog (result Response Response * option TokenPair) :=
  client <~ authorize_client q ;;
  match client with
  | Err r => Ret (Err r, None)
  | Ok (app, client_id, presented) =>
      match authorize_params presented q with
      | Err r => Ret (Err r, None)
      | Ok (scope, challenge, method) =>
          let needs_login := if prompt_none q
                             then authorize_error_redirect presented (aq_state q) LoginRequired
                             else login_redirect path_and_query in
          session <~ resolve_browser_session st h ;;
          match session with
          | Err _ => Ret (Err (oauth_error_response ServerError), None)
          | Ok None => Ret (Err needs_login, None)
          | Ok (Some (claims, renewed)) =>
              r <~ authorize_session ctx q app client_id presented scope challenge method needs_login
                     claims ;;
              Ret (r, renewed)
          end
      end
  end.

(** [authorize] *)
Definition either {A} (r : result A A) : A := match r with Ok a | Err a => a end.
Definition with_renewed (renewed : option TokenPair) (r : Response) : Response :=
  match renewed with Some tokens => append_session_cookies r tokens | None => r end.
Definition authorize (st : AppState) (ctx : AuditContext) (h : list (string * string))
    (path_and_query : option string) (q : AuthorizeQuery) : prog Response :=
  r <~ authorize_impl st ctx h path_and_query q ;;
  Ret (with_renewed r.2 (either r.1)).

(** ** The token endpoint *)

(** [parse_basic_auth]: the user id and the password, URL-decoded. *)
Definition parse_basic_auth (h : list (string * string)) : option (string * string) :=
  match get_text h "authorization" with
  | None => None
  | Some raw =>
      match split_once " " raw with
      | None => None
      | Some (scheme, b64) =>
          if negb (eq_ignore_ascii_case scheme "Basic") then None
          else match mbind from_utf8 (base64_decode (trim b64)) with
               | None => None
               | Some s =>
                   match split_once ":" s with
                   | None => None
                   | Some (id, secret) =>
                       match url_decode (replace_byte "+" " " id), url_decode (replace_byte "+" " " secret) with
                       | Some id', Some secret' => Some (id', secret')
                       | _, _ => None
                       end
                   end
               end
      end
  end.

(** The client id and secret a request presents, by one mechanism. *)
Definition presented_client (h : list (string * string)) (form : TokenForm)
    : result Response (string * option string) :=
  let err := oauth_error_response in
  let basic := parse_basic_auth h in
  if (contains_key h "authorization"
      && (is_none basic || negb (beq (length (get_all h "authorization")) 1%nat)))%bool
  then Err (err InvalidClient)
  else if is_some_and basic (fun b => is_some (tf_client_secret form)
                                      || is_some_and (tf_client_id form) (fun body_id => negb (beq body_id b.1)))%bool
  then Err (err (InvalidRequest "conflicting client authentication"))
  else
    let client_id := match basic with Some b => Some b.1 | None => tf_client_id form end in
    let presented_secret := match basic with Some b => Some b.2 | None => tf_client_secret form end in
    match non_empty client_id with
    | Some id => Ok (id, presented_secret)
    | None => Err (err InvalidClient)
    end.

Definition token_response_json (r : TokenResponse) : Json :=
  JObj [("access_token", JStr (tr_access_token r)); ("id_token", JStr (tr_id_token r));
        ("token_type", JStr (tr_token_type r)); ("expires_in", JNum (tr_expires_in r));
        ("scope", JStr (tr_scope r))].

Definition reject_token (ctx : AuditContext) (client_id reason : string) : M unit :=
  audit_save (with_details (JObj [("client_id", JStr client_id); ("reason", JStr reason)])
                (in_ctx ctx (audit OidcTokenRejected))).

(** The part of [token] that authenticates the client. *)
Definition token_client (ctx : AuditContext) (h : list (string * string)) (form : TokenForm)
    : prog (result Response (Application * string)) :=
  let err := oauth_error_response in
  presented <-? Ret (presented_client h form) ;;
  let client_id := presented.1 in
  _ <-? fail_if (negb (beq (tf_grant_type form) (Some "authorization_code"))) (err UnsupportedGrantType) ;;
  found <-? oauth_err err ServerError (get_by_oidc_client_id client_id) ;;
  app <-? need found (err InvalidClient) ;;
  _ <-? fail_if (negb (a_enabled app) || negb (beq (a_app_type app) Oidc)) (err UnauthorizedClient) ;;
  if a_oidc_confidential app then
    secret <-? need presented.2 (err InvalidClient) ;;
    if verify_client_secret app secret then Ret (Ok (app, client_id))
    else
      _ <~ reject_token ctx client_id "invalid_client_secret" ;;
      Ret (Err (err InvalidClient))
  else Ret (Ok (app, client_id)).

(** The part that exchanges the code. *)
Definition token_code (ctx : AuditContext) (app : Application) (client_id : string) (form : TokenForm)
    : prog (result Response (ConsumedCode * string)) :=
  let err := oauth_error_response in
  code_str <-? need (non_empty (tf_code form)) (err (InvalidRequest "missing code")) ;;
  redirect_uri <-? need (non_empty (tf_redirect_uri form)) (err (InvalidRequest "missing redirect_uri")) ;;
  code_verifier <-? need (non_empty (tf_code_verifier form)) (err (InvalidRequest "missing code_verifier")) ;;
  consumed <-? oauth_err err ServerError (consume code_str (a_id app) redirect_uri code_verifier) ;;
  match consumed with
  | Some code => Ret (Ok (code, redirect_uri))
  | None =>
      _ <~ reject_token ctx client_id "invalid_code" ;;
      Ret (Err (err (InvalidGrant "code or authorization binding invalid")))
  end.

(** The part that checks what was authorized still holds, and answers. *)
Definition token_grant (st : AppState) (ctx : AuditContext) (app : Application) (client_id : string)
    (consumed : ConsumedCode) (redirect_uri : string) : prog (result Response Response) :=
  let err := oauth_error_response in
  session <~ verify_user_session (cc_user_id consumed) (cc_auth_time consumed) (cc_session_version consumed) ;;
  _ <-? fail_if (negb (is_ok session) || negb (validate_redirect_uri app redirect_uri))
          (err (InvalidGrant "authorization is no longer valid")) ;;
  found <~ User_get (cc_user_id consumed) ;;
  match opt_filter u_active (unwrap_or (ok found) None) with
  | None =>
      _ <~ reject_token ctx client_id "user_inactive" ;;
      Ret (Err (err (InvalidGrant "user no longer active")))
  | Some user =>
      roles <-? oauth_err err ServerError (User_get_roles user) ;;
      allowed <-? oauth_err err ServerError (check_access_resolved app roles) ;;
      _ <-? fail_if (negb allowed) (err (InvalidGrant "application access was revoked")) ;;
      let scope := parse_scope (cc_scope consumed) in
      token_response <-? oauth_err err ServerError
        (mint_token_pair (st_origin st) app user roles scope (cc_nonce consumed) (cc_auth_time consumed)
           (st_signing_key st) (st_signing_kid st) (cc_session_version consumed)
           (cc_session_exp consumed)) ;;
      _ <~ audit_save (with_details
             (JObj [("client_id", JStr client_id); ("scope", JStr (join " " scope))])
             (in_ctx ctx (by_user (u_id user) (audit OidcTokenIssued)))) ;;
      Ret (Ok (response 200 (h_insert "pragma" "no-cache" (h_insert "cache-control" "no-store" []))
                 (JsonBody (token_response_json token_response))))
  end.

(** [token] *)
Definition token_impl (st : AppState) (ctx : AuditContext) (h : list (string * string)) (form : TokenForm)
    : prog (result Response Response) :=
  _ <-? convert rate_limit_response (rl_check oidc_token_rl set_oidc_token_rl (ctx_ip ctx)) ;;
  _ <-? oauth_err oauth_error_response ServerError acquire ;;
  client <-? token_client ctx h form ;;
  code <-? token_code ctx client.1 client.2 form ;;
  token_grant st ctx client.1 client.2 code.1 code.2.
Definition token (st : AppState) (ctx : AuditContext) (h : list (string * string)) (form : TokenForm)
    : prog Response :=
  r <~ token_impl st ctx h form ;; Ret (either r).

(** ** The userinfo endpoint *)

(** [unauthorized_with_bearer_challenge] *)
Definition unauthorized_with_bearer_challenge : Response :=
  response 401 (h_insert "www-authenticate"
    ("Bearer realm=" ++ quote ++ "oidc" ++ quote ++ ", error=" ++ quote ++ "invalid_token" ++ quote) [])
    (Text "").

(** The claims the scope releases. *)
Definition userinfo_claims (user : User) (roles scope : list string) : list (string * Json) :=
  (("sub", JStr (uuid_to_string (u_id user)))
   :: (if scope_contains scope SCOPE_PROFILE
       then [("name", JStr (u_name user)); ("preferred_username", JStr (u_username user));
             ("updated_at", JNum (u_updated_at user))] else [])
   ++ (if scope_contains scope SCOPE_EMAIL
       then match u_email user with Some email => [("email", JStr email)] | None => [] end else [])
   ++ (if scope_contains scope SCOPE_ROLES then [("roles", JArr (map JStr roles))] else []))%list.

(** [userinfo] *)
Definition userinfo_impl (st : AppState) (ctx : AuditContext) (h : list (string * string))
    : prog (result Response Response) :=
  let challenge := unauthorized_with_bearer_challenge in
  let err := oauth_error_response in
  token <-? need (mbind (strip_prefix "Bearer ") (get_text h "authorization")) challenge ;;
  claims <-? convert (fun _ => challenge)
               (verify_oidc_access_token token (st_origin st) (st_signing_key st)) ;;
  user_id <-? need (uuid_parse (oa_sub claims)) challenge ;;
  _ <-? oauth_err err ServerError acquire ;;
  _ <-? convert (fun _ => challenge)
          (verify_user_session user_id (oa_iat claims) (oa_session_version claims)) ;;
  client <-? oauth_err err ServerError (get_by_oidc_client_id (oa_aud claims)) ;;
  app <-? need (opt_filter a_enabled client) challenge ;;
  found <-? convert (fun _ => challenge) (User_get user_id) ;;
  user <-? need (opt_filter u_active found) challenge ;;
  user_roles <-? oauth_err err ServerError (User_get_roles user) ;;
  allowed <-? oauth_err err ServerError (check_access_resolved app user_roles) ;;
  _ <-? fail_if (negb allowed) challenge ;;
  _ <~ audit_save (with_details
         (JObj [("client_id", JStr (oa_aud claims)); ("scope", JStr (oa_scope claims))])
         (in_ctx ctx (by_user (u_id user) (audit OidcUserinfoAccessed)))) ;;
  Ret (Ok (response 200 [("cache-control", "no-store")]
             (JsonBody (JObj (userinfo_claims user user_roles (parse_scope (oa_scope claims))))))).
Definition userinfo (st : AppState) (ctx : AuditContext) (h : list (string * string)) : prog Response :=
  r <~ userinfo_impl st ctx h ;; Ret (either r).

(** ** Logout *)

(** [build_logout_confirmation_html]: the hidden inputs of its form. *)
Definition hidden_input (name : string) (value : option string) : string :=
  match value with
  | Some v => "<input type=" ++ quote ++ "hidden" ++ quote ++ " name=" ++ quote ++ name ++ quote
              ++ " value=" ++ quote ++ html_escape v ++ quote ++ ">"
  | None => ""
  end.
Definition build_logout_confirmation_html (q : EndSessionQuery) (client_id : option string) : Body :=
  LogoutConfirmation (hidden_input "client_id" client_id
    ++ hidden_input "post_logout_redirect_uri" (eq_post_logout_redirect_uri q)
    ++ hidden_input "state" (eq_state q)).

(** [build_signed_out_html]: its link, the details of the application and the
    lead. *)
Definition lede (text : string) : string := "<p class=" ++ quote ++ "subtle" ++ quote ++ ">" ++ text ++ "</p>".
Definition build_signed_out_html (origin : string) (app_name : option string) : Body :=
  SignedOut (html_escape (origin ++ "/login"))
    (match non_empty app_name with
     | Some name => "<div class=" ++ quote ++ "details" ++ quote ++ ">"
                    ++ row (span "label" "Application" ++ span "value" (html_escape name)) ++ "</div>"
     | None => ""
     end)
    (match non_empty app_name with
     | Some name => lede ("Your session for " ++ html_escape name
                          ++ " has ended. You can sign back in to continue.")
     | None => lede "Your session has ended. You can sign back in to continue."
     end).

(** The hint's claims, the client the request names, and its application. *)
Definition hint_validation (origin : string) : Validation := {|
  v_leeway := 60; v_validate_exp := false; v_validate_aud := false;
  v_required := ["sub"; "iss"; "aud"; "iat"; "exp"]; v_iss := Some [origin]; v_aud := None |}.
Definition decode_hint (st : AppState) (q : EndSessionQuery)
    : prog (result Response (option IdTokenClaims)) :=
  match eq_id_token_hint q with
  | None => Ret (Ok None)
  | Some hint =>
      t <~ now ;;
      Ret (match jwt_decode (verifying_key (st_signing_key st)) (hint_validation (st_origin st)) t hint with
           | Some c => Ok (Some c)
           | None => Err (oauth_error_response (InvalidRequest "invalid id_token_hint"))
           end)
  end.
Definition logout_client (q : EndSessionQuery) (hint : option IdTokenClaims)
    : prog (result Response (option string * option Application)) :=
  let err := oauth_error_response in
  _ <-? fail_if (is_some_and (eq_client_id q) (fun id => is_some_and hint (fun c => negb (beq id (id_aud c)))))
          (err (InvalidRequest "client_id does not match id_token_hint")) ;;
  let client_id := match eq_client_id q with Some id => Some id | None => option_map id_aud hint end in
  match non_empty client_id with
  | Some id =>
      found <-? oauth_err err ServerError (get_by_oidc_client_id id) ;;
      app <-? need (opt_filter a_enabled found) (err InvalidClient) ;;
      Ret (Ok (client_id, Some app))
  | None => Ret (Ok (client_id, None))
  end.

(** The session to end: the browser's own. *)
Definition forbidden : Response := response 403 [] Empty.
Definition logout_session (st : AppState) (h : list (string * string)) (hint : option IdTokenClaims)
    (require_matching_session : bool) : prog (result Response (option (Claims * option TokenPair))) :=
  if require_matching_session then
    _ <-? fail_if (is_none hint) forbidden ;;
    access <-? need (cookie_value h AUTH_COOKIE_NAME) forbidden ;;
    claims <-? convert (fun e => match e with
                                 | AuthenticationRequired => forbidden
                                 | _ => oauth_error_response ServerError
                                 end) (verify_access_token access (st_signing_key st)) ;;
    Ret (Ok (Some (claims, None)))
  else oauth_err oauth_error_response ServerError (resolve_browser_session st h).

(** Whether the hint is of the session: the same login of the same user, not
    revoked since. *)
Definition matching_hint (uid : Uuid) (session : Claims) (hint : option IdTokenClaims) : prog bool :=
  match hint with
  | Some c =>
      if (beq (id_sub c) (sub session)
          && beq (id_auth_time c) (unwrap_or (auth_time session) (iat session)))%bool
      then r <~ verify_user_session uid (id_iat c) (id_session_version c) ;; Ret (is_ok r)
      else Ret false
  | None => Ret false
  end.

(** Revoke the session's user, or ask first. *)
Definition end_browser_session (ctx : AuditContext) (q : EndSessionQuery) (client_id : option string)
    (hint : option IdTokenClaims) (confirmed require_matching_session : bool) (session : Claims)
    : prog (result Response unit) :=
  uid <-? need (uuid_parse (sub session)) (oauth_error_response ServerError) ;;
  matching <~ matching_hint uid session hint ;;
  _ <-? fail_if (require_matching_session && negb matching) forbidden ;;
  _ <-? fail_if (negb confirmed && negb matching)
          (parts_response 200
             [("content-type", "text/html; charset=utf-8"); ("cache-control", "no-store");
              ("referrer-policy", "no-referrer");
              ("content-security-policy", "frame-ancestors 'none'; form-action 'self'")]
             (build_logout_confirmation_html q client_id)) ;;
  _ <-? oauth_err oauth_error_response ServerError (revoke_all_user_tokens uid) ;;
  _ <~ audit_save (with_details (JObj [("client_id", JStr (unwrap_or client_id ""))])
         (in_ctx ctx (by_user uid (audit OidcLogout)))) ;;
  Ret (Ok tt).

(** The answer after the logout. *)
Definition logged_out_response (st : AppState) (q : EndSessionQuery) (app : option Application) : Response :=
  let resp_headers :=
    (("cache-control", "no-store") :: ("referrer-policy", "no-referrer")
     :: map (fun c => ("set-cookie", c)) clear_auth_cookies)%list in
  match opt_filter (fun uri => is_some_and app (fun a => validate_post_logout_redirect_uri a uri))
          (eq_post_logout_redirect_uri q) with
  | Some uri =>
      let location := append_query uri (with_state (eq_state q) []) in
      match from_str location with
      | Some l => response 302 (h_insert "location" l resp_headers) Empty
      | None => oauth_error_response (InvalidRequest "invalid post_logout_redirect_uri")
      end
  | None =>
      response 200 (h_insert "cache-control" "no-store"
                      (h_insert "content-type" "text/html; charset=utf-8" resp_headers))
        (build_signed_out_html (st_origin st) (option_map a_name app))
  end.

(** What precedes the logout: the hint, the client and the session. *)
Definition logout_start (st : AppState) (h : list (string * string)) (q : EndSessionQuery)
    (require_matching_session : bool)
    : prog (result Response (option IdTokenClaims * (option string * option Application)
                             * option (Claims * option TokenPair))) :=
  _ <-? oauth_err oauth_error_response ServerError acquire ;;
  hint <-? decode_hint st q ;;
  client <-? logout_client q hint ;;
  session <-? logout_session st h hint require_matching_session ;;
  Ret (Ok (hint, client, session)).

(** [end_session_response], with the session it renewed *)
Definition end_session_response (st : AppState) (ctx : AuditContext) (h : list (string * string))
    (q : EndSessionQuery) (confirmed require_matching_session : bool)
    : prog (result Response Response * option TokenPair) :=
  start <~ logout_start st h q require_matching_session ;;
  match start with
  | Err r => Ret (Err r, None)
  | Ok (hint, (client_id, app), None) => Ret (Ok (logged_out_response st q app), None)
  | Ok (hint, (client_id, app), Some (claims, renewed)) =>
      ended <~ end_browser_session ctx q client_id hint confirmed require_matching_session claims ;;
      Ret (match ended with
           | Ok _ => Ok (logged_out_response st q app)
           | Err r => Err r
           end, renewed)
  end.

(** [end_session_impl] *)
Definition is_client_error (status : Z) : bool := ((400 <=? status) && (status <? 500))%Z.
Definition end_session_impl (st : AppState) (ctx : AuditContext) (h : list (string * string))
    (q : EndSessionQuery) (confirmed require_matching_session : bool) : prog Response :=
  r <~ end_session_response st ctx h q confirmed require_matching_session ;;
  let resp := either r.1 in
  Ret (if require_matching_session && is_client_error (rs_status resp)
       then response 403 [] (Text "A matching browser session and ID token hint are required")
       else if contains_key (rs_headers resp) "set-cookie" then resp
       else with_renewed r.2 resp).

(** [end_session], [end_session_post] *)
Definition end_session (st : AppState) (ctx : AuditContext) (h : list (string * string))
    (q : EndSessionQuery) : prog Response := end_session_impl st ctx h q false false.
Definition from_own_origin (st : AppState) (h : list (string * string)) : bool :=
  match get_text h "origin", option_map url_origin_text (url_parse (st_origin st)) with
  | Some actual, Some expected => beq actual expected
  | _, _ => false
  end.
Definition end_session_post (st : AppState) (ctx : AuditContext) (h : list (string * string))
    (q : EndSessionQuery) : prog Response :=
  let confirmed := from_own_origin st h in
  end_session_impl st ctx h q confirmed (negb confirmed).
End OAuth.
