(* ===== verification/OAuthFacts.v ===== *)
(** * What the OpenID Connect provider guarantees *)

From S2P Require Import Prelude RStr RateLimit Schema Sys External Users AuditLog Net Settings Token TokenFacts Sessions Application ApplicationFacts OidcCodes OidcToken Http LoginFlow LoginFacts ForwardAuth ForwardAuthFacts Frame OAuth.
Local Open Scope Z_scope.
Local Open Scope string_scope.

(** ** Sessions do not touch the clients or their codes *)
Definition same_clients (d d' : Db) : Prop :=
  auth_codes d' = auth_codes d /\ applications d' = applications d.
#[export] Instance auth_codes_blind : SessionBlind auth_codes.
Proof. by split. Qed.
#[export] Instance applications_blind : SessionBlind applications.
Proof. by split. Qed.

Lemma same_resolve_browser_session {E : Env} {HA : Hashing} {ED : Ed25519} {JC : JwtCodec Claims}
    {UL : UuidLib} {AE : Aead} {SJ : SerdeJson TokenPair} {HL : HttpLib}
    {A} (f : Db -> A) `{!SessionBlind f} st h :
  respects (on_db (same f)) (resolve_browser_session st h).
Proof. unfold resolve_browser_session, unless_unauthenticated. respects_walk. Qed.

Section Sessions.
Context {E : Env} {HA : Hashing} {ED : Ed25519} {JC : JwtCodec Claims} {UL : UuidLib} {AE : Aead}
        {SJ : SerdeJson TokenPair} {HL : HttpLib} {JL : JsonLib}.

(** The claims of an access token whose session is valid in the database. *)
Definition live_session (d : Db) (uid : Uuid) (c : Claims) : Prop :=
  typ c = "access" /\ uuid_parse (sub c) = Some uid /\
  session_valid uid (iat c) (session_version c) d = true.

Lemma verify_live token key c w w' :
  run (verify_access_token token key) w = (Ok c, w') ->
  db w' = db w /\ exists uid, live_session (db w) uid c.
Proof.
  intros Hr. apply verify_access_token_ok in Hr as (Hdb & c0 & uid & _ & Ht & _ & _ & Hu & Hs & ->).
  split; [done|]. by exists uid.
Qed.

Lemma unless_unauthenticated_ok {A} (p : M A) a w w' :
  run (unless_unauthenticated p) w = (Ok (Some a), w') -> run p w = (Ok a, w').
Proof.
  unfold unless_unauthenticated. rewrite run_bind. destruct (run p w) as [[x|[]] w1]; simpl; naive_solver.
Qed.

(** The session a request is resolved to is valid in the resulting state. *)
Lemma resolve_live st h c renewed w w' :
  run (resolve_browser_session st h) w = (Ok (Some (c, renewed)), w') ->
  exists uid, live_session (db w') uid c.
Proof.
  intros Hrun. unfold resolve_browser_session in Hrun.
  apply run_bindM_ok in Hrun as (cur & w1 & Hc & Hrun). destruct cur as [c0|].
  - apply run_ret_ok in Hrun as [[= <- <-] <-]. destruct (cookie_value h AUTH_COOKIE_NAME); [|done].
    apply unless_unauthenticated_ok, verify_live in Hc as [-> H]. exact H.
  - destruct (cookie_value h REFRESH_COOKIE_NAME) as [refresh|]; [|done].
    apply run_bindM_ok in Hrun as (rot & w2 & _ & Hrun). destruct rot as [tokens|]; [|done].
    apply run_bindM_ok in Hrun as (c1 & w3 & Hv & Hrun). apply run_ret_ok in Hrun as [[= <- <-] <-].
    apply verify_live in Hv as [-> H]. exact H.
Qed.

(** A valid session is of an active user. *)
Lemma session_valid_active uid t v d :
  session_valid uid t v d = true -> exists u : UserRow, u ∈ users d /\ u_id u = uid /\ u_active u = true.
Proof.
  unfold session_valid, active_version. destruct (fetch _ (users d)) as [u|] eqn:Ef; [|done].
  intros _. apply fetch_Some in Ef as [Hin Hp]. bool_hyp. by exists u.
Qed.
End Sessions.

(** ** Redirects *)
Section Redirects.
Context {UE : UrlEncoding} {HL : HttpLib} {AX : AxumParts} {AL : AxumPartsLaws}.

Definition locations (r : Response) : list string := get_all (rs_headers r) "location".

Lemma redirect_location s loc l : l ∈ locations (redirect s loc) -> l = loc.
Proof.
  unfold locations, redirect, parts_response. case_match.
  - unfold get_all. simpl. by intros ?%list_elem_of_singleton.
  - rewrite parts_error_headers by done. by intros ?%not_elem_of_nil.
Qed.

Lemma oauth_error_location e : locations (oauth_error_response e) = [].
Proof. by destruct e. Qed.

Lemma with_renewed_location o r : locations (with_renewed o r) = locations r.
Proof.
  destruct o as [p|]; [|done]. unfold locations, with_renewed, append_session_cookies, get_all. simpl.
  rewrite List.filter_app. simpl. by rewrite app_nil_r.
Qed.
End Redirects.

(** ** Stepping through a handler *)
Section Wp.
Context {E : Env}.

Lemma wp_need {A} (o : option A) (r : Response) w (Q : A -> World -> Prop) (R : Response -> World -> Prop) :
  (forall a, o = Some a -> Q a w) -> (o = None -> R r w) -> wp (need o r) w Q R.
Proof. unfold wp, need. destruct o; simpl; auto. Qed.

Lemma wp_fail_if b (r : Response) w (Q : unit -> World -> Prop) (R : Response -> World -> Prop) :
  (b = false -> Q tt w) -> (b = true -> R r w) -> wp (fail_if b r) w Q R.
Proof. unfold wp, fail_if. destruct b; simpl; auto. Qed.

End Wp.

(** One step of a handler: the goals left are the continuation and the early
    answer. *)
Ltac wp_step :=
  lazymatch goal with
  | |- wp (bindE _ _) _ _ _ => apply wp_bindE; wp_step
  | |- wp (oauth_err _ _ (query _)) _ _ _ => apply (wp_query _ (fun _ => _)); [|intros ? ? ?]
  | |- wp (oauth_err _ _ _) _ _ _ => apply (wp_convert (fun _ => _)); [intros ? ? ?|intros ? ? ?]
  | |- wp (convert _ _) _ _ _ => apply wp_convert; [intros ? ? ?|intros ? ? ?]
  | |- wp (need _ _) _ _ _ => apply wp_need; [intros ? ?|intros ?]
  | |- wp (fail_if _ _) _ _ _ => apply wp_fail_if; [intros ?|intros ?]
  | |- wp (bind _ _) _ _ _ => apply wp_bind; intros ? ? ?
  | |- wp (Ret (Ok _)) _ _ _ => apply wp_Ok
  | |- wp (Ret (Err _)) _ _ _ => apply wp_Err
  end.

(** ** The authorization endpoint *)
Section Authorize.
Context {E : Env} {HA : Hashing} {ED : Ed25519} {UL : UuidLib} {JC : JwtCodec Claims} {AE : Aead}
        {SJ : SerdeJson TokenPair} {JL : JsonLib} {UE : UrlEncoding} {URL : UrlLib} {HL : HttpLib}
        {AX : AxumParts} {AL : AxumPartsLaws}.

(** The application a client id names. *)
Definition client_of (d : Db) (client_id : string) : option Application :=
  option_map of_row (fetch (fun r => beq (ap_oidc_client_id r) (Some client_id)
                                     && beq (ap_app_type r) "oidc")%bool (applications d)).

(** What [authorize_client] lets pass: an enabled client and a URI it has
    registered. *)
Definition trusted (d : Db) (q : AuthorizeQuery) (app : Application) (client_id uri : string) : Prop :=
  aq_client_id q = Some client_id /\ client_of d client_id = Some app /\
  a_enabled app = true /\ a_app_type app = Oidc /\
  aq_redirect_uri q = Some uri /\ uri ∈ a_oidc_redirect_uris app.

Lemma non_empty_Some o s : non_empty o = Some s <-> o = Some s /\ s <> "".
Proof. destruct o as [[|a s']|]; simpl; naive_solver. Qed.

Lemma validate_redirect_uri_spec app uri :
  validate_redirect_uri app uri = true <-> uri ∈ a_oidc_redirect_uris app.
Proof.
  unfold validate_redirect_uri. rewrite existsb_exists, list_elem_of_In.
  split; [intros (u & Hu & Hb); bool_hyp; by subst|intros Hu; exists uri; by rewrite beq_refl].
Qed.

Lemma authorize_client_wp q w :
  wp (authorize_client q) w
    (fun '(app, client_id, uri) w1 => db w1 = db w /\ trusted (db w) q app client_id uri)
    (fun r w1 => db w1 = db w /\ locations r = []).
Proof.
  unfold authorize_client, acquire, get_by_oidc_client_id.
  do 7 (wp_step; [|split; [done|apply oauth_error_location]]). wp_step. split; [done|].
  repeat match goal with Hn : non_empty _ = Some _ |- _ => apply non_empty_Some in Hn as [Hn _] end.
  bool_hyp. do 5 (split; [done|]). by apply validate_redirect_uri_spec.
Qed.

(** Where an answer of the authorization endpoint may send the browser: to
    this server's login page, or to a URI its enabled client registered. *)
Definition to_client (d : Db) (q : AuthorizeQuery) (l : string) : Prop :=
  exists app client_id uri params, trusted d q app client_id uri /\ l = append_query uri params.
Definition to_login (l : string) : Prop :=
  exists target, l = "/login?redirect_uri=" ++ url_encode target.
Definition redirects_trusted (d : Db) (q : AuthorizeQuery) (r : Response) : Prop :=
  forall l, l ∈ locations r -> to_login l \/ to_client d q l.

Lemma no_redirect d q r : locations r = [] -> redirects_trusted d q r.
Proof. intros H l Hl. rewrite H in Hl. by apply not_elem_of_nil in Hl. Qed.

Lemma redirect_trusted d q app client_id uri params s :
  trusted d q app client_id uri -> redirects_trusted d q (redirect s (append_query uri params)).
Proof. intros Ht l Hl. apply redirect_location in Hl. right. by exists app, client_id, uri, params. Qed.

Lemma login_redirect_trusted d q pq : redirects_trusted d q (login_redirect pq).
Proof. intros l Hl. apply redirect_location in Hl. left. by eexists. Qed.

(** The scope and challenge that may be granted: [openid] and nothing unknown,
    and an S256 challenge. *)
Definition grantable (q : AuthorizeQuery) (scope : list string) (challenge method : string) : Prop :=
  aq_response_type q = Some "code" /\ scope = parse_scope (unwrap_or (aq_scope q) "") /\
  "openid" ∈ scope /\ Forall (fun s => s ∈ ["openid"; "profile"; "email"; "roles"]) scope /\
  aq_code_challenge q = Some challenge /\ challenge_well_formed challenge = true /\
  aq_code_challenge_method q = Some "S256" /\ method = "S256".

Lemma known_scope_spec s : known_scope s = true <-> s ∈ ["openid"; "profile"; "email"; "roles"].
Proof.
  unfold known_scope. rewrite existsb_exists, list_elem_of_In.
  split; [intros (u & Hu & Hb); bool_hyp; by subst|intros Hu; exists s; by rewrite beq_refl].
Qed.

Ltac refusal :=
  match goal with |- context [if ?b then Err _ else _] => destruct b eqn:?; [by eexists|] end.
Lemma authorize_params_spec uri q :
  match authorize_params uri q with
  | Ok (scope, challenge, method) => grantable q scope challenge method
  | Err r => exists e, r = authorize_error_redirect uri (aq_state q) e
  end.
Proof.
  unfold authorize_params. cbv zeta.
  do 3 refusal.
  destruct (non_empty (aq_code_challenge q)) as [challenge|] eqn:E4; [|by eexists].
  do 2 refusal. bool_hyp.
  apply non_empty_Some in E4 as [E4 _].
  split; [done|]. split; [done|]. split; [by apply scope_contains_spec|]. split.
  - apply Forall_forall. intros s Hs. apply known_scope_spec. destruct (known_scope s) eqn:Ek; [done|].
    match goal with He : existsb _ _ = false |- _ => rename He into Hex end.
    apply not_true_iff_false in Hex. contradict Hex. apply existsb_exists. exists s.
    split; [by apply list_elem_of_In|]. by rewrite Ek.
  - destruct (aq_code_challenge_method q) as [m|]; [|done]. simpl in *. by subst.
Qed.

(** The code that is stored for a grant. *)
Definition granted_row (q : AuthorizeQuery) (app : Application) (uid : Uuid) (uri : string)
    (scope : list string) (challenge : string) (claims : Claims) (code : string) (t : Z) : AuthCodeRow :=
  let deadline := unwrap_or (session_exp claims) (exp claims) in {|
  ac_code_hash := hash_code code; ac_application_id := a_id app; ac_user_id := uid;
  ac_redirect_uri := uri; ac_scope := join " " scope; ac_nonce := aq_nonce q;
  ac_code_challenge := challenge; ac_code_challenge_method := "S256";
  ac_auth_time := unwrap_or (auth_time claims) (iat claims);
  ac_expires_at := Z.min deadline (t + 600); ac_consumed_at := None;
  ac_session_version := session_version claims; ac_session_exp := Some deadline |}.

(** A user the application admits by the roles held now. *)
Definition admitted (d : Db) (app : Application) (uid : Uuid) : Prop :=
  (exists u : UserRow, u ∈ users d /\ u_id u = uid /\ u_active u = true) /\
  admits d app (map ro_name (roles_of uid d)).

Lemma audit_save_clients e w r w' : run (audit_save e) w = (r, w') -> same_clients (db w) (db w').
Proof. intros Hr. split; eapply same_run; [|exact Hr| |exact Hr]; apply same_audit_save; apply _. Qed.

Lemma issue_err app uid uri scope nonce ch m at_ sv se w e w1 :
  run (issue app uid uri scope nonce ch m at_ sv se) w = (Err e, w1) -> db w1 = db w.
Proof.
  intros Hr. unfold issue, generate_plaintext in Hr.
  apply run_bind_eq in Hr as (p & w2 & Hp & Hr). run_inv Hp.
  apply run_bind_eq in Hr as (t & w3 & Ht & Hr). apply run_now in Ht as [-> ->].
  rewrite run_bindM in Hr. destruct (run (stmt _) _) as [[u|e'] w4] eqn:Es; [done|].
  injection Hr as _ <-. by apply run_stmt_err in Es.
Qed.

Lemma fetch_admitted app uid user w1 w2 w3 :
  opt_filter u_active (option_map u_row (fetch (fun u : UserRow => beq (u_id u) uid) (users (db w1)))) = Some user ->
  run (check_access_resolved app (map ro_name (roles_of (u_id user) (db w1)))) w2 = (Ok true, w3) ->
  db w2 = db w1 -> admitted (db w1) app uid.
Proof.
  intros Hu Hc Hdb. apply opt_filter_Some in Hu as [Hu Ha].
  destruct (fetch _ _) as [row|] eqn:Ef; [|done]. injection Hu as <-.
  apply fetch_Some in Ef as [Hin Hid]. bool_hyp. apply check_access_resolved_ok in Hc as [_ Hc].
  rewrite Hdb in Hc. split; [by exists row|]. rewrite <- Hid. by apply Hc.
Qed.

Lemma authorize_session_wp ctx q app client_id uri scope challenge needs_login claims d0 w :
  trusted d0 q app client_id uri -> redirects_trusted d0 q needs_login ->
  wp (authorize_session ctx q app client_id uri scope challenge "S256" needs_login claims) w
    (fun r w' => exists uid code t,
       uuid_parse (sub claims) = Some uid /\ admitted (db w) app uid /\
       auth_codes (db w') = (auth_codes (db w) ++ [granted_row q app uid uri scope challenge claims code t])%list /\
       r = redirect 302 (append_query uri (with_state (aq_state q) [("code", code)])))
    (fun r w' => auth_codes (db w') = auth_codes (db w) /\ redirects_trusted d0 q r).
Proof.
  intros Ht Hn.
  assert (Hb : forall e, redirects_trusted d0 q (authorize_error_redirect uri (aq_state q) e))
    by (intros e; by eapply redirect_trusted).
  assert (He : forall e, redirects_trusted d0 q (oauth_error_response e))
    by (intros e; apply no_redirect, oauth_error_location).
  unfold authorize_session, User_get, User_get_roles.
  do 4 (wp_step; [|split; [cbn [db bump] in *; congruence|auto]]). cbn [db bump] in *.
  wp_step; [|match goal with Hx : run (check_access_resolved _ _) _ = _ |- _ =>
         apply check_access_db in Hx as -> end; auto].
  match goal with Hx : run (check_access_resolved _ _) _ = _ |- _ => rename Hx into Hc end.
  match goal with Hx : opt_filter _ _ = _ |- _ => rename Hx into Hu end.
  pose proof (check_access_db _ _ _ _ _ Hc) as Hdb. cbn [db bump] in Hdb. destruct a1; cbn [negb].
  - wp_step.
    + match goal with Hx : run (issue _ _ _ _ _ _ _ _ _ _) _ = _ |- _ => apply issue_ok in Hx as [_ Hi] end.
      wp_step. match goal with Hx : run (audit_save _) _ = _ |- _ => apply audit_save_clients in Hx as [Ha _] end.
      wp_step. do 3 eexists. split; [eassumption|]. split; [by eapply fetch_admitted|].
      rewrite Ha, Hi. simpl. rewrite Hdb. split; reflexivity.
    + match goal with Hx : run (issue _ _ _ _ _ _ _ _ _ _) _ = _ |- _ => apply issue_err in Hx as -> end.
      by rewrite Hdb.
  - wp_step. match goal with Hx : run (audit_save _) _ = _ |- _ => apply audit_save_clients in Hx as [Ha _] end.
    wp_step. rewrite Ha, Hdb. auto.
Qed.

Lemma resolve_clients st h w r w' :
  run (resolve_browser_session st h) w = (r, w') -> same_clients (db w) (db w').
Proof. intros Hr. split; eapply same_run; [|exact Hr| |exact Hr]; apply same_resolve_browser_session; apply _. Qed.

(** C12: the authorization endpoint grants only what it may.  A code is stored
    only for a client that is enabled and a redirect URI it registered, a
    request of the code flow with scope openid, no unknown scope and an S256
    challenge, and a browser whose session is valid, of an active user the
    application admits by current roles; the stored row binds all of these and
    lapses with the session or after ten minutes, and the answer hands the code
    to that URI.  Every other outcome stores no code.  Whatever the outcome, the
    answer redirects to this server's login page or to a URI the enabled client
    registered, never elsewhere. *)
Theorem authorize_correct st ctx h path_and_query q res renewed w w' :
  run (authorize_impl st ctx h path_and_query q) w = ((res, renewed), w') ->
  redirects_trusted (db w) q (with_renewed renewed (either res)) /\
  match res with
  | Err r => auth_codes (db w') = auth_codes (db w)
  | Ok r => exists app client_id uri scope challenge claims uid code t w0 w1,
      trusted (db w) q app client_id uri /\ grantable q scope challenge "S256" /\
      db w0 = db w /\ run (resolve_browser_session st h) w0 = (Ok (Some (claims, renewed)), w1) /\
      live_session (db w1) uid claims /\ admitted (db w1) app uid /\
      auth_codes (db w')
        = (auth_codes (db w) ++ [granted_row q app uid uri scope challenge claims code t])%list /\
      r = redirect 302 (append_query uri (with_state (aq_state q) [("code", code)]))
  end.
Proof.
  intros Hrun. unfold authorize_impl in Hrun.
  assert (Hnone : forall r o, locations r = [] -> redirects_trusted (db w) q (with_renewed o r))
    by (intros r o Hr; apply no_redirect; by rewrite with_renewed_location).
  apply run_bind_eq in Hrun as (c & w0 & Hc & Hrun).
  pose proof (wp_run _ _ _ _ _ _ (authorize_client_wp q w) Hc) as Hcl.
  destruct c as [[[app client_id] uri]|r].
  2: { destruct Hcl as [Hdb Hr]. injection Hrun as <- <- <-. rewrite Hdb. auto. }
  destruct Hcl as [Hdb Ht].
  assert (Hb : forall e o, redirects_trusted (db w) q (with_renewed o (authorize_error_redirect uri (aq_state q) e))).
  { intros e o l. rewrite with_renewed_location. by eapply redirect_trusted. }
  pose proof (authorize_params_spec uri q) as Hp.
  destruct (authorize_params uri q) as [[[scope challenge] method]|r].
  2: { destruct Hp as [e ->]. injection Hrun as <- <- <-. rewrite Hdb. split; [apply (Hb _ None)|done]. }
  pose proof Hp as (_ & _ & _ & _ & _ & _ & _ & ->).
  set (needs_login := if prompt_none q then _ else _) in Hrun.
  assert (Hn : redirects_trusted (db w) q needs_login)
    by (unfold needs_login; destruct (prompt_none q); [apply (Hb _ None)|apply login_redirect_trusted]).
  apply run_bind_eq in Hrun as (s & w1 & Hs & Hrun). pose proof (resolve_clients _ _ _ _ _ Hs) as [Hac _].
  rewrite Hdb in Hac.
  destruct s as [[[claims renewed']|]|e].
  - apply run_bind_eq in Hrun as (r & w2 & Hr & Hrun). injection Hrun as <- <- <-.
    pose proof (wp_run _ _ _ _ _ _
      (authorize_session_wp ctx q app client_id uri scope challenge needs_login claims (db w) w1 Ht Hn) Hr) as H.
    destruct r as [r|r].
    + destruct H as (uid & code & t & Hu & Had & Hrow & ->). rewrite Hac in Hrow. split.
      * intros l. cbn [either]. rewrite with_renewed_location. by eapply redirect_trusted.
      * exists app, client_id, uri, scope, challenge, claims, uid, code, t, w0, w1.
        do 4 (split; [eassumption|]).
        destruct (resolve_live _ _ _ _ _ _ Hs) as (uid' & Hl). pose proof Hl as (_ & Hu' & _).
        assert (uid' = uid) as -> by congruence. by repeat (split; [eassumption|]).
    + destruct H as [Hrow Hr']. split; [|congruence]. intros l. cbn [either]. rewrite with_renewed_location. auto.
  - injection Hrun as <- <- <-. by split.
  - injection Hrun as <- <- <-. split; [|done]. apply (Hnone _ None), oauth_error_location.
Qed.
End Authorize.

(** ** The token endpoint *)
Section TokenEndpoint.
Context {E : Env} {HA : Hashing} {ED : Ed25519} {UL : UuidLib} {JC : JwtCodec Claims}
        {JI : JwtCodec IdTokenClaims} {JO : JwtCodec OidcAccessClaims} {AE : Aead}
        {SJ : SerdeJson TokenPair} {JL : JsonLib} {UE : UrlEncoding} {B64 : Base64Std} {HL : HttpLib}.

Lemma oauth_error_not_ok e : rs_status (oauth_error_response e) <> 200.
Proof. by destruct e. Qed.
Hint Resolve oauth_error_not_ok : core.

(** A consumed code was exchangeable, and the update that marks it is the only
    change. *)
Lemma consume_ok code app uri verifier c w w' :
  run (consume code app uri verifier) w = (Ok (Some c), w') ->
  exists row, let t := clock (tick w) in
    row ∈ auth_codes (db w) /\ exchangeable code app uri verifier t row = true /\
    c = consumed_of row /\
    db w' = with_auth_codes (update (unconsumed (hash_code code) t) (set_consumed t)) (db w).
Proof.
  intros Hrun. unfold consume in Hrun.
  apply run_bind_eq in Hrun as (t & ? & Hr & Hrun). apply run_now in Hr as [-> ->].
  apply run_bindM_ok in Hrun as (found & ? & Hr & Hrun). apply run_query_ok in Hr as (_ & -> & ->).
  cbn [db bump] in *. destruct (fetch _ _) as [row|] eqn:Ef; [|done].
  apply fetch_Some in Ef as [Hin Hh]. bool_hyp.
  rewrite (checks_exchangeable code) in Hrun by done.
  destruct (exchangeable _ _ _ _ _ row) eqn:Ee; [|done]. cbn [negb] in Hrun.
  apply run_bindM_ok in Hrun as (n & ? & Hr & Hrun). apply run_exec_ok in Hr as (_ & -> & ->).
  destruct (negb _); [done|]. apply run_ret_ok in Hrun as [[= <-] <-]. by exists row.
Qed.

(** The client of a token request, authenticated. *)
Definition authenticated_client (d : Db) (h : list (string * string)) (form : TokenForm)
    (app : Application) (client_id : string) : Prop :=
  exists secret, presented_client h form = Ok (client_id, secret) /\
    client_of d client_id = Some app /\ a_enabled app = true /\ a_app_type app = Oidc /\
    (a_oidc_confidential app = true -> exists s, secret = Some s /\ verify_client_secret app s = true).

Lemma presented_client_err h form r : presented_client h form = Err r -> rs_status r <> 200.
Proof.
  unfold presented_client. cbv zeta. case_match; [by intros [= <-]|]. case_match; [by intros [= <-]|].
  destruct (non_empty _); [done|]. by intros [= <-].
Qed.

Lemma token_client_wp ctx h form w :
  wp (token_client ctx h form) w
    (fun '(app, client_id) w1 => db w1 = db w /\ authenticated_client (db w) h form app client_id)
    (fun r _ => rs_status r <> 200).
Proof.
  unfold token_client, get_by_oidc_client_id. apply wp_bindE. unfold wp at 1. cbn [run].
  destruct (presented_client h form) as [[client_id secret]|r] eqn:Ep; [|by eapply presented_client_err].
  cbn [fst snd]. do 4 (wp_step; [|done]). bool_hyp. cbn [db bump] in *.
  destruct (a_oidc_confidential a) eqn:Econf.
  - wp_step; [|done]. destruct (verify_client_secret a _) eqn:Ev; [|by do 2 wp_step].
    wp_step. split; [done|]. exists secret. do 4 (split; [done|]). by eauto.
  - wp_step. split; [done|]. exists secret. do 4 (split; [done|]). congruence.
Qed.

Lemma token_code_wp ctx app client_id form w :
  wp (token_code ctx app client_id form) w
    (fun '(c, uri) w1 => exists code verifier row, let t := clock (tick w) in
       tf_code form = Some code /\ tf_redirect_uri form = Some uri /\ tf_code_verifier form = Some verifier /\
       row ∈ auth_codes (db w) /\ exchangeable code (a_id app) uri verifier t row = true /\
       c = consumed_of row /\
       db w1 = with_auth_codes (update (unconsumed (hash_code code) t) (set_consumed t)) (db w))
    (fun r _ => rs_status r <> 200).
Proof.
  unfold token_code. do 4 (wp_step; [|done]).
  repeat match goal with Hn : non_empty _ = Some _ |- _ => apply non_empty_Some in Hn as [Hn _] end.
  match goal with Hx : run (consume _ _ _ _) _ = _ |- _ => rename Hx into Hc end.
  destruct a2 as [c|]; [|by do 2 wp_step]. wp_step.
  apply consume_ok in Hc as (row & Hin & He & -> & Hdb). by exists a, a1, row.
Qed.

(** What a token request is granted: tokens minted from the code's row for its
    user. *)
Lemma token_grant_wp st ctx app client_id c uri w :
  wp (token_grant st ctx app client_id c uri) w
    (fun r w' => exists user roles tr w1 w2,
       uri ∈ a_oidc_redirect_uris app /\
       session_valid (cc_user_id c) (cc_auth_time c) (cc_session_version c) (db w) = true /\
       admitted (db w) app (cc_user_id c) /\ u_id user = cc_user_id c /\
       roles = map ro_name (roles_of (cc_user_id c) (db w)) /\
       run (mint_token_pair (st_origin st) app user roles (parse_scope (cc_scope c)) (cc_nonce c)
              (cc_auth_time c) (st_signing_key st) (st_signing_kid st) (cc_session_version c)
              (cc_session_exp c)) w1 = (Ok tr, w2) /\
       auth_codes (db w') = auth_codes (db w) /\
       r = response 200 [("cache-control", "no-store"); ("pragma", "no-cache")]
             (JsonBody (token_response_json tr)))
    (fun r _ => rs_status r <> 200).
Proof.
  unfold token_grant. wp_step. wp_step; [|done]. bool_hyp.
  destruct b as [[]|]; [|done].
  match goal with Hx : run (verify_user_session _ _ _) _ = _ |- _ => apply verify_user_session_ok in Hx as [Hdb Hs] end.
  wp_step. destruct (opt_filter u_active _) as [user|] eqn:Eu; [|by do 2 wp_step].
  destruct b as [found|]; [|done]. cbn [ok unwrap_or] in Eu.
  match goal with Hx : run (User_get _) _ = _ |- _ => apply run_User_get_ok in Hx as (_ & -> & ->) end.
  unfold User_get_roles. wp_step; [|done]. cbn [db bump]. wp_step; [|done]. wp_step; [|done]. bool_hyp. subst.
  match goal with Hx : run (check_access_resolved _ _) _ = _ |- _ => rename Hx into Hc end.
  pose proof (check_access_db _ _ _ _ _ Hc) as Hdb3. cbn [db bump] in Hdb3.
  pose proof (fetch_admitted _ _ _ _ _ _ Eu Hc eq_refl) as Had.
  assert (Hid : u_id user = cc_user_id c).
  { apply opt_filter_Some in Eu as [Eu _]. destruct (fetch _ _) as [row|] eqn:Ef; [|done].
    injection Eu as <-. apply fetch_Some in Ef as [_ Ef]. by bool_hyp. }
  wp_step; [|done]. match goal with Hx : run (mint_token_pair _ _ _ _ _ _ _ _ _ _ _) _ = _ |- _ => rename Hx into Hm end.
  wp_step. match goal with Hx : run (audit_save _) _ = _ |- _ => apply audit_save_clients in Hx as [Ha _] end.
  wp_step. pose proof Hm as (? & ? & ? & _ & _ & _ & _ & _ & _ & Hdbm)%mint_token_pair_ok.
  rewrite Hid in *. exists user. do 4 eexists. split; [by apply validate_redirect_uri_spec|].
  rewrite <- Hdb. do 3 (split; [congruence|]). split; [reflexivity|]. split; [exact Hm|].
  split; [congruence|reflexivity].
Qed.

(** C13: tokens are issued only for an authenticated client and a code it may
    exchange.  An answer 200 means: the client named by one authentication
    mechanism exists, is enabled and, when confidential, presented its secret;
    the code was issued to this client and redirect URI, is unconsumed and
    unexpired, and the verifier answers its challenge; the URI is still
    registered; the session the code was granted in is still valid, and its
    user active and admitted by the application now.  The tokens are minted for
    that user with the scope, nonce, login time and session of the code, which
    is marked consumed.  Every other request is answered with another status. *)
Theorem token_endpoint_sound st ctx h form res w w' :
  run (token_impl st ctx h form) w = (res, w') ->
  match res with
  | Err r => rs_status r <> 200
  | Ok r => exists app client_id code uri verifier t row user roles tr w1 w2,
      authenticated_client (db w) h form app client_id /\
      tf_code form = Some code /\ tf_redirect_uri form = Some uri /\ tf_code_verifier form = Some verifier /\
      row ∈ auth_codes (db w) /\ exchangeable code (a_id app) uri verifier t row = true /\
      uri ∈ a_oidc_redirect_uris app /\
      session_valid (ac_user_id row) (ac_auth_time row) (ac_session_version row) (db w) = true /\
      admitted (db w) app (ac_user_id row) /\
      u_id user = ac_user_id row /\ roles = map ro_name (roles_of (ac_user_id row) (db w)) /\
      run (mint_token_pair (st_origin st) app user roles (parse_scope (ac_scope row)) (ac_nonce row)
             (ac_auth_time row) (st_signing_key st) (st_signing_kid st) (ac_session_version row)
             (ac_session_exp row)) w1 = (Ok tr, w2) /\
      r = response 200 [("cache-control", "no-store"); ("pragma", "no-cache")]
            (JsonBody (token_response_json tr)) /\
      auth_codes (db w') = update (unconsumed (hash_code code) t) (set_consumed t) (auth_codes (db w))
  end.
Proof.
  intros Hrun. wp_start Hrun.
  unfold token_impl. wp_step; [|done].
  match goal with Hx : run (rl_check _ _ _) _ = _ |- _ =>
    pose proof (rl_check_db oidc_token_rl set_oidc_token_rl (ctx_ip ctx) w) as Hdb; rewrite Hx in Hdb end.
  cbn [snd] in Hdb. unfold acquire. wp_step; [|done]. rewrite <- Hdb.
  apply wp_bindE. eapply wp_mono; [apply token_client_wp| |done]. intros [app client_id] w2 [Hdb2 Hcl].
  cbn [db bump fst snd] in *.
  apply wp_bindE. eapply wp_mono; [apply token_code_wp| |done].
  intros [c uri] w3 (code & verifier & row & Hf1 & Hf2 & Hf3 & Hin & He & -> & Hdb3).
  eapply wp_mono; [apply token_grant_wp| |done].
  intros r w4 (user & roles & tr & w5 & w6 & Huri & Hs & Had & Hu & Hro & Hm & Hac & ->).
  rewrite Hdb3, Hdb2 in *.
  exists app, client_id, code, uri, verifier, (clock (tick w2)), row, user, roles, tr, w5, w6.
  by repeat (split; [assumption|]).
Qed.
End TokenEndpoint.

(** ** Logout *)
Section Logout.
Context {E : Env} {HA : Hashing} {ED : Ed25519} {UL : UuidLib} {JC : JwtCodec Claims}
        {JI : JwtCodec IdTokenClaims} {AE : Aead} {SJ : SerdeJson TokenPair} {JL : JsonLib}
        {UE : UrlEncoding} {HL : HttpLib} {AX : AxumParts} {AL : AxumPartsLaws}.

Definition set_cookies (r : Response) : list string := get_all (rs_headers r) "set-cookie".

(** The ID token is of the session: the same user and login, not revoked
    since. *)
Definition hint_matches (d : Db) (uid : Uuid) (claims : Claims) (hint : option IdTokenClaims) : Prop :=
  exists c, hint = Some c /\ id_sub c = sub claims /\
    id_auth_time c = unwrap_or (auth_time claims) (iat claims) /\
    session_valid uid (id_iat c) (id_session_version c) d = true.

(** What may end the session of [claims]: its user's confirmation or a
    matching hint, and the hint when one is required. *)
Definition intended (d : Db) (claims : Claims) (hint : option IdTokenClaims)
    (confirmed required : bool) (uid : Uuid) : Prop :=
  uuid_parse (sub claims) = Some uid /\
  (confirmed = true \/ hint_matches d uid claims hint) /\
  (required = true -> hint_matches d uid claims hint).

Lemma matching_hint_ok uid claims hint w b w' :
  run (matching_hint uid claims hint) w = (b, w') ->
  db w' = db w /\ (b = true -> hint_matches (db w) uid claims hint).
Proof.
  unfold matching_hint. destruct hint as [c|]; [|by intros [= <- <-]].
  destruct (_ && _)%bool eqn:Em; [|by intros [= <- <-]]. bool_hyp.
  intros Hr. apply run_bind_eq in Hr as (r & w1 & Hv & Hr). injection Hr as <- <-.
  pose proof (verify_user_session_db _ _ _ _ _ _ Hv) as Hdb. split; [done|].
  destruct r as [[]|]; [|done]. intros _. apply verify_user_session_ok in Hv as [_ Hs]. by exists c.
Qed.

Lemma no_cookies e : set_cookies (oauth_error_response e) = [].
Proof. by destruct e. Qed.

Lemma parts_no_cookies s hs b :
  get_all hs "set-cookie" = [] -> set_cookies (parts_response s hs b) = [].
Proof. unfold set_cookies, parts_response. intros H. case_match; [done|]. by apply parts_error_headers. Qed.

Lemma logged_out_cookies st q app :
  set_cookies (logged_out_response st q app) = clear_auth_cookies \/
  set_cookies (logged_out_response st q app) = [].
Proof.
  unfold logged_out_response. destruct (opt_filter _ _) as [uri|]; [|by left].
  destruct (from_str _); [by left|by right].
Qed.

(** Ending a session: nothing happens, or it was intended. *)
Lemma end_browser_session_wp ctx q client_id hint confirmed required claims w :
  wp (end_browser_session ctx q client_id hint confirmed required claims) w
    (fun _ w' => exists uid, intended (db w) claims hint confirmed required uid /\
       users (db w') = update (fun u : UserRow => beq (u_id u) uid) bump_version (users (db w)))
    (fun r w' => set_cookies r = [] /\
       (db w' = db w \/
        rs_status r = 500 /\ exists uid, intended (db w) claims hint confirmed required uid)).
Proof.
  unfold end_browser_session. wp_step; [|split; [apply no_cookies|by left]]. wp_step.
  match goal with Hx : run (matching_hint _ _ _) _ = _ |- _ => apply matching_hint_ok in Hx as [Hdb Hm] end.
  wp_step; [|split; [done|by left]].
  wp_step; [|split; [by apply parts_no_cookies|by left]].
  assert (Hi : intended (db w) claims hint confirmed required a).
  { split; [done|]. destruct b; [by auto|]. destruct confirmed, required; simpl in *; try done. by auto. }
  wp_step; [|split; [apply no_cookies|right; split; [done|by exists a]]].
  match goal with Hx : run (revoke_all_user_tokens _) _ = _ |- _ => apply revoke_all_user_tokens_ok in Hx as Hu end.
  wp_step. wp_step. exists a. split; [done|].
  match goal with Hx : run (audit_save _) _ = _ |- _ => apply audit_save_users in Hx as -> end. congruence.
Qed.

Lemma logout_session_wp st h hint required w :
  wp (logout_session st h hint required) w
    (fun s w' => (required = true -> db w' = db w) /\
       match s with
       | Some (claims, renewed) =>
           (required = true -> renewed = None) /\ exists uid, live_session (db w') uid claims
       | None => required = false
       end)
    (fun r w' => set_cookies r = [] /\ (required = true -> db w' = db w)).
Proof.
  unfold logout_session. destruct required.
  - do 2 (wp_step; [|done]). wp_step.
    + wp_step. match goal with Hx : run (verify_access_token _ _) _ = _ |- _ => apply verify_live in Hx as [Hdb Hl] end.
      split; [done|]. split; [done|]. by rewrite Hdb.
    + match goal with Hx : run (verify_access_token _ _) _ = _ |- _ => apply verify_access_token_db in Hx end.
      split; [by case_match|done].
  - wp_step; [|split; [apply no_cookies|done]]. split; [done|].
    destruct a as [[claims renewed]|]; [|done]. split; [done|]. by eapply resolve_live.
Qed.

Lemma logout_client_wp q hint w :
  wp (logout_client q hint) w (fun _ w' => db w' = db w) (fun r w' => set_cookies r = [] /\ db w' = db w).
Proof.
  unfold logout_client, get_by_oidc_client_id. wp_step; [|split; [apply no_cookies|done]].
  destruct (non_empty _); [|by wp_step].
  do 2 (wp_step; [|split; [apply no_cookies|done]]). by wp_step.
Qed.

Lemma logout_start_wp st h q required w :
  wp (logout_start st h q required) w
    (fun s w' => (required = true -> db w' = db w) /\
       match s.2 with
       | Some (claims, renewed) =>
           (required = true -> renewed = None) /\ exists uid, live_session (db w') uid claims
       | None => required = false
       end)
    (fun r w' => set_cookies r = [] /\ (required = true -> db w' = db w)).
Proof.
  unfold logout_start, acquire. wp_step; [|split; [apply no_cookies|done]]. cbn [db bump].
  apply wp_bindE. unfold decode_hint. destruct (eq_id_token_hint q) as [text|].
  - wp_step. match goal with Hx : run now _ = _ |- _ => injection Hx as <- <- end.
    unfold wp at 1. destruct (jwt_decode _ _ _ _); cbn [run]; [|split; [apply no_cookies|done]].
    apply wp_bindE. eapply wp_mono; [apply logout_client_wp| |by intros r w1 [? ->]]. intros client w1 Hdb.
    apply wp_bindE. eapply wp_mono; [apply logout_session_wp| |].
    + intros s w2 [H1 H2]. wp_step. split; [|done]. intros Hr. rewrite H1, Hdb by done. done.
    + intros r w2 [H1 H2]. split; [done|]. intros Hr. rewrite H2, Hdb by done. done.
  - wp_step. apply wp_bindE. eapply wp_mono; [apply logout_client_wp| |by intros r w1 [? ->]]. intros client w1 Hdb.
    apply wp_bindE. eapply wp_mono; [apply logout_session_wp| |].
    + intros s w2 [H1 H2]. wp_step. split; [|done]. intros Hr. by rewrite H1, Hdb.
    + intros r w2 [H1 H2]. split; [done|]. intros Hr. by rewrite H2, Hdb.
Qed.

(** A logout ends only the session of the browser that asks for it, and
    only when that is intended.  A session is revoked only for the user of the
    browser's own valid session, and only when the request comes from this
    server's confirmation page or carries an ID token of that very login; a
    request another site may have forged ([required]) always needs the token,
    renews nothing and, without it, neither changes anything nor touches a cookie
    of the browser.  An intended logout moves the user to the next session
    generation, unless it is answered with a server error. *)
Theorem logout_needs_intent st ctx h q confirmed required r w w' :
  run (end_session_impl st ctx h q confirmed required) w = (r, w') ->
  exists s w1, run (logout_start st h q required) w = (s, w1) /\
  (required = true -> db w1 = db w) /\
  match s with
  | Ok (hint, _, Some (claims, _)) =>
      (exists uid, live_session (db w1) uid claims /\ intended (db w1) claims hint confirmed required uid /\
         (rs_status r <> 500 ->
            users (db w') = update (fun u : UserRow => beq (u_id u) uid) bump_version (users (db w1)))) \/
      (db w' = db w1 /\ (required = true -> set_cookies r = []))
  | Ok (_, _, None) => db w' = db w1 /\ required = false
  | Err _ => db w' = db w1 /\ (required = true -> set_cookies r = [])
  end.
Proof.
  intros Hrun. unfold end_session_impl in Hrun. apply run_bind_eq in Hrun as (res & w2 & Hr & Hrun).
  injection Hrun as <- <-. unfold end_session_response in Hr.
  apply run_bind_eq in Hr as (s & w1 & Hs & Hr). exists s, w1. split; [done|].
  pose proof (wp_run _ _ _ _ _ _ (logout_start_wp st h q required w) Hs) as Hst.
  destruct s as [[[hint [client_id app]] [[claims renewed]|]]|e].
  - destruct Hst as (Hdb & Hnone & uid & Hl). split; [done|]. cbn [snd] in *.
    apply run_bind_eq in Hr as (ended & w3 & He & Hr). injection Hr as <- <-.
    pose proof (wp_run _ _ _ _ _ _
      (end_browser_session_wp ctx q client_id hint confirmed required claims w1) He) as H.
    assert (Huid : forall uid', intended (db w1) claims hint confirmed required uid' -> uid' = uid).
    { intros uid' [H1 _]. destruct Hl as (_ & H2 & _). congruence. }
    destruct ended as [[]|e].
    + destruct H as (uid' & Hi & Hu). pose proof (Huid _ Hi) as ->. left. exists uid. by repeat (split; [done|]).
    + destruct H as [Hc [Hw|[H5 (uid' & Hi)]]].
      * right. split; [done|]. intros ->. rewrite (Hnone eq_refl). cbn [either fst snd andb].
        by repeat case_match.
      * left. pose proof (Huid _ Hi) as ->. exists uid. do 2 (split; [done|]). cbn [either fst snd].
        rewrite H5. rewrite andb_false_r. repeat case_match; try done. by destruct renewed.
  - destruct Hst as [Hdb Hreq]. injection Hr as <- <-. done.
  - destruct Hst as [Hc Hdb]. injection Hr as <- <-. split; [done|]. split; [done|].
    intros ->. cbn [either fst snd]. by repeat case_match.
Qed.
End Logout.

(** ** The userinfo endpoint *)
Section Userinfo.
Context {E : Env} {HA : Hashing} {ED : Ed25519} {UL : UuidLib} {JC : JwtCodec Claims} {AE : Aead}
        {SJ : SerdeJson TokenPair} {JO : JwtCodec OidcAccessClaims} {JL : JsonLib} {HL : HttpLib}.

Lemma verify_oidc_db token origin key w r w' :
  run (verify_oidc_access_token token origin key) w = (r, w') -> db w' = db w.
Proof. apply unchanged_run. unfold verify_oidc_access_token. respects_walk. Qed.

(** The userinfo endpoint answers only for a bearer token this server
    issued to an enabled client, whose session is still valid and whose user is
    active and admitted by the client's application now; it then tells of the
    user, as stored now, exactly what the token's scope releases.  Any other
    request is refused with a bearer challenge or a server error. *)
Theorem userinfo_sound st ctx h res w w' :
  run (userinfo_impl st ctx h) w = (res, w') ->
  match res with
  | Err r => r = unauthorized_with_bearer_challenge \/ r = oauth_error_response ServerError
  | Ok r => exists token claims uid app (row : UserRow) w1,
      mbind (strip_prefix "Bearer ") (get_text h "authorization") = Some token /\
      run (verify_oidc_access_token token (st_origin st) (st_signing_key st)) w = (Ok claims, w1) /\
      uuid_parse (oa_sub claims) = Some uid /\
      session_valid uid (oa_iat claims) (oa_session_version claims) (db w) = true /\
      client_of (db w) (oa_aud claims) = Some app /\ a_enabled app = true /\
      row ∈ users (db w) /\ u_id row = uid /\ admitted (db w) app uid /\
      r = response 200 [("cache-control", "no-store")]
            (JsonBody (JObj (userinfo_claims (u_row row) (map ro_name (roles_of uid (db w)))
                               (parse_scope (oa_scope claims)))))
  end.
Proof.
  intros Hrun. wp_start Hrun. unfold userinfo_impl, get_by_oidc_client_id, acquire, User_get_roles.
  do 3 (wp_step; [|by left]).
  match goal with Hx : run (verify_oidc_access_token _ _ _) _ = _ |- _ => rename Hx into Hv end.
  pose proof (verify_oidc_db _ _ _ _ _ _ Hv) as Hdb.
  wp_step; [|by right]. wp_step; [|by left].
  match goal with Hx : run (verify_user_session _ _ _) _ = _ |- _ => apply verify_user_session_ok in Hx as [Hdb2 Hs] end.
  cbn [db bump] in *. wp_step; [|by right]. wp_step; [|by left].
  match goal with Hx : opt_filter a_enabled _ = _ |- _ => apply opt_filter_Some in Hx as [Hcl Hen] end.
  wp_step; [|by left].
  match goal with Hx : run (User_get _) _ = _ |- _ => apply run_User_get_ok in Hx as (_ & -> & ->) end.
  cbn [db bump] in *. wp_step; [|by left].
  match goal with Hx : opt_filter u_active _ = _ |- _ => rename Hx into Hu end.
  wp_step; [|by right]. wp_step; [|by right].
  match goal with Hx : run (check_access_resolved _ _) _ = _ |- _ => rename Hx into Hc end.
  wp_step; [|by left]. bool_hyp. subst. wp_step. wp_step.
  pose proof (fetch_admitted _ _ _ _ _ _ Hu Hc eq_refl) as Had.
  apply opt_filter_Some in Hu as [Hu _]. destruct (fetch _ (users _)) as [row|] eqn:Ef; [|done].
  injection Hu as <-. apply fetch_Some in Ef as [Hin Hid]. bool_hyp.
  cbn [db bump] in *. rewrite Hdb2, Hdb in *. eexists _, _, _, _, row, _. rewrite Hid.
  split; [eassumption|]. split; [exact Hv|]. by repeat (split; [eassumption|]).
Qed.
End Userinfo.
