(* ===== verification/Passkeys.v ===== *)
(** * Passkeys ([handlers/passkeys.rs])

    Registration of WebAuthn credentials and the login they give, each in two
    requests joined by a challenge the server keeps.  The WebAuthn library is a
    parameter: it makes the challenges and verifies the answers. *)

From S2P Require Import Prelude RStr RateLimit Schema Sys External Users AuditLog Net Settings Token Http LoginFlow.
Local Open Scope Z_scope.
Local Open Scope string_scope.

Definition CHALLENGE_TTL : Z := 300.
Definition MAX_PASSKEYS : Z := 20.

(** ** [webauthn_rs]
    [Webauthn] is built for a domain and an origin; starting a ceremony draws
    on the random source, given as [seed]; finishing one is verification.
    Values a ceremony keeps between requests are serialised by [serde_json]. *)
Class WebauthnLib := {
  Webauthn : Type;
  PasskeyRegistration : Type;
  RegisterPublicKeyCredential : Type;
  Passkey : Type;
  DiscoverableAuthentication : Type;
  PublicKeyCredential : Type;
  AuthenticationResult : Type;
  (** [WebauthnBuilder::new], then [rp_name], [timeout] and [build] *)
  webauthn_builder : string -> Url -> option (string -> Z -> fallible Webauthn);
  start_passkey_registration : Webauthn -> string -> Uuid -> string -> string -> list string ->
    fallible (Json * PasskeyRegistration);
  finish_passkey_registration : Webauthn -> RegisterPublicKeyCredential -> PasskeyRegistration ->
    fallible Passkey;
  start_discoverable_authentication : Webauthn -> string -> fallible (Json * DiscoverableAuthentication);
  identify_discoverable_authentication : Webauthn -> PublicKeyCredential -> fallible (Uuid * string);
  finish_discoverable_authentication : Webauthn -> PublicKeyCredential -> DiscoverableAuthentication ->
    Passkey -> fallible AuthenticationResult;
  user_verified : AuthenticationResult -> bool;
  update_credential : AuthenticationResult -> Passkey -> Passkey;
  cred_id : Passkey -> string;
  (** [serde_json::from_value] at the two kinds of answer *)
  parse_register_credential : Json -> option RegisterPublicKeyCredential;
  parse_credential : Json -> option PublicKeyCredential
}.

(** [serde_json::to_string] and [from_str], with the text of their errors. *)
Class JsonText (T : Type) := {
  to_json : T -> fallible string;
  from_json : string -> fallible T
}.
Class JsonTextLaws (T : Type) `{JsonText T} := {
  from_json_to_json x s : to_json x = Ok s -> from_json s = Ok x
}.

(** [url]: two more parts of a parsed URL. *)
Class UrlParts := { url_domain : Url -> option string; url_query : Url -> option string }.

(** [encode], [decode] *)
Definition encode {T} `{JsonText T} (value : T) : result AppError string :=
  map_err InternalError (to_json value).
Definition decode {T} `{JsonText T} (value : string) : result AppError T :=
  map_err InternalError (from_json value).

(** [webauthn] *)
Definition passkeys_need_https : AppError :=
  InputError ["Passkeys require Authere's public HTTPS address (or http://localhost for development)."].
Definition webauthn `{WebauthnLib} `{UrlLib} `{UrlParts} (origin : string) : result AppError Webauthn :=
  match url_parse origin with
  | None => Err passkeys_need_https
  | Some url =>
      match url_domain url with
      | None => Err passkeys_need_https
      | Some domain =>
          if (negb (beq (url_scheme url) "https"
                    || (beq (url_scheme url) "http" && beq domain "localhost"))
              || negb (beq (url_path url) "/") || is_some (url_query url) || is_some (url_fragment url)
              || negb (is_empty (url_username url)) || is_some (url_password url))%bool
          then Err passkeys_need_https
          else match webauthn_builder domain url with
               | None => Err passkeys_need_https
               | Some build => map_err InternalError (build "Authere" CHALLENGE_TTL)
               end
      end
  end.

(** ** Challenge cookies *)

(** [cookie_name], [cookie_id], [challenge_cookie] *)
Definition cookie_name (kind : string) : string := "__Host-authere_passkey_" ++ kind.
Definition challenge_id (kind part : string) : option string :=
  match split_once "=" (trim part) with
  | Some (key, value) =>
      if (beq key (cookie_name kind) && beq (String.length value) 64%nat
          && all_bytes is_ascii_hexdigit value)%bool then Some value else None
  | None => None
  end.
Fixpoint find_map {A B} (f : A -> option B) (l : list A) : option B :=
  match l with
  | [] => None
  | x :: l' => match f x with Some y => Some y | None => find_map f l' end
  end.
Definition cookie_id `{HttpLib} (h : list (string * string)) (kind : string) : option string :=
  mbind (fun cookies => find_map (challenge_id kind) (split_byte ";" cookies)) (get_text h "cookie").
Definition challenge_cookie (kind id : string) (max_age : Z) : string :=
  cookie_name kind ++ "=" ++ id ++ "; HttpOnly; Secure; SameSite=Strict; Path=/; Max-Age=" ++ pretty max_age.

Record Challenge := {
  ch_user_id : option Uuid;
  ch_token_version : option Z;
  ch_name : option string;
  ch_state : string
}.
Record PasskeyInfo := {
  pi_id : Uuid;
  pi_name : string;
  pi_created_at : Z;
  pi_last_used_at : option Z
}.
Definition challenge_of (r : ChallengeRow) : Challenge := {|
  ch_user_id := pc_user_id r; ch_token_version := pc_token_version r; ch_name := pc_name r;
  ch_state := pc_state r |}.
Definition info_of (r : PasskeyRow) : PasskeyInfo := {|
  pi_id := pk_id r; pi_name := pk_name r; pi_created_at := pk_created_at r;
  pi_last_used_at := pk_last_used_at r |}.

(** [options.publicKey], and the two fields a registration sets in it *)
Definition field (key : string) (j : Json) : Json :=
  match j with
  | JObj fields => match List.find (fun e => beq e.1 key) fields with Some e => e.2 | None => JNull end
  | _ => JNull
  end.
Definition set_field (key : string) (v j : Json) : Json :=
  match j with
  | JObj fields => JObj (List.filter (fun e => negb (beq e.1 key)) fields ++ [(key, v)])%list
  | JNull => JObj [(key, v)]
  | other => other
  end.
Definition require_resident_key (options : Json) : Json :=
  let public_key := field "publicKey" options in
  let selection := field "authenticatorSelection" public_key in
  set_field "authenticatorSelection"
    (set_field "requireResidentKey" (JBool true) (set_field "residentKey" (JStr "required") selection))
    public_key.

(** [ORDER BY created_at DESC] *)
Fixpoint insert_recent (r : PasskeyRow) (l : list PasskeyRow) : list PasskeyRow :=
  match l with
  | [] => [r]
  | x :: l' => if (pk_created_at x <=? pk_created_at r)%Z then r :: l else x :: insert_recent r l'
  end.

(** The rows the statements name. *)
Definition challenge_row (id kind : string) (r : ChallengeRow) : bool :=
  (beq (pc_id r) id && beq (pc_kind r) kind)%bool.
Definition live_challenge (id kind : string) (t : Z) (r : ChallengeRow) : bool :=
  (challenge_row id kind r && (t <? pc_expires_at r)%Z)%bool.
Definition stale_challenge (own : option string) (kind : string) (t : Z) (r : ChallengeRow) : bool :=
  ((pc_expires_at r <=? t)%Z || is_some_and own (fun id => challenge_row id kind r))%bool.
Definition set_credential (credential : string) (t : Z) (r : PasskeyRow) : PasskeyRow := {|
  pk_id := pk_id r; pk_user_id := pk_user_id r; pk_credential_id := pk_credential_id r;
  pk_name := pk_name r; pk_credential := credential; pk_created_at := pk_created_at r;
  pk_last_used_at := Some t |}.

Section Passkeys.
Context {E : Env} {HA : Hashing} {ED : Ed25519} {JC : JwtCodec Claims} {UL : UuidLib} {AE : Aead}
        {SJ : SerdeJson TokenPair} {JL : JsonLib} {HL : HttpLib} {URL : UrlLib} {UP : UrlParts}
        {WL : WebauthnLib} {JR : JsonText PasskeyRegistration} {JP : JsonText Passkey}
        {JA : JsonText DiscoverableAuthentication}.
Variable st : AppState.
(** Of the request: the audit context and the headers. *)
Variable ctx : AuditContext.
Variable h : list (string * string).

(** [rate_limit] *)
Definition rate_limit : prog (result LoginError Z) :=
  convert RateLimit (rl_check login_rl set_login_rl (ctx_ip ctx)).

(** [save_challenge] *)
Definition save_challenge (kind : string) (challenge : Challenge) (options : Json) : M Response :=
  t <~ now ;;
  exec (fun d => (tt, with_passkey_challenges (delete (stale_challenge (cookie_id h kind) kind t)) d)) ;;;
  bytes <~ random_bytes 32 ;;
  let id := hex_encode bytes in
  t' <~ now ;;
  stmt (fun d =>
    insert_checked (existsb (fun r => beq (pc_id r) id) (passkey_challenges d))
      (is_none_or (ch_user_id challenge) (fun uid => user_exists uid d))
      (with_passkey_challenges (fun rows => (rows ++ [{|
         pc_id := id; pc_kind := kind; pc_user_id := ch_user_id challenge;
         pc_token_version := ch_token_version challenge; pc_name := ch_name challenge;
         pc_state := ch_state challenge; pc_expires_at := t' + CHALLENGE_TTL |}])%list)) d) ;;;
  ret (response 200 [("set-cookie", challenge_cookie kind id CHALLENGE_TTL)] (JsonBody options)).

(** [take_challenge]: [DELETE .. RETURNING] *)
Definition take_challenge (kind : string) : M Challenge :=
  id <- require (cookie_id h kind) AuthenticationRequired ;;
  t <~ now ;;
  row <- exec (fun d => (fetch (live_challenge id kind t) (passkey_challenges d),
                         with_passkey_challenges (delete (live_challenge id kind t)) d)) ;;
  require (option_map challenge_of row) AuthenticationRequired.

(** [list] *)
Definition list_passkeys : M (list PasskeyInfo) :=
  auth <- auth_user st h ;;
  query (fun d => map info_of (foldr insert_recent []
    (select (fun r => beq (pk_user_id r) (au_user_id auth)) (passkeys d)))).

(** [register_start], after the rate limiter *)
Definition register_start_limited (auth : AuthUser) (input_name : string) : M Response :=
  let name := trim input_name in
  guard (is_empty name || (100 <? length (chars name))%nat || any_control name)%bool
    (InputError ["Give your passkey a name of 1–100 characters."]) ;;;
  wa <- lift (webauthn (st_origin st)) ;;
  acquire ;;;
  found <- User_get (au_user_id auth) ;;
  user <- require found AuthenticationRequired ;;
  ids <- query (fun d => map pk_credential_id (select (fun r => beq (pk_user_id r) (u_id user)) (passkeys d))) ;;
  guard (MAX_PASSKEYS <=? Z.of_nat (length ids))%Z
    (InputError ["Remove a passkey before adding another (limit: 20)."]) ;;;
  version <- query (active_version (u_id user)) ;;
  version <- require version DbError ;;
  seed <~ random_bytes 32 ;;
  ' (options, registration) <- lift (map_err InternalError
      (start_passkey_registration wa seed (u_id user) (u_username user) (u_name user) ids)) ;;
  state <- lift (encode registration) ;;
  save_challenge "register"
    {| ch_user_id := Some (u_id user); ch_token_version := Some version; ch_name := Some name;
       ch_state := state |} (require_resident_key options).
Definition register_start (input_name : string) : prog (result LoginError Response) :=
  auth <-? convert App (auth_user st h) ;;
  _ <-? rate_limit ;;
  convert App (register_start_limited auth input_name).

(** [register_finish], after the rate limiter *)
Definition finish_tx (auth : AuthUser) (challenge : Challenge) (passkey : Passkey)
    : M PasskeyInfo :=
  version <- query (active_version (au_user_id auth)) ;;
  guard (is_none version || negb (beq version (ch_token_version challenge)))%bool
    AuthenticationRequired ;;;
  n <- query (fun d => count (fun r => beq (pk_user_id r) (au_user_id auth)) (passkeys d)) ;;
  guard (MAX_PASSKEYS <=? Z.of_nat n)%Z (InputError ["Passkey limit reached."]) ;;;
  id <~ new_uuid ;;
  t <~ now ;;
  let info := {| pi_id := id; pi_name := unwrap_or (ch_name challenge) ""; pi_created_at := t;
                 pi_last_used_at := None |} in
  credential <- lift (encode passkey) ;;
  stmt (fun d =>
    insert_checked (existsb (fun r => beq (pk_id r) id || beq (pk_credential_id r) (cred_id passkey))%bool
                      (passkeys d))
      (user_exists (au_user_id auth) d)
      (with_passkeys (fun rows => (rows ++ [{|
         pk_id := id; pk_user_id := au_user_id auth; pk_credential_id := cred_id passkey;
         pk_name := pi_name info; pk_credential := credential; pk_created_at := t;
         pk_last_used_at := None |}])%list)) d) ;;;
  audit_save (with_details (JObj [("passkey_id", JStr (uuid_to_string id)); ("name", JStr (pi_name info))])
                (in_ctx ctx (by_user (au_user_id auth) (audit PasskeyCreated)))) ;;;
  ret info.
Definition info_json (i : PasskeyInfo) : Json :=
  JObj [("id", JStr (uuid_to_string (pi_id i))); ("name", JStr (pi_name i));
        ("created_at", JNum (pi_created_at i));
        ("last_used_at", match pi_last_used_at i with Some t => JNum t | None => JNull end)].
Definition register_finish_limited (auth : AuthUser) (input : Json) : M Response :=
  acquire ;;;
  challenge <- take_challenge "register" ;;
  guard (negb (beq (ch_user_id challenge) (Some (au_user_id auth)))) AuthenticationRequired ;;;
  registration <- lift (decode (ch_state challenge)) ;;
  credential <- require (parse_register_credential input) (InputError ["Invalid passkey response."]) ;;
  wa <- lift (webauthn (st_origin st)) ;;
  passkey <- require (ok (finish_passkey_registration wa credential registration)) AuthenticationRequired ;;
  info <- transaction (finish_tx auth challenge passkey) ;;
  ret (response 201 [("set-cookie", challenge_cookie "register" "" 0)] (JsonBody (info_json info))).
Definition register_finish (input : Json) : prog (result LoginError Response) :=
  auth <-? convert App (auth_user st h) ;;
  _ <-? rate_limit ;;
  convert App (register_finish_limited auth input).

(** [login_start] *)
Definition login_start_limited : M Response :=
  wa <- lift (webauthn (st_origin st)) ;;
  seed <~ random_bytes 32 ;;
  ' (options, authentication) <-
    lift (map_err InternalError (start_discoverable_authentication wa seed)) ;;
  acquire ;;;
  state <- lift (encode authentication) ;;
  save_challenge "login"
    {| ch_user_id := None; ch_token_version := None; ch_name := None; ch_state := state |}
    (field "publicKey" options).
Definition login_start : prog (result LoginError Response) :=
  _ <-? rate_limit ;; convert App login_start_limited.

(** The transaction of [login_finish]: verify against the stored credential,
    update it, and issue a session. *)
Definition method_details (more : list (string * Json)) : Json := JObj (("method", JStr "passkey") :: more).
Definition login_tx (wa : Webauthn) (credential : PublicKeyCredential)
    (authentication : DiscoverableAuthentication) (user_id : Uuid) (credential_id : string)
    : M TokenPair :=
  atomic_tx (
    stored <-! query (fun d =>
      fetch (fun r => beq (pk_user_id r) user_id && beq (pk_credential_id r) credential_id
                      && existsb (fun u : UserRow => beq (u_id u) (pk_user_id r) && u_active u) (users d))%bool
            (passkeys d)) ;;
    match stored with
    | None => Ret (false, Err AuthenticationRequired)
    | Some row =>
        passkey <-! lift (decode (pk_credential row)) ;;
        match opt_filter user_verified
                (ok (finish_discoverable_authentication wa credential authentication passkey)) with
        | None =>
            _ <-! audit_save (with_details (method_details [])
                    (in_ctx ctx (by_user user_id (audit LoginFailed)))) ;;
            commit_with (Err AuthenticationRequired)
        | Some result =>
            encoded <-! lift (encode (update_credential result passkey)) ;;
            t <~ now ;;
            _ <-! exec (fun d => (tt, with_passkeys
                    (update (fun r => beq (pk_id r) (pk_id row)) (set_credential encoded t)) d)) ;;
            found <-! User_get user_id ;;
            user <-! require found AuthenticationRequired ;;
            roles <-! User_get_roles user ;;
            tokens <-! generate_token_pair user_id roles (st_signing_key st) ;;
            _ <-! audit_save (with_details
                    (method_details [("passkey_id", JStr (uuid_to_string (pk_id row)))])
                    (in_ctx ctx (by_user user_id (audit LoginSuccess)))) ;;
            commit_with (Ok tokens)
        end
    end).

(** [login_finish], after the rate limiter *)
Definition login_finish_limited (redirect_uri : option string) (input : Json) : M Response :=
  acquire ;;;
  challenge <- take_challenge "login" ;;
  authentication <- lift (decode (ch_state challenge)) ;;
  credential <- require (parse_credential input) AuthenticationRequired ;;
  wa <- lift (webauthn (st_origin st)) ;;
  ' (user_id, credential_id) <-
    require (ok (identify_discoverable_authentication wa credential)) AuthenticationRequired ;;
  tokens <- login_tx wa credential authentication user_id credential_id ;;
  resp <- lift (browser_login_response tokens redirect_uri) ;;
  ret (map_headers (h_append "set-cookie" (challenge_cookie "login" "" 0)) resp).
Definition login_finish (redirect_uri : option string) (input : Json) : prog (result LoginError Response) :=
  _ <-? rate_limit ;; convert App (login_finish_limited redirect_uri input).

(** [delete] *)
Definition delete_passkey (id : Uuid) : M Z :=
  auth <- auth_user st h ;;
  transaction (
    n <- exec (fun d =>
      let p := fun r => (beq (pk_id r) id && beq (pk_user_id r) (au_user_id auth))%bool in
      (count p (passkeys d), with_passkeys (delete p) d)) ;;
    guard (beq n 0%nat) NotFound ;;;
    revoke_all_user_tokens (au_user_id auth) ;;;
    exec (fun d => (tt, with_passkey_challenges
      (delete (fun r => beq (pc_user_id r) (Some (au_user_id auth)))) d)) ;;;
    audit_save (with_details (JObj [("passkey_id", JStr (uuid_to_string id))])
                  (in_ctx ctx (by_user (au_user_id auth) (audit PasskeyDeleted))))) ;;;
  ret 204.
End Passkeys.
