(* ===== verification/PasskeyFacts.v ===== *)
(** * What a passkey login guarantees *)

From S2P Require Import Prelude RStr RateLimit Schema Sys External Users AuditLog Net Settings Token TokenFacts Sessions Http LoginFlow LoginFacts Frame Passkeys.
Local Open Scope Z_scope.
Local Open Scope string_scope.

#[export] Instance challenges_blind : SessionBlind passkey_challenges.
Proof. by split. Qed.
#[export] Instance passkeys_blind : SessionBlind passkeys.
Proof. by split. Qed.

Section PasskeyFacts.
Context {E : Env} {HA : Hashing} {ED : Ed25519} {JC : JwtCodec Claims} {UL : UuidLib} {AE : Aead}
        {SJ : SerdeJson TokenPair} {JL : JsonLib} {HL : HttpLib} {URL : UrlLib} {UP : UrlParts}
        {WL : WebauthnLib} {JR : JsonText PasskeyRegistration} {JP : JsonText Passkey}
        {JA : JsonText DiscoverableAuthentication}.
Variable st : AppState.
Variable ctx : AuditContext.
Variable h : list (string * string).

(** ** A challenge is good for one attempt *)
Definition open_challenges (id kind : string) (d : Db) : nat :=
  count (challenge_row id kind) (passkey_challenges d).

Lemma fewer_challenges id kind d d' :
  passkey_challenges d' = passkey_challenges d -> fewer (open_challenges id kind) d d'.
Proof. unfold fewer, open_challenges. by intros ->. Qed.

Lemma same_login_tx wa credential authentication user_id credential_id :
  respects (on_db (same passkey_challenges))
    (login_tx st ctx wa credential authentication user_id credential_id).
Proof.
  apply respects_atomic_tx; [apply _|]. unfold User_get, User_get_roles. respects_walk; by try apply blind_users.
Qed.

(** Taking a challenge pays for what follows. *)
Lemma take_challenge_spends {B} id kind (win : result AppError B -> bool) (k : Challenge -> M B) :
  (forall e, win (Err e) = false) -> cookie_id h kind = Some id ->
  (forall c, respects (on_db (fewer (open_challenges id kind))) (k c)) ->
  spends (fun w => open_challenges id kind (db w)) win 0 (bindM (take_challenge h kind) k).
Proof.
  intros Hw Hid Hk. unfold take_challenge. rewrite Hid.
  apply spends_bindM_assoc. cbn [require ok_or]. unfold bindM at 1. cbn [bind].
  apply spends_bind_assoc, spends_bind; [apply respects_now; apply _|]. intros t.
  apply spends_bindM_assoc, spends_exec; [done|]. intros d.
  exists (count (live_challenge id kind t) (passkey_challenges d)). cbn [fst snd].
  split; [apply Nat.eq_le_incl, (count_delete_spend (live_challenge id kind t) (challenge_row id kind));
          intros r Hr; unfold live_challenge in Hr; by bool_hyp|].
  destruct (fetch (live_challenge id kind t) (passkey_challenges d)) as [row|] eqn:Ef;
    cbn [option_map require ok_or]; unfold bindM; cbn [bind]; [|simpl; rewrite Hw; lia].
  apply spends_paid; [|apply Hk]. apply fetch_Some in Ef as [Hin Hl].
  apply count_pos. by exists row.
Qed.

(** A login that succeeds used up its challenge. *)
Lemma login_finish_spends id redirect_uri input :
  cookie_id h "login" = Some id ->
  spends (fun w => open_challenges id "login" (db w)) is_ok 0 (login_finish st ctx h redirect_uri input).
Proof.
  intros Hid. unfold login_finish, rate_limit, bindE.
  apply (spends_bind (open_challenges id "login"));
    [unfold convert; apply respects_bind; [apply respects_rl; apply _|done]|].
  intros [u|e]; [|simpl; lia]. apply (spends_convert (open_challenges id "login")).
  unfold login_finish_limited. apply spends_bindM; [done|apply respects_acquire; apply _|]. intros _.
  apply take_challenge_spends; [done|done|]. intros c. respects_walk.
  eapply respects_mono; [|apply same_login_tx]. intros w w'. apply fewer_challenges.
Qed.
End PasskeyFacts.

(** A login challenge is good for one attempt.  However the requests that
    answer it interleave with requests that do not issue it anew, whatever they
    present and whether they succeed or fail, at most as many logins succeed as
    the challenge has rows left; one row is one login. *)
Theorem passkey_challenge_single_use {E : Env} {HA : Hashing} {ED : Ed25519} {JC : JwtCodec Claims}
    {UL : UuidLib} {AE : Aead} {SJ : SerdeJson TokenPair} {JL : JsonLib} {HL : HttpLib} {URL : UrlLib}
    {UP : UrlParts} {WL : WebauthnLib} {JR : JsonText PasskeyRegistration} {JP : JsonText Passkey}
    {JA : JsonText DiscoverableAuthentication} st id attempts others sched w :
  Forall (fun p => exists ctx h redirect_uri input,
            cookie_id h "login" = Some id /\ p = login_finish st ctx h redirect_uri input) attempts ->
  Forall (bystander (open_challenges id "login") is_ok) others ->
  let s := pool_run sched ((others ++ attempts)%list, w) in
  (wins is_ok s.1 + open_challenges id "login" (db s.2) <= open_challenges id "login" (db w))%nat.
Proof.
  intros Ha Ho s.
  apply (pool_spends (fun w => open_challenges id "login" (db w)) is_ok ((others ++ attempts)%list, w) s);
    [apply pool_run_star|].
  apply Forall_app. split.
  - eapply Forall_impl; [exact Ho|]. intros p. apply spends_bystander.
  - eapply Forall_impl; [exact Ha|]. intros p (ctx & h & redirect_uri & input & Hid & ->).
    by apply login_finish_spends.
Qed.

(** ** What a login checks *)
Section Soundness.
Context {E : Env} {HA : Hashing} {ED : Ed25519} {JC : JwtCodec Claims} {UL : UuidLib} {AE : Aead}
        {SJ : SerdeJson TokenPair} {JL : JsonLib} {HL : HttpLib} {URL : UrlLib} {UP : UrlParts}
        {WL : WebauthnLib} {JR : JsonText PasskeyRegistration} {JP : JsonText Passkey}
        {JA : JsonText DiscoverableAuthentication}.
Variable st : AppState.
Variable ctx : AuditContext.
Variable h : list (string * string).

(** A stored credential of an active user that answers the ceremony, with the
    user verified. *)
Definition verified_by (d : Db) (wa : Webauthn) (credential : PublicKeyCredential)
    (authentication : DiscoverableAuthentication) (user_id : Uuid) (credential_id : string)
    (row : PasskeyRow) : Prop :=
  row ∈ passkeys d /\ pk_user_id row = user_id /\ pk_credential_id row = credential_id /\
  (exists u : UserRow, u ∈ users d /\ u_id u = user_id /\ u_active u = true) /\
  exists passkey result, decode (pk_credential row) = Ok passkey /\
    finish_discoverable_authentication wa credential authentication passkey = Ok result /\
    user_verified result = true.

(** What a login leaves: the passkey's counter moved on, one more session of the
    user, and an entry in the log. *)
Definition logged_in (passed : Z -> Prop) (d : Db) (row : PasskeyRow) (session : RefreshTokenRecord) (d' : Db)
    : Prop :=
  exists credential t, passed t /\
    only_audit (with_refresh_tokens (fun rows => rows ++ [session])%list
      (with_passkeys (update (fun r => beq (pk_id r) (pk_id row)) (set_credential credential t)) d)) d'.

Lemma logged_in_challenges passed d row session d' :
  logged_in passed d row session d' -> passkey_challenges d' = passkey_challenges d.
Proof. intros (credential & t & _ & Hd). exact (f_equal passkey_challenges Hd). Qed.

Lemma login_tx_wp wa credential authentication user_id credential_id w :
  wp (login_tx st ctx wa credential authentication user_id credential_id) w
    (fun tokens w' => exists row session,
       verified_by (db w) wa credential authentication user_id credential_id row /\
       issued_pair (during w w') user_id (map ro_name (roles_of user_id (db w))) (st_signing_key st)
         (db w) tokens session /\
       logged_in (during w w') (db w) row session (db w'))
    (fun _ w' => refresh_tokens (db w') = refresh_tokens (db w) /\ passkeys (db w') = passkeys (db w)).
Proof.
  apply wp_atomic_tx; [|by intros e w1 ->]. unfold User_get, User_get_roles.
  wpm; [|done]. destruct (fetch _ (passkeys _)) as [row|] eqn:Ef; [|wpm]. cbn [db bump] in *.
  apply fetch_Some in Ef as [Hin Hp]. rewrite !andb_true_iff, existsb_exists in Hp.
  destruct Hp as [[Hu Hc] (u & Hu1 & Hu2)]. bool_hyp. apply list_elem_of_In in Hu1.
  wpm; [|done]. destruct (opt_filter _ _) as [result|] eqn:Eo.
  - apply opt_filter_Some in Eo as [Eo Hv].
    destruct (finish_discoverable_authentication _ _ _ _) as [r0|] eqn:Ev; [|done]. injection Eo as ->.
    wpm; [|done]. wpm. wpm; [|done]. cbn [db bump set_db] in *.
    wpm; [|done]. wpm; [|done]. wpm; [|done]. wpm; [|done]. wpm; [|done]. wpm.
    match goal with Hx : run (audit_save ?e) ?wa = (_, _) |- _ =>
      pose proof (only_audit_save e wa) as Ho; rewrite Hx in Ho; cbn [snd] in Ho;
      pose proof (run_passes _ _ _ _ (passes_audit_save e) Hx) as T1 end.
    match goal with Hx : option_map u_row (fetch _ _) = Some ?u1 |- _ =>
      assert (Hid : u_id u1 = user_id);
        [destruct (fetch _ _) as [r1|] eqn:Er; [|done]; injection Hx as <-;
         apply fetch_Some in Er as [_ Er]; by bool_hyp|] end.
    match goal with Hx : run (generate_token_pair _ _ _) _ = _ |- _ =>
      rewrite Hid in Hx; pose proof (run_passes _ _ _ _ (passes_generate_token_pair _ _ _) Hx) as T2;
      apply generate_token_pair_ok in Hx as (session & Hi & Hd) end.
    cbn [db bump set_db tick] in *.
    match goal with Hx : db ?w1 = db ?w0, Hy : (tick ?w0 <= tick ?w1)%nat |- _ => rewrite <- Hx in Ho end.
    exists row, session. split; [|split].
    + split; [done|]. split; [done|]. split; [done|]. split; [exists u; split; [done|]; split; [congruence|done]|].
      by do 2 eexists.
    + eapply issued_pair_mono; [|exact Hi]. intros t. apply during_mono; cbn; lia.
    + do 2 eexists. split; [|rewrite <- Hd; exact Ho]. eexists. split; [|reflexivity]. cbn. lia.
  - wpm; [|done]. wpm. match goal with Hx : run (audit_save _) _ = _ |- _ => apply audit_save_only in Hx as [f Hf] end.
    match goal with Hd : db ?w1 = db _ |- context [db ?w1] => rewrite Hd, Hf end. done.
Qed.

Ltac failed :=
  right; cbn [db bump set_db] in *;
  repeat match goal with H : db ?w1 = _ |- context [db ?w1] => rewrite H end; split; reflexivity.

(** C15: a passkey login is a verified passkey.  It succeeds only when the
    request's cookie names a login challenge that is stored and, when the
    challenge is taken, has not expired, and the library accepts the request's
    answer to that very challenge, with the user verified, under a credential
    stored for an active user, the user the answer identifies.  It returns one
    new token pair of that user, with the roles and the session generation held
    now; the database afterwards is the one before without the challenge, with
    the used passkey brought up to date, the one session of the pair and an
    entry in the log.  A failed attempt issues no token and changes no passkey,
    unless only its redirect was refused. *)
Theorem passkey_login_sound redirect_uri input res w w' :
  run (login_finish_limited st ctx h redirect_uri input) w = (res, w') ->
  match res with
  | Ok r => exists id ch authentication credential wa uid cid row session tokens,
      let t := clock (S (tick w)) in
      let d := with_passkey_challenges (delete (live_challenge id "login" t)) (db w) in
      cookie_id h "login" = Some id /\ ch ∈ passkey_challenges (db w) /\
      pc_id ch = id /\ pc_kind ch = "login" /\ t < pc_expires_at ch /\ decode (pc_state ch) = Ok authentication /\
      parse_credential input = Some credential /\ webauthn (st_origin st) = Ok wa /\
      identify_discoverable_authentication wa credential = Ok (uid, cid) /\
      verified_by (db w) wa credential authentication uid cid row /\
      issued_pair (during w w') uid (map ro_name (roles_of uid (db w))) (st_signing_key st) (db w)
        tokens session /\
      logged_in (during w w') d row session (db w') /\
      exists r0, browser_login_response tokens redirect_uri = Ok r0 /\
        r = map_headers (h_append "set-cookie" (challenge_cookie "login" "" 0)) r0
  | Err e =>
      e = InputError ["Invalid redirect_uri"] \/
      (refresh_tokens (db w') = refresh_tokens (db w) /\ passkeys (db w') = passkeys (db w))
  end.
Proof.
  intros Hrun. wp_start Hrun. unfold login_finish_limited, take_challenge, acquire.
  wpm; [|failed]. wpm; [|failed]. wpm. wpm; [|failed]. wpm; [|failed].
  do 3 (wpm; [|failed]). wpm; [|failed].
  match goal with p : Uuid * string |- _ => destruct p as [uid cid] end.
  cbn [db bump] in *. wpm; match goal with Hx : run (login_tx _ _ _ _ _ _ _) _ = _ |- _ =>
    pose proof (wp_run _ _ _ _ _ _ (login_tx_wp _ _ _ _ _ _) Hx) as Ht end.
  - destruct Ht as (row & session & Hv & Hi & Hl). cbn [db bump set_db] in *.
    wpm.
    + wpm. destruct (fetch _ _) as [ch|] eqn:Ef; [|done]. apply fetch_Some in Ef as [Hin Hlive].
      match goal with Hx : option_map challenge_of _ = Some _ |- _ => injection Hx as <- end.
      pose proof Hlive as Hc. unfold live_challenge, challenge_row in Hc. bool_hyp.
      exists a, ch. do 8 eexists. cbv zeta. do 2 (split; [eassumption|]).
      split; [done|]. split; [done|].
      split; [match goal with Hx : _ < pc_expires_at ch |- _ => exact Hx end|].
      do 3 (split; [eassumption|]).
      split; [by apply ok_Some|]. split; [exact Hv|].
      split; [eapply issued_pair_mono; [|exact Hi]; intros t; apply during_mono; cbn; lia|].
      split; [|eexists; split; [eassumption|reflexivity]].
      destruct Hl as (blob & t & Hp & Hl). exists blob, t. split; [|exact Hl].
      revert Hp. apply during_mono; cbn; lia.
    + left. match goal with Hx : browser_login_response _ _ = Err _ |- _ =>
        unfold browser_login_response, redirect_or in Hx; rename Hx into Hb end.
      destruct (opt_filter _ _); [|done]. destruct (from_str _); [done|]. by injection Hb as <-.
  - right. exact Ht.
Qed.
End Soundness.
