(* ===== verification/TotpHandlers.v ===== *)
(** * Two-factor endpoints ([handlers/totp.rs])

    Status, enrolment, activation and removal of a user's second factor, and
    what an activation guarantees. *)

From S2P Require Import Prelude RStr RateLimit Schema Sys External Users AuditLog Net Settings Token TokenFacts Totp TotpFacts SessionDemo Http LoginFlow LoginDemo AccountFacts Frame.
Local Open Scope Z_scope.
Local Open Scope string_scope.

Definition DEFAULT_ISSUER : string := "Authere".

Record TotpStatus := { ts_enabled : bool; ts_pending : bool }.
Record EnrollResponse := { er_secret : string; er_otpauth_uri : string }.

Section TotpHandlers.
Context {E : Env} {HA : Hashing} {ED : Ed25519} {JC : JwtCodec Claims} {UL : UuidLib} {AE : Aead}
        {PH : PasswordHashing} {JL : JsonLib} {MAC : HmacSha1} {UE : UrlEncoding} {HL : HttpLib}.
Variable non_ascii_uppercase : string -> string.
Variable st : AppState.
(** Of the request: the audit context and the headers. *)
Variable ctx : AuditContext.
Variable h : list (string * string).

(** [audit_mfa] *)
Definition audit_mfa (event_type : AuditEventType) (user_id : Uuid) (actor_id : option Uuid) : prog unit :=
  _ <~ audit_save (in_ctx ctx (by_actor actor_id (by_user user_id (audit event_type)))) ;; Ret tt.

(** [get_my_totp_status] *)
Definition get_my_totp_status : M TotpStatus :=
  auth <- auth_user st h ;;
  acquire ;;;
  row <- UserTotp_get (au_user_id auth) ;;
  ret match row with
      | None => {| ts_enabled := false; ts_pending := false |}
      | Some t => if is_activated t then {| ts_enabled := true; ts_pending := false |}
                  else {| ts_enabled := false; ts_pending := true |}
      end.

(** [enroll_my_totp] *)
Definition enroll_my_totp : M EnrollResponse :=
  auth <- auth_user st h ;;
  acquire ;;;
  existing <- UserTotp_get (au_user_id auth) ;;
  guard (is_some_and existing is_activated)
    (UniqueError "TOTP is already enabled. Disable it first to re-enroll.") ;;;
  found <- User_get (au_user_id auth) ;;
  user <- require found NotFound ;;
  secret <~ generate_secret ;;
  encrypted <- encrypt_secret secret ;;
  upsert_pending (au_user_id auth) encrypted ;;;
  let issuer := unwrap_or (env_var "AUTHERE_TOTP_ISSUER") DEFAULT_ISSUER in
  ret {| er_secret := encode_base32 secret;
         er_otpauth_uri := build_otpauth_uri issuer (u_username user) secret |}.

(** [activate_my_totp]: its transaction, and the whole *)
Definition activate_tx (user_id : Uuid) (code : string) : M (list string) :=
  found <- UserTotp_get user_id ;;
  pending <- require (opt_filter (fun t => negb (is_activated t)) found)
               (InputError ["No pending TOTP enrollment"]) ;;
  secret <- lift (decrypt_secret (ut_secret_encrypted pending)) ;;
  t <~ now ;;
  step <- require (verify_code secret code t None) AuthenticationRequired ;;
  activated <- totp_activate user_id (ut_secret_encrypted pending) step ;;
  guard (negb activated) AuthenticationRequired ;;;
  recovery_codes <~ generate_recovery_codes ;;
  store_recovery_codes non_ascii_uppercase user_id recovery_codes ;;;
  ret recovery_codes.
Definition activate_my_totp (code : string) : M (list string) :=
  auth <- auth_user st h ;;
  recovery_codes <- transaction (activate_tx (au_user_id auth) code) ;;
  acquire ;;;
  _ <~ audit_mfa MfaEnabled (au_user_id auth) None ;;
  ret recovery_codes.

(** [disable_my_totp] *)
Definition disable_my_totp (current_password : string) : M Z :=
  auth <- auth_user st h ;;
  acquire ;;;
  found <- User_get (au_user_id auth) ;;
  user <- require found NotFound ;;
  try_password_login user current_password ;;;
  deleted <- totp_delete (au_user_id auth) ;;
  guard (negb deleted) NotFound ;;;
  _ <~ audit_mfa MfaDisabled (au_user_id auth) None ;;
  ret 204.

(** [admin_disable_user_totp] *)
Definition admin_disable_user_totp (id : Uuid) : M Z :=
  admin <- admin_user st h ;;
  acquire ;;;
  found <- User_get id ;;
  require found NotFound ;;;
  deleted <- totp_delete id ;;
  guard (negb deleted) NotFound ;;;
  _ <~ audit_mfa MfaDisabled id (Some (au_user_id admin)) ;;
  ret 204.
End TotpHandlers.

(** ** What an activation guarantees *)
Section Facts.
Context {E : Env} {HA : Hashing} {AE : Aead} {MAC : HmacSha1}.
Variable non_ascii_uppercase : string -> string.

(** The codes a user has stored, unused. *)
Definition unused_hashes (uid : Uuid) (d : Db) : list string :=
  map rc_code_hash (select (fun r => beq (rc_user_id r) uid && is_none (rc_used_at r))%bool (recovery_codes d)).

Lemma insert_codes_wp uid t codes w :
  wp (insert_codes non_ascii_uppercase uid t codes) w
    (fun _ w' => unused_hashes uid (db w')
                 = (unused_hashes uid (db w) ++ map (hash_recovery_code non_ascii_uppercase) codes)%list /\
                 user_totps (db w') = user_totps (db w))
    (fun _ _ => True).
Proof.
  revert w. induction codes as [|c codes IH]; intros w; cbn [insert_codes map].
  - by rewrite app_nil_r.
  - apply wp_bind. intros id w1 Hid. apply run_new_uuid in Hid as [-> ->]. apply wp_bindM, wp_call; [|done].
    intros [] w2 Hs. apply run_stmt_ok in Hs as (_ & d & Hd & ->). apply insert_checked_ok in Hd as (_ & _ & ->).
    eapply wp_mono; [apply IH| |done]. intros [] w3 [H1 H2]. rewrite H1, H2. split; [|done].
    unfold unused_hashes. simpl. rewrite select_app, map_app. unfold select at 2. cbn [List.filter].
    cbn [rc_user_id rc_used_at is_none is_some negb andb]. rewrite beq_refl. cbn [andb map rc_code_hash].
    by rewrite <- app_assoc.
Qed.

Lemma unused_after_delete uid (d : Db) :
  unused_hashes uid (with_recovery_codes (delete (fun r => beq (rc_user_id r) uid)) d) = [].
Proof.
  unfold unused_hashes. destruct (select _ _) as [|r rs] eqn:Es; [done|]. exfalso.
  assert (Hr : r ∈ r :: rs) by apply list_elem_of_here. rewrite <- Es in Hr.
  apply elem_of_select in Hr as [Hin Hp]. simpl in Hin. apply elem_of_delete in Hin as [_ Hd]. by bool_hyp.
Qed.

Lemma store_recovery_codes_wp uid codes w :
  wp (store_recovery_codes non_ascii_uppercase uid codes) w
    (fun _ w' => unused_hashes uid (db w') = map (hash_recovery_code non_ascii_uppercase) codes /\
                 user_totps (db w') = user_totps (db w))
    (fun _ _ => True).
Proof.
  unfold store_recovery_codes. wpm; [|done]. wpm. eapply wp_mono; [apply insert_codes_wp| |done].
  intros [] w' [-> ->]. cbn [db set_db bump]. by rewrite unused_after_delete.
Qed.

Lemma generate_codes_length n w codes w' :
  run (generate_codes n) w = (codes, w') -> List.length codes = n /\ db w' = db w.
Proof.
  revert w codes w'. induction n as [|n IH]; intros w codes w' H; cbn [generate_codes] in H;
    [by cbn [run] in H; injection H as <- <-|].
  apply run_bind_eq in H as (b & w1 & H1 & H). apply run_random in H1 as [-> ->].
  apply run_bind_eq in H as (rest & w2 & H2 & H). apply IH in H2 as [<- H2].
  cbn [run] in H. injection H as <- <-. by rewrite H2.
Qed.

(** Rows that wait for their first code. *)
Definition pending_factor (uid : Uuid) (blob : string) (u : UserTotp) : bool :=
  (beq (ut_user_id u) uid && beq (ut_secret_encrypted u) blob && is_none (ut_activated_at u))%bool.
(** What an activation by [code] at time [t] finds, and does at time [t']. *)
Definition activated_by (uid : Uuid) (code : string) (d d' : Db) (row : UserTotp) (step t t' : Z) : Prop :=
  row ∈ user_totps d /\ ut_user_id row = uid /\ ut_activated_at row = None /\
  (exists secret, decrypt_secret (ut_secret_encrypted row) = Ok secret /\
                  verify_code secret code t None = Some step) /\
  user_totps d' = update (pending_factor uid (ut_secret_encrypted row)) (set_activated t' step) (user_totps d).

Lemma activate_tx_wp uid code w :
  wp (activate_tx non_ascii_uppercase uid code) w
    (fun codes w' => exists row step,
       activated_by uid code (db w) (db w') row step (clock (S (tick w))) (clock (S (S (tick w)))) /\
       List.length codes = RECOVERY_CODE_COUNT /\
       unused_hashes uid (db w') = map (hash_recovery_code non_ascii_uppercase) codes)
    (fun _ _ => True).
Proof.
  unfold activate_tx, UserTotp_get, totp_activate. wpm; [|done].
  destruct (fetch _ _) as [row|] eqn:Ef; cbn [opt_filter]; [|by wpm].
  destruct (is_activated row) eqn:Ea; cbn [negb]; [by wpm|]. wpm; [|done].
  match goal with Hx : Some row = Some _ |- _ => injection Hx as <- end.
  wpm; [|done]. wpm. wpm; [|done]. wpm. wpm; [|done]. wpm. wpm; [|done]. wpm.
  apply wp_bindM. eapply wp_mono; [apply store_recovery_codes_wp| |done]. intros [] w' [Hu Ht]. wpm.
  match goal with Hx : run generate_recovery_codes _ = _ |- _ => apply generate_codes_length in Hx as [Hl Hd] end.
  exists row. eexists. split; [|by split]. apply fetch_Some in Ef as [Hin Hr]. cbn [db bump set_db] in *.
  split; [done|]. split; [by bool_hyp|]. split; [unfold is_activated in Ea; by destruct (ut_activated_at row)|].
  split; [by eexists|]. rewrite Ht, Hd. reflexivity.
Qed.
Lemma pending_row uid row :
  ut_user_id row = uid -> ut_activated_at row = None -> pending_factor uid (ut_secret_encrypted row) row = true.
Proof. unfold pending_factor. intros -> ->. by rewrite !beq_refl. Qed.
Lemma activated_row_spent uid code d d' row step t t' u :
  NoDup (map ut_user_id (user_totps d)) -> activated_by uid code d d' row step t t' ->
  u ∈ user_totps d' -> ut_user_id u = uid ->
  ut_activated_at u = Some t' /\ ut_last_used_step u = Some step /\
  forall blob step', step' <= step -> step_unused uid blob step' u = false.
Proof.
  intros Hnd (Hrow & Hr & Ha & _ & Hupd) Hu Hid. assert (Hp := pending_row _ _ Hr Ha). rewrite Hupd in Hu. apply elem_of_update in Hu as (u0 & Hu0 & ->).
  assert (ut_user_id u0 = uid) as Hid0 by (by destruct (pending_factor _ _ u0)).
  assert (u0 = row) as ->.
  { apply (fetch_key_elem ut_user_id) in Hu0; [|done]. apply (fetch_key_elem ut_user_id) in Hrow; [|done].
    rewrite Hid0 in Hu0. rewrite Hr in Hrow. congruence. }
  rewrite Hp. split; [done|]. split; [done|]. intros blob step' Hs. unfold step_unused. cbn.
  rewrite (proj2 (Z.ltb_ge _ _) Hs). apply andb_false_r.
Qed.
End Facts.

(** C37: a second factor is only switched on by a code of the enrolled secret.
    An activation that succeeds found a pending enrolment of the signed-in
    user and a code that its secret shows at that moment, which is two steps of
    the request after the user was authenticated; the next step marks exactly
    that enrolment as active with the code's time step spent, so that no login can present the
    code again, and the ten recovery codes it returns are the only ones the
    account has left, stored as hashes.  A failed one changes neither, unless
    only the connection for the audit entry was refused afterwards. *)
Theorem totp_activation_sound {E : Env} {HA : Hashing} {ED : Ed25519} {JC : JwtCodec Claims} {UL : UuidLib}
    {AE : Aead} {JL : JsonLib} {MAC : HmacSha1} {HL : HttpLib} non_ascii_uppercase st ctx h code res w w' :
  NoDup (map ut_user_id (user_totps (db w))) ->
  run (activate_my_totp non_ascii_uppercase st ctx h code) w = (res, w') ->
  match res with
  | Ok codes => exists auth w1 row step,
      run (auth_user st h) w = (Ok auth, w1) /\
      activated_by (au_user_id auth) code (db w) (db w') row step
        (clock (S (S (tick w1)))) (clock (S (S (S (tick w1))))) /\
      List.length codes = RECOVERY_CODE_COUNT /\
      unused_hashes (au_user_id auth) (db w') = map (hash_recovery_code non_ascii_uppercase) codes /\
      forall u, u ∈ user_totps (db w') -> ut_user_id u = au_user_id auth ->
        ut_activated_at u = Some (clock (S (S (S (tick w1))))) /\ ut_last_used_step u = Some step /\
        forall blob step', step' <= step -> step_unused (au_user_id auth) blob step' u = false
  | Err e =>
      user_totps (db w') = user_totps (db w) /\ recovery_codes (db w') = recovery_codes (db w) \/
      e = DbError /\ exists auth w1 row step, run (auth_user st h) w = (Ok auth, w1) /\
        activated_by (au_user_id auth) code (db w) (db w') row step
          (clock (S (S (tick w1)))) (clock (S (S (S (tick w1)))))
  end.
Proof.
  intros Hnd Hrun. wp_start Hrun. unfold activate_my_totp, audit_mfa, acquire. wpm;
    [|left; by erewrite auth_user_reads by eassumption].
  match goal with Hx : run (auth_user _ _) _ = _ |- _ => pose proof (auth_user_reads _ _ _ _ _ Hx) as Da end.
  apply wp_bindM, wp_transaction; [|intros e w2 Hd; left; by rewrite Hd, Da].
  eapply wp_mono; [apply activate_tx_wp| |done]. cbn [db bump]. rewrite Da.
  intros codes w2 (row & step & Hact & Hlen & Hunused) w3 Hd. rewrite <- Hd in *. cbn [tick bump] in Hact.
  match goal with Hx : run (auth_user _ _) _ = _ |- _ => rename Hx into Hau end.
  wpm; [|right; split; [done|]; exists a, w1, row, step; split; [done|];
         match goal with Hx : db _ = db w3 |- _ => rewrite Hx end; exact Hact].
  wpm. wpm. match goal with Hx : run (bind (audit_save _) _) _ = _ |- _ =>
    apply run_bind_eq in Hx as (? & w4 & Hx & Hy); cbn [run] in Hy; injection Hy as <- <-; apply audit_save_only in Hx as [f Hf] end.
  exists a, w1, row, step. cbn [db bump] in Hf.
  assert (Hact' : activated_by (au_user_id a) code (db w) (db w4) row step
                    (clock (S (S (tick w1)))) (clock (S (S (S (tick w1)))))).
  { destruct Hact as (? & ? & ? & ? & Hu). rewrite Hf. by repeat (split; [done|]). }
  split; [done|]. split; [exact Hact'|]. split; [done|].
  split; [by rewrite Hf|]. intros u. by eapply (activated_row_spent _ code (db w) _ row step).
Qed.


(** ** At a concrete enrolment *)
Module Demo.
(** Random bytes that differ from draw to draw, and a key for stored secrets. *)
Definition kek_text : string := "0123456789abcdef0123456789abcdef".
Definition totp_env : Env := {|
  clock := fun i => 1000 + Z.of_nat i;
  instant := fun i => (1000 + Z.of_nat i) * 1000000000;
  fault := fun _ => false;
  entropy := fun i n => String.concat "" (repeat (String (ascii_of_nat i) "") n);
  fresh_uuid := fun i => N.of_nat i;
  env_var := fun _ => Some kek_text |}.
#[local] Existing Instances totp_env plain_hashing plain_ed25519 login_jwt plain_uuid plain_aead
  plain_json plain_hmac plain_http.
Definition nonce_text : string := "nnnnnnnnnnnn".
Definition waiting : UserTotp := {|
  ut_user_id := 7; ut_secret_encrypted := nonce_text ++ ":" ++ kek_text ++ nonce_text ++ "s";
  ut_last_used_step := None; ut_activated_at := None; ut_created_at := 900; ut_updated_at := 900 |}.
Definition w_waiting : World := start (with_user_totps (fun _ => [waiting]) (db w_in)).
Definition h_ada : list (string * string) := [("authorization", "Bearer LA")].
Definition shown_code : string := TotpFacts.six_digits (hotp "s" 33).
Definition activation : M (list string) := activate_my_totp upper st ctx h_ada shown_code.

Lemma totp_activation_sound_witness :
  exists codes, run activation w_waiting = (Ok codes, (run activation w_waiting).2) /\
    List.length codes = 10%nat /\
    unused_hashes 7 (db (run activation w_waiting).2) = map (hash_recovery_code upper) codes.
Proof.
  assert (Hr : exists codes, run activation w_waiting = (Ok codes, (run activation w_waiting).2))
    by (eexists; apply run_to; vm_compute; reflexivity).
  destruct Hr as [codes Hr]. exists codes. split; [exact Hr|].
  pose proof (totp_activation_sound upper st ctx h_ada shown_code (Ok codes) w_waiting) as H.
  destruct (H (run activation w_waiting).2) as (auth & w1 & row & step & Ha & _ & Hl & Hu & _).
  - apply (bool_decide_eq_true_1 _). vm_compute. reflexivity.
  - exact Hr.
  - assert (Hid : (run (auth_user st h_ada) w_waiting).1 = Ok {| au_user_id := 7; au_roles := ["admin"] |})
      by (vm_compute; reflexivity).
    rewrite Ha in Hid. injection Hid as ->. split; [exact Hl|exact Hu].
Defined.
End Demo.
