(* ===== verification/AuditExport.v ===== *)
(** * The audit log's endpoints ([handlers/admin.rs])

    The paged listing, the filter of both endpoints, and the export as CSV,
    with the two properties a reader of the exported file relies on: a CSV
    parser reads back the records, and no cell runs as a formula. *)

From S2P Require Import Prelude RStr RateLimit Schema Sys External Users AuditLog Net Settings Token Http LoginFlow Frame.
Local Open Scope Z_scope.
Local Open Scope string_scope.

Definition EXPORT_LIMIT : Z := 50000.

Record AuditLogParams := {
  lp_limit : option Z; lp_offset : option Z; lp_user_id : option Uuid; lp_actor_id : option Uuid;
  lp_event_type : option string; lp_since : option Z; lp_until : option Z
}.

(** [parse_event_types] *)
Definition parse_event_types (s : option string) : option (list AuditEventType) :=
  match s with
  | None => None
  | Some raw =>
      match omap AuditLog.from_str
              (List.filter (fun s => negb (is_empty s)) (map trim (split_byte "," raw))) with
      | [] => None
      | types => Some types
      end
  end.

(** [build_query], with the builder's [limit] and [offset] *)
Definition build_query (params : AuditLogParams) (limit offset : option Z) : AuditLogQuery := {|
  q_user_id := lp_user_id params; q_actor_id := lp_actor_id params;
  q_event_types := parse_event_types (lp_event_type params);
  q_since := lp_since params; q_until := lp_until params;
  q_limit := limit; q_offset := offset |}.

Record AuditLogResponse := { alr_entries : list AuditLogRecord; alr_total : nat }.

Inductive ExportFormat : Type := FormatJson | FormatCsv.
Record AuditExportParams := {
  ep_format : ExportFormat; ep_user_id : option Uuid; ep_actor_id : option Uuid;
  ep_event_type : option string; ep_since : option Z; ep_until : option Z
}.

(** [AuditExportParams::to_list_params] *)
Definition to_list_params (p : AuditExportParams) : AuditLogParams := {|
  lp_limit := None; lp_offset := None; lp_user_id := ep_user_id p; lp_actor_id := ep_actor_id p;
  lp_event_type := ep_event_type p; lp_since := ep_since p; lp_until := ep_until p |}.

(** ** CSV *)

Definition dquote : ascii := "034".
Definition newline : ascii := "010".

(** The cells [csv_field] disarms. *)
Definition runs_as_formula (value : string) : bool :=
  (match trim_start value with String c _ => contains_byte c "=+-@" | "" => false end
   || match value with
      | String c _ => beq c "009"%char || beq c "013"%char || beq c newline
      | "" => false
      end)%bool.
Definition disarmed (value : string) : string := if runs_as_formula value then "'" ++ value else value.

(** [csv_field] *)
Definition needs_quotes (c : ascii) : bool :=
  (beq c ","%char || beq c newline || beq c "013"%char || beq c dquote)%bool.
Definition csv_field (value : string) : string :=
  let value := disarmed value in
  if any_byte needs_quotes value
  then String dquote (replace_byte dquote (String dquote (String dquote "")) value ++ String dquote "")
  else value.

Definition csv_columns : list string :=
  ["id"; "timestamp"; "event_type"; "user_id"; "username"; "actor_id"; "actor_username"; "ip_address";
   "user_agent"; "details"].

Section Csv.
Context {E : Env} {UL : UuidLib}.

(** The cells of one record. *)
Definition record_fields (r : AuditLogRecord) : list string :=
  [uuid_to_string (al_id (rec_row r)); pretty (al_timestamp (rec_row r)); al_event_type (rec_row r);
   unwrap_or (option_map uuid_to_string (al_user_id (rec_row r))) "";
   unwrap_or (rec_username r) "";
   unwrap_or (option_map uuid_to_string (al_actor_id (rec_row r))) "";
   unwrap_or (rec_actor_username r) "";
   unwrap_or (al_ip_address (rec_row r)) ""; unwrap_or (al_user_agent (rec_row r)) "";
   unwrap_or (al_details (rec_row r)) ""].

(** [records_to_csv]: every cell but the timestamp goes through [csv_field]. *)
Definition written (i : nat) (field : string) : string := if beq i 1%nat then field else csv_field field.
Definition record_line (r : AuditLogRecord) : string :=
  join "," (imap written (record_fields r)) ++ String newline "".
Definition csv_header : string := join "," csv_columns ++ String newline "".
Definition records_to_csv (records : list AuditLogRecord) : string :=
  csv_header ++ String.concat "" (map record_line records).

(** [export_filename] *)
Definition export_filename (format : ExportFormat) : prog string :=
  t <~ now ;;
  Ret ("authere-audit-" ++ pretty (Z.max t 0) ++ "." ++ match format with FormatJson => "json" | FormatCsv => "csv" end).
End Csv.

(** [serde_json::to_string_pretty] of the records. *)
Class RecordsJson := { to_string_pretty : list AuditLogRecord -> fallible string }.

Section Endpoints.
Context {E : Env} {HA : Hashing} {ED : Ed25519} {JC : JwtCodec Claims} {UL : UuidLib} {HL : HttpLib}
        {RJ : RecordsJson}.
Variable st : AppState.
Variable h : list (string * string).

(** [get_audit_log] *)
Definition get_audit_log (params : AuditLogParams) : M AuditLogResponse :=
  admin_user st h ;;;
  let limit := clamp (unwrap_or (lp_limit params) 50) 1 200 in
  let offset := Z.max (unwrap_or (lp_offset params) 0) 0 in
  acquire ;;;
  total <- audit_count (build_query params None None) ;;
  entries <- audit_execute (build_query params (Some limit) (Some offset)) ;;
  ret {| alr_entries := entries; alr_total := total |}.

(** [get_audit_event_types] *)
Definition get_audit_event_types : M (list string) :=
  admin_user st h ;;; ret (map as_str ALL).

(** [export_audit_log] *)
Definition export_audit_log (params : AuditExportParams) : M Response :=
  admin_user st h ;;;
  acquire ;;;
  records <- audit_execute (build_query (to_list_params params) (Some EXPORT_LIMIT) None) ;;
  filename <~ export_filename (ep_format params) ;;
  let disposition :=
    unwrap_or (Http.from_str ("attachment; filename=" ++ String dquote (filename ++ String dquote "")))
              "attachment" in
  match ep_format params with
  | FormatJson =>
      body <- lift (map_err (fun e => InternalError ("json serialize: " ++ e)) (to_string_pretty records)) ;;
      ret (response 200 [("content-disposition", disposition); ("content-type", "application/json")] (Text body))
  | FormatCsv =>
      ret (response 200 [("content-disposition", disposition); ("content-type", "text/csv; charset=utf-8")]
             (Text (records_to_csv records)))
  end.
End Endpoints.

(** ** Reading the file back
    A parser of RFC 4180 files whose lines end in a newline. *)
Inductive CsvState : Type := CellStart | Plain | Quoted | Closed.
Fixpoint parse_csv (q : CsvState) (cur : string) (row : list string) (s : string)
    : option (list (list string)) :=
  match s with
  | "" => match q, row with CellStart, [] => Some [] | _, _ => None end
  | String c s' =>
      match q with
      | Quoted => if beq c dquote then parse_csv Closed cur row s'
                  else parse_csv Quoted (cur ++ String c "") row s'
      | _ =>
          if beq c ","%char then parse_csv CellStart "" (row ++ [cur])%list s'
          else if beq c newline then option_map (cons (row ++ [cur])%list) (parse_csv CellStart "" [] s')
          else if beq c dquote then
            match q with
            | CellStart => parse_csv Quoted cur row s'
            | Closed => parse_csv Quoted (cur ++ String c "") row s'
            | _ => None
            end
          else match q with Closed => None | _ => parse_csv Plain (cur ++ String c "") row s' end
      end
  end.

Lemma needs_quotes_false c :
  needs_quotes c = false ->
  beq c ","%char = false /\ beq c newline = false /\ beq c dquote = false.
Proof. unfold needs_quotes. rewrite !orb_false_iff. intros [[[? ?] ?] ?]. done. Qed.

Lemma parse_plain s q cur row t :
  any_byte needs_quotes s = false -> (q = CellStart \/ q = Plain) ->
  exists q', (q' = CellStart \/ q' = Plain) /\
    parse_csv q cur row (s ++ t) = parse_csv q' (cur ++ s) row t.
Proof.
  revert q cur. induction s as [|c s IH]; intros q cur Hs Hq.
  - exists q. split; [done|]. by rewrite app_nil_r_s.
  - rewrite any_byte_cons in Hs. apply orb_false_iff in Hs as [Hc Hs]. destruct (needs_quotes_false c) as (H1 & H2 & H3); [done|].
    rewrite app_cons_s. cbn [parse_csv]. rewrite H1, H2, H3.
    destruct (IH Plain (cur ++ String c "")) as (q' & Hq' & Hp); [done|by right|].
    exists q'. split; [done|].
    destruct Hq as [->| ->]; (rewrite Hp; f_equal; by rewrite app_assoc_s).
Qed.

Lemma parse_quoted s cur row t :
  parse_csv Quoted cur row (replace_byte dquote (String dquote (String dquote "")) s ++ t)
  = parse_csv Quoted (cur ++ s) row t.
Proof.
  revert cur. induction s as [|c s IH]; intros cur; cbn [replace_byte]; [by rewrite app_nil_r_s|].
  destruct (beq c dquote) eqn:Ec; bool_hyp.
  - subst c. rewrite !app_assoc_s, !app_cons_s. cbn. rewrite IH, app_assoc_s. done.
  - rewrite app_cons_s. cbn [parse_csv]. rewrite (proj2 (beq_neq _ _) Ec), IH, app_assoc_s. done.
Qed.

(** A cell ends at a separator. *)
Definition after_cell (sep : ascii) (row : list string) (t : string) : option (list (list string)) :=
  if beq sep ","%char then parse_csv CellStart "" row t
  else option_map (cons row) (parse_csv CellStart "" [] t).
Definition separates (sep : ascii) : Prop := sep = ","%char \/ sep = newline.

(** [raw] is read as the cell [field]. *)
Definition reads_as (raw field : string) : Prop := forall row sep t,
  separates sep ->
  parse_csv CellStart "" row (raw ++ String sep t) = after_cell sep (row ++ [field])%list t.

Lemma unquoted_reads s : any_byte needs_quotes s = false -> reads_as s s.
Proof.
  intros Hs row sep t Hsep.
  destruct (parse_plain s CellStart "" row (String sep t)) as (q & Hq & ->); [done|by left|].
  destruct Hsep as [-> | ->], Hq as [-> | ->]; done.
Qed.

Lemma csv_field_reads v : reads_as (csv_field v) (disarmed v).
Proof.
  unfold csv_field. destruct (any_byte needs_quotes (disarmed v)) eqn:Eq; [|by apply unquoted_reads].
  intros row sep t Hsep. rewrite app_cons_s. cbn [parse_csv]. rewrite app_assoc_s.
  change (beq dquote ","%char) with false. change (beq dquote newline) with false.
  rewrite beq_refl, parse_quoted. destruct Hsep as [-> | ->]; done.
Qed.

Lemma parse_row raws fields row t :
  Forall2 reads_as raws fields -> raws <> [] ->
  parse_csv CellStart "" row (join "," raws ++ String newline t)
  = option_map (cons (row ++ fields)%list) (parse_csv CellStart "" [] t).
Proof.
  intros H. revert row. induction H as [|raw field raws fields Hr H IH]; intros row Hn; [done|].
  destruct raws as [|raw' raws].
  - inversion H; subst. cbn [join]. rewrite Hr by (by right). done.
  - rewrite join_cons, !app_assoc_s by done. change ("," ++ ?x) with (String "," x).
    rewrite Hr by (by left). unfold after_cell. rewrite beq_refl.
    cbn [String.append]. rewrite IH by done. by rewrite <- app_assoc.
Qed.

Lemma digits_value_all acc s v : digits_value acc s = Some v -> all_bytes is_ascii_digit s = true.
Proof.
  revert acc. induction s as [|a s IH]; intros acc; cbn [digits_value all_bytes]; [done|].
  destruct (is_ascii_digit a); [apply IH|done].
Qed.

Lemma pretty_unquoted (z : Z) : any_byte needs_quotes (pretty z) = false.
Proof.
  assert (Hn : forall n : N, any_byte needs_quotes (pretty n) = false).
  { intros n. apply any_byte_false. eapply all_bytes_impl; [|pose proof (parse_digits_pretty n) as Hp; unfold parse_digits in Hp; destruct (is_empty _); [done|];
      by apply digits_value_all in Hp].
    intros a. destruct a as [[] [] [] [] [] [] [] []]; done. }
  destruct z as [|p|p]; [done| |].
  - change (pretty (Z.pos p)) with (pretty (N.pos p)). apply Hn.
  - change (pretty (Z.neg p)) with ("-" ++ pretty (N.pos p)). rewrite any_byte_app, Hn. done.
Qed.

Lemma concat_cons s l : String.concat "" (s :: l) = s ++ String.concat "" l.
Proof. destruct l; [by rewrite app_nil_r_s|done]. Qed.

(** *** What a spreadsheet would run
    Stated on the characters of a cell, apart from the code: it begins, after
    any white space, with one of the four characters that start a formula, or
    its very first character is a tab or the end of a line. *)
Inductive white : string -> Prop :=
| white_nil : white ""
| white_cons c s : is_whitespace c = true -> white s -> white (c ++ s).
Inductive dangerous : string -> Prop :=
| dangerous_formula blanks c rest :
    white blanks -> c = "="%char \/ c = "+"%char \/ c = "-"%char \/ c = "@"%char ->
    dangerous (blanks ++ String c rest)
| dangerous_control c rest :
    c = "009"%char \/ c = "010"%char \/ c = "013"%char -> dangerous (String c rest).

Lemma trim_start_white s : exists blanks, white blanks /\ s = blanks ++ trim_start s.
Proof.
  unfold trim_start. revert s. fix IH 1. intros [|a s1]; [by exists ""; split; [constructor|]|].
  assert (Hno : exists blanks, white blanks /\ String a s1 = blanks ++ String a s1)
    by (by exists ""; split; [constructor|]).
  cbn [trim_with]. destruct (ws1 a) eqn:H1.
  { destruct (IH s1) as (blanks & Hw & Hs). exists (String a "" ++ blanks).
    split; [by constructor|]. cbn. by rewrite <- Hs. }
  destruct s1 as [|b s2]; [done|]. destruct (ws2 a b) eqn:H2.
  { destruct (IH s2) as (blanks & Hw & Hs). exists (String a (String b "") ++ blanks).
    split; [by constructor|]. cbn. by rewrite <- Hs. }
  destruct s2 as [|c s3]; [done|]. destruct (ws3 a b c) eqn:H3; [|done].
  destruct (IH s3) as (blanks & Hw & Hs). exists (String a (String b (String c "")) ++ blanks).
  split; [by constructor|]. cbn. by rewrite <- Hs.
Qed.

Lemma trim_start_whitespace c s : is_whitespace c = true -> trim_start (c ++ s) = trim_start s.
Proof.
  unfold trim_start. destruct c as [|a [|b [|d [|]]]]; try done; cbn; intros H.
  - by rewrite H.
  - destruct (ws1 a) eqn:H1; [|by rewrite H].
    unfold ws2 in H. destruct a as [[] [] [] [] [] [] [] []]; done.
  - destruct (ws1 a) eqn:H1; [unfold ws3 in H; destruct a as [[] [] [] [] [] [] [] []]; done|].
    destruct (ws2 a b) eqn:H2; [|by rewrite H].
    unfold ws2 in H2. unfold ws3 in H. destruct a as [[] [] [] [] [] [] [] []]; done.
Qed.
Lemma trim_start_app_white blanks s : white blanks -> trim_start (blanks ++ s) = trim_start s.
Proof. induction 1 as [|c blanks Hc _ IH]; [done|]. by rewrite app_assoc_s, trim_start_whitespace. Qed.

(** The test of the code decides it. *)
Lemma runs_as_formula_dangerous v : runs_as_formula v = true <-> dangerous v.
Proof.
  unfold runs_as_formula. rewrite orb_true_iff. split.
  - intros [H|H].
    + destruct (trim_start_white v) as (blanks & Hw & Hs). destruct (trim_start v) as [|c rest]; [done|].
      rewrite Hs. apply dangerous_formula; [done|].
      destruct c as [[] [] [] [] [] [] [] []]; try done; tauto.
    + destruct v as [|c rest]; [done|]. constructor. unfold newline in H.
      rewrite !orb_true_iff, !beq_eq in H. tauto.
  - intros [blanks c rest Hw Hc|c rest Hc].
    + left. rewrite trim_start_app_white by done.
      destruct Hc as [-> |[-> |[-> | ->]]]; by rewrite trim_start_solid.
    + right. destruct Hc as [-> |[-> | ->]]; done.
Qed.

(** What the record holds under a column's title. *)
Definition recorded `{UuidLib} (r : AuditLogRecord) (title : string) : option string :=
  let row := rec_row r in
  if beq title "id" then Some (uuid_to_string (al_id row))
  else if beq title "timestamp" then Some (pretty (al_timestamp row))
  else if beq title "event_type" then Some (al_event_type row)
  else if beq title "user_id" then option_map uuid_to_string (al_user_id row)
  else if beq title "username" then rec_username r
  else if beq title "actor_id" then option_map uuid_to_string (al_actor_id row)
  else if beq title "actor_username" then rec_actor_username r
  else if beq title "ip_address" then al_ip_address row
  else if beq title "user_agent" then al_user_agent row
  else if beq title "details" then al_details row
  else None.

(** How a field may appear in the file: the timestamp, a number, as it is; any
    other as it is unless a spreadsheet would run it, and never so that one would. *)
Definition shown (title field cell : string) : Prop :=
  if beq title "timestamp" then cell = field
  else ~ dangerous cell /\ (dangerous field -> cell = "'" ++ field) /\ (~ dangerous field -> cell = field).

Lemma disarmed_shown title field : beq title "timestamp" = false -> shown title field (disarmed field).
Proof.
  intros Ht. unfold shown. rewrite Ht, <- !runs_as_formula_dangerous. unfold disarmed.
  destruct (runs_as_formula field) eqn:Ef; [|by rewrite Ef].
  split; [|by split]. unfold runs_as_formula. by rewrite app_cons_s, trim_start_solid.
Qed.

Definition cells `{UuidLib} (r : AuditLogRecord) : list string :=
  imap (fun i field => if beq i 1%nat then field else disarmed field) (record_fields r).

Lemma records_parse `{UuidLib} records :
  parse_csv CellStart "" [] (String.concat "" (map record_line records)) = Some (map cells records).
Proof.
  induction records as [|r records IH]; [done|]. cbn [map]. rewrite concat_cons.
  unfold record_line at 1. rewrite app_assoc_s. cbn [String.append].
  erewrite parse_row; [by rewrite IH| |done].
  unfold record_fields. repeat constructor; try apply csv_field_reads. apply unquoted_reads, pretty_unquoted.
Qed.

(** C38: what a reader of the exported file sees.  A CSV parser reads back a
    header row with the ten titles and then, in order, one row per record; the
    cell under each title holds what the record holds under it (the empty text
    when it holds nothing).  No cell but the timestamp, a number, begins after
    white space with one of the characters that start a formula, nor with a
    tab, a carriage return or a line feed: a field that does is shown behind an
    apostrophe, and every other field is shown unchanged. *)
Theorem csv_export_correct `{UuidLib} records :
  let titles := ["id"; "timestamp"; "event_type"; "user_id"; "username"; "actor_id"; "actor_username";
                 "ip_address"; "user_agent"; "details"] in
  exists rows,
    parse_csv CellStart "" [] (records_to_csv records) = Some (titles :: rows) /\
    Forall2 (fun r row =>
      Forall2 (fun title cell => shown title (unwrap_or (recorded r title) "") cell) titles row) records rows.
Proof.
  intros titles. exists (map cells records). split.
  - unfold records_to_csv, csv_header. rewrite app_assoc_s. cbn [String.append].
    rewrite (parse_row _ csv_columns) by (done || (repeat constructor; by apply unquoted_reads)).
    by rewrite records_parse.
  - apply Forall2_fmap_r, Forall_Forall2_diag, Forall_true. intros r.
    repeat (constructor; [first [done|by apply disarmed_shown]|]). constructor.
Qed.
