(* ===== verification/SettingsHandlers.v ===== *)
(** * Settings and invitation management ([handlers/admin.rs])

    Reading and changing the settings, rotating the directory's service
    password, restarting, and managing invitations; what a change of the
    settings guarantees. *)

From S2P Require Import Prelude RStr RateLimit Schema Sys External Users AuditLog Net Settings Token TokenFacts SessionDemo Http LoginFlow LoginDemo Frame AppPasswords Invitations.
Local Open Scope Z_scope.
Local Open Scope string_scope.

Record LdapSettingsInput := {
  lsi_enabled : option bool; lsi_base_dn : option string; lsi_bind_address : option string;
  lsi_password_mode : option LdapPasswordMode
}.
Record UpdateSettingsInput := {
  usi_open_registration : option bool; usi_session_expiry_seconds : option Z;
  usi_ldap : option LdapSettingsInput
}.
Record SettingsResponse := {
  sr_open_registration : bool; sr_session_expiry_seconds : Z; sr_ldap : LdapSettings
}.

Definition bool_text (b : bool) : string := if b then "true" else "false".

Section SettingsHandlers.
Context {E : Env} {HA : Hashing} {ED : Ed25519} {JC : JwtCodec Claims} {UL : UuidLib} {JL : JsonLib}
        {PH : PasswordHashing} {HL : HttpLib} {RL : RandLib}.
Variable st : AppState.
Variable ctx : AuditContext.
Variable h : list (string * string).

(** The reads [get_settings] and [update_settings] answer with. *)
Definition read_settings : M SettingsResponse :=
  open_registration <- open_registration_enabled ;;
  session_expiry <- session_expiry_seconds ;;
  ldap_cfg <- load_ldap_config ;;
  ret {| sr_open_registration := open_registration; sr_session_expiry_seconds := session_expiry;
         sr_ldap := to_ldap_settings ldap_cfg |}.

(** [get_settings] *)
Definition get_settings : M SettingsResponse :=
  admin_user st h ;;; acquire ;;; read_settings.

(** [if let Some(v) = input { .. set_setting(key, text(v)) .. }]: the entry
    of the change record. *)
Definition set_given {A} (input : option A) (check : A -> result string A) (key : string)
    (text : A -> string) (entry : string) (json : A -> Json) : M (list (string * Json)) :=
  match input with
  | None => ret []
  | Some v =>
      v <- lift (map_err (fun e => InputError [e]) (check v)) ;;
      set_setting key (text v) ;;;
      ret [(entry, json v)]
  end.
Definition checked {A B} (validate : A -> result string B) (v : A) : result string A :=
  match validate v with Ok _ => Ok v | Err e => Err e end.

(** [apply_ldap_input] *)
Definition apply_ldap_input (input : LdapSettingsInput) : M (list (string * Json)) :=
  c1 <- set_given (lsi_enabled input) Ok KEY_LDAP_ENABLED bool_text "enabled" JBool ;;
  c2 <- set_given (lsi_base_dn input) (checked validate_base_dn) KEY_LDAP_BASE_DN trim "base_dn"
          (fun dn => JStr (trim dn)) ;;
  c3 <- set_given (lsi_bind_address input) (checked validate_bind_address) KEY_LDAP_BIND_ADDRESS trim
          "bind_address" (fun a => JStr (trim a)) ;;
  c4 <- set_given (lsi_password_mode input) Ok KEY_LDAP_PASSWORD_MODE mode_str "password_mode"
          (fun m => JStr (mode_str m)) ;;
  ret match (c1 ++ c2 ++ c3 ++ c4)%list with [] => [] | changes => [("ldap", JObj changes)] end.

(** [update_settings]: its transaction, and the whole *)
Definition update_settings_tx (admin : AuthUser) (input : UpdateSettingsInput) : M SettingsResponse :=
  c1 <- set_given (usi_open_registration input) Ok KEY_OPEN_REGISTRATION bool_text "open_registration" JBool ;;
  c2 <- set_given (usi_session_expiry_seconds input) validate_session_expiry_seconds
          KEY_SESSION_EXPIRY_SECONDS pretty "session_expiry_seconds" JNum ;;
  c3 <- match usi_ldap input with Some ldap => apply_ldap_input ldap | None => ret [] end ;;
  audit_try (with_details (JObj (c1 ++ c2 ++ c3))
    (in_ctx ctx (by_actor (Some (au_user_id admin)) (audit SettingsUpdated)))) ;;;
  read_settings.
Definition update_settings (input : UpdateSettingsInput) : M SettingsResponse :=
  admin <- admin_user st h ;;
  transaction (update_settings_tx admin input).

(** [generate_service_password], [regenerate_ldap_bind_password] *)
Definition generate_service_password : prog (option string) := generate_chars 32.
Definition rotate_service_password (admin : AuthUser) (password : string) : M string :=
  salt <~ random_bytes 16 ;;
  hash <- lift (map_err (fun e => InternalError ("Failed to hash password: " ++ e)) (argon2_hash salt password)) ;;
  acquire ;;;
  set_setting KEY_LDAP_SERVICE_PASSWORD_HASH hash ;;;
  audit_try (in_ctx ctx (by_actor (Some (au_user_id admin)) (audit LdapBindPasswordRotated))) ;;;
  ret password.
(** [None] on a panic. *)
Definition regenerate_ldap_bind_password : prog (option (result AppError string)) :=
  r <~ admin_user st h ;;
  match r with
  | Err e => Ret (Some (Err e))
  | Ok admin =>
      drawn <~ generate_service_password ;;
      match drawn with
      | None => Ret None
      | Some password => done <~ rotate_service_password admin password ;; Ret (Some done)
      end
  end.

(** [restart_service]; the signal that stops the server is sent later. *)
Definition restart_service : M Z :=
  admin <- admin_user st h ;;
  acquire ;;;
  audit_try (in_ctx ctx (by_actor (Some (au_user_id admin)) (audit SystemRestarted))) ;;;
  ret 202.

(** [list_invitations], [create_invitation], [delete_invitation] *)
Definition list_invitations : M (list InvitationWithStatus) :=
  admin_user st h ;;; acquire ;;; Invitation_list.
Definition create_invitation (input : CreateInvitationInput) : M (Z * Invitation) :=
  admin <- admin_user st h ;;
  Invitation_validate_input input ;;;
  invitation <~ Invitation_new input (au_user_id admin) ;;
  acquire ;;;
  Invitation_save invitation ;;;
  audit_try (with_details
    (JObj [("invite_id", JStr (inv_id invitation));
           ("label", match inv_label invitation with Some l => JStr l | None => JNull end)])
    (in_ctx ctx (by_actor (Some (au_user_id admin)) (audit InvitationCreated)))) ;;;
  ret (201, invitation).
Definition delete_invitation (id : string) : M Z :=
  admin <- admin_user st h ;;
  acquire ;;;
  deleted <- Invitation_delete id ;;
  guard (negb deleted) NotFound ;;;
  audit_try (with_details (JObj [("invite_id", JStr id)])
    (in_ctx ctx (by_actor (Some (au_user_id admin)) (audit InvitationDeleted)))) ;;;
  ret 204.
End SettingsHandlers.

(** ** What a change of the settings guarantees *)
Section Facts.
Context {E : Env}.

(** A key's value after an optional assignment. *)
Definition given {A} (input : option A) (key : string) (text : A -> string) (k : string)
    (old : option string) : option string :=
  match input with Some v => if beq key k then Some (text v) else old | None => old end.

Lemma set_given_wp {A} (input : option A) check key text entry json w :
  (forall v v', check v = Ok v' -> v' = v) ->
  wp (set_given input check key text entry json) w
    (fun _ w' => (forall v, input = Some v -> check v = Ok v) /\
       forall k, setting k (db w') = given input key text k (setting k (db w)))
    (fun _ _ => True).
Proof.
  intros Hc. unfold set_given. destruct input as [v|]; [|by wpm].
  wpm; [|done]. destruct (check v) as [v'|e] eqn:Ev; [|done]. cbn [map_err] in *.
  match goal with Hx : Ok _ = Ok _ |- _ => injection Hx as <- end. apply Hc in Ev as Heq. subst v'.
  unfold set_setting. wpm; [|done]. wpm. split; [by intros ? [= <-]|]. intros k. apply setting_set.
Qed.

(** What the stored settings read as. *)
Definition shows (d : Db) (r : SettingsResponse) : Prop :=
  sr_open_registration r = beq (setting KEY_OPEN_REGISTRATION d) (Some "true") /\
  sr_session_expiry_seconds r = session_expiry_of (setting KEY_SESSION_EXPIRY_SECONDS d) /\
  exists addr,
    parse_socket_addr (unwrap_or (non_blank (setting KEY_LDAP_BIND_ADDRESS d)) DEFAULT_LDAP_BIND_ADDRESS)
      = Some addr /\
    sr_ldap r = to_ldap_settings {|
      lc_enabled := beq (setting KEY_LDAP_ENABLED d) (Some "true");
      lc_base_dn := unwrap_or (non_blank (setting KEY_LDAP_BASE_DN d)) DEFAULT_LDAP_BASE_DN;
      lc_bind_address := addr;
      lc_service_password_hash := non_blank (setting KEY_LDAP_SERVICE_PASSWORD_HASH d);
      lc_password_mode := unwrap_or (match setting KEY_LDAP_PASSWORD_MODE d with
                                     | Some s => ok (mode_from_str s) | None => None end) PrimaryAndApp |}.

Lemma read_settings_wp w :
  wp read_settings w (fun r w' => db w' = db w /\ shows (db w) r) (fun _ _ => True).
Proof.
  unfold read_settings, open_registration_enabled, session_expiry_seconds, load_ldap_config, get_setting.
  do 2 (apply wp_bindM; wpm; [|done]; wpm).
  apply wp_bindM. do 3 (wpm; [|done]). wpm; [|done]. do 2 (wpm; [|done]). wpm. wpm.
  cbn [db bump] in *. split; [done|]. split; [done|]. split; [done|]. eexists. split; [eassumption|done].
Qed.

(** The stored text of every key after an update. *)
Definition ldap_after (l : LdapSettingsInput) (k : string) (old : option string) : option string :=
  given (lsi_password_mode l) KEY_LDAP_PASSWORD_MODE mode_str k
    (given (lsi_bind_address l) KEY_LDAP_BIND_ADDRESS trim k
      (given (lsi_base_dn l) KEY_LDAP_BASE_DN trim k
        (given (lsi_enabled l) KEY_LDAP_ENABLED bool_text k old))).
Definition settings_after (input : UpdateSettingsInput) (k : string) (old : option string) : option string :=
  let general := given (usi_session_expiry_seconds input) KEY_SESSION_EXPIRY_SECONDS pretty k
                   (given (usi_open_registration input) KEY_OPEN_REGISTRATION bool_text k old) in
  match usi_ldap input with Some l => ldap_after l k general | None => general end.

Definition admissible_ldap (l : LdapSettingsInput) : Prop :=
  (forall dn, lsi_base_dn l = Some dn -> validate_base_dn dn = Ok tt) /\
  (forall a, lsi_bind_address l = Some a -> is_some (parse_socket_addr a) = true).
Definition admissible (input : UpdateSettingsInput) : Prop :=
  (forall v, usi_session_expiry_seconds input = Some v ->
     MIN_SESSION_EXPIRY_SECONDS <= v <= MAX_SESSION_EXPIRY_SECONDS) /\
  (forall l, usi_ldap input = Some l -> admissible_ldap l).

Lemma checked_id {A B} (validate : A -> result string B) v v' :
  checked validate v = Ok v' -> v' = v /\ exists b, validate v = Ok b.
Proof. unfold checked. destruct (validate v) as [b|] eqn:Ev; [|done]. intros [= <-]. split; [done|by exists b]. Qed.

Lemma expiry_id v v' :
  validate_session_expiry_seconds v = Ok v' ->
  v' = v /\ MIN_SESSION_EXPIRY_SECONDS <= v <= MAX_SESSION_EXPIRY_SECONDS.
Proof. unfold validate_session_expiry_seconds. do 2 (case_match; [done|]). intros [= <-]. bool_hyp. lia. Qed.

Lemma apply_ldap_wp l w :
  wp (apply_ldap_input l) w
    (fun _ w' => admissible_ldap l /\ forall k, setting k (db w') = ldap_after l k (setting k (db w)))
    (fun _ _ => True).
Proof.
  unfold apply_ldap_input.
  assert (Hok : forall A (v v' : A), @Ok string A v = Ok v' -> v' = v) by (by intros A v v' [= <-]).
  assert (Hck : forall A B (f : A -> result string B) v v', checked f v = Ok v' -> v' = v)
    by (intros A B f v v' H; by apply checked_id in H as [-> _]).
  apply wp_bindM. eapply wp_mono; [apply set_given_wp, Hok| |done]. intros ? w1 [_ H1].
  apply wp_bindM. eapply wp_mono; [apply set_given_wp, Hck| |done]. intros ? w2 [B H2].
  apply wp_bindM. eapply wp_mono; [apply set_given_wp, Hck| |done]. intros ? w3 [D H3].
  apply wp_bindM. eapply wp_mono; [apply set_given_wp, Hok| |done]. intros ? w4 [_ H4]. wpm. split.
  - split; intros v Hv.
    + destruct (checked_id _ _ _ (B v Hv)) as [_ [[] Hb]]. exact Hb.
    + destruct (checked_id _ _ _ (D v Hv)) as [_ [s Hs]]. unfold validate_bind_address, ok_or in Hs.
      by destruct (parse_socket_addr v).
  - intros k. by rewrite H4, H3, H2, H1.
Qed.

Context {JL : JsonLib}.
Lemma audit_try_settings e w :
  wp (audit_try e) w (fun _ w' => settings (db w') = settings (db w)) (fun _ _ => True).
Proof.
  unfold audit_try. wpm. wpm. match goal with Hx : run (audit_save _) _ = _ |- _ => by apply audit_save_only in Hx as [f ->] end.
Qed.

Lemma update_settings_tx_wp ctx admin input w :
  wp (update_settings_tx ctx admin input) w
    (fun r w' => admissible input /\ shows (db w') r /\
       forall k, setting k (db w') = settings_after input k (setting k (db w)))
    (fun _ _ => True).
Proof.
  unfold update_settings_tx, settings_after.
  apply wp_bindM. eapply wp_mono; [apply set_given_wp; by intros v v' [= <-]| |done]. intros c1 w1 [_ H1].
  apply wp_bindM. eapply wp_mono;
    [apply set_given_wp; intros v v' Hv; by apply expiry_id in Hv as [-> _]| |done]. intros c2 w2 [A2 H2].
  apply wp_bindM. apply (wp_mono _ _ (fun _ w' => (forall l, usi_ldap input = Some l -> admissible_ldap l) /\
    forall k, setting k (db w') = match usi_ldap input with Some l => ldap_after l k (setting k (db w2))
                                  | None => setting k (db w2) end) _ (fun _ _ => True)); [| |done].
  { destruct (usi_ldap input) as [l|]; [|by wpm]. eapply wp_mono; [apply apply_ldap_wp| |done].
    intros c w3 [Hl Hs]. split; [by intros ? [= <-]|done]. }
  intros c3 w3 [A3 H3]. apply wp_bindM. eapply wp_mono; [apply audit_try_settings| |done]. intros [] w4 H4.
  eapply wp_mono; [apply read_settings_wp| |done]. intros r w5 [H5 Hr]. rewrite <- H5 in Hr.
  split; [split; [|exact A3]|split; [exact Hr|]].
  - intros v Hv. by apply A2, expiry_id in Hv as [_ ?].
  - intros k. rewrite H5. transitivity (setting k (db w3)); [unfold setting; by rewrite H4|].
    rewrite H3. destruct (usi_ldap input); by rewrite H2, H1.
Qed.
End Facts.

(** The answer shows what was given. *)
Definition answers (input : UpdateSettingsInput) (r : SettingsResponse) : Prop :=
  (forall b, usi_open_registration input = Some b -> sr_open_registration r = b) /\
  (forall v, usi_session_expiry_seconds input = Some v -> sr_session_expiry_seconds r = v) /\
  (forall l, usi_ldap input = Some l ->
     (forall b, lsi_enabled l = Some b -> ls_enabled (sr_ldap r) = b) /\
     (forall dn, lsi_base_dn l = Some dn -> ls_base_dn (sr_ldap r) = trim dn) /\
     (forall m, lsi_password_mode l = Some m -> ls_password_mode (sr_ldap r) = m)).

Lemma given_same {A} (v : A) key text old : given (Some v) key text key old = Some (text v).
Proof. unfold given. by rewrite beq_refl. Qed.
Lemma given_other {A} (o : option A) key text k old : beq key k = false -> given o key text k old = old.
Proof. unfold given. intros ->. by destruct o. Qed.

Lemma after_open input old b :
  usi_open_registration input = Some b ->
  settings_after input KEY_OPEN_REGISTRATION old = Some (bool_text b).
Proof.
  intros Hb. unfold settings_after, ldap_after. rewrite Hb.
  destruct (usi_ldap input); rewrite ?given_other by done; by rewrite given_same.
Qed.
Lemma after_expiry input old v :
  usi_session_expiry_seconds input = Some v ->
  settings_after input KEY_SESSION_EXPIRY_SECONDS old = Some (pretty v).
Proof.
  intros Hv. unfold settings_after, ldap_after. rewrite Hv.
  destruct (usi_ldap input); rewrite ?given_other by done; by rewrite given_same.
Qed.
Lemma after_ldap input l k old :
  usi_ldap input = Some l -> exists old', settings_after input k old = ldap_after l k old'.
Proof. unfold settings_after. intros ->. by eexists. Qed.
Lemma non_blank_Some s : s <> "" -> non_blank (Some s) = Some s.
Proof. by destruct s. Qed.
Lemma validate_base_dn_solid dn u : validate_base_dn dn = Ok u -> trim dn <> "".
Proof. unfold validate_base_dn. by destruct (trim dn). Qed.
Lemma mode_roundtrip m : mode_from_str (mode_str m) = Ok m.
Proof. by destruct m. Qed.

Lemma shown_answers `{Env} input d d' r :
  admissible input -> shows d' r -> (forall k, setting k d' = settings_after input k (setting k d)) ->
  answers input r.
Proof.
  intros (Hexp & Hldap) (Ho & He & addr & _ & Hl) Hs. split; [|split].
  - intros b Hb. rewrite Ho, Hs, (after_open _ _ b) by done. by destruct b.
  - intros v Hv. rewrite He, Hs, (after_expiry _ _ v) by done. apply Hexp in Hv.
    unfold MIN_SESSION_EXPIRY_SECONDS, MAX_SESSION_EXPIRY_SECONDS in Hv.
    unfold session_expiry_of. rewrite parse_i64_pretty by (unfold i64_max; lia). by apply clamp_id.
  - intros l Hi. apply Hldap in Hi as Hadm. destruct Hadm as [Hdn _].
    rewrite Hl. cbn [to_ldap_settings ls_enabled ls_base_dn ls_password_mode lc_enabled lc_base_dn lc_password_mode].
    split; [|split]; [intros b Hb|intros dn Hb|intros m Hb]; rewrite Hs;
      match goal with |- context [settings_after input ?k ?old] =>
        destruct (after_ldap input l k old Hi) as [old' ->] end;
      unfold ldap_after; rewrite Hb.
    + rewrite !given_other, given_same by done. by destruct b.
    + do 2 rewrite given_other by done. rewrite given_same, non_blank_Some; [done|].
      by eapply validate_base_dn_solid, Hdn.
    + rewrite given_same, mode_roundtrip. done.
Qed.

(** C39: a change of the settings is complete or none.  Only an administrator
    changes them; when the change succeeds every given value was admissible, each
    key's stored text is the given value or what it was, and the answer is what
    the server will read back from now on, the given values among it; when it
    fails no setting has changed. *)
Theorem settings_update_correct {E : Env} {HA : Hashing} {ED : Ed25519} {JC : JwtCodec Claims}
    {UL : UuidLib} {JL : JsonLib} {HL : HttpLib} st ctx h input res w w' :
  run (update_settings st ctx h input) w = (res, w') ->
  match res with
  | Ok r =>
      (exists admin w1, run (admin_user st h) w = (Ok admin, w1)) /\ admissible input /\
      (forall k, setting k (db w') = settings_after input k (setting k (db w))) /\
      shows (db w') r /\ answers input r
  | Err _ => settings (db w') = settings (db w)
  end.
Proof.
  intros Hrun. wp_start Hrun. unfold update_settings. wpm; [|by erewrite admin_user_reads by eassumption].
  match goal with Hx : run (admin_user _ _) _ = _ |- _ => pose proof (admin_user_reads _ _ _ _ _ Hx) as Hdb end.
  apply wp_transaction; [|intros e w2 Hd; by rewrite Hd, Hdb].
  eapply wp_mono; [apply update_settings_tx_wp| |done]. cbn [db bump]. rewrite Hdb.
  intros r w2 (Ha & Hs & Hk) w3 Hd. rewrite <- Hd in *.
  split; [by do 2 eexists|]. repeat (split; [done|]). by eapply shown_answers.
Qed.

(** ** At a concrete change *)
Module Demo.
#[local] Existing Instances demo_env plain_hashing plain_ed25519 login_jwt plain_uuid plain_json plain_http.
Definition h_ada : list (string * string) := [("authorization", "Bearer LA")].
Definition change (base_dn : string) : UpdateSettingsInput := {|
  usi_open_registration := Some true; usi_session_expiry_seconds := Some 7200;
  usi_ldap := Some {| lsi_enabled := Some true; lsi_base_dn := Some base_dn; lsi_bind_address := None;
                      lsi_password_mode := Some AppOnly |} |}.

Lemma settings_update_correct_witness :
  (exists r, run (update_settings st ctx h_ada (change " dc=example ")) w_in
             = (Ok r, (run (update_settings st ctx h_ada (change " dc=example ")) w_in).2) /\
     sr_session_expiry_seconds r = 7200 /\ ls_base_dn (sr_ldap r) = "dc=example") /\
  settings (db (run (update_settings st ctx h_ada (change "example")) w_in).2) = settings (db w_in).
Proof.
  split.
  - assert (Hr : exists r, run (update_settings st ctx h_ada (change " dc=example ")) w_in
        = (Ok r, (run (update_settings st ctx h_ada (change " dc=example ")) w_in).2))
      by (eexists; apply run_to; vm_compute; reflexivity).
    destruct Hr as [r Hr]. exists r. split; [exact Hr|].
    pose proof (settings_update_correct st ctx h_ada (change " dc=example ") (Ok r) w_in _ Hr) as (_ & _ & _ & _ & _ & Ht & Hl).
    destruct (Hl _ eq_refl) as (_ & Hd & _). split; [by apply Ht|exact (Hd _ eq_refl)].
  - assert (Hr : exists e, run (update_settings st ctx h_ada (change "example")) w_in
        = (Err e, (run (update_settings st ctx h_ada (change "example")) w_in).2))
      by (eexists; apply run_to; vm_compute; reflexivity).
    destruct Hr as [e Hr]. exact (settings_update_correct st ctx h_ada (change "example") (Err e) w_in _ Hr).
Defined.
End Demo.
