(* ===== verification/ApplicationHandlers.v ===== *)
(** * Application management ([handlers/application.rs])

    The administrator's endpoints for applications, and what the creation of
    one guarantees to its clients. *)

From S2P Require Import Prelude RStr RateLimit Schema Sys External Users AuditLog Net Settings Token TokenFacts SessionDemo Application ApplicationFacts Http LoginFlow LoginDemo Frame.
Local Open Scope Z_scope.
Local Open Scope string_scope.

Record CreateApplicationResponse := {
  car_application : Application; car_oidc_client_secret : option string
}.

Section ApplicationHandlers.
Context {E : Env} {HA : Hashing} {ED : Ed25519} {JC : JwtCodec Claims} {UL : UuidLib} {JL : JsonLib}
        {RX : RegexLib} {URL : UrlLib} {HL : HttpLib}.
Variable non_ascii_alphanumeric : string -> bool.
Variable st : AppState.
Variable ctx : AuditContext.
Variable h : list (string * string).

(** [list_applications] *)
Definition list_applications : M (list Application) :=
  admin_user st h ;;; acquire ;;; Application_list.

(** [create_application] *)
Definition application_details (id : Uuid) (rest : list (string * Json)) : Json :=
  JObj (("application_id", JStr (uuid_to_string id)) :: rest).
Definition new_application (input : CreateApplicationInput) : prog (Application * option string) :=
  match unwrap_or (cai_app_type input) ForwardAuth with
  | ForwardAuth => app <~ Application_new input ;; Ret (app, None)
  | Oidc => Application_new_oidc input
  end.
Definition create_application (input : CreateApplicationInput) : M (Z * CreateApplicationResponse) :=
  admin <- admin_user st h ;;
  lift (Application_validate_input non_ascii_alphanumeric input) ;;;
  created <~ new_application input ;;
  let '(app, plaintext_secret) := created in
  acquire ;;;
  Application_save app ;;;
  audit_try (with_details
    (application_details (a_id app)
       [("name", JStr (a_name app)); ("slug", JStr (a_slug app));
        ("app_type", JStr (app_type_str (a_app_type app)))])
    (in_ctx ctx (by_actor (Some (au_user_id admin)) (audit ApplicationCreated)))) ;;;
  ret (201, {| car_application := app; car_oidc_client_secret := plaintext_secret |}).

(** [get_application] *)
Definition get_application (id : Uuid) : M Application :=
  admin_user st h ;;;
  acquire ;;;
  app <- Application_get id ;;
  require app NotFound.

(** [update_application] *)
Definition update_application (id : Uuid) (input : UpdateApplicationInput) : M Application :=
  admin <- admin_user st h ;;
  acquire ;;;
  found <- Application_get id ;;
  app <- require found NotFound ;;
  app <- Application_update app input ;;
  audit_try (with_details
    (application_details (a_id app) [("name", JStr (a_name app)); ("slug", JStr (a_slug app))])
    (in_ctx ctx (by_actor (Some (au_user_id admin)) (audit ApplicationUpdated)))) ;;;
  ret app.

(** [delete_application] *)
Definition delete_application (id : Uuid) : M Z :=
  admin <- admin_user st h ;;
  acquire ;;;
  existing <- Application_get id ;;
  deleted <- Application_delete id ;;
  if deleted then
    audit_try (with_details
      (application_details id
         match existing with
         | Some app => [("name", JStr (a_name app)); ("slug", JStr (a_slug app))]
         | None => []
         end)
      (in_ctx ctx (by_actor (Some (au_user_id admin)) (audit ApplicationDeleted)))) ;;;
    ret 204
  else throw NotFound.
End ApplicationHandlers.

(** ** What a creation guarantees *)
Section Facts.
Context {E : Env} {HA : Hashing} {UL : UuidLib} {JL : JsonLib} {JLL : JsonLaws}.

(** The secret handed out opens the client, and only its hash is kept. *)
Definition credentials_agree (app : Application) (secret : option string) : Prop :=
  match a_app_type app, secret with
  | ForwardAuth, None => a_oidc_client_id app = None
  | Oidc, Some s => is_some (a_oidc_client_id app) = true /\
      a_oidc_client_secret_hash app = Some (hash_secret s) /\ verify_client_secret app s = true
  | Oidc, None => is_some (a_oidc_client_id app) = true /\
      forall presented, verify_client_secret app presented = false
  | ForwardAuth, Some _ => False
  end.

Lemma new_application_ok input w app secret w' :
  run (new_application input) w = ((app, secret), w') ->
  db w' = db w /\ a_app_type app = unwrap_or (cai_app_type input) ForwardAuth /\
  a_slug app = cai_slug input /\
  a_oidc_confidential app = is_some (a_oidc_client_secret_hash app) /\ credentials_agree app secret.
Proof.
  unfold new_application, Application_new_oidc, Application_new, generate_client_id, generate_client_secret.
  unfold credentials_agree, verify_client_secret.
  destruct (cai_app_type input) as [[]|] eqn:Et; cbn [unwrap_or].
  - cbn. by intros [= <- <- <-].
  - cbn. destruct (unwrap_or (cai_oidc_confidential input) true); cbn; intros [= <- <- <-]; cbn; [|done].
    by rewrite beq_refl.
  - cbn. by intros [= <- <- <-].
Qed.

(** The row [Application_save] appends. *)
Lemma Application_save_wp app w :
  a_oidc_confidential app = is_some (a_oidc_client_secret_hash app) ->
  wp (Application_save app) w
    (fun _ w' => exists row, of_row row = app /\
       db w' = with_applications (fun t => (t ++ [row])%list) (db w) /\
       ap_id row = a_id app /\ ap_oidc_client_id row = a_oidc_client_id app /\
       ap_app_type row = app_type_str (a_app_type app) /\
       forall r, r ∈ applications (db w) -> ap_id r <> a_id app /\ ap_slug r <> a_slug app /\
         (is_some (a_oidc_client_id app) = true -> ap_oidc_client_id r <> a_oidc_client_id app))
    (fun _ w' => db w' = db w).
Proof.
  intros Hc. unfold Application_save. wpm; [|done].
  match goal with Hx : json_columns _ = Ok ?p |- _ => destruct p as [[roles uris] logout]; rename Hx into Hj end.
  wpm; [|by eapply run_stmt_err].
  match goal with Hx : run (stmt _) _ = _ |- _ => apply run_stmt_ok in Hx as (_ & d & Hd & ->) end.
  match type of Hd with _ = Ok (?u, _) => destruct u end. apply insert_checked_ok in Hd as (Hdup & _ & ->).
  exists (row_of app roles uris logout). split; [by apply of_row_of|]. do 4 (split; [done|]).
  intros r Hr. pose proof (existsb_false_elem _ _ _ Hdup Hr) as Hb. cbn beta in Hb. bool_hyp.
  split; [done|]. split; [done|]. intros Hs.
  match goal with Hx : _ && _ = false |- _ => rewrite Hs in Hx; simpl in Hx end. by bool_hyp.
Qed.
End Facts.

(** A created application is registered as answered.  Only an
    administrator creates one; the input was admissible; exactly one row is added
    and it reads back as the answer; its slug and client id were free, so a
    lookup by client id finds this client; and the secret of the answer, of
    which the row holds the hash, opens the client, while a client without a
    secret accepts none.  A refused creation leaves the applications as they
    were. *)
Theorem create_application_correct {E : Env} {HA : Hashing} {ED : Ed25519} {JC : JwtCodec Claims}
    {UL : UuidLib} {JL : JsonLib} {JLL : JsonLaws} {RX : RegexLib} {URL : UrlLib} {HL : HttpLib}
    non_ascii_alphanumeric st ctx h input res w w' :
  run (create_application non_ascii_alphanumeric st ctx h input) w = (res, w') ->
  match res with
  | Ok (status, r) => exists admin w1 row,
      let app := car_application r in
      run (admin_user st h) w = (Ok admin, w1) /\
      Application_validate_input non_ascii_alphanumeric input = Ok tt /\ status = 201 /\
      applications (db w') = (applications (db w) ++ [row])%list /\ of_row row = app /\
      a_app_type app = unwrap_or (cai_app_type input) ForwardAuth /\ a_slug app = cai_slug input /\
      (forall r, r ∈ applications (db w) -> ap_id r <> a_id app /\ ap_slug r <> a_slug app) /\
      credentials_agree app (car_oidc_client_secret r) /\
      forall client_id, a_oidc_client_id app = Some client_id ->
        fetch (fun r => beq (ap_oidc_client_id r) (Some client_id) && beq (ap_app_type r) "oidc")%bool
          (applications (db w')) = Some row
  | Err _ => applications (db w') = applications (db w)
  end.
Proof.
  intros Hrun. wp_start Hrun. unfold create_application, acquire. wpm; [|by erewrite admin_user_reads by eassumption].
  match goal with Hx : run (admin_user _ _) _ = _ |- _ => pose proof (admin_user_reads _ _ _ _ _ Hx) as Hdb end.
  wpm; [|by rewrite Hdb]. wpm.
  match goal with Hx : run (new_application _) _ = (?p, _) |- _ => destruct p as [app secret]; rename Hx into Hn end.
  apply new_application_ok in Hn as (Hd & Hty & Hslug & Hc & Hcred).
  wpm; [|match goal with Hx : db _ = db _ |- _ => by rewrite Hx, Hd, Hdb end].
  apply wp_bindM. eapply wp_mono; [by apply Application_save_wp| |].
  - cbn [db bump]. rewrite Hd, Hdb. intros [] w3 (row & Hrow & Happs & Hid & Hcid & Htype & Hfree).
    unfold audit_try. wpm. wpm.
    match goal with Hx : run (audit_save _) _ = _ |- _ => apply audit_save_only in Hx as [f Hf] end.
    do 3 eexists. split; [eassumption|].
    split; [match goal with Hx : Application_validate_input _ _ = Ok ?u |- _ => by destruct u end|].
    split; [done|]. rewrite Hf, Happs. cbn [with_audit_log with_applications applications].
    do 4 (split; [done|]). split; [intros r Hr; by destruct (Hfree r Hr) as (? & ? & _)|]. split; [done|].
    intros client_id Hclient. cbn [car_application] in Hclient. rewrite fetch_app, (proj2 (fetch_None _ _)).
    + unfold fetch. simpl. rewrite Hcid, Hclient, beq_refl, Htype.
      unfold credentials_agree in Hcred.
      destruct (a_app_type app); [|done]. destruct secret; [done|congruence].
    + intros r Hr. destruct (Hfree r Hr) as (_ & _ & Hne). rewrite Hclient in Hne. rewrite (proj2 (beq_neq _ _) (Hne eq_refl)). done.
  - cbn [db bump]. intros e w3 ->. by rewrite Hd, Hdb.
Qed.

(** ** At a concrete creation *)
Module Demo.
#[local] Existing Instances demo_env plain_hashing plain_ed25519 login_jwt plain_uuid plain_json plain_json_laws
  plain_http.
#[local] Instance no_regex : RegexLib := {| regex_build := fun _ _ _ => None |}.
#[local] Instance https_url : UrlLib := {| url_parse := fun s => Some {|
  url_text := s; url_scheme := "https"; url_host_str := Some "wiki"; url_username := "";
  url_password := None; url_fragment := None; url_path := "/"; url_host_port := "wiki";
  url_from_path := "/"; url_origin := Some ("https", "wiki", 443); url_origin_text := "https://wiki" |} |}.
Definition h_ada : list (string * string) := [("authorization", "Bearer LA")].
Definition wiki : CreateApplicationInput := {|
  cai_name := "Wiki"; cai_slug := "wiki"; cai_app_type := Some Oidc; cai_host_pattern := None;
  cai_path_prefix := None; cai_required_roles := None; cai_enabled := None;
  cai_oidc_redirect_uris := Some ["https://wiki/cb"]; cai_oidc_post_logout_redirect_uris := None;
  cai_oidc_confidential := None |}.
Definition creation : M (Z * CreateApplicationResponse) :=
  create_application (fun _ => false) st ctx h_ada wiki.

Lemma create_application_correct_witness :
  exists r, run creation w_in = (Ok (201, r), (run creation w_in).2) /\
    credentials_agree (car_application r) (car_oidc_client_secret r).
Proof.
  assert (Hr : exists r, run creation w_in = (Ok (201, r), (run creation w_in).2))
    by (eexists; apply run_to; vm_compute; reflexivity).
  destruct Hr as [r Hr]. exists r. split; [exact Hr|].
  pose proof (create_application_correct (fun _ => false) st ctx h_ada wiki (Ok (201, r)) w_in) as H.
  destruct (H _ Hr) as (admin & w1 & row & _ & _ & _ & _ & _ & _ & _ & _ & Hc & _). exact Hc.
Defined.
End Demo.
