(* ===== verification/Cli.v ===== *)
(** * The first administrator ([cli.rs])

    The command that creates an administrator in a fresh installation, and
    nowhere else. *)

From S2P Require Import Prelude RStr RateLimit Schema Sys External Users AuditLog Net Settings Token Http LoginFlow Accounts InvitationFacts Frame.
Local Open Scope Z_scope.
Local Open Scope string_scope.

Section Cli.
Context {E : Env} {PH : PasswordHashing}.
Variable username_regex email_regex : string -> bool.

(** [init_admin]: the checks before the database is asked, the transaction, and
    the whole. *)
Definition validate_admin (username password name : string) (email : option string) : result AppError unit :=
  match validate_username username_regex username with
  | Err e => Err (InputError [e])
  | Ok _ =>
      match validate_name name with
      | Err e => Err (InputError [e])
      | Ok _ =>
          match validate_password password with
          | Err e => Err (InputError [e])
          | Ok _ =>
              match validate_email email_regex email with
              | Err e => Err (InputError [e])
              | Ok _ => Ok tt
              end
          end
      end
  end.
Definition admin_exists : AppError :=
  UniqueError "An admin user already exists. Use the web portal to manage admins.".
Definition init_admin_tx (user : User) (authenticator : Authenticator) (admin_role : Role) : M unit :=
  User_save user ;;;
  Authenticator_save authenticator ;;;
  stmt (fun d =>
    insert_checked
      (existsb (fun ur => beq (ur_user_id ur) (u_id user) && beq (ur_role_id ur) (ro_id admin_role))%bool
         (user_roles d))
      (user_exists (u_id user) d && existsb (fun r => beq (ro_id r) (ro_id admin_role)) (roles d))
      (with_user_roles (fun t => (t ++ [{| ur_user_id := u_id user; ur_role_id := ro_id admin_role |}])%list)) d).
Definition init_admin (username password name : string) (email : option string) : M unit :=
  lift (validate_admin username password name email) ;;;
  acquire ;;;
  existing_admins <- query admin_count ;;
  guard (0 <? existing_admins)%nat admin_exists ;;;
  role <- Role_get_by_name ROLE_ADMIN ;;
  admin_role <- require role (InternalError "Admin role not found in database") ;;
  user <~ User_new username name email ;;
  r <~ new_password password (u_id user) ;;
  authenticator <- lift (map_err (fun e => InternalError ("Failed to create Authenticator (" ++ e ++ ")")) r) ;;
  transaction (init_admin_tx user authenticator admin_role).

(** ** What it guarantees *)

(** The database with a new administrator. *)
Definition with_admin (user : User) (a : Authenticator) (role : Role) (d : Db) : Db :=
  with_user_roles (fun t => (t ++ [{| ur_user_id := u_id user; ur_role_id := ro_id role |}])%list)
    (with_authenticators (fun t => (t ++ [a])%list)
      (with_users (fun t => (t ++ [new_row user])%list) d)).

Lemma init_admin_tx_wp user a role w :
  wp (init_admin_tx user a role) w (fun _ w' => db w' = with_admin user a role (db w)) (fun _ _ => True).
Proof.
  unfold init_admin_tx. wpm; [|done].
  match goal with Hx : run (User_save _) _ = _ |- _ => apply User_save_ok in Hx as [_ Hd] end.
  wpm; [|done]. match goal with Hx : run (Authenticator_save _) _ = _ |- _ =>
    unfold Authenticator_save in Hx; apply run_stmt_ok in Hx as (_ & d1 & H1 & ->) end.
  match type of H1 with _ = Ok (?u, _) => destruct u end. apply insert_checked_ok in H1 as (_ & _ & ->).
  wpm; [|done]. match goal with Hx : run (stmt _) _ = _ |- _ => apply run_stmt_ok in Hx as (_ & d2 & H2 & ->) end.
  match type of H2 with _ = Ok (?u, _) => destruct u end. apply insert_checked_ok in H2 as (_ & _ & ->).
  cbn [db set_db bump]. by rewrite Hd.
Qed.

Lemma admin_count_with_admin user a role d :
  role ∈ roles d -> ro_name role = ROLE_ADMIN -> (0 < admin_count (with_admin user a role d))%nat.
Proof.
  intros Hin Hn. unfold admin_count, with_admin. cbn. rewrite flat_map_app, length_app. cbn.
  rewrite app_nil_r. pose proof (count_pos (fun r => beq (ro_id r) (ro_id role) && beq (ro_name r) ROLE_ADMIN)%bool
    (roles d)) as Hc. unfold count in Hc. apply Nat.add_pos_r, Hc. exists role. split; [done|].
  by rewrite beq_refl, Hn.
Qed.

Lemma init_admin_refused username password name email w :
  (0 < admin_count (db w))%nat ->
  wp (init_admin username password name email) w (fun _ _ => False) (fun _ _ => True).
Proof.
  intros Hc. unfold init_admin, acquire. do 3 (wpm; [|done]). wpm; [|done]. cbn [db bump] in *. bool_hyp. lia.
Qed.

(** The command creates the first administrator only.  It succeeds only
    with an admissible name, address and password and while no user holds the
    administrator role; then exactly one account, active, with that role and
    the argon2 hash of the password, has been added, so that from then on the
    command is refused; when it fails nothing has changed. *)
Theorem init_admin_correct username password name email res w w' :
  run (init_admin username password name email) w = (res, w') ->
  match res with
  | Ok _ =>
      validate_admin username password name email = Ok tt /\ admin_count (db w) = 0%nat /\
      (exists user a role salt hash,
        db w' = with_admin user a role (db w) /\ role ∈ roles (db w) /\ ro_name role = ROLE_ADMIN /\
        u_username user = username /\ u_name user = name /\ u_email user = email /\ u_active user = true /\
        au_owner_id a = u_id user /\ au_scheme a = Password hash /\ argon2_hash salt password = Ok hash) /\
      (0 < admin_count (db w'))%nat /\
      forall username' password' name' email' w1, db w1 = db w' ->
        match (run (init_admin username' password' name' email') w1).1 with Ok _ => False | Err _ => True end
  | Err _ => db w' = db w
  end.
Proof.
  intros Hrun. wp_start Hrun. unfold init_admin at 1, acquire, Role_get_by_name, User_new, new_password.
  do 4 (wpm; [|done]). wpm; [|done]. wpm; [|done]. cbn [db bump] in *.
  match goal with Hx : fetch _ _ = Some ?role |- _ => apply fetch_Some in Hx as [Hin Hn] end.
  wpm. match goal with Hx : run _ _ = (_, _) |- _ => cbn in Hx; injection Hx as <- <- end.
  wpm. match goal with Hx : run _ _ = (_, _) |- _ => cbn in Hx; rename Hx into H1 end.
  destruct (argon2_hash _ _) as [hash|e0] eqn:Eh; cbn in H1; injection H1 as <- <-; [|by wpm].
  wpm; [|done]. match goal with Hx : map_err _ _ = Ok _ |- _ => cbn in Hx; injection Hx as <- end.
  apply wp_transaction; [|by intros e w2 ->].
  eapply wp_mono; [apply init_admin_tx_wp| |done]. cbn [db bump]. intros [] w2 Hd w3 Hd3.
  assert (Hpos : (0 < admin_count (db w3))%nat)
    by (rewrite Hd3, Hd; apply admin_count_with_admin; [done|by bool_hyp]).
  split; [by destruct a|]. split; [bool_hyp; lia|]. split; [|split; [done|]].
  - do 5 eexists. split; [by rewrite Hd3, Hd|]. split; [done|]. split; [by bool_hyp|]. do 6 (split; [done|]).
    exact Eh.
  - intros un pw n em w4 Hw4. pose proof (init_admin_refused un pw n em w4) as Hr. unfold wp in Hr.
    rewrite Hw4 in Hr. specialize (Hr Hpos). by destruct (run (init_admin _ _ _ _) w4) as [[] ?].
Qed.
End Cli.

(** ** In a fresh installation *)
Module Demo.
#[local] Existing Instance plain_passwords.
#[local] Instance fresh_env : Env := calm_env 1000.
Definition fresh : World :=
  start (with_roles (fun _ => [{| ro_id := 1; ro_name := "admin"; ro_description := None |}]) empty_db).
Definition any_text (s : string) : bool := true.
Definition first : M unit :=
  init_admin any_text any_text "root" "correct horse" "Administrator" None.
Definition second : M unit :=
  init_admin any_text any_text "mallory" "battery staple" "Administrator" None.

Lemma init_admin_correct_witness :
  (0 < admin_count (db (run first fresh).2))%nat /\
  db (run second (run first fresh).2).2 = db (run first fresh).2.
Proof.
  assert (Hr : run first fresh = (Ok tt, (run first fresh).2)) by (apply run_to; vm_compute; reflexivity).
  pose proof (init_admin_correct any_text any_text _ _ _ _ (Ok tt) fresh _ Hr) as (_ & _ & _ & Hpos & _).
  split; [exact Hpos|].
  assert (Hs : run second (run first fresh).2 = (Err admin_exists, (run second (run first fresh).2).2))
    by (apply run_to; vm_compute; reflexivity).
  exact (init_admin_correct any_text any_text _ _ _ _ (Err admin_exists) (run first fresh).2 _ Hs).
Defined.
End Demo.
