(* ===== verification/ClientAddress.v ===== *)
(** * The address of a client ([audit.rs])

    Which address the rate limiters count and the audit log records: the
    peer's, or, behind trusted proxies, the one they report. *)

From S2P Require Import Prelude RStr RateLimit Schema Sys External Users AuditLog Net Settings Token Http.
Local Open Scope Z_scope.
Local Open Scope string_scope.

(** ** [axum_extra]: the typed [User-Agent] header *)
Class UserAgentHeader := { user_agent_text : list (string * string) -> option string }.

Section ClientAddress.
Context {E : Env} {HL : HttpLib} {UA : UserAgentHeader}.

(** [TRUSTED_PROXIES] *)
Definition TRUSTED_PROXIES : list IpAddr :=
  omap (fun s => parse_ip_addr (trim s)) (split_byte "," (unwrap_or (env_var "AUTHERE_TRUSTED_PROXIES") "")).
Definition trusted (ip : IpAddr) : bool := existsb (beq ip) TRUSTED_PROXIES.

(** [extract_client_ip]: its loop from the right, and the whole *)
Fixpoint first_untrusted (addrs : list string) : option IpAddr :=
  match addrs with
  | [] => None
  | addr_str :: addrs' =>
      match parse_ip_addr addr_str with
      | Some addr => if negb (trusted addr) then Some addr else first_untrusted addrs'
      | None => first_untrusted addrs'
      end
  end.
Definition extract_client_ip (xff : option string) (peer_ip : IpAddr) : IpAddr :=
  match TRUSTED_PROXIES with
  | [] => peer_ip
  | _ =>
      if negb (trusted peer_ip) then peer_ip
      else match xff with
           | Some xff => unwrap_or (first_untrusted (rev (map trim (split_byte "," xff)))) peer_ip
           | None => peer_ip
           end
  end.

(** [AuditContext::from_request_parts]; an unknown peer counts as [0.0.0.0]
    and is not recorded. *)
Definition audit_context (h : list (string * string)) (peer_ip : option IpAddr) : AuditContext :=
  let xff := get_text h "x-forwarded-for" in
  let '(ip, ip_address) :=
    match peer_ip with
    | Some p => let resolved := extract_client_ip xff p in (resolved, Some (show_ip resolved))
    | None => (V4 0, None)
    end in
  {| ctx_ip := ip; ctx_ip_address := ip_address; ctx_user_agent := user_agent_text h |}.

(** ** What a client can make of it *)

(** The entries proxies append: addresses of trusted proxies. *)
Definition trusted_hop (hop : string) : Prop :=
  contains_byte "," hop = false /\ exists ip, parse_ip_addr (trim hop) = Some ip /\ trusted ip = true.

Lemma first_untrusted_hops hops rest :
  Forall trusted_hop hops ->
  first_untrusted (rev (map trim (rest ++ hops)%list)) = first_untrusted (rev (map trim rest)).
Proof.
  rewrite map_app, rev_app_distr. intros H. induction hops as [|hop hops IH] using rev_ind; [done|].
  rewrite map_app, rev_app_distr. apply Forall_app in H as [H Hh].
  apply Forall_cons in Hh as [(_ & ip & Hp & Ht) _]. simpl. rewrite Hp, Ht. by apply IH.
Qed.

Lemma first_untrusted_spec l ip :
  first_untrusted l = Some ip -> trusted ip = false.
Proof.
  induction l as [|s l IH]; simpl; [done|]. destruct (parse_ip_addr s) as [a|]; [|done].
  destruct (trusted a) eqn:Et; [done|]. by intros [= <-].
Qed.

Lemma split_hops hops s :
  Forall trusted_hop hops -> contains_byte "," s = false ->
  split_byte "," (join "," (s :: hops)) = s :: hops.
Proof.
  intros H Hs. apply split_byte_join; [done|]. constructor; [done|].
  eapply Forall_impl; [exact H|]. by intros hop [Hc _].
Qed.

(** C40: a client cannot choose the address it is counted under.  Whoever
    connects directly, and is no trusted proxy, counts as its own address,
    whatever it claims; behind trusted proxies the address counted is the one
    the first of them appended, whatever the client wrote before it; and no
    request counts as a trusted proxy other than its peer. *)
Theorem client_ip_unspoofable peer xff :
  (trusted peer = false -> extract_client_ip xff peer = peer) /\
  (forall claimed addr ip hops,
     trusted peer = true -> Forall trusted_hop hops ->
     contains_byte "," addr = false -> parse_ip_addr (trim addr) = Some ip -> trusted ip = false ->
     extract_client_ip (Some (claimed ++ "," ++ join "," (addr :: hops))) peer = ip) /\
  (trusted (extract_client_ip xff peer) = true -> extract_client_ip xff peer = peer).
Proof.
  split; [|split].
  - intros Ht. unfold extract_client_ip. rewrite Ht. by destruct TRUSTED_PROXIES.
  - intros claimed addr ip hops Hp Hhops Hc Ha Ht. unfold extract_client_ip. rewrite Hp.
    destruct TRUSTED_PROXIES eqn:Ep; [unfold trusted in Hp; by rewrite Ep in Hp|]. cbn [negb].
    change (claimed ++ "," ++ join "," (addr :: hops)) with (claimed +:+ String "," (join "," (addr :: hops))).
    rewrite split_byte_app_sep, split_hops by done.
    change (addr :: hops) with ([addr] ++ hops)%list. rewrite app_assoc, first_untrusted_hops by done.
    rewrite map_app, rev_app_distr. simpl. by rewrite Ha, Ht.
  - unfold extract_client_ip. destruct TRUSTED_PROXIES; [done|]. destruct (negb (trusted peer)); [done|].
    destruct xff as [xff|]; [|done]. destruct (first_untrusted _) as [ip|] eqn:Ef; [|done].
    simpl. apply first_untrusted_spec in Ef. by rewrite Ef.
Qed.
End ClientAddress.

(** ** Behind one proxy *)
Module Demo.
#[local] Instance proxied_env : Env := {|
  clock := fun i => Z.of_nat i; instant := fun i => Z.of_nat i; fault := fun _ => false;
  entropy := fun _ _ => ""; fresh_uuid := fun i => N.of_nat i;
  env_var := fun name => if beq name "AUTHERE_TRUSTED_PROXIES" then Some "10.0.0.1, 10.0.0.2" else None |}.

Lemma client_ip_unspoofable_witness :
  extract_client_ip (Some "10.0.0.9, 1.1.1.1, 203.0.113.7, 10.0.0.2") (V4 167772161) = V4 3405803783.
Proof.
  destruct (client_ip_unspoofable (V4 167772161) None) as (_ & H & _).
  refine (H "10.0.0.9, 1.1.1.1" " 203.0.113.7" _ [" 10.0.0.2"] _ _ _ _ _);
    try (vm_compute; reflexivity).
  constructor; [|constructor]. split; [vm_compute; reflexivity|]. exists (V4 167772162).
  split; vm_compute; reflexivity.
Defined.
End Demo.
