(* ===== verification/Startup.v ===== *)
(** * Start-up and background tasks ([main.rs])

    The state the server starts with, taken from the environment and the
    database, and the tasks that run beside the requests: what they remove is
    nothing a request could still use. *)

From S2P Require Import Prelude RStr RateLimit Schema Sys External Users AuditLog Net Settings AppPasswords LdapSchema LdapFilter Token TokenFacts OidcCodes Forward Http LoginFlow LdapHandler Invitations BrowserSecurity OAuth Frame.
Local Open Scope Z_scope.
Local Open Scope string_scope.

(** [str::trim_end_matches] of one byte *)
Fixpoint trim_start_byte (c : ascii) (s : string) : string :=
  match s with
  | String a s' => if beq a c then trim_start_byte c s' else s
  | "" => ""
  end.
Definition trim_end_byte (c : ascii) (s : string) : string :=
  rev_string (trim_start_byte c (rev_string s)).

Section Startup.
Context {E : Env} {HA : Hashing} {ED : Ed25519} {JC : JwtCodec Claims} {UL : UuidLib} {AE : Aead}
        {HL : HttpLib}.

(** [env_override] *)
Definition env_override (name : string) (default : Z) : Z :=
  unwrap_or (match env_var name with Some v => parse_unsigned u32_max v | None => None end) default.
Definition limiter_of (requests_name : string) (requests : Z) (window_name : string) (secs : Z) : RateLimiter :=
  new_limiter {| max_requests := env_override requests_name requests;
                 window := from_secs (env_override window_name secs) |}.
Definition configured_limiters : Limiters := {|
  login_rl := limiter_of "AUTHERE_LOGIN_MAX_REQUESTS" 5 "AUTHERE_LOGIN_WINDOW_SECS" 60;
  register_rl := limiter_of "AUTHERE_REGISTER_MAX_REQUESTS" 3 "AUTHERE_REGISTER_WINDOW_SECS" 3600;
  ldap_bind_rl := limiter_of "AUTHERE_LDAP_MAX_REQUESTS" 30 "AUTHERE_LDAP_WINDOW_SECS" 60;
  oidc_token_rl := limiter_of "AUTHERE_OIDC_TOKEN_MAX_REQUESTS" 60 "AUTHERE_OIDC_TOKEN_WINDOW_SECS" 60 |}.

(** The server's origin, and the origins browsers may write from. *)
Definition configured_origin : string :=
  trim_end_byte "/" (unwrap_or (env_var "AUTHERE_ORIGIN") "http://localhost:3000").
Definition configured_browser_security : BrowserSecurity := {|
  allowed_origins := configured_origin ::
    List.filter (fun origin => negb (is_empty origin))
      (map trim (split_byte "," (unwrap_or (env_var "AUTHERE_ALLOWED_ORIGINS") ""))) |}.

(** [run], up to the command line: the signing key exists, and is loaded. *)
Definition prepare_keys : M (SigningKey * string) :=
  acquire ;;;
  try_initialize ;;;
  signing_key <- load_signing_key ;;
  signing_kid <- load_signing_kid ;;
  ret (signing_key, signing_kid).

(** [run], for the server: its state, and whether the directory listener
    starts. *)
Definition install (l : Limiters) : prog unit :=
  Atom (fun w => (tt, {| db := db w; limiters := l; tick := S (tick w) |})) Ret.
Definition serve : M (AppState * BrowserSecurity * bool) :=
  ' (signing_key, signing_kid) <- prepare_keys ;;
  _ <~ install configured_limiters ;;
  acquire ;;;
  ldap_cfg <- load_ldap_config ;;
  ret ({| st_signing_key := signing_key; st_signing_kid := signing_kid; st_origin := configured_origin |},
       configured_browser_security, lc_enabled ldap_cfg).

(** One round of the limiters' clean-up. *)
Definition rl_cleanup (get : Limiters -> RateLimiter) (set : RateLimiter -> Limiters -> Limiters) : prog unit :=
  Atom (fun w => (tt, {| db := db w; limiters := set (cleanup (get (limiters w)) (instant (tick w))) (limiters w);
                         tick := S (tick w) |})) Ret.
Definition cleanup_round : prog unit :=
  _ <~ rl_cleanup login_rl set_login_rl ;;
  _ <~ rl_cleanup register_rl set_register_rl ;;
  _ <~ rl_cleanup ldap_bind_rl set_ldap_rl ;;
  rl_cleanup oidc_token_rl set_oidc_token_rl.

(** One round of the sweeps; failures are logged. *)
Definition sweep_round : prog unit :=
  conn <~ acquire ;;
  match conn with
  | Err _ => Ret tt
  | Ok _ =>
      _ <~ sweep_expired ;;
      _ <~ sweep_expired_sessions ;;
      Ret tt
  end.
End Startup.

(** ** The sweeps remove nothing that can still be used *)
Section Facts.
Context {E : Env}.

(** A used token whose answer may still be repeated at [t]. *)
Definition repeatable (hash : string) (t : Z) (r : RefreshTokenRecord) : bool :=
  (beq (rt_token_hash r) hash && (t <? rt_expires_at r)%Z
   && is_some_and (rt_browser_retry_until r) (fun until => t <? until)%Z)%bool.

(** What a request at time [t] or later can use is the same in both. *)
Definition keeps_usable (t : Z) (d d' : Db) : Prop :=
  (exists f g k, d' = with_handoffs f (with_refresh_tokens g (with_auth_codes k d))) /\
  (forall hash, select (unconsumed hash t) (auth_codes d') = select (unconsumed hash t) (auth_codes d)) /\
  (forall jti uid, select (open_handoff jti uid t) (handoffs d') = select (open_handoff jti uid t) (handoffs d)) /\
  (forall hash, map rt_id (select (live_token hash t) (refresh_tokens d'))
                = map rt_id (select (live_token hash t) (refresh_tokens d))) /\
  (forall hash, select (repeatable hash t) (refresh_tokens d') = select (repeatable hash t) (refresh_tokens d)).

#[export] Instance keeps_usable_preorder t : PreOrder (keeps_usable t).
Proof.
  split.
  - intros d. split; [|done]. exists id, id, id. by destruct d.
  - intros d1 d2 d3 ((f & g & k & ->) & A2 & A3 & A4 & A5) ((f' & g' & k' & ->) & B2 & B3 & B4 & B5).
    split; [exists (fun l => f' (f l)), (fun l => g' (g l)), (fun l => k' (k l)); by destruct d1|].
    split; [intros x; by rewrite B2, A2|]. split; [intros x y; by rewrite B3, A3|].
    split; intros x; [by rewrite B4, A4|by rewrite B5, A5].
Qed.

Lemma sweep_codes t c d :
  c <= t -> keeps_usable t d (with_auth_codes (delete (fun r => ac_expires_at r <? c - 3600)%Z) d).
Proof.
  intros Hc. split; [exists id, id, (delete (fun r => ac_expires_at r <? c - 3600)%Z); by destruct d|].
  split; [|done]. intros hash. apply select_delete_disjoint. intros r Hr. unfold unconsumed. bool_hyp.
  destruct (t <? ac_expires_at r)%Z eqn:Et; [bool_hyp; lia|apply andb_false_r].
Qed.

Lemma sweep_retries t c d :
  c <= t ->
  keeps_usable t d (with_refresh_tokens (update (fun r => sql_le (rt_browser_retry_until r) c
                                         && is_some (rt_browser_retry_pair r)) clear_retry_pair) d).
Proof.
  intros Hc. split; [eexists id, _, id; by destruct d|]. split; [done|]. split; [done|].
  split; intros hash; cbn [refresh_tokens with_refresh_tokens]; induction (refresh_tokens d) as [|r l IH];
    try done; rewrite update_cons; unfold select in *; cbn [List.filter].
  - destruct (_ && _); [|destruct (live_token hash t r); cbn [map]; by rewrite IH].
    change (live_token hash t (clear_retry_pair r)) with (live_token hash t r).
    destruct (live_token hash t r); cbn [map]; by rewrite IH.
  - destruct (sql_le (rt_browser_retry_until r) c && is_some (rt_browser_retry_pair r))%bool eqn:Er;
      [|destruct (repeatable hash t r); by rewrite IH].
    change (repeatable hash t (clear_retry_pair r)) with (repeatable hash t r).
    apply andb_true_iff in Er as [Er _].
    replace (repeatable hash t r) with false; [done|]. unfold repeatable. symmetry.
    destruct (rt_browser_retry_until r) as [until|]; [|apply andb_false_r]. cbn in *. bool_hyp.
    destruct (t <? until)%Z eqn:Et; [bool_hyp; lia|apply andb_false_r].
Qed.

Lemma sweep_tokens t c d :
  c <= t -> keeps_usable t d (with_refresh_tokens (delete (fun r => rt_expires_at r <=? c)%Z) d).
Proof.
  intros Hc. split; [eexists id, _, id; by destruct d|]. split; [done|]. split; [done|].
  split; intros hash; [f_equal|]; apply select_delete_disjoint; intros r Hr; bool_hyp;
    unfold live_token, repeatable; destruct (t <? rt_expires_at r)%Z eqn:Et; bool_hyp; try lia;
    by rewrite ?andb_false_r.
Qed.

Lemma sweep_handoffs t c d :
  c <= t -> keeps_usable t d (with_handoffs (delete (fun r => fh_expires_at r <=? c)%Z) d).
Proof.
  intros Hc. split; [eexists _, id, id; by destruct d|]. split; [done|]. split; [|done].
  intros jti uid. apply select_delete_disjoint. intros r Hr. bool_hyp. unfold open_handoff.
  destruct (t <? fh_expires_at r)%Z eqn:Et; [bool_hyp; lia|apply andb_false_r].
Qed.
End Facts.

(** The background sweeps are invisible to requests.  However the storage
    fails in between, a round of the sweeps changes no table but the three it
    prunes, and for every request at a later time it leaves exactly the
    authorization codes and handoffs that can be redeemed, the refresh tokens
    that can be used, and the used ones whose answer can still be repeated. *)
Theorem sweep_round_invisible {E : Env} `{!MonotoneClock E} w t :
  clock (tick (run sweep_round w).2) <= t -> keeps_usable t (db w) (db (run sweep_round w).2).
Proof.
  assert (Hb : forall i j, clock j <= t -> (i <= j)%nat -> clock i <= t)
    by (intros i j Hj Hij; pose proof (clock_mono i j Hij); lia).
  unfold sweep_round, sweep_expired, sweep_expired_sessions. cbn.
  repeat (case_match; try (injection H as <- <-); cbn); intros Ht.
  all: repeat first [ reflexivity
    | etransitivity; [|first [apply sweep_handoffs|apply sweep_tokens|apply sweep_retries|apply sweep_codes];
                       eapply Hb; [exact Ht|lia]] ].
Qed.

(** ** With one row of each kind to prune *)
Module Demo.
#[local] Instance sweep_env : Env := calm_env 10000.
#[local] Instance sweep_mono : MonotoneClock sweep_env := calm_env_mono 10000.
Definition stored_token (hash : string) (expires : Z) : RefreshTokenRecord := {|
  rt_id := 1; rt_user_id := 7; rt_token_hash := hash; rt_expires_at := expires; rt_created_at := 0;
  rt_revoked_at := None; rt_browser_retry_until := None; rt_browser_retry_pair := None |}.
Definition w_stale : World :=
  start (with_refresh_tokens (fun _ => [stored_token "old" 9000; stored_token "new" 90000]) empty_db).

Lemma sweep_round_invisible_witness :
  refresh_tokens (db (run sweep_round w_stale).2) = [stored_token "new" 90000] /\
  keeps_usable 10500 (db w_stale) (db (run sweep_round w_stale).2).
Proof.
  split; [vm_compute; reflexivity|]. apply (sweep_round_invisible w_stale 10500). vm_compute. discriminate.
Defined.
End Demo.
