(* ===== verification/LdapListener.v ===== *)
(** * The directory listener ([ldap/server.rs], [run])

    The accept loop and the connections it has spawned, each holding a permit:
    what the loop does with a new peer, and how permits come back. *)

From S2P Require Import Prelude RStr RateLimit Schema Sys External Users AuditLog Net Settings AppPasswords LdapSchema LdapFilter LdapHandler LdapServer.
Local Open Scope string_scope.

Definition MAX_CONNECTIONS : nat := 128.

(** A spawned task: its number, its peer and the variables of its loop. *)
Record Task := { tk_id : nat; tk_peer : SocketAddr; tk_conn : Conn }.
Record Listener := { ln_permits : nat; ln_tasks : list Task; ln_spawned : nat }.

(** [Semaphore::new] *)
Definition listening : Listener := {| ln_permits := MAX_CONNECTIONS; ln_tasks := []; ln_spawned := 0 |}.

Inductive ListenerEvent : Type :=
| AcceptFailed
| Accepted (peer : SocketAddr)
| Message (id : nat) (op : ServerOps)
(** The stream ends, a frame is refused, or a read or a send times out. *)
| Disconnected (id : nat).

(** A task ends, also by a panic: its permit is dropped with it. *)
Definition finish (id : nat) (l : Listener) : Listener :=
  {| ln_permits := ln_permits l + count (fun t => beq (tk_id t) id) (ln_tasks l);
     ln_tasks := delete (fun t => beq (tk_id t) id) (ln_tasks l); ln_spawned := ln_spawned l |}.
Definition set_conn (c : Conn) (t : Task) : Task := {| tk_id := tk_id t; tk_peer := tk_peer t; tk_conn := c |}.

Section Listener.
Context {E : Env} {PH : PasswordHashing} {JL : JsonLib} {UL : UuidLib}.
Variable pkg_version : string.

(** [run]: before the loop, and one event of it. *)
Definition start_listener : prog (option Listener) :=
  r <~ (acquire ;;; load_ldap_config) ;;
  Ret (match r with Ok _ => Some listening | Err _ => None end).
Definition on_event (e : ListenerEvent) (l : Listener) : prog Listener :=
  match e with
  | AcceptFailed => Ret l
  | Accepted peer =>
      match ln_permits l with
      | O => Ret l
      | S permits =>
          opened <~ open_connection ;;
          Ret (match opened with
               | Ok c => {| ln_permits := permits;
                            ln_tasks := (ln_tasks l ++ [{| tk_id := ln_spawned l; tk_peer := peer; tk_conn := c |}])%list;
                            ln_spawned := S (ln_spawned l) |}
               | Err _ => {| ln_permits := S permits; ln_tasks := ln_tasks l; ln_spawned := S (ln_spawned l) |}
               end)
      end
  | Message id op =>
      match fetch (fun t => beq (tk_id t) id) (ln_tasks l) with
      | None => Ret l
      | Some t =>
          r <~ on_message pkg_version (sa_ip (tk_peer t)) op (tk_conn t) ;;
          Ret (match r with
               | Ok (_, c) => {| ln_permits := ln_permits l;
                                 ln_tasks := update (fun t => beq (tk_id t) id) (set_conn c) (ln_tasks l);
                                 ln_spawned := ln_spawned l |}
               | Err _ => finish id l
               end)
      end
  | Disconnected id => Ret (finish id l)
  end.
Fixpoint on_events (es : list ListenerEvent) (l : Listener) : prog Listener :=
  match es with
  | [] => Ret l
  | e :: es' => l' <~ on_event e l ;; on_events es' l'
  end.

(** Every permit is in the semaphore or with exactly one task. *)
Definition permits_accounted (l : Listener) : Prop :=
  (ln_permits l + length (ln_tasks l) = MAX_CONNECTIONS)%nat /\
  NoDup (map tk_id (ln_tasks l)) /\ Forall (fun t => tk_id t < ln_spawned l)%nat (ln_tasks l).

Lemma finish_accounted id l : permits_accounted l -> permits_accounted (finish id l).
Proof.
  intros (H & Hn & Hf). unfold finish, permits_accounted. cbn [ln_permits ln_tasks ln_spawned].
  pose proof (length_delete (fun t => beq (tk_id t) id) (ln_tasks l)). split; [lia|]. split.
  - eapply sublist_NoDup; [exact Hn|]. apply fmap_sublist, delete_sublist.
  - rewrite Forall_forall in *. intros t Ht. by apply elem_of_delete in Ht as [Ht _]; apply Hf.
Qed.

Lemma update_set_conn_ids p c (ts : list Task) :
  map tk_id (update p (set_conn c) ts) = map tk_id ts /\ length (update p (set_conn c) ts) = length ts.
Proof.
  induction ts as [|t ts [IH1 IH2]]; [done|]. rewrite update_cons. cbn [map length]. rewrite IH1, IH2.
  by destruct (p t).
Qed.

Lemma on_event_accounted e l w l' w' :
  permits_accounted l -> run (on_event e l) w = (l', w') -> permits_accounted l'.
Proof.
  intros Hl. destruct e as [|peer|id op|id]; cbn [on_event].
  - by intros [= <- _].
  - destruct Hl as (H & Hn & Hf). destruct (ln_permits l) as [|permits] eqn:Ep; [intros [= <- _]; split; [by rewrite Ep|done]|].
    intros Hr. apply run_bind_eq in Hr as ([c|s] & w1 & _ & [= <- _]).
    + split; cbn [ln_permits ln_tasks ln_spawned]; [rewrite length_app; simpl; lia|]. split.
      * rewrite map_app. apply NoDup_app. split; [done|]. split; [|apply NoDup_singleton].
        intros x Hx Hx'. apply list_elem_of_singleton in Hx' as ->. apply list_elem_of_fmap in Hx as (t & Ht & Hin).
        rewrite Forall_forall in Hf. apply Hf in Hin. simpl in Ht. lia.
      * apply Forall_app. split; [|constructor; [simpl; lia|constructor]].
        eapply Forall_impl; [exact Hf|]. simpl. intros t Ht. lia.
    + split; cbn [ln_permits ln_tasks ln_spawned]; [done|]. split; [done|].
      eapply Forall_impl; [exact Hf|]. simpl. intros t Ht. lia.
  - destruct (fetch _ _) as [t|]; [|by intros [= <- _]].
    intros Hr. apply run_bind_eq in Hr as ([[rs c]|s] & w1 & _ & [= <- _]); [|by apply finish_accounted].
    destruct Hl as (H & Hn & Hf).
    destruct (update_set_conn_ids (fun t => beq (tk_id t) id) c (ln_tasks l)) as [Hids Hlen].
    split; cbn [ln_permits ln_tasks ln_spawned]; [by rewrite Hlen|]. split; [by rewrite Hids|].
    apply (Forall_map tk_id (fun i => i < ln_spawned l)%nat). rewrite Hids.
    by apply (Forall_map tk_id (fun i => i < ln_spawned l)%nat).
  - intros [= <- _]. by apply finish_accounted.
Qed.

(** The directory serves a bounded number of connections.  Whatever
    arrives, fails or ends, in whatever order, the permits in the semaphore and
    the running connections add up to 128; a peer is turned away exactly when
    128 connections are being served, and one that ends, even by a panic, makes
    room for another. *)
Theorem connections_bounded es w l w' :
  run (on_events es listening) w = (l, w') ->
  (length (ln_tasks l) <= MAX_CONNECTIONS)%nat /\
  (ln_permits l = 0%nat <-> length (ln_tasks l) = MAX_CONNECTIONS) /\
  forall t, t ∈ ln_tasks l ->
    (length (ln_tasks (finish (tk_id t) l)) = length (ln_tasks l) - 1)%nat /\
    (0 < ln_permits (finish (tk_id t) l))%nat.
Proof.
  intros Hr. assert (Hl : permits_accounted l).
  { assert (H0 : permits_accounted listening) by (split; [done|]; split; constructor).
    revert w Hr H0. generalize listening. induction es as [|e es IH]; intros l0 w Hr H0; cbn [on_events] in Hr.
    - by injection Hr as <- _.
    - apply run_bind_eq in Hr as (l1 & w1 & H1 & H2). eapply IH; [exact H2|].
      by eapply on_event_accounted. }
  destruct Hl as (H & Hn & _). split; [lia|]. split; [lia|]. intros t Ht.
  assert (Hc : count (fun t' => beq (tk_id t') (tk_id t)) (ln_tasks l) = 1%nat).
  { destruct (fetch_key_unique tk_id (tk_id t) (fun t' => beq (tk_id t') (tk_id t)) (ln_tasks l) Hn) as [_ ->];
      [intros r Hp; by bool_hyp|]. by rewrite (fetch_key_elem tk_id). }
  pose proof (length_delete (fun t' => beq (tk_id t') (tk_id t)) (ln_tasks l)) as Hd.
  unfold finish. cbn [ln_permits ln_tasks]. lia.
Qed.
End Listener.

(** ** Three peers, one of which leaves *)
Module Demo.
#[local] Existing Instances plain_uuid plain_passwords plain_json.
#[local] Instance listener_env : Env := calm_env 1000.
Definition peer (port : N) : SocketAddr := {| sa_ip := V4 1; sa_scope := 0; sa_port := port |}.
Definition arrivals : prog Listener :=
  on_events "1.0" [Accepted (peer 1); AcceptFailed; Accepted (peer 2); Disconnected 0; Accepted (peer 3)] listening.

Lemma connections_bounded_witness :
  map tk_id (ln_tasks (run arrivals (start empty_db)).1) = [1; 2]%nat /\
  (length (ln_tasks (run arrivals (start empty_db)).1) <= 128)%nat.
Proof.
  split; [vm_compute; reflexivity|].
  exact (proj1 (connections_bounded "1.0" _ (start empty_db) _ _ (surjective_pairing (run arrivals (start empty_db))))).
Defined.
End Demo.
