(* ===== verification/SessionSpec.v ===== *)
(** * Refresh tokens as an abstract state machine

    What the table of refresh tokens promises, without the table: a token is
    unknown, live or spent; it is issued once, never changes its user, hash or
    deadline, and is never live again after it was spent.  Every operation of
    [user/auth/token.rs], interleaved with any others, moves each token along
    this machine. *)

From S2P Require Import Prelude RStr RateLimit Schema Sys External Users AuditLog Net Settings Token TokenFacts SessionDemo Frame.
Local Open Scope Z_scope.
Local Open Scope string_scope.

(** ** The specification *)

Record Issued := { is_hash : string; is_user : Uuid; is_deadline : Z }.
Inductive TokenState : Type := Unknown | Live (i : Issued) | Spent (i : Issued).

Inductive token_step : TokenState -> TokenState -> Prop :=
| step_issue i : token_step Unknown (Live i)
| step_spend i : token_step (Live i) (Spent i).

(** What the machine promises: what was issued stays the same, and a spent token
    is spent for good. *)
Definition issued_as (s : TokenState) : option Issued :=
  match s with Unknown => None | Live i | Spent i => Some i end.

Lemma machine_keeps s s' :
  star token_step s s' ->
  (forall i, issued_as s = Some i -> issued_as s' = Some i) /\ (forall i, s = Spent i -> s' = Spent i).
Proof.
  induction 1 as [s|s s1 s' H _ [IH IHs]]; [done|]. inversion H; subst; split; intros j Hj; try discriminate Hj.
  by apply IH.
Qed.

(** ** The table refines it *)

Definition issued_of (r : RefreshTokenRecord) : Issued := {|
  is_hash := rt_token_hash r; is_user := rt_user_id r; is_deadline := rt_expires_at r |}.
Definition state_of (r : RefreshTokenRecord) : TokenState :=
  if is_none (rt_revoked_at r) then Live (issued_of r) else Spent (issued_of r).
Definition token_state (id : Uuid) (d : Db) : TokenState :=
  match fetch (fun r => beq (rt_id r) id) (refresh_tokens d) with
  | None => Unknown
  | Some r => state_of r
  end.
Definition token_ids (d : Db) : list Uuid := map rt_id (refresh_tokens d).

(** A step of the database moves every token along the machine. *)
Definition refines (d d' : Db) : Prop :=
  NoDup (token_ids d) ->
  NoDup (token_ids d') /\ forall id, star token_step (token_state id d) (token_state id d').
#[export] Instance refines_preorder : PreOrder refines.
Proof.
  split.
  - intros d H. split; [done|]. intros id. constructor.
  - intros d1 d2 d3 H12 H23 H1. destruct (H12 H1) as [H2 S12]. destruct (H23 H2) as [H3 S23].
    split; [done|]. intros id. eapply star_trans; [apply S12|apply S23].
Qed.

Lemma refines_same d d' : refresh_tokens d' = refresh_tokens d -> refines d d'.
Proof. intros H Hn. unfold token_state, token_ids in *. rewrite H. split; [done|]. intros id. constructor. Qed.

(** Updates of one row that keep it the same token and never revive it. *)
Definition advances (f : RefreshTokenRecord -> RefreshTokenRecord) : Prop := forall r,
  rt_id (f r) = rt_id r /\ issued_of (f r) = issued_of r /\
  (is_none (rt_revoked_at r) = false -> is_none (rt_revoked_at (f r)) = false).

Lemma advances_state f r : advances f -> star token_step (state_of r) (state_of (f r)).
Proof.
  intros Hf. destruct (Hf r) as (_ & Hi & Hr). unfold state_of. rewrite Hi.
  destruct (is_none (rt_revoked_at r)), (is_none (rt_revoked_at (f r))); try constructor.
  - apply star_one. constructor.
  - by discriminate Hr.
Qed.

Lemma update_ids p f l : advances f -> map rt_id (update p f l) = map rt_id l.
Proof.
  intros Hf. induction l as [|r l IH]; [done|]. rewrite update_cons. cbn [map]. rewrite IH.
  by destruct (p r); [rewrite (proj1 (Hf r))|].
Qed.

Lemma fetch_update_id p f id l :
  advances f ->
  fetch (fun r => beq (rt_id r) id) (update p f l)
  = option_map (fun r => if p r then f r else r) (fetch (fun r => beq (rt_id r) id) l).
Proof.
  intros Hf. unfold fetch. induction l as [|r l IH]; [done|]. rewrite update_cons. cbn [List.find].
  replace (rt_id (if p r then f r else r)) with (rt_id r) by (by destruct (p r); [rewrite (proj1 (Hf r))|]).
  by destruct (beq (rt_id r) id).
Qed.

Lemma refines_update p f d : advances f -> refines d (with_refresh_tokens (update p f) d).
Proof.
  intros Hf Hn. unfold token_ids, token_state. cbn [with_refresh_tokens refresh_tokens].
  rewrite update_ids by done. split; [done|]. intros id. rewrite fetch_update_id by done.
  destruct (fetch _ _) as [r|]; cbn [option_map]; [|constructor].
  destruct (p r); [by apply advances_state|constructor].
Qed.

Lemma refines_insert r d :
  existsb (fun r' => beq (rt_id r') (rt_id r)) (refresh_tokens d) = false ->
  is_none (rt_revoked_at r) = true ->
  refines d (with_refresh_tokens (fun rows => (rows ++ [r])%list) d).
Proof.
  intros Hd Hr Hn. unfold token_ids, token_state in *. cbn [with_refresh_tokens refresh_tokens].
  assert (Hf : forall r', r' ∈ refresh_tokens d -> rt_id r' <> rt_id r).
  { intros r' Hin. pose proof (existsb_false_elem _ _ _ Hd Hin) as H. cbn beta in H. by apply beq_neq in H. }
  split.
  - rewrite map_app. apply NoDup_app. split; [done|]. split; [|apply NoDup_singleton].
    intros x Hx Hx'. apply list_elem_of_singleton in Hx' as ->. apply list_elem_of_fmap in Hx as (r' & He & Hin).
    by apply (Hf r' Hin).
  - intros id. rewrite fetch_app. destruct (fetch _ (refresh_tokens d)) as [r'|]; [constructor|].
    unfold fetch. simpl. destruct (beq (rt_id r) id); [|constructor]. apply star_one. unfold state_of.
    rewrite Hr. constructor.
Qed.

Lemma advances_revoke t : advances (set_revoked_at t).
Proof. intros r. by split. Qed.
Lemma advances_retry u p : advances (set_retry u p).
Proof. intros r. by split. Qed.
Lemma advances_clear : advances clear_retry_pair.
Proof. intros r. by split. Qed.

(** ** Every operation *)
Section Operations.
Context {E : Env} {HA : Hashing} {ED : Ed25519} {JC : JwtCodec Claims} {UL : UuidLib} {AE : Aead}
        {SJ : SerdeJson TokenPair}.

Ltac refine_walk :=
  unfold User_get, User_get_roles, get_setting; respects_walk;
  first [ done | by apply refines_same
        | apply refines_update; auto using advances_revoke, advances_retry, advances_clear
        | apply refines_insert; done
        | idtac ];
  auto with respects.

Lemma refines_verify_user_session uid t v : respects (on_db refines) (verify_user_session uid t v).
Proof. unfold verify_user_session, user_session_version. refine_walk. Qed.
Hint Resolve refines_verify_user_session : respects.
Lemma refines_verify_access_token token key : respects (on_db refines) (verify_access_token token key).
Proof. unfold verify_access_token, decode_claims, deadline_passed. refine_walk. Qed.
Hint Resolve refines_verify_access_token : respects.
Lemma refines_revoke_all_user_tokens uid : respects (on_db refines) (revoke_all_user_tokens uid).
Proof. unfold revoke_all_user_tokens, revoke_user_access_tokens. refine_walk. Qed.
Hint Resolve refines_revoke_all_user_tokens : respects.
Lemma refines_generate_for_session uid roles D v a key :
  respects (on_db refines) (generate_token_pair_for_session uid roles D v a key).
Proof.
  unfold generate_token_pair_for_session, generate_access_token_for_session,
    generate_refresh_token_for_session. refine_walk.
Qed.
Hint Resolve refines_generate_for_session : respects.
Lemma refines_generate_token_pair uid roles key : respects (on_db refines) (generate_token_pair uid roles key).
Proof. unfold generate_token_pair, session_expiry_seconds, user_session_version. refine_walk. Qed.
Lemma refines_consume token key : respects (on_db refines) (consume_refresh_token token key).
Proof. unfold consume_refresh_token, user_session_version, decode_claims. refine_walk. Qed.
Hint Resolve refines_consume : respects.
Lemma refines_rotate token key : respects (on_db refines) (rotate_token_pair token key).
Proof. unfold rotate_token_pair. refine_walk. Qed.
Hint Resolve refines_rotate : respects.
Lemma refines_follow fuel t key p : respects (on_db refines) (follow_retry fuel t key p).
Proof. revert p. induction fuel as [|fuel IH]; intros p; cbn [follow_retry]; refine_walk. Qed.
Hint Resolve refines_follow : respects.
Lemma refines_browser token key : respects (on_db refines) (rotate_browser_token_pair token key).
Proof. apply respects_atomic_tx; [apply _|]. unfold encrypt_browser_retry. refine_walk. Qed.
Hint Resolve refines_generate_token_pair refines_browser : respects.

(** The operations on sessions, as the endpoints call them. *)
Inductive SessionOp : Type :=
| OpIssue (user_id : Uuid) (roles : list string)
| OpVerify (token : string)
| OpRefresh (token : string)
| OpBrowserRefresh (token : string)
| OpRevokeToken (token : string)
| OpRevokeAll (user_id : Uuid).
Definition forget {A} (p : prog A) : prog unit := _ <~ p ;; Ret tt.
Definition perform (key : SigningKey) (op : SessionOp) : prog unit :=
  match op with
  | OpIssue uid roles => forget (generate_token_pair uid roles key)
  | OpVerify token => forget (verify_access_token token key)
  | OpRefresh token => forget (rotate_token_pair token key)
  | OpBrowserRefresh token => forget (rotate_browser_token_pair token key)
  | OpRevokeToken token => forget (verify_and_revoke_refresh_token token key)
  | OpRevokeAll uid => forget (revoke_all_user_tokens uid)
  end.

Lemma refines_perform key op : respects (on_db refines) (perform key op).
Proof. destruct op; unfold perform, forget, verify_and_revoke_refresh_token; refine_walk. Qed.
End Operations.

(** The refresh tokens refine the abstract machine.  Whatever session
    operations run, however their statements interleave and fail, row
    identities stay unique and every token moves along the machine: issued
    live, spent at most once, and gone only by pruning; its hash, its user and
    its deadline never change. *)
Theorem sessions_refine_machine {E : Env} {HA : Hashing} {ED : Ed25519} {JC : JwtCodec Claims}
    {UL : UuidLib} {AE : Aead} {SJ : SerdeJson TokenPair} key ops sched w :
  NoDup (token_ids (db w)) ->
  let s := pool_run sched (map (perform key) ops, w) in
  NoDup (token_ids (db s.2)) /\
  forall id, star token_step (token_state id (db w)) (token_state id (db s.2)).
Proof.
  intros Hn s. destruct (pool_respects (on_db refines) (map (perform key) ops, w) s) as [H _].
  - apply pool_run_star.
  - apply Forall_map. apply Forall_forall. intros op _. apply refines_perform.
  - by apply H.
Qed.

(** Two browser refreshes and an ordinary one of the same token race with a
    revocation: the token issued before is spent, what the winner issued is
    known, and no identity appears twice. *)
Module Demo.
#[local] Existing Instances demo_env plain_hashing plain_ed25519 demo_jwt plain_uuid plain_aead demo_serde.

Definition ops : list SessionOp :=
  [OpBrowserRefresh "R0"; OpRefresh "R0"; OpIssue 7 ["admin"]; OpRevokeAll 7; OpVerify "A1"].
Definition sched : list nat := concat (repeat [0; 1; 2; 3; 4]%nat 40).
Definition after : list (prog unit) * World := pool_run sched (map (perform "k") ops, w0).
Definition R0_issued : Issued := issued_of (demo_refresh None).

Lemma sessions_refine_machine_witness :
  NoDup (token_ids (db w0)) /\ NoDup (token_ids (db after.2)) /\
  token_state 50 (db w0) = Live R0_issued /\ token_state 50 (db after.2) = Spent R0_issued /\
  star token_step (Live R0_issued) (token_state 50 (db after.2)).
Proof.
  assert (NoDup (token_ids (db w0))) as H0 by (apply NoDup_singleton).
  destruct (sessions_refine_machine "k" ops sched w0 H0) as [H1 H2].
  split; [exact H0|]. split; [exact H1|]. split; [vm_compute; reflexivity|].
  split; [vm_compute; reflexivity|]. exact (H2 50%N).
Defined.
End Demo.
