(* ===== verification/Routes.v ===== *)
(** * The routes of the API ([main.rs], and the attributes of the handlers)

    Which method and path each handler is registered under, with the statuses
    its attribute documents, and the look-up of a request's handler.  A segment
    in braces matches any one segment; the router is axum's, and it may try the
    routes in any order because no request fits two of them. *)

From S2P Require Import Prelude RStr RateLimit Schema Sys External Users Net Settings Token Http BrowserSecurity.
Local Open Scope Z_scope.
Local Open Scope string_scope.

Record Route := { rt_method : Method; rt_path : string; rt_statuses : list Z }.
Definition route (m : Method) (path : string) (statuses : list Z) : Route :=
  {| rt_method := m; rt_path := path; rt_statuses := statuses |}.

(** [handlers/user.rs] *)
Definition create_user_route : Route := route POST "/api/user" [201; 400; 409; 500].
Definition get_users_route : Route := route GET "/api/user" [200; 401; 403; 500].
Definition get_user_route : Route := route GET "/api/user/{id}" [200; 401; 403; 404; 500].
Definition update_user_route : Route := route PATCH "/api/user/{id}" [200; 400; 401; 403; 404; 409].
Definition get_me_route : Route := route GET "/api/me" [200; 401; 404].
Definition update_me_route : Route := route PATCH "/api/me" [200; 400; 401; 409].
Definition change_my_password_route : Route := route PATCH "/api/me/password" [204; 400; 401; 404].
Definition admin_change_user_password_route : Route := route PUT "/api/user/{id}/password" [204; 400; 401; 403; 404].

(** [handlers/auth.rs] *)
Definition login_route : Route := route POST "/api/login" [200; 400; 401; 429; 500].
Definition refresh_token_route : Route := route POST "/api/auth/refresh" [200; 401; 500].
Definition logout_route : Route := route POST "/api/auth/logout" [204; 401; 500].
Definition browser_login_route : Route := route POST "/api/auth/login" [200; 302; 400; 401; 429; 500].
Definition browser_logout_route : Route := route POST "/api/auth/browser-logout" [200; 302; 500].
Definition browser_refresh_route : Route := route POST "/api/auth/browser-refresh" [200; 401; 500].
Definition verify_auth_route : Route := route GET "/api/auth/verify" [200; 303; 403; 500].
Definition forward_auth_start_route : Route := route GET "/.authere/start" [303].
Definition forward_redirect_route : Route := route GET "/api/auth/forward-redirect" [303; 400; 403].
Definition forward_auth_callback_route : Route := route GET "/.authere/callback" [303; 401; 403].
Definition lookup_forward_app_route : Route := route GET "/api/auth/forward-app" [200; 400; 404; 500].

(** [handlers/registration.rs] *)
Definition register_route : Route := route POST "/api/register" [200; 400; 409; 429; 500].
Definition validate_invite_route : Route := route GET "/api/register/validate-invite" [200].

(** [handlers/role.rs] *)
Definition list_roles_route : Route := route GET "/api/roles" [200; 401; 500].
Definition create_role_route : Route := route POST "/api/roles" [201; 400; 401; 403; 409; 500].
Definition delete_role_route : Route := route DELETE "/api/roles/{id}" [204; 400; 401; 403; 404; 500].
Definition get_user_roles_route : Route := route GET "/api/users/{user_id}/roles" [200; 401; 403; 404; 500].
Definition assign_role_route : Route := route POST "/api/users/{user_id}/roles" [201; 401; 403; 404; 409; 500].
Definition remove_role_route : Route := route DELETE "/api/users/{user_id}/roles/{role_id}" [204; 401; 403; 404; 500].

(** [handlers/application.rs] *)
Definition list_applications_route : Route := route GET "/api/applications" [200; 401; 403; 500].
Definition create_application_route : Route := route POST "/api/applications" [201; 400; 401; 403; 409; 500].
Definition get_application_route : Route := route GET "/api/applications/{id}" [200; 401; 403; 404; 500].
Definition update_application_route : Route := route PUT "/api/applications/{id}" [200; 400; 401; 403; 404; 500].
Definition delete_application_route : Route := route DELETE "/api/applications/{id}" [204; 401; 403; 404; 500].

(** [handlers/admin.rs] *)
Definition get_audit_log_route : Route := route GET "/api/audit" [200; 401; 403].
Definition get_audit_event_types_route : Route := route GET "/api/audit/event-types" [200; 401; 403].
Definition export_audit_log_route : Route := route GET "/api/audit/export" [200; 401; 403].
Definition get_settings_route : Route := route GET "/api/settings" [200; 401; 403].
Definition update_settings_route : Route := route PATCH "/api/settings" [200; 401; 403].
Definition regenerate_ldap_bind_password_route : Route := route POST "/api/settings/ldap/regenerate-bind-password" [200; 401; 403].
Definition restart_service_route : Route := route POST "/api/admin/restart" [202; 401; 403].
Definition list_invitations_route : Route := route GET "/api/invitations" [200; 401; 403].
Definition create_invitation_route : Route := route POST "/api/invitations" [201; 400; 401; 403].
Definition delete_invitation_route : Route := route DELETE "/api/invitations/{id}" [204; 401; 403; 404].

(** [handlers/totp.rs] *)
Definition get_my_totp_status_route : Route := route GET "/api/me/totp" [200; 401].
Definition enroll_my_totp_route : Route := route POST "/api/me/totp/enroll" [200; 401; 409].
Definition activate_my_totp_route : Route := route POST "/api/me/totp/activate" [200; 400; 401].
Definition disable_my_totp_route : Route := route DELETE "/api/me/totp" [204; 401; 404].
Definition admin_disable_user_totp_route : Route := route DELETE "/api/user/{id}/totp" [204; 401; 403; 404].

(** [handlers/app_passwords.rs] *)
Definition list_my_app_passwords_route : Route := route GET "/api/me/app-passwords" [200; 401].
Definition create_my_app_password_route : Route := route POST "/api/me/app-passwords" [201; 400; 401; 409].
Definition delete_my_app_password_route : Route := route DELETE "/api/me/app-passwords/{id}" [204; 401; 404].
Definition admin_list_app_passwords_route : Route := route GET "/api/users/{user_id}/app-passwords" [200; 401; 403].
Definition admin_delete_app_password_route : Route := route DELETE "/api/users/{user_id}/app-passwords/{id}" [204; 401; 403; 404].

(** [handlers/oauth.rs] *)
Definition discovery_route : Route := route GET "/.well-known/openid-configuration" [200].
Definition jwks_route : Route := route GET "/.well-known/jwks.json" [200].
Definition authorize_route : Route := route GET "/oauth/authorize" [302; 400].
Definition token_route : Route := route POST "/oauth/token" [200; 400; 401; 429].
Definition userinfo_route : Route := route GET "/oauth/userinfo" [200; 401].
Definition end_session_route : Route := route GET "/oauth/end_session" [302; 200].
Definition end_session_post_route : Route := route POST "/oauth/end_session" [302; 200].

(** [handlers/passkeys.rs] *)
Definition list_passkeys_route : Route := route GET "/api/me/passkeys" [200].
Definition register_start_route : Route := route POST "/api/me/passkeys/register/start" [200].
Definition register_finish_route : Route := route POST "/api/me/passkeys/register/finish" [201].
Definition login_start_route : Route := route POST "/api/auth/passkeys/start" [200].
Definition login_finish_route : Route := route POST "/api/auth/passkeys/finish" [200].
Definition delete_passkey_route : Route := route DELETE "/api/me/passkeys/{id}" [204].
(** ** The table of [run] *)
Inductive Endpoint : Type :=
| EpCreateUser | EpGetUsers | EpGetUser | EpUpdateUser | EpLogin | EpRefreshToken
| EpLogout | EpRegister | EpValidateInvite | EpListRoles | EpCreateRole | EpDeleteRole
| EpGetUserRoles | EpAssignRole | EpRemoveRole | EpListApplications | EpCreateApplication
| EpGetApplication | EpUpdateApplication | EpDeleteApplication | EpVerifyAuth
| EpForwardRedirect | EpForwardAuthCallback | EpForwardAuthStart | EpLookupForwardApp
| EpBrowserLogin | EpListPasskeys | EpRegisterStart | EpRegisterFinish | EpLoginStart
| EpLoginFinish | EpDeletePasskey | EpBrowserLogout | EpBrowserRefresh | EpGetMe
| EpUpdateMe | EpChangeMyPassword | EpAdminChangeUserPassword | EpGetAuditLog
| EpGetAuditEventTypes | EpExportAuditLog | EpGetSettings | EpUpdateSettings
| EpRegenerateLdapBindPassword | EpRestartService | EpListInvitations | EpCreateInvitation
| EpDeleteInvitation | EpGetMyTotpStatus | EpDisableMyTotp | EpEnrollMyTotp
| EpActivateMyTotp | EpAdminDisableUserTotp | EpListMyAppPasswords | EpCreateMyAppPassword
| EpDeleteMyAppPassword | EpAdminListAppPasswords | EpAdminDeleteAppPassword | EpDiscovery
| EpJwks | EpAuthorize | EpToken | EpUserinfo | EpEndSession | EpEndSessionPost.

Definition route_of (e : Endpoint) : Route :=
  match e with
  | EpCreateUser => create_user_route
  | EpGetUsers => get_users_route
  | EpGetUser => get_user_route
  | EpUpdateUser => update_user_route
  | EpLogin => login_route
  | EpRefreshToken => refresh_token_route
  | EpLogout => logout_route
  | EpRegister => register_route
  | EpValidateInvite => validate_invite_route
  | EpListRoles => list_roles_route
  | EpCreateRole => create_role_route
  | EpDeleteRole => delete_role_route
  | EpGetUserRoles => get_user_roles_route
  | EpAssignRole => assign_role_route
  | EpRemoveRole => remove_role_route
  | EpListApplications => list_applications_route
  | EpCreateApplication => create_application_route
  | EpGetApplication => get_application_route
  | EpUpdateApplication => update_application_route
  | EpDeleteApplication => delete_application_route
  | EpVerifyAuth => verify_auth_route
  | EpForwardRedirect => forward_redirect_route
  | EpForwardAuthCallback => forward_auth_callback_route
  | EpForwardAuthStart => forward_auth_start_route
  | EpLookupForwardApp => lookup_forward_app_route
  | EpBrowserLogin => browser_login_route
  | EpListPasskeys => list_passkeys_route
  | EpRegisterStart => register_start_route
  | EpRegisterFinish => register_finish_route
  | EpLoginStart => login_start_route
  | EpLoginFinish => login_finish_route
  | EpDeletePasskey => delete_passkey_route
  | EpBrowserLogout => browser_logout_route
  | EpBrowserRefresh => browser_refresh_route
  | EpGetMe => get_me_route
  | EpUpdateMe => update_me_route
  | EpChangeMyPassword => change_my_password_route
  | EpAdminChangeUserPassword => admin_change_user_password_route
  | EpGetAuditLog => get_audit_log_route
  | EpGetAuditEventTypes => get_audit_event_types_route
  | EpExportAuditLog => export_audit_log_route
  | EpGetSettings => get_settings_route
  | EpUpdateSettings => update_settings_route
  | EpRegenerateLdapBindPassword => regenerate_ldap_bind_password_route
  | EpRestartService => restart_service_route
  | EpListInvitations => list_invitations_route
  | EpCreateInvitation => create_invitation_route
  | EpDeleteInvitation => delete_invitation_route
  | EpGetMyTotpStatus => get_my_totp_status_route
  | EpDisableMyTotp => disable_my_totp_route
  | EpEnrollMyTotp => enroll_my_totp_route
  | EpActivateMyTotp => activate_my_totp_route
  | EpAdminDisableUserTotp => admin_disable_user_totp_route
  | EpListMyAppPasswords => list_my_app_passwords_route
  | EpCreateMyAppPassword => create_my_app_password_route
  | EpDeleteMyAppPassword => delete_my_app_password_route
  | EpAdminListAppPasswords => admin_list_app_passwords_route
  | EpAdminDeleteAppPassword => admin_delete_app_password_route
  | EpDiscovery => discovery_route
  | EpJwks => jwks_route
  | EpAuthorize => authorize_route
  | EpToken => token_route
  | EpUserinfo => userinfo_route
  | EpEndSession => end_session_route
  | EpEndSessionPost => end_session_post_route
  end.

Definition endpoints : list Endpoint :=
  [EpCreateUser; EpGetUsers; EpGetUser; EpUpdateUser; EpLogin; EpRefreshToken; EpLogout;
   EpRegister; EpValidateInvite; EpListRoles; EpCreateRole; EpDeleteRole; EpGetUserRoles;
   EpAssignRole; EpRemoveRole; EpListApplications; EpCreateApplication; EpGetApplication;
   EpUpdateApplication; EpDeleteApplication; EpVerifyAuth; EpForwardRedirect;
   EpForwardAuthCallback; EpForwardAuthStart; EpLookupForwardApp; EpBrowserLogin;
   EpListPasskeys; EpRegisterStart; EpRegisterFinish; EpLoginStart; EpLoginFinish;
   EpDeletePasskey; EpBrowserLogout; EpBrowserRefresh; EpGetMe; EpUpdateMe;
   EpChangeMyPassword; EpAdminChangeUserPassword; EpGetAuditLog; EpGetAuditEventTypes;
   EpExportAuditLog; EpGetSettings; EpUpdateSettings; EpRegenerateLdapBindPassword;
   EpRestartService; EpListInvitations; EpCreateInvitation; EpDeleteInvitation;
   EpGetMyTotpStatus; EpDisableMyTotp; EpEnrollMyTotp; EpActivateMyTotp;
   EpAdminDisableUserTotp; EpListMyAppPasswords; EpCreateMyAppPassword;
   EpDeleteMyAppPassword; EpAdminListAppPasswords; EpAdminDeleteAppPassword; EpDiscovery;
   EpJwks; EpAuthorize; EpToken; EpUserinfo; EpEndSession; EpEndSessionPost].

(** ** Matching *)

(** A segment of a registered path that takes any value. *)
Definition is_param (seg : string) : bool := starts_with "{" seg.
Definition segment_matches (pattern seg : string) : bool :=
  if is_param pattern then negb (is_empty seg) else beq pattern seg.
Fixpoint segments_match (pattern path : list string) : bool :=
  match pattern, path with
  | [], [] => true
  | p :: pattern', s :: path' => (segment_matches p s && segments_match pattern' path')%bool
  | _, _ => false
  end.
Definition path_matches (pattern path : string) : bool :=
  segments_match (split_byte "/" pattern) (split_byte "/" path).

(** A handler of GET requests also answers HEAD requests. *)
Definition method_matches (registered m : Method) : bool :=
  (beq m registered || (beq m HEAD && beq registered GET))%bool.
Definition accepts (m : Method) (path : string) (e : Endpoint) : bool :=
  (method_matches (rt_method (route_of e)) m && path_matches (rt_path (route_of e)) path)%bool.

(** What the router finds: a handler, a path served under other methods only,
    or nothing. *)
Inductive Found : Type := Handler (e : Endpoint) | MethodNotAllowed | NoRoute.
Definition find_route (m : Method) (path : string) : Found :=
  match List.find (accepts m path) endpoints with
  | Some e => Handler e
  | None =>
      if existsb (fun e => path_matches (rt_path (route_of e)) path) endpoints
      then MethodNotAllowed else NoRoute
  end.

(** ** No request fits two routes *)

(** Two segments of registered paths that some segment matches both. *)
Definition compatible (p q : string) : bool := (is_param p || is_param q || beq p q)%bool.
Fixpoint paths_overlap (ps qs : list string) : bool :=
  match ps, qs with
  | [], [] => true
  | p :: ps', q :: qs' => (compatible p q && paths_overlap ps' qs')%bool
  | _, _ => false
  end.
Definition methods_overlap (m n : Method) : bool := beq m n.
Definition routes_overlap (r s : Route) : bool :=
  (methods_overlap (rt_method r) (rt_method s)
   && paths_overlap (split_byte "/" (rt_path r)) (split_byte "/" (rt_path s)))%bool.

Lemma segments_overlap ps qs segs :
  segments_match ps segs = true -> segments_match qs segs = true -> paths_overlap ps qs = true.
Proof.
  revert qs segs. induction ps as [|p ps IH]; intros [|q qs] [|s segs]; simpl; try done.
  intros H1 H2. apply andb_prop in H1 as [Hp H1]. apply andb_prop in H2 as [Hq H2].
  apply andb_true_iff. split; [|by eapply IH]. unfold segment_matches, compatible in *.
  destruct (is_param p); [done|]. destruct (is_param q); [done|]. bool_hyp. subst. apply beq_refl.
Qed.

Lemma accepts_overlap m path e e' :
  rt_method (route_of e) <> HEAD -> rt_method (route_of e') <> HEAD ->
  accepts m path e = true -> accepts m path e' = true -> routes_overlap (route_of e) (route_of e') = true.
Proof.
  intros Hh Hh' H1 H2. unfold accepts, path_matches in *.
  apply andb_prop in H1 as [M1 P1]. apply andb_prop in H2 as [M2 P2].
  apply andb_true_iff. split; [|by eapply segments_overlap].
  unfold methods_overlap, method_matches in *. apply beq_eq.
  apply orb_prop in M1, M2. destruct M1, M2; bool_hyp; congruence.
Qed.

Fixpoint pairwise {A} (f : A -> A -> bool) (l : list A) : bool :=
  match l with [] => true | x :: l' => (forallb (f x) l' && pairwise f l')%bool end.
Lemma pairwise_elem {A} (f : A -> A -> bool) l x y :
  pairwise f l = true -> x ∈ l -> y ∈ l -> x = y \/ f x y = true \/ f y x = true.
Proof.
  induction l as [|z l IH]; intros H Hx Hy; [by apply not_elem_of_nil in Hx|].
  simpl in H. apply andb_prop in H as [Hz H]. rewrite forallb_forall in Hz.
  apply elem_of_cons in Hx as [->|Hx], Hy as [->|Hy].
  - by left.
  - right. left. by apply Hz, list_elem_of_In.
  - right. right. by apply Hz, list_elem_of_In.
  - by apply IH.
Qed.

Lemma endpoints_all e : e ∈ endpoints.
Proof. apply list_elem_of_In. destruct e; vm_compute; tauto. Qed.
Lemma registered_method e : rt_method (route_of e) <> HEAD.
Proof. by destruct e. Qed.
Lemma table_disjoint :
  pairwise (fun e e' => negb (routes_overlap (route_of e) (route_of e'))) endpoints = true.
Proof. vm_compute. reflexivity. Qed.

Lemma routes_overlap_sym r s : routes_overlap r s = routes_overlap s r.
Proof.
  unfold routes_overlap, methods_overlap. f_equal.
  - apply eq_true_iff_eq. rewrite !beq_eq. naive_solver.
  - generalize (split_byte "/" (rt_path r)), (split_byte "/" (rt_path s)).
    induction l as [|p ps IH]; intros [|q qs]; simpl; try done. rewrite IH. f_equal.
    unfold compatible. rewrite (orb_comm (is_param p)). f_equal.
    apply eq_true_iff_eq. rewrite !beq_eq. naive_solver.
Qed.

Lemma accepts_unique m path e e' : accepts m path e = true -> accepts m path e' = true -> e = e'.
Proof.
  intros H1 H2. pose proof (accepts_overlap _ _ _ _ (registered_method e) (registered_method e') H1 H2) as Ho.
  destruct (pairwise_elem _ _ e e' table_disjoint (endpoints_all e) (endpoints_all e')) as [H|[H|H]]; [done| |].
  - cbn beta in H. by rewrite Ho in H.
  - cbn beta in H. by rewrite routes_overlap_sym, Ho in H.
Qed.

(** A path each route is reached under: its parameters filled in. *)
Definition sample_path (e : Endpoint) : string :=
  join "/" (map (fun seg => if is_param seg then "x" else seg) (split_byte "/" (rt_path (route_of e)))).

(** C24: routing is unambiguous and complete.  A handler answers a request
    exactly when the request's method and path fit its route, so the order in
    which the router tries them is of no consequence; every handler can be
    reached; and a request is answered with 404 or 405 only when it fits none,
    with 405 exactly when another method would have fitted. *)
Theorem routing_exact m path :
  (forall e, find_route m path = Handler e <-> accepts m path e = true) /\
  (find_route m path = MethodNotAllowed <->
     (forall e, accepts m path e = false) /\ exists e m', accepts m' path e = true) /\
  forall e, find_route (rt_method (route_of e)) (sample_path e) = Handler e.
Proof.
  assert (H1 : forall e, find_route m path = Handler e <-> accepts m path e = true).
  { intros e. unfold find_route. destruct (List.find (accepts m path) endpoints) as [e'|] eqn:Ef.
    - apply List.find_some in Ef as [_ Ha]. split; [by intros [= <-]|]. intros He.
      by rewrite (accepts_unique _ _ _ _ Ha He).
    - split; [by destruct (existsb _ _)|]. intros He.
      by rewrite (List.find_none _ _ Ef e (proj1 (list_elem_of_In _ _) (endpoints_all e))) in He. }
  split; [done|]. split; [|by intros []].
  assert (Hx : existsb (fun e => path_matches (rt_path (route_of e)) path) endpoints = true <->
               exists e m', accepts m' path e = true).
  { rewrite existsb_exists. split.
    - intros (e & _ & Hp). exists e, (rt_method (route_of e)). unfold accepts, method_matches.
      by rewrite beq_refl, Hp.
    - intros (e & m' & Ha). exists e. split; [apply list_elem_of_In, endpoints_all|].
      by apply andb_prop in Ha as [_ Hp]. }
  rewrite <- Hx. split.
  - intros Hf. split.
    + intros e. destruct (accepts m path e) eqn:Ea; [|done]. apply H1 in Ea. by rewrite Ea in Hf.
    + unfold find_route in Hf. destruct (List.find _ _); [done|]. by destruct (existsb _ _).
  - intros [Hn Hp]. unfold find_route. rewrite Hp.
    destruct (List.find (accepts m path) endpoints) as [e|] eqn:Ef; [|done].
    apply List.find_some in Ef as [_ Ha]. by rewrite Hn in Ha.
Qed.
