(* ===== verification/Server.v ===== *)
(** * The server: every endpoint behind its route ([main.rs])

    A request after routing and decoding is a [Call]: the endpoint with its
    decoded path, query and body.  [serve] is the handler the router runs for
    it, with its result as the client sees it; [respond] adds the layers around
    the router. *)

From S2P Require Import Prelude RStr RateLimit Schema Sys External Users AuditLog Net Settings Token Totp LoginFlow Application Forward Http OidcCodes OidcToken AppPasswords Invitations Accounts Passkeys TotpHandlers ApplicationHandlers SettingsHandlers AuditExport ForwardAuth OAuth ClientAddress BrowserSecurity Routes.
Local Open Scope Z_scope.
Local Open Scope string_scope.

(** ** Calls *)
Inductive Call : Type :=
| CreateUser (input : CreateUserInput) | GetUsers | GetUser (id : Uuid)
| UpdateUser (id : Uuid) (input : UpdateUserInput)
| Login (input : LoginInput) | RefreshToken (token : string) | Logout (token : string)
| Register (input : RegisterInput) | ValidateInvite (code : string)
| ListRoles | CreateRole (input : CreateRoleInput) | DeleteRole (id : Uuid)
| GetUserRoles (user_id : Uuid) | AssignRole (user_id role_id : Uuid) | RemoveRole (user_id role_id : Uuid)
| ListApplications | CreateApplication (input : CreateApplicationInput) | GetApplication (id : Uuid)
| UpdateApplication (id : Uuid) (input : UpdateApplicationInput) | DeleteApplication (id : Uuid)
| VerifyAuth | ForwardRedirect (redirect_uri state : string) | ForwardAuthCallback (token : string)
| ForwardAuthStart (redirect_uri : option string) (login : bool) | LookupForwardApp (redirect_uri : string)
| BrowserLogin (redirect_uri : option string) (input : LoginInput)
| ListPasskeys | RegisterStart (name : string) | RegisterFinish (credential : Json)
| LoginStart | LoginFinish (redirect_uri : option string) (credential : Json) | DeletePasskey (id : Uuid)
| BrowserLogout (redirect_uri : option string) | BrowserRefresh
| GetMe | UpdateMe (input : UpdateUserInput) | ChangeMyPassword (input : ChangePasswordInput)
| AdminChangeUserPassword (id : Uuid) (new_password : string)
| GetAuditLog (params : AuditLogParams) | GetAuditEventTypes | ExportAuditLog (params : AuditExportParams)
| GetSettings | UpdateSettings (input : UpdateSettingsInput) | RegenerateLdapBindPassword | RestartService
| ListInvitations | CreateInvitation (input : CreateInvitationInput) | DeleteInvitation (id : string)
| GetMyTotpStatus | DisableMyTotp (password : string) | EnrollMyTotp | ActivateMyTotp (code : string)
| AdminDisableUserTotp (id : Uuid)
| ListMyAppPasswords | CreateMyAppPassword (name : string) | DeleteMyAppPassword (id : Uuid)
| AdminListAppPasswords (user_id : Uuid) | AdminDeleteAppPassword (user_id id : Uuid)
| Discovery | Jwks | Authorize (path_and_query : option string) (q : AuthorizeQuery)
| Token (form : TokenForm) | Userinfo | EndSession (q : EndSessionQuery) | EndSessionPost (q : EndSessionQuery).

Record Incoming := { in_headers : list (string * string); in_peer : option IpAddr; in_call : Call }.

Definition endpoint_of (c : Call) : Endpoint :=
  match c with
  | CreateUser _ => EpCreateUser | GetUsers => EpGetUsers | GetUser _ => EpGetUser
  | UpdateUser _ _ => EpUpdateUser | Login _ => EpLogin | RefreshToken _ => EpRefreshToken
  | Logout _ => EpLogout | Register _ => EpRegister | ValidateInvite _ => EpValidateInvite
  | ListRoles => EpListRoles | CreateRole _ => EpCreateRole | DeleteRole _ => EpDeleteRole
  | GetUserRoles _ => EpGetUserRoles | AssignRole _ _ => EpAssignRole
  | RemoveRole _ _ => EpRemoveRole | ListApplications => EpListApplications
  | CreateApplication _ => EpCreateApplication | GetApplication _ => EpGetApplication
  | UpdateApplication _ _ => EpUpdateApplication | DeleteApplication _ => EpDeleteApplication
  | VerifyAuth => EpVerifyAuth | ForwardRedirect _ _ => EpForwardRedirect
  | ForwardAuthCallback _ => EpForwardAuthCallback | ForwardAuthStart _ _ => EpForwardAuthStart
  | LookupForwardApp _ => EpLookupForwardApp | BrowserLogin _ _ => EpBrowserLogin
  | ListPasskeys => EpListPasskeys | RegisterStart _ => EpRegisterStart
  | RegisterFinish _ => EpRegisterFinish | LoginStart => EpLoginStart
  | LoginFinish _ _ => EpLoginFinish | DeletePasskey _ => EpDeletePasskey
  | BrowserLogout _ => EpBrowserLogout | BrowserRefresh => EpBrowserRefresh | GetMe => EpGetMe
  | UpdateMe _ => EpUpdateMe | ChangeMyPassword _ => EpChangeMyPassword
  | AdminChangeUserPassword _ _ => EpAdminChangeUserPassword | GetAuditLog _ => EpGetAuditLog
  | GetAuditEventTypes => EpGetAuditEventTypes | ExportAuditLog _ => EpExportAuditLog
  | GetSettings => EpGetSettings | UpdateSettings _ => EpUpdateSettings
  | RegenerateLdapBindPassword => EpRegenerateLdapBindPassword | RestartService => EpRestartService
  | ListInvitations => EpListInvitations | CreateInvitation _ => EpCreateInvitation
  | DeleteInvitation _ => EpDeleteInvitation | GetMyTotpStatus => EpGetMyTotpStatus
  | DisableMyTotp _ => EpDisableMyTotp | EnrollMyTotp => EpEnrollMyTotp
  | ActivateMyTotp _ => EpActivateMyTotp | AdminDisableUserTotp _ => EpAdminDisableUserTotp
  | ListMyAppPasswords => EpListMyAppPasswords | CreateMyAppPassword _ => EpCreateMyAppPassword
  | DeleteMyAppPassword _ => EpDeleteMyAppPassword
  | AdminListAppPasswords _ => EpAdminListAppPasswords
  | AdminDeleteAppPassword _ _ => EpAdminDeleteAppPassword | Discovery => EpDiscovery
  | Jwks => EpJwks | Authorize _ _ => EpAuthorize | Token _ => EpToken | Userinfo => EpUserinfo
  | EndSession _ => EpEndSession | EndSessionPost _ => EpEndSessionPost
  end.

(** ** Answers

    A handler's result: a JSON body under a status, a response it has built,
    or a panic, on which the connection is closed. *)
Inductive Payload : Type :=
| NoBody
| Tokens (pair : TokenPair)
| OneUser (user : User) | SomeUsers (users : list User) | Me (me : MeResponse)
| OneRole (role : Role) | SomeRoles (roles : list Role) | UserRoles (roles : list UserRole)
| OneApplication (app : Application) | SomeApplications (apps : list Application)
| CreatedApplication (created : CreateApplicationResponse)
| InviteValid (valid : bool) | OneInvitation (i : Invitation) | SomeInvitations (l : list InvitationWithStatus)
| AppName (name : string)
| SomePasskeys (l : list PasskeyInfo)
| AuditPage (page : AuditLogResponse) | EventTypes (l : list string)
| CurrentSettings (s : SettingsResponse) | BindPassword (password : string)
| CurrentTotp (s : TotpStatus) | Enrolled (e : EnrollResponse) | RecoveryCodes (codes : list string)
| SomeAppPasswords (l : list AppPassword) | NewAppPassword (p : AppPassword) (cleartext : string)
| DiscoveryDoc (d : DiscoveryDocument) | Keys (j : Json).

Inductive Answer : Type :=
| AsJson (status : Z) (payload : Payload)
| AsBuilt (r : Response)
| Panicked.

(** The conversions of axum's [IntoResponse] for results. *)
Definition answer {A} (f : A -> Answer) (p : M A) : prog Answer :=
  r <~ p ;; Ret (match r with Ok a => f a | Err e => AsBuilt (error_response e) end).
Definition answerL {A} (f : A -> Answer) (p : prog (result LoginError A)) : prog Answer :=
  r <~ p ;; Ret (match r with Ok a => f a | Err e => AsBuilt (login_error_response e) end).
Definition answer_panic {A} (f : A -> Answer) (p : prog (option (result AppError A))) : prog Answer :=
  r <~ p ;; Ret (match r with
                 | Some (Ok a) => f a
                 | Some (Err e) => AsBuilt (error_response e)
                 | None => Panicked
                 end).
Definition built (p : prog Response) : prog Answer := r <~ p ;; Ret (AsBuilt r).
Definition json {A} (f : A -> Payload) (a : A) : Answer := AsJson 200 (f a).
Definition created {A} (f : A -> Payload) (a : A) : Answer := AsJson 201 (f a).
Definition status_only {A} (status : Z) (_ : A) : Answer := AsJson status NoBody.
Definition by_status (status : Z) : Answer := AsJson status NoBody.

Section Server.
Context {E : Env} {HA : Hashing} {ED : Ed25519} {UL : UuidLib} {AE : Aead} {PH : PasswordHashing}
        {MAC : HmacSha1} {JL : JsonLib} {RX : RegexLib} {URL : UrlLib} {UP : UrlParts} {UE : UrlEncoding}
        {B64 : Base64Std} {HL : HttpLib} {AX : AxumParts} {RL : RandLib} {RJ : RecordsJson}
        {UA : UserAgentHeader} {WL : WebauthnLib}.
Context {JC : JwtCodec Claims} {JF : JwtCodec ForwardSession} {JH : JwtCodec Handoff}
        {JI : JwtCodec IdTokenClaims} {JO : JwtCodec OidcAccessClaims} {SJ : SerdeJson TokenPair}
        {JR : JsonText PasskeyRegistration} {JP : JsonText Passkey} {JA : JsonText DiscoverableAuthentication}.
Variable username_regex email_regex : string -> bool.
Variable non_ascii_uppercase : string -> string.
Variable non_ascii_alphanumeric : string -> bool.
Variable st : AppState.

(** The handler of each endpoint. *)
Definition serve_call (h : list (string * string)) (ctx : AuditContext) (c : Call) : prog Answer :=
  match c with
  | CreateUser input => answer (created OneUser) (create_user username_regex email_regex st ctx h input)
  | GetUsers => answer (json SomeUsers) (get_users st h)
  | GetUser id => answer (json OneUser) (get_user st h id)
  | UpdateUser id input => answer (json OneUser) (update_user username_regex email_regex st ctx h id input)
  | Login input => answerL (json Tokens) (login non_ascii_uppercase username_regex st ctx input)
  | RefreshToken token => answer (json Tokens) (refresh st ctx token)
  | Logout token => answer by_status (logout st ctx token)
  | Register input =>
      r <~ register username_regex email_regex st ctx input ;;
      Ret (AsBuilt (match r with Ok resp => resp | Err e => register_error_response e end))
  | ValidateInvite code => answer (json InviteValid) (validate_invite code)
  | ListRoles => answer (json SomeRoles) (list_roles st h)
  | CreateRole input => answer (created OneRole) (create_role non_ascii_alphanumeric st ctx h input)
  | DeleteRole id => answer (status_only 204) (delete_role st ctx h id)
  | GetUserRoles uid => answer (json UserRoles) (get_user_roles st h uid)
  | AssignRole uid rid => answer (status_only 201) (assign_role st ctx h uid rid)
  | RemoveRole uid rid => answer (status_only 204) (remove_role st ctx h uid rid)
  | ListApplications => answer (json SomeApplications) (list_applications st h)
  | CreateApplication input =>
      answer (fun r => AsJson r.1 (CreatedApplication r.2)) (create_application non_ascii_alphanumeric st ctx h input)
  | GetApplication id => answer (json OneApplication) (get_application st h id)
  | UpdateApplication id input => answer (json OneApplication) (update_application st ctx h id input)
  | DeleteApplication id => answer by_status (delete_application st ctx h id)
  | VerifyAuth =>
      r <~ verify_auth st h ;; Ret (AsBuilt (match r with Ok resp => resp | Err resp => resp end))
  | ForwardRedirect uri state => answer AsBuilt (forward_redirect st h uri state)
  | ForwardAuthCallback token => answer AsBuilt (forward_auth_callback st h token)
  | ForwardAuthStart uri login => answer AsBuilt (forward_auth_start st h uri login)
  | LookupForwardApp uri => answer (json AppName) (lookup_forward_app st uri)
  | BrowserLogin uri input =>
      answerL AsBuilt (browser_login non_ascii_uppercase username_regex st ctx uri input)
  | ListPasskeys => answer (json SomePasskeys) (list_passkeys st h)
  | RegisterStart name => answerL AsBuilt (register_start st ctx h name)
  | RegisterFinish credential => answerL AsBuilt (register_finish st ctx h credential)
  | LoginStart => answerL AsBuilt (login_start st ctx h)
  | LoginFinish uri credential => answerL AsBuilt (login_finish st ctx h uri credential)
  | DeletePasskey id => answer by_status (delete_passkey st ctx h id)
  | BrowserLogout uri => answer AsBuilt (browser_logout st ctx h uri)
  | BrowserRefresh => answer AsBuilt (browser_refresh st ctx h)
  | GetMe => answer (json Me) (get_me st h)
  | UpdateMe input => answer (json OneUser) (update_me username_regex email_regex st ctx h input)
  | ChangeMyPassword input => answer (status_only 204) (change_my_password st ctx h input)
  | AdminChangeUserPassword id pw => answer (status_only 204) (admin_change_user_password st ctx h id pw)
  | GetAuditLog params => answer (json AuditPage) (get_audit_log st h params)
  | GetAuditEventTypes => answer (json EventTypes) (get_audit_event_types st h)
  | ExportAuditLog params => answer AsBuilt (export_audit_log st h params)
  | GetSettings => answer (json CurrentSettings) (get_settings st h)
  | UpdateSettings input => answer (json CurrentSettings) (update_settings st ctx h input)
  | RegenerateLdapBindPassword => answer_panic (json BindPassword) (regenerate_ldap_bind_password st ctx h)
  | RestartService => answer by_status (restart_service st ctx h)
  | ListInvitations => answer (json SomeInvitations) (list_invitations st h)
  | CreateInvitation input => answer (fun r => AsJson r.1 (OneInvitation r.2)) (create_invitation st ctx h input)
  | DeleteInvitation id => answer by_status (delete_invitation st ctx h id)
  | GetMyTotpStatus => answer (json CurrentTotp) (get_my_totp_status st h)
  | DisableMyTotp password => answer by_status (disable_my_totp st ctx h password)
  | EnrollMyTotp => answer (json Enrolled) (enroll_my_totp st h)
  | ActivateMyTotp code => answer (json RecoveryCodes) (activate_my_totp non_ascii_uppercase st ctx h code)
  | AdminDisableUserTotp id => answer by_status (admin_disable_user_totp st ctx h id)
  | ListMyAppPasswords => answer (json SomeAppPasswords) (list_my_app_passwords st h)
  | CreateMyAppPassword name =>
      answer_panic (created (fun r => NewAppPassword r.1 r.2)) (create_my_app_password st ctx h name)
  | DeleteMyAppPassword id => answer (status_only 204) (delete_my_app_password st ctx h id)
  | AdminListAppPasswords uid => answer (json SomeAppPasswords) (admin_list_app_passwords st h uid)
  | AdminDeleteAppPassword uid id => answer (status_only 204) (admin_delete_app_password st ctx h uid id)
  | Discovery => Ret (AsJson 200 (DiscoveryDoc (discovery st)))
  | Jwks => Ret (AsJson 200 (Keys (jwks st)))
  | Authorize uri q => built (authorize st ctx h uri q)
  | Token form => built (token st ctx h form)
  | Userinfo => built (userinfo st ctx h)
  | EndSession q => built (end_session st ctx h q)
  | EndSessionPost q => built (end_session_post st ctx h q)
  end.

(** The extractors run before the handler's body; the audit context never
    fails. *)
Definition serve (i : Incoming) : prog Answer :=
  serve_call (in_headers i) (audit_context (in_headers i) (in_peer i)) (in_call i).
End Server.
