(* ===== verification/Writes.v ===== *)
(** * Every write of the program, as one step relation

    [write d d']: the database statement that leads from [d] to [d'] is one the
    server, its directory, its background tasks or its command line executes,
    with the constraints SQLite has checked, the conditions the code has
    checked before it, and the origin of the values it writes: drawn or read
    from the clock since the run began, or validated.  An invariant of the database is
    proved once per constructor here, and then holds for whatever requests
    interleave. *)

From S2P Require Import Prelude RStr RateLimit Schema Sys External Users AuditLog Net Settings Token Totp LoginFlow Application Forward Http OidcCodes OidcToken AppPasswords Invitations Passkeys.
Local Open Scope Z_scope.
Local Open Scope string_scope.

Definition append {A} (row : A) (rows : list A) : list A := (rows ++ [row])%list.

(** ** What a run draws and checks

    The tick a run of the server starts at, and the name rules it is compiled
    with. *)
Class Run := { run_start : nat; run_username : string -> bool; run_email : string -> bool }.

(** [yields n Q p]: whatever else runs meanwhile, from tick [n] on, [p] can only
    return what satisfies [Q]. *)
Fixpoint yields (n : nat) {A} (Q : A -> Prop) (p : prog A) : Prop :=
  match p with
  | Ret a => Q a
  | Atom f k => forall w, (n <= tick w)%nat -> (n <= tick (f w).2)%nat -> yields n Q (k (f w).1)
  end.

Lemma respects_bind_yields {A B} n R (Q : A -> Prop) (p : prog A) (k : A -> prog B) :
  respects_from n R p -> yields n Q p -> (forall a, Q a -> respects_from n R (k a)) ->
  respects_from n R (bind p k).
Proof.
  intros Hp Hq Hk. induction p as [a|C f k' IH]; simpl in *; [auto|]. intros w Hw.
  destruct (Hp w Hw) as (H1 & H2 & H3). split; [done|]. split; [done|]. apply IH; [done|]. by apply Hq.
Qed.
Lemma respects_bindM_yields {A B} n R (Q : A -> Prop) (p : M A) (k : A -> M B) :
  respects_from n R p -> yields n (fun r => forall a, r = Ok a -> Q a) p ->
  (forall a, Q a -> respects_from n R (k a)) -> respects_from n R (bindM p k).
Proof. intros Hp Hq Hk. eapply respects_bind_yields; [done|exact Hq|]. intros [a|e] Ha; [auto|done]. Qed.

Section Provenance.
Context {E : Env} {HA : Hashing} {PH : PasswordHashing} {RN : Run}.

(** Drawn, or read from the clock, since the run started. *)
Definition drawn_id (id : Uuid) : Prop := exists i, (run_start <= i)%nat /\ id = fresh_uuid i.
Definition drawn_hex (len : nat) (s : string) : Prop :=
  exists i, (run_start <= i)%nat /\ s = hex_encode (entropy i len).
Definition clock_read (t : Z) : Prop := exists i, (run_start <= i)%nat /\ t = clock i.
(** A secret encrypted under a nonce drawn since then. *)
Definition drawn_blob (blob : string) : Prop :=
  exists i ct, (run_start <= i)%nat /\ blob = hex_encode (entropy i 12) ++ ":" ++ ct.

(** What the server asks of an account and of a password before it stores them. *)
Definition username_ok (s : string) : Prop := validate_username run_username s = Ok tt.
Definition name_ok (s : string) : Prop := Users.validate_name s = Ok tt.
Definition email_ok (s : option string) : Prop := validate_email run_email s = Ok tt.
Definition account_ok (u : User) : Prop :=
  username_ok (u_username u) /\ name_ok (u_name u) /\ email_ok (u_email u).
Definition hash_ok (hash : string) : Prop :=
  exists salt password, argon2_hash salt password = Ok hash /\ validate_password password = Ok tt.
Definition authenticator_ok (a : Authenticator) : Prop :=
  exists hash, au_scheme a = Password hash /\ hash_ok hash.
End Provenance.

Section Write.
Context {E : Env} {HA : Hashing} {PH : PasswordHashing} {UL : UuidLib} {RN : Run}.

Inductive write (d : Db) : Db -> Prop :=
(* users and their passwords *)
| w_user_insert u :
    existsb (fun r : UserRow => beq (u_id r) (u_id u) || beq (u_username r) (u_username u)) (users d) = false ->
    account_ok u ->
    write d (with_users (append {| u_row := u; u_token_version := 0 |}) d)
| w_user_profile id name email username t :
    (forall u : UserRow, fetch (fun r : UserRow => beq (u_id r) id) (users d) = Some u -> account_ok u ->
       username_ok username /\ name_ok name /\ email_ok email) ->
    (existsb (fun r : UserRow => beq (u_username r) username && negb (beq (u_id r) id)) (users d)
     && user_exists id d)%bool = false ->
    write d (with_users (update (fun r : UserRow => beq (u_id r) id) (set_profile name email username t)) d)
| w_user_version id : write d (with_users (update (fun r : UserRow => beq (u_id r) id) bump_version) d)
| w_authenticator_insert a :
    existsb (fun r => beq (au_id r) (au_id a)) (authenticators d) = false ->
    user_exists (au_owner_id a) d = true -> authenticator_ok a ->
    write d (with_authenticators (append a) d)
| w_password_update id hash :
    hash_ok hash ->
    write d (with_authenticators (update (fun a => beq (au_owner_id a) id && is_password a)%bool
                                         (set_password_hash hash)) d)
(* sessions *)
| w_refresh_insert r :
    existsb (fun r' => beq (rt_id r') (rt_id r)) (refresh_tokens d) = false ->
    user_exists (rt_user_id r) d = true -> is_none (rt_revoked_at r) = true ->
    drawn_id (rt_id r) ->
    write d (with_refresh_tokens (append r) d)
| w_refresh_revoke p t :
    (forall r, p r = true -> is_none (rt_revoked_at r) = true) ->
    write d (with_refresh_tokens (update p (set_revoked_at t)) d)
| w_refresh_retry p until pair : write d (with_refresh_tokens (update p (set_retry until pair)) d)
| w_refresh_clear p : write d (with_refresh_tokens (update p clear_retry_pair) d)
| w_refresh_prune t : clock_read t -> write d (with_refresh_tokens (delete (fun r => rt_expires_at r <=? t)%Z) d)
| w_revocation id t :
    user_exists id d = true ->
    write d (with_access_revocations (fun rows =>
      if existsb (fun r => beq (ar_user_id r) id) rows
      then update (fun r => beq (ar_user_id r) id)
             (fun r => {| ar_user_id := ar_user_id r; ar_revoked_before := t |}) rows
      else (rows ++ [{| ar_user_id := id; ar_revoked_before := t |}])%list) d)
(* forward authentication *)
| w_handoff_insert r :
    existsb (fun r' => beq (fh_id r') (fh_id r)) (handoffs d) = false ->
    user_exists (fh_user_id r) d = true ->
    (exists id, drawn_id id /\ fh_id r = uuid_to_string id) ->
    write d (with_handoffs (append r) d)
| w_handoff_delete p : write d (with_handoffs (delete p) d)
(* roles *)
| w_role_insert r :
    existsb (fun r' => beq (ro_id r') (ro_id r) || beq (ro_name r') (ro_name r))%bool (roles d) = false ->
    write d (with_roles (append r) d)
| w_role_delete id :
    write d (with_user_roles (delete (fun ur => beq (ur_role_id ur) id))
              (with_roles (delete (fun r => beq (ro_id r) id)) d))
| w_assignment_insert r :
    existsb (fun r' => beq (ur_user_id r') (ur_user_id r) && beq (ur_role_id r') (ur_role_id r))%bool
      (user_roles d) = false ->
    (user_exists (ur_user_id r) d && role_exists (ur_role_id r) d)%bool = true ->
    write d (with_user_roles (append r) d)
| w_assignment_delete p : write d (with_user_roles (delete p) d)
(* applications and authorization codes *)
| w_application_insert r :
    existsb (fun r' => beq (ap_id r') (ap_id r) || beq (ap_slug r') (ap_slug r)
                       || (is_some (ap_oidc_client_id r) && beq (ap_oidc_client_id r') (ap_oidc_client_id r)))%bool
      (applications d) = false ->
    write d (with_applications (append r) d)
| w_application_update id a cols uris logout :
    write d (with_applications (update (fun r => beq (ap_id r) id) (write_columns a cols uris logout)) d)
| w_application_delete id :
    write d (with_auth_codes (delete (fun r => beq (ac_application_id r) id))
              (with_applications (delete (fun r => beq (ap_id r) id)) d))
| w_code_insert r :
    existsb (fun r' => beq (ac_code_hash r') (ac_code_hash r)) (auth_codes d) = false ->
    (application_exists (ac_application_id r) d && user_exists (ac_user_id r) d)%bool = true ->
    is_none (ac_consumed_at r) = true ->
    (exists code, drawn_hex 32 code /\ ac_code_hash r = hash_code code) ->
    (forall e, ac_session_exp r = Some e -> ac_expires_at r <= e) ->
    write d (with_auth_codes (append r) d)
| w_code_consume hash t : write d (with_auth_codes (update (unconsumed hash t) (set_consumed t)) d)
| w_code_prune t : clock_read t ->
    write d (with_auth_codes (delete (fun r => (ac_expires_at r <? t - 3600)%Z)) d)
(* settings and invitations *)
| w_setting key value :
    write d (with_settings (fun rows =>
      (delete (fun r => beq (se_key r) key) rows ++ [{| se_key := key; se_value := value |}])%list) d)
| w_invitation_insert i :
    existsb (fun i' => beq (inv_id i') (inv_id i)) (invitations d) = false ->
    user_exists (inv_created_by i) d = true -> inv_uses i = 0 ->
    (forall max, inv_max_uses i = Some max -> 1 <= max) -> drawn_hex 32 (inv_id i) ->
    write d (with_invitations (append i) d)
| w_invitation_delete p : write d (with_invitations (delete p) d)
| w_invitation_use id t : write d (with_invitations (update (consumable id t) used_once) d)
(* app passwords *)
| w_app_password_insert r :
    existsb (fun r' => beq (apw_id r') (apw_id r)) (app_passwords d) = false ->
    user_exists (apw_user_id r) d = true ->
    write d (with_app_passwords (append r) d)
| w_app_password_delete p : write d (with_app_passwords (delete p) d)
| w_app_password_used p t : write d (with_app_passwords (update p (set_last_used t)) d)
(* second factors *)
| w_totp_insert u :
    existsb (fun u' => beq (ut_user_id u') (ut_user_id u)) (user_totps d) = false ->
    user_exists (ut_user_id u) d = true -> is_none (ut_activated_at u) = true ->
    is_none (ut_last_used_step u) = true -> drawn_blob (ut_secret_encrypted u) ->
    write d (with_user_totps (append u) d)
| w_totp_pending p secret t :
    drawn_blob secret ->
    (forall u, p u = true -> is_none (ut_activated_at u) = true) ->
    write d (with_user_totps (update p (set_pending secret t)) d)
| w_totp_activate p t step :
    (forall u, p u = true -> is_none (ut_activated_at u) = true) ->
    write d (with_user_totps (update p (set_activated t step)) d)
| w_totp_step id secret t step :
    write d (with_user_totps (update (step_unused id secret step) (set_step t step)) d)
| w_totp_delete p : write d (with_user_totps (delete p) d)
| w_recovery_insert r :
    existsb (fun r' => beq (rc_id r') (rc_id r) || beq (rc_code_hash r') (rc_code_hash r))%bool
      (recovery_codes d) = false ->
    user_exists (rc_user_id r) d = true -> is_none (rc_used_at r) = true ->
    drawn_id (rc_id r) ->
    write d (with_recovery_codes (append r) d)
| w_recovery_delete p : write d (with_recovery_codes (delete p) d)
| w_recovery_use id hash t :
    write d (with_recovery_codes (update (unused_code id hash) (set_used_at t)) d)
(* the audit log *)
| w_audit_insert r :
    existsb (fun r' => beq (al_id r') (al_id r)) (audit_log d) = false ->
    (is_none_or (al_user_id r) (fun u => user_exists u d)
     && is_none_or (al_actor_id r) (fun u => user_exists u d))%bool = true ->
    write d (with_audit_log (append r) d)
(* signing keys *)
| w_key_insert k :
    existsb (fun k' => beq (k_id k') (k_id k)) (keys d) = false -> write d (with_keys (append k) d)
| w_key_material ciphertext nonce :
    write d (with_keys (update is_default_key (set_key_material ciphertext nonce)) d)
(* passkeys *)
| w_passkey_insert r :
    existsb (fun r' => beq (pk_id r') (pk_id r) || beq (pk_credential_id r') (pk_credential_id r))%bool
      (passkeys d) = false ->
    user_exists (pk_user_id r) d = true ->
    write d (with_passkeys (append r) d)
| w_passkey_used p credential t : write d (with_passkeys (update p (set_credential credential t)) d)
| w_passkey_delete p : write d (with_passkeys (delete p) d)
| w_challenge_insert r :
    existsb (fun r' => beq (pc_id r') (pc_id r)) (passkey_challenges d) = false ->
    is_none_or (pc_user_id r) (fun u => user_exists u d) = true -> drawn_hex 32 (pc_id r) ->
    write d (with_passkey_challenges (append r) d)
| w_challenge_delete p : write d (with_passkey_challenges (delete p) d).

(** Any number of them. *)
Definition writes : Db -> Db -> Prop := star write.
#[export] Instance writes_preorder : PreOrder writes.
Proof. split; [intros d; constructor|intros d1 d2 d3; apply star_trans]. Qed.

Lemma write_writes d d' : write d d' -> writes d d'.
Proof. apply star_one. Qed.
End Write.

(** ** Walking through a program

    Calls are resolved by the lemmas of the database [writes], or unfolded;
    what is left is one goal per statement that changes the database, with the
    constraints that were checked in the context. *)
Create HintDb writes.
Create HintDb quiet.

Ltac write_stmt :=
  repeat lazymatch goal with
  | Hs : insert_checked _ _ _ _ = Ok _ |- _ => apply insert_checked_ok in Hs as (? & ? & ->)
  | Hs : upsert_totp _ _ _ _ = Ok _ |- _ => unfold upsert_totp in Hs; cbv zeta in Hs
  | Hs : (if ?x then _ else _) = Ok _ |- _ => destruct x eqn:?; try discriminate Hs
  | Hs : match ?x with _ => _ end = Ok _ |- _ => destruct x eqn:?; try discriminate Hs
  | Hs : Ok _ = Ok _ |- _ => injection Hs as ? ?; subst
  | Hs : Err _ = Ok _ |- _ => discriminate Hs
  end.

Ltac head_of t := lazymatch t with ?f _ => head_of f | _ => t end.
Ltac unfold_call :=
  lazymatch goal with |- respects_from _ _ ?p => let f := head_of p in unfold f; cbv beta end.

(** *** What the generators return *)
Section Generators.
Context {E : Env} {HA : Hashing} {PH : PasswordHashing} {AE : Aead} (n : nat) (R : Db -> Db -> Prop) `{!PreOrder R}.
Context {B : Type}.

(** An invitation is new and unused when it is made. *)
Lemma respects_new_invitation input uid (k : Invitation -> prog B) :
  (forall i t, (n <= i)%nat -> respects_from n (on_db R) (k {|
     inv_id := hex_encode (entropy i 32); inv_created_by := uid; inv_label := cii_label input;
     inv_max_uses := cii_max_uses input; inv_uses := 0; inv_expires_at := cii_expires_at input;
     inv_created_at := t |})) ->
  respects_from n (on_db R) (bind (Invitation_new input uid) k).
Proof.
  intros Hk. change (respects_from n (on_db R) (bind (random_bytes 32) (fun b => bind now (fun t => k {|
     inv_id := hex_encode b; inv_created_by := uid; inv_label := cii_label input;
     inv_max_uses := cii_max_uses input; inv_uses := 0; inv_expires_at := cii_expires_at input;
     inv_created_at := t |})))).
  apply respects_bind_random; [apply _|]. intros i Hi. apply respects_bind_now; [apply _|]. auto.
Qed.
Lemma respects_validate_invitation input (k : unit -> M B) :
  ((forall max, cii_max_uses input = Some max -> 1 <= max) -> respects_from n (on_db R) (k tt)) ->
  respects_from n (on_db R) (bindM (Invitation_validate_input input) k).
Proof.
  intros Hk. apply (respects_bindM_yields n _ (fun _ => forall max, cii_max_uses input = Some max -> 1 <= max)).
  - unfold Invitation_validate_input. apply respects_bind; [|intros e2; cbv zeta; by destruct (_ ++ _)%list].
    destruct (cii_expires_at input); [|done]. by apply respects_bind; [apply respects_now; apply _|].
  - assert (Hm : forall l m, (match cii_max_uses input with
                 | Some m => if (m <? 1)%Z then ["max_uses must be at least 1"] else []
                 | None => [] end ++ l)%list = [] -> cii_max_uses input = Some m -> 1 <= m).
    { intros l m Hl Hm. rewrite Hm in Hl. destruct (m <? 1)%Z eqn:Em; [done|by bool_hyp]. }
    unfold Invitation_validate_input. destruct (cii_expires_at input); cbn; [intros w _ _|];
      destruct (_ ++ _)%list eqn:El; cbn; try done; intros _ _ max; by eapply Hm.
  - by intros [].
Qed.

Lemma respects_generate_plaintext (k : string -> prog B) :
  (forall i, (n <= i)%nat -> respects_from n (on_db R) (k (hex_encode (entropy i 32)))) ->
  respects_from n (on_db R) (bind generate_plaintext k).
Proof.
  intros Hk. change (respects_from n (on_db R) (bind (random_bytes 32) (fun b => k (hex_encode b)))).
  apply respects_bind_random; [apply _|done].
Qed.

(** A password authenticator stores a hash of the password. *)
Definition hashes (password : string) (a : Authenticator) : Prop :=
  exists salt hash, argon2_hash salt password = Ok hash /\ au_scheme a = Password hash.
Lemma respects_new_password password id (k : fallible Authenticator -> prog B) :
  (forall r, (forall a, r = Ok a -> hashes password a) -> respects_from n (on_db R) (k r)) ->
  respects_from n (on_db R) (bind (new_password password id) k).
Proof.
  intros Hk. eapply respects_bind_yields; [| |exact Hk]; unfold new_password.
  - apply respects_bind; [apply respects_random; apply _|]. intros salt.
    destruct (argon2_hash _ _); [|done]. apply respects_bind; [apply respects_uuid; apply _|done].
  - cbn. intros w _ _. destruct (argon2_hash _ _) as [hash|e] eqn:Eh; cbn; [|done].
    intros w' _ _ a [= <-]. by exists (entropy (tick w) 16), hash.
Qed.

Lemma respects_new_user username name email (k : User -> prog B) :
  (forall i t, (n <= i)%nat -> respects_from n (on_db R) (k {|
     u_id := fresh_uuid i; u_username := username; u_name := name; u_email := email;
     u_active := true; u_created_at := t; u_updated_at := t |})) ->
  respects_from n (on_db R) (bind (User_new username name email) k).
Proof.
  intros Hk. change (respects_from n (on_db R) (bind now (fun t => bind new_uuid (fun id => k {|
     u_id := id; u_username := username; u_name := name; u_email := email;
     u_active := true; u_created_at := t; u_updated_at := t |})))).
  apply respects_bind_now; [apply _|]. intros i _. apply respects_bind_uuid; [apply _|]. auto.
Qed.

Lemma respects_encrypt_secret secret (k : string -> M B) :
  (forall i ct, (n <= i)%nat -> respects_from n (on_db R) (k (hex_encode (entropy i 12) ++ ":" ++ ct))) ->
  respects_from n (on_db R) (bindM (encrypt_secret secret) k).
Proof.
  intros Hk. apply (respects_bindM_yields n _ (fun b => exists i ct, (n <= i)%nat /\
    b = hex_encode (entropy i 12) ++ ":" ++ ct)); unfold encrypt_secret.
  - apply respects_bind_lift. intros kek _. apply respects_bind; [apply respects_random; apply _|].
    intros nonce. apply respects_bindM; [|done]. unfold require. by destruct (aes_encrypt _ _ _).
  - destruct totp_kek as [kek|e]; cbn; [|done]. intros w Hw _.
    destruct (aes_encrypt _ _ _) as [ct|]; cbn; [|done]. intros b [= <-]. eauto.
  - intros b (i & ct & Hi & ->). by apply Hk.
Qed.
End Generators.

(** What the checks before an account or a password is stored establish. *)
Section Checks.
Context {PH : PasswordHashing} {RN : Run}.

Lemma err_list_nil r : err_list r = [] -> r = Ok tt.
Proof. by destruct r as [[]|e]. Qed.
Lemma create_input_ok input u :
  validate_create_input run_username run_email input = Ok u ->
  username_ok (cui_username input) /\ name_ok (cui_name input) /\ email_ok (cui_email input) /\
  validate_password (cui_password input) = Ok tt.
Proof.
  unfold validate_create_input. destruct (_ ++ _)%list eqn:El; [intros _|done].
  apply app_eq_nil in El as [H1 El]. apply app_eq_nil in El as [H2 El]. apply app_eq_nil in El as [H3 H4].
  apply err_list_nil in H1, H2, H3, H4. done.
Qed.
Lemma hash_made password r (f : string -> AppError) a :
  (forall a, r = Ok a -> hashes password a) -> map_err f r = Ok a -> validate_password password = Ok tt ->
  authenticator_ok a.
Proof.
  intros Hr Hm Hv. apply map_err_Ok in Hm. destruct (Hr a Hm) as (salt & hash & Hh & Hs).
  exists hash. split; [done|]. by exists salt, password.
Qed.
Lemma hash_stored password r (f : string -> AppError) a hash :
  (forall a, r = Ok a -> hashes password a) -> map_err f r = Ok a -> au_scheme a = Password hash ->
  validate_password password = Ok tt -> hash_ok hash.
Proof.
  intros Hr Hm Hs Hv. destruct (hash_made _ _ _ _ Hr Hm Hv) as (hash' & Hs' & Hh).
  rewrite Hs in Hs'. by injection Hs' as ->.
Qed.
Lemma password_checked (f : string -> AppError) password u :
  map_err f (validate_password password) = Ok u -> validate_password password = Ok tt.
Proof. intros H. apply map_err_Ok in H. by destruct u. Qed.
End Checks.

(** Where a value of a new row comes from is in the context. *)
Create HintDb drawn.
#[export] Hint Unfold drawn_id drawn_hex clock_read drawn_blob : drawn.
Ltac vet_more := fail.
Ltac vet :=
  repeat match goal with
  | H : validate_create_input _ _ _ = Ok _ |- _ => apply create_input_ok in H as (? & ? & ? & ?)
  | H : map_err _ (validate_password _) = Ok _ |- _ => apply password_checked in H
  | _ => vet_more
  end; cbn in *.
Ltac drawn :=
  lazymatch goal with
  | |- account_ok _ => vet; repeat split; assumption
  | |- authenticator_ok _ => vet; eapply hash_made; eassumption
  | |- hash_ok _ => vet; eapply hash_stored; eassumption
  | |- _ => solve [cbn; eauto 12 with drawn]
  end.

Ltac code_deadline :=
  let Hs := fresh "Hs" in cbn; intros ? Hs; first [rewrite Hs|injection Hs as <-]; cbn; lia.

Ltac a_write :=
  first
    [ eapply w_user_insert; [eassumption|drawn] | eapply w_user_version
    | eapply w_authenticator_insert; [eassumption|eassumption|drawn] | eapply w_password_update; drawn
    | eapply w_refresh_insert; [eassumption|eassumption|reflexivity|drawn]
    | eapply w_refresh_revoke; let Hp := fresh "Hp" in intros ? Hp; try unfold live_token in Hp; bool_hyp; done
    | eapply w_refresh_retry | eapply w_refresh_clear | eapply w_refresh_prune; drawn
    | eapply w_revocation; eassumption | eapply w_handoff_insert; [eassumption|eassumption|drawn]
    | eapply w_handoff_delete
    | eapply w_role_insert; eassumption | eapply w_role_delete
    | eapply w_assignment_insert; eassumption | eapply w_assignment_delete
    | eapply w_application_insert; eassumption | eapply w_application_update | eapply w_application_delete
    | eapply w_code_insert; [eassumption|eassumption|reflexivity|drawn|code_deadline]
    | eapply w_code_consume | eapply w_code_prune; drawn
    | eapply w_setting | eapply w_invitation_insert; [eassumption|eassumption|drawn|drawn|drawn]
    | eapply w_invitation_delete
    | eapply w_invitation_use | eapply w_app_password_insert; eassumption | eapply w_app_password_delete
    | eapply w_app_password_used | eapply w_totp_insert; [eassumption|eassumption|reflexivity|reflexivity|drawn]
    | eapply w_totp_pending; [drawn|intros ? ?; bool_hyp; done]
    | eapply w_totp_activate; intros ? ?; bool_hyp; done
    | eapply w_totp_step | eapply w_totp_delete
    | eapply w_recovery_insert; [eassumption|eassumption|reflexivity|drawn]
    | eapply w_recovery_delete | eapply w_recovery_use | eapply w_audit_insert; eassumption
    | eapply w_key_insert; eassumption | eapply w_key_material
    | eapply w_passkey_insert; eassumption | eapply w_passkey_used | eapply w_passkey_delete
    | eapply w_challenge_insert; [eassumption|eassumption|drawn] | eapply w_challenge_delete ].

(** [walk call leaf]: [call] resolves calls that have a lemma, [leaf] the
    statements that change the database. *)
Ltac walk call leaf :=
  repeat lazymatch goal with
  | |- forall _, _ => intros ?
  | |- respects_from _ _ (tx_bind _ _) => apply respects_bind
  | |- respects_from _ _ (bindE _ _) => apply respects_bind
  | |- respects_from _ _ (bindM (lift _) _) => apply respects_bind_lift
  | |- respects_from _ _ (bindM (encrypt_secret _) _) => apply respects_encrypt_secret; [apply _|]
  | |- respects_from _ _ (bindM (Invitation_validate_input _) _) => apply respects_validate_invitation; [apply _|]
  | |- respects_from _ _ (bindM _ _) => apply respects_bindM
  | |- respects_from _ _ (bind now _) => apply respects_bind_now; [apply _|]
  | |- respects_from _ _ (bind new_uuid _) => apply respects_bind_uuid; [apply _|]
  | |- respects_from _ _ (bind (random_bytes _) _) => apply respects_bind_random; [apply _|]
  | |- respects_from _ _ (bind (Invitation_new _ _) _) => apply respects_new_invitation; [apply _|]
  | |- respects_from _ _ (bind generate_plaintext _) => apply respects_generate_plaintext; [apply _|]
  | |- respects_from _ _ (bind (User_new _ _ _) _) => apply respects_new_user; [apply _|]
  | |- respects_from _ _ (bind (new_password _ _) _) => apply respects_new_password; [apply _|]
  | |- respects_from _ _ (bind _ _) => apply respects_bind
  | |- respects_from _ _ (convert _ _) => apply respects_bind
  | |- respects_from _ _ (Ret _) => exact I
  | |- respects_from _ _ (match au_scheme ?a with _ => _ end) => destruct (au_scheme a) eqn:?
  | |- respects_from _ _ (match ?x with _ => _ end) => destruct x
  | |- respects_from _ _ (let _ := _ in _) => cbv zeta
  | |- respects_from _ (on_db _) (query _) => apply respects_query; apply _
  | |- respects_from _ (on_db _) acquire => apply respects_acquire; apply _
  | |- respects_from _ (on_db _) now => apply respects_now; apply _
  | |- respects_from _ (on_db _) new_uuid => apply respects_uuid; apply _
  | |- respects_from _ (on_db _) (random_bytes _) => apply respects_random; apply _
  | |- respects_from _ (on_db _) (rl_check _ _ _) => apply respects_rl; apply _
  | |- respects_from _ (on_db _) (transaction _) => apply respects_transaction; [apply _|]
  | |- respects_from _ (on_db _) (atomic_tx _) => apply respects_atomic_tx; [apply _|]
  | |- respects_from _ (on_db _) (exec _) => apply respects_exec; [apply _|intros ?; cbn [fst snd]; leaf]
  | |- respects_from _ (on_db _) (stmt _) =>
      apply respects_stmt;
      [apply _|let Hs := fresh "Hs" in intros ? ? ? Hs; cbv beta in Hs; write_stmt; first [reflexivity|leaf]]
  | |- respects_from _ _ (Atom _ Ret) =>
      intros ? ?; unfold on_db; cbn [snd]; split; [reflexivity|split; [cbn; lia|exact I]]
  | |- respects_from _ _ _ => first [call | unfold_call]
  end.
Ltac only_writes :=
  walk ltac:(solve [auto with quiet writes nocore typeclass_instances]) ltac:(apply write_writes; a_write).
