(* ===== verification/WriteFacts.v ===== *)
(** * Every operation only takes the steps of [Writes.v] *)

From S2P Require Import Prelude RStr RateLimit Schema Sys External Users AuditLog Net Settings Token Totp LoginFlow Application Forward Http OidcCodes OidcToken AppPasswords Invitations Accounts Passkeys TotpHandlers ApplicationHandlers SettingsHandlers AuditExport ForwardAuth OAuth ClientAddress LdapSchema LdapFilter LdapHandler LdapServer Startup Cli Writes.
Local Open Scope Z_scope.
Local Open Scope string_scope.

(** ** Loops that write nothing, and the one that does *)
Section Loops.
Context {E : Env} {HA : Hashing} {PH : PasswordHashing} {AE : Aead} {MAC : HmacSha1} {JL : JsonLib}
        {ED : Ed25519} {UL : UuidLib} {JC : JwtCodec Claims} {SJ : SerdeJson TokenPair}.
Context (n : nat) (R : Db -> Db -> Prop) {PR : PreOrder R}.
Ltac quiet := walk ltac:(solve [auto with quiet nocore typeclass_instances]) ltac:(fail).

Lemma quiet_generate_codes m : respects_from n (on_db R) (generate_codes m).
Proof. induction m as [|m IH]; cbn [generate_codes]; quiet. Qed.
Lemma quiet_resolve_roles l : respects_from n (on_db R) (resolve_roles l).
Proof. induction l as [|e l IH]; cbn [resolve_roles]; quiet. Qed.
Lemma quiet_generate_chars {RL : RandLib} m : respects_from n (on_db R) (generate_chars m).
Proof. induction m as [|m IH]; cbn [generate_chars]; quiet. Qed.
Lemma quiet_follow_retry fuel t key p : respects_from n (on_db R) (follow_retry fuel t key p).
Proof. revert p. induction fuel as [|fuel IH]; intros p; cbn [follow_retry]; quiet. Qed.
Lemma quiet_member_usernames role l : respects_from n (on_db R) (member_usernames role l).
Proof. induction l as [|u l IH]; cbn [member_usernames]; quiet. Qed.
Hint Resolve quiet_member_usernames : quiet.
Lemma quiet_user_entries req cfg base l : respects_from n (on_db R) (user_entries req cfg base l).
Proof. induction l as [|u l IH]; cbn [user_entries]; quiet. Qed.
Lemma quiet_group_entries req cfg base us l : respects_from n (on_db R) (group_entries req cfg base us l).
Proof. induction l as [|r l IH]; cbn [group_entries]; quiet. Qed.
Lemma quiet_verify_access_token token key : respects_from n (on_db R) (verify_access_token token key).
Proof. quiet. Qed.
Hint Resolve quiet_verify_access_token : quiet.
Lemma quiet_auth_user {HL : HttpLib} st h : respects_from n (on_db R) (auth_user st h).
Proof. quiet. Qed.
Hint Resolve quiet_auth_user : quiet.
Lemma quiet_admin_user {HL : HttpLib} st h : respects_from n (on_db R) (admin_user st h).
Proof. quiet. Qed.

Lemma respects_insert_codes up id t codes :
  (forall d r, existsb (fun r' => beq (rc_id r') (rc_id r) || beq (rc_code_hash r') (rc_code_hash r))%bool
                 (recovery_codes d) = false ->
     user_exists (rc_user_id r) d = true -> is_none (rc_used_at r) = true -> rc_user_id r = id ->
     (exists i, (n <= i)%nat /\ rc_id r = fresh_uuid i) ->
     R d (with_recovery_codes (append r) d)) ->
  respects_from n (on_db R) (insert_codes up id t codes).
Proof.
  intros HR. induction codes as [|c codes IH]; cbn [insert_codes]; [done|].
  walk ltac:(exact IH) ltac:(eapply HR; cbn; eauto).
Qed.
End Loops.
#[export] Hint Resolve quiet_generate_codes quiet_resolve_roles quiet_generate_chars quiet_follow_retry
  quiet_member_usernames quiet_user_entries quiet_group_entries quiet_verify_access_token quiet_auth_user
  quiet_admin_user : quiet.

Section Operations.
Context {E : Env} {HA : Hashing} {PH : PasswordHashing} {AE : Aead} {MAC : HmacSha1} {JL : JsonLib}
        {ED : Ed25519} {UL : UuidLib} {JC : JwtCodec Claims} {SJ : SerdeJson TokenPair} {HL : HttpLib} {RN : Run}.

Lemma writes_audit_save e : respects_from run_start (on_db writes) (audit_save e).
Proof. only_writes. Qed.
Hint Resolve writes_audit_save : writes.
Lemma writes_revoke_all_user_tokens id : respects_from run_start (on_db writes) (revoke_all_user_tokens id).
Proof. only_writes. Qed.
Hint Resolve writes_revoke_all_user_tokens : writes.
Lemma writes_generate_token_pair_for_session id roles D v a key :
  respects_from run_start (on_db writes) (generate_token_pair_for_session id roles D v a key).
Proof. only_writes. Qed.
Hint Resolve writes_generate_token_pair_for_session : writes.
Lemma writes_generate_token_pair id roles key : respects_from run_start (on_db writes) (generate_token_pair id roles key).
Proof. only_writes. Qed.
Lemma writes_rotate_token_pair token key : respects_from run_start (on_db writes) (rotate_token_pair token key).
Proof. only_writes. Qed.
Hint Resolve writes_rotate_token_pair : writes.
Lemma writes_rotate_browser_token_pair token key : respects_from run_start (on_db writes) (rotate_browser_token_pair token key).
Proof. only_writes. Qed.

Lemma writes_insert_codes up id t codes : respects_from run_start (on_db writes) (insert_codes up id t codes).
Proof. apply respects_insert_codes; [apply _|]. intros d r Hx Hu Hn _ Hi. apply write_writes. by eapply w_recovery_insert. Qed.
End Operations.
#[export] Hint Resolve writes_insert_codes : writes.
#[export] Hint Resolve writes_audit_save 
  writes_revoke_all_user_tokens writes_generate_token_pair writes_rotate_token_pair
  writes_rotate_browser_token_pair : writes.

Section Login.
Context {RN : Run}.
Context {E : Env} {HA : Hashing} {ED : Ed25519} {JC : JwtCodec Claims} {UL : UuidLib} {AE : Aead}
        {SJ : SerdeJson TokenPair} {PH : PasswordHashing} {JL : JsonLib} {MAC : HmacSha1}
        {HL : HttpLib}.
Variable non_ascii_uppercase : string -> string.

Lemma writes_enforce_mfa uid code : respects_from run_start (on_db writes) (enforce_mfa non_ascii_uppercase uid code).
Proof. only_writes. Qed.
Hint Resolve writes_enforce_mfa : writes.
Lemma writes_login st ctx input : respects_from run_start (on_db writes) (login non_ascii_uppercase run_username st ctx input).
Proof. only_writes. Qed.
Hint Resolve writes_login : writes.
Lemma writes_browser_login st ctx uri input :
  respects_from run_start (on_db writes) (browser_login non_ascii_uppercase run_username st ctx uri input).
Proof. only_writes. Qed.
Lemma writes_refresh st ctx token : respects_from run_start (on_db writes) (refresh st ctx token).
Proof. only_writes. Qed.
Lemma writes_logout st ctx token : respects_from run_start (on_db writes) (logout st ctx token).
Proof. only_writes. Qed.
Lemma writes_browser_logout st ctx h uri : respects_from run_start (on_db writes) (browser_logout st ctx h uri).
Proof. only_writes. Qed.
Lemma writes_browser_refresh st ctx h : respects_from run_start (on_db writes) (browser_refresh st ctx h).
Proof. only_writes. Qed.
End Login.

Section Handlers.
Context {RN : Run}.
Context {E : Env} {HA : Hashing} {ED : Ed25519} {UL : UuidLib} {AE : Aead} {PH : PasswordHashing}
        {MAC : HmacSha1} {JL : JsonLib} {RX : RegexLib} {URL : UrlLib} {UP : UrlParts} {UE : UrlEncoding}
        {HL : HttpLib} {RL : RandLib} {RJ : RecordsJson} {WL : WebauthnLib}.
Context {JC : JwtCodec Claims} {SJ : SerdeJson TokenPair}
        {JR : JsonText PasskeyRegistration} {JP : JsonText Passkey} {JA : JsonText DiscoverableAuthentication}.
Variable non_ascii_uppercase : string -> string.
Variable non_ascii_alphanumeric : string -> bool.
Variables (st : AppState) (ctx : AuditContext) (h : list (string * string)).

Lemma writes_register input : respects_from run_start (on_db writes) (register run_username run_email st ctx input).
Proof. only_writes. Qed.
Lemma writes_create_user input : respects_from run_start (on_db writes) (create_user run_username run_email st ctx h input).
Proof. only_writes. Qed.
Lemma validated_or_kept {A} (valid : A -> result string unit) (o : option A) w u w' :
  run (match o with Some x => Users.input_error (valid x) | None => ret tt end) w = (Ok u, w') ->
  w' = w /\ forall old, valid old = Ok tt -> valid (unwrap_or o old) = Ok tt.
Proof.
  destruct o as [x|]; [|intros [= _ <-]; done]. unfold Users.input_error, lift. intros [= Hv <-].
  apply map_err_Ok in Hv. by destruct u.
Qed.
(** The columns an update leaves out are those of the row it read in the same
    transaction. *)
Lemma writes_update_profile id input :
  respects_from run_start (on_db writes) (update_profile run_username run_email id input).
Proof.
  unfold update_profile. apply respects_transaction_ok; [apply _| |].
  { walk ltac:(fail) ltac:(exact I). }
  intros w a w' Hr. unfold User_get, User_update in Hr. run_inv Hr.
  repeat match goal with Hx : run (match _ with Some _ => _ | None => _ end) _ = _ |- _ =>
    apply validated_or_kept in Hx as [-> ?] end.
  match goal with Hx : option_map u_row _ = Some ?u |- _ => rename Hx into Hf; rename u into u0 end.
  destruct (fetch _ _) as [row|] eqn:Ef; [|done]. injection Hf as <-.
  assert (u_id row = id) as Hid by (apply fetch_Some in Ef as [_ Ef]; by bool_hyp).
  match goal with Hx : (if ?b then _ else _) = _ |- _ => destruct b eqn:Ex; [done|]; injection Hx as _ <- end.
  cbn [db bump set_db u_id u_name u_email u_username] in *. apply write_writes, w_user_profile; [|done].
  rewrite Hid. intros u Hu (V1 & V2 & V3). rewrite Ef in Hu. injection Hu as <-. unfold username_ok, name_ok, email_ok in *. auto.
Qed.
Hint Resolve writes_update_profile : writes.
Lemma writes_update_user id input :
  respects_from run_start (on_db writes) (update_user run_username run_email st ctx h id input).
Proof. only_writes. Qed.
Lemma writes_update_me input : respects_from run_start (on_db writes) (update_me run_username run_email st ctx h input).
Proof. only_writes. Qed.
Lemma writes_change_my_password input : respects_from run_start (on_db writes) (change_my_password st ctx h input).
Proof. only_writes. Qed.
Lemma writes_admin_change_user_password id pw :
  respects_from run_start (on_db writes) (admin_change_user_password st ctx h id pw).
Proof. only_writes. Qed.
Lemma writes_create_role input : respects_from run_start (on_db writes) (create_role non_ascii_alphanumeric st ctx h input).
Proof. only_writes. Qed.
Lemma writes_delete_role id : respects_from run_start (on_db writes) (delete_role st ctx h id).
Proof. only_writes. Qed.
Lemma writes_assign_role uid rid : respects_from run_start (on_db writes) (assign_role st ctx h uid rid).
Proof. only_writes. Qed.
Lemma writes_remove_role uid rid : respects_from run_start (on_db writes) (remove_role st ctx h uid rid).
Proof. only_writes. Qed.
Lemma writes_create_application input :
  respects_from run_start (on_db writes) (create_application non_ascii_alphanumeric st ctx h input).
Proof. only_writes. Qed.
Lemma writes_update_application id input : respects_from run_start (on_db writes) (update_application st ctx h id input).
Proof. only_writes. Qed.
Lemma writes_delete_application id : respects_from run_start (on_db writes) (delete_application st ctx h id).
Proof. only_writes. Qed.
Lemma writes_update_settings input : respects_from run_start (on_db writes) (update_settings st ctx h input).
Proof. only_writes. Qed.
Lemma writes_regenerate : respects_from run_start (on_db writes) (regenerate_ldap_bind_password st ctx h).
Proof. only_writes. Qed.
Lemma writes_create_invitation input : respects_from run_start (on_db writes) (create_invitation st ctx h input).
Proof. only_writes. Qed.
Lemma writes_register_start name : respects_from run_start (on_db writes) (register_start st ctx h name).
Proof. only_writes. Qed.
Lemma writes_register_finish j : respects_from run_start (on_db writes) (register_finish st ctx h j).
Proof. only_writes. Qed.
Lemma writes_login_start : respects_from run_start (on_db writes) (login_start st ctx h).
Proof. only_writes. Qed.
Lemma writes_login_finish uri j : respects_from run_start (on_db writes) (login_finish st ctx h uri j).
Proof. only_writes. Qed.
Lemma writes_delete_passkey id : respects_from run_start (on_db writes) (delete_passkey st ctx h id).
Proof. only_writes. Qed.
Lemma writes_enroll : respects_from run_start (on_db writes) (enroll_my_totp st h).
Proof. only_writes. Qed.
Lemma writes_activate code : respects_from run_start (on_db writes) (activate_my_totp non_ascii_uppercase st ctx h code).
Proof. only_writes. Qed.
Lemma writes_disable pw : respects_from run_start (on_db writes) (disable_my_totp st ctx h pw).
Proof. only_writes. Qed.
Lemma writes_create_app_password name : respects_from run_start (on_db writes) (create_my_app_password st ctx h name).
Proof. only_writes. Qed.
End Handlers.

Section Forwarding.
Context {RN : Run} {PH : PasswordHashing}.
Context {E : Env} {HA : Hashing} {ED : Ed25519} {UL : UuidLib} {JC : JwtCodec Claims}
        {JF : JwtCodec ForwardSession} {JH : JwtCodec Handoff} {AE : Aead} {SJ : SerdeJson TokenPair}
        {JL : JsonLib} {RX : RegexLib} {URL : UrlLib} {UE : UrlEncoding} {HL : HttpLib}.
Lemma writes_verify_auth st h : respects_from run_start (on_db writes) (verify_auth st h).
Proof. only_writes. Qed.
Lemma writes_forward_auth_start st h uri l : respects_from run_start (on_db writes) (forward_auth_start st h uri l).
Proof. only_writes. Qed.
Lemma writes_forward_redirect st h uri s : respects_from run_start (on_db writes) (forward_redirect st h uri s).
Proof. only_writes. Qed.
Lemma writes_forward_auth_callback st h token : respects_from run_start (on_db writes) (forward_auth_callback st h token).
Proof. only_writes. Qed.
Lemma writes_lookup_forward_app st uri : respects_from run_start (on_db writes) (lookup_forward_app st uri).
Proof. only_writes. Qed.
End Forwarding.

Section Provider.
Context {RN : Run} {PH : PasswordHashing}.
Context {E : Env} {HA : Hashing} {ED : Ed25519} {UL : UuidLib} {JC : JwtCodec Claims}
        {JI : JwtCodec IdTokenClaims} {JO : JwtCodec OidcAccessClaims} {AE : Aead}
        {SJ : SerdeJson TokenPair} {JL : JsonLib} {UE : UrlEncoding} {URL : UrlLib} {B64 : Base64Std}
        {HL : HttpLib} {AX : AxumParts}.
Lemma writes_authorize st ctx h uri q : respects_from run_start (on_db writes) (authorize st ctx h uri q).
Proof. only_writes. Qed.
Lemma writes_token st ctx h form : respects_from run_start (on_db writes) (token st ctx h form).
Proof. only_writes. Qed.
Lemma writes_userinfo st ctx h : respects_from run_start (on_db writes) (userinfo st ctx h).
Proof. only_writes. Qed.
Lemma writes_end_session st ctx h q : respects_from run_start (on_db writes) (end_session st ctx h q).
Proof. only_writes. Qed.
Hint Resolve writes_end_session : writes.
Lemma writes_end_session_post st ctx h q : respects_from run_start (on_db writes) (end_session_post st ctx h q).
Proof. only_writes. Qed.
End Provider.

Section Directory.
Context {RN : Run} {HA : Hashing}.
Context {E : Env} {PH : PasswordHashing} {JL : JsonLib} {UL : UuidLib}.
Lemma writes_handle_bind req cfg ip : respects_from run_start (on_db writes) (handle_bind req cfg ip).
Proof. only_writes. Qed.
Lemma writes_handle_search v req cfg b : respects_from run_start (on_db writes) (handle_search v req cfg b).
Proof. only_writes. Qed.
Lemma writes_dispatch v ip ops c : respects_from run_start (on_db writes) (dispatch v ip ops c).
Proof. only_writes. Qed.
End Directory.

Lemma admin_checked {RN : Run} u p n e x :
  validate_admin run_username run_email u p n e = Ok x ->
  username_ok u /\ name_ok n /\ email_ok e /\ validate_password p = Ok tt.
Proof.
  unfold validate_admin, username_ok, name_ok, email_ok.
  destruct (validate_username _ _) as [[]|], (Users.validate_name _) as [[]|], (validate_password _) as [[]|],
    (validate_email _ _) as [[]|]; done.
Qed.
Ltac vet_more ::=
  match goal with H : validate_admin _ _ _ _ _ _ = Ok _ |- _ => apply admin_checked in H as (? & ? & ? & ?) end.

Section Tasks.
Context {RN : Run}.
Context {E : Env} {HA : Hashing} {ED : Ed25519} {UL : UuidLib} {AE : Aead} {PH : PasswordHashing}.
Lemma writes_cleanup_round : respects_from run_start (on_db writes) cleanup_round.
Proof. only_writes. Qed.
Lemma writes_sweep_round : respects_from run_start (on_db writes) sweep_round.
Proof. only_writes. Qed.
Lemma writes_serve : respects_from run_start (on_db writes) Startup.serve.
Proof. only_writes. Qed.
Lemma writes_init_admin u p n e : respects_from run_start (on_db writes) (init_admin run_username run_email u p n e).
Proof. only_writes. Qed.
End Tasks.

#[export] Hint Resolve writes_generate_token_pair_for_session writes_enforce_mfa writes_login
  writes_browser_login writes_refresh writes_logout writes_browser_logout
  writes_browser_refresh writes_register writes_create_user writes_update_user
  writes_update_me writes_change_my_password writes_admin_change_user_password
  writes_create_role writes_delete_role writes_assign_role writes_remove_role
  writes_create_application writes_update_application writes_delete_application
  writes_update_settings writes_regenerate writes_create_invitation writes_register_start
  writes_register_finish writes_login_start writes_login_finish writes_delete_passkey
  writes_enroll writes_activate writes_disable writes_create_app_password writes_verify_auth
  writes_forward_auth_start writes_forward_redirect writes_forward_auth_callback
  writes_lookup_forward_app writes_authorize writes_token writes_userinfo writes_end_session
  writes_end_session_post 
  writes_handle_bind writes_handle_search writes_dispatch writes_cleanup_round
  writes_sweep_round writes_serve writes_init_admin : writes.
