(* ===== verification/WellFormed.v ===== *)
(** * The schema as an invariant

    What the migrations declare of a database: primary keys and unique columns
    hold distinct values, and every foreign key names an existing row.  And what
    no constraint of the schema says, and only the handlers see to
    ([stored_ok]).  Every write of the program keeps both. *)

From S2P Require Import Prelude RStr RateLimit Schema Sys External Users AuditLog Net Settings Token Totp LoginFlow Application Forward Http OidcCodes OidcToken AppPasswords Invitations Passkeys Writes.
Local Open Scope Z_scope.
Local Open Scope string_scope.

(** ** Distinct keys *)
Section Unique.
Context {A K : Type} (key : A -> K).

Definition unique (rows : list A) : Prop := NoDup (map key rows).

Lemma unique_append row rows :
  (forall r, r ∈ rows -> key r <> key row) -> unique rows -> unique (append row rows).
Proof.
  intros Hn Hu. unfold unique, append. rewrite map_app. apply NoDup_app. split; [done|].
  split; [|apply NoDup_singleton]. intros k Hk Hk'. apply list_elem_of_singleton in Hk' as ->.
  apply list_elem_of_fmap in Hk as (r & He & Hr). by apply (Hn r Hr).
Qed.

Lemma unique_update p f rows : (forall r, key (f r) = key r) -> unique rows -> unique (update p f rows).
Proof.
  intros Hf. unfold unique. replace (map key (update p f rows)) with (map key rows); [done|].
  unfold update. rewrite map_map. apply map_ext. intros r. by destruct (p r); [rewrite Hf|].
Qed.

Lemma unique_delete p rows : unique rows -> unique (delete p rows).
Proof. intros Hu. eapply sublist_NoDup; [exact Hu|]. apply fmap_sublist, delete_sublist. Qed.

Lemma unique_elem rows r s : unique rows -> r ∈ rows -> s ∈ rows -> key r = key s -> r = s.
Proof.
  unfold unique. induction rows as [|x rows IH]; intros Hu Hr Hs He; [by apply not_elem_of_nil in Hr|].
  cbn [map] in Hu. apply NoDup_cons in Hu as [Hx Hu].
  assert (Hfresh : forall y, y ∈ rows -> key y <> key x).
  { intros y Hy Hk. apply Hx. rewrite <- Hk. by apply list_elem_of_fmap_2. }
  apply elem_of_cons in Hr as [->|Hr], Hs as [->|Hs]; [done| | |by apply IH].
  - by destruct (Hfresh s Hs).
  - by destruct (Hfresh r Hr).
Qed.
End Unique.

(** A column that holds distinct values where it is not NULL. *)
Definition unique_some {A K} (key : A -> option K) (rows : list A) : Prop := NoDup (omap key rows).

Lemma unique_some_append {A K} (key : A -> option K) row rows :
  (forall r k, r ∈ rows -> key row = Some k -> key r <> Some k) ->
  unique_some key rows -> unique_some key (append row rows).
Proof.
  intros Hn Hu. unfold unique_some, append. rewrite omap_app. cbn [omap list_omap].
  destruct (key row) as [k|] eqn:Ek; [|by rewrite app_nil_r].
  apply NoDup_app. split; [done|]. split; [|apply NoDup_singleton].
  intros x Hx Hx'. apply list_elem_of_singleton in Hx' as ->.
  apply list_elem_of_omap in Hx as (r & Hr & He). by destruct (Hn r k Hr eq_refl).
Qed.
Lemma unique_some_update {A K} (key : A -> option K) p f rows :
  (forall r, key (f r) = key r) -> unique_some key rows -> unique_some key (update p f rows).
Proof.
  intros Hf. unfold unique_some. replace (omap key (update p f rows)) with (omap key rows); [done|].
  unfold update. induction rows as [|r rows IH]; [done|]. cbn [map omap list_omap]. rewrite IH.
  by destruct (p r); [rewrite Hf|].
Qed.
Lemma unique_some_delete {A K} (key : A -> option K) p rows :
  unique_some key rows -> unique_some key (delete p rows).
Proof.
  intros Hu. eapply sublist_NoDup; [exact Hu|]. clear Hu. induction rows as [|r rows IH]; [constructor|].
  rewrite delete_cons. cbn [omap list_omap]. destruct (p r), (key r) eqn:Ek; cbn [omap list_omap]; rewrite ?Ek;
    try done; by constructor.
Qed.

(** ** References *)
Definition refer {A} (f : A -> bool) (rows : list A) : Prop := forall r, r ∈ rows -> f r = true.

Lemma refer_append {A} (f : A -> bool) row rows : f row = true -> refer f rows -> refer f (append row rows).
Proof. intros Hf Hr r H. apply elem_of_app in H as [H|H]; [by apply Hr|]. by apply list_elem_of_singleton in H as ->. Qed.
Lemma refer_update {A} (f : A -> bool) p g rows :
  (forall r, f (g r) = f r) -> refer f rows -> refer f (update p g rows).
Proof.
  intros Hg Hr r H. apply elem_of_update in H as (r0 & H & ->). specialize (Hr _ H).
  destruct (p r0); [by rewrite Hg|done].
Qed.
Lemma refer_delete {A} (f : A -> bool) p rows : refer f rows -> refer f (delete p rows).
Proof. intros Hr r H. apply elem_of_delete in H as [H _]. by apply Hr. Qed.
Lemma refer_filter {A} (f q : A -> bool) rows : refer f rows -> refer f (List.filter q rows).
Proof.
  intros Hr r H. apply list_elem_of_In, List.filter_In in H as [H _]. by apply Hr, list_elem_of_In.
Qed.
Lemma refer_mono {A} (f g : A -> bool) rows :
  (forall r, f r = true -> g r = true) -> refer f rows -> refer g rows.
Proof. intros Hfg Hr r H. by apply Hfg, Hr. Qed.

(** ** The declared constraints *)
Record distinct_keys (d : Db) : Prop := {
  dk_user : unique (fun u : UserRow => u_id u) (users d);
  dk_username : unique (fun u : UserRow => u_username u) (users d);
  dk_authenticator : unique au_id (authenticators d);
  dk_refresh : unique rt_id (refresh_tokens d);
  dk_revocation : unique ar_user_id (access_revocations d);
  dk_handoff : unique fh_id (handoffs d);
  dk_role : unique ro_id (roles d);
  dk_role_name : unique ro_name (roles d);
  dk_assignment : unique (fun r => (ur_user_id r, ur_role_id r)) (user_roles d);
  dk_application : unique ap_id (applications d);
  dk_slug : unique ap_slug (applications d);
  dk_client : unique_some ap_oidc_client_id (applications d);
  dk_setting : unique se_key (settings d);
  dk_invitation : unique inv_id (invitations d);
  dk_app_password : unique apw_id (app_passwords d);
  dk_totp : unique ut_user_id (user_totps d);
  dk_recovery : unique rc_id (recovery_codes d);
  dk_recovery_hash : unique rc_code_hash (recovery_codes d);
  dk_code : unique ac_code_hash (auth_codes d);
  dk_audit : unique al_id (audit_log d);
  dk_key : unique k_id (keys d);
  dk_passkey : unique pk_id (passkeys d);
  dk_credential : unique pk_credential_id (passkeys d);
  dk_challenge : unique pc_id (passkey_challenges d)
}.

Definition opt_user (o : option Uuid) (d : Db) : bool := is_none_or o (fun id => user_exists id d).
Record references (d : Db) : Prop := {
  re_authenticator : refer (fun a => user_exists (au_owner_id a) d) (authenticators d);
  re_refresh : refer (fun r => user_exists (rt_user_id r) d) (refresh_tokens d);
  re_revocation : refer (fun r => user_exists (ar_user_id r) d) (access_revocations d);
  re_handoff : refer (fun r => user_exists (fh_user_id r) d) (handoffs d);
  re_assigned_user : refer (fun r => user_exists (ur_user_id r) d) (user_roles d);
  re_assigned_role : refer (fun r => role_exists (ur_role_id r) d) (user_roles d);
  re_invitation : refer (fun i => user_exists (inv_created_by i) d) (invitations d);
  re_app_password : refer (fun r => user_exists (apw_user_id r) d) (app_passwords d);
  re_totp : refer (fun u => user_exists (ut_user_id u) d) (user_totps d);
  re_recovery : refer (fun r => user_exists (rc_user_id r) d) (recovery_codes d);
  re_code_application : refer (fun r => application_exists (ac_application_id r) d) (auth_codes d);
  re_code_user : refer (fun r => user_exists (ac_user_id r) d) (auth_codes d);
  re_audit_user : refer (fun r => opt_user (al_user_id r) d) (audit_log d);
  re_audit_actor : refer (fun r => opt_user (al_actor_id r) d) (audit_log d);
  re_passkey : refer (fun r => user_exists (pk_user_id r) d) (passkeys d);
  re_challenge : refer (fun r => opt_user (pc_user_id r) d) (passkey_challenges d)
}.
Definition well_formed (d : Db) : Prop := distinct_keys d /\ references d.

(** ** Kept by every write *)
Lemma unique_usernames id name email username t d :
  unique (fun u : UserRow => u_id u) (users d) -> unique (fun u : UserRow => u_username u) (users d) ->
  (existsb (fun r : UserRow => beq (u_username r) username && negb (beq (u_id r) id)) (users d)
   && user_exists id d)%bool = false ->
  unique (fun u : UserRow => u_username u)
    (update (fun r : UserRow => beq (u_id r) id) (set_profile name email username t) (users d)).
Proof.
  unfold user_exists. generalize (users d) as rows. intros rows Hi Hu Hx. apply andb_false_iff in Hx as [Hx|Hx].
  - assert (Hf : forall r : UserRow, r ∈ rows -> u_id r <> id -> u_username r <> username).
    { intros r Hr Hn He. pose proof (existsb_false_elem _ _ _ Hx Hr) as Hb. cbn beta in Hb.
      apply andb_false_iff in Hb as [Hb|Hb]; bool_hyp; done. }
    clear Hx. unfold unique in *. induction rows as [|r rows IH]; [done|].
    rewrite update_cons. cbn [map] in *. apply NoDup_cons in Hi as [Hi1 Hi2], Hu as [Hu1 Hu2].
    assert (Hf' : forall s : UserRow, s ∈ rows -> u_id s <> id -> u_username s <> username)
      by (intros s Hs; apply Hf; by right).
    destruct (beq (u_id r) id) eqn:Eb; bool_hyp.
    + rewrite update_id; [|intros s Hs; apply beq_neq; intros He; apply Hi1; rewrite Eb, <- He;
        by apply (list_elem_of_fmap_2 (fun u : UserRow => u_id u))].
      constructor; [|done]. cbn [set_profile u_row u_username]. intros Hin.
      apply list_elem_of_fmap in Hin as (s & He & Hs). apply (Hf' s Hs); [|done].
      intros Hs'. apply Hi1. rewrite Eb, <- Hs'. by apply (list_elem_of_fmap_2 (fun u : UserRow => u_id u)).
    + constructor; [|by apply IH]. intros Hin. apply list_elem_of_fmap in Hin as (s & He & Hs).
      apply elem_of_update in Hs as (s0 & Hs0 & ->). destruct (beq (u_id s0) id) eqn:Es.
      * cbn [set_profile u_row u_username] in He. apply (Hf r); [by left|done|done].
      * apply Hu1. rewrite He. by apply (list_elem_of_fmap_2 (fun u : UserRow => u_username u)).
  - rewrite update_id; [done|]. intros r Hr. by apply (existsb_false_elem _ _ _ Hx).
Qed.

(** A new row differs in every key the statement has checked. *)
Ltac fresh_row :=
  let r := fresh "r" in let Hr := fresh "Hr" in let He := fresh "He" in
  intros r Hr He; simpl in He;
  match goal with
  | Hx : existsb _ _ = false |- _ =>
      pose proof (existsb_false_elem _ _ _ Hx Hr) as Hb; cbn beta in Hb
  end;
  repeat match goal with Hb : _ || _ = false |- _ => apply orb_false_iff in Hb as [? ?] end;
  bool_hyp; congruence.

Lemma assignment_fresh (r : UserRoleRow) rows :
  existsb (fun r' => beq (ur_user_id r') (ur_user_id r) && beq (ur_role_id r') (ur_role_id r))%bool rows = false ->
  unique (fun r => (ur_user_id r, ur_role_id r)) rows ->
  unique (fun r => (ur_user_id r, ur_role_id r)) (append r rows).
Proof.
  intros Hx. apply unique_append. intros s Hs [= E1 E2].
  pose proof (existsb_false_elem _ _ _ Hx Hs) as Hb. cbn beta in Hb. by rewrite E1, E2, !beq_refl in Hb.
Qed.

Lemma client_fresh (r : ApplicationRow) rows :
  existsb (fun r' => beq (ap_id r') (ap_id r) || beq (ap_slug r') (ap_slug r)
                     || (is_some (ap_oidc_client_id r) && beq (ap_oidc_client_id r') (ap_oidc_client_id r)))%bool
    rows = false ->
  unique_some ap_oidc_client_id rows -> unique_some ap_oidc_client_id (append r rows).
Proof.
  intros Hx. apply unique_some_append. intros s k Hs Hk Hc.
  pose proof (existsb_false_elem _ _ _ Hx Hs) as Hb. cbn beta in Hb.
  apply orb_false_iff in Hb as [_ Hb]. by rewrite Hk, Hc, beq_refl in Hb.
Qed.

Lemma unique_revocation id t rows :
  unique ar_user_id rows ->
  unique ar_user_id
    (if existsb (fun r => beq (ar_user_id r) id) rows
     then update (fun r => beq (ar_user_id r) id)
            (fun r => {| ar_user_id := ar_user_id r; ar_revoked_before := t |}) rows
     else (rows ++ [{| ar_user_id := id; ar_revoked_before := t |}])%list).
Proof.
  intros Hu. destruct (existsb _ _) eqn:Hx; [by apply unique_update|].
  apply (unique_append ar_user_id {| ar_user_id := id; ar_revoked_before := t |}); [|done]. fresh_row.
Qed.

Lemma unique_setting key value rows :
  unique se_key rows ->
  unique se_key (delete (fun r => beq (se_key r) key) rows ++ [{| se_key := key; se_value := value |}])%list.
Proof.
  intros Hu. apply (unique_append se_key {| se_key := key; se_value := value |}); [|by apply unique_delete].
  intros r Hr He. apply elem_of_delete in Hr as [_ Hb]. simpl in He. by bool_hyp.
Qed.

Create HintDb schema.
#[export] Hint Resolve unique_delete unique_some_delete unique_usernames assignment_fresh client_fresh
  unique_revocation unique_setting : schema.
#[export] Hint Extern 2 (unique _ (update _ _ _)) => apply unique_update; [intros []; reflexivity|assumption] : schema.
#[export] Hint Extern 2 (unique_some _ (update _ _ _)) =>
  apply unique_some_update; [intros []; reflexivity|assumption] : schema.
#[export] Hint Extern 3 (unique _ (append _ _)) => apply unique_append; [fresh_row|assumption] : schema.

Lemma distinct_keys_write {E : Env} {HA : Hashing} {PH : PasswordHashing} {UL : UuidLib} {RN : Run}
    d d' : distinct_keys d -> write d d' -> distinct_keys d'.
Proof. intros Hk Hw. destruct Hk, Hw; constructor; cbn; eauto 2 with schema. Qed.

(** Users are never removed. *)
Lemma user_exists_update id p (f : UserRow -> UserRow) d :
  (forall u : UserRow, u_id (f u) = u_id u) ->
  user_exists id (with_users (update p f) d) = user_exists id d.
Proof.
  intros Hf. unfold user_exists. cbn [users with_users]. unfold update. induction (users d) as [|u rows IH]; [done|].
  cbn [map existsb]. rewrite IH. by destruct (p u); [rewrite Hf|].
Qed.
Lemma user_exists_write {E : Env} {HA : Hashing} {PH : PasswordHashing} {UL : UuidLib} {RN : Run}
    id d d' : write d d' -> user_exists id d = true -> user_exists id d' = true.
Proof.
  intros Hw Hu. destruct Hw; try exact Hu; try (by rewrite user_exists_update by done).
  unfold user_exists in *. cbn [users with_users]. unfold append. by rewrite existsb_app, Hu.
Qed.
Lemma opt_user_write {E : Env} {HA : Hashing} {PH : PasswordHashing} {UL : UuidLib} {RN : Run}
    o d d' : write d d' -> opt_user o d = true -> opt_user o d' = true.
Proof. destruct o as [id|]; [|done]. apply user_exists_write. Qed.

(** Writes that neither remove a role nor an application. *)
Lemma role_exists_append r id d : role_exists id d = true -> role_exists id (with_roles (append r) d) = true.
Proof. unfold role_exists. cbn [roles with_roles]. unfold append. intros H. by rewrite existsb_app, H. Qed.
Lemma application_exists_append r id d :
  application_exists id d = true -> application_exists id (with_applications (append r) d) = true.
Proof. unfold application_exists. cbn [applications with_applications]. unfold append. intros H. by rewrite existsb_app, H. Qed.
Lemma application_exists_update id p f d :
  (forall r, ap_id (f r) = ap_id r) ->
  application_exists id (with_applications (update p f) d) = application_exists id d.
Proof.
  intros Hf. unfold application_exists. cbn [applications with_applications]. unfold update.
  induction (applications d) as [|r rows IH]; [done|].
  cbn [map existsb]. rewrite IH. by destruct (p r); [rewrite Hf|].
Qed.

(** The cascades of the two deletions. *)
Lemma existsb_delete {A} (p q : A -> bool) rows :
  (forall r, q r = true -> p r = false) -> existsb q (delete p rows) = existsb q rows.
Proof.
  intros Hpq. induction rows as [|r rows IH]; [done|]. rewrite delete_cons. cbn [existsb].
  destruct (p r) eqn:Ep; cbn [existsb]; rewrite IH; [|done].
  destruct (q r) eqn:Eq; [|done]. by rewrite (Hpq _ Eq) in Ep.
Qed.
Lemma refer_cascade_role id rows d :
  refer (fun r => role_exists (ur_role_id r) d) rows ->
  refer (fun r => role_exists (ur_role_id r)
                    (with_user_roles (delete (fun ur => beq (ur_role_id ur) id))
                       (with_roles (delete (fun r => beq (ro_id r) id)) d)))
        (delete (fun ur => beq (ur_role_id ur) id) rows).
Proof.
  intros Hr r Hin. apply elem_of_delete in Hin as [Hin Hne]. specialize (Hr _ Hin). bool_hyp.
  unfold role_exists in *. cbn [roles with_user_roles with_roles].
  rewrite existsb_delete; [done|]. intros s Hs. bool_hyp. apply beq_neq. congruence.
Qed.
Lemma refer_cascade_application id rows d :
  refer (fun r => application_exists (ac_application_id r) d) rows ->
  refer (fun r => application_exists (ac_application_id r)
                    (with_auth_codes (delete (fun r => beq (ac_application_id r) id))
                       (with_applications (delete (fun r => beq (ap_id r) id)) d)))
        (delete (fun r => beq (ac_application_id r) id) rows).
Proof.
  intros Hr r Hin. apply elem_of_delete in Hin as [Hin Hne]. specialize (Hr _ Hin). bool_hyp.
  unfold application_exists in *. cbn [applications with_auth_codes with_applications].
  rewrite existsb_delete; [done|]. intros s Hs. bool_hyp. apply beq_neq. congruence.
Qed.
Lemma refer_revocation id t d :
  user_exists id d = true -> refer (fun r => user_exists (ar_user_id r) d) (access_revocations d) ->
  refer (fun r => user_exists (ar_user_id r) d)
    (if existsb (fun r => beq (ar_user_id r) id) (access_revocations d)
     then update (fun r => beq (ar_user_id r) id)
            (fun r => {| ar_user_id := ar_user_id r; ar_revoked_before := t |}) (access_revocations d)
     else (access_revocations d ++ [{| ar_user_id := id; ar_revoked_before := t |}])%list).
Proof.
  intros Hid Hr. destruct (existsb _ _); [by apply refer_update|].
  by apply (refer_append _ {| ar_user_id := id; ar_revoked_before := t |}).
Qed.

Ltac row_refers := lazymatch goal with
  | |- refer _ (append _ _) => apply refer_append; [cbn; by bool_hyp|assumption]
  | |- refer _ (update _ _ _) => apply refer_update; [by intros []|assumption]
  | |- refer _ (delete _ _) => by apply refer_delete
  | |- refer _ (List.filter _ _) => by apply refer_filter
  | |- refer _ (if _ then _ else _) => by apply refer_revocation
  | |- refer _ _ => assumption
  end.

Lemma references_write {E : Env} {HA : Hashing} {PH : PasswordHashing} {UL : UuidLib} {RN : Run}
    d d' : references d -> write d d' -> references d'.
Proof.
  intros Hk Hw. pose proof (fun id => user_exists_write id d d' Hw) as Hu.
  pose proof (fun o => opt_user_write o d d' Hw) as Ho. destruct Hk.
  constructor;
    try (refine (refer_mono _ _ _ (fun r => Hu _) _); clear Hu Ho; destruct Hw; cbn; row_refers);
    try (refine (refer_mono _ _ _ (fun r => Ho _) _); clear Hu Ho; destruct Hw; cbn; row_refers).
  - clear Hu Ho. destruct Hw; try exact re_assigned_role0.
    + refine (refer_mono _ _ _ (fun s => role_exists_append r (ur_role_id s) d) _). exact re_assigned_role0.
    + by apply (refer_cascade_role id).
    + apply (refer_append (fun s => role_exists (ur_role_id s) d)); [by bool_hyp|done].
    + by apply (refer_delete (fun s => role_exists (ur_role_id s) d)).
  - clear Hu Ho. destruct Hw; try exact re_code_application0.
    + refine (refer_mono _ _ _ (fun s => application_exists_append r (ac_application_id s) d) _).
      exact re_code_application0.
    + eapply (refer_mono (fun s => application_exists (ac_application_id s) d)); [|exact re_code_application0].
      intros s Hs. by rewrite application_exists_update.
    + by apply (refer_cascade_application id).
    + apply (refer_append (fun s => application_exists (ac_application_id s) d)); [by bool_hyp|done].
    + by apply (refer_update (fun s => application_exists (ac_application_id s) d)).
    + by apply (refer_delete (fun s => application_exists (ac_application_id s) d)).
Qed.

Lemma well_formed_write {E : Env} {HA : Hashing} {PH : PasswordHashing} {UL : UuidLib} {RN : Run}
    d d' : well_formed d -> write d d' -> well_formed d'.
Proof. intros [Hk Hr] Hw. split; [by eapply distinct_keys_write|by eapply references_write]. Qed.
Lemma well_formed_writes {E : Env} {HA : Hashing} {PH : PasswordHashing} {UL : UuidLib} {RN : Run}
    d d' : writes d d' -> well_formed d -> well_formed d'.
Proof. apply star_invariant. intros x y. apply well_formed_write. Qed.

(** ** What the server itself promises of what it stores

    No constraint of the schema says any of this; each part is kept by the
    checks and the conditions of the handlers' own statements. *)
Section Every.
Context {A : Type} (P : A -> Prop).
Definition every (rows : list A) : Prop := forall r, r ∈ rows -> P r.
Lemma every_append row rows : every rows -> P row -> every (append row rows).
Proof. intros Hr Hp r H. apply elem_of_app in H as [H|H]; [by apply Hr|]. by apply list_elem_of_singleton in H as ->. Qed.
Lemma every_update p f rows :
  every rows -> (forall r, r ∈ rows -> p r = true -> P r -> P (f r)) -> every (update p f rows).
Proof.
  intros Hr Hf r H. apply elem_of_update in H as (r0 & H & ->). destruct (p r0) eqn:Ep; [|by apply Hr].
  apply Hf; [done|done|by apply Hr].
Qed.
Lemma every_delete p rows : every rows -> every (delete p rows).
Proof. intros Hr r H. apply elem_of_delete in H as [H _]. by apply Hr. Qed.
End Every.


Section Stored.
Context {PH : PasswordHashing} (username_regex email_regex : string -> bool).

(** An account has a name, a user name and an address of the required form,
    whoever created or changed it. *)
Definition length_within (lo hi : nat) (s : string) : Prop := (lo <= String.length s <= hi)%nat.
Definition account_stored (u : UserRow) : Prop :=
  (length_within 3 64 (u_username u) /\ username_regex (u_username u) = true) /\
  length_within 3 128 (u_name u) /\
  (forall e, u_email u = Some e -> length_within 0 254 e /\ email_regex e = true) /\
  0 <= u_token_version u.
(** A password is stored as a hash of a password of the required length. *)
Definition password_stored (a : Authenticator) : Prop :=
  exists hash salt password, au_scheme a = Password hash /\ argon2_hash salt password = Ok hash /\
    length_within 12 512 password.
(** An invitation has not been used more often than it may be. *)
Definition invitation_stored (i : Invitation) : Prop :=
  0 <= inv_uses i /\ forall max, inv_max_uses i = Some max -> inv_uses i <= max.
(** A code was consumed, if at all, before its deadline, which is not after the
    deadline of its session. *)
Definition code_stored (r : AuthCodeRow) : Prop :=
  (forall t, ac_consumed_at r = Some t -> t < ac_expires_at r) /\
  (forall e, ac_session_exp r = Some e -> ac_expires_at r <= e).
(** A second factor is active exactly when some step of it has been spent. *)
Definition factor_stored (u : UserTotp) : Prop :=
  is_some (ut_activated_at u) = is_some (ut_last_used_step u).

Record stored_ok (d : Db) : Prop := {
  so_accounts : every account_stored (users d);
  so_passwords : every password_stored (authenticators d);
  so_invitations : every invitation_stored (invitations d);
  so_codes : every code_stored (auth_codes d);
  so_factors : every factor_stored (user_totps d)
}.
End Stored.

(** The validators decide it. *)
Lemma between_within lo hi s : between lo (String.length s) hi = true <-> length_within lo hi s.
Proof. unfold between, length_within. rewrite andb_true_iff, !Nat.leb_le. done. Qed.
Lemma if_negb_ok {X} (b : bool) (e : X) (r : result X unit) :
  (if negb b then Err e else r) = Ok tt <-> b = true /\ r = Ok tt.
Proof. destruct b; naive_solver. Qed.
Lemma username_within regex s :
  validate_username regex s = Ok tt <-> length_within 3 64 s /\ regex s = true.
Proof. unfold validate_username. cbv zeta. rewrite !if_negb_ok, between_within. naive_solver. Qed.
Lemma name_within s : Users.validate_name s = Ok tt <-> length_within 3 128 s.
Proof. unfold Users.validate_name. rewrite if_negb_ok, between_within. naive_solver. Qed.
Lemma password_within s : validate_password s = Ok tt <-> length_within 12 512 s.
Proof. unfold validate_password. cbv zeta. rewrite if_negb_ok, between_within. naive_solver. Qed.
Lemma email_within regex email :
  validate_email regex email = Ok tt <->
  forall e, email = Some e -> length_within 0 254 e /\ regex e = true.
Proof.
  unfold validate_email, length_within. destruct email as [e|]; [|done].
  change MAX_EMAIL_LEN with 254%nat. destruct (Nat.ltb_spec 254 (String.length e)) as [Hl|Hl].
  - split; [done|]. intros H. destruct (H e eq_refl) as [[] _]. lia.
  - destruct (regex e) eqn:Er; split; try done.
    + intros _ e' [= <-]. split; [lia|done].
    + intros H. destruct (H e eq_refl) as [_ Hr]. congruence.
Qed.

Section StoredWrites.
Context {E : Env} {HA : Hashing} {PH : PasswordHashing} {UL : UuidLib} {RN : Run}.
Abbreviation stored := (stored_ok run_username run_email).

Lemma profile_stored id name email username t rows :
  every (account_stored run_username run_email) rows ->
  (forall u : UserRow, fetch (fun r : UserRow => beq (u_id r) id) rows = Some u -> account_ok u ->
     username_ok username /\ name_ok name /\ email_ok email) ->
  every (account_stored run_username run_email)
    (update (fun r : UserRow => beq (u_id r) id) (set_profile name email username t) rows).
Proof.
  unfold username_ok, name_ok, email_ok, account_ok. intros Hr Hf. apply every_update; [done|].
  intros r Hin Hid (_ & _ & _ & Hv).
  destruct (fetch (fun r : UserRow => beq (u_id r) id) rows) as [u|] eqn:Ef.
  - assert (Hu : account_stored run_username run_email u) by (apply Hr; by apply fetch_Some in Ef as [Ef _]).
    destruct Hu as (H1 & H2 & H3 & _). destruct (Hf u eq_refl) as (Hn & Hm & He).
    { unfold username_ok, name_ok, email_ok. by rewrite username_within, name_within, email_within. }
    apply username_within in Hn. apply name_within in Hm. pose proof (proj1 (email_within _ _) He). done.
  - pose proof (proj1 (fetch_None _ _) Ef r Hin) as Hn. cbv beta in Hn. congruence.
Qed.

Lemma stored_ok_write d d' : stored d -> write d d' -> stored d'.
Proof.
  intros [Hu Ha Hi Hc Hf] Hw. destruct Hw; constructor; try assumption; cbn;
    try (by apply profile_stored); try (by apply every_delete);
    first [apply every_append; [assumption|]|apply every_update; [assumption|]].
  - destruct H0 as (Hn & Hm & He). apply username_within in Hn. apply name_within in Hm.
    pose proof (proj1 (email_within _ _) He). done.
  - intros r _ _ (? & ? & ? & ?). do 3 (split; [done|]). cbn. lia.
  - destruct H1 as (hash & Hs & salt & password & Hh & Hp%password_within). by exists hash, salt, password.
  - intros r _ _ _. destruct H as (salt & password & Hh & Hp%password_within). by exists hash, salt, password.
  - split; [|done]. intros t Ht. by rewrite Ht in H1.
  - intros r _ (_ & _ & Ht)%unconsumed_row [_ He]. split; [|done]. by intros t' [= <-].
  - split; [lia|]. intros max Hm. specialize (H2 max Hm). lia.
  - intros r _ Huse [H1 H2]. unfold consumable in Huse. bool_hyp. split; cbn; [lia|]. intros max Hm.
    unfold not_exhausted, is_none_or in *. rewrite Hm in *. bool_hyp. lia.
  - unfold factor_stored. by destruct (ut_activated_at u), (ut_last_used_step u).
  - done.
  - done.
  - intros r _ Hs _. unfold step_unused in Hs. unfold factor_stored. cbn. bool_hyp. by destruct (ut_activated_at r).
Qed.
Lemma stored_ok_writes d d' : writes d d' -> stored d -> stored d'.
Proof. apply star_invariant. intros x y. apply stored_ok_write. Qed.
End StoredWrites.

(** ** The database the migrations leave *)
Definition default_roles : list Role := [
  {| ro_id := 0x0191f9b0a0b07a8f9c4d5e6f7a8b9c0d; ro_name := "admin";
     ro_description := Some "Full administrative access" |};
  {| ro_id := 0x0191f9b0a0b07a8f9c4d5e6f7a8b9c0e; ro_name := "user";
     ro_description := Some "Standard user access" |}].
Definition registration_setting : list SettingRow := [{| se_key := "open_registration"; se_value := "false" |}].
Definition ldap_settings : list SettingRow := [
  {| se_key := "ldap_enabled"; se_value := "false" |};
  {| se_key := "ldap_base_dn"; se_value := "dc=authere,dc=local" |};
  {| se_key := "ldap_bind_address"; se_value := "0.0.0.0:3389" |};
  {| se_key := "ldap_service_password_hash"; se_value := "" |};
  {| se_key := "ldap_password_mode"; se_value := "primary_and_app" |}].
Definition session_setting : list SettingRow := [{| se_key := "session_expiry_seconds"; se_value := "604800" |}].
Definition migrated_db : Db :=
  with_roles (fun _ => default_roles)
    (with_settings (fun _ => (registration_setting ++ ldap_settings ++ session_setting)%list) empty_db).

Lemma unique_decide {A K} `{EqDecision K} (key : A -> K) rows :
  bool_decide (NoDup (map key rows)) = true -> unique key rows.
Proof. apply bool_decide_eq_true_1. Qed.
Lemma unique_some_decide {A K} `{EqDecision K} (key : A -> option K) rows :
  bool_decide (NoDup (omap key rows)) = true -> unique_some key rows.
Proof. apply bool_decide_eq_true_1. Qed.
Lemma refer_forallb {A} (f : A -> bool) rows : forallb f rows = true -> refer f rows.
Proof. intros H r Hr. by apply (proj1 (forallb_forall _ _) H), list_elem_of_In. Qed.

Ltac check_well_formed :=
  split; constructor;
  (apply unique_decide || apply unique_some_decide || apply refer_forallb); vm_compute; reflexivity.

Lemma migrated_well_formed : well_formed migrated_db.
Proof. check_well_formed. Qed.
Lemma migrated_stored {PH : PasswordHashing} username_regex email_regex :
  stored_ok username_regex email_regex migrated_db.
Proof. split; intros r Hr; by apply not_elem_of_nil in Hr. Qed.
