(* ===== verification/Lifecycle.v ===== *)
(** * What is issued, as abstract state machines

    Refresh tokens, authorization codes, invitations, recovery codes, second
    factors, forward-auth handoffs and passkey challenges are rows that are
    issued, used and forgotten.  Each kind is a [Lifecycle]: how a row is issued
    and drawn, the moves it may make while it exists, and when it may be
    forgotten.  Whatever writes a run consists of, every row lives along its
    machine. *)

From S2P Require Import Prelude RStr RateLimit Schema Sys External Users AuditLog Net Settings Token Totp LoginFlow Application Forward Http OidcCodes OidcToken AppPasswords Invitations Passkeys Writes WellFormed.
Local Open Scope Z_scope.
Local Open Scope string_scope.

(** ** The machine of a kind *)

Record Lifecycle := {
  lc_row : Type;
  lc_rows : Db -> list lc_row;
  lc_key_type : Type;
  lc_key_dec : EqDecision lc_key_type;
  lc_key : lc_row -> lc_key_type;
  (** A row as it is issued, and what of it is drawn at random then; the moves it
      makes; when it is used up; when it may be removed. *)
  lc_issued : lc_row -> Prop;
  lc_drawn : lc_row -> Prop;
  lc_moves : lc_row -> lc_row -> Prop;
  lc_spent : lc_row -> bool;
  lc_forgets : lc_row -> Prop
}.
#[export] Existing Instance lc_key_dec.

(** A row that was not there before has been issued on what was drawn during
    the run, and made its moves since. *)
Definition renewed (L : Lifecycle) (r' : lc_row L) : Prop :=
  exists r, lc_issued L r /\ lc_drawn L r /\ star (lc_moves L) r r'.

(** The row at one key before and after: what is there now was there before, or
    is new; what was there before is there still, or could be removed.  In
    particular no old row comes back once it is removed, and none is replaced by
    a copy of itself. *)
Record lived (L : Lifecycle) (o o' : option (lc_row L)) : Prop := {
  lv_origin r' : o' = Some r' -> (exists r, o = Some r /\ star (lc_moves L) r r') \/ renewed L r';
  lv_fate r : o = Some r -> (exists r', o' = Some r' /\ star (lc_moves L) r r') \/ lc_forgets L r
}.

Definition row_at (L : Lifecycle) (k : lc_key_type L) (d : Db) : option (lc_row L) :=
  fetch (fun r => beq (lc_key L r) k) (lc_rows L d).
Definition keys_distinct (L : Lifecycle) (d : Db) : Prop := unique (lc_key L) (lc_rows L d).

(** A row keeps its key and, once used up, stays so. *)
Class LifecycleLaws (L : Lifecycle) := {
  lc_moves_key r r' : lc_moves L r r' -> lc_key L r' = lc_key L r;
  lc_moves_spent r r' : lc_moves L r r' -> lc_spent L r = true -> lc_spent L r' = true;
  lc_moves_forgets r r' : lc_moves L r r' -> lc_forgets L r' -> lc_forgets L r
}.

(** What one statement may do to the rows of a kind. *)
Inductive table_step (L : Lifecycle) (rows : list (lc_row L)) : list (lc_row L) -> Prop :=
| ts_same : table_step L rows rows
| ts_append r :
    (forall r', r' ∈ rows -> lc_key L r' <> lc_key L r) -> lc_issued L r -> lc_drawn L r ->
    table_step L rows (append r rows)
| ts_update p f : (forall r, p r = true -> lc_moves L r (f r)) -> table_step L rows (update p f rows)
| ts_delete p : (forall r, p r = true -> lc_forgets L r) -> table_step L rows (delete p rows).

Lemma fetch_delete_unique {A K} `{EqDecision K} (key : A -> K) k p rows :
  unique key rows ->
  fetch (fun r => beq (key r) k) (delete p rows)
  = opt_filter (fun r => negb (p r)) (fetch (fun r => beq (key r) k) rows).
Proof.
  intros Hu. induction rows as [|r rows IH]; [done|]. apply NoDup_cons in Hu as [Hn Hu].
  rewrite delete_cons. unfold fetch in *. cbn [List.find]. destruct (beq (key r) k) eqn:Ek.
  - cbn [opt_filter]. destruct (p r) eqn:Ep; cbn [negb List.find]; [|by rewrite Ek].
    rewrite IH by done. bool_hyp. destruct (List.find _ rows) as [r'|] eqn:Ef; [|done].
    exfalso. apply Hn. apply List.find_some in Ef as [Hin Hk]. bool_hyp. apply list_elem_of_fmap.
    exists r'. split; [congruence|by apply list_elem_of_In].
  - destruct (p r); cbn [List.find]; rewrite ?Ek; by apply IH.
Qed.

Section Laws.
Context (L : Lifecycle) `{!LifecycleLaws L}.

Lemma update_keys p f rows :
  (forall r, p r = true -> lc_moves L r (f r)) -> map (lc_key L) (update p f rows) = map (lc_key L) rows.
Proof.
  intros Hf. unfold update. rewrite map_map. apply map_ext. intros r.
  destruct (p r) eqn:Ep; [by apply lc_moves_key, Hf|done].
Qed.

Lemma fetch_update_moves p f k rows :
  (forall r, p r = true -> lc_moves L r (f r)) ->
  fetch (fun r => beq (lc_key L r) k) (update p f rows)
  = option_map (fun r => if p r then f r else r) (fetch (fun r => beq (lc_key L r) k) rows).
Proof.
  intros Hf. unfold fetch. induction rows as [|r rows IH]; [done|]. rewrite update_cons. cbn [List.find].
  replace (lc_key L (if p r then f r else r)) with (lc_key L r); [by destruct (beq _ _)|].
  destruct (p r) eqn:Ep; [symmetry; by apply lc_moves_key, Hf|done].
Qed.

Lemma forgets_before r r' : star (lc_moves L) r r' -> lc_forgets L r' -> lc_forgets L r.
Proof. induction 1 as [r|r1 r2 r3 H _ IH]; [done|]. intros Hf. by eapply lc_moves_forgets, IH. Qed.

#[export] Instance lived_preorder : PreOrder (lived L).
Proof.
  split.
  - intros o. split; intros r ->; left; exists r; split; [done|constructor|done|constructor].
  - intros o1 o2 o3 [O1 F1] [O2 F2]. split.
    + intros r3 H3. destruct (O2 r3 H3) as [(r2 & H2 & S2)|]; [|by right].
      destruct (O1 r2 H2) as [(r1 & H1 & S1)|(r0 & Hi & Hd & S0)].
      * left. exists r1. split; [done|]. by eapply star_trans.
      * right. exists r0. repeat split; [done..|]. by eapply star_trans.
    + intros r1 H1. destruct (F1 r1 H1) as [(r2 & H2 & S1)|]; [|by right].
      destruct (F2 r2 H2) as [(r3 & H3 & S2)|Hf].
      * left. exists r3. split; [done|]. by eapply star_trans.
      * right. by eapply forgets_before.
Qed.
Lemma lived_move r r' : star (lc_moves L) r r' -> lived L (Some r) (Some r').
Proof. intros Hs. split; [intros ? [= <-]|intros ? [= <-]]; left; eauto. Qed.
Lemma lived_issue r : lc_issued L r -> lc_drawn L r -> lived L None (Some r).
Proof. intros Hi Hd. split; [intros ? [= <-]|done]. right. exists r. repeat split; [done..|constructor]. Qed.
Lemma lived_forget r : lc_forgets L r -> lived L (Some r) None.
Proof. intros Hf. split; [done|]. intros ? [= <-]. by right. Qed.

(** A step of the table is a step of every row's life. *)
Lemma table_step_lived d d' :
  table_step L (lc_rows L d) (lc_rows L d') -> keys_distinct L d ->
  keys_distinct L d' /\ forall k, lived L (row_at L k d) (row_at L k d').
Proof.
  unfold keys_distinct, row_at. intros Hs Hu.
  inversion Hs as [He|r Hn Hi Hd He|p f Hf He|p Hf He]; rewrite <- ?He; clear Hs He.
  - done.
  - split; [by apply unique_append|]. intros k. unfold append. rewrite fetch_app.
    destruct (fetch _ (lc_rows L d)) as [r'|]; [done|]. unfold fetch. cbn [List.find].
    destruct (beq (lc_key L r) k); [by apply lived_issue|done].
  - split; [unfold unique; by rewrite update_keys|]. intros k. rewrite fetch_update_moves by done.
    destruct (fetch _ (lc_rows L d)) as [r|]; cbn [option_map]; [|done]. apply lived_move.
    destruct (p r) eqn:Ep; [by apply star_one, Hf|constructor].
  - split; [by apply unique_delete|]. intros k. rewrite fetch_delete_unique by done.
    destruct (fetch _ (lc_rows L d)) as [r|]; cbn [opt_filter]; [|done].
    destruct (p r) eqn:Ep; cbn [negb]; [by apply lived_forget, Hf|done].
Qed.

Lemma spent_for_good r r' : star (lc_moves L) r r' -> lc_spent L r = true -> lc_spent L r' = true.
Proof. induction 1 as [r|r1 r2 r3 H _ IH]; [done|]. intros Hs. apply IH. by eapply lc_moves_spent. Qed.
Lemma moves_keep_key r r' : star (lc_moves L) r r' -> lc_key L r' = lc_key L r.
Proof. induction 1 as [r|r1 r2 r3 H _ IH]; [done|]. rewrite IH. by apply lc_moves_key. Qed.
End Laws.

(** ** The kinds *)

(** Every kind the server issues. *)
Inductive Grant : Type :=
| RefreshTokens | AuthorizationCodes | InvitationLinks | RecoveryCodes | SecondFactors
| Handoffs | PasskeyChallenges.
Section Kinds.
Context {E : Env} {HA : Hashing} {PH : PasswordHashing} {UL : UuidLib} {RN : Run}.

(** A refresh token is revoked at most once; a successor may be kept beside it
    for a browser that asks again, and dropped.  It is only removed when it has
    expired. *)
Inductive token_moves (r : RefreshTokenRecord) : RefreshTokenRecord -> Prop :=
| tm_revoke t : is_none (rt_revoked_at r) = true -> token_moves r (set_revoked_at t r)
| tm_retry until pair : token_moves r (set_retry until pair r)
| tm_clear : token_moves r (clear_retry_pair r).
Definition refresh_lifecycle : Lifecycle := {|
  lc_rows := refresh_tokens; lc_key := rt_id; lc_issued := fun r => rt_revoked_at r = None;
  lc_drawn := fun r => drawn_id (rt_id r);
  lc_moves := token_moves; lc_spent := fun r => is_some (rt_revoked_at r);
  lc_forgets := fun r => exists t, clock_read t /\ rt_expires_at r <= t |}.

(** An authorization code is consumed at most once, before its deadline. *)
Definition code_lifecycle : Lifecycle := {|
  lc_rows := auth_codes; lc_key := ac_code_hash; lc_issued := fun r => ac_consumed_at r = None;
  lc_drawn := fun r => exists code, drawn_hex 32 code /\ ac_code_hash r = hash_code code;
  lc_moves := fun r r' => exists t, ac_consumed_at r = None /\ t < ac_expires_at r /\ r' = set_consumed t r;
  lc_spent := fun r => is_some (ac_consumed_at r); lc_forgets := fun _ => True |}.

(** An invitation is used one at a time, while uses are left. *)
Definition invitation_lifecycle : Lifecycle := {|
  lc_rows := invitations; lc_key := inv_id; lc_issued := fun i => inv_uses i = 0;
  lc_drawn := fun i => drawn_hex 32 (inv_id i);
  lc_moves := fun i i' => (forall max, inv_max_uses i = Some max -> inv_uses i < max) /\ i' = used_once i;
  lc_spent := fun i => negb (not_exhausted i); lc_forgets := fun _ => True |}.

(** A recovery code is used at most once. *)
Definition recovery_lifecycle : Lifecycle := {|
  lc_rows := recovery_codes; lc_key := rc_id; lc_issued := fun r => rc_used_at r = None;
  lc_drawn := fun r => drawn_id (rc_id r);
  lc_moves := fun r r' => exists t, rc_used_at r = None /\ r' = set_used_at t r;
  lc_spent := fun r => is_some (rc_used_at r); lc_forgets := fun _ => True |}.

(** A second factor takes new secrets until it is activated; an active one
    keeps its secret and only moves to later steps. *)
Inductive factor_moves (u : UserTotp) : UserTotp -> Prop :=
| fm_pending secret t : ut_activated_at u = None -> drawn_blob secret -> factor_moves u (set_pending secret t u)
| fm_activate t step : ut_activated_at u = None -> factor_moves u (set_activated t step u)
| fm_step t step :
    is_some (ut_activated_at u) = true -> (forall last, ut_last_used_step u = Some last -> last < step) ->
    factor_moves u (set_step t step u).
Definition factor_lifecycle : Lifecycle := {|
  lc_rows := user_totps; lc_key := ut_user_id; lc_issued := fun u => ut_activated_at u = None;
  lc_drawn := fun u => drawn_blob (ut_secret_encrypted u);
  lc_moves := factor_moves; lc_spent := is_activated; lc_forgets := fun _ => True |}.

(** Handoffs and challenges are never changed; they are taken by deletion. *)
Definition handoff_lifecycle : Lifecycle := {|
  lc_rows := handoffs; lc_key := fh_id; lc_issued := fun _ => True;
  lc_drawn := fun r => exists id, drawn_id id /\ fh_id r = uuid_to_string id;
  lc_moves := fun _ _ => False; lc_spent := fun _ => false; lc_forgets := fun _ => True |}.
Definition challenge_lifecycle : Lifecycle := {|
  lc_rows := passkey_challenges; lc_key := pc_id; lc_issued := fun _ => True;
  lc_drawn := fun r => drawn_hex 32 (pc_id r);
  lc_moves := fun _ _ => False; lc_spent := fun _ => false; lc_forgets := fun _ => True |}.

#[export] Instance refresh_laws : LifecycleLaws refresh_lifecycle.
Proof. split; cbn; intros r r' []; done. Qed.
#[export] Instance code_laws : LifecycleLaws code_lifecycle.
Proof. split; cbn; intros r r' (t & _ & _ & ->); done. Qed.
#[export] Instance invitation_laws : LifecycleLaws invitation_lifecycle.
Proof.
  split; cbn; intros i i' [Hm ->]; [done| |done]. unfold not_exhausted, is_none_or. cbn.
  destruct (inv_max_uses i) as [max|]; [|done]. specialize (Hm max eq_refl).
  rewrite !negb_true_iff, !Z.ltb_ge. lia.
Qed.
#[export] Instance recovery_laws : LifecycleLaws recovery_lifecycle.
Proof. split; cbn; intros r r' (t & _ & ->); done. Qed.
#[export] Instance factor_laws : LifecycleLaws factor_lifecycle.
Proof. split; cbn; intros r r' []; unfold is_activated; cbn; try done. by rewrite H. Qed.
#[export] Instance handoff_laws : LifecycleLaws handoff_lifecycle.
Proof. by split. Qed.
#[export] Instance challenge_laws : LifecycleLaws challenge_lifecycle.
Proof. by split. Qed.

Definition lifecycle (g : Grant) : Lifecycle :=
  match g with
  | RefreshTokens => refresh_lifecycle
  | AuthorizationCodes => code_lifecycle
  | InvitationLinks => invitation_lifecycle
  | RecoveryCodes => recovery_lifecycle
  | SecondFactors => factor_lifecycle
  | Handoffs => handoff_lifecycle
  | PasskeyChallenges => challenge_lifecycle
  end.
#[export] Instance lifecycle_laws g : LifecycleLaws (lifecycle g).
Proof. destruct g; apply _. Qed.

(** ** Every write is a step of every kind *)

Lemma new_key {A K} `{EqDecision K} (key : A -> K) (q : A -> bool) r rows :
  (forall r', q r' = false -> key r' <> key r) -> existsb q rows = false ->
  forall r', r' ∈ rows -> key r' <> key r.
Proof. intros Hq He r' Hr. apply Hq. exact (existsb_false_elem _ _ _ He Hr). Qed.

Lemma is_none_true {A} (o : option A) : is_none o = true -> o = None.
Proof. by destruct o. Qed.

End Kinds.

Ltac other_table := first [done | by apply ts_same].
Ltac new_row :=
  apply ts_append; [eapply new_key; [|eassumption]; cbn; intros ? ?; bool_hyp; done
                |cbn; auto using is_none_true|cbn; assumption].

Section WriteLives.
Context {E : Env} {HA : Hashing} {PH : PasswordHashing} {UL : UuidLib} {RN : Run}.

Lemma write_refresh d d' : write d d' -> table_step refresh_lifecycle (refresh_tokens d) (refresh_tokens d').
Proof.
  intros Hw. destruct Hw; try other_table; cbn [refresh_tokens with_refresh_tokens].
  - new_row.
  - apply ts_update. intros r Hr. constructor. auto.
  - apply ts_update. constructor.
  - apply ts_update. constructor.
  - apply ts_delete. intros r Hr. exists t. by bool_hyp.
Qed.

Lemma write_codes d d' : write d d' -> table_step code_lifecycle (auth_codes d) (auth_codes d').
Proof.
  intros Hw. destruct Hw; try other_table; cbn [auth_codes with_auth_codes with_applications].
  - by apply ts_delete.
  - new_row.
  - apply ts_update. intros r (_ & Hn & Ht)%unconsumed_row. by exists t.
  - by apply ts_delete.
Qed.

Lemma write_invitations d d' : write d d' -> table_step invitation_lifecycle (invitations d) (invitations d').
Proof.
  intros Hw. destruct Hw; try other_table; cbn [invitations with_invitations].
  - new_row.
  - by apply ts_delete.
  - apply ts_update. intros i Hi. unfold consumable in Hi. bool_hyp. split; [|done].
    intros max Hm. unfold not_exhausted, is_none_or in *. rewrite Hm in *. by bool_hyp.
Qed.

Lemma write_recovery d d' : write d d' -> table_step recovery_lifecycle (recovery_codes d) (recovery_codes d').
Proof.
  intros Hw. destruct Hw; try other_table; cbn [recovery_codes with_recovery_codes].
  - new_row.
  - by apply ts_delete.
  - apply ts_update. intros r Hr. unfold unused_code in Hr. bool_hyp. exists t. auto using is_none_true.
Qed.

Lemma write_factors d d' : write d d' -> table_step factor_lifecycle (user_totps d) (user_totps d').
Proof.
  intros Hw. destruct Hw; try other_table; cbn [user_totps with_user_totps].
  - new_row.
  - apply ts_update. intros u Hu. apply fm_pending; [apply is_none_true; auto|done].
  - apply ts_update. intros u Hu. apply fm_activate, is_none_true, H, Hu.
  - apply ts_update. intros u Hu. unfold step_unused in Hu. bool_hyp. apply fm_step; [done|].
    intros last Hl. unfold is_none_or in *. rewrite Hl in *. by bool_hyp.
  - by apply ts_delete.
Qed.

Lemma write_handoffs d d' : write d d' -> table_step handoff_lifecycle (handoffs d) (handoffs d').
Proof.
  intros Hw. destruct Hw; try other_table; cbn [handoffs with_handoffs]; [new_row|by apply ts_delete].
Qed.
Lemma write_challenges d d' :
  write d d' -> table_step challenge_lifecycle (passkey_challenges d) (passkey_challenges d').
Proof.
  intros Hw. destruct Hw; try other_table; cbn [passkey_challenges with_passkey_challenges];
    [new_row|by apply ts_delete].
Qed.

Lemma write_lifecycle g d d' : write d d' -> table_step (lifecycle g) (lc_rows _ d) (lc_rows _ d').
Proof.
  destruct g; [apply write_refresh|apply write_codes|apply write_invitations|apply write_recovery
              |apply write_factors|apply write_handoffs|apply write_challenges].
Qed.

Lemma writes_lifecycle g d d' :
  writes d d' -> keys_distinct (lifecycle g) d ->
  keys_distinct (lifecycle g) d' /\
  forall k, lived (lifecycle g) (row_at (lifecycle g) k d) (row_at (lifecycle g) k d').
Proof.
  induction 1 as [d|d1 d2 d3 H _ IH]; intros Hk; [done|].
  destruct (table_step_lived (lifecycle g) d1 d2 (write_lifecycle g _ _ H) Hk) as [Hk2 H2].
  destruct (IH Hk2) as [Hk3 H3]. split; [done|]. intros k. etrans; [apply H2|apply H3].
Qed.
End WriteLives.
