(* ===== verification/System.v ===== *)
(** * The whole server, as interleaved activities

    Everything that runs against the database at once: requests, messages on
    directory connections, the background rounds and the command line.  What
    holds of each of their writes holds however they interleave. *)

From S2P Require Import Prelude RStr RateLimit Schema Sys External Users AuditLog Net Settings Token TokenFacts Sessions Totp LoginFlow Application Forward Http OidcCodes OidcToken AppPasswords Invitations Accounts Passkeys TotpHandlers ApplicationHandlers SettingsHandlers AuditExport ForwardAuth OAuth ClientAddress LdapSchema LdapFilter LdapHandler LdapServer Startup Cli Writes WriteFacts WellFormed Routes Server.
Local Open Scope Z_scope.
Local Open Scope string_scope.

Inductive Activity : Type :=
| HttpRequest (i : Incoming)
| DirectoryConnect
| DirectoryMessage (peer : IpAddr) (op : ServerOps) (c : Conn)
| SweepRound
| CleanupRound
| InitAdmin (username password name : string) (email : option string).

Definition discard {A} (p : prog A) : prog unit := _ <~ p ;; Ret tt.

(** ** What no write undoes *)

(** An entry of the audit log stays as it was written, and an account keeps
    its identity, its state and at least its session generation. *)
Definition account_kept (u u' : UserRow) : Prop :=
  u_id u' = u_id u /\ u_active u' = u_active u /\ u_created_at u' = u_created_at u /\
  u_token_version u <= u_token_version u'.
Record permanent (d d' : Db) : Prop := {
  pm_audit : exists entries, audit_log d' = (audit_log d ++ entries)%list;
  pm_users : forall i u, users d !! i = Some u -> exists u', users d' !! i = Some u' /\ account_kept u u'
}.
#[export] Instance account_kept_preorder : PreOrder account_kept.
Proof.
  split; [intros u|intros u1 u2 u3]; unfold account_kept; [by repeat split|].
  intros (-> & -> & -> & ?) (-> & -> & -> & ?). repeat split. lia.
Qed.
#[export] Instance permanent_preorder : PreOrder permanent.
Proof.
  split.
  - intros d. split; [exists []; by rewrite app_nil_r|]. intros i u Hu. exists u. by split.
  - intros d1 d2 d3 [[l1 H1] U1] [[l2 H2] U2]. split.
    + exists (l1 ++ l2)%list. by rewrite H2, H1, app_assoc.
    + intros i u Hu. destruct (U1 i u Hu) as (u2 & Hu2 & K2). destruct (U2 i u2 Hu2) as (u3 & Hu3 & K3).
      exists u3. split; [done|]. by trans u2.
Qed.

Lemma permanent_same d d' : audit_log d' = audit_log d -> users d' = users d -> permanent d d'.
Proof.
  intros Ha Hu. split; [exists []; by rewrite app_nil_r|]. intros i u H. exists u. by rewrite Hu.
Qed.
Lemma permanent_update p f d :
  (forall u, account_kept u (f u)) -> permanent d (with_users (update p f) d).
Proof.
  intros Hf. split; [exists []; by rewrite app_nil_r|]. intros i u Hu. cbn [users with_users].
  exists (if p u then f u else u). split; [|by destruct (p u)].
  unfold update. change (@map) with (fun A B => @fmap list _ A B). by rewrite list_lookup_fmap, Hu.
Qed.

Lemma permanent_write {E : Env} {HA : Hashing} {PH : PasswordHashing} {UL : UuidLib} {RN : Run} d d' : write d d' -> permanent d d'.
Proof.
  intros Hw. destruct Hw; try (by apply permanent_same).
  - split; [exists []; by rewrite app_nil_r|]. intros i r Hr. exists r. split; [|done].
    cbn [users with_users]. unfold append. by rewrite lookup_app_l by (by eapply lookup_lt_Some).
  - apply permanent_update. intros r. by repeat split.
  - apply permanent_update. intros r. repeat split. simpl. lia.
  - split; [by exists [r]|]. intros i u Hu. exists u. by split.
Qed.
Lemma permanent_writes {E : Env} {HA : Hashing} {PH : PasswordHashing} {UL : UuidLib} {RN : Run} d d' : writes d d' -> permanent d d'.
Proof.
  induction 1 as [d|d1 d2 d3 H _ IH]; [reflexivity|]. etrans; [by apply permanent_write|done].
Qed.

(** A user's session generation never goes back, once the user exists. *)
Lemma versions_grow_write {E : Env} {HA : Hashing} {PH : PasswordHashing} {UL : UuidLib} {RN : Run} uid d d' :
    user_exists uid d = true -> write d d' -> versions_grow uid d d'.
Proof.
  intros Hu Hw. destruct Hw; try (by apply versions_grow_same).
  - apply versions_grow_insert. intros He. cbn in He. unfold user_exists in Hu.
    apply existsb_exists in Hu as (r & Hr & Hb). apply list_elem_of_In in Hr. bool_hyp.
    pose proof (existsb_false_elem _ _ _ H Hr) as Hx. cbn beta in Hx. bool_hyp. congruence.
  - eauto with grow.
  - eauto with grow.
Qed.
Lemma versions_grow_writes {E : Env} {HA : Hashing} {PH : PasswordHashing} {UL : UuidLib} {RN : Run} uid d d' :
    user_exists uid d = true -> writes d d' -> versions_grow uid d d'.
Proof.
  intros Hu Hw. induction Hw as [d|d1 d2 d3 H _ IH]; [reflexivity|].
  etrans; [by apply versions_grow_write|]. apply IH. by eapply user_exists_write.
Qed.

Section Perform.
Context {E : Env} {HA : Hashing} {ED : Ed25519} {UL : UuidLib} {AE : Aead} {PH : PasswordHashing}
        {MAC : HmacSha1} {JL : JsonLib} {RX : RegexLib} {URL : UrlLib} {UP : UrlParts} {UE : UrlEncoding}
        {B64 : Base64Std} {HL : HttpLib} {AX : AxumParts} {RL : RandLib} {RJ : RecordsJson}
        {UA : UserAgentHeader} {WL : WebauthnLib}.
Context {JC : JwtCodec Claims} {JF : JwtCodec ForwardSession} {JH : JwtCodec Handoff}
        {JI : JwtCodec IdTokenClaims} {JO : JwtCodec OidcAccessClaims} {SJ : SerdeJson TokenPair}
        {JR : JsonText PasskeyRegistration} {JP : JsonText Passkey} {JA : JsonText DiscoverableAuthentication}.
Variable username_regex email_regex : string -> bool.
Variable non_ascii_uppercase : string -> string.
Variable non_ascii_alphanumeric : string -> bool.
Variable pkg_version : string.
Variable st : AppState.

Definition perform (a : Activity) : prog unit :=
  match a with
  | HttpRequest i =>
      discard (serve username_regex email_regex non_ascii_uppercase non_ascii_alphanumeric st i)
  | DirectoryConnect => discard open_connection
  | DirectoryMessage peer op c => discard (on_message pkg_version peer op c)
  | SweepRound => discard sweep_round
  | CleanupRound => discard cleanup_round
  | InitAdmin username password name email =>
      discard (init_admin username_regex email_regex username password name email)
  end.

End Perform.

(** Every activity only takes the steps of [Writes.v]. *)
Section Runs.
Context {E : Env} {HA : Hashing} {ED : Ed25519} {UL : UuidLib} {AE : Aead} {PH : PasswordHashing}
        {MAC : HmacSha1} {JL : JsonLib} {RX : RegexLib} {URL : UrlLib} {UP : UrlParts} {UE : UrlEncoding}
        {B64 : Base64Std} {HL : HttpLib} {AX : AxumParts} {RL : RandLib} {RJ : RecordsJson}
        {UA : UserAgentHeader} {WL : WebauthnLib}.
Context {JC : JwtCodec Claims} {JF : JwtCodec ForwardSession} {JH : JwtCodec Handoff}
        {JI : JwtCodec IdTokenClaims} {JO : JwtCodec OidcAccessClaims} {SJ : SerdeJson TokenPair}
        {JR : JsonText PasskeyRegistration} {JP : JsonText Passkey} {JA : JsonText DiscoverableAuthentication}.
Context {RN : Run}.
Variable non_ascii_uppercase : string -> string.
Variable non_ascii_alphanumeric : string -> bool.
Variable pkg_version : string.
Variable st : AppState.

Lemma writes_serve_call h ctx c :
  respects_from run_start (on_db writes)
    (serve_call run_username run_email non_ascii_uppercase non_ascii_alphanumeric st h ctx c).
Proof. destruct c; cbn [serve_call]; only_writes. Qed.
Hint Resolve writes_serve_call : writes.

Lemma writes_perform a :
  respects_from run_start (on_db writes)
    (perform run_username run_email non_ascii_uppercase non_ascii_alphanumeric pkg_version st a).
Proof. destruct a; cbn [perform]; only_writes. Qed.
End Runs.

Section System.
Context {E : Env} {HA : Hashing} {ED : Ed25519} {UL : UuidLib} {AE : Aead} {PH : PasswordHashing}
        {MAC : HmacSha1} {JL : JsonLib} {RX : RegexLib} {URL : UrlLib} {UP : UrlParts} {UE : UrlEncoding}
        {B64 : Base64Std} {HL : HttpLib} {AX : AxumParts} {RL : RandLib} {RJ : RecordsJson}
        {UA : UserAgentHeader} {WL : WebauthnLib}.
Context {JC : JwtCodec Claims} {JF : JwtCodec ForwardSession} {JH : JwtCodec Handoff}
        {JI : JwtCodec IdTokenClaims} {JO : JwtCodec OidcAccessClaims} {SJ : SerdeJson TokenPair}
        {JR : JsonText PasskeyRegistration} {JP : JsonText Passkey} {JA : JsonText DiscoverableAuthentication}.
Variable username_regex email_regex : string -> bool.
Variable non_ascii_uppercase : string -> string.
Variable non_ascii_alphanumeric : string -> bool.
Variable pkg_version : string.
Variable st : AppState.
Abbreviation perform :=
  (perform username_regex email_regex non_ascii_uppercase non_ascii_alphanumeric pkg_version st).

(** The run that starts at a world. *)
Definition run_from (w : World) : Run := {|
  run_start := tick w; run_username := username_regex; run_email := email_regex |}.

(** What every write keeps, every interleaving of activities keeps. *)
Lemma system_writes activities sched w :
  writes (RN := run_from w) (db w) (db (pool_run sched (map perform activities, w)).2).
Proof.
  destruct (pool_respects_from (tick w) (on_db (writes (RN := run_from w))) (map perform activities, w)
              (pool_run sched (map perform activities, w))) as [H _].
  - apply pool_run_star.
  - done.
  - apply Forall_map, Forall_forall. intros a _. exact (writes_perform (RN := run_from w) _ _ _ _ a).
  - done.
Qed.

(** C8: what the database holds is sound.  The database the migrations leave is
    well-formed and sound, and both survive every interleaving of requests,
    directory messages, background rounds and the command line.  Well-formed:
    primary keys and unique columns hold distinct values and foreign keys name
    existing rows.  Sound, which no constraint of the schema says and only the
    handlers see to: every account, whoever created or changed it, has a name,
    user name and email address that pass validation; every password is stored
    as a hash of a password of the required length; no invitation has been used
    more often than it allows; every consumed code was consumed before its
    deadline, which is not after its session's; and a second factor is active
    exactly when a step of it has been spent. *)
Theorem database_well_formed :
  (well_formed migrated_db /\ stored_ok username_regex email_regex migrated_db) /\
  forall activities sched w,
    let d' := db (pool_run sched (map perform activities, w)).2 in
    (well_formed (db w) -> well_formed d') /\
    (stored_ok username_regex email_regex (db w) -> stored_ok username_regex email_regex d').
Proof.
  split; [split; [apply migrated_well_formed|apply migrated_stored]|]. intros activities sched w d'.
  pose proof (system_writes activities sched w) as Hw.
  split; [by eapply well_formed_writes|]. exact (stored_ok_writes (RN := run_from w) _ _ Hw).
Qed.

(** C18: nothing rewrites history.  However the server's activities
    interleave, the audit log only grows at its end, no entry is changed or
    removed, and every account stays with its id, its state and its creation
    date, its session generation never going back. *)
Theorem history_is_permanent activities sched w :
  let d' := db (pool_run sched (map perform activities, w)).2 in
  (exists entries, audit_log d' = (audit_log (db w) ++ entries)%list) /\
  forall i (u : UserRow), users (db w) !! i = Some u ->
    exists u' : UserRow, users d' !! i = Some u' /\ u_id u' = u_id u /\ u_active u' = u_active u /\
      u_created_at u' = u_created_at u /\ u_token_version u <= u_token_version u'.
Proof.
  intros d'. destruct (permanent_writes (RN := run_from w) _ _ (system_writes activities sched w)) as [Ha Hu].
  split; [done|]. intros i u Hi. destruct (Hu i u Hi) as (u' & Hu' & K). by exists u'.
Qed.

(** C2: revocation is final.  Once a user's sessions are revoked, whatever
    the whole server does afterwards and however its activities interleave, no
    access token, refresh token or other credential issued to the user before
    the revocation is accepted again. *)
Theorem revocation_is_final uid w0 w1 activities sched :
  run (revoke_user_access_tokens uid) w0 = (Ok tt, w1) ->
  versions_nonneg (db w0) ->
  let w2 := (pool_run sched (map perform activities, w1)).2 in
  (forall t v, issued_by uid (db w0) v -> session_valid uid t v (db w2) = false) /\
  forall token key,
    (forall n c, jwt_decode (verifying_key key) token_validation n token = Some c ->
       uuid_parse (sub c) = Some uid /\ issued_by uid (db w0) (session_version c)) ->
    is_ok (run (verify_access_token token key) w2).1 = false /\
    is_ok (run (consume_refresh_token token key) w2).1 = false.
Proof.
  intros Hr Hnn w2. apply (revoked_for_good uid w0 w1 w2); [done|done|].
  eapply (versions_grow_writes (RN := run_from w1)); [|apply system_writes]. by eapply revoke_user_exists.
Qed.
End System.
