(* ===== verification/SystemSpec.v ===== *)
(** * The server refines the machines of what it issues

    The abstract machines of [Lifecycle] against everything the server does,
    and the one of [SessionSpec], which knows no forgetting, against everything
    but the sweeps. *)

From S2P Require Import Prelude RStr RateLimit Schema Sys External Users AuditLog Net Settings Token TokenFacts Totp LoginFlow Application Forward Http OidcCodes OidcToken AppPasswords Invitations Accounts Passkeys TotpHandlers ApplicationHandlers SettingsHandlers AuditExport ForwardAuth OAuth ClientAddress LdapSchema LdapFilter LdapHandler LdapServer Startup Cli Frame SessionSpec Writes WriteFacts WellFormed Lifecycle Routes Server System.
Local Open Scope Z_scope.
Local Open Scope string_scope.

(** One statement: it leaves the table alone, moves rows along the machine, or
    issues a token. *)
Ltac moves :=
  first [ by apply refines_same
        | apply refines_update; auto using advances_revoke, advances_retry, advances_clear
        | apply refines_insert; done ].

Section SystemSpec.
Context {E : Env} {HA : Hashing} {ED : Ed25519} {UL : UuidLib} {AE : Aead} {PH : PasswordHashing}
        {MAC : HmacSha1} {JL : JsonLib} {RX : RegexLib} {URL : UrlLib} {UP : UrlParts} {UE : UrlEncoding}
        {B64 : Base64Std} {HL : HttpLib} {AX : AxumParts} {RL : RandLib} {RJ : RecordsJson}
        {UA : UserAgentHeader} {WL : WebauthnLib}.
Context {JC : JwtCodec Claims} {JF : JwtCodec ForwardSession} {JH : JwtCodec Handoff}
        {JI : JwtCodec IdTokenClaims} {JO : JwtCodec OidcAccessClaims} {SJ : SerdeJson TokenPair}
        {JR : JsonText PasskeyRegistration} {JP : JsonText Passkey} {JA : JsonText DiscoverableAuthentication}.
Variable username_regex email_regex : string -> bool.
Variable non_ascii_uppercase : string -> string.
Variable non_ascii_alphanumeric : string -> bool.
Variable pkg_version : string.
Variable st : AppState.

Create HintDb refining.
Hint Resolve refines_verify_user_session refines_verify_access_token refines_revoke_all_user_tokens
  refines_generate_for_session refines_generate_token_pair refines_consume refines_rotate
  refines_browser : refining.
Ltac refining := walk ltac:(solve [auto with quiet refining nocore typeclass_instances]) ltac:(moves).

Lemma refines_insert_codes uid t codes : respects (on_db refines) (insert_codes non_ascii_uppercase uid t codes).
Proof. apply respects_insert_codes; [apply _|]. intros. moves. Qed.
Lemma refines_handle_bind req cfg ip : respects (on_db refines) (handle_bind req cfg ip).
Proof. refining. Qed.
Lemma refines_handle_search req cfg b : respects (on_db refines) (handle_search pkg_version req cfg b).
Proof. refining. Qed.
Hint Resolve refines_insert_codes refines_handle_bind refines_handle_search : refining.
Lemma refines_dispatch ip op c : respects (on_db refines) (dispatch pkg_version ip op c).
Proof. refining. Qed.
Lemma refines_call h ctx c :
  respects (on_db refines)
    (serve_call username_regex email_regex non_ascii_uppercase non_ascii_alphanumeric st h ctx c).
Proof. destruct c; cbn [serve_call]; refining. Qed.
Hint Resolve refines_dispatch refines_call : refining.
Abbreviation perform :=
  (perform username_regex email_regex non_ascii_uppercase non_ascii_alphanumeric pkg_version st).
Lemma refines_activity a : a <> SweepRound -> respects (on_db refines) (perform a).
Proof. destruct a; intros Ha; try done; cbn [System.perform]; refining. Qed.

(** The refresh tokens refine the abstract machine of [SessionSpec], as long as
    no sweep runs: then no token is forgotten. *)
Lemma tokens_refine_machine activities sched w :
  NoDup (token_ids (db w)) -> Forall (fun a => a <> SweepRound) activities ->
  let s := pool_run sched (map perform activities, w) in
  NoDup (token_ids (db s.2)) /\
  forall id, star token_step (token_state id (db w)) (token_state id (db s.2)).
Proof.
  intros Hn Ha s. destruct (pool_respects (on_db refines) (map perform activities, w) s) as [H _].
  - apply pool_run_star.
  - apply Forall_map. eapply Forall_impl; [exact Ha|]. intros a. apply refines_activity.
  - by apply H.
Qed.

(** C6: what the server issues lives as specified.  Whatever requests,
    directory messages, background rounds and commands run, however their
    statements interleave and fail: of the refresh tokens, authorization codes,
    invitations, recovery codes, second factors, handoffs and passkey challenges
    ([lifecycle]), keys stay unique, and every row there is at the end either was
    there at the start and has since only made the moves of its kind, or has been
    issued fresh on randomness drawn during the run.  So no row that was there at
    the start is ever altered otherwise, comes back after it was removed, or is
    replaced by an unused copy; and by its moves a row keeps its key and, once
    used up, never becomes usable again.  A refresh token is only removed once it
    has expired.  While no sweep runs none is removed at all: issued live, it is
    spent at most once, its hash, its user and its deadline never changing. *)
Theorem server_refines_machine activities sched w :
  let d := db w in
  let d' := db (pool_run sched (map perform activities, w)).2 in
  let kind := lifecycle (RN := run_from username_regex email_regex w) in
  (forall g, keys_distinct (kind g) d ->
     keys_distinct (kind g) d' /\
     forall k, lived (kind g) (row_at (kind g) k d) (row_at (kind g) k d')) /\
  (forall g r r', star (lc_moves (kind g)) r r' ->
     lc_key (kind g) r' = lc_key (kind g) r /\
     (lc_spent (kind g) r = true -> lc_spent (kind g) r' = true)) /\
  (Forall (fun a => a <> SweepRound) activities -> NoDup (token_ids d) ->
     forall id, star token_step (token_state id d) (token_state id d')).
Proof.
  intros d d' kind. split; [|split].
  - intros g. apply writes_lifecycle, system_writes.
  - intros g r r' Hs. split; [exact (moves_keep_key _ _ _ Hs)|exact (spent_for_good _ _ _ Hs)].
  - intros Ha Hn. by apply tokens_refine_machine.
Qed.
End SystemSpec.
