(* ===== verification/Access.v ===== *)
(** * Who may do what

    The extractor each handler begins with ([AuthUser], [AdminUser]) is its
    gate: nothing is read or written for a request that does not pass it, and
    only an administrator's request changes roles, applications, settings or
    keys. *)

From S2P Require Import Prelude RStr RateLimit Schema Sys External Users AuditLog Net Settings Token TokenFacts Totp LoginFlow LoginFacts Application Forward Http OidcCodes OidcToken AppPasswords Invitations InvitationFacts WellFormed Accounts Passkeys TotpHandlers ApplicationHandlers SettingsHandlers AuditExport ForwardAuth OAuth ClientAddress Frame Writes WriteFacts Routes Server.
Local Open Scope Z_scope.
Local Open Scope string_scope.

Inductive Gate : Type := Public | SignedIn | Administrator.

(** The extractors in the handlers' signatures. *)
Definition gate_of (e : Endpoint) : Gate :=
  match e with
  | EpGetMe | EpUpdateMe | EpChangeMyPassword
  | EpListPasskeys | EpRegisterStart | EpRegisterFinish | EpDeletePasskey
  | EpGetMyTotpStatus | EpDisableMyTotp | EpEnrollMyTotp | EpActivateMyTotp
  | EpListMyAppPasswords | EpCreateMyAppPassword | EpDeleteMyAppPassword => SignedIn
  | EpCreateUser | EpGetUsers | EpGetUser | EpUpdateUser | EpAdminChangeUserPassword
  | EpListRoles | EpCreateRole | EpDeleteRole | EpGetUserRoles | EpAssignRole | EpRemoveRole
  | EpListApplications | EpCreateApplication | EpGetApplication | EpUpdateApplication | EpDeleteApplication
  | EpGetAuditLog | EpGetAuditEventTypes | EpExportAuditLog
  | EpGetSettings | EpUpdateSettings | EpRegenerateLdapBindPassword | EpRestartService
  | EpListInvitations | EpCreateInvitation | EpDeleteInvitation
  | EpAdminDisableUserTotp | EpAdminListAppPasswords | EpAdminDeleteAppPassword => Administrator
  | _ => Public
  end.

(** The tables the administrators' endpoints alone change, and with them the
    assignments of roles. *)
Definition ruled (d : Db) := (roles d, applications d, settings d, keys d).
Definition governed (d : Db) := (ruled d, user_roles d).

(** What the gate asks for, and what a request that fails it gets. *)
Section Gates.
Context {E : Env} {HA : Hashing} {ED : Ed25519} {JC : JwtCodec Claims} {UL : UuidLib} {HL : HttpLib}.
Variable st : AppState.

Definition extract (g : Gate) (h : list (string * string)) : M (option AuthUser) :=
  match g with
  | Public => ret None
  | SignedIn => u <- auth_user st h ;; ret (Some u)
  | Administrator => u <- admin_user st h ;; ret (Some u)
  end.

(** A handler behind its extractor. *)
Definition gated (g : Gate) (h : list (string * string)) (p : prog Answer) : Prop :=
  forall w, match run (extract g h) w with
            | (Ok _, _) => True
            | (Err e, w') => run p w = (AsBuilt (error_response e), w')
            end.

End Gates.

Lemma endpoint_register_dec c : {input | c = Register input} + {endpoint_of c <> EpRegister}.
Proof. destruct c; try (right; done). left. by eexists. Qed.

(** ** Programs that only write at their end *)
Definition clean {A} (p : M A) : Prop := forall w e w', run p w = (Err e, w') -> db w' = db w.
Lemma clean_bind {A B} (p : prog A) (k : A -> M B) :
  respects (on_db unchanged) p -> (forall a, clean (k a)) -> clean (bind p k).
Proof.
  intros Hp Hk w e w' H. rewrite run_bind in H. apply Hk in H. rewrite H.
  exact (respects_run (on_db unchanged) p w Hp).
Qed.
Lemma clean_bindM {A B} (p : M A) (k : A -> M B) :
  respects (on_db unchanged) p -> (forall a, clean (k a)) -> clean (bindM p k).
Proof. intros Hp Hk. apply clean_bind; [done|]. intros [a|e]; [apply Hk|]. by intros w e' w' [= _ <-]. Qed.
Lemma clean_transaction {E : Env} {A B} (p : M A) (f : A -> B) : clean (a <- transaction p ;; ret (f a)).
Proof.
  intros w e w' H. rewrite run_bindM in H. destruct (run (transaction p) w) as [[a|e'] w1] eqn:Er; [done|].
  injection H as _ <-. by eapply run_transaction_err.
Qed.

Section Access.
Context {E : Env} {HA : Hashing} {ED : Ed25519} {UL : UuidLib} {AE : Aead} {PH : PasswordHashing}
        {MAC : HmacSha1} {JL : JsonLib} {RX : RegexLib} {URL : UrlLib} {UP : UrlParts} {UE : UrlEncoding}
        {B64 : Base64Std} {HL : HttpLib} {AX : AxumParts} {RL : RandLib} {RJ : RecordsJson}
        {UA : UserAgentHeader} {WL : WebauthnLib}.
Context {JC : JwtCodec Claims} {JF : JwtCodec ForwardSession} {JH : JwtCodec Handoff}
        {JI : JwtCodec IdTokenClaims} {JO : JwtCodec OidcAccessClaims} {SJ : SerdeJson TokenPair}
        {JR : JsonText PasskeyRegistration} {JP : JsonText Passkey} {JA : JsonText DiscoverableAuthentication}.
Variable username_regex email_regex : string -> bool.
Variable non_ascii_uppercase : string -> string.
Variable non_ascii_alphanumeric : string -> bool.
Variable st : AppState.
Abbreviation serve_call := (serve_call username_regex email_regex non_ascii_uppercase non_ascii_alphanumeric st).
Abbreviation serve := (serve username_regex email_regex non_ascii_uppercase non_ascii_alphanumeric st).

Ltac head_handler :=
  lazymatch goal with
  | |- context [run (bind ?p _) _] => let f := head_of p in unfold f
  end.
Ltac gate :=
  intros ?; cbn [serve_call extract]; unfold answer, answerL, answer_panic; head_handler;
  rewrite ?run_bind, ?run_bindE, ?run_convert, ?run_bindM;
  match goal with
  | |- context [run (admin_user ?s ?h) ?w] => destruct (run (admin_user s h) w) as [[?|?] ?]
  | |- context [run (auth_user ?s ?h) ?w] => destruct (run (auth_user s h) w) as [[?|?] ?]
  end; reflexivity || exact I.

Lemma serve_gated h ctx c : gated st (gate_of (endpoint_of c)) h (serve_call h ctx c).
Proof. destruct c; cbn [endpoint_of gate_of]; try (intros ?; exact I). all: gate. Qed.

(** Handlers that are not the administrators' leave the governed tables alone. *)
Ltac ungoverned := walk ltac:(solve [auto with quiet nocore typeclass_instances]) ltac:(reflexivity).

Lemma ungoverned_insert_codes id t codes :
  respects (on_db (same governed)) (insert_codes non_ascii_uppercase id t codes).
Proof. apply respects_insert_codes; [apply _|]. reflexivity. Qed.
Hint Resolve ungoverned_insert_codes : quiet.
Lemma serve_ungoverned h ctx c :
  gate_of (endpoint_of c) <> Administrator -> endpoint_of c <> EpRegister ->
  respects (on_db (same governed)) (serve_call h ctx c).
Proof.
  destruct c; cbn [endpoint_of gate_of]; intros Hg Hr; try (by destruct Hg); try (by destruct Hr);
    clear Hg Hr; cbn [serve_call]; ungoverned.
Qed.
Lemma create_account_unruled input :
  respects (on_db (same ruled)) (create_account username_regex email_regex input).
Proof. ungoverned. Qed.
Lemma finish_ungoverned ctx user i : respects (on_db (same governed)) (finish_registration st ctx user i).
Proof. ungoverned. Qed.

(** A registration that fails has written nothing; one that succeeds grants at
    most the plain role, to the new account. *)
Ltac reads := walk ltac:(solve [auto with quiet nocore typeclass_instances]) ltac:(fail).
Lemma create_account_clean input : clean (create_account username_regex email_regex input).
Proof.
  unfold create_account.
  repeat first [apply clean_transaction | apply clean_bindM; [solve [reads]|intros ?]
               | apply clean_bind; [solve [reads]|intros ?]].
Qed.

(** Role assignments given to accounts that did not exist, of the plain role. *)
Definition plain_grants (d : Db) (granted : list UserRoleRow) : Prop :=
  forall g, g ∈ granted -> user_exists (ur_user_id g) d = false /\
    exists r, r ∈ roles d /\ ro_id r = ur_role_id g /\ ro_name r = ROLE_USER.

Lemma create_account_grants input r w w' :
  run (create_account username_regex email_regex input) w = (Ok r, w') ->
  exists granted, user_roles (db w') = (user_roles (db w) ++ granted)%list /\ plain_grants (db w) granted.
Proof.
  intros H. destruct r as [user consumed].
  apply create_account_correct in H as (_ & _ & _ & _ & a & salt & hash & t & _ & _ & _ & Hreg).
  destruct Hreg as (_ & Hfresh & _ & _ & granted & Hr & Hg). eexists. split; [exact Hr|].
  intros g Hin. apply list_elem_of_fmap in Hin as (r & -> & Hin). cbn. destruct (Hg r Hin) as [Hd Hn]. split.
  - apply not_true_iff_false. intros Hx. apply existsb_exists in Hx as (u & Hu & Hb).
    apply list_elem_of_In in Hu. bool_hyp. by destruct (Hfresh u Hu).
  - by exists r.
Qed.

Lemma register_grants h ctx input a w w' :
  run (serve_call h ctx (Register input)) w = (a, w') ->
  ruled (db w') = ruled (db w) /\
  exists granted, user_roles (db w') = (user_roles (db w) ++ granted)%list /\ plain_grants (db w) granted.
Proof.
  intros H. cbn [serve_call] in H. apply run_bind_eq in H as (r & w1 & H & Hk).
  cbn [run] in Hk. injection Hk as _ <-. unfold register in H.
  apply run_bind_eq in H as (lim & w2 & Hl & H).
  assert (Hd2 : db w2 = db w).
  { unfold rl_check in Hl. cbn [run] in Hl. destruct (check _ _ _) as [x rl]. by injection Hl as _ <-. }
  rewrite <- Hd2. clear Hl Hd2. destruct lim as [u|retry].
  2: { cbn [run] in H. injection H as _ <-. split; [done|]. exists []. rewrite app_nil_r. split; [done|].
       intros g Hg. by apply not_elem_of_nil in Hg. }
  rewrite run_convert, run_bindM in H.
  pose proof (same_run ruled _ w2 _ _ (create_account_unruled input) (surjective_pairing _)) as Hruled.
  destruct (run (create_account _ _ input) w2) as [[[user consumed]|e] w3] eqn:Ec; cbn [fst snd] in *.
  - injection H as _ <-. apply create_account_grants in Ec as (granted & Hr & Hg).
    pose proof (same_run governed _ w3 _ _ (finish_ungoverned ctx user consumed) (surjective_pairing _)) as Hf.
    split; [exact (eq_trans (f_equal fst Hf) Hruled)|]. exists granted.
    split; [exact (eq_trans (f_equal snd Hf) Hr)|done].
  - injection H as _ <-. apply create_account_clean in Ec. rewrite Ec. split; [done|]. exists [].
    rewrite app_nil_r. split; [done|]. intros g Hg. by apply not_elem_of_nil in Hg.
Qed.

(** What it takes to pass a gate. *)
Definition admitted (g : Gate) (h : list (string * string)) (w : World) : Prop :=
  match g with
  | Public => True
  | SignedIn => exists u, authenticated st h w u
  | Administrator => exists u, authenticated st h w u /\
      ROLE_ADMIN ∈ map ro_name (roles_of (au_user_id u) (db w))
  end.

Lemma extract_admitted g h w :
  match run (extract st g h) w with
  | (Ok _, _) => admitted g h w
  | (Err _, w') => db w' = db w
  end.
Proof.
  destruct g; cbn [extract admitted]; [done| |]; rewrite run_bindM.
  - destruct (run (auth_user st h) w) as [[u|e] w'] eqn:Hr.
    + apply auth_user_ok in Hr as [_ Ha]. by exists u.
    + by apply auth_user_reads in Hr.
  - destruct (run (admin_user st h) w) as [[u|e] w'] eqn:Hr.
    + apply admin_user_ok in Hr as [_ Ha]. by exists u.
    + by apply admin_user_reads in Hr.
Qed.

(** C3: access control.  A request to a protected endpoint either passes its
    gate - it carries an access token valid at that moment, and for an
    administrator's endpoint the user holds the admin role in the database at
    that moment - or it is answered with an error and the database is as it
    was.  A request to any other endpoint changes no role, application, setting
    or key and takes nobody's role away: the assignments it adds give the plain
    role to an account that did not exist before. *)
Theorem access_control i a w w' :
  run (serve i) w = (a, w') ->
  let g := gate_of (endpoint_of (in_call i)) in
  (admitted g (in_headers i) w \/ (exists e, a = AsBuilt (error_response e)) /\ db w' = db w) /\
  (g <> Administrator ->
   roles (db w') = roles (db w) /\ applications (db w') = applications (db w) /\
   settings (db w') = settings (db w) /\ keys (db w') = keys (db w) /\
   exists granted, user_roles (db w') = (user_roles (db w) ++ granted)%list /\
     forall x, x ∈ granted -> user_exists (ur_user_id x) (db w) = false /\
       exists r, r ∈ roles (db w) /\ ro_id r = ur_role_id x /\ ro_name r = ROLE_USER).
Proof.
  destruct i as [h peer c]. intros Hr g. cbn [in_call in_headers] in *. split.
  - pose proof (extract_admitted g h w) as Ha.
    pose proof (serve_gated h (audit_context h peer) c w) as Hg.
    destruct (run (extract st g h) w) as [[u|e] w1] eqn:Ex; [by left|].
    right. subst g. rewrite Ex in Hg. change (run (serve_call h (audit_context h peer) c) w = (a, w')) in Hr.
    rewrite Hr in Hg. injection Hg as -> ->. split; [by exists e|done].
  - intros Hn. change (run (serve_call h (audit_context h peer) c) w = (a, w')) in Hr.
    assert (H : ruled (db w') = ruled (db w) /\ exists granted,
              user_roles (db w') = (user_roles (db w) ++ granted)%list /\ plain_grants (db w) granted).
    { destruct (endpoint_register_dec c) as [[input ->]|Hreg]; [by eapply register_grants|].
      pose proof (same_run governed _ w _ _ (serve_ungoverned h _ c Hn Hreg) Hr) as Hf.
      split; [exact (f_equal fst Hf)|]. exists []. rewrite app_nil_r. split; [exact (f_equal snd Hf)|].
      intros x Hx. by apply not_elem_of_nil in Hx. }
    destruct H as [Hru Hgr]. unfold ruled in Hru. split_and!; [..|exact Hgr].
    + exact (f_equal (fun x => x.1.1.1) Hru).
    + exact (f_equal (fun x => x.1.1.2) Hru).
    + exact (f_equal (fun x => x.1.2) Hru).
    + exact (f_equal snd Hru).
Qed.
End Access.
