(* ===== verification/Respond.v ===== *)
(** * From a request to its answer ([main.rs])

    The router with the layer around it: which handler or page a request
    reaches, the extractors of its path, query and body, the pages of the
    embedded front end, and the answer on the wire. *)

From S2P Require Import Prelude RStr RateLimit Schema Sys External Users AuditLog Net Settings Token TokenFacts Totp LoginFlow Application Forward Http OidcCodes OidcToken AppPasswords Invitations Accounts Passkeys TotpHandlers ApplicationHandlers SettingsHandlers AuditExport ForwardAuth OAuth ClientAddress BrowserSecurity Frame Writes WriteFacts Routes Server Access.
Local Open Scope Z_scope.
Local Open Scope string_scope.

(** ** [axum]: a request with its query and body, the extractors, the answers
    of the router itself, and the rendering of a JSON answer *)
Record Raw := {
  raw_request : Request; raw_query : option string; raw_body : string; raw_peer : option IpAddr
}.
Class AxumRouter := {
  decode : Raw -> Endpoint -> result Response Call;
  asset_path : string -> result Response string;
  not_found : Response;
  method_not_allowed : string -> Response;
  rendered : Z -> Payload -> Response
}.
(** The extractors of a handler make a call of that handler. *)
Class AxumRouterLaws `{AxumRouter} := {
  decode_endpoint raw e c : decode raw e = Ok c -> endpoint_of c = e
}.

(** ** The embedded front end ([static_files.rs]) *)

(** The files [rust_embed] builds in, and [mime_guess]: the guess is
    [application/octet-stream] where it has none. *)
Class Embedded := { asset : string -> option string; mime_type : string -> string }.

Section StaticFiles.
Context {HL : HttpLib} {EM : Embedded}.

Definition serve_asset (path : string) : Response :=
  let full_path := "assets/" ++ path in
  match asset full_path with
  | Some content =>
      response 200
        [("content-type", unwrap_or (from_str (mime_type path)) "application/octet-stream");
         ("cache-control", "public, max-age=31536000, immutable")] (Text content)
  | None => response 404 [] (Text "not found")
  end.

Definition serve_spa : Response :=
  match asset "index.html" with
  | Some content =>
      response 200 [("content-type", "text/html; charset=utf-8"); ("cache-control", "no-cache")] (Text content)
  | None => response 503 [] (Text "UI not built. Run `npm run build` in ui/.")
  end.
End StaticFiles.

(** ** Pages *)
Inductive Page : Type := AssetFile (path : string) | Spa.

Definition spa_paths : list string := ["/"; "/login"; "/admin"; "/account"; "/credentials"; "/register"].
Definition below (prefix path : string) : option string :=
  opt_filter (fun rest => negb (is_empty rest)) (strip_prefix prefix path).
Definition page_at (path : string) : option Page :=
  match below "/assets/" path with
  | Some rest => Some (AssetFile rest)
  | None =>
      if existsb (beq path) spa_paths || is_some (below "/admin/" path) then Some Spa else None
  end.

Section Respond.
Context {E : Env} {HA : Hashing} {ED : Ed25519} {UL : UuidLib} {AE : Aead} {PH : PasswordHashing}
        {MAC : HmacSha1} {JL : JsonLib} {RX : RegexLib} {URL : UrlLib} {UP : UrlParts} {UE : UrlEncoding}
        {B64 : Base64Std} {HL : HttpLib} {AX : AxumParts} {RL : RandLib} {RJ : RecordsJson}
        {UA : UserAgentHeader} {WL : WebauthnLib} {EM : Embedded} {AR : AxumRouter}.
Context {JC : JwtCodec Claims} {JF : JwtCodec ForwardSession} {JH : JwtCodec Handoff}
        {JI : JwtCodec IdTokenClaims} {JO : JwtCodec OidcAccessClaims} {SJ : SerdeJson TokenPair}
        {JR : JsonText PasskeyRegistration} {JP : JsonText Passkey} {JA : JsonText DiscoverableAuthentication}.
Variable username_regex email_regex : string -> bool.
Variable non_ascii_uppercase : string -> string.
Variable non_ascii_alphanumeric : string -> bool.
Variable st : AppState.
Variable config : BrowserSecurity.
Abbreviation serve_call := (serve_call username_regex email_regex non_ascii_uppercase non_ascii_alphanumeric st).
Abbreviation serve := (serve username_regex email_regex non_ascii_uppercase non_ascii_alphanumeric st).

Definition wire (a : Answer) : option Response :=
  match a with
  | AsJson status payload => Some (rendered status payload)
  | AsBuilt r => Some r
  | Panicked => None
  end.

(** A handler with its extractors.  In every signature the gate comes before
    the path, the query and the body. *)
Definition handle (raw : Raw) (e : Endpoint) : prog (option Response) :=
  let h := rq_headers (raw_request raw) in
  match decode raw e with
  | Ok c => a <~ serve {| in_headers := h; in_peer := raw_peer raw; in_call := c |} ;; Ret (wire a)
  | Err rejection =>
      u <~ extract st (gate_of e) h ;;
      Ret (Some (match u with Ok _ => rejection | Err e => error_response e end))
  end.

Definition show_page (p : Page) : Response :=
  match p with
  | AssetFile rest => match asset_path rest with Ok path => serve_asset path | Err rejection => rejection end
  | Spa => serve_spa
  end.

Definition router (raw : Raw) (request : Request) : prog (option Response) :=
  match find_route (rq_method request) (rq_path request) with
  | Handler e => handle raw e
  | MethodNotAllowed => Ret (Some (method_not_allowed (rq_path request)))
  | NoRoute =>
      match page_at (rq_path request) with
      | Some p =>
          Ret (Some (if method_matches GET (rq_method request) then show_page p
                     else method_not_allowed (rq_path request)))
      | None => Ret (Some not_found)
      end
  end.

(** The router inside its layer. *)
Definition respond (raw : Raw) : prog (option Response) :=
  protect_browser_requests config (router raw) (raw_request raw).

(** ** What a request from another site can change *)

(** Everything but session generations and revocations, refresh tokens,
    authorization codes, handoffs and the log. *)
Definition guarded (d : Db) :=
  (map u_row (users d), authenticators d, roles d, user_roles d, applications d, settings d,
   invitations d, app_passwords d, user_totps d, recovery_codes d, keys d, passkeys d,
   passkey_challenges d).

Lemma map_row_bump p (rows : list UserRow) : map u_row (update p bump_version rows) = map u_row rows.
Proof. unfold update. rewrite map_map. apply map_ext. intros u. by destruct (p u). Qed.

Ltac leaf := unfold same, guarded; cbn; rewrite ?map_row_bump; reflexivity.
Ltac walk_guarded := walk ltac:(solve [auto with quiet nocore typeclass_instances]) ltac:(leaf).

Definition reading (e : Endpoint) : bool :=
  match rt_method (route_of e), e with GET, _ => true | _, EpEndSessionPost => true | _, _ => false end.
Lemma reading_guarded h ctx c :
  reading (endpoint_of c) = true -> respects (on_db (same guarded)) (serve_call h ctx c).
Proof. destruct c; intros Hr; try discriminate Hr; clear Hr; cbn [serve_call]; walk_guarded. Qed.

Lemma extract_reads g h : respects (on_db unchanged) (extract st g h).
Proof. destruct g; cbn [extract]; walk ltac:(solve [auto with quiet nocore typeclass_instances]) ltac:(fail). Qed.

Lemma handle_guarded `{!AxumRouterLaws} raw e :
  reading e = true -> respects (on_db (same guarded)) (handle raw e).
Proof.
  intros He. unfold handle. destruct (decode raw e) as [c|rejection] eqn:Hd.
  - apply decode_endpoint in Hd as <-. apply respects_bind; [by apply reading_guarded|done].
  - apply respects_bind; [|done]. eapply respects_mono; [|apply extract_reads].
    unfold on_db, unchanged, same. by intros w w' ->.
Qed.

(** A request that passes the filter from another site meets a handler that
    only reads what is guarded. *)
Lemma accepted_reading m path e :
  accepts m path e = true -> m = GET \/ m = HEAD \/ m = OPTIONS -> reading e = true.
Proof.
  unfold accepts, reading. intros Ha Hm. bool_hyp. unfold method_matches in *.
  destruct Hm as [-> | [-> | ->]]; destruct e; try reflexivity; discriminate.
Qed.
Lemma accepted_logout path e : path = "/oauth/end_session" -> accepts POST path e = true -> reading e = true.
Proof.
  intros -> Ha. by rewrite (accepts_unique POST "/oauth/end_session" e EpEndSessionPost Ha eq_refl).
Qed.

Lemma router_guarded `{!AxumRouterLaws} raw request :
  is_safe request = true \/ oidc_logout request = true ->
  respects (on_db (same guarded)) (router raw request).
Proof.
  intros Hp. unfold router.
  destruct (find_route _ _) as [e| |] eqn:Hf; [|done|by destruct (page_at _)].
  apply handle_guarded. unfold find_route in Hf.
  destruct (List.find _ _) as [e'|] eqn:Hx; [|by destruct (existsb _ _)]. injection Hf as ->.
  apply List.find_some in Hx as [_ Ha]. destruct Hp as [Hs|Hl].
  - apply (accepted_reading _ _ _ Ha). unfold is_safe in Hs. destruct (rq_method request); naive_solver.
  - unfold oidc_logout in Hl. bool_hyp.
    match goal with Hm : rq_method _ = _ |- _ => rewrite Hm in Ha end. by eapply accepted_logout.
Qed.

Lemma forged_guarded `{!AxumRouterLaws} raw r w w' :
  cross_origin config (raw_request raw) -> run (respond raw) w = (r, w') ->
  guarded (db w') = guarded (db w).
Proof.
  intros Hc Hr. unfold respond, protect_browser_requests in Hr.
  rewrite (cross_origin_refused _ _ Hc) in Hr. cbn [negb] in Hr. rewrite andb_true_r in Hr.
  destruct (negb (is_safe _) && negb (oidc_logout _))%bool eqn:Hb; [by injection Hr as _ <-|].
  revert Hr. apply same_run, respects_bind; [|done]. apply router_guarded.
  apply andb_false_iff in Hb as [Hb|Hb]; apply negb_false_iff in Hb; auto.
Qed.

(** C4: a request that a browser sends on behalf of another site, whatever
    its path and body and whosever cookies it carries.  Sent with a method that
    is not safe, and not as the logout of a relying party, it is refused and
    nothing at all has changed.  Any other changes no account, password, role,
    assignment, application, setting, invitation, app password, second factor,
    key, passkey or passkey challenge: what it can touch are session
    generations and revocations, refresh tokens, authorization codes, handoffs
    and the log.  And every answer, to whomever, forbids browsers to sniff its
    type, to frame it, to pass its address on and, below [/api/], [/oauth/] and
    [/.authere/], to store it, but for that refusal, which comes only of an unsafe request whose
    origin is not allowed and that changed nothing. *)
Theorem forged_request_harmless `{!AxumRouterLaws} raw r w w' :
  run (respond raw) w = (r, w') ->
  let request := raw_request raw in
  (cross_origin config request ->
   guarded (db w') = guarded (db w) /\
   (state_changing request -> ~ logout_request request -> r = Some untrusted /\ w' = w)) /\
  forall answer, r = Some answer ->
    hardened request answer \/
    (answer = untrusted /\ w' = w /\ state_changing request /\ ~ logout_request request /\
     origin_allowed config (rq_headers request) = false).
Proof.
  intros Hr. pose proof (browser_filter_correct config (router raw) _ _ _ _ Hr) as [Hf Ha].
  split; [|exact Ha]. intros Hc. split; [by eapply forged_guarded|].
  intros Hs Hl. by apply Hf.
Qed.

(** ** Pages and handlers do not meet *)

(** The first segment of a path. *)
Definition top (path : string) : string := nth 1 (split_byte "/" path) "".

Lemma matched_top pattern path :
  path_matches pattern path = true -> is_param (top pattern) = false ->
  (1 < length (split_byte "/" pattern))%nat -> top path = top pattern.
Proof.
  unfold path_matches, top. destruct (split_byte "/" pattern) as [|p0 [|p1 ps]]; simpl; [lia|lia|].
  destruct (split_byte "/" path) as [|s0 [|s1 ss]]; simpl; [done| |]; intros Hm Hp _; bool_hyp; [done|].
  unfold segment_matches in *. rewrite Hp in *. by bool_hyp.
Qed.
Lemma accepted_top m path e :
  accepts m path e = true -> top path ∈ ["api"; ".authere"; ".well-known"; "oauth"].
Proof.
  unfold accepts. intros Ha. apply andb_true_iff in Ha as [_ Ha]. apply matched_top in Ha as ->.
  all: destruct e; vm_compute; try reflexivity; try lia;
    refine (bool_decide_eq_true_1 (_ ∈ ["api"; ".authere"; ".well-known"; "oauth"]) _); reflexivity.
Qed.
Lemma find_none_all {A} (f : A -> bool) l : (forall a, f a = false) -> List.find f l = None.
Proof. intros H. induction l as [|a l IH]; [done|]. simpl. by rewrite H. Qed.
Lemma page_top path p :
  page_at path = Some p -> top path ∈ [""; "login"; "admin"; "account"; "credentials"; "register"; "assets"].
Proof.
  assert (Hbelow : forall prefix rest, below prefix path = Some rest -> path = prefix +:+ rest).
  { intros prefix rest H. apply opt_filter_Some in H as [H _]. by apply strip_prefix_spec. }
  assert (Htop : forall s rest, path = "/" +:+ (s +:+ String "/" rest) -> contains_byte "/" s = false -> top path = s).
  { intros s rest -> Hs. unfold top. cbn [split_byte String.append]. rewrite split_byte_app by done. done. }
  unfold page_at. destruct (below "/assets/" path) as [rest|] eqn:Ha.
  { intros _. apply Hbelow in Ha. rewrite (Htop "assets" rest Ha eq_refl). set_solver. }
  destruct (below "/admin/" path) as [rest|] eqn:Hd.
  { intros _. apply Hbelow in Hd. rewrite (Htop "admin" rest Hd eq_refl). set_solver. }
  rewrite orb_false_r. destruct (existsb _ _) eqn:Hx; [|done]. intros _.
  apply existsb_exists in Hx as (q & Hq & Hb). bool_hyp. subst q. clear Ha Hd Hbelow Htop.
  repeat (destruct Hq as [<-|Hq]; [vm_compute; set_solver|]). done.
Qed.

(** No path of a page or an embedded file is a handler's: the order in which
    they are registered is of no consequence, and a page is answered without a
    step of any handler. *)
Lemma pages_apart m path p : page_at path = Some p -> find_route m path = NoRoute.
Proof.
  intros Hp. apply page_top in Hp.
  assert (Hn : forall m' e, accepts m' path e = false).
  { intros m' e. destruct (accepts m' path e) eqn:Ha; [|done]. exfalso. apply accepted_top in Ha.
    revert Ha Hp. generalize (top path). intros t Ht Hp.
    repeat (apply elem_of_cons in Ht as [->|Ht]; [revert Hp; vm_compute; set_solver|]). set_solver. }
  unfold find_route. rewrite (find_none_all _ _ (Hn m)). destruct (existsb _ _) eqn:Hx; [|done].
  apply existsb_exists in Hx as (e & _ & He). specialize (Hn (rt_method (route_of e)) e).
  unfold accepts in Hn. rewrite He, andb_true_r in Hn. unfold method_matches in Hn. by rewrite beq_refl in Hn.
Qed.
Lemma page_answered raw request p :
  page_at (rq_path request) = Some p -> method_matches GET (rq_method request) = true ->
  router raw request = Ret (Some (show_page p)).
Proof. intros Hp Hm. unfold router. by rewrite (pages_apart _ _ p Hp), Hp, Hm. Qed.
End Respond.
