(* ===== verification/Isolation.v ===== *)
(** * What belongs to other users

    A request to a signed-in user's own endpoint changes that user's rows and
    nobody else's, but for passkey challenges that have expired or that the
    request itself names, and for the entries it adds to the log. *)

From S2P Require Import Prelude RStr RateLimit Schema Sys External Users AuditLog Net Settings Token TokenFacts Totp LoginFlow LoginFacts Application Forward Http OidcCodes OidcToken AppPasswords Invitations Accounts Passkeys TotpHandlers ApplicationHandlers SettingsHandlers AuditExport ForwardAuth OAuth ClientAddress Frame Writes WriteFacts Routes Server System Access.
Local Open Scope Z_scope.
Local Open Scope string_scope.

(** ** The rows of others *)
Section Foreign.
Context {A O : Type} `{EqDecision O} (owner : A -> O) (uid : O).

Definition foreign (rows : list A) : list A := select (fun r => negb (beq (owner r) uid)) rows.

Lemma foreign_app row rows : owner row = uid -> foreign (rows ++ [row])%list = foreign rows.
Proof.
  intros H. unfold foreign, select. rewrite List.filter_app. cbn.
  by rewrite H, beq_refl, app_nil_r.
Qed.
Lemma foreign_update p f rows :
  (forall r, p r = true -> owner r = uid) -> (forall r, owner (f r) = owner r) ->
  foreign (update p f rows) = foreign rows.
Proof.
  intros Hp Hf. induction rows as [|r rows IH]; [done|]. unfold foreign, select, update in *. cbn [map List.filter].
  rewrite IH. destruct (p r) eqn:Er; [|done]. by rewrite Hf, (Hp r Er), beq_refl.
Qed.
Lemma foreign_delete p rows :
  (forall r, p r = true -> owner r = uid) -> foreign (delete p rows) = foreign rows.
Proof.
  intros Hp. induction rows as [|r rows IH]; [done|]. unfold foreign, select, delete in *. cbn [List.filter].
  destruct (p r) eqn:Er; cbn [negb List.filter]; rewrite IH; [by rewrite (Hp r Er), beq_refl|done].
Qed.
End Foreign.

(** Everything of every other user; the log and the challenges apart, which
    [spared] and [permanent] are about. *)
Definition others (uid : Uuid) (d : Db) :=
  (foreign (fun u : UserRow => u_id u) uid (users d), foreign au_owner_id uid (authenticators d),
   foreign rt_user_id uid (refresh_tokens d), foreign ar_user_id uid (access_revocations d),
   foreign apw_user_id uid (app_passwords d), foreign ut_user_id uid (user_totps d),
   foreign rc_user_id uid (recovery_codes d), foreign pk_user_id uid (passkeys d),
   (roles d, user_roles d, applications d, settings d, invitations d, keys d, auth_codes d, handoffs d)).

Definition others_challenges (uid : Uuid) (d : Db) : list ChallengeRow :=
  foreign pc_user_id (Some uid) (passkey_challenges d).
Definition all_others (uid : Uuid) (d : Db) := (others uid d, others_challenges uid d).

(** Statements that name their rows by their owner keep the rows of others. *)
Ltac owned := intros; cbn beta in *; bool_hyp; subst; solve [done | by destruct_and?].
Ltac own_leaf :=
  unfold same, all_others, others, others_challenges, append; cbn -[foreign update delete];
  repeat match goal with
  | |- context [if ?b then _ else _] => destruct b
  | |- context [foreign ?o ?u (_ ++ [?r])%list] => rewrite (foreign_app o u r) by owned
  | |- context [foreign ?o ?u (update ?p ?f _)] => rewrite (foreign_update o u p f) by owned
  | |- context [foreign ?o ?u (delete ?p _)] => rewrite (foreign_delete o u p) by owned
  end; reflexivity.
Ltac own_rows := walk ltac:(solve [auto with quiet own nocore typeclass_instances]) ltac:(own_leaf).

Ltac walk_reads := walk ltac:(solve [auto with quiet nocore typeclass_instances]) ltac:(fail).

Create HintDb own.
Lemma own_insert_codes up uid t codes {E : Env} {HA : Hashing} : respects (on_db (same (all_others uid))) (insert_codes up uid t codes).
Proof. apply respects_insert_codes; [apply _|]. intros. own_leaf. Qed.
#[export] Hint Resolve own_insert_codes : own.
(** ** Challenges

    From [w] to [w'] no challenge of another user, and none of a login, is added
    or altered; one that is gone had expired at a moment in between, or the
    request itself names it in its cookie. *)
Record spared `{E : Env} `{HttpLib} (h : list (string * string)) (uid : Uuid) (w w' : World) : Prop := {
  sp_time : (tick w <= tick w')%nat;
  sp_added : others_challenges uid (db w') `sublist_of` others_challenges uid (db w);
  sp_gone r : r ∈ passkey_challenges (db w) -> pc_user_id r <> Some uid ->
    r ∈ passkey_challenges (db w') \/
    cookie_id h (pc_kind r) = Some (pc_id r) \/
    exists t, during w w' t /\ pc_expires_at r <= t
}.

Lemma elem_of_foreign {A O} `{EqDecision O} (owner : A -> O) uid r rows :
  r ∈ foreign owner uid rows <-> r ∈ rows /\ owner r <> uid.
Proof.
  unfold foreign, select. rewrite !list_elem_of_In, List.filter_In, negb_true_iff, beq_neq. done.
Qed.
Lemma foreign_delete_sublist {A O} `{EqDecision O} (owner : A -> O) uid p rows :
  foreign owner uid (delete p rows) `sublist_of` foreign owner uid rows.
Proof.
  unfold foreign, select, delete. induction rows as [|r rows IH]; [done|]. cbn [List.filter].
  destruct (p r); cbn [negb List.filter]; destruct (negb _); first [exact IH | by constructor].
Qed.

Section Spared.
Context {E : Env} {HL : HttpLib} (h : list (string * string)) (uid : Uuid).

#[export] Instance spared_preorder : PreOrder (spared h uid).
Proof.
  split.
  - intros w. split; [done|done|]. intros r Hr _. by left.
  - intros w1 w2 w3 [T1 A1 G1] [T2 A2 G2]. split; [lia|by etrans|]. intros r Hr Ho.
    destruct (G1 r Hr Ho) as [Hr2|[Hc|(t & Ht & He)]]; [|by right; left|].
    + destruct (G2 r Hr2 Ho) as [?|[?|(t & Ht & He)]]; [by left|by right; left|].
      right; right. exists t. split; [|done]. revert Ht. apply during_mono; lia.
    + right; right. exists t. split; [|done]. revert Ht. apply during_mono; lia.
Qed.

Lemma spared_same w w' :
  (tick w <= tick w')%nat -> others_challenges uid (db w') = others_challenges uid (db w) -> spared h uid w w'.
Proof.
  intros Ht Hd. split; [done|by rewrite Hd|]. intros r Hr Ho. left.
  assert (Hf : r ∈ others_challenges uid (db w)) by (by apply elem_of_foreign).
  rewrite <- Hd in Hf. by apply elem_of_foreign in Hf as [? _].
Qed.
Lemma spared_delete p w w' :
  (tick w <= tick w')%nat -> passkey_challenges (db w') = delete p (passkey_challenges (db w)) ->
  (forall r, p r = true -> cookie_id h (pc_kind r) = Some (pc_id r) \/
                           exists t, during w w' t /\ pc_expires_at r <= t) ->
  spared h uid w w'.
Proof.
  intros Ht Hd Hp. split; [done|unfold others_challenges; rewrite Hd; apply foreign_delete_sublist|].
  intros r Hr _. destruct (p r) eqn:Er; [right; auto|]. left. rewrite Hd.
  apply list_elem_of_In, List.filter_In. split; [by apply list_elem_of_In|]. by rewrite Er.
Qed.

(** Programs every run of which spares them. *)
Definition sparing {A} (p : prog A) : Prop := forall w, spared h uid w (run p w).2.

Lemma sparing_bind {A B} (p : prog A) (k : A -> prog B) :
  sparing p -> (forall w a w1, run p w = (a, w1) -> sparing (k a)) -> sparing (bind p k).
Proof.
  intros Hp Hk w. rewrite run_bind. specialize (Hp w). destruct (run p w) as [a w1] eqn:Hr. cbn [fst snd] in *.
  etrans; [exact Hp|]. by eapply Hk.
Qed.
Lemma sparing_bindM {A B} (p : M A) (k : A -> M B) :
  sparing p -> (forall w a w1, run p w = (Ok a, w1) -> sparing (k a)) -> sparing (bindM p k).
Proof. intros Hp Hk. apply sparing_bind; [done|]. intros w [a|e] w1 Hr; [by eapply Hk|intros w2; reflexivity]. Qed.
Lemma sparing_quiet {A} (p : prog A) :
  (forall n, respects_from n (on_db (same (others_challenges uid))) p) -> sparing p.
Proof.
  intros H w. destruct (respects_from_run (tick w) _ p w (le_n _) (H _)) as [Hd Ht]. by apply spared_same.
Qed.
End Spared.

Section Isolation.
Context {E : Env} {HA : Hashing} {ED : Ed25519} {UL : UuidLib} {AE : Aead} {PH : PasswordHashing}
        {MAC : HmacSha1} {JL : JsonLib} {RX : RegexLib} {URL : UrlLib} {UP : UrlParts} {UE : UrlEncoding}
        {B64 : Base64Std} {HL : HttpLib} {AX : AxumParts} {RL : RandLib} {RJ : RecordsJson}
        {UA : UserAgentHeader} {WL : WebauthnLib}.
Context {JC : JwtCodec Claims} {JF : JwtCodec ForwardSession} {JH : JwtCodec Handoff}
        {JI : JwtCodec IdTokenClaims} {JO : JwtCodec OidcAccessClaims} {SJ : SerdeJson TokenPair}
        {JR : JsonText PasskeyRegistration} {JP : JsonText Passkey} {JA : JsonText DiscoverableAuthentication}.
Variable username_regex email_regex : string -> bool.
Variable non_ascii_uppercase : string -> string.
Variable non_ascii_alphanumeric : string -> bool.
Variable st : AppState.
Abbreviation serve_call := (serve_call username_regex email_regex non_ascii_uppercase non_ascii_alphanumeric st).
Abbreviation serve := (serve username_regex email_regex non_ascii_uppercase non_ascii_alphanumeric st).


(** *** The two halves of a passkey's registration *)
Section Registration.
Variable ctx : AuditContext.
Variable h : list (string * string).
Variable auth : AuthUser.
Local Abbreviation sparing := (sparing h (au_user_id auth)).

(** A deletion by a clock reading of the moment before. *)
Lemma sparing_sweep {A B} (p : Z -> ChallengeRow -> bool) (f : Z -> Db -> A * Db) (k : Z -> A -> M B) :
  (forall t d, (f t d).2 = with_passkey_challenges (delete (p t)) d) ->
  (forall t r, p t r = true -> cookie_id h (pc_kind r) = Some (pc_id r) \/ pc_expires_at r <= t) ->
  (forall t a, sparing (k t a)) -> sparing (bind now (fun t => bindM (exec (f t)) (k t))).
Proof.
  intros Hf Hp Hk w. rewrite run_bind. cbn [now run fst snd]. rewrite run_bindM.
  set (t := clock (tick w)). unfold exec, stmt. cbn [run]. destruct (fault (tick (bump w))).
  - apply spared_same; [cbn; lia|done].
  - specialize (Hf t (db (bump w))). destruct (f t _) as [a d]. cbn [fst snd] in *. subst d.
    etrans; [|apply Hk]. apply (spared_delete _ _ (p t)); [cbn; lia|done|].
    intros r Hr. destruct (Hp t r Hr) as [Hc|He]; [by left|right]. exists t. split; [|done].
    exists (tick w). split; [cbn; lia|done].
Qed.

Lemma take_challenge_sparing kind : sparing (take_challenge h kind).
Proof.
  unfold take_challenge. apply sparing_bindM; [intros w; destruct (cookie_id h kind); reflexivity|].
  intros w0 id w1 Hid. apply run_require_ok in Hid as [Hid _].
  apply (sparing_sweep (live_challenge id kind)); [done| |].
  - intros t r Hr. left. unfold live_challenge, challenge_row in Hr. bool_hyp. by subst.
  - intros t row w. by destruct row.
Qed.
Lemma save_challenge_sparing kind challenge options :
  ch_user_id challenge = Some (au_user_id auth) -> sparing (save_challenge h kind challenge options).
Proof.
  intros Hu. unfold save_challenge.
  apply (sparing_sweep (stale_challenge (cookie_id h kind) kind)); [done| |].
  - intros t r Hr. unfold stale_challenge in Hr. apply orb_true_iff in Hr as [Hr|Hr]; [right; by bool_hyp|left].
    destruct (cookie_id h kind) as [id|] eqn:Hc; [|done]. unfold challenge_row in Hr. cbn in Hr. bool_hyp.
    by subst.
  - intros t _. apply sparing_quiet. intros n. own_rows.
Qed.

Ltac quietly := apply sparing_quiet; intros n; own_rows.

Lemma register_start_sparing name : sparing (register_start_limited st h auth name).
Proof.
  unfold register_start_limited, User_get. cbv zeta. do 3 (apply sparing_bindM; [quietly|intros _ ? _ _]).
  apply sparing_bindM; [quietly|]. intros w0 found w1 Hf. apply run_query_ok in Hf as (_ & Hf & _).
  apply sparing_bindM; [quietly|]. intros w2 user w3 Hq. apply run_require_ok in Hq as [Hq _].
  assert (Hid : u_id user = au_user_id auth).
  { rewrite Hf in Hq. destruct (fetch _ _) as [u|] eqn:Ef; [|done]. injection Hq as <-.
    apply fetch_Some in Ef as [_ Hp]. by bool_hyp. }
  clear Hf Hq. do 4 (apply sparing_bindM; [quietly|intros _ ? _ _]).
  apply sparing_bind; [quietly|]. intros _ seed _ _.
  apply sparing_bindM; [quietly|]. intros _ [options registration] _ _.
  apply sparing_bindM; [quietly|]. intros _ state _ _.
  apply save_challenge_sparing. cbn. by rewrite Hid.
Qed.
Lemma register_finish_sparing input : sparing (register_finish_limited st ctx h auth input).
Proof.
  unfold register_finish_limited. apply sparing_bindM; [quietly|intros _ ? _ _].
  apply sparing_bindM; [apply take_challenge_sparing|intros _ challenge _ _]. quietly.
Qed.
End Registration.

(** ** What follows the authentication in each of a user's own endpoints *)
Definition isolated (h : list (string * string)) (uid : Uuid) (w w' : World) : Prop :=
  others uid (db w') = others uid (db w) /\ spared h uid w w'.

Lemma isolated_same h uid w w' :
  (tick w <= tick w')%nat -> all_others uid (db w') = all_others uid (db w) -> isolated h uid w w'.
Proof. intros Ht Ha. split; [exact (f_equal fst Ha)|]. apply spared_same; [done|exact (f_equal snd Ha)]. Qed.

Lemma all_others_after uid w w1 {A} (p : prog A) r w' :
  db w1 = db w -> respects (on_db (same (all_others uid))) p -> run p w1 = (r, w') ->
  all_others uid (db w') = all_others uid (db w).
Proof. intros <- Hp Hr. exact (same_run _ _ _ _ _ Hp Hr). Qed.

(** A registration, its first half or its second. *)
Lemma isolated_sparing h uid w w1 {A} (p : prog A) r w' :
  db w1 = db w -> (tick w <= tick w1)%nat -> respects (on_db (same (others uid))) p ->
  sparing h uid p -> run p w1 = (r, w') -> isolated h uid w w'.
Proof.
  intros Hdb Ht Ho Hs Hr. split; [rewrite <- Hdb; exact (same_run _ _ _ _ _ Ho Hr)|].
  specialize (Hs w1). rewrite Hr in Hs. cbn [snd] in Hs. etrans; [|exact Hs].
  apply spared_same; [done|by rewrite Hdb].
Qed.
Lemma rate_limited_sparing h ctx uid {A} (p : M A) :
  sparing h uid p -> sparing h uid (bindE (rate_limit ctx) (fun _ => convert App p)).
Proof.
  intros Hp. apply sparing_bind; [apply sparing_quiet; intros n; own_rows|].
  intros _ [u|e] _ _; [|intros w; reflexivity].
  apply sparing_bind; [done|]. intros _ [a|e] _ _ w; reflexivity.
Qed.

Lemma update_profile_own uid input w r w' :
  run (update_profile username_regex email_regex uid input) w = (r, w') ->
  all_others uid (db w') = all_others uid (db w).
Proof.
  intros Hr. unfold update_profile in Hr. destruct r as [user|e].
  2: { by rewrite (run_transaction_err _ _ _ _ Hr). }
  apply run_transaction_ok in Hr as (_ & w1 & Hr & _ & ->).
  apply run_bindM_ok in Hr as (found & w2 & Hf & Hr). unfold User_get in Hf.
  apply run_query_ok in Hf as (_ & Hf & ->).
  apply run_bindM_ok in Hr as (row & ? & Hq & Hr). apply run_require_ok in Hq as [Hq <-].
  assert (Hid : u_id row = uid).
  { rewrite Hf in Hq. destruct (fetch _ _) as [u|] eqn:Ef; [|done]. injection Hq as <-.
    apply fetch_Some in Ef as [_ Hp]. by bool_hyp. }
  change (db (bump w1)) with (db w1). refine (all_others_after uid w _ _ _ _ _ _ Hr); [done|].
  clear Hr Hf Hq. subst uid. own_rows.
Qed.

(** Whatever a request does is a sequence of the writes the server makes. *)
Lemma served_writes i a w w' :
  run (serve i) w = (a, w') ->
  writes (RN := run_from username_regex email_regex w) (db w) (db w') /\ (tick w <= tick w')%nat.
Proof.
  intros Hr. destruct i as [h peer c].
  change (run (serve_call h (audit_context h peer) c) w = (a, w')) in Hr.
  destruct (respects_from_run (tick w) (on_db (writes (RN := run_from username_regex email_regex w)))
              (serve_call h (audit_context h peer) c) w) as [Hw Ht]; [done| |].
  - exact (writes_serve_call (RN := run_from username_regex email_regex w) _ _ _ _ _ _).
  - by rewrite Hr in Hw, Ht.
Qed.

(** C7: a user's own endpoints are the user's own.  A request to one of them
    either changes nothing or carries a token valid at that moment.  Then it
    leaves every row of every other user as it was: account, password,
    sessions, app passwords, second factor, recovery codes and passkeys, and
    with them every role, assignment, application, setting, invitation, key,
    code and handoff.  Of the passkey challenges of others, and of logins, none
    is added or altered, and one is gone only if it had expired at a moment of
    the request or the request names it in its own cookie.  The log is only
    added to, at its end. *)
Theorem own_endpoints_isolated i a w w' :
  gate_of (endpoint_of (in_call i)) = SignedIn -> run (serve i) w = (a, w') ->
  db w' = db w \/
  exists u, authenticated st (in_headers i) w u /\
    others (au_user_id u) (db w') = others (au_user_id u) (db w) /\
    spared (in_headers i) (au_user_id u) w w' /\
    exists entries, audit_log (db w') = (audit_log (db w) ++ entries)%list.
Proof.
  intros Hg Hr. destruct (served_writes i a w w' Hr) as [Hw Ht]. apply permanent_writes in Hw as [Hlog _].
  assert (Hi : db w' = db w \/
    exists u, authenticated st (in_headers i) w u /\ isolated (in_headers i) (au_user_id u) w w');
    [|destruct Hi as [Hd|(u & Ha & Ho & Hs)]; [by left|right; by exists u]].
  clear Hlog. destruct i as [h peer c]. cbn [in_call in_headers] in *.
  change (run (serve_call h (audit_context h peer) c) w = (a, w')) in Hr.
  destruct c; try discriminate Hg; clear Hg; cbn [Server.serve_call] in Hr;
    apply run_bind_eq in Hr as (r & w2 & Hr & Hk); cbn [run] in Hk; injection Hk as _ <-.
  all: match type of Hr with run ?p _ = _ => let f := head_of p in unfold f in Hr end.
  all: rewrite ?run_bind, ?run_bindE, ?run_convert, ?run_bindM in Hr.
  all: destruct (run (auth_user st h) w) as [[u|e] w1] eqn:Hu;
    [assert (Ht1 : (tick w <= tick w1)%nat) by (refine (run_passes _ _ _ _ _ Hu); intros n; walk_reads);
     apply auth_user_ok in Hu as [Hdb Ha]; right; exists u; split; [exact Ha|]
    |apply auth_user_reads in Hu; left; by injection Hr as _ <-].
  all: try (apply isolated_same; [exact Ht|]; refine (all_others_after _ _ _ _ _ _ Hdb _ Hr); own_rows; fail).
  - cbn [fst snd map_err] in Hr. refine (isolated_sparing _ _ _ _ _ _ _ Hdb Ht1 _ _ Hr); [own_rows|].
    apply rate_limited_sparing, register_start_sparing.
  - cbn [fst snd map_err] in Hr. refine (isolated_sparing _ _ _ _ _ _ _ Hdb Ht1 _ _ Hr); [own_rows|].
    apply rate_limited_sparing, register_finish_sparing.
  - apply isolated_same; [exact Ht|]. rewrite run_bindM in Hr.
    destruct (run (update_profile _ _ _ input) w1) as [[user|e] w3] eqn:Hp;
      apply update_profile_own in Hp; [|by injection Hr as _ <-; rewrite Hp, Hdb].
    rewrite <- Hdb, <- Hp. refine (all_others_after _ _ _ _ _ _ eq_refl _ Hr). own_rows.
  - apply isolated_same; [exact Ht|]. destruct (run (acquire;;; _) w1) as [q w3] eqn:Hq. cbn [fst snd] in Hr.
    assert (Hd3 : db w3 = db w1) by (eapply unchanged_run; [|exact Hq]; walk_reads).
    rewrite <- Hdb, <- Hd3. destruct q as [uid|e]; [|by injection Hr as _ <-].
    do 3 (apply run_bindM_ok in Hq as (? & ? & _ & Hq)). apply run_ret_ok in Hq as [<- _].
    refine (all_others_after _ _ _ _ _ _ eq_refl _ Hr). own_rows.
Qed.
End Isolation.
