(* ===== verification/Main.v ===== *)
(** * The process ([main.rs], [cli.rs])

    What a start of the program does with its command line and its database,
    and how it ends; and what a restart, which the settings endpoint offers,
    keeps. *)

From S2P Require Import Prelude RStr RateLimit Schema Sys External Users AuditLog Net Settings AppPasswords Token TokenFacts Keys BrowserRetry Totp LoginFlow Application Forward Http OidcCodes OidcToken Invitations Accounts Passkeys TotpHandlers ApplicationHandlers SettingsHandlers AuditExport ForwardAuth OAuth ClientAddress BrowserSecurity LdapHandler LdapServer Cli Startup Frame Writes WriteFacts Routes Server System.
Local Open Scope Z_scope.
Local Open Scope string_scope.

Inductive Commands : Type :=
| Serve
| InitAdminCommand (username : string) (password : option string) (name : string) (email : option string).

(** [prompt_password]: [read] is what the terminal answers. *)
Definition prompt_password (read : fallible string) : fallible string :=
  match read with
  | Err e => Err e
  | Ok line =>
      let password := trim line in
      if is_empty password then Err "Password cannot be empty" else Ok password
  end.

Definition EXIT_RESTART : Z := 75.
(** [main]: the exit code of a result of [run]. *)
Definition exit_code (r : result AppError bool) : Z :=
  match r with
  | Ok restart => if restart : bool then EXIT_RESTART else 0
  | Err _ => 1
  end.

Section Main.
Context {E : Env} {HA : Hashing} {ED : Ed25519} {UL : UuidLib} {AE : Aead} {PH : PasswordHashing}
        {MAC : HmacSha1} {JL : JsonLib} {RX : RegexLib} {URL : UrlLib} {UP : UrlParts} {UE : UrlEncoding}
        {B64 : Base64Std} {HL : HttpLib} {AX : AxumParts} {RL : RandLib} {RJ : RecordsJson}
        {UA : UserAgentHeader} {WL : WebauthnLib}.
Context {JC : JwtCodec Claims} {JF : JwtCodec ForwardSession} {JH : JwtCodec Handoff}
        {JI : JwtCodec IdTokenClaims} {JO : JwtCodec OidcAccessClaims} {SJ : SerdeJson TokenPair}
        {JR : JsonText PasskeyRegistration} {JP : JsonText Passkey} {JA : JsonText DiscoverableAuthentication}.
Variable username_regex email_regex : string -> bool.
Variable non_ascii_uppercase : string -> string.
Variable non_ascii_alphanumeric : string -> bool.
Variable pkg_version : string.

(** [run], up to the listener: the server's state, or nothing when a command
    has been carried out. *)
Definition start_up (command : option Commands) (read : fallible string)
    : M (option (AppState * BrowserSecurity * bool)) :=
  match command with
  | Some (InitAdminCommand username password name email) =>
      prepare_keys ;;;
      password <- lift (match password with
                        | Some p => Ok p
                        | None => map_err (fun e => InternalError ("Failed to read password: " ++ e))
                                    (prompt_password read)
                        end) ;;
      init_admin username_regex email_regex username password name email ;;;
      ret None
  | Some Serve | None =>
      server <- Startup.serve ;;
      ret (Some server)
  end.

(** [run] and [main]: [listen] is how the listener ends, once told to shut
    down or when its address cannot be bound. *)
Definition main (command : option Commands) (read : fallible string) (listen : result AppError unit)
    : prog Z :=
  r <~ start_up command read ;;
  Ret (exit_code (match r with
                  | Err e => Err e
                  | Ok None => Ok false
                  | Ok (Some _) => match listen with Ok _ => Ok true | Err e => Err e end
                  end)).

(** ** What a restart keeps *)

(** No activity of the running server touches the keys. *)
Ltac keyless := walk ltac:(solve [auto with quiet keyless nocore typeclass_instances]) ltac:(reflexivity).
Lemma keys_insert_codes uid t codes :
  respects (on_db (same keys)) (insert_codes non_ascii_uppercase uid t codes).
Proof. apply respects_insert_codes; [apply _|]. reflexivity. Qed.
Create HintDb keyless.
Hint Resolve keys_insert_codes : keyless.

Lemma keys_handle_bind req cfg ip : respects (on_db (same keys)) (handle_bind req cfg ip).
Proof. keyless. Qed.
Lemma keys_handle_search req cfg b : respects (on_db (same keys)) (handle_search pkg_version req cfg b).
Proof. keyless. Qed.
Hint Resolve keys_handle_bind keys_handle_search : keyless.
Lemma keys_dispatch ip ops c : respects (on_db (same keys)) (dispatch pkg_version ip ops c).
Proof. keyless. Qed.
Hint Resolve keys_dispatch : keyless.
Lemma keys_call st h ctx c :
  respects (on_db (same keys))
    (serve_call username_regex email_regex non_ascii_uppercase non_ascii_alphanumeric st h ctx c).
Proof. destruct c; cbn [serve_call]; keyless. Qed.
Hint Resolve keys_call : keyless.
Lemma keys_perform st a :
  respects (on_db (same keys))
    (perform username_regex email_regex non_ascii_uppercase non_ascii_alphanumeric pkg_version st a).
Proof.
  destruct a; cbn [perform]; keyless.
Qed.

Lemma keys_system st activities sched w :
  keys (db (pool_run sched (map (perform username_regex email_regex non_ascii_uppercase
                                   non_ascii_alphanumeric pkg_version st) activities, w)).2) = keys (db w).
Proof.
  set (ps := map _ _). destruct (pool_respects (on_db (same keys)) (ps, w) (pool_run sched (ps, w))) as [Hsame _].
  - apply pool_run_star.
  - subst ps. apply Forall_map, Forall_forall. intros a _. apply keys_perform.
  - exact Hsame.
Qed.

(** A start leaves the key it returns in the database, under the id it
    returns. *)
Lemma prepare_keys_held `{!AeadLaws, !EntropyLength E} key kid w w1 :
  run prepare_keys w = (Ok (key, kid), w1) ->
  exists kek row, get_kek = Ok kek /\ fetch is_default_key (keys (db w1)) = Some row /\
    holds_key kek key row /\ kid = uuid_to_string (k_id row).
Proof.
  intros Hr. unfold prepare_keys in Hr.
  apply run_bindM_ok in Hr as (? & w2 & _ & Hr). apply run_bindM_ok in Hr as (? & w3 & _ & Hr).
  apply run_bindM_ok in Hr as (k & w4 & Hk & Hr). apply load_signing_key_held in Hk as (kek & row & Hg & Hf & Hh).
  apply run_bindM_ok in Hr as (id & w5 & Hi & Hr). apply run_ret_ok in Hr as [[= -> ->] ->].
  unfold load_signing_kid in Hi. apply run_stmt_ok in Hi as (_ & d & Hi & ->). rewrite Hf in Hi.
  injection Hi as <- <-. exists kek, row. by cbn [db set_db bump].
Qed.

Lemma prepare_keys_again `{!Calm E} kek key row w :
  get_kek = Ok kek -> fetch is_default_key (keys (db w)) = Some row -> holds_key kek key row ->
  exists w', run prepare_keys w = (Ok (key, uuid_to_string (k_id row)), w') /\ db w' = db w.
Proof.
  intros Hg Hf Hh. unfold prepare_keys, try_initialize, acquire. run_calm. rewrite Hf. run_calm.
  destruct (load_held_key kek key row (bump (bump w)) Hg Hf Hh) as (w2 & Hl & Hd).
  cbn [db bump] in Hd. rewrite Hl, run_bindM. unfold load_signing_kid. cbn [run stmt].
  rewrite calm, Hd, Hf. cbn [run]. eexists. split; [reflexivity|]. done.
Qed.

(** C23: a restart keeps the keys.  Whatever the server does between a start
    and the next one - a restart that an administrator has asked for included -
    the next start loads the same signing key under the same id and writes
    nothing, so every token issued before is verified by the same key after. *)
Theorem restart_keeps_keys `{!AeadLaws, !EntropyLength E, !Calm E}
    read w server security ldap w1 activities sched w2 :
  run (start_up (Some Serve) read) w = (Ok (Some (server, security, ldap)), w1) ->
  db w2 = db (pool_run sched (map (perform username_regex email_regex non_ascii_uppercase
                                     non_ascii_alphanumeric pkg_version server) activities, w1)).2 ->
  exists w3, run prepare_keys w2 = (Ok (st_signing_key server, st_signing_kid server), w3) /\ db w3 = db w2.
Proof.
  intros Hr Hw2. unfold start_up in Hr. apply run_bindM_ok in Hr as (s & w' & Hr & Hs).
  apply run_ret_ok in Hs as [[= ->] ->]. unfold Startup.serve in Hr.
  apply run_bindM_ok in Hr as ([key kid] & w0 & Hp & Hr).
  apply prepare_keys_held in Hp as (kek & row & Hg & Hf & Hh & ->).
  apply run_bind_eq in Hr as (? & w4 & Hi & Hr). injection Hi as _ <-.
  apply run_bindM_ok in Hr as (? & w5 & Ha & Hr). apply run_acquire_ok in Ha as [_ ->].
  apply run_bindM_ok in Hr as (cfg & w6 & Hl & Hr). apply load_ldap_config_db in Hl.
  apply run_ret_ok in Hr as [[= <- _ _] ->]. cbn [st_signing_key st_signing_kid].
  apply (prepare_keys_again kek); [done| |done].
  rewrite Hw2, keys_system. cbn [db bump] in Hl. by rewrite Hl.
Qed.
End Main.
