(* ===== verification/SignIn.v ===== *)
(** * Signing in works

    The other direction of the login theorems: with the right password, and
    without an active second factor, a login is answered with tokens, and the
    access token opens the user's endpoints for its whole life. *)

From S2P Require Import Prelude RStr RateLimit Schema Sys External Users AuditLog Net Settings Token TokenFacts Sessions Totp LoginFlow LoginFacts Application Forward Http OidcCodes OidcToken AppPasswords Invitations Accounts Passkeys TotpHandlers ApplicationHandlers SettingsHandlers AuditExport ForwardAuth OAuth ClientAddress WellFormed Routes Server.
Local Open Scope Z_scope.
Local Open Scope string_scope.

Lemma fetch_unique {A K} `{EqDecision K} (key : A -> K) (p : A -> bool) k rows r :
  unique key rows -> r ∈ rows -> key r = k -> p r = true ->
  fetch (fun x => beq (key x) k && p x)%bool rows = Some r.
Proof.
  intros Hu Hr Hk Hp. destruct (fetch _ rows) as [x|] eqn:Hf.
  - apply fetch_Some in Hf as [Hx Hb]. bool_hyp. f_equal. apply (unique_elem key rows x r Hu Hx Hr). congruence.
  - exfalso. pose proof (proj1 (fetch_None _ _) Hf r Hr) as Hb. cbn beta in Hb.
    by rewrite Hk, beq_refl, Hp in Hb.
Qed.

Lemma fetch_by_key {A K} `{EqDecision K} (key : A -> K) k rows r :
  unique key rows -> r ∈ rows -> key r = k -> fetch (fun x => beq (key x) k) rows = Some r.
Proof.
  intros Hu Hr Hk. rewrite <- (fetch_unique key (fun _ => true) k rows r Hu Hr Hk eq_refl).
  unfold fetch. induction rows as [|x l IH] in Hu, Hr |- *; [done|]. cbn [List.find]. rewrite andb_true_r.
  destruct (beq (key x) k) eqn:Hb; [done|]. apply elem_of_cons in Hr as [->|Hr].
  - bool_hyp. done.
  - apply IH; [by apply NoDup_cons in Hu as [_ Hu]|done].
Qed.

Section Tokens.
Context {E : Env} {HA : Hashing} {ED : Ed25519} {JC : JwtCodec Claims} {UL : UuidLib} {AE : Aead}
        {SJ : SerdeJson TokenPair} `{!Calm E, !MonotoneClock E}.

(** The key signs every claim. *)
Definition signs (key : SigningKey) : Prop := forall c, is_ok (sign_claims c key) = true.

(** New rows get new ids. *)
Definition fresh_ids (d : Db) : Prop := forall i r, r ∈ refresh_tokens d -> rt_id r <> fresh_uuid i.

Lemma fresh_ids_insert i d : fresh_ids d -> existsb (fun r => beq (rt_id r) (fresh_uuid i)) (refresh_tokens d) = false.
Proof.
  intros H. destruct (existsb _ _) eqn:Hx; [|done]. apply existsb_exists in Hx as (r & Hr & Hb). bool_hyp.
  by destruct (H i r (proj2 (list_elem_of_In _ _) Hr)).
Qed.

Lemma sign_claims_total key c : signs key -> exists t, sign_claims c key = Ok t.
Proof. intros H. specialize (H c). destruct (sign_claims c key) as [t|]; [by exists t|done]. Qed.

Lemma run_generate_token_pair uid roles key cv w :
  signs key -> fresh_ids (db w) -> active_version uid (db w) = Some cv ->
  (clock (12 + tick w)%nat < clock (tick w) + MIN_SESSION_EXPIRY_SECONDS)%Z ->
  exists p w', run (generate_token_pair uid roles key) w = (Ok p, w') /\ users (db w') = users (db w) /\
    (tick w <= tick w')%nat.
Proof.
  intros Hk Hf Hv Hc. unfold generate_token_pair, session_expiry_seconds, get_setting, user_session_version,
    generate_token_pair_for_session. run_calm. rewrite Hv. run_calm.
  set (D := clock (tick w) + _).
  assert (Hd : (D - clock (S (S (S (S (tick w))))) <=? 0)%Z = false).
  { apply Z.leb_gt. pose proof (session_expiry_of_range (setting KEY_SESSION_EXPIRY_SECONDS (db w))) as [Hm _].
    pose proof (clock_mono (S (S (S (S (tick w))))) (12 + tick w) ltac:(lia)). subst D. lia. }
  rewrite Hd. run_calm. unfold generate_access_token_for_session, generate_refresh_token_for_session. run_calm.
  match goal with |- context [sign_claims ?c key] => destruct (sign_claims_total key c Hk) as [a ->] end.
  run_calm.
  match goal with |- context [sign_claims ?c key] => destruct (sign_claims_total key c Hk) as [b ->] end.
  run_calm. cbn [run stmt]. rewrite calm. unfold insert_checked.
  rewrite fresh_ids_insert by done. cbn [db bump].
  replace (user_exists uid (db w)) with true.
  2: { symmetry. unfold active_version in Hv. destruct (fetch _ _) as [u|] eqn:Ef; [|done].
       apply fetch_Some in Ef as [Hu Hp]. bool_hyp. unfold user_exists. apply existsb_exists. exists u.
       split; [by apply list_elem_of_In|by apply beq_eq]. }
  cbn [run]. run_calm. do 2 eexists. split; [reflexivity|]. split; [done|]. cbn. lia.
Qed.
End Tokens.

Section SignIn.
Context {E : Env} {HA : Hashing} {ED : Ed25519} {UL : UuidLib} {AE : Aead} {PH : PasswordHashing}
        {MAC : HmacSha1} {JL : JsonLib} {RX : RegexLib} {URL : UrlLib} {UP : UrlParts} {UE : UrlEncoding}
        {B64 : Base64Std} {HL : HttpLib} {AX : AxumParts} {RL : RandLib} {RJ : RecordsJson}
        {UA : UserAgentHeader} {WL : WebauthnLib}.
Context {JC : JwtCodec Claims} {JF : JwtCodec ForwardSession} {JH : JwtCodec Handoff}
        {JI : JwtCodec IdTokenClaims} {JO : JwtCodec OidcAccessClaims} {SJ : SerdeJson TokenPair}
        {JR : JsonText PasskeyRegistration} {JP : JsonText Passkey} {JA : JsonText DiscoverableAuthentication}.
Context `{!Calm E, !MonotoneClock E}.
Variable username_regex email_regex : string -> bool.
Variable non_ascii_uppercase : string -> string.
Variable non_ascii_alphanumeric : string -> bool.
Variable st : AppState.
Abbreviation serve := (serve username_regex email_regex non_ascii_uppercase non_ascii_alphanumeric st).

(** The row [u] is the account of that name, active, with that password, and
    no second factor asks for more. *)
Record may_sign_in (input : LoginInput) (u : UserRow) (d : Db) : Prop := {
  si_row : u ∈ users d;
  si_name : u_username u = li_username input;
  si_active : u_active u = true;
  si_password : exists a, fetch (fun a => beq (au_owner_id a) (u_id u) && is_password a)%bool (authenticators d) = Some a /\
                  verify_password a (li_password input) = true;
  si_factor : forall t, fetch (fun t => beq (ut_user_id t) (u_id u)) (user_totps d) = Some t -> is_activated t = false;
  si_valid : is_ok (validate_username username_regex (li_username input)) = true /\
             is_ok (validate_password (li_password input)) = true
}.

Lemma run_User_login input u w :
  well_formed (db w) -> may_sign_in input u (db w) ->
  exists w', run (User_login input) w = (Ok (u_row u), w') /\ db w' = db w /\ tick w' = S (S (tick w)).
Proof.
  intros [Hk _] [Hr Hn Ha (a & Hf & Hp) _ _]. unfold User_login, User_get_by_username. run_calm.
  pose proof (fetch_by_key _ _ _ _ (dk_username _ Hk) Hr Hn) as Hfu. cbn beta in Hfu.
  rewrite Hfu. cbn [option_map]. unfold try_password_login, get_password_for. rewrite Ha. cbn [negb].
  run_calm. rewrite Hf. run_calm. rewrite Hp. run_calm. eexists. split; [reflexivity|]. done.
Qed.

Lemma run_enforce_mfa uid code w :
  (forall t, fetch (fun t => beq (ut_user_id t) uid) (user_totps (db w)) = Some t -> is_activated t = false) ->
  run (enforce_mfa non_ascii_uppercase uid code) w = (Ok tt, bump w).
Proof.
  intros H. unfold enforce_mfa, UserTotp_get. run_calmE.
  destruct (fetch _ _) as [t|]; [by rewrite (H t eq_refl)|done].
Qed.

Lemma run_login ctx input u remaining w :
  well_formed (db w) -> may_sign_in input u (db w) -> signs (st_signing_key st) -> fresh_ids (db w) ->
  (check (login_rl (limiters w)) (ctx_ip ctx) (instant (tick w))).1 = Ok remaining ->
  (clock (20 + tick w)%nat < clock (tick w) + MIN_SESSION_EXPIRY_SECONDS)%Z ->
  exists p w1 w2 w3, run (login non_ascii_uppercase username_regex st ctx input) w = (Ok p, w2) /\
    run (generate_token_pair (u_id u) (map ro_name (roles_of (u_id u) (db w))) (st_signing_key st)) w1 = (Ok p, w3) /\
    db w1 = db w /\ (tick w <= tick w1)%nat.
Proof.
  intros Hw Hs Hk Hf Hl Hc. unfold login, password_login.
  assert (Hlog : forall v, db v = db w ->
            exists w', run (User_login input) v = (Ok (u_row u), w') /\ db w' = db w /\ tick w' = S (S (tick v))).
  { intros v Hv. rewrite <- Hv in Hw, Hs |- *. by apply run_User_login. }
  destruct Hs as [Hr Hn Ha _ Hm [Hvu Hvp]].
  rewrite run_bindE, run_convert. cbn [run rl_check].
  destruct (check _ _ _) as [x rl]. cbn [fst] in Hl. subst x. cbn [fst snd map_err].
  destruct (validate_username _ _) as [[]|]; [|done]. destruct (validate_password _) as [[]|]; [|done].
  unfold acquire. run_calmE. cbn [input_error map_err]. run_calmE.
  match goal with |- context [run (User_login input) ?v] => destruct (Hlog v eq_refl) as (w2 & -> & Hd & Ht) end.
  cbn [fst snd tick bump] in *. rewrite run_bind, run_enforce_mfa by (by rewrite Hd). unfold User_get_roles.
  run_calmE. rewrite Hd. set (roles := map ro_name _). set (v := bump (bump w2)).
  assert (Hav : active_version (u_id u) (db v) = Some (u_token_version u)).
  { subst v. cbn [db bump]. rewrite Hd. unfold active_version.
    by rewrite (fetch_unique _ _ _ _ _ (dk_user _ (proj1 Hw)) Hr eq_refl Ha). }
  destruct (run_generate_token_pair (u_id u) roles (st_signing_key st) (u_token_version u) v Hk) as (p & w3 & Hg & Hu & _); [|exact Hav| |].
  - subst v. cbn [db bump]. by rewrite Hd.
  - subst v. cbn [tick bump]. rewrite Ht.
    pose proof (clock_mono (tick w) (S (S (S (S (S (S (tick w))))))) ltac:(lia)).
    pose proof (clock_mono (12 + S (S (S (S (S (S (tick w))))))) (20 + tick w) ltac:(lia)). lia.
  - rewrite Hg. cbn [map_err fst snd]. rewrite run_bind. eexists p, v, _, _. split; [reflexivity|].
    split; [exact Hg|]. subst v. cbn [db tick bump]. split; [done|]. rewrite Ht. lia.
Qed.

Definition bearing (token : string) : list (string * string) := [("authorization", "Bearer " ++ token)].
Lemma extract_bearer token : header_visible ("Bearer " ++ token) = true -> extract_token (bearing token) = Some token.
Proof.
  intros Hv. unfold extract_token, get_text, bearing.
  assert (Ha : get_all [("authorization", "Bearer " ++ token)] "authorization" = ["Bearer " ++ token]).
  { unfold get_all. cbn [List.filter fst]. by rewrite beq_refl. }
  rewrite Ha. unfold to_str. rewrite Hv.
  by rewrite (proj2 (strip_prefix_spec "Bearer " ("Bearer " ++ token) token) eq_refl).
Qed.

(** C9: signing in works.  A client within the rate limit that presents the
    password of an active account without an active second factor is answered
    with tokens, if the whole takes less than five minutes; and in every later
    state of the server in which the account is active and its sessions have
    not been revoked, until the access token expires, the token is answered
    with the account as it then is. *)
Theorem sign_in_works `{!JwtLaws Claims, !UuidLaws} h peer input u remaining w :
  well_formed (db w) -> may_sign_in input u (db w) -> signs (st_signing_key st) -> fresh_ids (db w) ->
  (check (login_rl (limiters w)) (ctx_ip (audit_context h peer)) (instant (tick w))).1 = Ok remaining ->
  (clock (20 + tick w)%nat < clock (tick w) + MIN_SESSION_EXPIRY_SECONDS)%Z ->
  exists p w1, run (serve {| in_headers := h; in_peer := peer; in_call := Login input |}) w
               = (AsJson 200 (Tokens p), w1) /\
    forall w2 (u2 : UserRow), well_formed (db w2) -> u2 ∈ users (db w2) -> u_id u2 = u_id u -> u_active u2 = true ->
      u_token_version u2 = u_token_version u -> header_visible ("Bearer " ++ access_token p) = true ->
      (clock (3 + tick w2)%nat < clock (tick w)
         + Z.min ACCESS_TOKEN_LIFETIME (session_expiry_of (setting KEY_SESSION_EXPIRY_SECONDS (db w))))%Z ->
      exists w3,
        run (serve {| in_headers := bearing (access_token p); in_peer := peer; in_call := GetMe |}) w2
        = (AsJson 200 (Me {| me_user_id := uuid_to_string (u_id u); me_username := u_username u2;
                             me_name := u_name u2; me_email := u_email u2;
                             me_roles := map ro_name (roles_of (u_id u) (db w2)) |}), w3).
Proof.
  intros Hw Hs Hk Hf Hl Hc.
  destruct (run_login (audit_context h peer) input u remaining w Hw Hs Hk Hf Hl Hc)
    as (p & v & w1 & v1 & Hr & Hg & Hd & Ht).
  exists p, w1. split; [unfold Server.serve; cbn [in_call in_headers in_peer serve_call]; unfold answerL; by rewrite run_bind, Hr|].
  intros w2 u2 Hw2 Hu2 Hid Ha2 Hv2 Hh Hc2.
  assert (Hav : active_version (u_id u) (db w2) = active_version (u_id u) (db v)).
  { rewrite Hd. unfold active_version.
    rewrite (fetch_unique _ _ _ _ _ (dk_user _ (proj1 Hw2)) Hu2 Hid Ha2).
    rewrite (fetch_unique _ _ _ _ _ (dk_user _ (proj1 Hw)) (si_row _ _ _ Hs) eq_refl (si_active _ _ _ Hs)).
    cbn. by rewrite Hv2. }
  pose proof (clock_mono (tick w) (tick v) Ht).
  destruct (issued_token_verifies (u_id u) _ _ p v v1 (bump w2) Hg Hav) as (c & w3 & Hver & Hd3 & Hsub & Hroles & _).
  { rewrite Hd. change (3 + tick w2)%nat with (S (S (S (tick w2)))) in Hc2. cbn [tick bump]. lia. }
  unfold Server.serve. cbn [in_call in_headers in_peer serve_call]. unfold answer, get_me, auth_user.
  rewrite run_bind. run_calm. rewrite (extract_bearer _ Hh). run_calm. unfold acquire. run_calm.
  rewrite Hver. run_calm. rewrite Hsub. run_calm. unfold User_get. run_calm. rewrite Hd3. cbn [db bump].
  rewrite (fetch_by_key _ _ _ _ (dk_user _ (proj1 Hw2)) Hu2 Hid). cbn [option_map]. run_calm.
  rewrite Hroles. eexists. reflexivity.
Qed.
End SignIn.
