(* ===== verification/OAuthRun.v ===== *)
(** * A login through the provider, from the authorization to the user's data

    The other direction of [OAuthFacts]: a browser in session, a client that is
    set up for the user and keeps to the protocol are answered with a code, the
    code with tokens, and the access token with the user's data. *)

From S2P Require Import Prelude RStr RateLimit Schema Sys External Users AuditLog Net Settings Token TokenFacts Sessions Totp LoginFlow LoginFacts Application ApplicationFacts Http OidcCodes OidcToken ForwardAuth ForwardAuthFacts Frame OAuth OAuthFacts AppPasswords Invitations Passkeys Forward Writes WellFormed Routes Server SignIn.
Local Open Scope Z_scope.
Local Open Scope string_scope.

(** ** Scopes *)

Definition known_scopes : list string := ["openid"; "profile"; "email"; "roles"].

(** The lists of at most [n] known scopes. *)
Fixpoint scope_lists (n : nat) : list (list string) :=
  match n with
  | O => [[]]
  | S n' => [] :: flat_map (fun l => map (fun s => s :: l) known_scopes) (scope_lists n')
  end.

Lemma scope_lists_complete n l :
  (length l <= n)%nat -> Forall (fun s => s ∈ known_scopes) l -> In l (scope_lists n).
Proof.
  revert l. induction n as [|n IH]; intros [|s l] Hl Hf; cbn [scope_lists length] in *; try (by left); [lia|].
  inversion Hf; subst. right. apply in_flat_map. exists l. split; [apply IH; [lia|done]|].
  apply in_map_iff. exists s. split; [done|]. by apply list_elem_of_In.
Qed.

Lemma add_scope_nodup acc s : NoDup acc -> NoDup (add_scope acc s).
Proof.
  intros H. unfold add_scope. destruct (existsb (beq s) acc) eqn:Ex; [done|].
  apply NoDup_app. split; [done|]. split; [|apply NoDup_singleton].
  intros x Hx Hs. apply list_elem_of_singleton in Hs as ->.
  pose proof (existsb_false_elem _ _ _ Ex Hx) as Hb. cbn beta in Hb. bool_hyp. done.
Qed.
Lemma parse_scope_nodup s : NoDup (parse_scope s).
Proof.
  unfold parse_scope. generalize (split_whitespace s). intros l.
  assert (H : forall acc, NoDup acc -> NoDup (foldl add_scope acc l)).
  { induction l as [|x l IH]; intros acc Ha; cbn [foldl]; [done|]. by apply IH, add_scope_nodup. }
  apply H. constructor.
Qed.

(** A granted scope is read back from its stored text. *)
Lemma parse_join_scope l :
  NoDup l -> Forall (fun s => s ∈ known_scopes) l -> parse_scope (join " " l) = l.
Proof.
  intros Hn Hf.
  assert (Hl : (length l <= 4)%nat).
  { change 4%nat with (length known_scopes). apply NoDup_incl_length; [by apply NoDup_ListNoDup|].
    intros x Hx. apply list_elem_of_In in Hx. apply list_elem_of_In. by eapply Forall_forall in Hf. }
  assert (Hall : forallb (fun l => implb (bool_decide (NoDup l)) (bool_decide (parse_scope (join " " l) = l)))
                   (scope_lists 4) = true) by (vm_compute; reflexivity).
  rewrite forallb_forall in Hall. specialize (Hall l (scope_lists_complete 4 l Hl Hf)).
  rewrite (bool_decide_eq_true_2 _ Hn) in Hall. by apply bool_decide_eq_true_1 in Hall.
Qed.

(** ** Time only passes *)
Definition later (w w' : World) : Prop := (tick w <= tick w')%nat.
#[export] Instance later_preorder : PreOrder later.
Proof. split; [intros w|intros w1 w2 w3]; unfold later; lia. Qed.

Ltac passes :=
  repeat lazymatch goal with
  | |- forall _, _ => intros ?
  | |- respects_from _ _ (bindM _ _) => apply respects_bindM
  | |- respects_from _ _ (bind _ _) => apply respects_bind
  | |- respects_from _ _ (Ret _) => exact I
  | |- respects_from _ _ (match ?x with _ => _ end) => destruct x
  | |- respects_from _ _ (let _ := _ in _) => cbv zeta
  | |- respects_from _ _ (stmt _) =>
      intros ? ?; cbn beta; repeat case_match; simplify_eq; unfold later; cbn; (split; [lia|split; [lia|exact I]])
  | |- respects_from _ _ (Atom _ Ret) =>
      intros ? ?; unfold later; cbn; split; [lia|split; [lia|exact I]]
  | |- respects_from _ _ _ => first [assumption|unfold_call]
  end.

Section Later.
Context {E : Env} {HA : Hashing} {ED : Ed25519} {JC : JwtCodec Claims} {UL : UuidLib}.
Lemma run_later {A} (p : prog A) w a w' : respects later p -> run p w = (a, w') -> (tick w <= tick w')%nat.
Proof. intros Hp Hr. pose proof (respects_run later p w Hp) as H. by rewrite Hr in H. Qed.

Lemma later_resolve_roles l : respects later (resolve_roles l).
Proof. induction l as [|e l IH]; cbn [resolve_roles]; passes. Qed.
Lemma later_check_access a roles : respects later (check_access_resolved a roles).
Proof.
  unfold check_access_resolved. destruct (a_required_roles a); [exact I|].
  apply respects_bindM; [apply later_resolve_roles|passes].
Qed.
Lemma later_verify_access_token token key : respects later (verify_access_token token key).
Proof. passes. Qed.

(** Who is admitted is let through. *)
Lemma run_check_access `{!Calm E} a roles w :
  admits (db w) a roles ->
  exists w', run (check_access_resolved a roles) w = (Ok true, w') /\ db w' = db w /\ (tick w <= tick w')%nat.
Proof.
  intros Ha. destruct (check_access_resolved_correct a roles w) as (b & w' & Hr & Hd & Hb).
  assert (b = true) as -> by by apply Hb. exists w'. split; [done|]. split; [done|].
  eapply run_later; [apply later_check_access|exact Hr].
Qed.
End Later.

(** ** The parties *)
Section Run.
Context {E : Env} {HA : Hashing} {ED : Ed25519} {UL : UuidLib} {AE : Aead} {JL : JsonLib} {URL : UrlLib}
        {UE : UrlEncoding} {B64 : Base64Std} {HL : HttpLib} {AX : AxumParts} {JC : JwtCodec Claims}
        {JI : JwtCodec IdTokenClaims} {JO : JwtCodec OidcAccessClaims} {SJ : SerdeJson TokenPair}.
Context `{!Calm E, !MonotoneClock E}.
Variable st : AppState.

(** The client is set up, and its application admits the user. *)
Record client_serves (d : Db) (client_id uri : string) (app : Application) (uid : Uuid) : Prop := {
  cs_client : client_of d client_id = Some app;
  cs_enabled : a_enabled app = true;
  cs_type : a_app_type app = Oidc;
  cs_uri : uri ∈ a_oidc_redirect_uris app;
  cs_admits : admits d app (map ro_name (roles_of uid d))
}.

(** The user's row, active in the session generation [v]. *)
Definition in_force (d : Db) (uid : Uuid) (v : Z) (u : UserRow) : Prop :=
  u ∈ users d /\ u_id u = uid /\ u_active u = true /\ u_token_version u = v.

(** A request of the code flow: this client and URI, the scope [openid] and no
    unknown one, and the S256 challenge of the verifier. *)
Record code_request (q : AuthorizeQuery) (client_id uri scope verifier : string) : Prop := {
  cr_type : aq_response_type q = Some "code";
  cr_client : non_empty (aq_client_id q) = Some client_id;
  cr_uri : non_empty (aq_redirect_uri q) = Some uri;
  cr_scope : aq_scope q = Some scope;
  cr_openid : "openid" ∈ parse_scope scope;
  cr_known : Forall (fun s => s ∈ known_scopes) (parse_scope scope);
  cr_challenge : non_empty (aq_code_challenge q) = Some (base64url_encode (sha256 verifier));
  cr_formed : challenge_well_formed (base64url_encode (sha256 verifier)) = true;
  cr_method : aq_code_challenge_method q = Some "S256";
  cr_prompt : aq_prompt q = None;
  cr_max_age : aq_max_age q = None
}.

(** The exchange of a code by the authenticated client. *)
Record code_exchange (h : list (string * string)) (form : TokenForm) (app : Application)
    (client_id uri code verifier : string) : Prop := {
  ce_client : exists secret, presented_client h form = Ok (client_id, secret) /\
    (a_oidc_confidential app = true -> exists s, secret = Some s /\ verify_client_secret app s = true);
  ce_grant : tf_grant_type form = Some "authorization_code";
  ce_code : non_empty (tf_code form) = Some code;
  ce_uri : non_empty (tf_redirect_uri form) = Some uri;
  ce_verifier : non_empty (tf_code_verifier form) = Some verifier
}.

(** The key signs the tokens of the provider, and random codes are new. *)
Definition mints (key : SigningKey) (kid : string) : Prop := exists der,
  to_pkcs8_der key = Ok der /\ (forall c : IdTokenClaims, is_ok (jwt_encode (Some kid) c der) = true) /\
  forall c : OidcAccessClaims, is_ok (jwt_encode (Some kid) c der) = true.
Definition fresh_codes (d : Db) : Prop := forall i r,
  r ∈ auth_codes d -> ac_code_hash r <> hash_code (hex_encode (entropy i 32)).

(** *** The authorization *)

Lemma run_authorize_client q client_id uri scope verifier app uid w :
  code_request q client_id uri scope verifier -> client_serves (db w) client_id uri app uid ->
  run (authorize_client q) w = (Ok (app, client_id, uri), bump (bump w)).
Proof.
  intros Hq [Hc He Ht Hu _]. unfold authorize_client, acquire, get_by_oidc_client_id, oauth_err, need, fail_if.
  run_calmE. rewrite (cr_client _ _ _ _ _ Hq), (cr_uri _ _ _ _ _ Hq). run_calmE.
  unfold client_of in Hc. rewrite Hc. run_calmE. rewrite He, Ht, beq_refl. cbn [negb orb].
  rewrite (proj2 (validate_redirect_uri_spec app uri) Hu). done.
Qed.

Lemma known_scopes_known l :
  Forall (fun s => s ∈ known_scopes) l -> existsb (fun s => negb (known_scope s)) l = false.
Proof.
  intros Hf. apply not_true_iff_false. rewrite existsb_exists. intros (s & Hs & Hb).
  apply list_elem_of_In in Hs. rewrite Forall_forall in Hf. specialize (Hf s Hs).
  apply known_scope_spec in Hf. by rewrite Hf in Hb.
Qed.

Lemma run_authorize_params q client_id uri scope verifier :
  code_request q client_id uri scope verifier ->
  authorize_params uri q = Ok (parse_scope scope, base64url_encode (sha256 verifier), "S256").
Proof.
  intros [Hty _ _ Hs Ho Hk Hc Hf Hm Hp Ha]. unfold authorize_params. cbv zeta.
  rewrite Hty, Hp, Ha, Hs, Hc, Hm. cbn [unwrap_or is_some is_some_and orb]. rewrite beq_refl. cbn [negb].
  rewrite (proj2 (scope_contains_spec (parse_scope scope) SCOPE_OPENID) Ho), known_scopes_known by done.
  cbn [negb orb]. by rewrite Hf.
Qed.

Lemma fetch_in_force d uid v u :
  well_formed d -> in_force d uid v u ->
  fetch (fun u : UserRow => beq (u_id u) uid) (users d) = Some u /\ active_version uid d = Some v /\
  user_exists uid d = true.
Proof.
  intros [Hk _] (Hu & Hid & Ha & Hv). split; [by apply (fetch_by_key _ _ _ _ (dk_user _ Hk))|]. split.
  - unfold active_version. by rewrite (fetch_unique _ _ _ _ _ (dk_user _ Hk) Hu Hid Ha), <- Hv.
  - unfold user_exists. apply existsb_exists. exists u. split; [by apply list_elem_of_In|by apply beq_eq].
Qed.

(** What a login at [v0] gave the browser: a session that ends at [deadline]. *)
Definition session_deadline (v0 : World) : Z :=
  clock (tick v0) + session_expiry_of (setting KEY_SESSION_EXPIRY_SECONDS (db v0)).

Lemma run_resolve `{!JwtLaws Claims, !UuidLaws} h p uid roles v0 v1 v w :
  run (generate_token_pair uid roles (st_signing_key st)) v0 = (Ok p, v1) ->
  active_version uid (db v0) = Some v -> active_version uid (db w) = Some v ->
  cookie_value h AUTH_COOKIE_NAME = Some (access_token p) ->
  clock (S (S (tick w))) < Z.min (clock (tick v0) + ACCESS_TOKEN_LIFETIME) (session_deadline v0) ->
  exists c w', run (resolve_browser_session st h) w = (Ok (Some (c, None)), w') /\ db w' = db w /\
    (tick w <= tick w')%nat /\ uuid_parse (sub c) = Some uid /\ session_version c = Some v /\
    session_exp c = Some (session_deadline v0).
Proof.
  intros Hg Hv0 Hv Hc Ht. unfold session_deadline in *.
  destruct (issued_token_verifies uid roles (st_signing_key st) p v0 v1 w Hg)
    as (c & w' & Hr & Hd & Hu & _ & Hsv & Hse); [congruence|lia|].
  exists c, w'. unfold resolve_browser_session, unless_unauthenticated. rewrite Hc. run_calm. rewrite Hr. run_calm.
  split; [done|]. split; [done|]. split; [eapply run_later; [apply later_verify_access_token|exact Hr]|].
  split; [done|]. split; [congruence|done].
Qed.

Lemma application_exists_client d client_id app :
  client_of d client_id = Some app ->
  OidcCodes.application_exists (a_id app) d = true /\ a_oidc_client_id app = Some client_id.
Proof.
  unfold client_of. destruct (fetch _ _) as [r|] eqn:Hf; [|done]. intros [= <-].
  apply fetch_Some in Hf as [Hr Hb]. bool_hyp. split; [|done]. unfold OidcCodes.application_exists.
  apply existsb_exists. exists r. split; [by apply list_elem_of_In|by apply beq_eq].
Qed.

Lemma run_issue app uid uri scope nonce ch m at_ sv se w :
  fresh_codes (db w) -> OidcCodes.application_exists app (db w) = true -> user_exists uid (db w) = true ->
  exists code row w', run (issue app uid uri scope nonce ch m at_ sv se) w = (Ok code, w') /\
    auth_codes (db w') = append row (auth_codes (db w)) /\
    row = {| ac_code_hash := hash_code code; ac_application_id := app; ac_user_id := uid;
             ac_redirect_uri := uri; ac_scope := scope; ac_nonce := nonce; ac_code_challenge := ch;
             ac_code_challenge_method := m; ac_auth_time := at_;
             ac_expires_at := Z.min (unwrap_or se i64_max) (clock (S (tick w)) + AUTHORIZATION_CODE_LIFETIME);
             ac_consumed_at := None; ac_session_version := sv; ac_session_exp := se |}.
Proof.
  intros Hf Ha Hu. unfold issue, generate_plaintext. run_calm.
  cbn [run stmt]. rewrite calm. unfold insert_checked. cbn [db bump].
  assert (existsb (fun r => beq (ac_code_hash r) (hash_code (hex_encode (entropy (tick w) 32)))) (auth_codes (db w))
          = false) as ->.
  { apply not_true_iff_false. rewrite existsb_exists. intros (r & Hr & Hb). bool_hyp.
    apply list_elem_of_In in Hr. by destruct (Hf (tick w) r Hr). }
  rewrite Ha, Hu. cbn [andb run]. run_calm. do 3 eexists. split; [reflexivity|]. split; reflexivity.
Qed.

Lemma run_authorize_session ctx q app client_id uri scope challenge needs_login c uid v u w :
  well_formed (db w) -> in_force (db w) uid v u -> client_serves (db w) client_id uri app uid ->
  fresh_codes (db w) -> uuid_parse (sub c) = Some uid ->
  exists code row t w',
    run (authorize_session ctx q app client_id uri scope challenge "S256" needs_login c) w
    = (Ok (redirect 302 (append_query uri (with_state (aq_state q) [("code", code)]))), w') /\
    row = granted_row q app uid uri scope challenge c code t /\ clock (tick w) <= t /\
    auth_codes (db w') = append row (auth_codes (db w)).
Proof.
  intros Hw Hin Hs Hf Hsub. destruct (fetch_in_force _ _ _ _ Hw Hin) as (Hfu & _ & Hue).
  destruct Hin as (_ & Hid & Hact & _). destruct Hs as [Hc _ _ _ Had].
  destruct (application_exists_client _ _ _ Hc) as [Hae _].
  unfold authorize_session, oauth_err, need, User_get, User_get_roles. rewrite Hsub. run_calmE.
  rewrite Hfu. cbn [option_map opt_filter]. rewrite Hact. run_calmE. rewrite Hid.
  match goal with |- context [run (check_access_resolved app ?r) ?w0] =>
    destruct (run_check_access app r w0) as (w1 & Hr & Hd1 & Ht1); [exact Had|rewrite Hr] end.
  cbn [db bump tick] in *. run_calmE.
  match goal with |- context [run (issue ?a ?b ?cc ?d ?e ?f ?g ?h ?i ?j) w1] =>
    destruct (run_issue a b cc d e f g h i j w1) as (code & row & w2 & Hi & Hrows & Hrow);
      [by rewrite Hd1|by rewrite Hd1|by rewrite Hd1|rewrite Hi] end.
  run_calmE. destruct (run (audit_save _) w2) as [r3 w3] eqn:Ha3. cbn [fst snd run].
  apply audit_save_clients in Ha3 as [Ha3 _].
  exists code, row, (clock (S (tick w1))), w3. split; [reflexivity|]. split; [exact Hrow|]. split.
  - apply clock_mono. lia.
  - by rewrite Ha3, Hrows, Hd1.
Qed.

(** *** The exchange *)

Lemma is_ok_Ok {X A} (r : result X A) : is_ok r = true -> exists a, r = Ok a.
Proof. destruct r as [a|]; [by exists a|done]. Qed.

Lemma run_mint app client_id user roles scope nonce at_ sv se w :
  a_oidc_client_id app = Some client_id -> mints (st_signing_key st) (st_signing_kid st) ->
  exists tr w', run (mint_token_pair (st_origin st) app user roles scope nonce at_ (st_signing_key st)
                       (st_signing_kid st) sv se) w = (Ok tr, w').
Proof.
  intros Hc (der & Hder & Hi & Ho).
  unfold mint_token_pair, encode_id_token, generate_oidc_access_token, encoding_key. rewrite Hc, Hder. run_calm.
  cbn [map_err].
  match goal with |- context [jwt_encode (Some _) (with_session ?a ?b ?c) der] =>
    destruct (is_ok_Ok _ (Hi (with_session a b c))) as [t1 ->] end.
  cbn [map_err]. run_calm.
  match goal with |- context [jwt_encode (Some _) (oidc_access_claims ?a ?b ?c ?d ?e ?f ?g ?h) der] =>
    destruct (is_ok_Ok _ (Ho (oidc_access_claims a b c d e f g h))) as [t2 ->] end.
  cbn [map_err]. run_calm. by do 2 eexists.
Qed.

Lemma run_token_client ctx h form app client_id uri code verifier uid w :
  code_exchange h form app client_id uri code verifier -> client_serves (db w) client_id uri app uid ->
  run (token_client ctx h form) w = (Ok (app, client_id), bump w).
Proof.
  intros [(secret & Hp & Hs) Hg _ _ _] [Hc He Ht _ _].
  unfold token_client, oauth_err, need, fail_if, get_by_oidc_client_id. rewrite run_bindE. cbn [run].
  rewrite Hp. cbn [fst snd]. rewrite Hg, beq_refl. run_calmE.
  unfold client_of in Hc. rewrite Hc. run_calmE. rewrite He, Ht, beq_refl. cbn [negb orb]. run_calmE.
  destruct (a_oidc_confidential app); [|done].
  destruct Hs as (s & -> & Hv); [done|]. run_calmE. by rewrite Hv.
Qed.

Lemma run_token_code ctx h form app client_id uri code verifier row w :
  well_formed (db w) -> code_exchange h form app client_id uri code verifier ->
  row ∈ auth_codes (db w) -> exchangeable code (a_id app) uri verifier (clock (tick w)) row = true ->
  exists w', run (token_code ctx app client_id form) w = (Ok (consumed_of row, uri), w') /\
    (exists f, db w' = with_auth_codes f (db w)) /\ (tick w <= tick w')%nat.
Proof.
  intros Hw [_ _ Hco Hu Hv] Hr He. unfold token_code, oauth_err, need, consume.
  rewrite Hco, Hu, Hv. run_calmE.
  pose proof He as He'. unfold exchangeable in He'. bool_hyp.
  match goal with Hx : unconsumed _ _ _ = true |- _ => rename Hx into Hun end.
  pose proof Hun as (Hh & _ & _)%unconsumed_row.
  pose proof (dk_code _ (proj1 Hw)) as Hk.
  rewrite (fetch_by_key ac_code_hash _ _ _ Hk Hr Hh).
  rewrite (checks_exchangeable code) by done. rewrite He. cbn [negb]. run_calmE.
  destruct (fetch_key_unique ac_code_hash (hash_code code) (unconsumed (hash_code code) (clock (tick w)))
              (auth_codes (db w)) Hk) as [Hf Hcount].
  { intros r Hx. by apply unconsumed_row in Hx as [? _]. }
  rewrite Hcount, Hf, (fetch_by_key ac_code_hash _ _ _ Hk Hr Hh). cbn [opt_filter]. rewrite Hun. cbn [is_some].
  run_calmE. rewrite beq_refl. run_calmE. eexists. split; [reflexivity|]. split; [by eexists|]. cbn. lia.
Qed.

Lemma run_token_grant ctx app client_id uri code_row uid v u w :
  fetch (fun u : UserRow => beq (u_id u) uid) (users (db w)) = Some u -> u_active u = true ->
  active_version uid (db w) = Some v -> client_serves (db w) client_id uri app uid ->
  mints (st_signing_key st) (st_signing_kid st) ->
  ac_user_id code_row = uid -> ac_session_version code_row = Some v ->
  exists tr w1 w2 w3 roles,
    run (token_grant st ctx app client_id (consumed_of code_row) uri) w
    = (Ok (response 200 [("cache-control", "no-store"); ("pragma", "no-cache")]
             (JsonBody (token_response_json tr))), w3) /\
    run (mint_token_pair (st_origin st) app (u_row u) roles (parse_scope (ac_scope code_row)) (ac_nonce code_row)
           (ac_auth_time code_row) (st_signing_key st) (st_signing_kid st) (Some v) (ac_session_exp code_row)) w1
    = (Ok tr, w2) /\ (tick w <= tick w1)%nat.
Proof.
  intros Hfu Hact Hav Hs Hm Hid Hsv. destruct Hs as [Hc _ _ Huri Had].
  pose proof Hfu as [_ Hu]%fetch_Some. bool_hyp.
  unfold token_grant, oauth_err, need, fail_if. cbn [consumed_of cc_user_id cc_auth_time cc_session_version
    cc_scope cc_nonce cc_session_exp]. rewrite Hid, Hsv, run_bind.
  destruct (run_verify_user_session uid (ac_auth_time code_row) (Some v) w) as (w1 & Hr & Hd & Ht).
  rewrite Hr. unfold session_valid. rewrite Hav, Z.eqb_refl. cbn [fst snd is_ok negb orb].
  rewrite (proj2 (validate_redirect_uri_spec app uri) Huri). run_calmE.
  unfold User_get, User_get_roles. run_calmE. rewrite Hd, Hfu. cbn [option_map ok unwrap_or opt_filter].
  rewrite Hact. run_calmE. rewrite Hu, Hd.
  match goal with |- context [run (check_access_resolved app ?r) ?w0] =>
    destruct (run_check_access app r w0) as (w2 & Hr2 & Hd2 & Ht2); [cbn [db bump]; rewrite Hd; exact Had|rewrite Hr2] end.
  cbn [db bump tick] in *. run_calmE.
  match goal with |- context [run (mint_token_pair _ _ _ ?a ?b ?cc ?dd _ _ ?ee ?ff) w2] =>
    destruct (run_mint app client_id (u_row u) a b cc dd ee ff w2 (proj2 (application_exists_client _ _ _ Hc)) Hm)
      as (tr & w3 & Hr3); rewrite Hr3 end.
  run_calmE. destruct (run (audit_save _) w3) as [r4 w4]. cbn [fst snd run].
  exists tr, w2, w3, w4, (map ro_name (roles_of uid (db w))). split; [reflexivity|]. split; [exact Hr3|lia].
Qed.

Lemma run_token ctx h form app client_id uri code verifier uid v u row remaining w :
  well_formed (db w) -> in_force (db w) uid v u -> client_serves (db w) client_id uri app uid ->
  mints (st_signing_key st) (st_signing_kid st) ->
  code_exchange h form app client_id uri code verifier ->
  (check (oidc_token_rl (limiters w)) (ctx_ip ctx) (instant (tick w))).1 = Ok remaining ->
  row ∈ auth_codes (db w) -> ac_user_id row = uid -> ac_session_version row = Some v ->
  exchangeable code (a_id app) uri verifier (clock (3 + tick w)%nat) row = true ->
  exists tr w1 w2 w3 roles,
    run (token st ctx h form) w
    = (response 200 [("cache-control", "no-store"); ("pragma", "no-cache")]
         (JsonBody (token_response_json tr)), w3) /\
    run (mint_token_pair (st_origin st) app (u_row u) roles (parse_scope (ac_scope row)) (ac_nonce row)
           (ac_auth_time row) (st_signing_key st) (st_signing_kid st) (Some v) (ac_session_exp row)) w1
    = (Ok tr, w2) /\ (tick w <= tick w1)%nat.
Proof.
  intros Hw Hin Hs Hm He Hrl Hrow Hid Hsv Hx. destruct (fetch_in_force _ _ _ _ Hw Hin) as (Hfu & Hav & _).
  destruct Hin as (_ & _ & Hact & _). unfold token, token_impl. rewrite run_bind, run_bindE, run_convert.
  cbn [run rl_check]. destruct (check _ _ _) as [x rl]. cbn [fst] in Hrl. subst x. cbn [fst snd map_err].
  unfold oauth_err, acquire. run_calmE.
  match goal with |- context [run (token_client ctx h form) ?w0] =>
    rewrite (run_token_client ctx h form app client_id uri code verifier uid w0 He Hs) end.
  run_calmE.
  match goal with |- context [run (token_code ctx app client_id form) ?w0] =>
    destruct (run_token_code ctx h form app client_id uri code verifier row w0 Hw He Hrow Hx)
      as (w1 & Hr1 & (f & Hd1) & Ht1); rewrite Hr1 end.
  run_calmE. cbn [db tick bump] in *.
  destruct (run_token_grant ctx app client_id uri row uid v u w1) as (tr & w2 & w3 & w4 & roles & Hr2 & Hr3 & Ht2);
    try (rewrite Hd1; done); try done.
  - rewrite Hd1. by destruct Hs.
  - rewrite Hr2. cbn [fst snd either run]. exists tr, w2, w3, w4, roles. split; [done|]. split; [exact Hr3|lia].
Qed.

(** *** The user's data *)

Lemma run_userinfo `{!UuidLaws} ctx tok c app client_id uri uid v u w :
  well_formed (db w) -> in_force (db w) uid v u -> client_serves (db w) client_id uri app uid ->
  run (verify_oidc_access_token tok (st_origin st) (st_signing_key st)) w = (Ok c, bump (bump w)) ->
  oa_sub c = uuid_to_string uid -> oa_aud c = client_id -> oa_session_version c = Some v ->
  header_visible ("Bearer " ++ tok) = true ->
  exists w', run (userinfo st ctx (bearing tok)) w
    = (response 200 [("cache-control", "no-store")]
         (JsonBody (JObj (userinfo_claims (u_row u) (map ro_name (roles_of uid (db w))) (parse_scope (oa_scope c))))), w').
Proof.
  intros Hw Hin Hs Hv Hsub Haud Hsv Hh. destruct (fetch_in_force _ _ _ _ Hw Hin) as (Hfu & Hav & _).
  destruct Hin as (_ & Hid & Hact & _). destruct Hs as [Hc He _ _ Had].
  assert (Htok : mbind (strip_prefix "Bearer ") (get_text (bearing tok) "authorization") = Some tok).
  { unfold get_text, bearing, get_all, to_str. cbn [List.filter map fst snd]. rewrite beq_refl. cbn [map snd].
    rewrite Hh. cbn [mbind option_bind]. by apply strip_prefix_spec. }
  unfold userinfo, userinfo_impl, oauth_err, need, fail_if, acquire, get_by_oidc_client_id, User_get, User_get_roles.
  rewrite Htok. run_calmE. rewrite Hv. run_calmE. rewrite Hsub, uuid_parse_to_string. run_calmE. rewrite Hsv.
  match goal with |- context [run (verify_user_session uid ?t (Some v)) ?w0] =>
    destruct (run_verify_user_session uid t (Some v) w0) as (w1 & Hr1 & Hd1 & _); rewrite Hr1 end.
  unfold session_valid. cbn [db bump] in *. rewrite Hav, Z.eqb_refl. run_calmE. rewrite Hd1, Haud.
  unfold client_of in Hc. rewrite Hc. cbn [opt_filter]. rewrite He. run_calmE. rewrite Hd1, Hfu.
  cbn [option_map opt_filter]. rewrite Hact. run_calmE. rewrite Hid, Hd1.
  match goal with |- context [run (check_access_resolved app ?r) ?w0] =>
    destruct (run_check_access app r w0) as (w2 & Hr2 & _); [cbn [db bump]; rewrite Hd1; exact Had|rewrite Hr2] end.
  run_calmE. match goal with |- context [run (audit_save ?e) w2] => destruct (run (audit_save e) w2) as [r3 w3] end.
  cbn [fst snd run either]. by eexists.
Qed.

Lemma run_authorize `{!JwtLaws Claims, !UuidLaws} p uid roles v0 v1 v h ctx pq q app client_id uri scope verifier u w :
  run (generate_token_pair uid roles (st_signing_key st)) v0 = (Ok p, v1) ->
  active_version uid (db v0) = Some v ->
  cookie_value h AUTH_COOKIE_NAME = Some (access_token p) ->
  clock (4 + tick w)%nat < Z.min (clock (tick v0) + ACCESS_TOKEN_LIFETIME) (session_deadline v0) ->
  well_formed (db w) -> fresh_codes (db w) -> in_force (db w) uid v u ->
  client_serves (db w) client_id uri app uid -> code_request q client_id uri scope verifier ->
  exists code c t w1,
    run (authorize st ctx h pq q) w
    = (redirect 302 (append_query uri (with_state (aq_state q) [("code", code)])), w1) /\
    auth_codes (db w1) = append (granted_row q app uid uri (parse_scope scope) (base64url_encode (sha256 verifier))
                                   c code t) (auth_codes (db w)) /\
    clock (tick w) <= t /\ session_version c = Some v /\ session_exp c = Some (session_deadline v0).
Proof.
  intros Hg Hv0 Hck Ht Hw Hf Hin Hs Hq. pose proof (fetch_in_force _ _ _ _ Hw Hin) as (_ & Hav & _).
  pose proof (run_authorize_client q client_id uri scope verifier app uid w Hq Hs) as Hr0.
  destruct (run_resolve h p uid roles v0 v1 v (bump (bump w)) Hg Hv0 Hav Hck Ht)
    as (c & w1 & Hr1 & Hd1 & Ht1 & Hsub & Hsv & Hse).
  cbn [db bump tick] in Hd1, Ht1.
  set (needs_login := if prompt_none q then authorize_error_redirect uri (aq_state q) LoginRequired
                      else login_redirect pq).
  destruct (run_authorize_session ctx q app client_id uri (parse_scope scope)
              (base64url_encode (sha256 verifier)) needs_login c uid v u w1)
    as (code & row & t & w2 & Hr2 & -> & Ht2 & Hrows); [by rewrite Hd1|by rewrite Hd1|by rewrite Hd1|by rewrite Hd1|done|].
  exists code, c, t, w2. split; [|split; [by rewrite Hrows, Hd1|]].
  - unfold authorize, authorize_impl. rewrite run_bind, run_bind, Hr0. cbn [fst snd].
    rewrite (run_authorize_params q client_id uri scope verifier Hq). fold needs_login.
    rewrite run_bind, Hr1. cbn [fst snd]. by rewrite run_bind, Hr2.
  - split; [|done]. pose proof (clock_mono (tick w) (tick w1) ltac:(lia)). lia.
Qed.

(** C10: a login through the provider works.  A browser whose session a login
    opened, sent with a request of the code flow by an enabled client for its
    registered URI and an application that admits the user, is redirected there
    with a code.  While the code is neither used nor swept, for ten minutes or
    until the session ends, the client that authenticates and presents the
    verifier is answered with tokens.  For an hour or until the session ends,
    the access token is answered with the user's data as stored then, exactly as
    far as the scope asks.  In between the server may do anything, as long as the
    user stays active and admitted, the session unrevoked and the client set
    up. *)
Theorem oidc_login_works `{!JwtLaws Claims, !JwtLaws IdTokenClaims, !JwtLaws OidcAccessClaims, !UuidLaws}
    p uid roles v0 v1 v h ctx pq q app client_id uri scope verifier u w :
  run (generate_token_pair uid roles (st_signing_key st)) v0 = (Ok p, v1) ->
  active_version uid (db v0) = Some v ->
  cookie_value h AUTH_COOKIE_NAME = Some (access_token p) ->
  clock (4 + tick w)%nat < Z.min (clock (tick v0) + ACCESS_TOKEN_LIFETIME) (session_deadline v0) ->
  well_formed (db w) -> fresh_codes (db w) -> in_force (db w) uid v u ->
  client_serves (db w) client_id uri app uid ->
  code_request q client_id uri scope verifier -> rfc7636_verifier verifier ->
  mints (st_signing_key st) (st_signing_kid st) ->
  exists code row w1,
    run (authorize st ctx h pq q) w
    = (redirect 302 (append_query uri (with_state (aq_state q) [("code", code)])), w1) /\
    auth_codes (db w1) = append row (auth_codes (db w)) /\ ac_code_hash row = hash_code code /\
    forall ctx2 h2 form u2 remaining w2,
      well_formed (db w2) -> row ∈ auth_codes (db w2) -> in_force (db w2) uid v u2 ->
      client_serves (db w2) client_id uri app uid ->
      code_exchange h2 form app client_id uri code verifier ->
      (check (oidc_token_rl (limiters w2)) (ctx_ip ctx2) (instant (tick w2))).1 = Ok remaining ->
      clock (3 + tick w2)%nat < Z.min (clock (tick w) + AUTHORIZATION_CODE_LIFETIME) (session_deadline v0) ->
      exists tr w3,
        run (token st ctx2 h2 form) w2
        = (response 200 [("cache-control", "no-store"); ("pragma", "no-cache")]
             (JsonBody (token_response_json tr)), w3) /\
        forall ctx4 u4 w4,
          well_formed (db w4) -> in_force (db w4) uid v u4 -> client_serves (db w4) client_id uri app uid ->
          header_visible ("Bearer " ++ tr_access_token tr) = true ->
          clock (S (tick w4)) < Z.min (clock (tick w2) + OIDC_ACCESS_TOKEN_LIFETIME) (session_deadline v0) ->
          exists w5,
            run (userinfo st ctx4 (bearing (tr_access_token tr))) w4
            = (response 200 [("cache-control", "no-store")]
                 (JsonBody (JObj (userinfo_claims (u_row u4) (map ro_name (roles_of uid (db w4)))
                                    (parse_scope scope)))), w5).
Proof.
  intros Hg Hv0 Hck Ht Hw Hf Hin Hs Hq Hver Hm.
  destruct (run_authorize p uid roles v0 v1 v h ctx pq q app client_id uri scope verifier u w
              Hg Hv0 Hck Ht Hw Hf Hin Hs Hq) as (code & c & t & w2 & Hr & Hrows & Ht2 & Hsv & Hse).
  eexists code, _, w2. split; [exact Hr|]. split; [exact Hrows|]. split; [done|].
  intros ctx2 h2 form u2 remaining w3 Hw3 Hrow Hin3 Hs3 He Hrl Ht3.
  assert (Hx : exchangeable code (a_id app) uri verifier (clock (3 + tick w3)%nat)
                 (granted_row q app uid uri (parse_scope scope) (base64url_encode (sha256 verifier)) c code t) = true).
  { unfold exchangeable, unconsumed, granted_row. rewrite Hse. cbn.
    rewrite !beq_refl, (proj2 (verify_pkce_correct verifier _)) by done. cbn. rewrite !andb_true_r.
    apply Z.ltb_lt. unfold AUTHORIZATION_CODE_LIFETIME in Ht3. cbn [Nat.add] in Ht3. lia. }
  destruct (run_token ctx2 h2 form app client_id uri code verifier uid v u2 _ remaining w3 Hw3 Hin3 Hs3 Hm He Hrl
              Hrow eq_refl Hsv Hx) as (tr & w4 & w5 & w6 & roles2 & Hr3 & Hmint & Ht4).
  exists tr, w6. split; [exact Hr3|]. intros ctx4 u4 w7 Hw7 Hin7 Hs7 Hh Ht7.
  destruct Hin3 as (_ & Hid2 & _). unfold granted_row in Hmint. cbn [ac_scope ac_nonce ac_auth_time ac_session_exp] in Hmint.
  rewrite Hse in Hmint. pose proof (parse_join_scope _ (parse_scope_nodup scope) (cr_known _ _ _ _ _ Hq)) as Hps.
  rewrite Hps in Hmint.
  destruct (minted_tokens_correct _ _ _ _ _ _ _ _ _ _ _ _ _ _ Hmint) as (cid & Hcid & _ & _ & Hacc & _).
  pose proof (proj2 (application_exists_client _ _ _ (cs_client _ _ _ _ _ Hs7))) as Hcid7.
  assert (cid = client_id) as -> by congruence.
  destruct (Hacc w7) as (c7 & Hv7 & Hsub7 & Haud7 & Hsc7 & Hsv7).
  { cbn [unwrap_or]. pose proof (clock_mono (tick w3) (tick w4) Ht4). unfold OIDC_ACCESS_TOKEN_LIFETIME in Ht7. lia. }
  cbn [u_row] in Hsub7. rewrite Hid2 in Hsub7.
  destruct (run_userinfo ctx4 _ c7 app client_id uri uid v u4 w7 Hw7 Hin7 Hs7 Hv7 Hsub7 Haud7 Hsv7 Hh) as (w8 & Hr8).
  exists w8. by rewrite Hr8, Hsc7, Hps.
Qed.
End Run.
