(* ===== verification/EndpointDemo.v ===== *)
(** * Endpoints at concrete databases

    The theorems of [AccountFacts] at concrete inputs, with two interleavings
    that show where the endpoints rely on not being run at the same time, the
    theorems of [PasskeyFacts] at a stored credential, and those of
    [ForwardAuthFacts] at a page behind the reverse proxy; those about the
    directory at two users, an app password and a role, with two executions that
    show what the code does at the edges; and those about the OpenID provider
    at a client and a logged-in browser. *)

From S2P Require Import Prelude RStr RateLimit Schema Sys External Users AuditLog Net Settings Token TokenFacts Sessions SessionDemo Totp Application ApplicationFacts OidcCodes OidcToken Forward ForwardFacts Http LoginFlow LoginFacts LoginDemo PolicyPath ForwardAuth ForwardAuthFacts AppPasswords LdapSchema LdapFilter LdapHandler LdapFacts LdapSearch LdapServer LdapConnection Accounts AccountFacts Frame OAuth OAuthFacts Passkeys PasskeyFacts Writes WellFormed SignIn OAuthRun.
Local Open Scope Z_scope.
Local Open Scope string_scope.

(** ** Account administration *)
Module Administering.
#[local] Existing Instances demo_env demo_calm plain_hashing plain_ed25519 login_jwt login_jwt_laws
  plain_uuid plain_aead demo_serde plain_passwords plain_json plain_hmac plain_http.

Definition grace : UserRow := {|
  u_row := {| u_id := 8; u_username := "grace"; u_name := "Grace"; u_email := None; u_active := true;
              u_created_at := 0; u_updated_at := 0 |};
  u_token_version := 0 |}.
Definition admins_db : Db :=
  with_users (fun l => l ++ [grace])%list
  (with_user_roles (fun l => l ++ [{| ur_user_id := 8; ur_role_id := 1 |}])%list login_db).
Definition w_admins : World := start admins_db.

Lemma remove_role_keeps_admin_witness :
  (0 < admin_count (db (run (remove_role_as ctx 7 8 1) w_admins).2))%nat.
Proof.
  apply (remove_role_keeps_admin ctx 7 8 1 w_admins (run (remove_role_as ctx 7 8 1) w_admins).1).
  - refine (bool_decide_eq_true_1 _ _). vm_compute. reflexivity.
  - refine (bool_decide_eq_true_1 _ _). vm_compute. reflexivity.
  - apply surjective_pairing.
  - vm_compute. lia.
Defined.

(** Two administrators remove each other at the same time: both requests
    count two administrators before either deletes, and none is left. *)
Theorem mutual_removal_leaves_no_admin :
  let s := pool_run [0; 0; 0; 1; 1; 1; 0; 1; 0; 0; 0; 0; 0; 0; 1; 1; 1; 1; 1; 1]%nat
             ([remove_role_as ctx 7 8 1; remove_role_as ctx 8 7 1], w_admins) in
  admin_count (db w_admins) = 2%nat /\ admin_count (db s.2) = 0%nat /\
  map (fun p => match p with Ret (Ok _) => true | _ => false end) s.1 = [true; true].
Proof. vm_compute. done. Qed.

Definition new_password : ChangePasswordInput :=
  {| cp_current_password := password; cp_new_password := "battery staple" |}.
Definition h_ada : list (string * string) := [("authorization", "Bearer LA")].

Lemma password_change_correct_witness :
  session_valid 7 1011 (Some 2) (db w_in) = true /\
  session_valid 7 1011 (Some 2) (db (run (change_my_password st ctx h_ada new_password) w_in).2) = false.
Proof.
  split; [vm_compute; reflexivity|].
  assert (Hr : run (change_my_password st ctx h_ada new_password) w_in
               = (Ok tt, (run (change_my_password st ctx h_ada new_password) w_in).2))
    by (apply run_to; vm_compute; reflexivity).
  assert (Ha : (run (auth_user st h_ada) w_in).1 = Ok {| au_user_id := 7; au_roles := ["admin"] |})
    by (vm_compute; reflexivity).
  destruct (password_change_correct st ctx h_ada new_password w_in _ Hr) as (auth & w1 & user & salt & hash & Hauth & H).
  - intros u Hu. apply list_elem_of_singleton in Hu as ->. done.
  - rewrite Hauth in Ha. injection Ha as ->.
    destruct H as (_ & _ & _ & _ & _ & _ & Hdead). apply (Hdead 1011 (Some 2)).
    intros v [= <-] u Hu _. apply list_elem_of_singleton in Hu as ->. done.
Defined.

(** A login that has verified the old password when the password is changed
    obtains a session of the new generation: the change does not end it. *)
Section Race.
(** An encoder that shows the type and the generation of a token. *)
Local Definition shown (c : Claims) : string :=
  typ c ++ ":" ++ match session_version c with Some v => pretty v | None => "-" end.
Local Definition show_jwt : JwtCodec Claims := {|
  jwt_encode := fun _ c _ => Ok (shown c);
  jwt_decode := fun _ _ _ t => if beq t "LA" then Some LA else None |}.

Definition old_login : prog (option TokenPair) :=
  r <~ password_login (JC := show_jwt) upper any_name st ctx (ada_login password) ;; Ret (ok r).
Definition change : prog (option TokenPair) :=
  r <~ change_my_password (JC := show_jwt) st ctx h_ada new_password ;; Ret None.

Theorem login_survives_password_change :
  let s := pool_run (repeat 0%nat 4 ++ repeat 1%nat 40 ++ repeat 0%nat 40)%list ([old_login; change], w_in) in
  map (fun p => match p with Ret (Some pair) => [access_token pair] | _ => [] end) s.1 = [["access:3"]; []] /\
  map (fun a => au_scheme a) (authenticators (db s.2)) = [Password "$battery staple"] /\
  active_version 7 (db s.2) = Some 3.
Proof. vm_compute. done. Qed.
End Race.
End Administering.

(** ** Passkeys *)
Module PasskeyLogin.
(** A library whose challenges and answers are strings: the answer to a
    challenge is the challenge, by the credential ["cid"] of user 7. *)
Definition echo_webauthn : WebauthnLib := {|
  Webauthn := unit; PasskeyRegistration := string; RegisterPublicKeyCredential := string;
  Passkey := string; DiscoverableAuthentication := string; PublicKeyCredential := string;
  AuthenticationResult := bool;
  webauthn_builder := fun _ _ => Some (fun _ _ => Ok tt);
  start_passkey_registration := fun _ seed _ _ _ _ => Ok (JObj [("publicKey", JObj [])], seed);
  finish_passkey_registration := fun _ c r => if beq c r then Ok "cid" else Err "mismatch";
  start_discoverable_authentication := fun _ seed => Ok (JObj [("publicKey", JStr seed)], seed);
  identify_discoverable_authentication := fun _ _ => Ok (7%N, "cid");
  finish_discoverable_authentication := fun _ c a _ => if beq c a then Ok true else Err "mismatch";
  user_verified := fun r => r; update_credential := fun _ p => p; cred_id := fun p => p;
  parse_register_credential := fun j => match j with JStr s => Some s | _ => None end;
  parse_credential := fun j => match j with JStr s => Some s | _ => None end |}.
Definition plain_text : JsonText string := {| to_json := fun s => Ok s; from_json := fun s => Ok s |}.

Definition PA : Claims := access_claims (UL := plain_uuid) 7 ["admin"] 605809 (Some 2) 1012 1014 15.
Definition PR : Claims := refresh_claims (UL := plain_uuid) 7 605809 (Some 2) 1012 1016 17.
Definition pk_jwt : JwtCodec Claims := table_jwt [("PA", ("k", PA)); ("PR", ("k", PR))].

#[local] Existing Instances demo_env demo_calm plain_hashing plain_ed25519 pk_jwt plain_uuid
  plain_aead demo_serde plain_json plain_http echo_webauthn.
#[local] Instance demo_registration : JsonText PasskeyRegistration := plain_text.
#[local] Instance demo_passkey : JsonText Passkey := plain_text.
#[local] Instance demo_authentication : JsonText DiscoverableAuthentication := plain_text.
#[local] Instance demo_url : UrlLib := {| url_parse := fun s => Some {|
  url_text := s; url_scheme := "https"; url_host_str := Some "id"; url_username := "";
  url_password := None; url_fragment := None; url_path := "/"; url_host_port := "id";
  url_from_path := "/"; url_origin := Some ("https", "id", 443); url_origin_text := "https://id" |} |}.
#[local] Instance demo_parts : UrlParts := {| url_domain := url_host_str; url_query := fun _ => None |}.

Definition challenge_name : string := "0123456789abcdef0123456789abcdef0123456789abcdef0123456789abcdef".
Definition stored_challenge : ChallengeRow := {|
  pc_id := challenge_name; pc_kind := "login"; pc_user_id := None; pc_token_version := None;
  pc_name := None; pc_state := "nonce"; pc_expires_at := 1200 |}.
Definition stored_passkey : PasskeyRow := {|
  pk_id := 80; pk_user_id := 7; pk_credential_id := "cid"; pk_name := "laptop"; pk_credential := "cid";
  pk_created_at := 900; pk_last_used_at := None |}.
Definition w_pk : World :=
  start (with_passkeys (fun _ => [stored_passkey])
           (with_passkey_challenges (fun _ => [stored_challenge]) (demo_db None))).
Definition pk_cookies : list (string * string) :=
  [("cookie", "a=b; __Host-authere_passkey_login=" ++ challenge_name)].
Definition answering (answer : string) : prog (result AppError Response) :=
  login_finish_limited st ctx pk_cookies None (JStr answer).

Lemma passkey_login_sound_witness :
  exists row, verified_by (db w_pk) tt "nonce" "nonce" 7 "cid" row /\
    passkey_challenges (db (run (answering "nonce") w_pk).2) = [].
Proof.
  assert (Hr : exists r, run (answering "nonce") w_pk = (Ok r, (run (answering "nonce") w_pk).2))
    by (eexists; apply run_to; vm_compute; reflexivity).
  destruct Hr as [r Hr].
  pose proof (passkey_login_sound st ctx pk_cookies None (JStr "nonce") (Ok r) w_pk) as H.
  destruct (H _ Hr) as (id & ch & a & c & wa & uid & cid & row & session & tokens & Hid & Hin & Hn & Hk & Hl & Ha
                        & Hc & Hwa & Hi & Hv & _ & Hlog & _).
  injection Hc as <-. apply list_elem_of_singleton in Hin as ->. injection Ha as <-.
  injection Hi as <- <-. destruct wa. exists row. split; [exact Hv|].
  rewrite (logged_in_challenges _ _ _ _ _ Hlog). rewrite <- Hn. vm_compute. reflexivity.
Defined.

(** Two answers to one challenge race, one of them wrong. *)
Definition attempts : list (prog (result LoginError Response)) :=
  map (fun answer => login_finish st ctx pk_cookies None (JStr answer)) ["nonce"; "guess"; "nonce"].
Lemma passkey_challenge_single_use_witness :
  open_challenges challenge_name "login" (db w_pk) = 1%nat /\
  (wins is_ok (pool_run (concat (repeat [0; 1; 2]%nat 30)) (([] ++ attempts)%list, w_pk)).1 <= 1)%nat.
Proof.
  assert (open_challenges challenge_name "login" (db w_pk) = 1%nat) as H1 by (vm_compute; reflexivity).
  split; [exact H1|]. rewrite <- H1. eapply Nat.le_trans; [apply Nat.le_add_r|].
  refine (passkey_challenge_single_use st challenge_name attempts [] _ w_pk _ (List.Forall_nil _)).
  repeat constructor; (do 4 eexists; split; [|reflexivity]; vm_compute; reflexivity).
Defined.
End PasskeyLogin.

(** ** The verification endpoint

    A user with a forward-auth session asks for a page of a wiki behind the
    reverse proxy. *)
Module ProxiedPage.
#[local] Existing Instances plain_hashing plain_ed25519 plain_uuid plain_json ForwardFacts.Demo.demo_session
  ForwardFacts.Demo.demo_session_laws.
#[local] Instance demo_env : Env := calm_env 1000.
#[local] Instance demo_regex : RegexLib := {| regex_build := fun _ _ _ => None |}.
#[local] Instance demo_http : HttpLib := {| header_valid := fun _ => true; header_visible := fun _ => true |}.
#[local] Instance demo_encoding : UrlEncoding := {| url_encode := fun s => s; url_decode := fun s => Some s |}.

Definition https_url (host path : string) : Url := {|
  url_text := "https://" ++ host ++ path; url_scheme := "https"; url_host_str := Some host;
  url_username := ""; url_password := None; url_fragment := None; url_path := path;
  url_host_port := host; url_from_path := path; url_origin := Some ("https", host, 443);
  url_origin_text := "https://" ++ host |}.
#[local] Instance demo_url : UrlLib := {| url_parse := fun s =>
  if beq s "https://wiki.example/page" then Some (https_url "wiki.example" "/page")
  else if beq s "https://id" then Some (https_url "id" "/") else None |}.

Definition wiki_row : ApplicationRow := ApplicationFacts.Demo.demo_row {|
  a_id := 3; a_name := "Wiki"; a_slug := "wiki"; a_app_type := ForwardAuth;
  a_host_pattern := Some "wiki.example"; a_path_prefix := None; a_required_roles := ["staff"];
  a_enabled := true; a_oidc_client_id := None; a_oidc_redirect_uris := [];
  a_oidc_post_logout_redirect_uris := []; a_oidc_confidential := false; a_created_at := 0;
  a_updated_at := 0; a_oidc_client_secret_hash := None |}.
Definition db0 : Db :=
  with_applications (fun _ => [wiki_row])
  (with_roles (fun _ => [{| ro_id := 2; ro_name := "staff"; ro_description := None |}])
  (with_user_roles (fun _ => [{| ur_user_id := 7; ur_role_id := 2 |}])
  (with_users (fun _ => [ForwardFacts.Demo.ada]) empty_db))).
Definition w0 : World := start db0.
Definition st : AppState := {| st_signing_key := "k"; st_signing_kid := "kid"; st_origin := "https://id" |}.
Definition page_request (credential : list (string * string)) : list (string * string) :=
  ([("x-forwarded-host", "wiki.example"); ("x-forwarded-uri", "/page")] ++ credential)%list.
Definition with_session : list (string * string) := page_request [("cookie", "__Host-authere_forward=S")].

(** With the session the page is shown, as this user; without it the browser
    is sent to log in. *)
Lemma verify_auth_sound_witness :
  exists r r', (run (verify_auth st with_session) w0).1 = Ok r /\
    (run (verify_auth st (page_request [])) w0).1 = Err r' /\ rs_status r' = 303 /\
    rs_status r = 200 /\
    exists row, identity_headers (u_row row) (map ro_name (roles_of (u_id row) (db w0))) (rs_headers r).
Proof.
  do 2 eexists. split; [vm_compute; reflexivity|]. split; [vm_compute; reflexivity|].
  split; [reflexivity|].
  match goal with |- rs_status ?r = 200 /\ _ =>
    assert (Hr : run (verify_auth st with_session) w0 = (Ok r, (run (verify_auth st with_session) w0).2))
      by (apply run_to; vm_compute; reflexivity);
    pose proof (verify_auth_sound st with_session _ w0 _ Hr) as Hs end.
  destruct Hs as (Hst & _ & target & app & token & fs & row & Hs).
  split; [exact Hst|]. exists row. apply Hs.
Defined.
End ProxiedPage.

(** ** The directory *)
Module Directory.
#[local] Existing Instances plain_hashing plain_uuid plain_passwords plain_json.
#[local] Instance dir_env : Env := calm_env 1000.
#[local] Instance dir_calm : Calm dir_env.
Proof. apply calm_env_calm. Defined.

Definition ada : User := {|
  u_id := 7; u_username := "ada"; u_name := "Ada L"; u_email := Some "ada@example.org";
  u_active := true; u_created_at := 0; u_updated_at := 0 |}.
Definition bob : User := {|
  u_id := 8; u_username := "bob"; u_name := "Bob"; u_email := None;
  u_active := false; u_created_at := 0; u_updated_at := 0 |}.
Definition admins : Role := {| ro_id := 1; ro_name := "admin"; ro_description := None |}.
Definition ada_app_password : AppPasswordRow := {|
  apw_id := 20; apw_user_id := 7; apw_name := "tv"; apw_password_hash := "$tv-secret";
  apw_created_at := 10; apw_last_used_at := None |}.

Definition dir_settings : list SettingRow := [
  {| se_key := KEY_LDAP_ENABLED; se_value := "true" |};
  {| se_key := KEY_LDAP_BASE_DN; se_value := "dc=authere,dc=local" |};
  {| se_key := KEY_LDAP_BIND_ADDRESS; se_value := "0.0.0.0:3389" |};
  {| se_key := KEY_LDAP_SERVICE_PASSWORD_HASH; se_value := "$svc" |};
  {| se_key := KEY_LDAP_PASSWORD_MODE; se_value := "primary_and_app" |}].
Definition dir_db : Db :=
  with_users (fun _ => [{| u_row := ada; u_token_version := 0 |}; {| u_row := bob; u_token_version := 0 |}])
  (with_roles (fun _ => [admins])
  (with_user_roles (fun _ => [{| ur_user_id := 7; ur_role_id := 1 |}])
  (with_app_passwords (fun _ => [ada_app_password])
  (with_settings (fun _ => dir_settings) empty_db)))).
Definition w0 : World := start dir_db.

Definition loaded {A} (r : result AppError A) (d : A) : A := match r with Ok a => a | Err _ => d end.
Definition no_cfg : LdapConfig := {|
  lc_enabled := false; lc_base_dn := ""; lc_bind_address := {| sa_ip := V4 0; sa_port := 0; sa_scope := 0 |};
  lc_service_password_hash := None; lc_password_mode := PrimaryOnly |}.
Definition cfg : LdapConfig := Eval vm_compute in loaded (run load_ldap_config w0).1 no_cfg.
Definition root : Dn := {| rdns := [("dc", "authere"); ("dc", "local")] |}.
Definition peer : IpAddr := V4 1.

Definition ada_bind : SimpleBindRequest :=
  {| sb_dn := "UID=ada, ou=people,dc=authere,dc=local"; sb_pw := "tv-secret" |}.

Lemma ldap_bind_sound_witness :
  exists user, u_id user = 7%N /\ may_bind dir_db PrimaryAndApp user "tv-secret".
Proof.
  assert (Hr : run (handle_bind ada_bind cfg peer) w0
               = (Ok (gen_success, BoundUser 7), (run (handle_bind ada_bind cfg peer) w0).2))
    by (apply run_to; vm_compute; reflexivity).
  destruct (ldap_bind_sound ada_bind cfg peer w0 _ _ _ Hr) as (_ & Hev & _); [done|].
  destruct Hev as (user & name & people & Hid & Hm & _). exists user. split; [exact Hid|exact Hm].
Defined.

Definition everyone : SearchRequest := {|
  rq_base := "dc=authere,dc=local"; rq_scope := Subtree; rq_filter := Present "cn"; rq_attrs := ["cn"] |}.

Lemma usable_demo : usable_base cfg root.
Proof. split; [discriminate|]. split; vm_compute; reflexivity. Qed.
Lemma safe_demo : safe_names (db w0).
Proof.
  split; intros x Hx; repeat (apply elem_of_cons in Hx as [->|Hx]; [vm_compute; reflexivity|]);
    by apply elem_of_nil in Hx.
Qed.

Lemma ldap_search_correct_witness :
  exists final, completes final /\
    (run (handle_search "1.0" everyone cfg (BoundUser 7)) w0).1
    = (map (fun e => gen_result_entry (to_ldap e ["cn"]))
         (List.filter (selected everyone root) (directory cfg dir_db)) ++ [final])%list.
Proof.
  apply (ldap_search_correct "1.0" everyone cfg (BoundUser 7) root root w0).
  - reflexivity.
  - exact usable_demo.
  - exact safe_demo.
  - discriminate.
  - eexists. split; reflexivity.
  - vm_compute. reflexivity.
  - discriminate.
Defined.

Example search_demo :
  map sr_dn (entries_of (run (handle_search "1.0" everyone cfg (BoundUser 7)) w0).1)
  = ["uid=ada,ou=people,dc=authere,dc=local"; "uid=bob,ou=people,dc=authere,dc=local";
     "cn=admin,ou=groups,dc=authere,dc=local"].
Proof. vm_compute. reflexivity. Qed.

Lemma ldap_search_gated_witness :
  lc_enabled cfg = true /\
  (rq_base everyone = "" \/ Service = Service \/
   exists uid (u : UserRow), Service = BoundUser uid /\ u ∈ users (db w0) /\ u_id u = uid /\ u_active u = true).
Proof. apply (ldap_search_gated "1.0" everyone cfg Service w0). vm_compute. discriminate. Defined.

(** An anonymous client that asks for the subtree of the empty base gets the
    whole directory. *)
Theorem anonymous_empty_base_dump :
  map sr_dn (entries_of (run (handle_search "1.0"
    {| rq_base := ""; rq_scope := Subtree; rq_filter := Present "objectClass"; rq_attrs := [] |}
    cfg Anonymous) w0).1)
  = ["uid=ada,ou=people,dc=authere,dc=local"; "uid=bob,ou=people,dc=authere,dc=local";
     "cn=admin,ou=groups,dc=authere,dc=local"].
Proof. vm_compute. reflexivity. Qed.

(** A base name the settings endpoint admits and [service_dn] panics on. *)
Theorem service_dn_panics :
  validate_base_dn "dc=\" = Ok tt /\
  service_dn {| lc_enabled := true; lc_base_dn := "dc=\"; lc_bind_address := lc_bind_address cfg;
                lc_service_password_hash := None; lc_password_mode := PrimaryOnly |}
  = Err (Panicked "service DN must parse").
Proof. vm_compute. done. Qed.

Definition fresh_conn : Conn := {| cn_cfg := cfg; cn_bind := Anonymous |}.
Definition after_bind : Life :=
  let r := run (on_message "1.0" peer (SimpleBind ada_bind) fresh_conn) w0 in
  {| conn := match r.1 with Ok (_, c) => c | Err _ => fresh_conn end; world := r.2; past := [w0] |}.

Lemma ldap_session_grounded_witness :
  cn_bind (conn after_bind) = BoundUser 7 /\
  (cn_bind (conn after_bind) = Anonymous \/
   exists w req, w ∈ past after_bind /\
     bind_evidence (db w) (cn_cfg (conn after_bind)) req (cn_bind (conn after_bind))).
Proof.
  split; [vm_compute; reflexivity|].
  apply (ldap_session_grounded "1.0" peer fresh_conn w0 after_bind); [reflexivity|].
  eapply star_step; [|apply star_refl].
  apply (life_message "1.0" peer (SimpleBind ada_bind)
           {| conn := fresh_conn; world := w0; past := [] |} [RBind gen_success]).
  cbn [conn world]. apply run_to. vm_compute. reflexivity.
Defined.

(** A connection that searches, binds, searches again and says good-bye; its
    peer takes every answer. *)
Definition visit : list Input := [
  Message (Search everyone); Message (SimpleBind ada_bind); Message (Search everyone); Message Unbind;
  Message (Search everyone)].
Definition visited : (list Exchange * Ending) * World :=
  run (handle_connection "1.0" (fun _ => true) peer visit) w0.
Definition shown : list Reply := (nth 2 visited.1.1 (Unbind, [])).2.
Definition is_entry (r : Reply) : bool := match r with RSearch (gen_result_entry _) => true | _ => false end.

Lemma directory_needs_bind_witness :
  map (fun x : Exchange => length x.2) visited.1.1 = [1%nat; 1%nat; 4%nat] /\ visited.1.2 = Farewell /\
  exists b w1 c st, (SimpleBind b, [RBind gen_success]) ∈ take 2 visited.1.1 /\
    st <> Anonymous /\ bind_evidence (db w1) c b st.
Proof.
  split; [vm_compute; reflexivity|]. split; [vm_compute; reflexivity|].
  assert (Hl : visited.1.1 = (take 2 visited.1.1 ++ [(Search everyone, shown)])%list)
    by (vm_compute; reflexivity).
  assert (He : existsb is_entry shown = true) by (vm_compute; reflexivity).
  apply existsb_exists in He as (r & Hin & He). apply list_elem_of_In in Hin.
  destruct r as [|[e| |]| | |]; try discriminate He. clear He.
  destruct (directory_needs_bind "1.0" (fun _ => true) peer visit w0 visited.1.1 visited.1.2 visited.2
              (take 2 visited.1.1) everyone shown [] e) as [Hb|[Hb _]]; [|exact Hl|exact Hin|exact Hb|discriminate Hb].
  assert (Hv : run (handle_connection "1.0" (fun _ => true) peer visit) w0 = visited)
    by (unfold visited; reflexivity).
  refine (eq_trans Hv _). by destruct visited as [[? ?] ?].
Defined.
End Directory.

(** ** The OpenID provider *)
Module Provider.
(** A hash that leaves a verifier a well-formed challenge. *)
Definition own_hashing : Hashing := {|
  sha256 := fun s => s; hex_encode := fun s => s; hex_decode := fun s => Some s;
  base64url_encode := fun s => s; base64url_decode := fun s => Some s |}.

#[local] Existing Instances demo_env demo_calm plain_ed25519 login_jwt login_jwt_laws plain_uuid
  plain_aead demo_serde plain_json plain_http own_hashing.
#[local] Instance demo_encoding : UrlEncoding := {| url_encode := fun s => s; url_decode := fun s => Some s |}.
#[local] Instance demo_base64 : Base64Std := {| base64_decode := fun s => Some s |}.
#[local] Instance demo_parts : AxumParts := {| parts_error := fun _ => response 500 [] (Text "failed to parse header value") |}.
#[local] Instance demo_parts_laws : AxumPartsLaws.
Proof. by split. Qed.

(** ** A confidential client and the browser of [LoginDemo] *)
Definition column (l : list string) : option string := ok (json_of_strings l).
Definition rp : ApplicationRow := {|
  ap_id := 5; ap_name := "RP"; ap_slug := "rp"; ap_host_pattern := None; ap_path_prefix := None;
  ap_required_roles := column ["admin"]; ap_enabled := 1; ap_created_at := 0; ap_updated_at := 0;
  ap_app_type := "oidc"; ap_oidc_client_id := Some "c"; ap_oidc_client_secret_hash := Some "s3";
  ap_oidc_redirect_uris := column ["https://rp/cb"];
  ap_oidc_post_logout_redirect_uris := column ["https://rp/bye"] |}.
Definition w_rp : World := set_db (with_applications (fun _ => [rp]) (db w_in)) w_in.

Definition verifier : string := "dBjftJeZ4CVP-mB92K27uhbUJU1p1r_wW1gFWFOEjXk".
Definition query : AuthorizeQuery := {|
  aq_response_type := Some "code"; aq_client_id := Some "c"; aq_redirect_uri := Some "https://rp/cb";
  aq_scope := Some "openid email"; aq_state := Some "xyz"; aq_nonce := Some "n";
  aq_code_challenge := Some verifier; aq_code_challenge_method := Some "S256"; aq_prompt := None;
  aq_max_age := None |}.
Definition authorizing : prog (result Response Response * option TokenPair) :=
  authorize_impl st ctx cookies (Some "/oauth/authorize?q") query.
Definition w_code : World := (run authorizing w_rp).2.

(** ** The exchange of its code *)
Definition scope : list string := ["openid"; "email"].
Definition I1 : IdTokenClaims := with_session (Some 2) (Some 605806)
  (build_id_token_claims "https://id" "c" demo_user ["admin"] scope (Some "n") 1009 1045).
Definition O1 : OidcAccessClaims :=
  oidc_access_claims "https://id" 7 "c" scope (Some 2) (Some 605806) 1046 47.
#[local] Instance demo_id : JwtCodec IdTokenClaims := table_jwt [("I", ("k", I1))].
#[local] Instance demo_access : JwtCodec OidcAccessClaims := table_jwt [("O", ("k", O1))].
Definition code : string := "rrrrrrrrrrrrrrrrrrrrrrrrrrrrrrrr".
Definition exchange : TokenForm := {|
  tf_grant_type := Some "authorization_code"; tf_code := Some code;
  tf_redirect_uri := Some "https://rp/cb"; tf_client_id := Some "c"; tf_client_secret := Some "s3";
  tf_code_verifier := Some verifier |}.
Definition w_tokens : World := (run (token_impl st ctx [] exchange) w_code).2.

Lemma authorize_correct_witness :
  exists app uri code t uid claims, trusted (db w_rp) query app "c" uri /\
    auth_codes (db w_code)
      = (auth_codes (db w_rp) ++ [granted_row query app uid uri scope verifier claims code t])%list.
Proof.
  assert (Hr : exists r, run authorizing w_rp = ((Ok r, None), (run authorizing w_rp).2))
    by (eexists; apply run_to; vm_compute; reflexivity).
  destruct Hr as [r Hr].
  pose proof (authorize_correct st ctx cookies (Some "/oauth/authorize?q") query (Ok r) None w_rp) as H.
  destruct (H _ Hr)
    as [_ (app & cid & uri & sc & ch & claims & uid & c & t & w0 & w1 & Ht & Hg & H0 & Hs & _ & _ & Hc & _)].
  pose proof Ht as (Hcid & _). injection Hcid as <-.
  destruct Hg as (_ & -> & _ & _ & Hch & _). injection Hch as <-.
  exists app, uri, c, t, uid, claims. split; [exact Ht|exact Hc].
Defined.

Lemma token_endpoint_sound_witness :
  exists app row, row ∈ auth_codes (db w_code) /\ admitted (db w_code) app (ac_user_id row).
Proof.
  assert (Hr : exists r, run (token_impl st ctx [] exchange) w_code = (Ok r, (run (token_impl st ctx [] exchange) w_code).2))
    by (eexists; apply run_to; vm_compute; reflexivity).
  destruct Hr as [r Hr].
  pose proof (token_endpoint_sound st ctx [] exchange (Ok r) w_code) as H.
  destruct (H _ Hr)
    as (app & cid & c & uri & v & t & row & user & roles & tr & w1 & w2 & _ & _ & _ & _ & Hin & _ & _ & _ & Ha & _).
  exists app, row. split; [exact Hin|exact Ha].
Defined.

Definition bearer : list (string * string) := [("authorization", "Bearer O")].
Lemma userinfo_sound_witness :
  exists app, client_of (db w_tokens) "c" = Some app /\ admitted (db w_tokens) app 7.
Proof.
  assert (Hr : exists r, run (userinfo_impl st ctx bearer) w_tokens
                         = (Ok r, (run (userinfo_impl st ctx bearer) w_tokens).2))
    by (eexists; apply run_to; vm_compute; reflexivity).
  destruct Hr as [r Hr].
  pose proof (userinfo_sound st ctx bearer (Ok r) w_tokens) as H.
  destruct (H _ Hr)
    as (token & claims & uid & app & row & w1 & Htok & Hv & Hu & _ & Hc & _ & _ & _ & Ha & _).
  vm_compute in Htok. injection Htok as <-. vm_compute in Hv. injection Hv as <- _.
  vm_compute in Hu. injection Hu as <-. exists app. split; [exact Hc|exact Ha].
Defined.

(** ** Logout from the relying party's site *)
Definition rp_logout (hint : option string) : EndSessionQuery := {|
  eq_id_token_hint := hint; eq_client_id := Some "c";
  eq_post_logout_redirect_uri := Some "https://rp/bye"; eq_state := None |}.
Definition leaving (hint : option string) : prog Response :=
  end_session_impl st ctx cookies (rp_logout hint) false true.

(** A forged request changes nothing; one with the ID token ends the session. *)
Lemma logout_needs_intent_witness :
  db (run (leaving None) w_tokens).2 = db w_tokens /\
  set_cookies (run (leaving (Some "I")) w_tokens).1 = clear_auth_cookies.
Proof.
  split; [|vm_compute; reflexivity].
  assert (Hr : run (leaving None) w_tokens = ((run (leaving None) w_tokens).1, (run (leaving None) w_tokens).2))
    by apply surjective_pairing.
  pose proof (logout_needs_intent st ctx cookies (rp_logout None) false true) as H.
  destruct (H _ _ _ Hr)
    as (s & w1 & Hs & Hdb & Hm).
  assert (He : exists e, s = Err e).
  { assert (H1 : (run (logout_start st cookies (rp_logout None) true) w_tokens).1 = s) by (rewrite Hs; reflexivity).
    vm_compute in H1. eexists. symmetry. exact H1. }
  destruct He as [e ->]. rewrite (proj1 Hm). apply Hdb. reflexivity.
Defined.

(** ** A whole login with a key that signs everything *)
Module ProviderLogin.
#[local] Existing Instance claims_countable.
#[local] Instance IdTokenClaims_countable : Countable IdTokenClaims :=
  inj_countable' (fun c => (((id_iss c, id_sub c), (id_aud c, id_exp c), (id_iat c, id_auth_time c, id_session_version c)),
                            ((id_nonce c, id_name c), (id_preferred_username c, id_updated_at c),
                             (id_email c, id_email_verified c, id_roles c))))
    (fun x => let '(((a, b), (c, d), (e, f, g)), ((h, i), (j, k), (l, m, n))) := x in
       {| id_iss := a; id_sub := b; id_aud := c; id_exp := d; id_iat := e; id_auth_time := f;
          id_session_version := g; id_nonce := h; id_name := i; id_preferred_username := j;
          id_updated_at := k; id_email := l; id_email_verified := m; id_roles := n |})
    (fun c => match c with Build_IdTokenClaims _ _ _ _ _ _ _ _ _ _ _ _ _ _ => eq_refl end).
#[local] Instance OidcAccessClaims_countable : Countable OidcAccessClaims :=
  inj_countable' (fun c => (((oa_iss c, oa_sub c), (oa_aud c, oa_exp c)), ((oa_iat c, oa_jti c), (oa_scope c, oa_typ c)),
                            oa_session_version c))
    (fun x => let '(((a, b), (c, d)), ((e, f), (g, h)), i) := x in
       {| oa_iss := a; oa_sub := b; oa_aud := c; oa_exp := d; oa_iat := e; oa_jti := f; oa_scope := g;
          oa_typ := h; oa_session_version := i |})
    (fun c => match c with Build_OidcAccessClaims _ _ _ _ _ _ _ _ _ => eq_refl end).
#[local] Instance signing_jwt : JwtCodec Claims := sealed_jwt.
#[local] Instance signing_id : JwtCodec IdTokenClaims := sealed_jwt.
#[local] Instance signing_access : JwtCodec OidcAccessClaims := sealed_jwt.
#[local] Instance signing_laws : @JwtLaws Claims plain_ed25519 signing_jwt _ := sealed_jwt_laws.
#[local] Instance signing_id_laws : @JwtLaws IdTokenClaims plain_ed25519 signing_id _ := sealed_jwt_laws.
#[local] Instance signing_access_laws : @JwtLaws OidcAccessClaims plain_ed25519 signing_access _ := sealed_jwt_laws.
#[local] Existing Instance plain_uuid_laws.
#[local] Instance demo_mono : MonotoneClock demo_env := calm_env_mono 1000.

Definition client : Application := of_row rp.
Definition v0 : World :=
  start (with_applications (fun _ => [rp]) (with_refresh_tokens (fun _ => []) login_db)).
Definition logged_in : result AppError TokenPair * World := run (generate_token_pair 7 ["admin"] "k") v0.
Definition pair : TokenPair :=
  match logged_in.1 with
  | Ok p => p
  | Err _ => {| access_token := ""; refresh_token := ""; expires_in := 0; refresh_expires_in := 0; token_type := "" |}
  end.
Definition browser : list (string * string) := [("cookie", "__Host-authere_token=" ++ access_token pair)].
Definition w_granted : World := (run (authorize st ctx browser None query) logged_in.2).2.
Definition granted_code : AuthCodeRow :=
  List.last (auth_codes (db w_granted))
    {| ac_code_hash := ""; ac_application_id := 0; ac_user_id := 0; ac_redirect_uri := ""; ac_scope := "";
       ac_nonce := None; ac_code_challenge := ""; ac_code_challenge_method := ""; ac_auth_time := 0;
       ac_expires_at := 0; ac_consumed_at := None; ac_session_version := None; ac_session_exp := None |}.

Lemma serves d : client_of d "c" = Some client -> roles_of 7 d = roles_of 7 login_db ->
  client_serves d "c" "https://rp/cb" client 7.
Proof.
  intros Hc Hr. split; [done|reflexivity|reflexivity|refine (bool_decide_eq_true_1 _ _); vm_compute; reflexivity|].
  rewrite Hr. right. exists "admin", "admin".
  split; [refine (bool_decide_eq_true_1 _ _); vm_compute; reflexivity|].
  split; [vm_compute; reflexivity|refine (bool_decide_eq_true_1 _ _); vm_compute; reflexivity].
Qed.

Lemma exchange_ok : code_exchange [] exchange client "c" "https://rp/cb" code verifier.
Proof.
  split; [|reflexivity..]. exists (Some "s3"). split; [vm_compute; reflexivity|].
  intros _. exists "s3". split; [reflexivity|vm_compute; reflexivity].
Qed.
Lemma oidc_login_works_witness :
  (exists r, run (authorize st ctx browser None query) logged_in.2 = (r, w_granted) /\ rs_status r = 302) /\
  exists tr w3 w5, run (token st ctx [] exchange) w_granted
      = (response 200 [("cache-control", "no-store"); ("pragma", "no-cache")] (JsonBody (token_response_json tr)), w3) /\
    run (userinfo st ctx (bearing (tr_access_token tr))) w_granted
    = (response 200 [("cache-control", "no-store")]
         (JsonBody (JObj [("sub", JStr (uuid_to_string 7%N))])), w5).
Proof.
  assert (Hw1 : well_formed (db logged_in.2)) by check_well_formed.
  assert (Hw2 : well_formed (db w_granted)) by check_well_formed.
  assert (Hin1 : in_force (db logged_in.2) 7 2 demo_user)
    by (split; [by left|by repeat split]).
  assert (Hin2 : in_force (db w_granted) 7 2 demo_user)
    by (split; [by left|by repeat split]).
  assert (Hs1 : client_serves (db logged_in.2) "c" "https://rp/cb" client 7) by (apply serves; vm_compute; reflexivity).
  assert (Hs2 : client_serves (db w_granted) "c" "https://rp/cb" client 7) by (apply serves; vm_compute; reflexivity).
  destruct (oidc_login_works st pair 7 ["admin"] v0 logged_in.2 2 browser ctx None query client "c" "https://rp/cb"
              "openid email" verifier demo_user logged_in.2) as (c & row & w1 & Hr & Hrows & Hc & Hnext).
  - apply injective_projections; [vm_compute; reflexivity|reflexivity].
  - reflexivity.
  - vm_compute. reflexivity.
  - vm_compute. reflexivity.
  - exact Hw1.
  - intros i r Hx. vm_compute in Hx. by apply not_elem_of_nil in Hx.
  - exact Hin1.
  - exact Hs1.
  - split; try reflexivity; refine (bool_decide_eq_true_1 _ _); vm_compute; reflexivity.
  - split; [vm_compute; lia|vm_compute; reflexivity].
  - exists "k". by repeat split.
  - assert (Hg : w1 = w_granted) by (unfold w_granted; by rewrite Hr). subst w1.
    split; [eexists; split; [exact Hr|reflexivity]|].
    assert (Hrow : row = granted_code) by (unfold granted_code; rewrite Hrows; symmetry; apply List.last_last).
    subst row.
    assert (c = code) as ->.
    { vm_compute in Hc. by rewrite <- Hc. }
    destruct (Hnext ctx [] exchange demo_user 4 w_granted Hw2) as (tr & w3 & Ht & Huser).
    + rewrite Hrows. apply elem_of_app. right. by left.
    + exact Hin2.
    + exact Hs2.
    + exact exchange_ok.
    + vm_compute. reflexivity.
    + vm_compute. reflexivity.
    + destruct (Huser ctx demo_user w_granted Hw2 Hin2 Hs2) as (w5 & Hu); [reflexivity|vm_compute; reflexivity|].
      exists tr, w3, w5. split; [exact Ht|exact Hu].
Defined.

End ProviderLogin.
End Provider.
