(* ===== verification/SystemDemo.v ===== *)
(** * The theorems about the whole server at a fresh installation

    Every parameter of the server by a concrete stand-in, the database the
    migrations leave, and a few activities at once. *)

From S2P Require Import Prelude RStr RateLimit Schema Sys External Users AuditLog Net Settings Token TokenFacts Sessions SessionDemo Totp LoginFlow LoginFacts LoginDemo Application Forward Http OidcCodes OidcToken AppPasswords Invitations Accounts Passkeys EndpointDemo TotpHandlers ApplicationHandlers SettingsHandlers AuditExport ForwardAuth OAuth ClientAddress LdapHandler BrowserSecurity Keys BrowserRetry Startup WellFormed Lifecycle Routes Server SessionSpec System SystemSpec Access Respond Isolation Main SignIn.
Local Open Scope Z_scope.
Local Open Scope string_scope.
Import EndpointDemo.PasskeyLogin.

#[local] Existing Instances demo_env demo_calm plain_hashing plain_ed25519 login_jwt plain_uuid
  plain_aead demo_serde plain_passwords plain_json plain_hmac plain_http echo_webauthn.
#[local] Instance demo_regex : RegexLib := {| regex_build := fun _ _ _ => None |}.
#[local] Instance demo_url : UrlLib := {| url_parse := fun s => Some {|
  url_text := s; url_scheme := "https"; url_host_str := Some "id"; url_username := "";
  url_password := None; url_fragment := None; url_path := "/"; url_host_port := "id";
  url_from_path := "/"; url_origin := Some ("https", "id", 443); url_origin_text := "https://id" |} |}.
#[local] Instance demo_url_parts : UrlParts := {| url_domain := url_host_str; url_query := fun _ => None |}.
#[local] Instance demo_encoding : UrlEncoding := {| url_encode := fun s => s; url_decode := fun s => Some s |}.
#[local] Instance demo_base64 : Base64Std := {| base64_decode := fun s => Some s |}.
#[local] Instance demo_parts : AxumParts := {| parts_error := fun _ => response 500 [] (Text "failed to parse header value") |}.
#[local] Instance demo_rand : RandLib := {| gen_range_at := fun _ _ => 0%nat |}.
#[local] Instance demo_records : RecordsJson := {| to_string_pretty := fun _ => Ok "[]" |}.
#[local] Instance demo_agent : UserAgentHeader := {| user_agent_text := fun _ => None |}.
#[local] Instance demo_session : JwtCodec ForwardSession := table_jwt [].
#[local] Instance demo_handoff : JwtCodec Handoff := table_jwt [].
#[local] Instance demo_id : JwtCodec IdTokenClaims := table_jwt [].
#[local] Instance demo_access : JwtCodec OidcAccessClaims := table_jwt [].
#[local] Instance demo_registration : JsonText PasskeyRegistration := plain_text.
#[local] Instance demo_passkey : JsonText Passkey := plain_text.
#[local] Instance demo_authentication : JsonText DiscoverableAuthentication := plain_text.

Definition no_letter (s : string) : bool := false.
Definition at_once (sched : list nat) (activities : list Activity) (w : World) : World :=
  (pool_run sched (map (perform any_name any_name upper no_letter "0.1.0" st) activities, w)).2.
Definition from_browser (c : Call) (h : list (string * string)) : Incoming :=
  {| in_headers := h; in_peer := Some (V4 1); in_call := c |}.

(** ** A fresh installation: two administrators are set up while a stranger
    registers *)
Definition stranger : RegisterInput := {|
  ri_username := "eve"; ri_name := "Eve"; ri_email := None; ri_password := "battery staple";
  ri_confirm_password := "battery staple"; ri_invite_code := None |}.
Definition busy_start : list Activity := [
  InitAdmin "root" "correct horse" "Administrator" None;
  HttpRequest (from_browser (Register stranger) []);
  SweepRound; CleanupRound].
Definition every_turn : list nat := concat (repeat [0; 1; 2; 3]%nat 40).

Lemma database_well_formed_witness :
  well_formed (db (at_once every_turn busy_start (start migrated_db))) /\
  stored_ok any_name any_name (db (at_once every_turn busy_start (start migrated_db))) /\
  map (fun u : UserRow => u_username u) (users (db (at_once every_turn busy_start (start migrated_db)))) = ["root"].
Proof.
  pose proof (database_well_formed any_name any_name upper no_letter "0.1.0" st) as [[Hm Ho] Hs].
  destruct (Hs busy_start every_turn (start migrated_db)) as [Hm' Ho'].
  split; [exact (Hm' Hm)|]. split; [exact (Ho' Ho)|vm_compute; reflexivity].
Defined.

(** ** A user whose sessions are revoked, with a refresh on its way *)
Definition w_revoked : World := (run (revoke_user_access_tokens 7) w_in).2.
Definition latecomers : list Activity := [
  HttpRequest (from_browser (RefreshToken "LR") []);
  HttpRequest (from_browser ListRoles [("authorization", "Bearer LA")]);
  CleanupRound].

Lemma revocation_is_final_witness :
  session_valid 7 1011 (Some 2) (db w_in) = true /\
  session_valid 7 1011 (Some 2) (db (at_once every_turn latecomers w_revoked)) = false.
Proof.
  split; [vm_compute; reflexivity|].
  refine (proj1 (revocation_is_final any_name any_name upper no_letter "0.1.0" st 7 w_in w_revoked
                   latecomers every_turn _ _) 1011 (Some 2) _).
  - unfold w_revoked. apply run_to. vm_compute. reflexivity.
  - intros u Hu. apply list_elem_of_singleton in Hu as ->. done.
  - intros v [= <-] u Hu _. apply list_elem_of_singleton in Hu as ->. done.
Defined.

(** ** A logout that races with a refresh and a directory connection *)
Definition race : list Activity := [
  HttpRequest (from_browser (RefreshToken "LR") []);
  HttpRequest (from_browser (Logout "LR") []);
  DirectoryConnect].
Definition racing_token : Uuid := List.last (token_ids (db w_in)) 0%N.
Definition turns : list nat := concat (repeat [0; 1; 2]%nat 40).

Lemma server_refines_machine_witness :
  (exists i, token_state racing_token (db w_in) = Live i /\
     token_state racing_token (db (at_once turns race w_in)) = Spent i) /\
  star token_step (token_state racing_token (db w_in)) (token_state racing_token (db (at_once turns race w_in))) /\
  lived (lifecycle (RN := run_from any_name any_name w_in) RefreshTokens)
    (row_at (lifecycle (RN := run_from any_name any_name w_in) RefreshTokens) racing_token (db w_in))
    (row_at (lifecycle (RN := run_from any_name any_name w_in) RefreshTokens) racing_token
       (db (at_once turns race w_in))).
Proof.
  split; [eexists; split; vm_compute; reflexivity|].
  pose proof (server_refines_machine any_name any_name upper no_letter "0.1.0" st race turns w_in) as [Hl _].
  split; [|refine (proj2 (Hl RefreshTokens _) racing_token);
           refine (bool_decide_eq_true_1 (NoDup (token_ids (db w_in))) _); vm_compute; reflexivity].
  refine (proj2 (proj2 (server_refines_machine any_name any_name upper no_letter "0.1.0" st race turns w_in)) _ _ racing_token).
  - repeat constructor; discriminate.
  - refine (bool_decide_eq_true_1 _ _). vm_compute. reflexivity.
Defined.

(** ** A request to an administrator's endpoint, and one to a user's own *)
Definition served (i : Incoming) (w : World) : Answer * World :=
  run (serve any_name any_name upper no_letter st i) w.
Definition adding_role (h : list (string * string)) : Incoming :=
  from_browser (CreateRole {| cri_name := "ops"; cri_description := None |}) h.

Lemma access_control_witness :
  (exists u, authenticated st [("authorization", "Bearer LA")] w_in u /\
     ROLE_ADMIN ∈ map ro_name (roles_of (au_user_id u) (db w_in))) /\
  db (served (adding_role []) w_in).2 = db w_in /\
  roles (db (served (from_browser GetMe [("authorization", "Bearer LA")]) w_in).2) = roles (db w_in).
Proof.
  pose proof (fun i => access_control any_name any_name upper no_letter st i (served i w_in).1 w_in
                         (served i w_in).2 (surjective_pairing _)) as Hac.
  split; [|split].
  - destruct (Hac (adding_role [("authorization", "Bearer LA")])) as [[Ha|[[e He] _]] _]; [exact Ha|].
    exfalso. revert He. vm_compute. discriminate.
  - destruct (Hac (adding_role [])) as [[(u & (token & c & Ht & _) & _)|[_ Hd]] _]; [|exact Hd].
    exfalso. revert Ht. vm_compute. discriminate.
  - refine (proj1 (proj2 (Hac (from_browser GetMe [("authorization", "Bearer LA")])) _)). discriminate.
Defined.

(** ** A logout another site sends with the browser's cookies *)
Definition refused : Response := response 400 [] (Text "Bad Request").
#[local] Instance demo_router : AxumRouter := {|
  decode := fun _ e =>
    match e with
    | EpEndSession =>
        Ok (EndSession {| eq_id_token_hint := None; eq_post_logout_redirect_uri := None;
                              eq_state := None; eq_client_id := None |})
    | EpGetMe => Ok GetMe
    | _ => Err refused
    end;
  asset_path := fun path => Ok path;
  not_found := response 404 [] Empty;
  method_not_allowed := fun _ => response 405 [] Empty;
  rendered := fun status _ => response status [] Empty |}.
#[local] Instance demo_router_laws : AxumRouterLaws.
Proof. split. intros raw e c. destruct e; intros [= <-]; reflexivity. Qed.
#[local] Instance demo_embedded : Embedded := {| asset := fun _ => None; mime_type := fun _ => "text/plain" |}.
Definition own_site : BrowserSecurity := {| allowed_origins := ["https://id"] |}.
Definition forged_logout : Raw := {|
  raw_request := {| rq_method := GET; rq_path := "/oauth/end_session";
                    rq_headers := ("origin", "https://weak") :: cookies |};
  raw_query := None; raw_body := ""; raw_peer := Some (V4 1) |}.
Definition answered (raw : Raw) (w : World) : option Response * World :=
  run (respond any_name any_name upper no_letter st own_site raw) w.

Lemma forged_request_harmless_witness :
  option_map rs_status (answered forged_logout w_in).1 = Some 200 /\
  guarded (db (answered forged_logout w_in).2) = guarded (db w_in).
Proof.
  split; [vm_compute; reflexivity|].
  refine (proj1 (proj1 (forged_request_harmless any_name any_name upper no_letter st own_site forged_logout
                          (answered forged_logout w_in).1 w_in _ (surjective_pairing _)) _)).
  left. exists "https://weak". split; [reflexivity|].
  intros H. apply list_elem_of_singleton in H. discriminate H.
Defined.

(** ** A user's own endpoint *)
Definition naming : Incoming :=
  from_browser (UpdateMe {| uui_username := None; uui_name := Some "Countess"; uui_email := None |})
    [("authorization", "Bearer LA")].
Lemma own_endpoints_isolated_witness :
  map (fun u : UserRow => u_name u) (users (db (served naming w_in).2)) = ["Countess"] /\
  exists u, authenticated st [("authorization", "Bearer LA")] w_in u /\
    others (au_user_id u) (db (served naming w_in).2) = others (au_user_id u) (db w_in) /\
    spared [("authorization", "Bearer LA")] (au_user_id u) w_in (served naming w_in).2 /\
    exists entries, audit_log (db (served naming w_in).2) = (audit_log (db w_in) ++ entries)%list.
Proof.
  assert (Hn : map (fun u : UserRow => u_name u) (users (db (served naming w_in).2)) = ["Countess"])
    by (vm_compute; reflexivity).
  split; [exact Hn|].
  destruct (own_endpoints_isolated any_name any_name upper no_letter st naming (served naming w_in).1 w_in
              (served naming w_in).2 eq_refl (surjective_pairing _)) as [Hd|Ho]; [|exact Ho].
  exfalso. rewrite Hd in Hn. vm_compute in Hn. discriminate Hn.
Defined.

(** A login that redirects is answered 303; its route documents 302. *)
Theorem login_redirect_undocumented :
  exists r w, served (from_browser (BrowserLogin (Some "/app?x=1") (ada_login password)) []) LoginDemo.w0
              = (AsBuilt r, w) /\
    rs_status r = 303 /\ existsb (Z.eqb 303) (rt_statuses (route_of EpBrowserLogin)) = false.
Proof.
  assert (Hs : match (served (from_browser (BrowserLogin (Some "/app?x=1") (ada_login password)) []) LoginDemo.w0).1
               with AsBuilt r => rs_status r | _ => 0 end = 303) by (vm_compute; reflexivity).
  destruct (served _ LoginDemo.w0) as [[| r|] w]; cbn [fst] in Hs; try discriminate Hs.
  exists r, w. split; [reflexivity|]. split; [exact Hs|reflexivity].
Qed.

(** ** A first start, and the next one after the server has run *)
Module Restart.
#[local] Existing Instance keyed_env.
#[local] Instance keyed_calm : Calm keyed_env.
Proof. intros i. reflexivity. Qed.
Definition first_start : result AppError (option (AppState * BrowserSecurity * bool)) * World :=
  run (start_up any_name any_name (Some Serve) (Ok "")) (start migrated_db).

Lemma restart_keeps_keys_witness :
  exists server security ldap w3, first_start.1 = Ok (Some (server, security, ldap)) /\
    run prepare_keys first_start.2 = (Ok (st_signing_key server, st_signing_kid server), w3).
Proof.
  assert (Hr : is_ok first_start.1 && is_some (match first_start.1 with Ok o => o | Err _ => None end) = true)
    by (vm_compute; reflexivity).
  assert (He : run (start_up any_name any_name (Some Serve) (Ok "")) (start migrated_db) = first_start)
    by reflexivity.
  revert Hr He. generalize first_start. intros [[[[[server security] ldap]|]|e] w1] Hr He; try discriminate Hr.
  destruct (restart_keeps_keys (E := keyed_env) (EntropyLength0 := calm_env_entropy 0) (H := plain_aead_laws)
              any_name any_name upper no_letter "0.1.0" (Ok "") (start migrated_db) server
              security ldap w1 [] [] w1 He eq_refl) as (w3 & H3 & _).
  exists server, security, ldap, w3. split; [reflexivity|exact H3].
Defined.
End Restart.

(** ** Signing in with a key that signs everything *)
Module SigningIn.
#[local] Existing Instance claims_countable.
#[local] Instance signing_jwt : JwtCodec Claims := sealed_jwt.
#[local] Instance signing_laws : @JwtLaws Claims plain_ed25519 signing_jwt _ := sealed_jwt_laws.
#[local] Existing Instance plain_uuid_laws.
Definition quiet_db : Db := with_refresh_tokens (fun _ => []) login_db.

Lemma quiet_well_formed : well_formed quiet_db.
Proof. check_well_formed. Qed.

Lemma sign_in_works_witness :
  exists p w1, run (serve any_name any_name upper no_letter st (from_browser (Login (ada_login password)) []))
                 (start quiet_db) = (AsJson 200 (Tokens p), w1) /\
    exists w3, run (serve any_name any_name upper no_letter st
                      (from_browser GetMe (bearing (access_token p)))) (start quiet_db)
               = (AsJson 200 (Me {| me_user_id := uuid_to_string 7%N; me_username := "ada"; me_name := "Ada";
                                    me_email := None; me_roles := ["admin"] |}), w3).
Proof.
  assert (Hl : (check (login_rl (limiters (start quiet_db))) (ctx_ip (audit_context [] (Some (V4 1))))
                  (instant (tick (start quiet_db)))).1 = Ok 4) by (vm_compute; reflexivity).
  destruct (sign_in_works any_name any_name upper no_letter st [] (Some (V4 1)) (ada_login password)
              demo_user 4 (start quiet_db) quiet_well_formed) as (p & w1 & Hr & Hme); [| | |exact Hl| |].
  - split; [by left|done|done| |discriminate|split; vm_compute; reflexivity].
    exists ada_password. split; vm_compute; reflexivity.
  - intros c. reflexivity.
  - intros i r Hr. by apply not_elem_of_nil in Hr.
  - vm_compute. reflexivity.
  - exists p, w1. split; [exact Hr|].
    apply (Hme (start quiet_db) demo_user quiet_well_formed);
      [by left|reflexivity|reflexivity|reflexivity|reflexivity|vm_compute; reflexivity].
Defined.
End SigningIn.
