(* ===== verification/Standards.v ===== *)
(** * Published algorithms

    Instances of the classes of third-party code that compute what a published
    standard says: SHA-1 and SHA-256 (FIPS 180-4), HMAC (RFC 2104), base64 (RFC
    4648), percent-encoding (RFC 3986), the text of UUIDs, header values and the
    parts of a URL.  No theorem depends on them; the repository's unit tests run
    at them, among them the vectors of RFC 4226 and RFC 7636. *)

From S2P Require Import Prelude RStr RateLimit Schema Sys External Users Net Settings Token Http OAuth.
Local Open Scope N_scope.

(** ** Words of 32 bits, and bytes *)
Definition w32 (n : N) : N := N.land n 4294967295.
Definition add32 (a b : N) : N := w32 (a + b).
Definition rotl (n x : N) : N := N.lor (w32 (N.shiftl x n)) (N.shiftr x (32 - n)).
Definition rotr (n x : N) : N := rotl (32 - n) x.
Definition not32 (x : N) : N := N.lxor x 4294967295.

Definition byte_list (s : string) : list N := map code (String.list_ascii_of_string s).
Definition of_byte_list (l : list N) : string := String.string_of_list_ascii (map byte_of l).

(** Big-endian words, and back. *)
Fixpoint words (l : list N) : list N :=
  match l with
  | a :: b :: c :: d :: l' => (((a * 256 + b) * 256 + c) * 256 + d) :: words l'
  | _ => []
  end.
Definition word_bytes (x : N) : list N :=
  [N.shiftr x 24; N.land (N.shiftr x 16) 255; N.land (N.shiftr x 8) 255; N.land x 255].

(** The padding both hashes share: a one bit, zeros, the length in bits. *)
Definition padded (l : list N) : list N :=
  let n := length l in
  let bits := 8 * N.of_nat n in
  (l ++ 128 :: repeat 0 ((119 - n mod 64) mod 64)%nat
     ++ word_bytes (w32 (N.shiftr bits 32)) ++ word_bytes (w32 bits))%list.

(** The blocks of 16 words; a block has at least one word. *)
Fixpoint blocks (fuel : nat) (l : list N) : list (list N) :=
  match fuel, l with
  | S fuel', _ :: _ => take 16 l :: blocks fuel' (drop 16 l)
  | _, _ => []
  end.
Definition blocks_of (s : string) : list (list N) :=
  let l := words (padded (byte_list s)) in blocks (length l) l.

(** A schedule, newest word first, extended [n] times. *)
Fixpoint extend (next : list N -> N) (n : nat) (w : list N) : list N :=
  match n with O => w | S n' => extend next n' (next w :: w) end.
Definition ago (w : list N) (i : nat) : N := nth (i - 1) w 0.

(** ** SHA-1 *)
Record Sha1State := { s_a : N; s_b : N; s_c : N; s_d : N; s_e : N }.
Definition sha1_init : Sha1State := {|
  s_a := 0x67452301; s_b := 0xefcdab89; s_c := 0x98badcfe; s_d := 0x10325476; s_e := 0xc3d2e1f0 |}.
Definition sha1_schedule (block : list N) : list N :=
  rev (extend (fun w => rotl 1 (N.lxor (N.lxor (ago w 3) (ago w 8)) (N.lxor (ago w 14) (ago w 16)))) 64 (rev block)).
Definition sha1_mix (t : nat) (b c d : N) : N * N :=
  if (t <? 20)%nat then (N.lxor (N.land b c) (N.land (not32 b) d), 0x5a827999)
  else if (t <? 40)%nat then (N.lxor b (N.lxor c d), 0x6ed9eba1)
  else if (t <? 60)%nat then (N.lxor (N.land b c) (N.lxor (N.land b d) (N.land c d)), 0x8f1bbcdc)
  else (N.lxor b (N.lxor c d), 0xca62c1d6).
Definition sha1_round (s : Sha1State * nat) (w : N) : Sha1State * nat :=
  let '(s, t) := s in
  let '(f, k) := sha1_mix t (s_b s) (s_c s) (s_d s) in
  ({| s_a := w32 (rotl 5 (s_a s) + f + s_e s + k + w); s_b := s_a s; s_c := rotl 30 (s_b s);
      s_d := s_c s; s_e := s_d s |}, S t).
Definition sha1_block (s : Sha1State) (block : list N) : Sha1State :=
  let r := (fold_left sha1_round (sha1_schedule block) (s, O)).1 in
  {| s_a := add32 (s_a s) (s_a r); s_b := add32 (s_b s) (s_b r); s_c := add32 (s_c s) (s_c r);
     s_d := add32 (s_d s) (s_d r); s_e := add32 (s_e s) (s_e r) |}.
Definition sha1 (s : string) : string :=
  let r := fold_left sha1_block (blocks_of s) sha1_init in
  of_byte_list (List.flat_map word_bytes [s_a r; s_b r; s_c r; s_d r; s_e r]).

(** ** HMAC over SHA-1 *)
Definition xor_byte (k : N) (s : string) : string :=
  string_map (fun a => byte_of (N.lxor (code a) k)) s.
Definition hmac_key (key : string) : string :=
  let k := if (64 <? String.length key)%nat then sha1 key else key in
  k +:+ of_byte_list (repeat 0 (64 - String.length k)%nat).
Definition hmac (key msg : string) : string :=
  let k := hmac_key key in
  sha1 (xor_byte 92 k +:+ sha1 (xor_byte 54 k +:+ msg)).
Definition rfc_hmac : HmacSha1 := {| hmac_sha1 := hmac |}.

Lemma rfc_hmac_laws : @HmacSha1Laws rfc_hmac.
Proof. split. intros key msg. reflexivity. Qed.

(** ** SHA-256 *)
(** The constants are what the standard says they are: 32 bits of the
    fractional parts of roots of the first primes, cube roots for the rounds
    and square roots for the initial state.  The loop finds the largest [r]
    with [root_le r], a bit at a time. *)
Fixpoint bits_of_root (root_le : N -> bool) (bits : nat) (r : N) : N :=
  match bits with
  | O => r
  | S i => bits_of_root root_le i
             (let r' := N.setbit r (N.of_nat i) in if root_le r' then r' else r)
  end.
Definition first_primes (n : nat) : list N :=
  take n (List.filter
    (fun p => forallb (fun d => negb (p mod N.of_nat d =? 0)) (seq 2 (N.to_nat (N.sqrt p) - 1)))
    (map N.of_nat (seq 2 310))).
Definition cube_root_bits (p : N) : N :=
  w32 (bits_of_root (fun r => r * r * r <=? N.shiftl p 96) 36 0).
Definition square_root_bits (p : N) : N :=
  w32 (bits_of_root (fun r => r * r <=? N.shiftl p 64) 38 0).
Definition sha256_k : list N :=
  Eval vm_compute in map cube_root_bits (first_primes 64).
(** The state: the eight words [a] to [h]. *)
Definition sha256_init : list N :=
  Eval vm_compute in map square_root_bits (first_primes 8).
Definition sha256_schedule (block : list N) : list N :=
  rev (extend (fun w =>
    let x := ago w 15 in let y := ago w 2 in
    let s0 := N.lxor (rotr 7 x) (N.lxor (rotr 18 x) (N.shiftr x 3)) in
    let s1 := N.lxor (rotr 17 y) (N.lxor (rotr 19 y) (N.shiftr y 10)) in
    w32 (ago w 16 + s0 + ago w 7 + s1)) 48 (rev block)).
Definition sha256_round (s : list N) (kw : N * N) : list N :=
  match s with
  | [a; b; c; d; e; f; g; h] =>
      let s1 := N.lxor (rotr 6 e) (N.lxor (rotr 11 e) (rotr 25 e)) in
      let ch := N.lxor (N.land e f) (N.land (not32 e) g) in
      let t1 := h + s1 + ch + kw.1 + kw.2 in
      let s0 := N.lxor (rotr 2 a) (N.lxor (rotr 13 a) (rotr 22 a)) in
      let maj := N.lxor (N.land a b) (N.lxor (N.land a c) (N.land b c)) in
      [w32 (t1 + s0 + maj); a; b; c; w32 (d + t1); e; f; g]
  | _ => s
  end.
Definition sha256_block (s : list N) (block : list N) : list N :=
  zip_with add32 s (fold_left sha256_round (zip sha256_k (sha256_schedule block)) s).
Definition sha256_digest (s : string) : string :=
  of_byte_list (List.flat_map word_bytes (fold_left sha256_block (blocks_of s) sha256_init)).

(** ** Base64 of either alphabet, without padding *)
Definition base64_char (last : string) (n : N) : ascii :=
  if n <? 26 then byte_of (65 + n) else if n <? 52 then byte_of (71 + n)
  else if n <? 62 then byte_of (n - 4)
  else match String.get (N.to_nat (n - 62)) last with Some a => a | None => byte_of 0 end.
Fixpoint sextets (l : list N) : list N :=
  match l with
  | a :: b :: c :: l' =>
      N.shiftr a 2 :: N.lor (N.shiftl (N.land a 3) 4) (N.shiftr b 4)
      :: N.lor (N.shiftl (N.land b 15) 2) (N.shiftr c 6) :: N.land c 63 :: sextets l'
  | [a; b] => [N.shiftr a 2; N.lor (N.shiftl (N.land a 3) 4) (N.shiftr b 4); N.shiftl (N.land b 15) 2]
  | [a] => [N.shiftr a 2; N.shiftl (N.land a 3) 4]
  | [] => []
  end.
Definition base64_text (last s : string) : string :=
  String.string_of_list_ascii (map (base64_char last) (sextets (byte_list s))).
Definition base64_value (last : string) (a : ascii) : option N :=
  if is_ascii_upper a then Some (code a - 65) else if is_ascii_lower a then Some (code a - 71)
  else if is_ascii_digit a then Some (code a + 4)
  else option_map (fun n => 62 + N.of_nat n) (str_find (String a "") last).
(** The bytes; the bits a last sextet leaves over are zero. *)
Fixpoint base64_bytes (l : list N) : option (list N) :=
  match l with
  | a :: b :: c :: d :: l' =>
      option_map (fun t => (N.lor (N.shiftl a 2) (N.shiftr b 4) :: N.lor (N.shiftl (N.land b 15) 4) (N.shiftr c 2)
                            :: N.lor (N.shiftl (N.land c 3) 6) d :: t)) (base64_bytes l')
  | [a; b; c] => if N.land c 3 =? 0 then Some [N.lor (N.shiftl a 2) (N.shiftr b 4); N.lor (N.shiftl (N.land b 15) 4) (N.shiftr c 2)] else None
  | [a; b] => if N.land b 15 =? 0 then Some [N.lor (N.shiftl a 2) (N.shiftr b 4)] else None
  | [_] => None
  | [] => Some []
  end.
Definition base64_of (last s : string) : option string :=
  option_map of_byte_list (mapM (base64_value last) (String.list_ascii_of_string s) ≫= base64_bytes).

Definition url_alphabet : string := "-_".
Definition std_alphabet : string := "+/".

(** The hashes and encodings the server uses. *)
Definition std_hashing : Hashing := {|
  sha256 := sha256_digest; hex_encode := hex_text; hex_decode := hex_bytes;
  base64url_encode := base64_text url_alphabet; base64url_decode := base64_of url_alphabet |}.

(** ** Percent-encoding *)
Definition unreserved (a : ascii) : bool :=
  is_ascii_alphanumeric a || existsb (beq a) ["-"; "_"; "."; "~"]%char.
Definition hex_upper (n : N) : ascii := byte_of (if n <? 10 then 48 + n else 55 + n).
Fixpoint percent_encode (s : string) : string :=
  match s with
  | EmptyString => EmptyString
  | String a s' =>
      if unreserved a then String a (percent_encode s')
      else String "%" (String (hex_upper (N.shiftr (code a) 4)) (String (hex_upper (N.land (code a) 15)) (percent_encode s')))
  end.
(** A percent sign that no two digits follow stands for itself. *)
Fixpoint percent_decode (s : string) : string :=
  match s with
  | String "%" (String x (String y s') as rest) =>
      match hex_value x, hex_value y with
      | Some a, Some b => String (byte_of (16 * a + b)) (percent_decode s')
      | _, _ => String "%" (percent_decode rest)
      end
  | String a s' => String a (percent_decode s')
  | EmptyString => EmptyString
  end.
(** [decode] refuses what is not UTF-8. *)
Definition rfc_url : UrlEncoding := {|
  url_encode := percent_encode;
  url_decode := fun s => from_utf8 (percent_decode s) |}.

(** ** Base64 with padding *)
Definition base64_padded (s : string) : string :=
  base64_text std_alphabet s +:+ of_byte_list (repeat 61 ((3 - String.length s mod 3) mod 3)%nat).
(** At most two padding bytes, up to a multiple of four. *)
Definition unpadded (s : string) : string :=
  match rev_string s with
  | String "=" (String "=" t) | String "=" t => rev_string t
  | _ => s
  end.
Definition std_base64 : Base64Std := {|
  base64_decode := fun s =>
    if (String.length s mod 4 =? 0)%nat then base64_of std_alphabet (unpadded s) else None |}.

(** ** Header values: what [from_str] and [to_str] of http admit *)
Definition http_rules : HttpLib := {|
  header_valid := all_bytes (fun a => beq (code a) 9 || ((32 <=? code a) && negb (code a =? 127)));
  header_visible := all_bytes (fun a => beq (code a) 9 || in_range 32 126 a) |}.

(** ** UUIDs in groups of 8, 4, 4, 4 and 12 digits *)
Fixpoint hex_fixed (n : nat) (u : N) (rest : string) : string :=
  match n with
  | O => rest
  | S n' => hex_fixed n' (N.shiftr u 4) (String (hex_of (N.land u 15)) rest)
  end.
Definition uuid_text (u : Uuid) : string :=
  let part lo n := hex_fixed n (N.shiftr u lo) ""%string in
  join "-" [part 96 8%nat; part 80 4%nat; part 64 4%nat; part 48 4%nat; part 0 12%nat].
Definition uuid_value (s : string) : option Uuid :=
  let parts := split_byte "-" s in
  if beq (map String.length parts) [8; 4; 4; 4; 12]%nat
  then option_map (fun l => fold_left (fun acc n => acc * 16 + n) l 0) (mapM hex_value (String.list_ascii_of_string (String.concat "" parts)))
  else None.
Definition hyphenated_uuid : UuidLib := {| uuid_to_string := uuid_text; uuid_parse := uuid_value |}.

(** ** URLs of the schemes http and https

    Authority, path, query and fragment, the path as it is written. *)
Definition cut (p : ascii -> bool) : string -> string * string :=
  fix go s := match s with
              | EmptyString => (EmptyString, EmptyString)
              | String a s' => if p a then (EmptyString, s) else let '(x, y) := go s' in (String a x, y)
              end.
Definition among (l : string) (a : ascii) : bool := contains_byte a l.
Definition default_port (scheme : string) : Z := if beq scheme "https"%string then 443 else 80.
Definition parse_url (s : string) : option Url :=
  match str_find "://" s with
  | None => None
  | Some n =>
      let scheme := to_ascii_lowercase (take_bytes n s) in
      let '(authority, tail) := cut (among "/?#") (drop_bytes (n + 3) s) in
      let '(before, fragment) := cut (among "#") tail in
      let '(path, query) := cut (among "?") before in
      let path := if is_empty path then "/"%string else path in
      let '(user, hostport) := match split_once "@" authority with Some p => p | None => (""%string, authority) end in
      let '(host, port) := match split_once ":" hostport with Some p => p | None => (hostport, ""%string) end in
      let host := to_ascii_lowercase host in
      let number := if is_empty port then Some (default_port scheme) else parse_unsigned 65535 port in
      match number with
      | None => None
      | Some number =>
          if is_empty host || negb (beq scheme "https" || beq scheme "http")%string then None
          else
            let shown := if beq number (default_port scheme) then host else (host +:+ ":" +:+ pretty number)%string in
            let '(name, password) := match split_once ":" user with Some p => (p.1, Some p.2) | None => (user, None) end in
            Some {| url_text := (scheme +:+ "://" +:+ authority +:+ path +:+ query +:+ fragment)%string;
                    url_scheme := scheme; url_host_str := Some host; url_username := name;
                    url_password := password;
                    url_fragment := (if is_empty fragment then None else Some (drop_bytes 1 fragment));
                    url_path := path; url_host_port := shown;
                    url_from_path := (path +:+ query +:+ fragment)%string;
                    url_origin := Some (scheme, host, number);
                    url_origin_text := (scheme +:+ "://" +:+ shown)%string |}
      end
  end.
Definition simple_url : UrlLib := {| url_parse := parse_url |}.

(** ** The vectors of the standards *)
Example hash_vectors :
  hex_text (sha1 "abc") = "a9993e364706816aba3e25717850c26c9cd0d89d"%string /\
  hex_text (sha256_digest "abc") = "ba7816bf8f01cfea414140de5dae2223b00361a396177a9cb410ff61f20015ad"%string /\
  hex_text (sha256_digest "aaaaaaaaaaaaaaaaaaaaaaaaaaaaaaaaaaaaaaaaaaaaaaaaaaaaaaaaaaaaaaaaaaaaaaaaaaaaaaaa")
  = "0f45e858fbc4176cdf4e411f88281edefc390ae5afe7df0f44cd9297f0a64580"%string /\
  hex_text (hmac "Jefe" "what do ya want for nothing?") = "effcdf6ae5eb2fa2d27416d5f184df9c259a7c79"%string.
Proof. vm_compute. done. Qed.
