(* ===== verification/UnitTests.v ===== *)
(** * The repository's unit tests

    The [#[cfg(test)]] modules of the files under [src/server/src], one Module
    per file, one Definition per test: what the test asserts, as a Boolean of
    the model or a program that reports it, run on a migrated database.  Each
    Module ends with the lemma that its tests pass.  They run at the instances
    of [Standards.v] and at those below.  The clock stands still except for
    [sleep]; the random source gives different bytes at every step.

    Here are the tests of the requests' side: rate limits, responses, cookies,
    the browser filter, directory names and frames, settings, applications and
    the proxy's redirects; [StoreTests.v] has the tests of accounts, credentials
    and tokens.  Left out are the tests of crates alone (what serde renders, what
    the keys of ed25519 sign), those that only say a function returns, and the
    assertions on the static text of pages. *)

From S2P Require Import Prelude RStr RateLimit Schema Sys External Users AuditLog Net Settings Token OidcToken Application Http LoginFlow PolicyPath Forward ForwardAuth LdapSchema LdapFilter LdapBer LdapHandler LdapServer Invitations Accounts BrowserSecurity OAuth AuditExport AppPasswords WellFormed Standards.
Local Open Scope Z_scope.
Local Open Scope string_scope.

(** ** Assertions *)

(** [assert!] *)
Definition asserts (l : list bool) : bool := forallb (fun b => b) l.
(** [assert_eq!] *)
Definition eql {A} `{EqDecision A} (x y : A) : bool := beq x y.
Definition is_err {E A} (r : result E A) : bool := negb (is_ok r).
(** [str::contains] *)
Definition contains (needle s : string) : bool := is_some (str_find needle s).
(** [Uuid::nil()] *)
Definition nil_uuid : Uuid := 0%N.
(** Text with a double quote for every caret. *)
Definition dq (s : string) : string := replace_byte "^" quote s.

(** ** The libraries of the tests *)
Definition epoch : Z := 1750000000.
#[local] Instance test_env : Env := {|
  clock := fun i => epoch + Z.of_nat i / 1000;
  instant := fun i => Z.of_nat i;
  fault := fun _ => false;
  entropy := fun i n => of_byte_list (N.of_nat (i / 256) :: repeat (N.of_nat (i mod 256)) (n - 1));
  fresh_uuid := fun i => N.of_nat (S i);
  env_var := fun s => if beq s "AUTHERE_KEY_SECRET"
    then Some "00112233445566778899aabbccddeeff00112233445566778899aabbccddeeff" else None |}.

(** A salted hash, and a cipher that shows nothing of its text. *)
Definition salted_passwords : PasswordHashing := {|
  argon2_hash := fun salt pw => Ok ("$" ++ hex_text salt ++ "$" ++ pw);
  argon2_verify := fun phc pw =>
    match split_once "$" (drop_bytes 1 phc) with Some (_, p) => beq p pw | None => false end |}.
Definition hex_aead : Aead := {|
  aes_encrypt := fun key nonce msg => Some (hex_text (key +:+ nonce +:+ msg));
  aes_decrypt := fun key nonce ct => hex_bytes ct ≫= strip_prefix (key +:+ nonce) |}.

(** Values as lists of fields; a token is the key and the claims. *)
Definition fields (l : list string) : string := foldr marked "" l.
Definition unfields : string -> option (list string) := unmarked "".
Definition show_opt (o : option Z) : string := match o with Some n => pretty n | None => "-" end.
Definition read_opt (s : string) : option (option Z) :=
  if beq s "-" then Some None else option_map Some (parse_i64 s).
Section TextJwt.
Context {T : Type} `{Registered T}.
Variable shown : T -> list string.
Variable read : list string -> option T.
Definition text_jwt : JwtCodec T := {|
  jwt_encode := fun _ c der => Ok (fields (der :: shown c));
  jwt_decode := fun pk v n t =>
    match unfields t with
    | Some (der :: l) =>
        match read l with
        | Some c => if beq der pk && validates v n c then Some c else None
        | None => None
        end
    | _ => None
    end |}.
End TextJwt.
Definition show_claims (c : Claims) : list string :=
  [sub c; iss c; aud c; fields (claim_roles c); pretty (exp c); pretty (iat c); jti c; typ c;
   show_opt (session_exp c); show_opt (session_version c); show_opt (auth_time c)].
Definition read_claims (l : list string) : option Claims :=
  match l with
  | [s; i; a; r; e; t; j; ty; se; sv; au] =>
      r' ← unfields r; e' ← parse_i64 e; t' ← parse_i64 t; se' ← read_opt se; sv' ← read_opt sv;
      au' ← read_opt au;
      Some {| sub := s; iss := i; aud := a; claim_roles := r'; exp := e'; iat := t'; jti := j; typ := ty;
              session_exp := se'; session_version := sv'; auth_time := au' |}
  | _ => None
  end.
Definition show_access (c : OidcAccessClaims) : list string :=
  [oa_iss c; oa_sub c; oa_aud c; pretty (oa_exp c); pretty (oa_iat c); oa_jti c; oa_scope c; oa_typ c;
   show_opt (oa_session_version c)].
Definition read_access (l : list string) : option OidcAccessClaims :=
  match l with
  | [i; s; a; e; t; j; sc; ty; sv] =>
      e' ← parse_i64 e; t' ← parse_i64 t; sv' ← read_opt sv;
      Some {| oa_iss := i; oa_sub := s; oa_aud := a; oa_exp := e'; oa_iat := t'; oa_jti := j; oa_scope := sc;
              oa_typ := ty; oa_session_version := sv' |}
  | _ => None
  end.
Definition pair_json : SerdeJson TokenPair := {|
  to_vec := fun p => Ok (fields [access_token p; refresh_token p; pretty (expires_in p);
                                 pretty (refresh_expires_in p); token_type p]);
  from_slice := fun s =>
    match unfields s with
    | Some [a; r; e; re; t] =>
        e' ← parse_i64 e; re' ← parse_i64 re;
        Some {| access_token := a; refresh_token := r; expires_in := e'; refresh_expires_in := re';
                token_type := t |}
    | _ => None
    end |}.
#[local] Instance test_jwt : JwtCodec Claims := text_jwt show_claims read_claims.
#[local] Instance test_oidc_jwt : JwtCodec OidcAccessClaims := text_jwt show_access read_access.
#[local] Existing Instances std_hashing rfc_hmac rfc_url std_base64 http_rules simple_url hyphenated_uuid
  plain_ed25519 plain_json salted_passwords hex_aead pair_json.
#[local] Instance test_range : RandLib := {| gen_range_at := fun i n => N.to_nat ((N.of_nat i * N.of_nat i / 7 + N.of_nat i) mod N.of_nat n) |}.
(** No test has letters beyond ASCII. *)
Definition no_letters : string -> bool := fun _ => false.
Definition same_case : string -> string := fun c => c.

(** [^[A-Za-z0-9.\-_]*$] and [^.+@.+\..{2,}$] *)
Definition username_regex : string -> bool :=
  all_bytes (fun a => is_ascii_alphanumeric a || contains_byte a ".-_").
Fixpoint dot_then_two (started : bool) (s : string) : bool :=
  match s with
  | EmptyString => false
  | String a s' => (started && beq a "."%char && (2 <=? String.length s')%nat) || dot_then_two true s'
  end.
Fixpoint at_then_host (started : bool) (s : string) : bool :=
  match s with
  | EmptyString => false
  | String a s' => (started && beq a "@"%char && dot_then_two false s') || at_then_host true s'
  end.
Definition email_regex (s : string) : bool := negb (contains_byte newline s) && at_then_host false s.

(** ** Programs that test *)
Definition expect {E A} (p : prog (result E A)) (k : A -> prog bool) : prog bool :=
  bind p (fun r => match r with Ok a => k a | Err _ => Ret false end).
Definition expect_some {A} (o : option A) (k : A -> prog bool) : prog bool :=
  match o with Some a => k a | None => Ret false end.
Definition check_that (b : bool) (q : prog bool) : prog bool := if b then q else Ret false.
Notation "x <-+ p ;; q" := (expect p (fun x => q))
  (at level 100, p at next level, right associativity) : prog_scope.
Notation "x <-= o ;; q" := (expect_some o (fun x => q))
  (at level 100, o at next level, right associativity) : prog_scope.
Notation "'holds' b ;; q" := (check_that b q)
  (at level 100, b at next level, right associativity) : prog_scope.
Definition sure : prog bool := Ret true.
(** [std::thread::sleep] for a second. *)
Definition sleep : prog unit :=
  Atom (fun w => (tt, {| db := db w; limiters := limiters w; tick := (tick w + 1000)%nat |})) Ret.
Definition migrated : World := start migrated_db.
Definition passes (t : prog bool) : bool := (run t migrated).1.
Definition repeated (c : string) (n : nat) : string := String.concat "" (repeat c n).

(** [User::new(..)] followed by [save]. *)
Definition saved (username name : string) (k : User -> prog bool) : prog bool :=
  user <~ User_new username name None ;;
  _ <-+ User_save user ;;
  k user.

(** ** [rate_limit.rs] *)
Module RateLimitTests.
(** [Ipv4Addr::new] *)
Definition ipv4 (a b c d : N) : IpAddr := V4 (((a * 256 + b) * 256 + c) * 256 + d)%N.
Definition limit (n w : Z) : RateLimiter := new_limiter {| max_requests := n; window := w |}.
Definition secs : Z -> Z := from_secs.
Definition millis (n : Z) : Z := n * 1000000.
(** The answers to requests of these addresses at these times. *)
Fixpoint checks (rl : RateLimiter) (l : list (IpAddr * Z)) : list (result Z Z) * RateLimiter :=
  match l with
  | [] => ([], rl)
  | (ip, t) :: l' =>
      let '(r, rl1) := check rl ip t in
      let '(rs, rl2) := checks rl1 l' in (r :: rs, rl2)
  end.
Definition answers (rl : RateLimiter) (l : list (IpAddr * Z)) : list bool := map is_ok (checks rl l).1.

Definition test_rate_limiter_allows_requests_under_limit : bool :=
  let ip := ipv4 127 0 0 1 in
  eql (answers (limit 3 (secs 60)) [(ip, 1); (ip, 2); (ip, 3); (ip, 4)]) [true; true; true; false].

Definition test_rate_limiter_returns_remaining : bool :=
  let ip := ipv4 127 0 0 1 in
  eql (checks (limit 3 (secs 60)) [(ip, 1); (ip, 2); (ip, 3)]).1 [Ok 2; Ok 1; Ok 0].

Definition test_rate_limiter_different_ips : bool :=
  let ip1 := ipv4 127 0 0 1 in let ip2 := ipv4 127 0 0 2 in
  eql (answers (limit 1 (secs 60)) [(ip1, 1); (ip2, 2); (ip1, 3); (ip2, 4)]) [true; true; false; false].

Definition test_rate_limiter_window_reset : bool :=
  let ip := ipv4 127 0 0 1 in
  eql (answers (limit 1 (millis 50)) [(ip, 1); (ip, 2); (ip, 2 + millis 60)]) [true; false; true].

Definition test_record_failure_counts_toward_limit : bool :=
  let ip := ipv4 10 0 0 1 in
  let limiter := record_failure (record_failure (limit 2 (secs 60)) ip 1) ip 2 in
  is_err (check limiter ip 3).1.

Definition test_record_failure_resets_window : bool :=
  let ip := ipv4 10 0 0 1 in
  let limiter := record_failure (limit 1 (millis 50)) ip 1 in
  let '(refused, limiter) := check limiter ip 2 in
  let limiter := record_failure limiter ip (2 + millis 60) in
  asserts [is_err refused; eql (option_map entry_count (entries limiter !! ip)) (Some 1)].

Definition test_cleanup_removes_expired : bool :=
  let limiter := (check (limit 1 (millis 50)) (ipv4 10 0 0 1) 1).2 in
  asserts [eql (size (entries limiter)) 1%nat; eql (size (entries (cleanup limiter (1 + millis 60)))) 0%nat].

Definition test_cleanup_keeps_active : bool :=
  let limiter := (check (limit 5 (secs 60)) (ipv4 10 0 0 1) 1).2 in
  eql (size (entries (cleanup limiter 2))) 1%nat.

Definition test_rate_limit_config_default : bool :=
  asserts [eql (max_requests default_config) 5; eql (window default_config) (secs 60)].

Definition test_rate_limit_exceeded_into_response : bool :=
  let resp := rate_limit_response (secs 42) in
  asserts [eql (rs_status resp) 429; eql (get_text (rs_headers resp) "retry-after") (Some "42")].

Definition test_rate_limiter_err_returns_retry_after : bool :=
  let ip := ipv4 10 0 0 1 in
  match (checks (limit 1 (secs 60)) [(ip, 1); (ip, 1000)]).1 with
  | [_; Err retry_after] => asserts [0 <? as_secs retry_after; as_secs retry_after <=? 60]%Z
  | _ => false
  end.

Lemma rate_limit_tests_pass : asserts [
  test_rate_limiter_allows_requests_under_limit; test_rate_limiter_returns_remaining;
  test_rate_limiter_different_ips; test_rate_limiter_window_reset;
  test_record_failure_counts_toward_limit; test_record_failure_resets_window;
  test_cleanup_removes_expired; test_cleanup_keeps_active; test_rate_limit_config_default;
  test_rate_limit_exceeded_into_response; test_rate_limiter_err_returns_retry_after] = true.
Proof. vm_compute. reflexivity. Qed.
End RateLimitTests.

(** ** [errors.rs] *)
Module ErrorTests.
Definition status_code_from_db_error : bool := eql (status_of DbError) 500.
Definition status_code_from_unique_error : bool := eql (status_of (UniqueError "dup")) 409.
Definition status_code_from_not_found : bool := eql (status_of NotFound) 404.
Definition status_code_from_input_error : bool := eql (status_of (InputError ["bad"])) 400.
Definition status_code_from_authentication_required : bool := eql (status_of AuthenticationRequired) 401.
Definition status_code_from_forbidden : bool := eql (status_of Forbidden) 403.
Definition status_code_from_internal_error : bool := eql (status_of (InternalError "oops")) 500.
Definition into_response_not_found : bool := eql (rs_status (error_response NotFound)) 404.
Definition into_response_unique_error : bool := eql (rs_status (error_response (UniqueError "already exists"))) 409.
Definition into_response_authentication_required : bool := eql (rs_status (error_response AuthenticationRequired)) 401.
Definition into_response_forbidden : bool := eql (rs_status (error_response Forbidden)) 403.
Definition into_response_input_error_joins_messages : bool :=
  eql (rs_status (error_response (InputError ["err1"; "err2"]))) 400.
Definition into_response_internal_error : bool := eql (rs_status (error_response (InternalError "boom"))) 500.
Definition into_response_db_error : bool := eql (rs_status (error_response DbError)) 500.
(** A statement that a uniqueness constraint refuses, and one that another
    constraint refuses. *)
Definition refused_insert (duplicate fk_ok : bool) : result AppError (unit * Db) :=
  insert_checked duplicate fk_ok (fun d => d) empty_db.
Definition from_sqlx_unique_violation : bool :=
  match refused_insert true true with Err (UniqueError _) => true | _ => false end.
Definition from_sqlx_other_error : bool :=
  match refused_insert false false with Err DbError => true | _ => false end.

Lemma error_tests_pass : asserts [
  status_code_from_db_error; status_code_from_unique_error; status_code_from_not_found;
  status_code_from_input_error; status_code_from_authentication_required; status_code_from_forbidden;
  status_code_from_internal_error; into_response_not_found; into_response_unique_error;
  into_response_authentication_required; into_response_forbidden; into_response_input_error_joins_messages;
  into_response_internal_error; into_response_db_error; from_sqlx_unique_violation;
  from_sqlx_other_error] = true.
Proof. vm_compute. reflexivity. Qed.
End ErrorTests.

(** ** [handlers/mod.rs] *)
Module CookieTests.
Definition test_build_auth_cookie_format : bool :=
  let cookie := build_auth_cookie "my-token" 900 in
  asserts (map (fun s => contains s cookie)
    ["__Host-authere_token=my-token"; "HttpOnly"; "Secure"; "SameSite=Lax"; "Path=/"; "Max-Age=900"]).

Definition test_build_refresh_cookie_format : bool :=
  let cookie := build_refresh_cookie "refresh-tok" 604800 in
  asserts (map (fun s => contains s cookie)
    ["__Host-authere_refresh=refresh-tok"; "HttpOnly"; "Secure"; "SameSite=Lax"; "Path=/"; "Max-Age=604800"]).

Definition refresh_cookie_path_matches_refresh_endpoint : bool :=
  contains "Path=/" (build_refresh_cookie "t" 60).

Definition test_clear_auth_cookies : bool :=
  match clear_auth_cookies with
  | [c0; c1] => asserts [
      contains "__Host-authere_token=" c0; contains "Max-Age=0" c0; contains "Path=/" c0;
      contains "__Host-authere_refresh=" c1; contains "Max-Age=0" c1; contains "Path=/" c1]
  | _ => false
  end.

Definition test_cookie_constants : bool :=
  asserts [eql AUTH_COOKIE_NAME "__Host-authere_token"; eql REFRESH_COOKIE_NAME "__Host-authere_refresh"].

Definition test_login_error_into_response : bool :=
  asserts [eql (rs_status (login_error_response (App AuthenticationRequired))) 401;
           eql (rs_status (login_error_response (RateLimit (from_secs 30)))) 429].

Definition test_register_error_into_response : bool :=
  asserts [eql (rs_status (register_error_response (RegApp (InputError ["bad"])))) 400;
           eql (rs_status (register_error_response (RegRateLimit (from_secs 10)))) 429].

Lemma cookie_tests_pass : asserts [
  test_build_auth_cookie_format; test_build_refresh_cookie_format;
  refresh_cookie_path_matches_refresh_endpoint; test_clear_auth_cookies; test_cookie_constants;
  test_login_error_into_response; test_register_error_into_response] = true.
Proof. vm_compute. reflexivity. Qed.
End CookieTests.

(** ** [auth_middleware.rs] *)
Module MiddlewareTests.
Definition extract_token_from_bearer_header : bool :=
  eql (extract_token [("authorization", "Bearer my-jwt-token")]) (Some "my-jwt-token").
Definition extract_token_from_cookie : bool :=
  eql (extract_token [("cookie", "other=val; __Host-authere_token=cookie-jwt; foo=bar")]) (Some "cookie-jwt").
Definition extract_token_bearer_takes_precedence : bool :=
  eql (extract_token [("authorization", "Bearer bearer-jwt"); ("cookie", "__Host-authere_token=cookie-jwt")])
     (Some "bearer-jwt").
Definition extract_token_returns_none_when_missing : bool := is_none (extract_token []).
Definition extract_token_ignores_non_bearer_auth : bool :=
  is_none (extract_token [("authorization", "Basic dXNlcjpwYXNz")]).
Definition extract_token_ignores_unrelated_cookies : bool :=
  is_none (extract_token [("cookie", "session=abc; other=def")]).

Definition auth_user_has_role : bool :=
  let user := {| au_user_id := nil_uuid; au_roles := ["admin"; "user"] |} in
  asserts [has_role user "admin"; has_role user "user"; negb (has_role user "superadmin")].
Definition auth_user_is_admin : bool :=
  asserts [is_admin {| au_user_id := nil_uuid; au_roles := ["admin"] |};
           negb (is_admin {| au_user_id := nil_uuid; au_roles := ["user"] |})].
Definition auth_user_empty_roles : bool :=
  let user := {| au_user_id := nil_uuid; au_roles := [] |} in
  asserts [negb (has_role user "anything"); negb (is_admin user)].

Lemma middleware_tests_pass : asserts [
  extract_token_from_bearer_header; extract_token_from_cookie; extract_token_bearer_takes_precedence;
  extract_token_returns_none_when_missing; extract_token_ignores_non_bearer_auth;
  extract_token_ignores_unrelated_cookies; auth_user_has_role; auth_user_is_admin;
  auth_user_empty_roles] = true.
Proof. vm_compute. reflexivity. Qed.
End MiddlewareTests.

(** ** [browser_security.rs] *)
Module BrowserTests.
(** The router with one action behind the layer. *)
Definition guarded_router (request : Request) : option Response :=
  (run (protect_browser_requests {| allowed_origins := ["https://auth.example.com"] |}
          (fun _ => Ret (Some (response 204 [] Empty))) request) migrated).1.
Definition action (headers : list (string * string)) : option Response :=
  guarded_router {| rq_method := POST; rq_path := "/api/action"; rq_headers := headers |}.

Definition blocks_cross_origin_and_opaque_browser_writes : bool :=
  asserts (map (fun headers => eql (option_map rs_status (action headers)) (Some 403))
    [[("origin", "https://weak.example.com")]; [("origin", "https://outside.invalid")];
     [("origin", "null")]; [("sec-fetch-site", "same-site")]]).

Definition accepts_auth_origin_and_non_browser_clients_without_caching : bool :=
  asserts (map (fun headers =>
    match action headers with
    | Some r => asserts [eql (rs_status r) 204;
                         eql (header_get (rs_headers r) "cache-control") (Some "no-store");
                         eql (header_get (rs_headers r) "referrer-policy") (Some "no-referrer")]
    | None => false
    end) [[]; [("origin", "https://auth.example.com")]]).

Lemma browser_tests_pass : asserts [
  blocks_cross_origin_and_opaque_browser_writes;
  accepts_auth_origin_and_non_browser_clients_without_caching] = true.
Proof. vm_compute. reflexivity. Qed.
End BrowserTests.

(** ** [ldap/filter.rs] *)
Module FilterTests.
Definition alice_entry : Entry := {|
  dn := "uid=alice,ou=people,dc=authere,dc=local";
  attrs := [("uid", ["alice"]); ("cn", ["Alice Example"]); ("mail", ["alice@example.com"]);
            ("memberOf", ["cn=admin,ou=groups,dc=authere,dc=local"; "cn=user,ou=groups,dc=authere,dc=local"]);
            ("objectClass", ["top"; "inetOrgPerson"])] |}.
Definition sub (i : option string) (a : list string) (f : option string) : LdapSubstringFilter :=
  {| initial := i; any := a; final_ := f |}.
Definition matching (f : LdapFilter) : bool := LdapFilter.matches alice_entry f.

Definition equality_matches_case_insensitive : bool :=
  asserts [matching (Equality "uid" "alice"); matching (Equality "UID" "ALICE")].
Definition equality_fails_on_wrong_value_or_missing_attr : bool :=
  asserts [negb (matching (Equality "uid" "bob")); negb (matching (Equality "missing" "x"))].
Definition presence_filter_checks_for_attribute : bool :=
  asserts [matching (Present "mail"); negb (matching (Present "foobar"))].
Definition member_of_equality_matches_any_value : bool :=
  asserts [matching (Equality "memberOf" "cn=admin,ou=groups,dc=authere,dc=local");
           negb (matching (Equality "memberOf" "cn=other,ou=groups,dc=authere,dc=local"))].
Definition and_or_not_combine : bool :=
  let admin := Equality "memberOf" "cn=admin,ou=groups,dc=authere,dc=local" in
  let has_uid := Present "uid" in
  let missing := Present "foobar" in
  asserts [matching (And [admin; has_uid]); negb (matching (And [admin; missing]));
           matching (Or [missing; admin]); matching (Not missing)].
Definition substring_initial_middle_final : bool :=
  matching (Substring "mail" (sub (Some "alice") ["example"] (Some ".com"))).
Definition substring_only_initial : bool := matching (Substring "cn" (sub (Some "Alice") [] None)).
Definition substring_only_final : bool := matching (Substring "mail" (sub None [] (Some "example.com"))).
Definition substring_fails_when_order_wrong : bool :=
  negb (matching (Substring "mail" (sub (Some ".com") [] (Some "alice")))).
Definition substring_handles_any_sequence : bool :=
  LdapFilter.matches {| dn := "uid=bob,..."; attrs := [("cn", ["info-tech-test"])] |}
    (Substring "cn" (sub (Some "info") ["tech"] (Some "test"))).
Definition unsupported_filters_resolve_false : bool :=
  asserts [negb (matching (GreaterOrEqual "uid" "aaa")); negb (matching (LessOrEqual "uid" "zzz"))].

Lemma filter_tests_pass : asserts [
  equality_matches_case_insensitive; equality_fails_on_wrong_value_or_missing_attr;
  presence_filter_checks_for_attribute; member_of_equality_matches_any_value; and_or_not_combine;
  substring_initial_middle_final; substring_only_initial; substring_only_final;
  substring_fails_when_order_wrong; substring_handles_any_sequence;
  unsupported_filters_resolve_false] = true.
Proof. vm_compute. reflexivity. Qed.
End FilterTests.

(** ** [ldap/schema.rs], [ldap/handler.rs] *)
Module DirectoryTests.
(** ["0.0.0.0:3389".parse().unwrap()] *)
Definition any_address : SocketAddr :=
  match parse_socket_addr "0.0.0.0:3389" with Some a => a | None => {| sa_ip := V4 0; sa_scope := 0; sa_port := 0 |} end.
Definition test_cfg : LdapConfig := {|
  lc_enabled := true; lc_base_dn := DEFAULT_LDAP_BASE_DN; lc_bind_address := any_address;
  lc_service_password_hash := None; lc_password_mode := PrimaryAndApp |}.
(** [parse_dn(..).unwrap()] followed by a test. *)
Definition parsed (s : string) (k : Dn -> bool) : bool :=
  match parse_dn s with Ok d => k d | Err _ => false end.
Definition test_user (username name : string) (email : option string) : User := {|
  u_id := nil_uuid; u_username := username; u_name := name; u_email := email; u_active := true;
  u_created_at := 0; u_updated_at := 0 |}.

Definition parse_dn_empty_is_empty_vec : bool :=
  asserts [parsed "" (fun d => eql (rdns d) []); parsed "   " (fun d => eql (rdns d) [])].
Definition parse_dn_simple : bool :=
  parsed "uid=alice,ou=people,dc=authere,dc=local" (fun d =>
    eql (rdns d) [("uid", "alice"); ("ou", "people"); ("dc", "authere"); ("dc", "local")]).
Definition parse_dn_lowercases_attributes_only : bool :=
  parsed "UID=Alice,OU=People,DC=Authere,DC=Local" (fun d =>
    asserts [eql (rdns d !! 0%nat) (Some ("uid", "Alice")); eql (rdns d !! 1%nat) (Some ("ou", "People"))]).
Definition parse_dn_tolerates_whitespace : bool :=
  parsed " uid = alice , ou = people , dc = authere , dc = local " (fun d =>
    asserts [eql (length (rdns d)) 4%nat; eql (rdns d !! 0%nat) (Some ("uid", "alice"))]).
Definition parse_dn_rejects_bad_shapes : bool :=
  asserts (map (fun s => is_err (parse_dn s)) ["noequals"; "=empty-attr"; "attr="]).
Definition parse_dn_handles_escaped_comma : bool :=
  parsed "cn=Last\, First,ou=people,dc=authere,dc=local" (fun d =>
    asserts [eql (option_map snd (rdns d !! 0%nat)) (Some "Last, First"); eql (length (rdns d)) 4%nat]).
Definition dn_equals_is_case_insensitive : bool :=
  parsed "uid=alice,ou=people,dc=authere,dc=local" (fun a =>
  parsed "UID=ALICE,ou=People,dc=AUTHERE,dc=local" (fun b => equals a b)).
Definition dn_is_under_suffix : bool :=
  parsed "uid=alice,ou=people,dc=authere,dc=local" (fun leaf =>
  parsed "ou=people,dc=authere,dc=local" (fun suffix =>
  parsed "ou=groups,dc=authere,dc=local" (fun other =>
    asserts [is_under leaf suffix; negb (is_under leaf other); is_under leaf leaf]))).
Definition dn_depth_under_counts_components : bool :=
  parsed "uid=alice,ou=people,dc=authere,dc=local" (fun leaf =>
  parsed "dc=authere,dc=local" (fun base =>
  parsed "ou=people,dc=authere,dc=local" (fun people =>
    asserts [eql (depth_under leaf base) (Some 2%nat); eql (depth_under leaf people) (Some 1%nat);
             eql (depth_under people leaf) None]))).
Definition user_dn_format : bool := eql (user_dn "alice" test_cfg) "uid=alice,ou=people,dc=authere,dc=local".
Definition group_dn_format : bool := eql (group_dn "admin" test_cfg) "cn=admin,ou=groups,dc=authere,dc=local".

Definition build_user_entry_has_expected_attributes : bool :=
  let entry := build_user_entry (test_user "alice" "Alice" (Some "alice@example.com")) ["admin"; "user"] test_cfg in
  asserts [eql (dn entry) "uid=alice,ou=people,dc=authere,dc=local";
           eql (attr_values entry "uid") (Some ["alice"]); eql (attr_values entry "cn") (Some ["Alice"]);
           eql (attr_values entry "mail") (Some ["alice@example.com"]);
           match attr_values entry "memberOf" with
           | Some member_of => asserts [
               existsb (eql "cn=admin,ou=groups,dc=authere,dc=local") member_of;
               existsb (eql "cn=user,ou=groups,dc=authere,dc=local") member_of]
           | None => false
           end].
Definition build_user_entry_omits_email_when_absent : bool :=
  let entry := build_user_entry (test_user "bob" "Bob" None) [] test_cfg in
  asserts [is_none (attr_values entry "mail"); is_none (attr_values entry "memberOf")].
Definition build_group_entry_lists_members : bool :=
  let entry := build_group_entry {| ro_id := nil_uuid; ro_name := "admin"; ro_description := Some "Admins" |}
                 ["alice"; "bob"] test_cfg in
  asserts [eql (dn entry) "cn=admin,ou=groups,dc=authere,dc=local";
           match attr_values entry "member" with
           | Some members => asserts [eql (length members) 2%nat;
                                      existsb (eql "uid=alice,ou=people,dc=authere,dc=local") members]
           | None => false
           end;
           eql (attr_values entry "description") (Some ["Admins"])].
Definition build_group_entry_uses_placeholder_when_empty : bool :=
  let entry := build_group_entry {| ro_id := nil_uuid; ro_name := "empty"; ro_description := None |} [] test_cfg in
  match attr_values entry "member" with
  | Some [m] => starts_with "cn=placeholder," m
  | _ => false
  end.
Definition entry_to_ldap_respects_requested_attributes : bool :=
  let entry := build_user_entry (test_user "alice" "Alice" (Some "a@b.co")) [] test_cfg in
  let filtered := to_ldap entry ["uid"; "mail"] in
  let names := map atype (sr_attributes filtered) in
  asserts [(5 <=? length (sr_attributes (to_ldap entry [])))%nat; eql (length (sr_attributes filtered)) 2%nat;
           existsb (eql "uid") names; existsb (eql "mail") names].
Definition root_dse_advertises_naming_context : bool :=
  let dse := build_root_dse "0.1.0" test_cfg in
  asserts [eql (dn dse) ""; eql (attr_values dse "namingContexts") (Some ["dc=authere,dc=local"]);
           eql (attr_values dse "supportedLDAPVersion") (Some ["3"])].

Definition entry_in_scope_base_matches_self_only : bool :=
  parsed "ou=people,dc=authere,dc=local" (fun base =>
  parsed "ou=people,dc=authere,dc=local" (fun people =>
  parsed "uid=alice,ou=people,dc=authere,dc=local" (fun alice =>
    asserts [entry_in_scope people base Base; negb (entry_in_scope alice base Base)]))).
Definition entry_in_scope_onelevel_matches_direct_children : bool :=
  parsed "ou=people,dc=authere,dc=local" (fun base =>
  parsed "uid=alice,ou=people,dc=authere,dc=local" (fun alice =>
  parsed "ou=people,dc=authere,dc=local" (fun people =>
    asserts [entry_in_scope alice base OneLevel; negb (entry_in_scope people base OneLevel)]))).
Definition entry_in_scope_subtree_matches_self_and_descendants : bool :=
  parsed "dc=authere,dc=local" (fun base =>
  parsed "uid=alice,ou=people,dc=authere,dc=local" (fun alice =>
  parsed "dc=authere,dc=local" (fun root =>
    asserts [entry_in_scope alice base Subtree; entry_in_scope root base Subtree]))).
Definition service_dn_parses : bool :=
  match service_dn test_cfg with
  | Ok svc => eql (leaf svc) (Some ("cn", "service"))
  | Err _ => false
  end.

Lemma directory_tests_pass : asserts [
  parse_dn_empty_is_empty_vec; parse_dn_simple; parse_dn_lowercases_attributes_only;
  parse_dn_tolerates_whitespace; parse_dn_rejects_bad_shapes; parse_dn_handles_escaped_comma;
  dn_equals_is_case_insensitive; dn_is_under_suffix; dn_depth_under_counts_components; user_dn_format;
  group_dn_format; build_user_entry_has_expected_attributes; build_user_entry_omits_email_when_absent;
  build_group_entry_lists_members; build_group_entry_uses_placeholder_when_empty;
  entry_to_ldap_respects_requested_attributes; root_dse_advertises_naming_context;
  entry_in_scope_base_matches_self_only; entry_in_scope_onelevel_matches_direct_children;
  entry_in_scope_subtree_matches_self_and_descendants; service_dn_parses] = true.
Proof. vm_compute. reflexivity. Qed.
End DirectoryTests.

(** ** [ldap/server.rs] *)
Module FrameTests.
(** The codec of [ldap3_proto] behind the guard; the frames below do not reach
    it. *)
Definition decoding (bytes : list N) : option (result io_error (option unit)) :=
  decode 8388608 (fun _ => Ok None) (frame_of bytes).
Definition refuses {A} (r : option (result io_error A)) : bool :=
  match r with Some (Err _) => true | _ => false end.

Definition rejects_oversized_frame_before_body_arrives : bool :=
  refuses (decoding [0x30; 0x84; 0x7f; 0xff; 0xff; 0xff]%N).
Definition rejects_indefinite_or_overflowing_lengths : bool :=
  asserts [refuses (decoding [0x30; 0x80]%N); refuses (decoding [0x30; 0xff]%N)].
Definition buffers_small_partial_messages : bool :=
  match decoding [0x30; 0x10; 0x02]%N with Some (Ok None) => true | _ => false end.
Fixpoint nested (n : nat) (frame : list N) : list N :=
  match n with
  | O => frame
  | S n' => nested n' (0x30%N :: N.of_nat (length frame) :: frame)
  end.
Definition rejects_excessive_nesting_before_recursive_protocol_parsing : bool :=
  refuses (decoding (nested (MAX_BER_DEPTH + 1) [0x04; 0x00]%N)).
Definition ber_guard_accepts_siblings_and_rejects_a_child_outside_its_parent : bool :=
  asserts [
    match validate_ber_structure (frame_of [0x30; 0x06; 0x04; 0x01; 0xff; 0x04; 0x01; 0xff]%N) with
    | Some (Ok _) => true | _ => false
    end;
    refuses (validate_ber_structure (frame_of [0x30; 0x03; 0x04; 0x04; 0xff]%N));
    refuses (validate_ber_structure (frame_of [0x30; 0x02; 0x30; 0x80]%N))].

Lemma frame_tests_pass : asserts [
  rejects_oversized_frame_before_body_arrives; rejects_indefinite_or_overflowing_lengths;
  buffers_small_partial_messages; rejects_excessive_nesting_before_recursive_protocol_parsing;
  ber_guard_accepts_siblings_and_rejects_a_child_outside_its_parent] = true.
Proof. vm_compute. reflexivity. Qed.
End FrameTests.

(** ** [settings.rs] *)
Module SettingsTests.
Definition password_mode_parses_known_values : bool :=
  asserts [eql (mode_from_str "primary_and_app") (Ok PrimaryAndApp); eql (mode_from_str "app_only") (Ok AppOnly);
           eql (mode_from_str "primary_only") (Ok PrimaryOnly)].
Definition password_mode_rejects_unknown_values : bool :=
  asserts [is_err (mode_from_str "whatever"); is_err (mode_from_str "")].
Definition password_mode_round_trip_via_as_str : bool :=
  asserts (map (fun mode => eql (mode_from_str (mode_str mode)) (Ok mode)) [PrimaryAndApp; AppOnly; PrimaryOnly]).
Definition app_passwords_enabled_matches_mode : bool :=
  asserts [app_passwords_enabled PrimaryAndApp; app_passwords_enabled AppOnly;
           negb (app_passwords_enabled PrimaryOnly)].
Definition a_config (enabled : bool) (base : string) (hash : option string) (mode : LdapPasswordMode) : LdapConfig := {|
  lc_enabled := enabled; lc_base_dn := base; lc_bind_address := DirectoryTests.any_address;
  lc_service_password_hash := hash; lc_password_mode := mode |}.
Definition ldap_config_derives_account_and_base_dns : bool :=
  let cfg := a_config true "dc=example,dc=com" None PrimaryAndApp in
  asserts [eql (service_account_dn cfg) "cn=service,dc=example,dc=com";
           eql (people_base_dn cfg) "ou=people,dc=example,dc=com";
           eql (groups_base_dn cfg) "ou=groups,dc=example,dc=com"].
Definition to_ldap_settings_exposes_password_set_without_hash : bool :=
  let s := to_ldap_settings (a_config true DEFAULT_LDAP_BASE_DN (Some "$argon2id$v=19$...") AppOnly) in
  asserts [ls_enabled s; eql (ls_base_dn s) DEFAULT_LDAP_BASE_DN; eql (ls_bind_address s) "0.0.0.0:3389";
           eql (ls_service_account_dn s) ("cn=service," ++ DEFAULT_LDAP_BASE_DN); ls_service_password_set s;
           eql (ls_password_mode s) AppOnly].
Definition service_password_set_is_false_when_hash_missing : bool :=
  negb (ls_service_password_set (to_ldap_settings (a_config false DEFAULT_LDAP_BASE_DN None PrimaryAndApp))).
Definition validate_base_dn_accepts_valid_dns : bool :=
  asserts (map (fun s => is_ok (validate_base_dn s))
    ["dc=authere,dc=local"; "dc=example,dc=com"; "o=Example Corp,dc=example,dc=com"]).
Definition validate_base_dn_rejects_invalid_shapes : bool :=
  asserts (map (fun s => is_err (validate_base_dn s)) [""; "   "; "nocomponent"; "=noattr"; "attr="; "dc=a,,dc=b"]).
Definition validate_bind_address_accepts_ipv4_and_ipv6 : bool :=
  asserts (map (fun s => is_ok (validate_bind_address s)) ["0.0.0.0:3389"; "127.0.0.1:389"; "[::1]:389"]).
Definition validate_bind_address_rejects_garbage : bool :=
  asserts (map (fun s => is_err (validate_bind_address s)) [""; "example.com:389"; "0.0.0.0"]).
Definition validate_session_expiry_accepts_range : bool :=
  asserts (map (fun v => eql (validate_session_expiry_seconds v) (Ok v))
    [MIN_SESSION_EXPIRY_SECONDS; DEFAULT_SESSION_EXPIRY_SECONDS; MAX_SESSION_EXPIRY_SECONDS]).
Definition validate_session_expiry_rejects_out_of_range : bool :=
  asserts (map (fun v => is_err (validate_session_expiry_seconds v))
    [0; MIN_SESSION_EXPIRY_SECONDS - 1; MAX_SESSION_EXPIRY_SECONDS + 1; -3600]).
Definition default_session_expiry_matches_legacy_constant : bool :=
  eql DEFAULT_SESSION_EXPIRY_SECONDS (7 * 24 * 60 * 60).

Lemma settings_tests_pass : asserts [
  password_mode_parses_known_values; password_mode_rejects_unknown_values;
  password_mode_round_trip_via_as_str; app_passwords_enabled_matches_mode;
  ldap_config_derives_account_and_base_dns; to_ldap_settings_exposes_password_set_without_hash;
  service_password_set_is_false_when_hash_missing; validate_base_dn_accepts_valid_dns;
  validate_base_dn_rejects_invalid_shapes; validate_bind_address_accepts_ipv4_and_ipv6;
  validate_bind_address_rejects_garbage; validate_session_expiry_accepts_range;
  validate_session_expiry_rejects_out_of_range; default_session_expiry_matches_legacy_constant] = true.
Proof. vm_compute. reflexivity. Qed.
End SettingsTests.

(** ** [application.rs] *)
Module ApplicationTests.
(** The two patterns that compile and are no literals. *)
Definition two_patterns : RegexLib := {| regex_build := fun _ _ p =>
  if beq p "^(?:.*\.example\.com)$" then Some (ends_with ".example.com")
  else if beq p "^(?:app.example.com)$" then Some (beq "app.example.com") else None |}.
#[local] Existing Instance two_patterns.
Definition valid (input : CreateApplicationInput) : bool := is_ok (Application_validate_input no_letters input).

Definition fa_app : Application := {|
  a_id := 1%N; a_name := "Test"; a_slug := "test"; a_app_type := ForwardAuth;
  a_host_pattern := Some "app.example.com"; a_path_prefix := None; a_required_roles := [];
  a_enabled := true; a_oidc_client_id := None; a_oidc_redirect_uris := [];
  a_oidc_post_logout_redirect_uris := []; a_oidc_confidential := false; a_created_at := 0;
  a_updated_at := 0; a_oidc_client_secret_hash := None |}.
Definition policy (host prefix : option string) (required : list string) : Application := {|
  a_id := 1%N; a_name := "Test"; a_slug := "test"; a_app_type := ForwardAuth; a_host_pattern := host;
  a_path_prefix := prefix; a_required_roles := required; a_enabled := true; a_oidc_client_id := None;
  a_oidc_redirect_uris := []; a_oidc_post_logout_redirect_uris := []; a_oidc_confidential := false;
  a_created_at := 0; a_updated_at := 0; a_oidc_client_secret_hash := None |}.
Definition client (redirects logouts : list string) (hash : option string) : Application := {|
  a_id := 1%N; a_name := "Test"; a_slug := "test"; a_app_type := Oidc;
  a_host_pattern := Some "app.example.com"; a_path_prefix := None; a_required_roles := [];
  a_enabled := true; a_oidc_client_id := None; a_oidc_redirect_uris := redirects;
  a_oidc_post_logout_redirect_uris := logouts; a_oidc_confidential := false; a_created_at := 0;
  a_updated_at := 0; a_oidc_client_secret_hash := hash |}.

Definition test_matches_exact_host : bool :=
  asserts [Application.matches fa_app "app.example.com" "/";
           negb (Application.matches fa_app "other.example.com" "/")].
Definition test_matches_host_regex : bool :=
  let app := policy (Some ".*\.example\.com") None [] in
  asserts [Application.matches app "app.example.com" "/"; Application.matches app "other.example.com" "/";
           negb (Application.matches app "example.org" "/")].
Definition test_matches_path_prefix : bool :=
  let app := policy None (Some "/api/") [] in
  asserts [Application.matches app "any.host" "/api/users"; Application.matches app "any.host" "/api/";
           negb (Application.matches app "any.host" "/web/")].
Definition test_matches_host_and_path_combined : bool :=
  let app := policy (Some "app.example.com") (Some "/api/") [] in
  asserts [Application.matches app "app.example.com" "/api/users";
           negb (Application.matches app "app.example.com" "/web/");
           negb (Application.matches app "other.example.com" "/api/users")].
Definition test_matches_no_patterns : bool := Application.matches (policy None None []) "any.host" "/any/path".

Definition test_check_access_no_roles_required : bool :=
  asserts [check_access fa_app []; check_access fa_app ["user"]].
Definition test_check_access_with_roles : bool :=
  let app := policy (Some "app.example.com") None ["admin"; "power_user"] in
  asserts [negb (check_access app []); negb (check_access app ["user"]); check_access app ["admin"];
           check_access app ["power_user"]; check_access app ["user"; "admin"]].

Definition input (name slug : string) (t : option AppType) (host : option string) (uris : option (list string))
    (confidential : option bool) : CreateApplicationInput := {|
  cai_name := name; cai_slug := slug; cai_app_type := t; cai_host_pattern := host; cai_path_prefix := None;
  cai_required_roles := None; cai_enabled := None; cai_oidc_redirect_uris := uris;
  cai_oidc_post_logout_redirect_uris := None; cai_oidc_confidential := confidential |}.
Definition test_validate_input_valid_forward_auth : bool :=
  valid {| cai_name := "My App"; cai_slug := "my-app"; cai_app_type := None;
           cai_host_pattern := Some "app.example.com"; cai_path_prefix := None;
           cai_required_roles := Some ["user"]; cai_enabled := Some true; cai_oidc_redirect_uris := None;
           cai_oidc_post_logout_redirect_uris := None; cai_oidc_confidential := None |}.
Definition test_validate_input_forward_auth_requires_host : bool :=
  negb (valid (input "My App" "my-app" (Some ForwardAuth) None None None)).
Definition test_validate_input_invalid_slug : bool :=
  negb (valid (input "My App" "my app" None (Some "host") None None)).
Definition test_validate_input_invalid_regex : bool :=
  negb (valid (input "My App" "my-app" None (Some "[invalid") None None)).
Definition test_validate_input_oidc_requires_redirect_uri : bool :=
  negb (valid (input "RP" "rp" (Some Oidc) None None None)).
Definition test_validate_input_oidc_valid_https_redirect : bool :=
  valid (input "RP" "rp" (Some Oidc) None (Some ["https://app.example.com/cb"]) (Some true)).
Definition test_validate_input_oidc_rejects_non_localhost_http : bool :=
  negb (valid (input "RP" "rp" (Some Oidc) None (Some ["http://evil.example.com/cb"]) None)).
Definition test_validate_input_oidc_accepts_localhost_http : bool :=
  valid (input "RP" "rp" (Some Oidc) None (Some ["http://localhost:8080/cb"]) (Some false)).
Definition test_validate_input_oidc_rejects_fragment : bool :=
  negb (valid (input "RP" "rp" (Some Oidc) None (Some ["https://app.example.com/cb#frag"]) None)).

Definition test_redirect_uri_exact_match_is_case_sensitive_on_path : bool :=
  let app := client ["https://app.example.com/Callback"] [] None in
  asserts [validate_redirect_uri app "https://app.example.com/Callback";
           negb (validate_redirect_uri app "https://app.example.com/callback")].
Definition test_post_logout_redirect_uri_match : bool :=
  let app := client [] ["https://app.example.com/out"] None in
  asserts [validate_post_logout_redirect_uri app "https://app.example.com/out";
           negb (validate_post_logout_redirect_uri app "https://app.example.com/elsewhere")].

Definition result_of {A} (p : prog A) : A := (run p migrated).1.

Definition test_verify_client_secret_matches_plaintext : bool :=
  let '(plaintext, hash) := result_of generate_client_secret in
  let app := client [] [] (Some hash) in
  asserts [verify_client_secret app plaintext; negb (verify_client_secret app "wrong")].
Definition test_verify_client_secret_public_client_always_false : bool :=
  let app := client [] [] None in
  asserts [negb (verify_client_secret app ""); negb (verify_client_secret app "anything")].
Definition test_new_oidc_app_generates_client_id_and_secret : bool :=
  let '(app, secret) :=
    result_of (Application_new_oidc
      (input "RP" "rp" (Some Oidc) None (Some ["https://app.example.com/cb"]) (Some true))) in
  asserts [eql (a_app_type app) Oidc; is_some (a_oidc_client_id app); a_oidc_confidential app;
           is_some secret; is_some_and secret (verify_client_secret app)].
Definition test_new_oidc_public_client_has_no_secret : bool :=
  let '(app, secret) :=
    result_of (Application_new_oidc
      (input "SPA" "spa" (Some Oidc) None (Some ["https://spa.example.com/cb"]) (Some false))) in
  asserts [is_none secret; negb (a_oidc_confidential app); is_none (a_oidc_client_secret_hash app)].
Definition test_generate_client_secret_is_unique : bool :=
  result_of (a <~ generate_client_secret ;; b <~ generate_client_secret ;; Ret (negb (eql a.1 b.1))).
Definition test_hash_secret_deterministic : bool :=
  asserts [eql (hash_secret "abc") (hash_secret "abc"); negb (eql (hash_secret "abc") (hash_secret "abd"))].

Lemma application_tests_pass : asserts [
  test_matches_exact_host; test_matches_host_regex; test_matches_path_prefix;
  test_matches_host_and_path_combined; test_matches_no_patterns; test_check_access_no_roles_required;
  test_check_access_with_roles; test_validate_input_valid_forward_auth;
  test_validate_input_forward_auth_requires_host; test_validate_input_invalid_slug;
  test_validate_input_invalid_regex; test_validate_input_oidc_requires_redirect_uri;
  test_validate_input_oidc_valid_https_redirect; test_validate_input_oidc_rejects_non_localhost_http;
  test_validate_input_oidc_accepts_localhost_http; test_validate_input_oidc_rejects_fragment;
  test_redirect_uri_exact_match_is_case_sensitive_on_path; test_post_logout_redirect_uri_match;
  test_verify_client_secret_matches_plaintext; test_verify_client_secret_public_client_always_false;
  test_new_oidc_app_generates_client_id_and_secret; test_new_oidc_public_client_has_no_secret;
  test_generate_client_secret_is_unique; test_hash_secret_deterministic] = true.
Proof. vm_compute. reflexivity. Qed.
End ApplicationTests.

(** ** [handlers/auth.rs], [handlers/role.rs] *)
Module ProxyTests.
Definition testuser (name : string) (email : option string) : User := {|
  u_id := nil_uuid; u_username := "testuser"; u_name := name; u_email := email; u_active := true;
  u_created_at := 0; u_updated_at := 0 |}.
Definition header (h : list (string * string)) (name : string) : option string := head (get_all h name).

Definition test_build_auth_headers : bool :=
  let user := testuser "Test User" (Some "test@example.com") in
  let headers := build_auth_headers user ["admin"; "user"] (u_email user) in
  asserts [eql (header headers "x-auth-user") (Some (uuid_to_string nil_uuid));
           eql (header headers "x-auth-username") (Some "testuser");
           eql (header headers "x-auth-roles") (Some "admin,user");
           eql (header headers "x-auth-email") (Some "test@example.com")].
Definition test_build_auth_headers_no_email : bool :=
  let headers := build_auth_headers (testuser "Test User" None) ["user"] None in
  asserts [eql (header headers "x-auth-email") (Some "");
           eql (header headers "x-auth-username") (Some "testuser");
           eql (header headers "x-auth-roles") (Some "user")].
Definition test_build_auth_headers_empty_roles : bool :=
  eql (header (build_auth_headers (testuser "Test" None) [] None) "x-auth-roles") (Some "").

Definition extract_location (resp : Response) : string := unwrap_or (get_text (rs_headers resp) "location") "".
Definition forward_auth_redirect_builds_full_url : bool :=
  let resp := build_forward_auth_redirect
    [("x-forwarded-proto", "https"); ("x-forwarded-host", "flood.example.com"); ("x-forwarded-uri", "/some/path")] in
  asserts [eql (rs_status resp) 303;
           eql (extract_location resp) "https://flood.example.com/.authere/start?redirect_uri=%2Fsome%2Fpath"].
Definition forward_auth_redirect_rejects_missing_host : bool :=
  eql (rs_status (build_forward_auth_redirect [])) 400.
Definition forward_auth_redirect_defaults_proto_to_https : bool :=
  starts_with "https://app.example.com/" (extract_location (build_forward_auth_redirect
    [("x-forwarded-host", "app.example.com"); ("x-forwarded-uri", "/")])).
Definition forward_auth_redirect_uses_root_uri : bool :=
  eql (extract_location (build_forward_auth_redirect
        [("x-forwarded-proto", "https"); ("x-forwarded-host", "app.example.com"); ("x-forwarded-uri", "/")]))
      "https://app.example.com/.authere/start?redirect_uri=%2F".
Definition html_escape_replaces_special_chars : bool :=
  eql (html_escape (dq "<script>alert(^x&y's^)</script>"))
      "&lt;script&gt;alert(&quot;x&amp;y&#39;s&quot;)&lt;/script&gt;".

(** The variable parts of a page. *)
Definition page (b : Body) : string :=
  match b with
  | DeniedPage switch_user_url details => switch_user_url ++ details
  | SignedOut sign_in_url details lede => sign_in_url ++ details ++ lede
  | _ => ""
  end.
Definition forward_auth_denied_html_returns_styled_403 : bool :=
  let resp := build_forward_auth_denied_html "https://auth.example.com"
    [("x-forwarded-proto", "https"); ("x-forwarded-host", "app.example.com"); ("x-forwarded-uri", "/dashboard")]
    (Some "Production Dashboard") ["admin"; "ops"] in
  let body := page (rs_body resp) in
  asserts [eql (rs_status resp) 403; eql (header (rs_headers resp) "content-type") (Some "text/html; charset=utf-8");
           contains "Production Dashboard" body; contains (dq "<span class=^chip^>admin</span>") body;
           contains (dq "<span class=^chip^>ops</span>") body;
           contains "https://app.example.com/.authere/start?redirect_uri=%2Fdashboard" body].
Definition forward_auth_denied_html_escapes_app_name_and_roles : bool :=
  let body := page (rs_body (build_forward_auth_denied_html "https://auth.example.com"
    [("x-forwarded-host", "app.example.com"); ("x-forwarded-uri", "/")] (Some "<evil> & co") ["<role>"])) in
  asserts [contains "&lt;evil&gt; &amp; co" body; contains "&lt;role&gt;" body; negb (contains "<evil>" body)].
Definition forward_auth_denied_html_omits_details_when_unknown : bool :=
  match rs_body (build_forward_auth_denied_html "https://auth.example.com" [] None []) with
  | DeniedPage switch_user_url details =>
      asserts [negb (contains (dq "class=^details^") details);
               eql switch_user_url "https://auth.example.com/login"]
  | _ => false
  end.

Definition self_role_removal_is_rejected : bool :=
  match ensure_not_self_role_removal 7 7 with
  | Err (InputError [msg]) => contains "your own account" msg
  | _ => false
  end.
Definition removing_from_another_user_is_allowed : bool := is_ok (ensure_not_self_role_removal 7 8).

Lemma proxy_tests_pass : asserts [
  test_build_auth_headers; test_build_auth_headers_no_email; test_build_auth_headers_empty_roles;
  forward_auth_redirect_builds_full_url; forward_auth_redirect_rejects_missing_host;
  forward_auth_redirect_defaults_proto_to_https; forward_auth_redirect_uses_root_uri;
  html_escape_replaces_special_chars; forward_auth_denied_html_returns_styled_403;
  forward_auth_denied_html_escapes_app_name_and_roles;
  forward_auth_denied_html_omits_details_when_unknown; self_role_removal_is_rejected;
  removing_from_another_user_is_allowed] = true.
Proof. vm_compute. reflexivity. Qed.
End ProxyTests.
