(* ===== verification/StoreTests.v ===== *)
(** * The repository's unit tests of accounts, credentials and tokens

    In the manner of [UnitTests.v]: users and passwords, roles, invitations,
    stored settings, second factors with the vectors of RFC 4226, app passwords,
    sessions with two refreshes at once, authorization codes with the vector of
    RFC 7636, the provider's tokens, and the audit log with its export. *)

From S2P Require Import Prelude RStr RateLimit Schema Sys External Users AuditLog Net Settings Token Totp Application OidcCodes OidcToken AppPasswords Http Invitations AuditExport ClientAddress OAuth WellFormed LoginFlow ForwardAuth Standards UnitTests.
Local Open Scope Z_scope.
Local Open Scope string_scope.

#[local] Existing Instances test_env test_jwt test_oidc_jwt test_range std_hashing rfc_hmac rfc_url std_base64
  http_rules simple_url hyphenated_uuid plain_ed25519 plain_json salted_passwords hex_aead pair_json.

(** ** [user/mod.rs] *)
Module UserTests.
Definition validate_username_pattern : bool :=
  eql (validate_username username_regex "user!")
      (Err "Username must consist only of letters, numbers, and allowed symbols").
Definition validate_username_length : bool :=
  let message := "Username must be between " ++ pretty (Z.of_nat MIN_USERNAME_LEN) ++ " and "
                 ++ pretty (Z.of_nat MAX_USERNAME_LEN) ++ " characters" in
  asserts [eql (validate_username username_regex (repeated "a" (MIN_USERNAME_LEN - 1))) (Err message);
           eql (validate_username username_regex (repeated "a" (MAX_USERNAME_LEN + 1))) (Err message)].
Definition validate_username_ok : bool :=
  asserts (map (fun s => is_ok (validate_username username_regex s))
    [repeated "a" MIN_USERNAME_LEN; repeated "a" MAX_USERNAME_LEN; "_abcdefghijklmnopqrstuvwxyz.1234567890-"]).
Definition validate_name_length : bool :=
  let message := "Name must be between " ++ pretty (Z.of_nat Users.MIN_NAME_LEN) ++ " and "
                 ++ pretty (Z.of_nat Users.MAX_NAME_LEN) ++ " characters" in
  asserts [eql (Users.validate_name (repeated "a" (Users.MIN_NAME_LEN - 1))) (Err message);
           eql (Users.validate_name (repeated "a" (Users.MAX_NAME_LEN + 1))) (Err message)].
Definition validate_name_ok : bool :=
  asserts (map (fun s => is_ok (Users.validate_name s))
    [repeated "a" Users.MIN_NAME_LEN; repeated "a" Users.MAX_NAME_LEN; "Jane Ivey"]).
Definition validate_email_len : bool :=
  let max_email := repeated "a" 64 ++ "@" ++ repeated "a" 186 ++ ".co" in
  asserts [eql (validate_email email_regex (Some ("x" ++ max_email)))
             (Err ("Email must contain no more than " ++ pretty (Z.of_nat MAX_EMAIL_LEN) ++ " characters"));
           is_ok (validate_email email_regex (Some max_email))].
Definition validate_email_pattern : bool :=
  asserts (map (fun e => eql (validate_email email_regex (Some e)) (Err "Email is not valid"))
             ["me@localhost"; "me.com"; "me@localhost."; "me@.com"; "@me.com"]
           ++ map (fun e => is_ok (validate_email email_regex (Some e))) ["m@e.co"; "hello@authere.jacksn.dev"]
           ++ [is_ok (validate_email email_regex None)]).
Definition creating (username name password : string) (email : option string) : result AppError unit :=
  validate_create_input username_regex email_regex
    {| cui_username := username; cui_name := name; cui_password := password; cui_email := email |}.
Definition validate_input_ok : bool :=
  is_ok (creating "user" "Test User" "hunter2hunter2" (Some "hello@authere.jacksn.dev")).
Definition validate_input_errors : bool :=
  match creating "" "" "" (Some "") with Err (InputError errs) => eql (length errs) 4%nat | _ => false end.
Definition validate_input_no_email_is_ok : bool := is_ok (creating "user" "Test User" "hunter2hunter2" None).
Definition validate_username_dots_and_dashes : bool := is_ok (validate_username username_regex "user.name-123").
Definition validate_username_uppercase : bool := is_ok (validate_username username_regex "UserName").
Definition validate_username_only_numbers : bool := is_ok (validate_username username_regex "12345").
Definition validate_email_subdomain : bool := is_ok (validate_email email_regex (Some "user@mail.example.co.uk")).
Definition validate_email_plus_addressing : bool := is_ok (validate_email email_regex (Some "user+tag@example.com")).

Definition user_new_generates_id : prog bool :=
  u1 <~ User_new "alice" "Alice" None ;;
  u2 <~ User_new "bob" "Bob" None ;;
  Ret (negb (eql (u_id u1) (u_id u2))).
Definition user_new_stores_fields : prog bool :=
  user <~ User_new "alice" "Alice Smith" (Some "alice@test.com") ;;
  Ret (asserts [eql (u_username user) "alice"; eql (u_name user) "Alice Smith";
                eql (u_email user) (Some "alice@test.com")]).
Definition user_new_defaults_active : prog bool :=
  user <~ User_new "carol" "Carol" None ;; Ret (u_active user).
Definition user_new_sets_timestamps : prog bool :=
  user <~ User_new "dan" "Dan" None ;;
  Ret (asserts [0 <? u_created_at user; u_created_at user =? u_updated_at user]%Z).
Definition user_new_no_email : prog bool :=
  user <~ User_new "bob" "Bob" None ;; Ret (is_none (u_email user)).

Definition save_and_get_preserves_fields : prog bool :=
  user <~ User_new "alice" "Alice" (Some "a@b.co") ;;
  _ <-+ User_save user ;;
  found <-+ User_get (u_id user) ;;
  loaded <-= found ;;
  Ret (asserts [u_active loaded; u_created_at loaded =? u_created_at user;
                u_updated_at loaded =? u_updated_at user]%Z).
Definition set_active_returns_false_when_unchanged : prog bool :=
  saved "a" "Alice" (fun user =>
  changed <-+ User_set_active user true ;;
  Ret (negb changed.1)).
Definition set_active_deactivates_and_refreshes_updated_at : prog bool :=
  saved "a" "Alice" (fun user =>
  _ <~ sleep ;; changed <-+ User_set_active user false ;;
  reloaded <-+ User_get (u_id user) ;;
  Ret (asserts [changed.1; negb (u_active changed.2); (u_updated_at user <? u_updated_at changed.2)%Z;
                is_some_and reloaded (fun u => negb (u_active u))])).
Definition delete_removes_user : prog bool :=
  saved "a" "Alice" (fun user =>
  deleted <-+ User_delete (u_id user) ;;
  found <-+ User_get (u_id user) ;;
  again <-+ User_delete (u_id user) ;;
  Ret (asserts [deleted; is_none found; negb again])).
Definition update_refreshes_updated_at : prog bool :=
  saved "a" "Alice" (fun user =>
  _ <~ sleep ;; user' <-+ User_update username_regex email_regex user (Some "Alice New") None None ;;
  Ret (u_updated_at user <? u_updated_at user')%Z).
Definition login_rejects_inactive_user : prog bool :=
  saved "a" "Alice" (fun user =>
  made <~ new_password "hunter2hunter2" (u_id user) ;;
  auth <-= ok made ;;
  _ <-+ Authenticator_save auth ;;
  _ <-+ try_password_login user "hunter2hunter2" ;;
  changed <-+ User_set_active user false ;;
  r <~ try_password_login changed.2 "hunter2hunter2" ;;
  Ret (eql r (Err AuthenticationRequired))).
Definition list_includes_inactive_users : prog bool :=
  saved "alice" "Alice" (fun alice =>
  saved "bob" "Bob" (fun _ =>
  _ <-+ User_set_active alice false ;;
  all <-+ User_list ;;
  Ret (asserts [eql (length all) 2%nat; existsb (fun u => negb (u_active u)) all]))).

Lemma user_tests_pass : asserts ([
  validate_username_pattern; validate_username_length; validate_username_ok; validate_name_length;
  validate_name_ok; validate_email_len; validate_email_pattern; validate_input_ok;
  validate_input_errors; validate_input_no_email_is_ok; validate_username_dots_and_dashes;
  validate_username_uppercase; validate_username_only_numbers; validate_email_subdomain;
  validate_email_plus_addressing] ++ map passes [
  user_new_generates_id; user_new_stores_fields; user_new_defaults_active; user_new_sets_timestamps;
  user_new_no_email; save_and_get_preserves_fields; set_active_returns_false_when_unchanged;
  set_active_deactivates_and_refreshes_updated_at; delete_removes_user; update_refreshes_updated_at;
  login_rejects_inactive_user; list_includes_inactive_users]) = true.
Proof. vm_compute. reflexivity. Qed.
End UserTests.

(** ** [user/auth/mod.rs] *)
Module AuthenticatorTests.
Definition owner : Uuid := 7%N.
Definition other_scheme (seed : string) : Authenticator :=
  {| au_id := 1%N; au_scheme := Totp seed; au_owner_id := owner |}.
Definition made (password : string) (k : Authenticator -> prog bool) : prog bool :=
  r <~ new_password password owner ;; a <-= ok r ;; k a.

Definition roundtrip_verification : prog bool := made "hunter2" (fun a => Ret (verify_password a "hunter2")).
Definition incorrect_password : prog bool := made "hunter2" (fun a => Ret (negb (verify_password a "not-the-password"))).
Definition cannot_verify_other_authentication_schemes : bool := negb (verify_password (other_scheme "abc123") "password").
Definition validate_password_len : bool :=
  let want := "Password must be between " ++ pretty (Z.of_nat MIN_PASSWORD_LEN) ++ " and "
              ++ pretty (Z.of_nat MAX_PASSWORD_LEN) ++ " characters" in
  asserts [eql (validate_password (repeated "a" (MIN_PASSWORD_LEN - 1))) (Err want);
           eql (validate_password (repeated "a" (MAX_PASSWORD_LEN + 1))) (Err want)].
Definition validate_password_ok : bool :=
  asserts [is_ok (validate_password (repeated "a" MIN_PASSWORD_LEN));
           is_ok (validate_password (repeated "a" MAX_PASSWORD_LEN))].
Definition new_password_authenticator_has_correct_fields : prog bool :=
  made "valid_password_12" (fun a => Ret (asserts [eql (au_owner_id a) owner; is_password a])).
Definition new_password_produces_unique_hashes : prog bool :=
  made "same_password_12" (fun a1 => made "same_password_12" (fun a2 =>
    Ret match au_scheme a1, au_scheme a2 with
        | Password h1, Password h2 => negb (eql h1 h2)
        | _, _ => false
        end)).
Definition new_password_generates_unique_ids : prog bool :=
  made "password1234" (fun a1 => made "password1234" (fun a2 => Ret (negb (eql (au_id a1) (au_id a2))))).
Definition verify_password_wrong_scheme : bool := negb (verify_password (other_scheme "seed123") "anything").

Lemma authenticator_tests_pass : asserts ([
  cannot_verify_other_authentication_schemes; validate_password_len; validate_password_ok;
  verify_password_wrong_scheme] ++ map passes [
  roundtrip_verification; incorrect_password; new_password_authenticator_has_correct_fields;
  new_password_produces_unique_hashes; new_password_generates_unique_ids]) = true.
Proof. vm_compute. reflexivity. Qed.
End AuthenticatorTests.

(** ** [role.rs] *)
Module RoleTests.
Definition validated (name : string) (description : option string) : result AppError unit :=
  Role_validate_input no_letters {| cri_name := name; cri_description := description |}.
Definition test_validate_role_name_empty : bool := is_err (validated "" None).
Definition test_validate_role_name_too_long : bool := is_err (validated (repeated "a" 65) None).
Definition test_validate_role_name_invalid_chars : bool := is_err (validated "admin role" None).
Definition test_validate_role_description_too_long : bool :=
  is_err (validated "valid_role" (Some (repeated "a" 257))).
Definition test_validate_role_ok : bool := is_ok (validated "power_users" (Some "Users with elevated privileges")).
Definition test_validate_role_name_with_hyphens_underscores : bool := is_ok (validated "power-users_v2" None).
Definition test_validate_role_name_special_chars : bool :=
  asserts (map (fun name => is_err (validated name None)) ["admin@role"; "role.name"; "role/name"; "role name"]).
Definition test_validate_role_max_length_name : bool := is_ok (validated (repeated "a" 64) None).
Definition test_validate_role_max_length_description : bool :=
  is_ok (validated "valid" (Some (repeated "a" 256))).
Definition test_validate_role_multiple_errors : bool :=
  match validated "" (Some (repeated "a" 257)) with
  | Err (InputError errs) => (2 <=? length errs)%nat
  | _ => false
  end.
Definition test_role_new : prog bool :=
  role <~ Role_new "editor" (Some "Can edit") ;;
  Ret (asserts [eql (ro_name role) "editor"; eql (ro_description role) (Some "Can edit")]).
Definition test_role_new_no_description : prog bool :=
  role <~ Role_new "viewer" None ;;
  Ret (asserts [eql (ro_name role) "viewer"; is_none (ro_description role)]).

Lemma role_tests_pass : asserts ([
  test_validate_role_name_empty; test_validate_role_name_too_long; test_validate_role_name_invalid_chars;
  test_validate_role_description_too_long; test_validate_role_ok;
  test_validate_role_name_with_hyphens_underscores; test_validate_role_name_special_chars;
  test_validate_role_max_length_name; test_validate_role_max_length_description;
  test_validate_role_multiple_errors] ++ map passes [test_role_new; test_role_new_no_description]) = true.
Proof. vm_compute. reflexivity. Qed.
End RoleTests.

(** ** [invitation.rs] *)
Module InvitationTests.
Definition make_invitation (max_uses : option Z) (uses : Z) (expires_at : option Z) : Invitation := {|
  inv_id := "test-id"; inv_created_by := nil_uuid; inv_label := None; inv_max_uses := max_uses;
  inv_uses := uses; inv_expires_at := expires_at; inv_created_at := 0 |}.
Definition refused (i : Invitation) : prog bool := v <~ is_valid i ;; Ret (negb v).

Definition is_valid_no_constraints : prog bool := is_valid (make_invitation None 0 None).
Definition is_valid_under_max_uses : prog bool := is_valid (make_invitation (Some 5) 3 None).
Definition is_valid_exhausted_uses : prog bool := refused (make_invitation (Some 5) 5 None).
Definition is_valid_over_max_uses : prog bool := refused (make_invitation (Some 5) 6 None).
Definition is_valid_not_expired : prog bool :=
  t <~ now ;; is_valid (make_invitation None 0 (Some (t + 3600))).
Definition is_valid_expired : prog bool :=
  t <~ now ;; refused (make_invitation None 0 (Some (t - 3600))).
Definition is_valid_expired_and_exhausted : prog bool :=
  t <~ now ;; refused (make_invitation (Some 1) 1 (Some (t - 3600))).
Definition is_valid_not_expired_but_exhausted : prog bool :=
  t <~ now ;; refused (make_invitation (Some 1) 1 (Some (t + 3600))).

Definition checked_input (label : option string) (max_uses expires_at : option Z) : prog bool :=
  r <~ Invitation_validate_input {| cii_label := label; cii_max_uses := max_uses; cii_expires_at := expires_at |} ;;
  Ret (is_ok r).
Definition rejected_input (label : option string) (max_uses expires_at : option Z) : prog bool :=
  b <~ checked_input label max_uses expires_at ;; Ret (negb b).
Definition validate_input_ok_minimal : prog bool := checked_input None None None.
Definition validate_input_ok_with_all_fields : prog bool :=
  t <~ now ;; checked_input (Some "Welcome") (Some 10) (Some (t + 86400)).
Definition validate_input_max_uses_zero : prog bool := rejected_input None (Some 0) None.
Definition validate_input_max_uses_negative : prog bool := rejected_input None (Some (-1)) None.
Definition validate_input_expires_in_past : prog bool := rejected_input None None (Some 1000).
Definition validate_input_label_too_long : prog bool := rejected_input (Some (repeated "a" 129)) None None.
Definition validate_input_label_at_max_length : prog bool := checked_input (Some (repeated "a" 128)) None None.
Definition validate_input_multiple_errors : prog bool :=
  r <~ Invitation_validate_input
         {| cii_label := Some (repeated "a" 129); cii_max_uses := Some 0; cii_expires_at := Some 1000 |} ;;
  Ret match r with Err (InputError errs) => eql (length errs) 3%nat | _ => false end.

Definition generate_id_is_64_hex_chars : prog bool :=
  id <~ generate_id ;; Ret (asserts [eql (String.length id) 64%nat; all_bytes is_ascii_hexdigit id]).
Definition generate_id_is_unique : prog bool :=
  id1 <~ generate_id ;; id2 <~ generate_id ;; Ret (negb (eql id1 id2)).
Definition new_invitation_defaults : prog bool :=
  inv <~ Invitation_new {| cii_label := Some "Test"; cii_max_uses := Some 5; cii_expires_at := None |} nil_uuid ;;
  Ret (asserts [eql (inv_created_by inv) nil_uuid; eql (inv_label inv) (Some "Test");
                eql (inv_max_uses inv) (Some 5); eql (inv_uses inv) 0; is_none (inv_expires_at inv);
                eql (String.length (inv_id inv)) 64%nat; (0 <? inv_created_at inv)%Z]).

Lemma invitation_tests_pass : asserts (map passes [
  is_valid_no_constraints; is_valid_under_max_uses; is_valid_exhausted_uses; is_valid_over_max_uses;
  is_valid_not_expired; is_valid_expired; is_valid_expired_and_exhausted;
  is_valid_not_expired_but_exhausted; validate_input_ok_minimal; validate_input_ok_with_all_fields;
  validate_input_max_uses_zero; validate_input_max_uses_negative; validate_input_expires_in_past;
  validate_input_label_too_long; validate_input_label_at_max_length; validate_input_multiple_errors;
  generate_id_is_64_hex_chars; generate_id_is_unique; new_invitation_defaults]) = true.
Proof. vm_compute. reflexivity. Qed.
End InvitationTests.

(** ** [settings.rs] *)
Module StoredSettingsTests.
Definition session_expiry_default_when_setting_unset : prog bool :=
  _ <-+ exec (fun d => (tt, with_settings (delete (fun r => beq (se_key r) "session_expiry_seconds")) d)) ;;
  got <-+ session_expiry_seconds ;;
  Ret (eql got DEFAULT_SESSION_EXPIRY_SECONDS).
Definition session_expiry_reads_stored_value : prog bool :=
  _ <-+ set_setting KEY_SESSION_EXPIRY_SECONDS "3600" ;;
  got <-+ session_expiry_seconds ;;
  Ret (eql got 3600).
Definition session_expiry_clamps_out_of_range_stored_values : prog bool :=
  _ <-+ set_setting KEY_SESSION_EXPIRY_SECONDS "1" ;;
  low <-+ session_expiry_seconds ;;
  _ <-+ set_setting KEY_SESSION_EXPIRY_SECONDS "9999999999" ;;
  high <-+ session_expiry_seconds ;;
  Ret (asserts [eql low MIN_SESSION_EXPIRY_SECONDS; eql high MAX_SESSION_EXPIRY_SECONDS]).
Definition session_expiry_falls_back_on_unparsable_value : prog bool :=
  _ <-+ set_setting KEY_SESSION_EXPIRY_SECONDS "not a number" ;;
  got <-+ session_expiry_seconds ;;
  Ret (eql got DEFAULT_SESSION_EXPIRY_SECONDS).

Lemma stored_settings_tests_pass : asserts (map passes [
  session_expiry_default_when_setting_unset; session_expiry_reads_stored_value;
  session_expiry_clamps_out_of_range_stored_values; session_expiry_falls_back_on_unparsable_value]) = true.
Proof. vm_compute. reflexivity. Qed.
End StoredSettingsTests.

(** ** [user/auth/totp.rs] *)
Module TotpTests.
Definition secret : string := "12345678901234567890".
(** [format!("{:06}", n)] *)
Definition six_digits (n : N) : string :=
  let s := pretty n in repeated "0" (6 - String.length s) ++ s.
Definition verified (code : string) (t : Z) (last : option Z) : option Z := verify_code secret code t last.

Definition base32_rfc4648_test_vectors : bool :=
  eql (map encode_base32 [""; "f"; "fo"; "foo"; "foob"; "fooba"; "foobar"])
      [""; "MY"; "MZXQ"; "MZXW6"; "MZXW6YQ"; "MZXW6YTB"; "MZXW6YTBOI"].
Definition hotp_rfc4226_vectors : bool :=
  eql (map (hotp secret) [0; 1; 2; 3; 4; 5; 6; 7; 8; 9])%N
      [755224; 287082; 359152; 969429; 338314; 254676; 287922; 162583; 399871; 520489]%N.
Definition totp_rfc6238_vector_sha1 : bool := eql (hotp secret 1) 287082%N.
Definition verify_accepts_current_step : bool := eql (verified (six_digits (hotp secret 1)) 59 None) (Some 1).
Definition verify_accepts_previous_step_drift : bool :=
  eql (verified (six_digits (hotp secret 2)) 90 None) (Some 2).
Definition verify_accepts_next_step_drift : bool :=
  eql (verified (six_digits (hotp secret 4)) 90 None) (Some 4).
Definition verify_rejects_far_past_or_future : bool :=
  asserts [is_none (verified (six_digits (hotp secret 10)) (30 * 100) None);
           is_none (verified (six_digits (hotp secret 200)) (30 * 100) None)].
Definition verify_blocks_replay_at_or_before_last_used_step : bool :=
  let code_now := six_digits (hotp secret 3) in
  asserts [eql (verified code_now 90 None) (Some 3); is_none (verified code_now 90 (Some 3));
           is_none (verified (six_digits (hotp secret 2)) 90 (Some 3))].
Definition verify_rejects_malformed_input : bool :=
  asserts (map (fun c => is_none (verified c 60 None)) [""; "abcdef"; "12345"; "1234567"; "-12345"; "+12345"]).
Definition secret_generation_has_expected_entropy : prog bool :=
  s1 <~ generate_secret ;; s2 <~ generate_secret ;;
  Ret (asserts [negb (eql s1 s2); eql (String.length s1) SECRET_BYTES]).
Definition otpauth_uri_has_required_parameters : bool :=
  let uri := build_otpauth_uri "Authere" "alice@example.com" (of_byte_list (repeat 0xab%N SECRET_BYTES)) in
  asserts (starts_with "otpauth://totp/Authere:" uri ::
    map (fun s => contains s uri)
      ["secret="; "issuer=Authere"; "algorithm=SHA1"; "digits=6"; "period=30"; "alice%40example.com"]).
Definition recovery_codes_are_unique_and_formatted : prog bool :=
  codes <~ generate_recovery_codes ;;
  Ret (asserts [eql (length codes) RECOVERY_CODE_COUNT;
                forallb (fun c => eql (String.length c) (RECOVERY_CODE_LEN + 1)%nat && contains "-" c) codes;
                bool_decide (NoDup codes)]).
Definition recovery_code_canonicalization_is_consistent : bool :=
  asserts [eql (canonicalize_recovery_code same_case "ABCDE-FGHIJ") "ABCDEFGHIJ";
           eql (canonicalize_recovery_code same_case "abcde-fghij") "ABCDEFGHIJ";
           eql (canonicalize_recovery_code same_case " A B-CDE fghij ") "ABCDEFGHIJ";
           eql (hash_recovery_code same_case "ABCDE-FGHIJ") (hash_recovery_code same_case "abcdefghij")].

Definition seed_user (k : Uuid -> prog bool) : prog bool := saved "alice" "Alice" (fun user => k (u_id user)).
Definition codes_of (user_id : Uuid) (codes : list string) : M unit := store_recovery_codes same_case user_id codes.
Definition consume_code (user_id : Uuid) (code : string) : M bool := consume_recovery_code same_case user_id code.
Definition activated (o : option UserTotp) : bool := is_some_and o is_activated.

Definition upsert_pending_replaces_previous_state : prog bool :=
  seed_user (fun user_id =>
  _ <-+ upsert_pending user_id "fake-ct-1" ;;
  _ <-+ upsert_pending user_id "fake-ct-2" ;;
  found <-+ UserTotp_get user_id ;;
  loaded <-= found ;;
  Ret (asserts [eql (ut_secret_encrypted loaded) "fake-ct-2"; negb (is_activated loaded)])).
Definition enrollment_cannot_replace_an_active_factor_or_its_recovery_codes : prog bool :=
  seed_user (fun user_id =>
  _ <-+ upsert_pending user_id "active-secret" ;;
  first <-+ totp_activate user_id "active-secret" 7 ;;
  _ <-+ codes_of user_id ["ABCDE-FGHIJ"] ;;
  again <~ upsert_pending user_id "replacement" ;;
  found <-+ UserTotp_get user_id ;;
  after <-= found ;;
  consumed <-+ consume_code user_id "ABCDE-FGHIJ" ;;
  Ret (asserts [first; is_err again; is_activated after; eql (ut_secret_encrypted after) "active-secret";
                consumed])).
Definition activation_requires_the_secret_that_was_verified : prog bool :=
  seed_user (fun user_id =>
  _ <-+ upsert_pending user_id "first-secret" ;;
  _ <-+ upsert_pending user_id "second-secret" ;;
  a1 <-+ totp_activate user_id "first-secret" 7 ;;
  found <-+ UserTotp_get user_id ;;
  a2 <-+ totp_activate user_id "second-secret" 7 ;;
  a3 <-+ totp_activate user_id "second-secret" 8 ;;
  Ret (asserts [negb a1; is_some found; negb (activated found); a2; negb a3])).
Definition step_claim_is_atomic_and_bound_to_the_active_secret : prog bool :=
  seed_user (fun user_id =>
  _ <-+ upsert_pending user_id "secret" ;;
  s1 <-+ record_step user_id "secret" 8 ;;
  _ <-+ totp_activate user_id "secret" 7 ;;
  s2 <-+ record_step user_id "stale-secret" 8 ;;
  s3 <-+ record_step user_id "secret" 8 ;;
  s4 <-+ record_step user_id "secret" 8 ;;
  s5 <-+ record_step user_id "secret" 7 ;;
  Ret (asserts [negb s1; negb s2; s3; negb s4; negb s5])).
Definition activate_requires_pending_state : prog bool :=
  seed_user (fun user_id =>
  _ <-+ upsert_pending user_id "fake-ct" ;;
  _ <-+ totp_activate user_id "fake-ct" 7 ;;
  found <-+ UserTotp_get user_id ;;
  _ <-+ totp_activate user_id "fake-ct" 100 ;;
  again <-+ UserTotp_get user_id ;;
  Ret (asserts [activated found; eql (found ≫= ut_last_used_step) (Some 7);
                eql (again ≫= ut_last_used_step) (Some 7)])).
Definition is_activated_for_ignores_pending : prog bool :=
  seed_user (fun user_id =>
  before <-+ is_activated_for user_id ;;
  _ <-+ upsert_pending user_id "ct" ;;
  pending <-+ is_activated_for user_id ;;
  _ <-+ totp_activate user_id "ct" 1 ;;
  active <-+ is_activated_for user_id ;;
  Ret (asserts [negb before; negb pending; active])).
Definition recovery_codes_single_use : prog bool :=
  seed_user (fun user_id =>
  _ <-+ codes_of user_id ["ABCDE-FGHIJ"; "KLMNO-PQRST"] ;;
  c1 <-+ consume_code user_id "ABCDE-FGHIJ" ;;
  c2 <-+ consume_code user_id "ABCDE-FGHIJ" ;;
  c3 <-+ consume_code user_id "klmno pqrst" ;;
  c4 <-+ consume_code user_id "ZZZZZ-ZZZZZ" ;;
  Ret (asserts [c1; negb c2; c3; negb c4])).
Definition delete_removes_totp_and_codes : prog bool :=
  seed_user (fun user_id =>
  _ <-+ upsert_pending user_id "ct" ;;
  _ <-+ totp_activate user_id "ct" 1 ;;
  _ <-+ codes_of user_id ["ABCDE-FGHIJ"] ;;
  deleted <-+ totp_delete user_id ;;
  found <-+ UserTotp_get user_id ;;
  consumed <-+ consume_code user_id "ABCDE-FGHIJ" ;;
  Ret (asserts [deleted; is_none found; negb consumed])).
Definition upsert_pending_wipes_old_recovery_codes : prog bool :=
  seed_user (fun user_id =>
  _ <-+ upsert_pending user_id "ct1" ;;
  _ <-+ codes_of user_id ["ABCDE-FGHIJ"] ;;
  _ <-+ upsert_pending user_id "ct2" ;;
  consumed <-+ consume_code user_id "ABCDE-FGHIJ" ;;
  Ret (negb consumed)).
Definition secret_encrypt_decrypt_roundtrip : prog bool :=
  let plaintext := "supersecretseed1234567890" in
  blob <-+ encrypt_secret plaintext ;;
  blob2 <-+ encrypt_secret plaintext ;;
  Ret (asserts [negb (eql blob blob2); eql (decrypt_secret blob) (Ok plaintext)]).

Lemma totp_tests_pass : asserts ([
  base32_rfc4648_test_vectors; hotp_rfc4226_vectors; totp_rfc6238_vector_sha1;
  verify_accepts_current_step; verify_accepts_previous_step_drift; verify_accepts_next_step_drift;
  verify_rejects_far_past_or_future; verify_blocks_replay_at_or_before_last_used_step;
  verify_rejects_malformed_input; otpauth_uri_has_required_parameters;
  recovery_code_canonicalization_is_consistent] ++ map passes [
  secret_generation_has_expected_entropy; recovery_codes_are_unique_and_formatted;
  upsert_pending_replaces_previous_state; enrollment_cannot_replace_an_active_factor_or_its_recovery_codes;
  activation_requires_the_secret_that_was_verified; step_claim_is_atomic_and_bound_to_the_active_secret;
  activate_requires_pending_state; is_activated_for_ignores_pending; recovery_codes_single_use;
  delete_removes_totp_and_codes; upsert_pending_wipes_old_recovery_codes;
  secret_encrypt_decrypt_roundtrip]) = true.
Proof. vm_compute. reflexivity. Qed.
End TotpTests.

(** ** [app_passwords.rs] *)
Module AppPasswordTests.
Definition validate_name_accepts_reasonable_names : bool :=
  asserts (map (fun s => is_ok (AppPasswords.validate_name s)) ["Jellyfin"; "x"; repeated "a" AppPasswords.MAX_NAME_LEN]).
Definition validate_name_rejects_empty_or_too_long : bool :=
  asserts (map (fun s => is_err (AppPasswords.validate_name s))
    [""; "   "; repeated "a" (AppPasswords.MAX_NAME_LEN + 1)]).
Fixpoint passwords (n : nat) : prog (list string) :=
  match n with
  | O => Ret []
  | S n' => pw <~ generate_password ;; rest <~ passwords n' ;; Ret (match pw with Some p => p :: rest | None => rest end)
  end.
Definition generate_password_has_correct_length_and_charset : prog bool :=
  l <~ passwords 20 ;;
  Ret (asserts [eql (length l) 20%nat;
                forallb (fun pw => eql (String.length pw) PASSWORD_LEN
                                   && all_bytes (fun c => contains_byte c CHARSET) pw) l]).
Definition generate_password_is_not_deterministic : prog bool :=
  l <~ passwords 50 ;; Ret (40 <? length (remove_dups l))%nat.

(** [INSERT INTO users (id, username, name, email) ..] *)
Definition insert_user (username name : string) (k : Uuid -> prog bool) : prog bool :=
  id <~ new_uuid ;;
  _ <-+ exec (fun d => (tt, with_users (fun t => (t ++ [{|
    u_row := {| u_id := id; u_username := username; u_name := name; u_email := None; u_active := true;
                u_created_at := epoch; u_updated_at := epoch |}; u_token_version := 0 |}])%list) d)) ;;
  k id.
Definition created (user_id : Uuid) (name : string) (k : AppPassword -> string -> prog bool) : prog bool :=
  r <~ create user_id name ;;
  match r with Some (Ok (record, cleartext)) => k record cleartext | _ => Ret false end.

Definition create_list_delete_roundtrip : prog bool :=
  insert_user "alice" "Alice" (fun user_id =>
  created user_id "Jellyfin" (fun record cleartext =>
  listed <-+ list_for_user user_id ;;
  deleted <-+ delete_for_user (app_id record) user_id ;;
  after <-+ list_for_user user_id ;;
  Ret (asserts [eql (String.length cleartext) PASSWORD_LEN; eql (app_name record) "Jellyfin";
                eql (map app_id listed) [app_id record]; deleted; eql (length after) 0%nat]))).
Definition verify_matches_correct_password_only : prog bool :=
  insert_user "alice" "Alice" (fun user_id =>
  created user_id "Jellyfin" (fun record cleartext =>
  matched <-+ verify_for_user user_id cleartext ;;
  not_matched <-+ verify_for_user user_id "wrong-password" ;;
  Ret (asserts [eql matched (Some (app_id record)); eql not_matched None]))).
Definition verify_picks_correct_entry_when_user_has_multiple : prog bool :=
  insert_user "alice" "Alice" (fun user_id =>
  created user_id "Jellyfin" (fun _ pw_a =>
  created user_id "Sonarr" (fun b pw_b =>
  matched <-+ verify_for_user user_id pw_b ;;
  matched_a <-+ verify_for_user user_id pw_a ;;
  Ret (asserts [eql matched (Some (app_id b)); is_some matched_a])))).
Definition verify_updates_last_used_at : prog bool :=
  insert_user "alice" "Alice" (fun user_id =>
  created user_id "Jellyfin" (fun record cleartext =>
  _ <-+ verify_for_user user_id cleartext ;;
  listed <-+ list_for_user user_id ;;
  Ret (asserts [is_none (app_last_used_at record);
                is_some (head listed ≫= app_last_used_at)]))).
Definition delete_is_scoped_to_user : prog bool :=
  insert_user "alice" "Alice" (fun user_a =>
  insert_user "bob" "Bob" (fun user_b =>
  created user_a "A" (fun record _ =>
  deleted <-+ delete_for_user (app_id record) user_b ;;
  listed <-+ list_for_user user_a ;;
  Ret (asserts [negb deleted; eql (length listed) 1%nat])))).

Lemma app_password_tests_pass : asserts ([
  validate_name_accepts_reasonable_names; validate_name_rejects_empty_or_too_long] ++ map passes [
  generate_password_has_correct_length_and_charset; generate_password_is_not_deterministic;
  create_list_delete_roundtrip; verify_matches_correct_password_only;
  verify_picks_correct_entry_when_user_has_multiple; verify_updates_last_used_at;
  delete_is_scoped_to_user]) = true.
Proof. vm_compute. reflexivity. Qed.
End AppPasswordTests.

(** ** [user/auth/token.rs] *)
Module TokenTests.
Definition key_bytes : string := of_byte_list (repeat 42%N 32).
Definition kek : string := of_byte_list (repeat 99%N 32).
Definition wrong_kek : string := of_byte_list (repeat 1%N 32).
Definition key_encrypt_decrypt_roundtrip : prog bool :=
  enc <-+ encrypt_private_key key_bytes kek ;;
  Ret (eql (decrypt_private_key enc.1 enc.2 kek) (Ok key_bytes)).
Definition decrypt_with_wrong_kek_fails : prog bool :=
  enc <-+ encrypt_private_key key_bytes kek ;;
  Ret (is_err (decrypt_private_key enc.1 enc.2 wrong_kek)).
Definition encrypt_produces_different_ciphertexts : prog bool :=
  c1 <-+ encrypt_private_key key_bytes kek ;;
  c2 <-+ encrypt_private_key key_bytes kek ;;
  Ret (negb (eql c1.1 c2.1)).
Definition hash_token_deterministic : bool := eql (hash_token "test-token") (hash_token "test-token").
Definition hash_token_different_inputs : bool := negb (eql (hash_token "token-a") (hash_token "token-b")).
Definition hash_token_is_hex_sha256 : bool :=
  let h := hash_token "hello" in asserts [eql (String.length h) 64%nat; all_bytes is_ascii_hexdigit h].
(** The tests below hash whole tokens; a hash that is cheap to evaluate will do. *)
#[local] Existing Instance hex_hashing.
Definition generate_access_token_different_each_time : prog bool :=
  key <~ generate_key ;;
  uid <~ new_uuid ;;
  t1 <-+ generate_access_token uid [] key ;;
  t2 <-+ generate_access_token uid [] key ;;
  Ret (negb (eql t1 t2)).

(** A saved user and a signing key. *)
Definition with_user (username name : string) (k : User -> SigningKey -> prog bool) : prog bool :=
  saved username name (fun user => key <~ generate_key ;; k user key).

Definition verify_access_token_accepts_active_user : prog bool :=
  with_user "a" "Alice" (fun user key =>
  token <-+ generate_access_token (u_id user) ["user"] key ;;
  claims <-+ verify_access_token token key ;;
  Ret (eql (sub claims) (uuid_to_string (u_id user)))).
Definition verify_access_token_rejects_inactive_user : prog bool :=
  with_user "a" "Alice" (fun user key =>
  token <-+ generate_access_token (u_id user) ["user"] key ;;
  _ <-+ User_set_active user false ;;
  r <~ verify_access_token token key ;;
  Ret (match r with Err AuthenticationRequired => true | _ => false end)).
Definition token_pair_reflects_configured_session_expiry : prog bool :=
  with_user "expiry-user" "Expiry" (fun user key =>
  _ <-+ set_setting KEY_SESSION_EXPIRY_SECONDS "3600" ;;
  pair <-+ generate_token_pair (u_id user) [] key ;;
  Ret (asserts [eql (refresh_expires_in pair) 3600; eql (expires_in pair) ACCESS_TOKEN_LIFETIME])).
Definition refresh_token_expiry_honors_lifetime_arg : prog bool :=
  with_user "rt-user" "Refresh" (fun user key =>
  _ <-+ generate_refresh_token (u_id user) 600 key ;;
  found <-+ query (fun d => fetch (fun r => beq (rt_user_id r) (u_id user)) (refresh_tokens d)) ;;
  row <-= found ;;
  Ret (eql (rt_expires_at row - rt_created_at row)%Z 600)).
Definition short_session_caps_access_and_refresh_at_the_same_deadline : prog bool :=
  with_user "short-session" "Short" (fun user key =>
  _ <-+ set_setting KEY_SESSION_EXPIRY_SECONDS "300" ;;
  pair <-+ generate_token_pair (u_id user) [] key ;;
  claims <-+ verify_access_token (access_token pair) key ;;
  consumed <-+ consume_refresh_token (refresh_token pair) key ;;
  Ret (asserts [(expires_in pair <=? 300)%Z; eql (expires_in pair) (refresh_expires_in pair);
                eql (Some (exp claims)) (session_exp claims); eql (exp claims) (exp consumed.2)])).
Definition refresh_preserves_deadline_even_when_setting_increases : prog bool :=
  with_user "absolute-session" "Absolute" (fun user key =>
  t <~ now ;;
  let deadline := (t + 120)%Z in
  let auth := (t - 100)%Z in
  pair <-+ generate_token_pair_for_session (u_id user) [] deadline (Some 0) auth key ;;
  _ <-+ set_setting KEY_SESSION_EXPIRY_SECONDS "31536000" ;;
  rotated <-+ rotate_token_pair (refresh_token pair) key ;;
  claims <-+ verify_access_token (access_token rotated) key ;;
  consumed <-+ consume_refresh_token (refresh_token rotated) key ;;
  Ret (asserts [eql (exp claims) deadline; eql (session_exp claims) (Some deadline);
                eql (auth_time claims) (Some auth); eql (exp consumed.2) deadline])).

(** The two requests of [tokio::join!], and what follows on one connection. *)
Definition joined (a b : prog (result AppError TokenPair)) (schedule : list nat) (w : World)
    : option (result AppError TokenPair * result AppError TokenPair) * World :=
  match pool_run schedule ([a; b], w) with
  | ([Ret x; Ret y], w') => (Some (x, y), w')
  | (_, w') => (None, w')
  end.
Definition both (a b : prog (result AppError TokenPair)) (schedule : list nat)
    (k : result AppError TokenPair -> result AppError TokenPair -> prog bool) : prog bool :=
  r <~ Atom (joined a b schedule) Ret ;;
  match r with Some (x, y) => k x y | None => Ret false end.
Definition browser_refreshes (schedule : list nat) : prog bool :=
  with_user "browser-retries" "Browser" (fun user key =>
  pair <-+ generate_token_pair (u_id user) [] key ;;
  let refresh := rotate_browser_token_pair (refresh_token pair) key in
  both refresh refresh schedule (fun r1 r2 =>
  first <-= ok r1 ;;
  second <-= ok r2 ;;
  _ <-+ verify_access_token (access_token first) key ;;
  let mine := fun r => beq (rt_token_hash r) (hash_token (refresh_token pair)) in
  row <-+ query (fun d => fetch mine (refresh_tokens d)) ;;
  encrypted <-= row ≫= rt_browser_retry_pair ;;
  t <~ now ;;
  _ <-+ exec (fun d => (tt, with_refresh_tokens
         (update mine (fun r => set_retry (Some (t - 1)) (rt_browser_retry_pair r) r)) d)) ;;
  late <~ rotate_browser_token_pair (refresh_token pair) key ;;
  after <~ verify_access_token (access_token first) key ;;
  Ret (asserts [eql (access_token first) (access_token second);
                eql (refresh_token first) (refresh_token second);
                negb (contains (refresh_token first) encrypted); is_err late; is_err after]))).
(** The schedules: one after the other, in turns, and the other way round. *)
Definition concurrent_browser_refreshes_return_one_replacement_and_late_replay_revokes_it : list (prog bool) :=
  map browser_refreshes [[0; 0; 0; 0; 1; 1; 1; 1]; [0; 1; 0; 1; 0; 1; 0; 1]; [1; 1; 1; 1; 0; 0; 0; 0]]%nat.

Definition browser_retry_cannot_survive_logout_or_extend_the_session : prog bool :=
  with_user "retry-logout" "Retry" (fun user key =>
  t <~ now ;;
  let deadline := (t + 120)%Z in
  pair <-+ generate_token_pair_for_session (u_id user) [] deadline (Some 0) t key ;;
  rotated <-+ rotate_browser_token_pair (refresh_token pair) key ;;
  claims <-+ verify_access_token (access_token rotated) key ;;
  _ <-+ revoke_user_access_tokens (u_id user) ;;
  r <~ rotate_browser_token_pair (refresh_token pair) key ;;
  Ret (asserts [eql (exp claims) deadline; is_err r])).
Definition delayed_browser_retry_returns_the_latest_active_refresh_credential : prog bool :=
  with_user "retry-chain" "Chain" (fun user key =>
  original <-+ generate_token_pair (u_id user) [] key ;;
  first <-+ rotate_browser_token_pair (refresh_token original) key ;;
  latest <-+ rotate_browser_token_pair (refresh_token first) key ;;
  delayed <-+ rotate_browser_token_pair (refresh_token original) key ;;
  next <~ rotate_browser_token_pair (refresh_token delayed) key ;;
  Ret (asserts [negb (eql (refresh_token first) (refresh_token latest));
                eql (refresh_token delayed) (refresh_token latest);
                eql (access_token delayed) (access_token latest); is_ok next])).
Definition logout_revokes_refresh_and_access_but_allows_immediate_new_login : prog bool :=
  with_user "relogin" "Relogin" (fun user key =>
  old <-+ generate_token_pair (u_id user) [] key ;;
  _ <-+ revoke_user_access_tokens (u_id user) ;;
  r1 <~ verify_access_token (access_token old) key ;;
  r2 <~ rotate_token_pair (refresh_token old) key ;;
  fresh <-+ generate_token_pair (u_id user) [] key ;;
  r3 <~ verify_access_token (access_token fresh) key ;;
  r4 <~ rotate_token_pair (refresh_token fresh) key ;;
  Ret (asserts [is_err r1; is_err r2; is_ok r3; is_ok r4])).
Definition inactive_users_cannot_refresh_and_replay_revokes_rotated_credentials : prog bool :=
  with_user "inactive-refresh" "Inactive" (fun user key =>
  old <-+ generate_token_pair (u_id user) [] key ;;
  off <-+ User_set_active user false ;;
  r1 <~ rotate_token_pair (refresh_token old) key ;;
  _ <-+ User_set_active off.2 true ;;
  fresh <-+ rotate_token_pair (refresh_token old) key ;;
  r2 <~ rotate_token_pair (refresh_token old) key ;;
  r3 <~ verify_access_token (access_token fresh) key ;;
  r4 <~ rotate_token_pair (refresh_token fresh) key ;;
  Ret (asserts [is_err r1; is_err r2; is_err r3; is_err r4])).
Definition access_verification_reads_current_roles_and_rejects_exact_expiry : prog bool :=
  with_user "current-roles" "Roles" (fun user key =>
  stale <-+ generate_access_token (u_id user) ["admin"] key ;;
  verified <-+ verify_access_token stale key ;;
  t <~ now ;;
  expired <-+ generate_access_token_for_session (u_id user) [] t (Some 0) t key ;;
  r <~ verify_access_token expired key ;;
  Ret (asserts [eql (claim_roles verified) []; is_err r])).
Definition verify_access_token_rejects_unknown_user : prog bool :=
  key <~ generate_key ;;
  ghost_id <~ new_uuid ;;
  token <-+ generate_access_token ghost_id [] key ;;
  r <~ verify_access_token token key ;;
  Ret (match r with Err AuthenticationRequired => true | _ => false end).

Lemma token_tests_pass : asserts ([
  hash_token_deterministic; hash_token_different_inputs; hash_token_is_hex_sha256] ++ map passes ([
  key_encrypt_decrypt_roundtrip; decrypt_with_wrong_kek_fails; encrypt_produces_different_ciphertexts;
  generate_access_token_different_each_time; verify_access_token_accepts_active_user;
  verify_access_token_rejects_inactive_user; token_pair_reflects_configured_session_expiry;
  refresh_token_expiry_honors_lifetime_arg; short_session_caps_access_and_refresh_at_the_same_deadline;
  refresh_preserves_deadline_even_when_setting_increases;
  browser_retry_cannot_survive_logout_or_extend_the_session;
  delayed_browser_retry_returns_the_latest_active_refresh_credential;
  logout_revokes_refresh_and_access_but_allows_immediate_new_login;
  inactive_users_cannot_refresh_and_replay_revokes_rotated_credentials;
  access_verification_reads_current_roles_and_rejects_exact_expiry;
  verify_access_token_rejects_unknown_user] ++
  concurrent_browser_refreshes_return_one_replacement_and_late_replay_revokes_it)) = true.
Proof. vm_compute. reflexivity. Qed.
End TokenTests.

(** ** [oidc/codes.rs] *)
Module CodeTests.
Definition VERIFIER : string := "dBjftJeZ4CVP-mB92K27uhbUJU1p1r_wW1gFWFOEjXk".
Definition CHALLENGE : string := "E9Melhoa2OwvFrEMTJguCHaoeK1t8URWbuGJSstw-cM".
Definition callback : string := "https://app.example.com/cb".
Definition seed (k : Uuid -> Uuid -> prog bool) : prog bool :=
  saved "a" "Alice" (fun user =>
  made <~ Application_new_oidc {|
    cai_name := "RP"; cai_slug := "rp"; cai_app_type := Some Oidc; cai_host_pattern := None;
    cai_path_prefix := None; cai_required_roles := None; cai_enabled := Some true;
    cai_oidc_redirect_uris := Some [callback]; cai_oidc_post_logout_redirect_uris := None;
    cai_oidc_confidential := Some true |} ;;
  _ <-+ Application_save made.1 ;;
  k (u_id user) (a_id made.1)).

Definition issue_and_consume_roundtrip : prog bool :=
  seed (fun user_id app_id =>
  issued <-+ issue app_id user_id callback "openid profile" (Some "nonce-xyz") CHALLENGE "S256" 1700000000 None None ;;
  found <-+ consume issued app_id callback VERIFIER ;;
  consumed <-= found ;;
  Ret (asserts [eql (cc_application_id consumed) app_id; eql (cc_user_id consumed) user_id;
                eql (cc_redirect_uri consumed) callback; eql (cc_scope consumed) "openid profile";
                eql (cc_nonce consumed) (Some "nonce-xyz")])).
Definition consume_rejects_replay : prog bool :=
  seed (fun user_id app_id =>
  issued <-+ issue app_id user_id callback "openid" None CHALLENGE "S256" 0 None None ;;
  first <-+ consume issued app_id callback VERIFIER ;;
  second <-+ consume issued app_id callback VERIFIER ;;
  Ret (asserts [is_some first; is_none second])).
Definition consume_rejects_unknown : prog bool :=
  id <~ new_uuid ;;
  r <-+ consume "nope" id callback VERIFIER ;;
  Ret (is_none r).
Definition invalid_bindings_do_not_consume_code : prog bool :=
  seed (fun user_id app_id =>
  issued <-+ issue app_id user_id callback "openid" None CHALLENGE "S256" 0 (Some 0) None ;;
  other <~ new_uuid ;;
  r1 <-+ consume issued other callback VERIFIER ;;
  r2 <-+ consume issued app_id "https://app.example.com/other" VERIFIER ;;
  r3 <-+ consume issued app_id callback (repeated "A" 43) ;;
  r4 <-+ consume issued app_id callback VERIFIER ;;
  Ret (asserts [is_none r1; is_none r2; is_none r3; is_some r4])).
Definition code_cannot_outlive_its_session : prog bool :=
  seed (fun user_id app_id =>
  t <~ now ;;
  issued <-+ issue app_id user_id callback "openid" None CHALLENGE "S256" 0 (Some 0) (Some (t - 1)%Z) ;;
  r <-+ consume issued app_id callback VERIFIER ;;
  Ret (is_none r)).
Definition pkce_s256_roundtrip : bool := verify_pkce_s256 VERIFIER CHALLENGE.
Definition pkce_s256_rejects_wrong_challenge : bool := negb (verify_pkce_s256 VERIFIER "wrong").
Definition pkce_rejects_short_verifier : bool := negb (verify_pkce_s256 "too-short" "anything").
Definition pkce_rejects_long_verifier : bool := negb (verify_pkce_s256 (repeated "a" 129) "anything").
Definition pkce_rejects_invalid_chars : bool := negb (verify_pkce_s256 (repeated "a" 43 ++ "!") "whatever").
Definition hash_code_deterministic : bool :=
  asserts [eql (hash_code "abc") (hash_code "abc"); negb (eql (hash_code "abc") (hash_code "abd"))].

Lemma code_tests_pass : asserts ([
  pkce_s256_roundtrip; pkce_s256_rejects_wrong_challenge; pkce_rejects_short_verifier;
  pkce_rejects_long_verifier; pkce_rejects_invalid_chars; hash_code_deterministic] ++ map passes [
  issue_and_consume_roundtrip; consume_rejects_replay; consume_rejects_unknown;
  invalid_bindings_do_not_consume_code; code_cannot_outlive_its_session]) = true.
Proof. vm_compute. reflexivity. Qed.
End CodeTests.

(** ** [oidc/token.rs], [oidc/jwks.rs] *)
Module OidcTokenTests.
Definition token_user : User := {|
  u_id := 7%N; u_username := "alice"; u_name := "Alice"; u_email := Some "alice@example.com"; u_active := true;
  u_created_at := 1700000000; u_updated_at := 1700000100 |}.
Definition built (roles scope : list string) (nonce : option string) : IdTokenClaims :=
  build_id_token_claims "iss" "cli" token_user roles scope nonce 0 0.

Definition parse_scope_splits_and_dedups : bool :=
  eql (parse_scope "openid profile openid   email") ["openid"; "profile"; "email"].
Definition parse_scope_empty : bool := asserts [eql (parse_scope "") []; eql (parse_scope "   ") []].
Definition scope_contains_works : bool :=
  let scope := ["openid"; "profile"] in
  asserts [scope_contains scope "openid"; scope_contains scope "profile"; negb (scope_contains scope "email")].
Definition id_token_claims_include_only_requested_scopes : bool :=
  let claims := build_id_token_claims "https://authere" "client-123" token_user ["admin"] ["openid"] None
                  1700000200 1700000300 in
  asserts [eql (id_sub claims) (uuid_to_string (u_id token_user)); eql (id_aud claims) "client-123";
           eql (id_iss claims) "https://authere"; is_none (id_name claims); is_none (id_email claims);
           is_none (id_roles claims)].
Definition id_token_claims_populate_profile_scope : bool :=
  let claims := built [] ["openid"; "profile"] None in
  asserts [eql (id_name claims) (Some "Alice"); eql (id_preferred_username claims) (Some "alice");
           eql (id_updated_at claims) (Some 1700000100)].
Definition id_token_claims_populate_email_scope : bool :=
  eql (id_email (built [] ["openid"; "email"] None)) (Some "alice@example.com").
Definition id_token_claims_populate_roles_scope : bool :=
  eql (id_roles (built ["admin"; "user"] ["openid"; "roles"] None)) (Some ["admin"; "user"]).
Definition id_token_claims_echo_nonce : bool :=
  eql (id_nonce (built [] ["openid"] (Some "n-0S6_WzA2Mj"))) (Some "n-0S6_WzA2Mj").

Definition forbids (r : result AppError OidcAccessClaims) : bool :=
  match r with Err AuthenticationRequired => true | _ => false end.
Definition access_token_roundtrip : prog bool :=
  sk <~ generate_key ;;
  uid <~ new_uuid ;;
  token <-+ generate_oidc_access_token "https://authere" uid "client-abc" ["openid"; "profile"] sk "kid" (Some 0) None ;;
  claims <-+ verify_oidc_access_token token "https://authere" sk ;;
  Ret (asserts [eql (oa_sub claims) (uuid_to_string uid); eql (oa_aud claims) "client-abc";
                eql (oa_scope claims) "openid profile"; eql (oa_typ claims) "oidc_access"]).
Definition access_token_rejects_wrong_issuer : prog bool :=
  sk <~ generate_key ;;
  uid <~ new_uuid ;;
  token <-+ generate_oidc_access_token "https://authere" uid "cli" ["openid"] sk "kid" None None ;;
  r <~ verify_oidc_access_token token "https://other" sk ;;
  Ret (forbids r).
Definition access_token_rejects_wrong_key : prog bool :=
  sk <~ generate_key ;;
  uid <~ new_uuid ;;
  token <-+ generate_oidc_access_token "iss" uid "cli" ["openid"] sk "kid" None None ;;
  other <~ generate_key ;;
  r <~ verify_oidc_access_token token "iss" other ;;
  Ret (forbids r).
Definition access_token_typ_is_enforced : prog bool :=
  sk <~ generate_key ;;
  t <~ now ;;
  uid <~ new_uuid ;;
  jti <~ new_uuid ;;
  let claims := {| oa_iss := "iss"; oa_sub := uuid_to_string uid; oa_aud := "cli"; oa_exp := t + 3600;
                   oa_iat := t; oa_jti := uuid_to_string jti; oa_scope := "openid"; oa_typ := "access";
                   oa_session_version := None |}%Z in
  key <-+ Ret (encoding_key sk) ;;
  token <-+ Ret (jwt_encode (Some "kid") claims key) ;;
  r <~ verify_oidc_access_token token "iss" sk ;;
  Ret (forbids r).
Definition minted (sk : SigningKey) (deadline : Z) (k : string -> prog bool) : prog bool :=
  uid <~ new_uuid ;;
  token <-+ generate_oidc_access_token "iss" uid "cli" ["openid"] sk "kid" (Some 3) (Some deadline) ;;
  k token.
Definition access_token_cannot_outlive_parent_session : prog bool :=
  sk <~ generate_key ;;
  t <~ now ;;
  minted sk (t + 30) (fun token =>
  claims <-+ verify_oidc_access_token token "iss" sk ;;
  minted sk (t - 1) (fun expired =>
  r1 <~ verify_oidc_access_token expired "iss" sk ;;
  minted sk t (fun at_deadline =>
  r2 <~ verify_oidc_access_token at_deadline "iss" sk ;;
  Ret (asserts [eql (oa_exp claims) (t + 30)%Z; eql (oa_session_version claims) (Some 3); is_err r1; is_err r2])))).

Definition build_jwks_has_single_key_with_expected_fields : prog bool :=
  sk <~ generate_key ;;
  Ret match build_jwks sk "kid-42" with
      | [k] => asserts [
          eql (jwk_kty k) "OKP"; eql (jwk_crv k) "Ed25519"; eql (jwk_alg k) "EdDSA"; eql (jwk_use k) "sig";
          eql (jwk_kid k) "kid-42"; eql (String.length (jwk_x k)) 43%nat;
          negb (contains "=" (jwk_x k)); negb (contains "+" (jwk_x k)); negb (contains "/" (jwk_x k))]
      | _ => false
      end.
Definition build_jwks_encodes_correct_public_key : prog bool :=
  sk <~ generate_key ;;
  Ret (eql (map (fun k => base64url_decode (jwk_x k)) (build_jwks sk "kid")) [Some (verifying_key sk)]).

Lemma oidc_token_tests_pass : asserts ([
  parse_scope_splits_and_dedups; parse_scope_empty; scope_contains_works;
  id_token_claims_include_only_requested_scopes; id_token_claims_populate_profile_scope;
  id_token_claims_populate_email_scope; id_token_claims_populate_roles_scope;
  id_token_claims_echo_nonce] ++ map passes [
  access_token_roundtrip; access_token_rejects_wrong_issuer; access_token_rejects_wrong_key;
  access_token_typ_is_enforced; access_token_cannot_outlive_parent_session;
  build_jwks_has_single_key_with_expected_fields; build_jwks_encodes_correct_public_key]) = true.
Proof. vm_compute. reflexivity. Qed.
End OidcTokenTests.

(** ** [audit.rs] *)
Module AuditTests.
Definition at_address (ip : IpAddr) (address agent : option string) : AuditContext :=
  {| ctx_ip := ip; ctx_ip_address := address; ctx_user_agent := agent |}.
Definition ip_of (s : string) : IpAddr := match parse_ip_addr s with Some a => a | None => V6 0 end.

Definition test_event_type_as_str : bool :=
  eql (map as_str [LoginSuccess; LoginFailed; Logout; TokenRefresh; UserCreated; AppPasswordCreated;
                   ApplicationDeleted; RoleCreated; SystemRestarted])
      ["login_success"; "login_failed"; "logout"; "token_refresh"; "user_created"; "app_password_created";
       "application_deleted"; "role_created"; "system_restarted"].
Definition all_list_covers_every_variant : bool :=
  asserts (map (fun variant => eql (AuditLog.from_str (as_str variant)) (Some variant)) ALL).
Definition from_str_unknown_returns_none : bool :=
  asserts [is_none (AuditLog.from_str "not_a_real_event"); is_none (AuditLog.from_str "")].
Definition builder_applies_ctx_ip_and_user_agent : bool :=
  let entry := in_ctx (at_address (ip_of "10.0.0.5") (Some "10.0.0.5") (Some "Mozilla/5.0")) (audit LoginSuccess) in
  asserts [eql (en_ip_address entry) (Some "10.0.0.5"); eql (en_user_agent entry) (Some "Mozilla/5.0")].
Definition builder_ctx_without_user_agent_leaves_field_empty : bool :=
  let entry := in_ctx (at_address (ip_of "127.0.0.1") (Some "127.0.0.1") None) (audit Logout) in
  asserts [eql (en_ip_address entry) (Some "127.0.0.1"); is_none (en_user_agent entry)].
Definition builder_ctx_without_peer_ip_records_no_ip : bool :=
  is_none (en_ip_address (in_ctx (at_address (V4 0) None None) (audit SystemRestarted))).
Definition actor_accepts_option_none : bool := is_none (en_actor_id (by_actor None (audit UserCreated))).
Definition actor_accepts_option_some : bool :=
  eql (en_actor_id (by_actor (Some 7%N) (audit UserCreated))) (Some 7%N).
Definition actor_accepts_raw_uuid : bool :=
  eql (en_actor_id (by_actor (Some 7%N) (audit AdminUpdateUser))) (Some 7%N).
Definition test_entry_builder_defaults : bool :=
  let entry := audit Logout in
  asserts [eql (en_event_type entry) Logout; is_none (en_user_id entry); is_none (en_actor_id entry);
           is_none (en_ip_address entry); is_none (en_user_agent entry); is_none (en_details entry)].
Definition test_entry_builder_chaining : bool :=
  let entry := from_ip "10.0.0.1" (by_user 7 (audit LoginSuccess)) in
  asserts [eql (en_user_id entry) (Some 7%N); eql (en_ip_address entry) (Some "10.0.0.1");
           is_none (en_actor_id entry)].
Definition test_extract_client_ip_no_proxies : bool :=
  let peer := ip_of "192.168.1.100" in eql (extract_client_ip (Some "10.0.0.1") peer) peer.

Lemma audit_tests_pass : asserts [
  test_event_type_as_str; all_list_covers_every_variant; from_str_unknown_returns_none;
  builder_applies_ctx_ip_and_user_agent; builder_ctx_without_user_agent_leaves_field_empty;
  builder_ctx_without_peer_ip_records_no_ip; actor_accepts_option_none; actor_accepts_option_some;
  actor_accepts_raw_uuid; test_entry_builder_defaults; test_entry_builder_chaining;
  test_extract_client_ip_no_proxies] = true.
Proof. vm_compute. reflexivity. Qed.
End AuditTests.

(** ** [handlers/admin.rs] *)
Module ExportTests.
Definition rec (details user_agent : option string) : AuditLogRecord := {|
  rec_row := {| al_id := nil_uuid; al_timestamp := 1700000000; al_event_type := "login_success";
                al_user_id := Some nil_uuid; al_actor_id := None; al_ip_address := Some "127.0.0.1";
                al_user_agent := user_agent; al_details := details |};
  rec_username := Some "alice"; rec_actor_username := None |}.
(** Text with a newline for every underscore. *)
Definition nl (s : string) : string := replace_byte "_" (String newline "") s.
Definition count_byte (c : ascii) (s : string) : nat := (length (split_byte c s) - 1)%nat.

Definition parse_event_types_handles_absent : bool :=
  asserts (map (fun s => is_none (parse_event_types s)) [None; Some ""; Some ",,,"]).
Definition parse_event_types_returns_known_variants : bool :=
  eql (parse_event_types (Some "login_success,login_failed")) (Some [LoginSuccess; LoginFailed]).
Definition parse_event_types_skips_unknown_names : bool :=
  eql (parse_event_types (Some "login_success,not_a_thing,logout")) (Some [LoginSuccess; Logout]).
Definition parse_event_types_trims_whitespace : bool :=
  is_some_and (parse_event_types (Some " login_success , logout ")) (fun got => eql (length got) 2%nat).
Definition parse_event_types_all_unknown_returns_none : bool :=
  is_none (parse_event_types (Some "gibberish,more_gibberish")).
Definition csv_field_quotes_values_containing_commas : bool := eql (csv_field "a,b") (dq "^a,b^").
Definition csv_field_quotes_values_containing_newlines : bool :=
  let crlf := "line1" ++ String "013" (nl "_line2") in
  asserts [eql (csv_field (nl "line1_line2")) (dq (nl "^line1_line2^")); eql (csv_field crlf) (dq "^" ++ crlf ++ dq "^")].
Definition csv_field_escapes_embedded_quotes : bool :=
  eql (csv_field (dq "she said ^hi^")) (dq "^she said ^^hi^^^").
Definition csv_field_leaves_plain_values_unquoted : bool :=
  asserts [eql (csv_field "plain") "plain"; eql (csv_field "") ""].
Definition csv_field_neutralizes_spreadsheet_formulas_in_untrusted_audit_text : bool :=
  asserts (map (fun value => let encoded := csv_field value in
                  starts_with "'" encoded || starts_with (dq "^'") encoded)
             ["=1+1"; "+123"; "-123"; "@SUM(1)"; "  =1+1"; String "009" "=1+1"; String "013" "=1+1"; nl "_=1+1"]
           ++ [eql (csv_field "Mozilla/5.0") "Mozilla/5.0"]).
Definition records_to_csv_has_header_row : bool :=
  starts_with ("id,timestamp,event_type,user_id,username,actor_id,actor_username,ip_address,user_agent,details"
               ++ String newline "") (records_to_csv []).
Definition records_to_csv_emits_one_line_per_record : bool :=
  let out := records_to_csv [rec None (Some "curl"); rec None (Some "vitest")] in
  asserts [eql (count_byte newline out) 3%nat; contains "curl" out; contains "vitest" out].
Definition records_to_csv_quotes_details_with_commas : bool :=
  contains (dq "^{^^a^^:1,^^b^^:2}^") (records_to_csv [rec (Some (dq "{^a^:1,^b^:2}")) None]).
Definition export_filename_has_correct_extension : prog bool :=
  json <~ export_filename FormatJson ;;
  csv <~ export_filename FormatCsv ;;
  Ret (asserts [ends_with ".json" json; ends_with ".csv" csv; starts_with "authere-audit-" json]).

Lemma export_tests_pass : asserts ([
  parse_event_types_handles_absent; parse_event_types_returns_known_variants;
  parse_event_types_skips_unknown_names; parse_event_types_trims_whitespace;
  parse_event_types_all_unknown_returns_none; csv_field_quotes_values_containing_commas;
  csv_field_quotes_values_containing_newlines; csv_field_escapes_embedded_quotes;
  csv_field_leaves_plain_values_unquoted;
  csv_field_neutralizes_spreadsheet_formulas_in_untrusted_audit_text; records_to_csv_has_header_row;
  records_to_csv_emits_one_line_per_record; records_to_csv_quotes_details_with_commas] ++
  map passes [export_filename_has_correct_extension]) = true.
Proof. vm_compute. reflexivity. Qed.
End ExportTests.

(** ** [handlers/oauth.rs] *)
Module OAuthTests.
Definition basic (credentials : string) : list (string * string) :=
  [("authorization", "Basic " ++ base64_padded credentials)].

Definition append_query_with_no_existing_params : bool :=
  eql (append_query "https://app.example/cb" [("code", "abc"); ("state", "xyz")])
      "https://app.example/cb?code=abc&state=xyz".
Definition append_query_preserves_existing_params : bool :=
  eql (append_query "https://app.example/cb?foo=bar" [("code", "abc")]) "https://app.example/cb?foo=bar&code=abc".
Definition append_query_url_encodes_values : bool :=
  ends_with "state=a%20b%2Fc%3Fd" (append_query "https://app.example/cb" [("state", "a b/c?d")]).
Definition parse_basic_auth_extracts_credentials : bool :=
  eql (parse_basic_auth (basic "myclient:s3cret")) (Some ("myclient", "s3cret")).
Definition parse_basic_auth_returns_none_when_missing : bool := is_none (parse_basic_auth []).
Definition parse_basic_auth_returns_none_for_non_basic_scheme : bool :=
  is_none (parse_basic_auth [("authorization", "Bearer xyz")]).
Definition parse_basic_auth_rejects_invalid_base64 : bool :=
  is_none (parse_basic_auth [("authorization", "Basic !!!not-base64!!!")]).
Definition parse_basic_auth_urldecodes_values : bool :=
  eql (parse_basic_auth (basic "client%20id:pa%21ss")) (Some ("client id", "pa!ss")).
Definition oauth_error_token_status_invalid_client_is_401 : bool := eql (token_endpoint_status InvalidClient) 401.
Definition oauth_error_token_status_other_is_400 : bool :=
  asserts [eql (token_endpoint_status UnsupportedGrantType) 400; eql (token_endpoint_status (InvalidGrant "x")) 400].
Definition oauth_error_codes_are_standard : bool :=
  eql (map error_code [InvalidRequest "x"; InvalidClient; InvalidGrant "x"; UnauthorizedClient;
                       UnsupportedResponseType; UnsupportedGrantType; InvalidScope; AccessDenied; ServerError])
      ["invalid_request"; "invalid_client"; "invalid_grant"; "unauthorized_client";
       "unsupported_response_type"; "unsupported_grant_type"; "invalid_scope"; "access_denied"; "server_error"].
Definition discovery_document_has_required_fields : bool :=
  let d := build_discovery "https://authere.example" in
  asserts [eql (issuer d) "https://authere.example";
           eql (authorization_endpoint d) "https://authere.example/oauth/authorize";
           eql (token_endpoint d) "https://authere.example/oauth/token";
           eql (userinfo_endpoint d) "https://authere.example/oauth/userinfo";
           eql (end_session_endpoint d) "https://authere.example/oauth/end_session";
           eql (jwks_uri d) "https://authere.example/.well-known/jwks.json";
           existsb (eql "code") (response_types_supported d); existsb (eql "openid") (scopes_supported d);
           existsb (eql "EdDSA") (id_token_signing_alg_values_supported d);
           existsb (eql "S256") (code_challenge_methods_supported d)].
Definition extract_session_cookie_picks_correct_cookie : bool :=
  eql (cookie_value [("cookie", "foo=1; __Host-authere_token=the-token; bar=2")] AUTH_COOKIE_NAME) (Some "the-token").
Definition extract_session_cookie_returns_none_without_cookie : bool := is_none (cookie_value [] AUTH_COOKIE_NAME).
(** The variable parts of the page. *)
Definition signed_out (app_name : option string) : string :=
  ProxyTests.page (build_signed_out_html "https://authere.example" app_name).
Definition signed_out_html_contains_brand_and_sign_in_link : bool :=
  let body := signed_out (Some "Production Dashboard") in
  asserts [contains "Production Dashboard" body; contains "https://authere.example/login" body].
Definition signed_out_html_omits_app_block_when_unknown : bool :=
  let body := signed_out None in
  asserts [negb (contains (dq "class=^details^") body); contains "Your session has ended." body].
Definition signed_out_html_escapes_app_name : bool :=
  let body := signed_out (Some "<evil> & co") in
  asserts [contains "&lt;evil&gt; &amp; co" body; negb (contains "<evil>" body)].
Definition signed_out_html_treats_empty_app_name_as_missing : bool :=
  negb (contains (dq "class=^details^") (signed_out (Some ""))).

Lemma oauth_tests_pass : asserts [
  append_query_with_no_existing_params; append_query_preserves_existing_params;
  append_query_url_encodes_values; parse_basic_auth_extracts_credentials;
  parse_basic_auth_returns_none_when_missing; parse_basic_auth_returns_none_for_non_basic_scheme;
  parse_basic_auth_rejects_invalid_base64; parse_basic_auth_urldecodes_values;
  oauth_error_token_status_invalid_client_is_401; oauth_error_token_status_other_is_400;
  oauth_error_codes_are_standard; discovery_document_has_required_fields;
  extract_session_cookie_picks_correct_cookie; extract_session_cookie_returns_none_without_cookie;
  signed_out_html_contains_brand_and_sign_in_link; signed_out_html_omits_app_block_when_unknown;
  signed_out_html_escapes_app_name; signed_out_html_treats_empty_app_name_as_missing] = true.
Proof. vm_compute. reflexivity. Qed.
End OAuthTests.
